(* ===== verification/_CoqProject ===== *)
-Q . S2P
Prelude.v
GoPath.v
GoNet.v
GoJson.v
GoURL.v
GoConv.v
GoBinary.v
IpmiCode.v
DcpCommon.v
DcpUri.v
Operation.v
Client.v
Stage.v
Host.v
HostQueue.v
Loopback.v
ProvTypes.v
Provisioning.v
Effects.v
Tasks.v
HostServices.v
Godcp.v
Ssh.v
Filecache.v
BootImage.v
BootConfig.v
Adapter.v
Docker.v
EsxApi.v
EsxCloud.v
SlingTypes.v
Lease.v
Tftp.v
TftpPacket.v
TftpServer.v
TftpTransfer.v
TftpTable.v
IpmiCommand.v
IpmiMessage.v
IpmiLan.v
IpmiTool.v
IpmiClient.v
IpmiSim.v
IpmiBmc.v
Image.v
Binding.v
ImageServer.v
DhcpOption.v
DhcpPacket.v
DhcpServer.v
DhcpSpec.v
PxeOptions.v
Txn.v
DhcpWire.v
BootFlow.v
DhcpService.v
