(* ===== verification/Prelude.v ===== *)
(** * The bare-metal adapters of Photon Controller

    This library models the Go program under
    src/go/bmp-adapters/src/main/go/src: [slingshot], a DHCP and image server
    that boots machines, and [dcp], the service host its adapters run in, with
    the part of the vendored [godhcpv4] that the DHCP server relies on, and the
    vendored [gotftpd] and [goipmi].  (Paths below are relative to that
    directory; the vendored libraries are in ../_vendor/src/rfc-impl.vmware.com.)

    ** How the program works

    A client that boots sends DHCP packets.  [godhcpv4] reads a packet and hands
    it to [slingshot/dhcp], which keeps one goroutine for each transaction.  The
    goroutine ([slingshot]) asks a lease manager ([slingshot/lease]) for the
    client's configuration and lease, which come from a store reached over HTTP
    ([slingshot/bmp], [bmp/provisioning]), fetches a boot image
    ([dcp/provisioning/image], [dcp/filecache]), binds it to the lease
    ([slingshot/image]), and answers with the lease and the name of a boot file,
    which TFTP and HTTP servers then hand out.

    The services of [dcp/host] are HTTP resources: a request becomes an
    operation ([dcp/operation]), is dispatched to the service bound to its path,
    and waits while the service starts.  Services talk to each other through
    [dcp/client], and describe machines, disks and tasks with the documents of
    [dcp/provisioning].

    [goipmi] is the library with which a machine's management controller is
    told to switch power and to boot from another device: a client that opens an
    authenticated session over UDP, or runs ipmitool, and a simulator of a
    controller.

    ** Files

    Ground:
    - Prelude: errors, results, panics, bytes, strings, record update.
    - GoPath, GoNet, GoURL, GoJson, GoConv: what the program uses of [path],
      [strings], [net], [net/url], [encoding/json], [encoding/base64],
      [strconv] and of conversions of floats.  GoBinary: layouts of structures
      ([encoding/binary]), MD5, Adler-32, [encoding/hex].

    The service host:
    - DcpCommon: [dcp/common], [dcp/errors].  DcpUri: [dcp/uri].
    - Operation: [dcp/operation]; message bodies range over a universe of Go
      types (class [GoTypes], with [Embeds] for a type that is in it).
    - Client: [dcp/client], over a network (class [Network]).
    - Stage, Host: [dcp/host], over its environment (class [Env]).  In Host a start
      that nothing interferes with is one function, and so is a request whose
      service is available ([Host.ServeHTTP] is [None] for one that has to wait).
      HostQueue: the goroutines of starts, of requests and of POSTs to
      factories, and their timers, interleaved as a step relation; the requests
      that wait are its queue.
    - Loopback: the client of the first part on the host of the second, over any
      network that does not break ([Loopback.unbroken]).

    Provisioning:
    - ProvTypes: the documents of [dcp/provisioning] with their JSON forms.
    - Provisioning: its operations, and the tasks that requests report to
      (class [TaskBacking]).
    - Effects: the sequencing of fallible calls on a world, with what holds
      after each of them ([safe]).  Tasks: the protocol between an adapter and
      its task, on the log of a network (classes [Task], [Reporter]).
    - HostServices: the services built into the host.  Godcp: the command that
      starts a host with all services.
    - Filecache: [dcp/filecache], over a machine whose calls may fail (class
      [Machine]).  BootImage: [dcp/provisioning/image/helpers.go].  BootConfig:
      the boot configuration service, over a file system of its own.
    - Ssh: [dcp/provisioning/ssh], over an SSH library (class [SshLib]).
      Adapter: what the adapters share.  Docker: [dcp/provisioning/docker],
      [dcp/provisioning/kubernetes].  EsxApi, EsxCloud:
      [dcp/provisioning/esxcloud], over the network and an SDK (class [EsxLib]).

    The IPMI library:
    - IpmiCode: completion codes, which are errors of the whole library.
      IpmiCommand: requests and responses, with how their data are written and
      read (classes [Marshal], [Unmarshal], [Codec], [Fixed]).  IpmiMessage:
      datagrams, with their checksums.
    - IpmiLan: a session over UDP (class [Socket]).  IpmiTool: the program
      ipmitool (class [Exec]).  IpmiClient: the client, over either of them
      (class [Transport]).
    - IpmiSim: the simulator.  IpmiBmc: a client and the simulator, end to end.

    The DHCP and image server:
    - SlingTypes: [slingshot/types].
    - Lease: [bmp/provisioning/lease.go], [slingshot/bmp], [slingshot/lease];
      the class [Store] is what managers ask of a store, with the remote store
      and the in-memory one as instances.
    - Tftp: [slingshot/image/tftp].  TftpPacket, TftpServer, TftpTable: [gotftpd],
      its packets, a request for a file over the events of a session, and the
      clients with their goroutines as a step relation.  TftpTransfer: what a
      client of the protocol gets from the server.  Image: [slingshot/image], over templates
      and archives (class [Images]).  ImageServer: [slingshot/image/http],
      [slingshot/image/server.go].
    - DhcpOption, DhcpPacket: [godhcpv4].  PxeOptions: [slingshot/pxe],
      [slingshot/ipxe].
    - DhcpServer: [slingshot/dhcp/server.go], as a step relation.  DhcpSpec:
      what it promises, a mailbox for each transaction, and the simulation.
    - Txn: [slingshot/txnstate.go], [slingshot/server.go].  DhcpService:
      [bmp/provisioning/dhcp], the service that runs it.
    - The parts together.  Binding: what clients are given of the images that are
      bound to them, while others bind, purge and read.  DhcpWire: the reply
      of a transaction as its client reads it from the datagram.  BootFlow: from the
      reply that names a boot file to the file that the client gets over TFTP.

    ** Conventions

    A function that returns a value and an error returns a [res], or a pair with
    an [option error] when the value is meaningful all the same.  A function that
    may panic returns an [outcome].  State is passed explicitly, and what lies
    outside of the program (the network, the file system, clocks, servers) is a
    type parameter with the operations of a class.  Slices of bytes are lists;
    JSON texts are kept parsed ([json]); a [float64] is a [spec_float].  Integers
    are [Z], with their ranges stated where the code depends on them.

    Goroutines: the DHCP dispatcher interleaves its packet loop with its workers
    in [DhcpServer.step], the TFTP server its own with its clients in
    [TftpTable.step], the service host its starts with its requests in
    [HostQueue.cstep]; requests that are sent at once take effect in an order
    that is a parameter, and joins receive results in another ([Provisioning]);
    operations and stages are described by arbitrary sequences of calls.

    Fuel: [Client.send_loop] gets one round more than the retries that remain,
    which [Client.Send_returns] shows to be enough; [DhcpOption.deser] gets the
    length of its input and one; [Sha256.words], [Sha256.blocks] and [Md5.chunks] the
    length of theirs.  [EsxApi.wait_loop] polls without a bound, as the code does: its
    number says how far the polls are followed, and a task that is still running
    then gives no result; [EsxApi.waitForTask_spec] says for every number which it
    is.  Options of a TFTP
    packet are read with the length of the packet, a file is sent with its
    length and one ([TftpServer.ReadAtLeast_spec] shows that blocks are consumed);
    a TFTP session is still waiting when its list of events is over.

    ** What the theorems show

    - DHCP: the server refines a mailbox for each transaction; transactions and
      goroutines agree in every reachable state, only
      DISCOVER packets make transactions, live ones receive what is theirs;
      every reply passes the sender's checks and leaves as one datagram, what it
      tells the client, and that a transaction acquires one lease and binds at
      most one image; packets and options survive the trip over the wire, and
      so does a whole reply, within the size of a datagram.
    - Booting: a client that is told a boot file gets over TFTP the loader or
      the script of the archive that was downloaded for it, whatever other clients do,
      as long as that file stays as it is.  In general, what it is given is a template as it was
      at some moment since the archive was bound, or a file as it is now.
    - Operations: completed once, joins return with what the Go documentation
      promises (and block outside of it), sending ends within its retries,
      limits are kept.
    - The host: dispatch, starting of services, the answers of its HTTP front end;
      stage barriers; the command starts all of its services.  A client's operation
      calls the handler of the service it is sent to, once, unless its timer is
      first.  Under every interleaving each service is at the stage of its start, no
      request is lost or is handled twice or before its service is available, one that
      waits can be served, and one whose service failed to start is answered by
      its timer.
    - Provisioning: disks are read and ordered whatever the schedule, failures are
      recorded and reported, what children inherit, posts of what exists.
    - Adapters: an SSH command, a container request or a request for an instance
      on ESX Cloud is acknowledged, then its
      task hears that the work started and that it failed or finished, never both,
      each once, or up to three times when the connection breaks; connecting and running with retries; the last line of an output;
      waiting for a task of ESX Cloud goes on as long as it is STARTED; the disks that are
      asked for.
    - TFTP: a client has a prefix of the file whatever the network does, and all
      of it when it answers and its request is read in time; a silent one does not keep its request; the limits of
      negotiated options, what is refused, the order of datagrams, packets over
      the wire.
    - Files: the boot configuration service leaves no file behind, and its
      archive holds its entries; a download is atomic under any failure; which paths TFTP opens; a
      bound image is served under its lease; muxers, overlays, template caches.
    - IPMI: a client sets the boot device of the simulator, end to end; packets
      carry the authentication code their reader computes; the dialogue about a
      boot device over any transport; the life of a session; messages over the
      wire, damage to them is detected, which of them crash their reader.
    - Values: round trips of JSON forms, paths of URIs, hardware addresses.

    Some theorems prove a flaw: [Tftp.open_escape], [Operation.JoinN_blocks],
    [Host.ServeHTTP_not_found], [Txn.Sling_Run_spec], [DhcpPacket.reply_addr_spec],
    [EsxCloud.enumeration_never_finishes], [EsxCloud.GetInstance_crashes],
    [TftpServer.first_read_race], [TftpServer.truncated_file],
    [IpmiMessage.messageFromBytes_panics], [IpmiSim.ipmiCommand_crashes],
    [IpmiBmc.reply_is_not_matched], [HostQueue.failed_start_times_out].

    ** What is not modelled

    Logging; the parsing of flags; vendored libraries other than [godhcpv4],
    [gotftpd] and [goipmi] (among them the generated Google API clients, which no
    file of the program calls; they make up most of the lines of Go); the consoles of [goipmi], which copy a terminal; letter case outside of ASCII; the text of templates; connections of the image servers
    below the request.  The package [bmp/provisioning/esx] has no code: all of
    its lines are commented out.  What a goroutine of the ESX Cloud client does
    after its context is done is not followed, nor the SDK that attaches images.
*)

From stdpp Require Export base tactics numbers strings pretty list gmap sorting.
From Stdlib Require Export Init.Byte.
From Stdlib Require Import NArith ZArith Lia.
From Stdlib Require Ascii String.

#[global] Set Default Goal Selector "!".

(** ** Errors

    The sentinel error values the code compares with [==], and the two
    families of errors that are only ever printed. *)
#[global] Instance byte_eq_dec : EqDecision byte := Byte.byte_eq_dec.

Inductive error :=
  | ErrNotExist | ErrExist | ErrPermission | ErrInvalid            (* package os *)
  | EOF | ErrUnexpectedEOF                                         (* package io *)
  | ErrShortPacket | ErrInvalidPacket                              (* godhcpv4/packet.go *)
  | ErrNoPXEClient | ErrNoIPXEClient | ErrNoOption175              (* slingshot/pxe, ipxe *)
  | ErrInvalidPath | ErrPathExists | ErrNoPath                     (* slingshot/image/tftp/muxer.go *)
  | ErrNoImage                                                     (* slingshot/image/handler.go *)
  | ErrBodyNotSet | ErrBodyIncompatibleType                        (* dcp/operation/state.go *)
  | ErrStageBackwards                                              (* dcp/host/stage.go *)
  | ErrTimeout | errOpcode | errMode                               (* gotftpd/handler.go, gotftpd/packet.go *)
  | ErrUnsupportedDiskType | ErrUnsupportedRequestType             (* dcp/provisioning *)
  | MethodNotAllowed (Allowed : list string)                       (* dcp/errors *)
  | Completion (code : byte)                                       (* goipmi/completion_code.go *)
  | DeadlineExceeded                                               (* golang.org/x/net/context *)
  | NetError (msg : string)                                        (* *url.Error wrapping *net.OpError *)
  | Errorf (msg : string).                                         (* errors.New, fmt.Errorf *)

#[global] Instance error_eq_dec : EqDecision error.
Proof. solve_decision. Defined.

(** ** Results

    A Go function returning [(v, err)] where [v] is meaningless when [err] is
    not nil. *)
Inductive res (A : Type) :=
  | Ok (a : A)
  | Err (e : error).
Arguments Ok {A} a.
Arguments Err {A} e.

#[global] Instance res_eq_dec `{EqDecision A} : EqDecision (res A).
Proof. solve_decision. Defined.

Definition res_bind {A B} (r : res A) (f : A → res B) : res B :=
  match r with Ok a => f a | Err e => Err e end.

Definition res_map {A B} (f : A → B) (r : res A) : res B :=
  match r with Ok a => Ok (f a) | Err e => Err e end.

Declare Scope go_scope.
Delimit Scope go_scope with go.
Open Scope go_scope.

Notation "x ':=?' r ';;' k" := (res_bind r (λ x, k))
  (at level 100, r at next level, k at level 200, right associativity) : go_scope.

Lemma res_bind_Ok {A B} (r : res A) (f : A → res B) b :
  res_bind r f = Ok b → ∃ a, r = Ok a ∧ f a = Ok b.
Proof. destruct r; naive_solver. Qed.

Lemma res_bind_Err {A B} (r : res A) (f : A → res B) e :
  res_bind r f = Err e → r = Err e ∨ ∃ a, r = Ok a ∧ f a = Err e.
Proof. destruct r; naive_solver. Qed.

(** ** Bytes *)
Abbreviation bytes := (list byte).

#[global] Instance byte_countable : Countable byte :=
  inj_countable Byte.to_N Byte.of_N Byte.of_to_N.

Definition b2z (b : byte) : Z := Z.of_N (Byte.to_N b).
(** [byte(z)]: conversion to an 8-bit unsigned integer wraps around. *)
Definition z2b (z : Z) : byte :=
  match Byte.of_N (Z.to_N (z mod 256)) with Some b => b | None => x00 end.

Lemma b2z_range b : (0 ≤ b2z b < 256)%Z.
Proof. unfold b2z. pose proof (Byte.to_N_bounded b). lia. Qed.

Lemma z2b_b2z b : z2b (b2z b) = b.
Proof.
  unfold z2b, b2z. pose proof (Byte.to_N_bounded b) as Hb.
  rewrite Z.mod_small by lia. rewrite N2Z.id, Byte.of_to_N. done.
Qed.

Lemma b2z_z2b z : b2z (z2b z) = (z mod 256)%Z.
Proof.
  unfold z2b. pose proof (Z.mod_pos_bound z 256 ltac:(lia)) as Hz.
  destruct (Byte.of_N (Z.to_N (z mod 256))) as [b|] eqn:E.
  - apply Byte.to_of_N in E. unfold b2z. rewrite E. lia.
  - apply Byte.of_N_None_iff in E. lia.
Qed.

#[global] Instance b2z_inj : Inj (=) (=) b2z.
Proof. intros a b H. rewrite <-(z2b_b2z a), <-(z2b_b2z b). by rewrite H. Qed.

(** A property of a byte holds when it holds at each of the 256 values. *)
Definition all_bytes : list byte := z2b <$> seqZ 0 256.

Lemma elem_of_all_bytes b : b ∈ all_bytes.
Proof.
  apply list_elem_of_fmap. exists (b2z b). split; [by rewrite z2b_b2z|].
  apply elem_of_seqZ. pose proof (b2z_range b). lia.
Qed.

Lemma byte_ind_256 (P : byte → bool) :
  forallb P all_bytes = true → ∀ b, P b = true.
Proof.
  intros H b. rewrite forallb_forall in H. apply H.
  apply list_elem_of_In, elem_of_all_bytes.
Qed.

(** [binary.BigEndian]: an n-byte unsigned integer, most significant first. *)
Fixpoint be_put (n : nat) (z : Z) : bytes :=
  match n with
  | O => []
  | S n => be_put n (z / 256) ++ [z2b z]
  end.

Definition be_get (bs : bytes) : Z :=
  foldl (λ acc b, acc * 256 + b2z b)%Z 0%Z bs.

Lemma length_be_put n z : length (be_put n z) = n.
Proof.
  revert z. induction n as [|n IH]; intros z; [done|].
  simpl. rewrite length_app, IH. simpl. lia.
Qed.

Lemma be_get_app l b : be_get (l ++ [b]) = (be_get l * 256 + b2z b)%Z.
Proof. unfold be_get. by rewrite foldl_app. Qed.

Lemma be_get_put n z : be_get (be_put n z) = (z mod 256 ^ Z.of_nat n)%Z.
Proof.
  revert z. induction n as [|n IH]; intros z; [by rewrite Z.mod_1_r|].
  simpl be_put. rewrite be_get_app, IH, b2z_z2b.
  replace (Z.of_nat (S n)) with (1 + Z.of_nat n)%Z by lia.
  rewrite Z.pow_add_r, Z.pow_1_r by lia.
  rewrite Z.rem_mul_r by (try lia; apply Z.pow_pos_nonneg; lia). lia.
Qed.

#[global] Instance be_put_inj n : Inj (λ a b, a mod 256 ^ Z.of_nat n = b mod 256 ^ Z.of_nat n)%Z (=) (be_put n).
Proof. intros a b H. by rewrite <-!be_get_put, H. Qed.

Lemma be_put_get n bs : length bs = n → be_put n (be_get bs) = bs.
Proof.
  revert bs. induction n as [|n IH]; intros bs Hlen.
  { by destruct bs. }
  destruct bs as [|b bs' _] using rev_ind; [done|].
  rewrite length_app in Hlen. simpl in *.
  rewrite be_get_app. pose proof (b2z_range b).
  rewrite Z.div_add_l, (Z.div_small (b2z b)), Z.add_0_r by lia.
  rewrite IH by lia. do 2 f_equal.
  rewrite <-(z2b_b2z b) at 2. unfold z2b at 1 2.
  rewrite Z.add_comm, Z_mod_plus_full. done.
Qed.

Lemma be_get_range bs : (0 ≤ be_get bs < 256 ^ Z.of_nat (length bs))%Z.
Proof.
  rewrite <-(be_put_get (length bs) bs eq_refl) at 1 2. rewrite be_get_put.
  apply Z.mod_pos_bound, Z.pow_pos_nonneg; lia.
Qed.

(** ** Strings

    A Go string is a sequence of bytes; [s2b] and [b2s] are the conversions
    [[]byte(s)] and [string(b)]. *)
Definition s2b (s : string) : bytes := String.list_byte_of_string s.
Definition b2s (b : bytes) : string := String.string_of_list_byte b.

Lemma b2s_s2b s : b2s (s2b s) = s.
Proof. apply String.string_of_list_byte_of_string. Qed.
Lemma s2b_b2s b : s2b (b2s b) = b.
Proof. apply String.list_byte_of_string_of_list_byte. Qed.

#[global] Instance s2b_inj : Inj (=) (=) s2b.
Proof. intros a b H. by rewrite <-(b2s_s2b a), <-(b2s_s2b b), H. Qed.
#[global] Instance b2s_inj : Inj (=) (=) b2s.
Proof. intros a b H. by rewrite <-(s2b_b2s a), <-(s2b_b2s b), H. Qed.

Lemma s2b_app s t : s2b (s +:+ t) = s2b s ++ s2b t.
Proof.
  induction s as [|c s IH]; [done|].
  change (s2b (String c s +:+ t)) with (Ascii.byte_of_ascii c :: s2b (s +:+ t)).
  by rewrite IH.
Qed.

Lemma s2b_length s : length (s2b s) = String.length s.
Proof. induction s as [|c s IH]; [done|]. simpl. by f_equal. Qed.

#[global] Instance string_app_assoc : Assoc (=) String.app.
Proof. intros a b c. apply (inj s2b). by rewrite !s2b_app, app_assoc. Qed.

#[global] Instance string_app_inj_l s : Inj (=) (=) (String.app s).
Proof.
  intros a b H. apply (f_equal s2b) in H. rewrite !s2b_app in H.
  by apply app_inv_head, (inj s2b) in H.
Qed.

(** ** Printing

    [%d], and the two-digit lower-case hexadecimal of a byte that [%02x] of a
    [uint8] and [%x] of a byte slice print. *)
Definition fmt_d (z : Z) : string := pretty z.

Definition hex_digit (z : Z) : byte :=
  if decide (z < 10)%Z then z2b (48 + z) else z2b (87 + z).
Definition hex_byte (b : byte) : bytes :=
  [hex_digit (b2z b / 16); hex_digit (b2z b mod 16)].
Fixpoint fmt_x (bs : bytes) : bytes :=
  match bs with [] => [] | b :: bs => hex_byte b ++ fmt_x bs end.

Definition hex_val (c : byte) : option Z :=
  let z := b2z c in
  if decide (48 ≤ z ≤ 57)%Z then Some (z - 48)%Z
  else if decide (97 ≤ z ≤ 102)%Z then Some (z - 87)%Z
  else if decide (65 ≤ z ≤ 70)%Z then Some (z - 55)%Z
  else None.

(** Decoding of two hexadecimal digits, used to show that printing is
    injective and by the parsers of hardware addresses. *)
Definition unhex_byte (h l : byte) : option byte :=
  hi ← hex_val h; lo ← hex_val l; Some (z2b (hi * 16 + lo)).

Lemma unhex_hex_byte b :
  match hex_byte b with [h; l] => unhex_byte h l = Some b | _ => False end.
Proof.
  set (P := λ b, match hex_byte b with
    | [h; l] => match unhex_byte h l with Some b' => Byte.eqb b' b | None => false end
    | _ => false end).
  assert (P b = true) as H by (apply (byte_ind_256 P); vm_compute; reflexivity).
  unfold P in H. simpl in *. destruct (unhex_byte _ _) as [b'|]; [|done].
  by rewrite (Byte.byte_dec_bl _ _ H).
Qed.

#[global] Instance hex_byte_inj : Inj (=) (=) hex_byte.
Proof.
  intros a b H. pose proof (unhex_hex_byte a) as Ha. pose proof (unhex_hex_byte b) as Hb.
  rewrite H in Ha. unfold hex_byte in *. congruence.
Qed.

Lemma length_fmt_x bs : length (fmt_x bs) = 2 * length bs.
Proof. induction bs as [|b bs IH]; [done|]. cbn [fmt_x]. rewrite length_app, IH. simpl. lia. Qed.

#[global] Instance fmt_x_inj : Inj (=) (=) fmt_x.
Proof.
  intros a. induction a as [|x a IH]; intros [|y b]; try done.
  cbn [fmt_x]. intros H. apply app_inj_1 in H as [->%(inj hex_byte) H]; [|done].
  f_equal. by apply IH.
Qed.

(** A hexadecimal string holds no separator. *)
Definition is_hex_digit (c : byte) : bool := bool_decide (is_Some (hex_val c)).

Lemma hex_byte_digits b : forallb is_hex_digit (hex_byte b) = true.
Proof.
  revert b. apply (byte_ind_256 (λ b, forallb is_hex_digit (hex_byte b))).
  vm_compute. reflexivity.
Qed.

Lemma fmt_x_digits bs : Forall (λ c, is_hex_digit c = true) (fmt_x bs).
Proof.
  induction bs as [|b bs IH]; [constructor|]. cbn [fmt_x].
  apply Forall_app. split; [|done].
  apply List.Forall_forall. intros c Hc. pose proof (hex_byte_digits b) as H.
  rewrite forallb_forall in H. by apply H.
Qed.

(** ** Run-time panics

    Outcome of a call that may panic (index out of range, nil dereference):
    the panic is a result of its own, never an error value. *)
Inductive outcome (A : Type) :=
  | Ret (a : A)
  | Panic.
Arguments Ret {A} a.
Arguments Panic {A}.

#[global] Instance outcome_eq_dec `{EqDecision A} : EqDecision (outcome A).
Proof. solve_decision. Defined.

Definition out_bind {A B} (r : outcome A) (f : A → outcome B) : outcome B :=
  match r with Ret a => f a | Panic => Panic end.

(** ** Slices

    [copy(dst[off:off+n], src)]: overwrites the common prefix of the window
    and the source. *)
Definition splice (off n : nat) (src dst : bytes) : bytes :=
  take off dst ++ take n src ++ drop (off + min n (length src)) dst.

Lemma length_splice off n src dst :
  off + n ≤ length dst → length (splice off n src dst) = length dst.
Proof. intros H. unfold splice. rewrite !length_app, !length_take, length_drop. lia. Qed.

Lemma splice_take off n src dst m : m ≤ off → off + n ≤ length dst →
  take m (splice off n src dst) = take m dst.
Proof.
  intros Hm H. unfold splice. rewrite take_app_le by (rewrite length_take; lia).
  rewrite take_take. f_equal. lia.
Qed.

Lemma splice_drop off n src dst m : off + n ≤ m → m ≤ length dst →
  drop m (splice off n src dst) = drop m dst.
Proof.
  intros Hm H. unfold splice. rewrite app_assoc, drop_app.
  rewrite length_app, !length_take.
  rewrite drop_ge by (rewrite length_app, !length_take; lia).
  rewrite drop_drop. cbn [app]. f_equal. lia.
Qed.

Lemma splice_window off n src dst : off + n ≤ length dst → length src ≤ n →
  take (length src) (drop off (splice off n src dst)) = src.
Proof.
  intros H Hs. unfold splice. rewrite drop_app_le by (rewrite length_take; lia).
  rewrite drop_ge by (rewrite length_take; lia). cbn [app].
  rewrite (take_ge src) by lia. by rewrite take_app_length.
Qed.

(** The window that was written: the source, then what was there. *)
Lemma splice_at off n src dst : off + n ≤ length dst → length src ≤ n →
  drop off (splice off n src dst) = src ++ drop (off + length src) dst.
Proof.
  intros H Hs. unfold splice. rewrite drop_app_le by (rewrite length_take; lia).
  rewrite drop_ge by (rewrite length_take; lia). cbn [app].
  rewrite (take_ge src), Nat.min_r by lia. done.
Qed.

(** ** Assignment to a field of a struct

    [r <| f := v |>] is [r] after [r.f = v].  A record declares its list of
    fields as an instance of [Eta]; the update is found from it. *)
Class Eta (R : Type) := eta : R → R.
Class Update {R B : Type} (f : R → B) := upd : B → R → R.
Arguments upd {R B} f {_} v r /.

Ltac find_update :=
  lazymatch goal with
  | |- @Update ?R ?B ?f =>
      let i := constr:(_ : Eta R) in
      let e := eval hnf in i in
      lazymatch (eval pattern f in e) with
      | ?g _ => let t := eval cbv beta in (λ (v : B) (r : R), g (λ _, v) r) in exact t
      end
  end.
#[export] Hint Extern 0 (Update _) => find_update : typeclass_instances.
Notation "r <| f := v |>" := (upd f v r) (at level 1, left associativity, format "r  <| f  :=  v |>").
