(* ===== verification/GoPath.v ===== *)
(** * Packages strings, path and path/filepath of the standard library

    The string operations the program uses ([strings.Split]-like splitting,
    [strings.Join], [strings.HasPrefix], [strings.HasSuffix],
    [strings.TrimSuffix], [strings.Index], [strings.TrimSpace]) and the lexical
    path operations [path.Clean], [path.Join], [path.Base] and [filepath.Ext],
    on the bytes of a Go string. *)

From S2P Require Import Prelude.

Section split_join.
Context (sep : byte).

Fixpoint split (s : bytes) : list bytes :=
  match s with
  | [] => [[]]
  | c :: s =>
      if decide (c = sep) then [] :: split s
      else match split s with h :: t => (c :: h) :: t | [] => [[c]] end
  end.

Fixpoint join (l : list bytes) : bytes :=
  match l with
  | [] => []
  | [x] => x
  | x :: l => x ++ sep :: join l
  end.

Lemma split_nonempty s : split s ≠ [].
Proof. destruct s as [|c s]; simpl; [done|]. case_decide; [done|]. by destruct (split s). Qed.

Lemma split_app a b : split (a ++ sep :: b) = split a ++ split b.
Proof.
  induction a as [|c a IH]; simpl.
  { by rewrite decide_True. }
  case_decide; [by rewrite IH|]. rewrite IH.
  destruct (split a) eqn:E; [by apply split_nonempty in E|done].
Qed.

Lemma split_no_sep s : Forall (λ x, sep ∉ x) (split s).
Proof.
  induction s as [|c s IH]; simpl; [by repeat constructor; inversion 1|].
  case_decide; [constructor; [inversion 1|done]|].
  destruct (split s) as [|h t]; [by repeat constructor; set_solver|].
  apply Forall_cons in IH as [Hh Ht]. constructor; [set_solver|done].
Qed.

Lemma split_id s : sep ∉ s → split s = [s].
Proof.
  induction s as [|c s IH]; [done|]. intros H. simpl. rewrite decide_False by set_solver.
  by rewrite IH by set_solver.
Qed.

Lemma join_cons x l : l ≠ [] → join (x :: l) = x ++ sep :: join l.
Proof. by destruct l. Qed.

Lemma split_join l : l ≠ [] → Forall (λ x, sep ∉ x) l → split (join l) = l.
Proof.
  induction l as [|x l IH]; [done|]. intros _ [Hx Hl]%Forall_cons.
  destruct (decide (l = [])) as [->|Hne]; [by apply split_id|].
  rewrite join_cons, split_app, IH, split_id by done. done.
Qed.

Lemma join_split s : join (split s) = s.
Proof.
  induction s as [|c s IH]; [done|]. simpl.
  pose proof (split_nonempty s) as Hne. destruct (split s) as [|h t] eqn:E; [done|].
  case_decide as Hc.
  - rewrite join_cons by done. by rewrite IH, Hc.
  - destruct t; simpl in *; by rewrite IH.
Qed.

Lemma join_app a b : a ≠ [] → b ≠ [] → join (a ++ b) = join a ++ sep :: join b.
Proof.
  induction a as [|x a IH]; [done|]. intros _ Hb.
  destruct (decide (a = [])) as [->|Hne].
  { by rewrite <-join_cons. }
  change ((x :: a) ++ b) with (x :: (a ++ b)).
  rewrite (join_cons x (a ++ b)), (join_cons x a), IH by (destruct a; done).
  by rewrite <-app_assoc.
Qed.

End split_join.

(** [strings.HasPrefix], [strings.HasSuffix], [strings.TrimSuffix]. *)
Definition HasPrefix (s p : bytes) : bool := bool_decide (take (length p) s = p).
Definition HasSuffix (s p : bytes) : bool :=
  bool_decide (length p ≤ length s ∧ drop (length s - length p) s = p).
Definition TrimSuffix (s p : bytes) : bytes :=
  if HasSuffix s p then take (length s - length p) s else s.

(** [strings.Contains], and [strings.Replace] of one character, everywhere. *)
Fixpoint Contains (s sub : bytes) : bool :=
  HasPrefix s sub || match s with [] => false | _ :: s => Contains s sub end.
Definition ReplaceAll (c : byte) (new : bytes) (s : bytes) : bytes :=
  concat ((λ x, if decide (x = c) then new else [x]) <$> s).

Lemma HasPrefix_spec s p : HasPrefix s p = true ↔ p `prefix_of` s.
Proof.
  unfold HasPrefix. rewrite bool_decide_eq_true. split.
  - intros H. exists (drop (length p) s). by rewrite <-H at 1; rewrite take_drop.
  - intros [k ->]. by rewrite take_app_length.
Qed.

(** [strings.Index(s, c)] for a one-byte needle: the text before and from the
    first occurrence. *)
Fixpoint index_split (c : byte) (s : bytes) : option (bytes * bytes) :=
  match s with
  | [] => None
  | b :: s' =>
      if decide (b = c) then Some ([], s)
      else match index_split c s' with Some (l, r) => Some (b :: l, r) | None => None end
  end.

Lemma index_split_Some c s l r :
  index_split c s = Some (l, r) → s = l ++ r ∧ c ∉ l ∧ head r = Some c.
Proof.
  revert l r. induction s as [|b s IH]; intros l r; [done|]. simpl.
  case_decide as Hb.
  - intros [= <- <-]. split; [done|]. split; [inversion 1|by subst].
  - destruct (index_split c s) as [[l' r']|]; [|done]. intros [= <- <-].
    destruct (IH _ _ eq_refl) as (-> & Hl & Hr). split; [done|]. split; [set_solver|done].
Qed.

Lemma index_split_None c s : index_split c s = None ↔ c ∉ s.
Proof.
  induction s as [|b s IH]; simpl; [split; [inversion 2|done]|].
  case_decide; [split; [done|set_solver]|].
  destruct (index_split c s) as [[??]|]; set_solver.
Qed.

Lemma index_split_at c l r : c ∉ l → index_split c (l ++ c :: r) = Some (l, c :: r).
Proof.
  induction l as [| x l IH]; intros Hl; simpl.
  - rewrite decide_True by done. done.
  - rewrite decide_False by set_solver. rewrite IH by set_solver. done.
Qed.

(** [strings.TrimSpace], ASCII white space. *)
Definition is_space (b : byte) : bool :=
  bool_decide (b ∈ [x09; x0a; x0b; x0c; x0d; x20]).
Fixpoint trim_left (s : bytes) : bytes :=
  match s with c :: s' => if is_space c then trim_left s' else s | [] => [] end.
Definition TrimSpace (s : bytes) : bytes := reverse (trim_left (reverse (trim_left s))).

(** ** Lexical paths *)
Definition slash : byte := x2f.
Abbreviation comps := (split slash).
Abbreviation unpath := (join slash).

Definition DOT : bytes := [x2e].
Definition DOTDOT : bytes := [x2e; x2e].

(** One component of [path.Clean]'s scan, on the stack of the components kept
    so far: empty and "." are skipped, ".." pops a real component, stays in a
    relative path that has nothing to pop, and disappears at the root. *)
Definition clean_step (rooted : bool) (st : list bytes) (c : bytes) : list bytes :=
  if decide (c = [] ∨ c = DOT) then st
  else if decide (c = DOTDOT) then
    match st with
    | x :: st' => if decide (x = DOTDOT) then DOTDOT :: st else st'
    | [] => if rooted then [] else [DOTDOT]
    end
  else c :: st.

Definition rooted (p : bytes) : bool := bool_decide (head p = Some slash).

Definition clean_stack (p : bytes) : list bytes :=
  foldl (clean_step (rooted p)) [] (comps p).

Definition unclean (rt : bool) (st : list bytes) : bytes :=
  if rt then slash :: unpath (reverse st)
  else match st with [] => DOT | _ => unpath (reverse st) end.

Definition Clean (p : bytes) : bytes :=
  match p with [] => DOT | _ => unclean (rooted p) (clean_stack p) end.

(** [path.Join] of two elements (go1.5: the empty leading elements are
    skipped, the rest joined with "/" and cleaned). *)
Definition Join2 (a b : bytes) : bytes :=
  match a, b with
  | [], [] => []
  | [], _ => Clean b
  | _, _ => Clean (a ++ slash :: b)
  end.

(** [path.Base]. *)
Fixpoint strip_slashes_rev (r : bytes) : bytes :=
  match r with c :: r' => if decide (c = slash) then strip_slashes_rev r' else r | [] => [] end.
Definition Base (p : bytes) : bytes :=
  match p with
  | [] => DOT
  | _ => match reverse (strip_slashes_rev (reverse p)) with
         | [] => [slash]
         | q => List.last (comps q) []
         end
  end.

(** [filepath.Ext]: the suffix from the last dot of the last element. *)
Fixpoint ext_rev (r acc : bytes) : bytes :=
  match r with
  | [] => []
  | c :: r => if decide (c = slash) then []
              else if decide (c = x2e) then c :: acc
              else ext_rev r (c :: acc)
  end.
Definition Ext (p : bytes) : bytes := ext_rev (reverse p) [].

(** The same on strings. *)
Definition path_Clean (s : string) : string := b2s (Clean (s2b s)).
Definition path_Join (a b : string) : string := b2s (Join2 (s2b a) (s2b b)).
Definition path_Base (s : string) : string := b2s (Base (s2b s)).
Definition filepath_Ext (s : string) : string := b2s (Ext (s2b s)).

Example Clean_ex1 : path_Clean "/a//b/./../c/" = "/a/c".
Proof. vm_compute. reflexivity. Qed.
Example Clean_ex2 : path_Clean "../../a/../.." = "../../..".
Proof. vm_compute. reflexivity. Qed.
Example Clean_ex3 : path_Clean "a/.." = "." ∧ path_Clean "/.." = "/" ∧ path_Clean "" = ".".
Proof. vm_compute. done. Qed.
Example Base_ex : path_Base "/provisioning/image/iso" = "iso" ∧ path_Base "///" = "/" ∧ path_Base "a/b//" = "b".
Proof. vm_compute. done. Qed.
Example Ext_ex : filepath_Ext "http://h.x/a.tar" = ".tar" ∧ filepath_Ext "a.b/c" = "".
Proof. vm_compute. done. Qed.

(** ** Lemmas on Clean *)
Definition real (c : bytes) : Prop := c ≠ [] ∧ c ≠ DOT ∧ c ≠ DOTDOT ∧ slash ∉ c.

(** What a scan leaves: real components above some ".."s, none at the root. *)
Definition clean_ok (rt : bool) (st : list bytes) : Prop :=
  ∃ a n, st = a ++ replicate n DOTDOT ∧ Forall real a ∧ (rt = true → n = 0).

Lemma clean_step_skip rt st c : c = [] ∨ c = DOT → clean_step rt st c = st.
Proof. intros H. unfold clean_step. by rewrite decide_True. Qed.

Lemma clean_step_real rt st c : real c → clean_step rt st c = c :: st.
Proof.
  intros (H1 & H2 & H3 & _). unfold clean_step.
  rewrite decide_False by naive_solver. by rewrite decide_False.
Qed.

Lemma clean_step_ok rt st c : slash ∉ c → clean_ok rt st → clean_ok rt (clean_step rt st c).
Proof.
  intros Hc (a & n & -> & Ha & Hn). unfold clean_step.
  case_decide as H1; [by exists a, n|]. case_decide as H2.
  - destruct a as [|x a]; simpl.
    + destruct n as [|n]; simpl.
      * destruct rt; [exists [], 0|exists [], 1]; done.
      * exists [], (S (S n)). split; [done|]. split; [done|]. intros Hrt. by specialize (Hn Hrt).
    + apply Forall_cons in Ha as [Hx Ha]. rewrite decide_False by apply Hx. by exists a, n.
  - exists (c :: a), n. split; [done|]. split; [|done]. constructor; [|done].
    unfold real. naive_solver.
Qed.

Lemma clean_fold_ok rt st cs :
  Forall (λ c, slash ∉ c) cs → clean_ok rt st → clean_ok rt (foldl (clean_step rt) st cs).
Proof.
  revert st. induction cs as [|c cs IH]; intros st; [done|].
  intros [Hc Hcs]%Forall_cons Hst. simpl. apply IH; [done|]. by apply clean_step_ok.
Qed.

Lemma clean_stack_ok p : clean_ok (rooted p) (clean_stack p).
Proof.
  apply clean_fold_ok; [apply split_no_sep|]. exists [], 0. done.
Qed.

(** Scanning components that are all real pushes them all. *)
Lemma clean_fold_real rt st cs :
  Forall real cs → foldl (clean_step rt) st cs = reverse cs ++ st.
Proof.
  revert st. induction cs as [|c cs IH]; intros st; [done|].
  intros [Hc Hcs]%Forall_cons. simpl. rewrite clean_step_real, IH by done.
  rewrite reverse_cons, <-app_assoc. done.
Qed.

Lemma clean_fold_dotdots n st :
  (∀ x st', st = x :: st' → x = DOTDOT) →
  foldl (clean_step false) st (replicate n DOTDOT) = replicate n DOTDOT ++ st.
Proof.
  revert st. induction n as [|n IH]; intros st Hst; [done|].
  simpl foldl. unfold clean_step at 2. rewrite decide_False by naive_solver.
  rewrite decide_True by done.
  assert ((match st with
           | [] => [DOTDOT]
           | x :: st' => if decide (x = DOTDOT) then DOTDOT :: st else st' end) = DOTDOT :: st) as ->.
  { destruct st as [|x st']; [done|]. by rewrite decide_True by eauto. }
  rewrite IH by naive_solver.
  change (replicate (S n) DOTDOT) with (DOTDOT :: replicate n DOTDOT).
  by rewrite replicate_cons_app, <-app_assoc.
Qed.

Lemma clean_fold_stack rt st : clean_ok rt st → foldl (clean_step rt) [] (reverse st) = st.
Proof.
  intros (a & n & -> & Ha & Hn).
  rewrite reverse_app, foldl_app, reverse_replicate.
  assert (foldl (clean_step rt) [] (replicate n DOTDOT) = replicate n DOTDOT) as ->.
  { destruct rt; [by rewrite Hn|]. rewrite clean_fold_dotdots by done. by rewrite app_nil_r. }
  rewrite clean_fold_real by (by apply Forall_reverse). by rewrite reverse_involutive.
Qed.

Lemma clean_ok_noslash rt st : clean_ok rt st → Forall (λ x, slash ∉ x ∧ x ≠ []) st.
Proof.
  intros (a & n & -> & Ha & _). apply Forall_app. split.
  - eapply Forall_impl; [done|]. by intros x (? & ? & ? & ?).
  - apply Forall_replicate. split; [|done]. by vm_compute; set_solver.
Qed.

Lemma comps_unpath st : st ≠ [] → Forall (λ x, slash ∉ x) st → comps (unpath (reverse st)) = reverse st.
Proof.
  intros Hne H. apply split_join; [|by apply Forall_reverse].
  intros E. apply Hne. rewrite <-(reverse_involutive st), E. done.
Qed.

Lemma rooted_unpath cs : Forall (λ x, slash ∉ x ∧ x ≠ []) cs → rooted (unpath cs) = false.
Proof.
  intros H. apply bool_decide_eq_false. intros Hh. destruct cs as [|x cs]; [done|].
  apply Forall_cons in H as [[Hx Hx'] _]. destruct x as [|c x]; [done|].
  assert (head (unpath ((c :: x) :: cs)) = Some c) as E by by destruct cs.
  rewrite E in Hh. set_solver.
Qed.

Lemma unclean_nonempty rt st : clean_ok rt st → unclean rt st ≠ [].
Proof.
  intros Hok. destruct rt; [done|]. simpl. destruct st as [|x st]; [done|]. intros E.
  pose proof (f_equal comps E) as E'.
  pose proof (clean_ok_noslash _ _ Hok) as Hns.
  rewrite comps_unpath in E'; [|done|by eapply Forall_impl; [done|naive_solver]].
  assert ([] ∈ (x :: st)) as Hin.
  { rewrite <-(reverse_involutive (x :: st)), E'. set_solver. }
  rewrite Forall_forall in Hns. by destruct (Hns _ Hin).
Qed.

(** The canonical form is read back as the stack that was printed. *)
Lemma unclean_stack rt st : clean_ok rt st →
  rooted (unclean rt st) = rt ∧ clean_stack (unclean rt st) = st.
Proof.
  intros Hok. pose proof (clean_ok_noslash _ _ Hok) as Hns.
  assert (Forall (λ x, slash ∉ x) st) as Hns' by (by eapply Forall_impl; [done|naive_solver]).
  destruct rt; cbn [unclean].
  - split; [done|]. unfold clean_stack. change (rooted _) with true.
    change (comps (slash :: unpath (reverse st))) with ([] :: comps (unpath (reverse st))).
    cbn [foldl].
    rewrite clean_step_skip by by left.
    destruct st as [|x st]; [done|]. rewrite comps_unpath by done. by apply clean_fold_stack.
  - destruct st as [|x st]; [done|].
    assert (rooted (unpath (reverse (x :: st))) = false) as Hr
      by (apply rooted_unpath; by apply Forall_reverse).
    split; [done|]. unfold clean_stack. rewrite Hr, comps_unpath by done.
    by apply clean_fold_stack.
Qed.

Lemma Clean_idemp p : Clean (Clean p) = Clean p.
Proof.
  destruct p as [|c p]; [done|]. set (q := c :: p). change (Clean q) with (unclean (rooted q) (clean_stack q)).
  pose proof (clean_stack_ok q) as Hok. pose proof (unclean_nonempty _ _ Hok) as Hne.
  destruct (unclean_stack _ _ Hok) as [Hr Hs].
  destruct (unclean (rooted q) (clean_stack q)) as [|d r] eqn:E; [done|].
  change (Clean (d :: r)) with (unclean (rooted (d :: r)) (clean_stack (d :: r))).
  by rewrite Hr, Hs.
Qed.

Lemma rooted_app a b : a ≠ [] → rooted (a ++ b) = rooted a.
Proof. by destruct a. Qed.

(** The components that a scan keeps when there is no "..". *)
Definition keep (cs : list bytes) : list bytes := filter (λ c, c ≠ [] ∧ c ≠ DOT) cs.

Lemma clean_fold_keep rt st cs :
  DOTDOT ∉ cs → Forall (λ c, slash ∉ c) cs →
  foldl (clean_step rt) st cs = reverse (keep cs) ++ st.
Proof.
  revert st. induction cs as [|c cs IH]; intros st Hdd Hs; [done|].
  apply Forall_cons in Hs as [Hc Hs]. apply not_elem_of_cons in Hdd as [Hcd Hdd].
  cbn [foldl]. rewrite IH by done. unfold keep. rewrite filter_cons. case_decide as Hk.
  - rewrite clean_step_real by (unfold real; naive_solver).
    by rewrite reverse_cons, <-app_assoc.
  - rewrite clean_step_skip; [done|].
    destruct (decide (c = [])); [by left|]. destruct (decide (c = DOT)); [by right|].
    naive_solver.
Qed.

(** Joining below a directory: without "..", the components of the result are
    those of the cleaned directory followed by those of the name. *)
Lemma Clean_below a b : a ≠ [] → DOTDOT ∉ comps b →
  Clean (a ++ slash :: b) = unclean (rooted a) (reverse (keep (comps b)) ++ clean_stack a).
Proof.
  intros Ha Hb. destruct a as [|x a]; [done|]. set (q := x :: a).
  assert (Clean (q ++ slash :: b) = unclean (rooted (q ++ slash :: b)) (clean_stack (q ++ slash :: b))) as -> by done.
  rewrite rooted_app by done. unfold clean_stack at 1. rewrite rooted_app by done.
  rewrite split_app, foldl_app. f_equal. by apply clean_fold_keep; [|apply split_no_sep].
Qed.

(** Two plain elements are joined as they are. *)
Lemma Clean_two a b : real a → real b → Clean (a ++ slash :: b) = a ++ slash :: b.
Proof.
  intros Ha Hb. pose proof Ha as (Ha1 & _ & _ & Ha2). pose proof Hb as (_ & _ & _ & Hb2).
  assert (rooted (a ++ slash :: b) = false) as Hr.
  { rewrite rooted_app by done. unfold rooted. apply bool_decide_eq_false. destruct a as [| c a]; [done |].
    simpl. intros [= ->]. set_solver. }
  assert (clean_stack (a ++ slash :: b) = [b; a]) as Hs.
  { unfold clean_stack. rewrite split_app, !split_id by done. cbn [app foldl]. by rewrite !clean_step_real. }
  assert (Clean (a ++ slash :: b) = unclean (rooted (a ++ slash :: b)) (clean_stack (a ++ slash :: b))) as -> by by destruct a.
  rewrite Hr, Hs. done.
Qed.

(** So are those of an absolute path. *)
Lemma Clean_abs l : l ≠ [] → Forall real l → Clean (slash :: unpath l) = slash :: unpath l.
Proof.
  intros Hne Hl. assert (clean_stack (slash :: unpath l) = reverse l) as Hs.
  { unfold clean_stack. change (slash :: unpath l) with ([] ++ slash :: unpath l). rewrite split_app, split_join; [| done |].
    - cbn [app]. rewrite split_id by set_solver. cbn [app foldl]. rewrite clean_step_skip by by left. rewrite clean_fold_real by done. by rewrite app_nil_r.
    - eapply Forall_impl; [exact Hl |]. by intros c (_ & _ & _ & Hc). }
  unfold Clean. rewrite Hs. unfold unclean. by rewrite reverse_involutive.
Qed.
