(* ===== verification/GoNet.v ===== *)
(** * Package net of the standard library

    The part of Go's package [net] that the program computes with: [net.IP] as
    a slice of bytes with [To4], [Equal], [IsUnspecified] and [String];
    [net.HardwareAddr] with [String] and [ParseMAC]; [net.IPNet.Contains].
    The program is built with go1.5 (Makefile, GOVERSION), whose behaviour is
    the one written out here.  A nil IP is the empty slice.  [StatusText] is
    [net/http]'s table. *)

From S2P Require Import Prelude GoPath.

Abbreviation IP := (list byte).
Abbreviation HardwareAddr := (list byte).

Definition v4InV6Prefix : bytes :=
  [x00; x00; x00; x00; x00; x00; x00; x00; x00; x00; xff; xff].

(** [IP.To4]: a four-byte address is itself, an IPv4-mapped one its last four
    bytes, anything else is not IPv4 (nil). *)
Definition To4 (ip : IP) : IP :=
  if decide (length ip = 4) then ip
  else if decide (length ip = 16 ∧ take 12 ip = v4InV6Prefix) then drop 12 ip
  else [].

Definition IPv4 (a b c d : byte) : IP := v4InV6Prefix ++ [a; b; c; d].
Definition IPv4zero : IP := IPv4 x00 x00 x00 x00.
Definition IPv4bcast : IP := IPv4 xff xff xff xff.

Definition IP_Equal (a b : IP) : bool :=
  if decide (length a = length b) then bool_decide (a = b)
  else if decide (length a = 4 ∧ length b = 16) then
    bool_decide (take 12 b = v4InV6Prefix ∧ a = drop 12 b)
  else if decide (length a = 16 ∧ length b = 4) then
    bool_decide (take 12 a = v4InV6Prefix ∧ drop 12 a = b)
  else false.

Definition IP_IsUnspecified (ip : IP) : bool :=
  IP_Equal ip IPv4zero || bool_decide (ip = replicate 16 x00).

(** Printing. *)
Definition dot : byte := x2e.
Definition colon : byte := x3a.
Definition dash : byte := x2d.

Definition dec_byte (b : byte) : bytes := s2b (fmt_d (b2z b)).

(** The 16-bit groups of an IPv6 address, and their hexadecimal print without
    leading zeros. *)
Fixpoint groups (ip : bytes) : list Z :=
  match ip with
  | h :: l :: r => (b2z h * 256 + b2z l)%Z :: groups r
  | _ => []
  end.

Fixpoint drop_zeros (n : nat) (ds : bytes) : bytes :=
  match n, ds with
  | S n, d :: ds' => if decide (d = x30) then drop_zeros n ds' else ds
  | _, _ => ds
  end.

Definition appendHex (g : Z) : bytes :=
  drop_zeros 3 (fmt_x (be_put 2 g)).

Fixpoint zero_run (gs : list Z) : nat :=
  match gs with
  | g :: gs' => if decide (g = 0%Z) then S (zero_run gs') else 0
  | [] => 0
  end.

(** The longest run of zero groups, the first one among equals: start and
    length.  The scan resumes one group after a run it selected. *)
Fixpoint longest_run (fuel i : nat) (gs : list Z) (best : nat * nat) : nat * nat :=
  match fuel with
  | O => best
  | S fuel =>
      match gs with
      | [] => best
      | _ =>
        let j := zero_run gs in
        if decide (best.2 < j)
        then longest_run fuel (i + j + 1) (drop (j + 1) gs) (i, j)
        else longest_run fuel (i + 1) (drop 1 gs) best
      end
  end.

Fixpoint print_groups (first : bool) (gs : list Z) : bytes :=
  match gs with
  | [] => []
  | g :: gs => (if first then [] else [colon]) ++ appendHex g ++ print_groups false gs
  end.

Definition IPv6_bytes (ip : IP) : bytes :=
  let gs := groups ip in
  let '(e0, n) := longest_run 9 0 gs (0, 0) in
  if decide (n ≤ 1) then print_groups true gs
  else print_groups true (take e0 gs) ++ [colon; colon] ++
       print_groups true (drop (e0 + n) gs).

Definition dotted (ip : IP) : bytes :=
  match ip with
  | [a; b; c; d] => dec_byte a ++ dot :: dec_byte b ++ dot :: dec_byte c ++ dot :: dec_byte d
  | _ => []
  end.

Definition IP_bytes (ip : IP) : bytes :=
  if decide (ip = []) then s2b "<nil>"
  else if decide (length (To4 ip) = 4) then dotted (To4 ip)
  else if decide (length ip = 16) then IPv6_bytes ip
  else s2b "?".

Definition IP_String (ip : IP) : string := b2s (IP_bytes ip).

Example IP_String_v4 : IP_String [x7f; x00; x00; x01] = "127.0.0.1".
Proof. vm_compute. reflexivity. Qed.
Example IP_String_v6 :
  IP_String [x20; x01; x0d; xb8; x00; x00; x00; x00; x00; x00; x00; x00; x00; x00; x00; x01] = "2001:db8::1".
Proof. vm_compute. reflexivity. Qed.
Example IP_String_v6_zero : IP_String (replicate 16 x00) = "::".
Proof. vm_compute. reflexivity. Qed.

(** [net.IPNet]: address and mask. *)
Record IPNet := { IPNet_IP : IP; IPNet_Mask : bytes }.

#[global] Instance IPNet_eq_dec : EqDecision IPNet.
Proof. solve_decision. Defined.

Definition band (a b : byte) : byte := z2b (Z.land (b2z a) (b2z b)).

Definition IPNet_Contains (n : IPNet) (ip : IP) : bool :=
  let nn := if decide (length (To4 (IPNet_IP n)) = 4) then To4 (IPNet_IP n) else IPNet_IP n in
  let m := if decide (length (IPNet_Mask n) = 16 ∧ length nn = 4)
           then drop 12 (IPNet_Mask n) else IPNet_Mask n in
  let ip := if decide (length (To4 ip) = 4) then To4 ip else ip in
  if decide (length nn ≠ length m) then false
  else if decide (length ip ≠ length nn) then false
  else bool_decide (zip_with band nn m = zip_with band ip m).

(** [net.ParseMAC]. *)
Fixpoint parse_sep (n : nat) (sep : byte) (s : bytes) : option HardwareAddr :=
  match n with
  | O => Some []
  | S n =>
      match s with
      | h :: l :: r =>
          if match r with [] => true | c :: _ => bool_decide (c = sep) end then
            b ← unhex_byte h l; hw ← parse_sep n sep (tail r); Some (b :: hw)
          else None
      | _ => None
      end
  end.

Fixpoint parse_dot (n : nat) (s : bytes) : option HardwareAddr :=
  match n with
  | O => Some []
  | S n =>
      match s with
      | a :: b :: c :: d :: r =>
          if match r with [] => true | e :: _ => bool_decide (e = dot) end then
            x ← unhex_byte a b; y ← unhex_byte c d;
            hw ← parse_dot n (tail r); Some (x :: y :: hw)
          else None
      | _ => None
      end
  end.

Definition mac_len (n : nat) : bool := bool_decide (n = 6 ∨ n = 8 ∨ n = 20).

Definition ParseMAC_bytes (s : bytes) : option HardwareAddr :=
  if decide (length s < 14) then None
  else if decide (s !! 2 = Some colon ∨ s !! 2 = Some dash) then
    let sep := if decide (s !! 2 = Some colon) then colon else dash in
    if decide ((length s + 1) `mod` 3 ≠ 0) then None
    else if mac_len ((length s + 1) / 3) then parse_sep ((length s + 1) / 3) sep s else None
  else if decide (s !! 4 = Some dot) then
    if decide ((length s + 1) `mod` 5 ≠ 0) then None
    else if mac_len (2 * (length s + 1) / 5) then parse_dot ((length s + 1) / 5) s else None
  else None.

Definition ParseMAC (s : string) : res HardwareAddr :=
  match ParseMAC_bytes (s2b s) with
  | Some hw => Ok hw
  | None => Err (Errorf ("invalid MAC address: " +:+ s))
  end.

(** [HardwareAddr.String]: two lower-case digits per byte, colons between. *)
Fixpoint mac_bytes (hw : HardwareAddr) : bytes :=
  match hw with
  | [] => []
  | [b] => hex_byte b
  | b :: hw => hex_byte b ++ colon :: mac_bytes hw
  end.

Definition HardwareAddr_String (hw : HardwareAddr) : string := b2s (mac_bytes hw).

(** ** Lemmas *)
Lemma To4_length ip : length (To4 ip) = 4 ∨ To4 ip = [].
Proof.
  unfold To4. destruct (decide (length ip = 4)); [by left|].
  destruct (decide _) as [[H _]|]; [left|by right]. rewrite length_drop. lia.
Qed.

Lemma To4_nonempty ip : To4 ip ≠ [] → length (To4 ip) = 4.
Proof. destruct (To4_length ip); naive_solver. Qed.

Lemma To4_v4 ip : length ip = 4 → To4 ip = ip.
Proof. intros H. unfold To4. by rewrite decide_True. Qed.

Lemma To4_idemp ip : To4 (To4 ip) = To4 ip.
Proof. destruct (To4_length ip) as [H|H]; [by apply To4_v4|by rewrite H]. Qed.

Lemma To4_IPv4 a b c d : To4 (IPv4 a b c d) = [a; b; c; d].
Proof. reflexivity. Qed.

Lemma mac_bytes_length hw : hw ≠ [] → length (mac_bytes hw) + 1 = 3 * length hw.
Proof.
  induction hw as [|b [|b' hw] IH]; intros Hne; [done|done|].
  change (mac_bytes (b :: b' :: hw)) with (hex_byte b ++ colon :: mac_bytes (b' :: hw)).
  rewrite length_app, length_cons. change (length (hex_byte b)) with 2.
  rewrite (length_cons b). specialize (IH ltac:(done)). lia.
Qed.

Lemma unhex_hex b : unhex_byte (hex_digit (b2z b / 16)) (hex_digit (b2z b mod 16)) = Some b.
Proof. apply (unhex_hex_byte b). Qed.

Lemma parse_sep_mac_bytes hw : parse_sep (length hw) colon (mac_bytes hw) = Some hw.
Proof.
  induction hw as [|b [|b' hw] IH]; [done| |].
  - cbn -[hex_digit unhex_byte]. by rewrite unhex_hex.
  - change (mac_bytes (b :: b' :: hw)) with (hex_byte b ++ colon :: mac_bytes (b' :: hw)).
    change (length (b :: b' :: hw)) with (S (length (b' :: hw))).
    cbn [parse_sep hex_byte app tail]. rewrite bool_decide_eq_true_2 by done.
    rewrite unhex_hex. cbn [mbind option_bind]. by rewrite IH.
Qed.

Lemma mac_bytes_sep b b' hw : mac_bytes (b :: b' :: hw) !! 2 = Some colon.
Proof. done. Qed.

(** A printed hardware address parses back exactly when its length is one
    that [ParseMAC] accepts. *)
Lemma ParseMAC_mac_bytes hw :
  ParseMAC_bytes (mac_bytes hw) = if mac_len (length hw) then Some hw else None.
Proof.
  destruct hw as [|b [|b' hw]]; [done|done|].
  pose proof (mac_bytes_length (b :: b' :: hw) ltac:(done)) as Hlen.
  set (m := b :: b' :: hw) in *. unfold ParseMAC_bytes.
  destruct (mac_len (length m)) eqn:Hm; unfold mac_len in Hm.
  - apply bool_decide_eq_true in Hm. rewrite decide_False by lia.
    rewrite decide_True by (left; apply mac_bytes_sep).
    rewrite (decide_True (P:=mac_bytes m !! 2 = Some colon)) by apply mac_bytes_sep.
    rewrite Hlen, Nat.mul_comm, Nat.Div0.mod_mul, decide_False by lia.
    rewrite Nat.div_mul by lia. unfold mac_len. rewrite bool_decide_eq_true_2 by done.
    apply parse_sep_mac_bytes.
  - apply bool_decide_eq_false in Hm. destruct (decide _); [done|].
    rewrite decide_True by (left; apply mac_bytes_sep).
    rewrite Hlen, Nat.mul_comm, Nat.Div0.mod_mul, decide_False by lia.
    rewrite Nat.div_mul by lia. unfold mac_len. by rewrite bool_decide_eq_false_2.
Qed.

(** ** Dotted decimal is injective *)
Definition has (c : byte) (s : bytes) : bool := existsb (Byte.eqb c) s.

Lemma has_false c s : has c s = false → c ∉ s.
Proof.
  intros H Hin. assert (has c s = true); [|congruence].
  apply existsb_exists. exists c. split; [by apply list_elem_of_In|]. by apply Byte.byte_dec_lb.
Qed.

Lemma dec_byte_plain b : dot ∉ dec_byte b ∧ colon ∉ dec_byte b ∧ dec_byte b ≠ [].
Proof.
  set (P := λ b, negb (has dot (dec_byte b)) && negb (has colon (dec_byte b))
                 && match dec_byte b with [] => false | _ => true end).
  assert (P b = true) as H by (apply (byte_ind_256 P); vm_compute; reflexivity).
  unfold P in H. rewrite !andb_true_iff, !negb_true_iff in H. destruct H as [[H1 H2] H3].
  split_and!; [by apply has_false|by apply has_false|]. intros E. by rewrite E in H3.
Qed.

#[global] Instance dec_byte_inj : Inj (=) (=) dec_byte.
Proof. intros a b H. by apply (inj s2b), (inj pretty), (inj b2z) in H. Qed.

Lemma length_4 (ip : IP) : length ip = 4 → ∃ a b c d, ip = [a; b; c; d].
Proof. destruct ip as [|a [|b [|c [|d [|]]]]]; try done. by eauto. Qed.

Lemma dotted_join a b c d : dotted [a; b; c; d] = join dot [dec_byte a; dec_byte b; dec_byte c; dec_byte d].
Proof. done. Qed.

Lemma split_dotted ip : length ip = 4 → split dot (dotted ip) = dec_byte <$> ip.
Proof.
  intros (a & b & c & d & ->)%length_4. rewrite dotted_join, split_join; [done|done|].
  repeat (apply Forall_cons; split; [apply dec_byte_plain|]). constructor.
Qed.

Lemma dotted_inj a b : length a = 4 → length b = 4 → dotted a = dotted b → a = b.
Proof.
  intros Ha Hb H. apply (inj (fmap dec_byte)). by rewrite <-!split_dotted, H.
Qed.

Lemma dotted_chars ip : length ip = 4 → dot ∈ dotted ip ∧ colon ∉ dotted ip.
Proof.
  intros (a & b & c & d & ->)%length_4. unfold dotted.
  pose proof (dec_byte_plain a). pose proof (dec_byte_plain b).
  pose proof (dec_byte_plain c). pose proof (dec_byte_plain d).
  assert (colon ≠ dot) by done. set_solver.
Qed.

Lemma groups_16 ip : length ip = 16 → length (groups ip) = 8.
Proof. do 17 (destruct ip as [|? ip]; [try done|]); done. Qed.

Lemma IPv6_colon ip : length ip = 16 → colon ∈ IPv6_bytes ip.
Proof.
  intros H. unfold IPv6_bytes. pose proof (groups_16 _ H) as Hg.
  destruct (longest_run 9 0 (groups ip) (0, 0)) as [e0 n]. case_decide; [|set_solver].
  destruct (groups ip) as [|g [|g' gs]]; [done|done|]. cbn [print_groups app]. set_solver.
Qed.

(** Comparing the printed forms with an IPv4 address compares the addresses. *)
Lemma IP_String_v4_eq ip sid : length ip = 4 → IP_String ip = IP_String sid ↔ To4 sid = ip.
Proof.
  intros Hip. unfold IP_String.
  assert (IP_bytes ip = dotted ip) as ->.
  { unfold IP_bytes. rewrite decide_False by (by intros ->). rewrite To4_v4 by done.
    by rewrite decide_True. }
  pose proof (dotted_chars ip Hip) as [Hd Hc].
  split.
  - intros H%(inj b2s). unfold IP_bytes in H.
    case_decide; [exfalso; rewrite H in Hd; vm_compute in Hd; set_solver|].
    case_decide as H4; [by apply dotted_inj in H|].
    case_decide as H16; [exfalso; apply Hc; rewrite H; by apply IPv6_colon|].
    exfalso. rewrite H in Hd. vm_compute in Hd. set_solver.
  - intros <-. f_equal. unfold IP_bytes. rewrite decide_False.
    + by rewrite decide_True.
    + intros ->. done.
Qed.

(** ** Parsing: [net.ParseIP], [net.ParseCIDR], [IPNet.String] *)

(** [dtoi] and [xtoi]: the number at the head of the text, and the rest; both
    fail on no digit and on 0xFFFFFF or more. *)
Definition big : Z := 16777215.

Definition dec_val (c : byte) : option Z :=
  let z := b2z c in if decide (48 ≤ z ≤ 57)%Z then Some (z - 48)%Z else None.

Fixpoint read_num (val : byte → option Z) (base n : Z) (s : bytes) : option (Z * bytes) :=
  match s with
  | [] => Some (n, [])
  | c :: s' =>
      match val c with
      | Some d => let n := (n * base + d)%Z in
                  if decide (big ≤ n)%Z then None else read_num val base n s'
      | None => Some (n, s)
      end
  end.

Definition num (val : byte → option Z) (base : Z) (s : bytes) : option (Z * bytes) :=
  match s with
  | c :: _ => match val c with Some _ => read_num val base 0 s | None => None end
  | [] => None
  end.
Definition dtoi := num dec_val 10.
Definition xtoi := num hex_val 16.

Fixpoint parse_v4_from (n : nat) (s : bytes) : option bytes :=
  match n with
  | O => match s with [] => Some [] | _ => None end
  | S n' =>
      match dtoi s with
      | Some (z, r) =>
          if decide (255 < z)%Z then None
          else match n', r with
               | O, _ => b ← parse_v4_from n' r; Some (z2b z :: b)
               | _, c :: r' => if decide (c = dot) then b ← parse_v4_from n' r'; Some (z2b z :: b) else None
               | _, [] => None
               end
      | None => None
      end
  end.

Definition parseIPv4 (s : bytes) : option IP :=
  match parse_v4_from 4 s with Some [a; b; c; d] => Some (IPv4 a b c d) | _ => None end.

(** [parseIPv6]: the groups read so far, and where "::" stood. *)
Fixpoint parse_v6_from (fuel : nat) (p : bytes) (ell : option nat) (s : bytes) : option (bytes * option nat) :=
  match fuel with
  | O => match s with [] => Some (p, ell) | _ => None end
  | S fuel =>
      if decide (16 ≤ length p) then match s with [] => Some (p, ell) | _ => None end
      else match xtoi s with
      | None => None
      | Some (n, r) =>
          if decide (65535 < n)%Z then None
          else if decide (head r = Some dot) then
            if decide (ell = None ∧ length p ≠ 12) then None
            else if decide (16 < length p + 4) then None
            else match parseIPv4 s with
                 | Some p4 => Some (p ++ drop 12 p4, ell)
                 | None => None
                 end
          else
            let p := p ++ be_put 2 n in
            match r with
            | [] => Some (p, ell)
            | c :: r =>
                if decide (c ≠ colon) then None
                else match r with
                     | [] => None
                     | c' :: r' =>
                         if decide (c' = colon) then
                           match ell, r' with
                           | Some _, _ => None
                           | None, [] => Some (p, Some (length p))
                           | None, _ => parse_v6_from fuel p (Some (length p)) r'
                           end
                         else parse_v6_from fuel p ell r
                     end
            end
      end
  end.

Definition parseIPv6 (s : bytes) : option IP :=
  let r := match s with
           | a :: b :: s' =>
               if decide (a = colon ∧ b = colon) then
                 match s' with [] => Some ([], Some 0) | _ => parse_v6_from 9 [] (Some 0) s' end
               else parse_v6_from 9 [] None s
           | _ => parse_v6_from 9 [] None s
           end in
  match r with
  | Some (p, ell) =>
      if decide (length p < 16) then
        match ell with
        | Some e => Some (take e p ++ replicate (16 - length p) x00 ++ drop e p)
        | None => None
        end
      else match ell with Some _ => None | None => Some p end
  | None => None
  end.

(** The first dot or colon decides. *)
Fixpoint first_sep (s : bytes) : option byte :=
  match s with
  | [] => None
  | c :: s => if decide (c = dot ∨ c = colon) then Some c else first_sep s
  end.

Definition ParseIP_bytes (s : bytes) : option IP :=
  match first_sep s with
  | Some c => if decide (c = dot) then parseIPv4 s else parseIPv6 s
  | None => None
  end.

Definition CIDRMask (ones bits : nat) : bytes :=
  (λ i, z2b (255 - (2 ^ (8 - Z.of_nat (min 8 (ones - 8 * i))) - 1))) <$> seq 0 (bits / 8).

Definition IP_Mask (ip : IP) (m : bytes) : IP :=
  let m := if decide (length m = 16 ∧ length ip = 4 ∧ take 12 m = replicate 12 xff) then drop 12 m else m in
  let ip := if decide (length m = 4 ∧ length ip = 16 ∧ take 12 ip = v4InV6Prefix) then drop 12 ip else ip in
  if decide (length ip ≠ length m) then [] else zip_with band ip m.

Definition ParseCIDR_bytes (s : bytes) : option (IP * IPNet) :=
  match index_split slash s with
  | Some (addr, _ :: mask) =>
      let '(ip, iplen) := match parseIPv4 addr with
                          | Some ip => (Some ip, 4)
                          | None => (parseIPv6 addr, 16)
                          end in
      match ip, dtoi mask with
      | Some ip, Some (n, []) =>
          if decide (8 * Z.of_nat iplen < n)%Z then None
          else let m := CIDRMask (Z.to_nat n) (8 * iplen) in
               Some (ip, {| IPNet_IP := IP_Mask ip m; IPNet_Mask := m |})
      | _, _ => None
      end
  | _ => None
  end.

(** [simpleMaskLength]: the number of leading ones, when nothing follows. *)
Definition bits_of (m : bytes) : list bool :=
  m ≫= (λ b, (λ i, Z.testbit (b2z b) (7 - Z.of_nat i)) <$> seq 0 8).
Fixpoint simple_len (bs : list bool) : option nat :=
  match bs with
  | true :: bs => S <$> simple_len bs
  | _ => if forallb negb bs then Some 0 else None
  end.

Definition IPNet_String (n : IPNet) : string :=
  let ip := if decide (length (To4 (IPNet_IP n)) = 4) then To4 (IPNet_IP n) else IPNet_IP n in
  let m := if decide (length (IPNet_Mask n) = 16 ∧ length ip = 4) then drop 12 (IPNet_Mask n) else IPNet_Mask n in
  if decide (length ip ≠ length m ∨ length ip = 0) then "<nil>"
  else match simple_len (bits_of m) with
       | Some l => IP_String ip +:+ "/" +:+ fmt_d (Z.of_nat l)
       | None => IP_String ip +:+ "/" +:+ b2s (fmt_x m)
       end.

Example ParseIP_ex : IP_String <$> ParseIP_bytes (s2b "2001:db8::1:0") = Some "2001:db8::1:0"
  ∧ ParseIP_bytes (s2b "::ffff:1.2.3.4") = ParseIP_bytes (s2b "1.2.3.4")
  ∧ ParseIP_bytes (s2b "1.2.3.256") = None ∧ ParseIP_bytes (s2b "1:2") = None.
Proof. vm_compute. done. Qed.
Example ParseCIDR_ex : (λ x, IPNet_String x.2) <$> ParseCIDR_bytes (s2b "192.168.35.77/20") = Some "192.168.32.0/20".
Proof. vm_compute. done. Qed.

(** ** Package net/http *)
(** [http.StatusText]. *)
Definition StatusText (code : Z) : string :=
  match list_find (λ x : Z * string, x.1 = code)
    [(100, "Continue"); (101, "Switching Protocols"); (200, "OK"); (201, "Created"); (202, "Accepted");
     (203, "Non-Authoritative Information"); (204, "No Content"); (205, "Reset Content"); (206, "Partial Content");
     (300, "Multiple Choices"); (301, "Moved Permanently"); (302, "Found"); (303, "See Other"); (304, "Not Modified");
     (305, "Use Proxy"); (307, "Temporary Redirect"); (400, "Bad Request"); (401, "Unauthorized"); (402, "Payment Required");
     (403, "Forbidden"); (404, "Not Found"); (405, "Method Not Allowed"); (406, "Not Acceptable");
     (407, "Proxy Authentication Required"); (408, "Request Timeout"); (409, "Conflict"); (410, "Gone");
     (411, "Length Required"); (412, "Precondition Failed"); (413, "Request Entity Too Large"); (414, "Request URI Too Long");
     (415, "Unsupported Media Type"); (416, "Requested Range Not Satisfiable"); (417, "Expectation Failed");
     (418, "I'm a teapot"); (428, "Precondition Required"); (429, "Too Many Requests"); (431, "Request Header Fields Too Large");
     (500, "Internal Server Error"); (501, "Not Implemented"); (502, "Bad Gateway"); (503, "Service Unavailable");
     (504, "Gateway Timeout"); (505, "HTTP Version Not Supported"); (511, "Network Authentication Required")]%Z%string
  with Some (_, (_, t)) => t | None => ""%string end.
