(* ===== verification/GoJson.v ===== *)
(** What the code uses of [encoding/json].

    A value of [json] is a JSON text after parsing.  Decoding works over an old
    value, as [json.Unmarshal] does: keys that are absent leave their field
    alone, [null] leaves a plain field alone, a value of the wrong type is
    remembered as the error while decoding continues, and an error of an
    [UnmarshalJSON] method stops the decoding at once with the fields set so
    far.  A number is the integer it is written as, or a floating point number
    ([JFloat]) when it is not written as an integer.  Keys match a field's name exactly or else ignoring ASCII case.

    Slices are lists: a nil and an empty slice are the same value here, and it
    encodes as [null]. *)

From S2P Require Import Prelude.
From Stdlib Require Import ZArith Lia.
From Stdlib Require Floats.SpecFloat.

Inductive json :=
  | JNull
  | JBool (b : bool)
  | JNum (z : Z)
  | JFloat (f : SpecFloat.spec_float)
  | JStr (s : string)
  | JArr (l : list json)
  | JObj (o : list (string * json)).

(** [UnmarshalTypeError] is saved, errors of [UnmarshalJSON] abort. *)
Inductive derr := Saved (e : error) | Abort (e : error).
#[global] Instance derr_eq_dec : EqDecision derr.
Proof. solve_decision. Defined.

Definition derr_error (d : derr) : error := match d with Saved e => e | Abort e => e end.

Definition decoder (A : Type) : Type := json → A → A * option derr.

(** The zero value of a Go type. *)
Class Zero (A : Type) := zero : A.
#[export] Instance zero_string : Zero string := ""%string.
#[export] Instance zero_Z : Zero Z := 0%Z.
#[export] Instance zero_bool : Zero bool := false.
#[export] Instance zero_list A : Zero (list A) := [].
#[export] Instance zero_option A : Zero (option A) := None.
#[export] Instance zero_gmap A : Zero (gmap string A) := (∅ : gmap string A).

(** What a type promises to the code that puts it in a message body. *)
Class Json (A : Type) := { enc : A → json; dec : decoder A }.

Definition kind_name (j : json) : string :=
  match j with
  | JNull => "null" | JBool _ => "bool" | JNum _ | JFloat _ => "number" | JStr _ => "string"
  | JArr _ => "array" | JObj _ => "object"
  end.

Definition UnmarshalTypeError (j : json) (t : string) : error :=
  Errorf ("json: cannot unmarshal " +:+ kind_name j +:+ " into Go value of type " +:+ t).

(** A number that does not fit is named in the message. *)
Definition UnmarshalNumberError (z : Z) (t : string) : error :=
  Errorf ("json: cannot unmarshal number " +:+ fmt_d z +:+ " into Go value of type " +:+ t).

Definition mismatch {A} (j : json) (t : string) (old : A) : A * option derr :=
  match j with JNull => (old, None) | _ => (old, Some (Saved (UnmarshalTypeError j t))) end.

Definition dec_string : decoder string := λ j old,
  match j with JStr s => (s, None) | _ => mismatch j "string" old end.
Definition dec_bool : decoder bool := λ j old,
  match j with JBool b => (b, None) | _ => mismatch j "bool" old end.
Definition dec_int (t : string) (lo hi : Z) : decoder Z := λ j old,
  match j with
  | JNum z => if decide (lo ≤ z ≤ hi)%Z then (z, None) else (old, Some (Saved (UnmarshalNumberError z t)))
  | _ => mismatch j t old
  end.
Definition dec_int64 : decoder Z := dec_int "int64" (-2 ^ 63) (2 ^ 63 - 1).
Definition dec_uint64 : decoder Z := dec_int "uint64" 0 (2 ^ 64 - 1).
Definition dec_uint8 : decoder Z := dec_int "uint8" 0 255.

(** [float64]: an integer of the text is rounded to the nearest. *)
Abbreviation float64 := SpecFloat.spec_float.
#[export] Instance zero_float64 : Zero float64 := SpecFloat.S754_zero false.
Definition float64_of_Z (z : Z) : float64 := SpecFloat.binary_normalize 53 1024 z 0 false.
Definition dec_float64 : decoder float64 := λ j old,
  match j with
  | JNum z =>
      match float64_of_Z z with
      | SpecFloat.S754_infinity _ => (old, Some (Saved (UnmarshalNumberError z "float64")))
      | f => (f, None)
      end
  | JFloat f => (f, None)
  | _ => mismatch j "float64" old
  end.

(** The integer a float is written as: below 10^21 no exponent is used.  The
    negative zero, written "-0", is not one.  Infinities and NaN, which
    [json.Marshal] refuses, are not read from a message either. *)
Definition float64_integer (f : float64) : option Z :=
  match f with
  | SpecFloat.S754_zero false => Some 0%Z
  | SpecFloat.S754_finite s m e =>
      let z := if decide (0 ≤ e)%Z then Some (Z.pos m * 2 ^ e)%Z
               else if decide (Z.pos m mod 2 ^ (- e) = 0)%Z then Some (Z.pos m / 2 ^ (- e))%Z else None in
      z ← z; if decide (z < 10 ^ 21)%Z then Some (if s then (- z)%Z else z) else None
  | _ => None
  end.
Definition enc_float64 (f : float64) : json :=
  match float64_integer f with Some z => JNum z | None => JFloat f end.
Definition float64_empty (f : float64) : bool :=
  match f with SpecFloat.S754_zero _ => true | _ => false end.

Example float64_ex : enc_float64 (float64_of_Z 1500) = JNum 1500 ∧ (dec_float64 (JNum (-7)) zero).1 = float64_of_Z (-7).
Proof. split; reflexivity. Qed.
Example float64_half : enc_float64 (SpecFloat.SFdiv 53 1024 (float64_of_Z 1) (float64_of_Z 2)) = JFloat (SpecFloat.S754_finite false 4503599627370496 (-53)).
Proof. vm_compute. reflexivity. Qed.

(** A type with its own [UnmarshalJSON]. *)
Definition dec_custom {A} (U : json → A → A * option error) : decoder A := λ j old,
  let '(a, e) := U j old in (a, Abort <$> e).

(** [first] keeps the first saved error. *)
Definition first_err (a b : option derr) : option derr := match a with Some _ => a | None => b end.

(** Elements are decoded over the old elements of the slice, where there are any. *)
Fixpoint dec_elems {A} `{Zero A} (d : decoder A) (l : list json) (old : list A) : list A * option derr :=
  match l with
  | [] => ([], None)
  | j :: l =>
      match d j (default zero (head old)) with
      | (a, Some (Abort e)) => (a :: tail old, Some (Abort e))
      | (a, e) => let '(r, e') := dec_elems d l (tail old) in
                  (a :: r, match e' with Some (Abort _) => e' | _ => first_err e e' end)
      end
  end.
Definition dec_list {A} `{Zero A} (t : string) (d : decoder A) : decoder (list A) := λ j old,
  match j with
  | JArr l => dec_elems d l old
  | JNull => ([], None)
  | _ => mismatch j t old
  end.
Definition enc_list {A} (e : A → json) (l : list A) : json :=
  match l with [] => JNull | _ => JArr (e <$> l) end.

(** Maps keep their old keys; each value of the text starts from zero. *)
Fixpoint dec_pairs {A} `{Zero A} (d : decoder A) (o : list (string * json)) (m : gmap string A) : gmap string A * option derr :=
  match o with
  | [] => (m, None)
  | (k, j) :: o =>
      match d j zero with
      | (_, Some (Abort e)) => (m, Some (Abort e))
      | (a, e) => let '(m, e') := dec_pairs d o (<[k := a]> m) in
                  (m, match e' with Some (Abort _) => e' | _ => first_err e e' end)
      end
  end.
Definition dec_map {A} `{Zero A} (t : string) (d : decoder A) : decoder (gmap string A) := λ j old,
  match j with
  | JObj o => dec_pairs d o old
  | JNull => (∅, None)
  | _ => mismatch j t old
  end.
Definition key_le (x y : string * json) : Prop := String.leb x.1 y.1 = true.
#[global] Instance key_le_dec x y : Decision (key_le x y) := decide (String.leb x.1 y.1 = true).
(** [encoding/json] writes the keys of a map in order. *)
Definition enc_map {A} (e : A → json) (m : gmap string A) : json :=
  JObj (merge_sort key_le (prod_map id e <$> map_to_list m)).

(** ** Structs *)
Record field (A : Type) := {
  f_name : string;
  f_enc : A → option json;      (* None: omitted *)
  f_dec : decoder A;
  f_copy : A → A → A            (* dst.F = src.F *)
}.
Arguments f_name {A} _.
Arguments f_enc {A} _ _.
Arguments f_dec {A} _ _ _.
Arguments f_copy {A} _ _ _.

Definition lift_dec {A B} (get : A → B) (set : B → A → A) (d : decoder B) : decoder A := λ j a,
  let '(b, e) := d j (get a) in (set b a, e).

(** The tag `json:"name"`, and `json:"name,omitempty"` with its test. *)
Definition plain {A B} (name : string) (get : A → B) (set : B → A → A) (e : B → json) (d : decoder B) : field A :=
  {| f_name := name; f_enc := λ a, Some (e (get a)); f_dec := lift_dec get set d; f_copy := λ src, set (get src) |}.
Definition omitempty {A B} (name : string) (get : A → B) (set : B → A → A) (empty : B → bool) (e : B → json) (d : decoder B) : field A :=
  {| f_name := name; f_enc := λ a, if empty (get a) then None else Some (e (get a));
     f_dec := lift_dec get set d; f_copy := λ src, set (get src) |}.
(** The promoted fields of an embedded struct. *)
Definition embed {A B} (get : A → B) (set : B → A → A) (f : field B) : field A :=
  {| f_name := f_name f; f_enc := λ a, f_enc f (get a); f_dec := lift_dec get set (f_dec f);
     f_copy := λ src dst, set (f_copy f (get src) (get dst)) dst |}.

Definition to_lower (c : Ascii.ascii) : Ascii.ascii :=
  let n := Ascii.nat_of_ascii c in
  if decide (65 ≤ n ∧ n ≤ 90) then Ascii.ascii_of_nat (n + 32) else c.
Fixpoint equalFold (s t : string) : bool :=
  match s, t with
  | String.EmptyString, String.EmptyString => true
  | String.String a s, String.String b t => Ascii.eqb (to_lower a) (to_lower b) && equalFold s t
  | _, _ => false
  end.

Definition find_field {A} (fs : list (field A)) (key : string) : option (field A) :=
  match list_find (λ f, f_name f = key) fs with
  | Some (_, f) => Some f
  | None => snd <$> list_find (λ f, equalFold (f_name f) key = true) fs
  end.

Fixpoint dec_fields {A} (fs : list (field A)) (o : list (string * json)) (a : A) : A * option derr :=
  match o with
  | [] => (a, None)
  | (k, j) :: o =>
      match find_field fs k with
      | None => dec_fields fs o a
      | Some f =>
          match f_dec f j a with
          | (a, Some (Abort e)) => (a, Some (Abort e))
          | (a, e) => let '(a, e') := dec_fields fs o a in
                      (a, match e' with Some (Abort _) => e' | _ => first_err e e' end)
          end
      end
  end.
Definition dec_struct {A} (t : string) (fs : list (field A)) : decoder A := λ j a,
  match j with JObj o => dec_fields fs o a | _ => mismatch j t a end.
Definition enc_struct {A} (fs : list (field A)) (a : A) : json :=
  JObj (omap (λ f, pair (f_name f) <$> f_enc f a) fs).

(** [json.Unmarshal] and a decode into a fresh variable. *)
Definition Unmarshal {A} `{Json A} (j : json) (a : A) : A * option error :=
  prod_map id (fmap derr_error) (dec j a).
Definition Unmarshal_new {A} `{Json A, Zero A} (j : json) : res A :=
  match Unmarshal j (zero : A) with (a, None) => Ok a | (_, Some e) => Err e end.

(** A pointer: [null] clears it, anything else is decoded over what it points
    to, which is new when it was nil.  (The pointer of the old value is then
    shared with the new one, which no code here depends on.) *)
Definition dec_ptr {A} `{Zero A} (d : decoder A) : decoder (option A) := λ j old,
  match j with
  | JNull => (None, None)
  | _ => let '(a, e) := d j (default zero old) in (Some a, e)
  end.
Definition enc_ptr {A} (e : A → json) (a : option A) : json := match a with Some a => e a | None => JNull end.
Definition ptr_empty {A} (a : option A) : bool := match a with None => true | Some _ => false end.

(** A value of type [interface{}]: objects become maps, and numbers [float64]s. *)
#[export] Instance zero_json : Zero json := JNull.
Fixpoint interface_value (j : json) : json * option derr :=
  match j with
  | JNum z =>
      match dec_float64 j zero with (f, None) => (enc_float64 f, None) | (_, e) => (JNull, e) end
  | JArr l =>
      let '(l, e) := (fix go l := match l with
                       | [] => ([], None)
                       | j :: l => let '(j, e) := interface_value j in let '(l, e') := go l in (j :: l, first_err e e')
                       end) l in
      (JArr l, e)
  | JObj o =>
      let '(m, e) := (fix go o (m : gmap string json) := match o with
                       | [] => (m, None)
                       | (k, j) :: o =>
                           let '(j, e) := interface_value j in let '(m, e') := go o (<[k := j]> m) in (m, first_err e e')
                       end) o ∅ in
      (enc_map (λ j, j) m, e)
  | _ => (j, None)
  end.
#[export] Instance json_json : Json json := {| enc := λ j, j; dec := λ j _, interface_value j |}.
Example interface_value_ex : (interface_value (JObj [("b", JNum (2 ^ 53 + 1)); ("a", JArr [JObj []]); ("b", JNull); ("c", JNum (2 ^ 53 + 1))]%string)).1
  = JObj [("a", JArr [JObj []]); ("b", JNull); ("c", JNum (2 ^ 53))]%string.
Proof. vm_compute. reflexivity. Qed.
#[export] Instance json_string : Json string := {| enc := JStr; dec := dec_string |}.
#[export] Instance json_bool : Json bool := {| enc := JBool; dec := dec_bool |}.

(** ** Round trips *)

(** A field is faithful at [a] when its value comes back. *)
Definition faithful {A} (a : A) (f : field A) : Prop :=
  ∀ j b, f_enc f a = Some j → f_dec f j b = (f_copy f a b, None).

Definition copied {A} (a : A) (fs : list (field A)) (b : A) : A :=
  foldl (λ b f, match f_enc f a with Some _ => f_copy f a b | None => b end) b fs.

Lemma find_field_here {A} (fs : list (field A)) f :
  NoDup (f_name <$> fs) → f ∈ fs → find_field fs (f_name f) = Some f.
Proof.
  intros Hnd Hin. unfold find_field.
  destruct (list_find_elem_of (λ g, f_name g = f_name f) fs f Hin eq_refl) as [[i g] Hg].
  rewrite Hg. apply list_find_Some in Hg as (Hg & Hn & _).
  apply list_elem_of_lookup in Hin as [k Hk]. f_equal.
  assert (i = k) as ->; [| congruence].
  apply (NoDup_lookup (f_name <$> fs) i k (f_name f)); [done | |]; rewrite list_lookup_fmap.
  - rewrite Hg. simpl. congruence.
  - rewrite Hk. done.
Qed.

(** Faithful where it is decoded: over what the fields before it left. *)
Fixpoint faithful_from {A} (a : A) (fs : list (field A)) (b : A) : Prop :=
  match fs with
  | [] => True
  | f :: fs => (∀ j, f_enc f a = Some j → f_dec f j b = (f_copy f a b, None)) ∧ faithful_from a fs (copied a [f] b)
  end.

Lemma faithful_all {A} (a : A) fs b : Forall (faithful a) fs → faithful_from a fs b.
Proof. intros H. revert b. induction H as [| f fs Hf _ IH]; intros b; simpl; [done |]. split; [intros j; apply Hf | apply IH]. Qed.

Lemma faithful_app {A} (a : A) fs gs b :
  faithful_from a fs b → faithful_from a gs (copied a fs b) → faithful_from a (fs ++ gs) b.
Proof.
  revert b. induction fs as [| f fs IH]; intros b; simpl; [done |]. intros [Hf Hfs] Hg.
  split; [done |]. apply IH; [done |]. exact Hg.
Qed.

Lemma dec_fields_copied {A} (all fs : list (field A)) (a b : A) :
  NoDup (f_name <$> all) → fs ⊆ all → faithful_from a fs b →
  dec_fields all (omap (λ f, pair (f_name f) <$> f_enc f a) fs) b = (copied a fs b, None).
Proof.
  intros Hnd. revert b. induction fs as [| f fs IH]; intros b Hsub Hf; [done |].
  destruct Hf as [Hf Hfs]. unfold copied in *. simpl in *.
  destruct (f_enc f a) as [j |] eqn:E; simpl; [| apply IH; [set_solver | done]].
  rewrite find_field_here; [| done | set_solver]. rewrite (Hf j eq_refl), IH; [done | set_solver | done].
Qed.

Lemma dec_enc_struct {A} t (fs : list (field A)) (a b : A) :
  NoDup (f_name <$> fs) → faithful_from a fs b →
  dec_struct t fs (enc_struct fs a) b = (copied a fs b, None).
Proof. intros. apply dec_fields_copied; done. Qed.

Lemma plain_faithful {A B} name (get : A → B) set e d a :
  (∀ b, d (e (get a)) b = (get a, None)) → faithful a (plain name get set e d).
Proof. intros H j b [= <-]. simpl. unfold lift_dec. rewrite H. done. Qed.

Lemma omitempty_faithful {A B} name (get : A → B) set em e d a :
  (∀ b, em (get a) = false → d (e (get a)) b = (get a, None)) → faithful a (omitempty name get set em e d).
Proof.
  intros H j b. simpl. destruct (em (get a)) eqn:E; [done |]. intros [= <-].
  unfold lift_dec. rewrite H; done.
Qed.

Lemma embed_faithful {A B} (get : A → B) set f a :
  faithful (get a) f → faithful a (embed get set f).
Proof. intros H j b E. simpl in *. unfold lift_dec. rewrite (H j _ E). done. Qed.

Lemma dec_int_in t lo hi z b : (lo ≤ z ≤ hi)%Z → dec_int t lo hi (JNum z) b = (z, None).
Proof. intros. unfold dec_int. rewrite decide_True; done. Qed.

Lemma dec_enc_elems {A} `{Zero A} (e : A → json) (d : decoder A) l old :
  (∀ a b, a ∈ l → d (e a) b = (a, None)) → dec_elems d (e <$> l) old = (l, None).
Proof.
  revert old. induction l as [| a l IH]; intros old Hl; [done |].
  simpl. rewrite Hl by set_solver. rewrite IH; [done | set_solver].
Qed.
Lemma dec_enc_list {A} `{Zero A} t (e : A → json) (d : decoder A) l old :
  (∀ a b, a ∈ l → d (e a) b = (a, None)) → dec_list t d (enc_list e l) old = (l, None).
Proof. destruct l; [done |]. intros Hl. apply (dec_enc_elems e d (_ :: _)). done. Qed.

Lemma dec_pairs_ok {A} `{Zero A} (e : A → json) (d : decoder A) (o : list (string * A)) m :
  (∀ k a, (k, a) ∈ o → d (e a) zero = (a, None)) → NoDup o.*1 →
  dec_pairs d (prod_map id e <$> o) m = (list_to_map o ∪ m, None).
Proof.
  revert m. induction o as [| [k a] o IH]; intros m Ho Hnd; simpl.
  - by rewrite (left_id_L ∅ _).
  - inversion_clear Hnd. rewrite (Ho k a) by set_solver. rewrite IH; [| set_solver | done].
    rewrite <- insert_union_r, insert_union_l; [done |].
    apply not_elem_of_list_to_map_1. done.
Qed.

Lemma dec_enc_map {A} `{Zero A} t (e : A → json) (d : decoder A) m :
  (∀ k a, m !! k = Some a → d (e a) zero = (a, None)) → dec_map t d (enc_map e m) ∅ = (m, None).
Proof.
  intros Hm. unfold enc_map. simpl.
  assert (∃ o, merge_sort key_le (prod_map id e <$> map_to_list m) = prod_map id e <$> o ∧ o ≡ₚ map_to_list m)
    as (o & -> & Ho).
  { pose proof (merge_sort_Permutation key_le (prod_map id e <$> map_to_list m)) as P.
    apply Permutation_map_inv in P as (o & -> & P). exists o. done. }
  rewrite dec_pairs_ok.
  - rewrite (right_id_L ∅ _). f_equal.
    etrans; [| apply list_to_map_to_list]. apply list_to_map_proper; [| done].
    rewrite Ho. apply NoDup_fst_map_to_list.
  - intros k a Hin. rewrite Ho in Hin. apply elem_of_map_to_list in Hin. eauto.
  - rewrite Ho. apply NoDup_fst_map_to_list.
Qed.

Lemma copied_app {A} (a : A) fs gs b : copied a (fs ++ gs) b = copied a gs (copied a fs b).
Proof. apply foldl_app. Qed.

Lemma copied_plain {A B} (a b : A) name (get : A → B) set e d fs :
  copied a (plain name get set e d :: fs) b = copied a fs (set (get a) b).
Proof. done. Qed.

Lemma copied_omitempty {A B} (a b : A) name (get : A → B) set em e d fs :
  (em (get a) = true → set (get a) b = b) →
  copied a (omitempty name get set em e d :: fs) b = copied a fs (set (get a) b).
Proof. intros H. unfold copied. simpl. destruct (em (get a)); [by rewrite H |]. done. Qed.

Lemma copied_embed {A B} (get : A → B) (set : B → A → A) fs a b :
  (∀ x b, get (set x b) = x) → (∀ b, set (get b) b = b) → (∀ x y b, set x (set y b) = set x b) →
  copied a (embed get set <$> fs) b = set (copied (get a) fs (get b)) b.
Proof.
  intros Hgs Hsg Hss. revert b. induction fs as [| f fs IH]; intros b; [symmetry; apply Hsg |].
  unfold copied in *. simpl. destruct (f_enc f (get a)); [| apply IH].
  rewrite IH, Hgs, Hss. done.
Qed.

Lemma Unmarshal_new_ok {A} `{Json A, Zero A} (j : json) (a : A) :
  dec j zero = (a, None) → Unmarshal_new j = Ok a.
Proof. intros E. unfold Unmarshal_new, Unmarshal. rewrite E. done. Qed.
