(* ===== verification/GoURL.v ===== *)
(** What the code uses of [net/url]: parsing and printing of URLs, query
    values. *)

From S2P Require Import Prelude GoPath GoNet.
From Stdlib Require Import ZArith Lia.

(** ** Escaping *)
Inductive encoding := encodePath | encodeHost | encodeUserPassword | encodeQueryComponent | encodeFragment.
#[export] Instance encoding_eq_dec : EqDecision encoding.
Proof. solve_decision. Defined.

Definition in_chars (c : byte) (s : string) : bool := has c (s2b s).
Definition alphanum (c : byte) : bool :=
  let z := b2z c in
  (bool_decide (65 ≤ z ≤ 90) || bool_decide (97 ≤ z ≤ 122) || bool_decide (48 ≤ z ≤ 57))%Z.

Definition shouldEscape (mode : encoding) (c : byte) : bool :=
  if alphanum c then false
  else if bool_decide (mode = encodeHost) && in_chars c "!$&'()*+,;=:[]" then false
  else if in_chars c "-_.~" then false
  else if in_chars c "$&+,/:;=?@" then
    match mode with
    | encodePath => in_chars c "?"
    | encodeUserPassword => in_chars c "@/?:"
    | encodeQueryComponent => true
    | encodeFragment => false
    | encodeHost => true
    end
  else true.

Definition upper_hex (z : Z) : byte := if decide (z < 10)%Z then z2b (48 + z) else z2b (55 + z).
Definition percent : byte := x25.
Definition plus : byte := x2b.
Definition space : byte := x20.

Definition escape_byte (mode : encoding) (c : byte) : bytes :=
  if shouldEscape mode c then
    if decide (c = space ∧ mode = encodeQueryComponent) then [plus]
    else [percent; upper_hex (b2z c / 16); upper_hex (b2z c mod 16)]
  else [c].
Definition escape (mode : encoding) (s : bytes) : bytes := s ≫= escape_byte mode.

Lemma escape_id mode s : Forall (λ c, shouldEscape mode c = false) s → escape mode s = s.
Proof.
  unfold escape. induction 1 as [| c s Hc _ IH]; [done |]. rewrite bind_cons, IH. unfold escape_byte. by rewrite Hc.
Qed.

(** None: a malformed escape, [EscapeError]. *)
Fixpoint unescape (mode : encoding) (s : bytes) : option bytes :=
  match s with
  | [] => Some []
  | c :: s =>
      if decide (c = percent) then
        match s with
        | h :: l :: s =>
            match unhex_byte h l with
            | Some b => if decide (mode = encodeHost ∧ (b2z b < 128)%Z ∧ b ≠ percent) then None
                        else r ← unescape mode s; Some (b :: r)
            | None => None
            end
        | _ => None
        end
      else r ← unescape mode s;
           Some ((if decide (c = plus ∧ mode = encodeQueryComponent) then space else c) :: r)
  end.

(** ** URLs *)
Record URL := {
  u_Scheme : bytes;
  u_Opaque : bytes;
  u_User : option (bytes * option bytes);      (* user name, and password if set *)
  u_Host : bytes;
  u_Path : bytes;
  u_RawPath : bytes;
  u_RawQuery : bytes;
  u_Fragment : bytes
}.
#[export] Instance URL_eq_dec : EqDecision URL.
Proof. solve_decision. Defined.
#[export] Instance eta_URL : Eta URL := λ u,
  {| u_Scheme := u_Scheme u; u_Opaque := u_Opaque u; u_User := u_User u; u_Host := u_Host u; u_Path := u_Path u;
     u_RawPath := u_RawPath u; u_RawQuery := u_RawQuery u; u_Fragment := u_Fragment u |}.
Definition empty_URL : URL :=
  {| u_Scheme := []; u_Opaque := []; u_User := None; u_Host := []; u_Path := []; u_RawPath := []; u_RawQuery := []; u_Fragment := [] |}.

(** [split(s, c, cutc)] of the package: before the first [c], and the rest. *)
Definition cut (c : byte) (s : bytes) : bytes * bytes :=
  match index_split c s with Some (l, r) => (l, tail r) | None => (s, []) end.
Definition keep_sep (c : byte) (s : bytes) : bytes * bytes :=
  match index_split c s with Some (l, r) => (l, r) | None => (s, []) end.
(** At the last [c]. *)
Definition last_split (c : byte) (s : bytes) : option (bytes * bytes) :=
  match index_split c (reverse s) with
  | Some (p, _ :: h) => Some (reverse h, reverse p)
  | _ => None
  end.

Definition is_alpha (c : byte) : bool := let z := b2z c in (bool_decide (65 ≤ z ≤ 90) || bool_decide (97 ≤ z ≤ 122))%Z.
(** None: "missing protocol scheme".  [pre] is the scheme read so far. *)
Fixpoint scheme_from (raw pre s : bytes) : option (bytes * bytes) :=
  match s with
  | [] => Some ([], raw)
  | c :: s =>
      if is_alpha c then scheme_from raw (pre ++ [c]) s
      else if alphanum c || in_chars c "+-." then
        match pre with [] => Some ([], raw) | _ => scheme_from raw (pre ++ [c]) s end
      else if decide (c = colon) then match pre with [] => None | _ => Some (pre, s) end
      else Some ([], raw)
  end.
Definition getscheme (raw : bytes) : option (bytes * bytes) := scheme_from raw [] raw.

Definition lower (c : byte) : byte := let z := b2z c in if decide (65 ≤ z ≤ 90)%Z then z2b (z + 32) else c.

Definition validOptionalPort (s : bytes) : bool :=
  match s with
  | [] => true
  | c :: s => bool_decide (c = colon) && forallb (λ c, bool_decide (is_Some (dec_val c))) s
  end.
Definition parseHost (h : bytes) : option bytes :=
  match h with
  | x5b :: _ =>                                 (* [ *)
      match last_split x5d h with
      | None => None
      | Some (_, port) => if validOptionalPort port then unescape encodeHost h else None
      end
  | _ => unescape encodeHost h
  end.

Definition parseUserinfo (ui : bytes) : option (bytes * option bytes) :=
  match index_split colon ui with
  | None => u ← unescape encodeUserPassword ui; Some (u, None)
  | Some (u, p) => u ← unescape encodeUserPassword u; p ← unescape encodeUserPassword (tail p); Some (u, Some p)
  end.
Definition parseAuthority (a : bytes) : option (option (bytes * option bytes) * bytes) :=
  match last_split x40 a with
  | None => h ← parseHost a; Some (None, h)
  | Some (ui, h) => h ← parseHost h; u ← parseUserinfo ui; Some (Some u, h)
  end.

(** The part before the fragment. *)
Definition parse_nofrag (raw : bytes) : option URL :=
  if decide (raw = [x2a]) then Some (empty_URL <| u_Path := raw |>)
  else
    '(scheme, rest) ← getscheme raw;
    let '(rest, query) := cut x3f rest in
    let u := empty_URL <| u_Scheme := lower <$> scheme |> <| u_RawQuery := query |> in
    if negb (HasPrefix rest [slash]) && bool_decide (scheme ≠ []) then Some (u <| u_Opaque := rest |>)
    else
      '(u, rest) ←
        (if (bool_decide (scheme ≠ []) || negb (HasPrefix rest [slash; slash; slash])) && HasPrefix rest [slash; slash]
         then let '(authority, rest) := keep_sep slash (drop 2 rest) in
              '(user, host) ← parseAuthority authority;
              Some (u <| u_User := user |> <| u_Host := host |>, rest)
         else Some (u, rest));
      p ← unescape encodePath rest;
      let u := u <| u_Path := p |> in
      Some (if decide (escape encodePath p = rest) then u else u <| u_RawPath := rest |>).

Definition url_Parse (s : string) : res URL :=
  let '(u, frag) := cut x23 (s2b s) in
  match parse_nofrag u, unescape encodeFragment frag with
  | Some u, Some f => Ok (u <| u_Fragment := f |>)
  | _, _ => Err (Errorf ("parse " +:+ s))
  end.

Definition validEncodedPath (s : bytes) : bool :=
  forallb (λ c, in_chars c "!$&'()*+,;=:@[]%" || negb (shouldEscape encodePath c)) s.

Definition EscapedPath (u : URL) : bytes :=
  if negb (bool_decide (u_RawPath u = [])) && validEncodedPath (u_RawPath u)
     && bool_decide (unescape encodePath (u_RawPath u) = Some (u_Path u)) then u_RawPath u
  else if decide (u_Path u = [x2a]) then [x2a]
  else escape encodePath (u_Path u).

Definition Userinfo_bytes (ui : bytes * option bytes) : bytes :=
  escape encodeUserPassword ui.1 ++
  match ui.2 with Some p => colon :: escape encodeUserPassword p | None => [] end.

Definition URL_bytes (u : URL) : bytes :=
  (if decide (u_Scheme u = []) then [] else u_Scheme u ++ [colon]) ++
  (if decide (u_Opaque u ≠ []) then u_Opaque u
   else
     (if decide (u_Scheme u ≠ [] ∨ u_Host u ≠ [] ∨ is_Some (u_User u)) then
        [slash; slash] ++ match u_User u with Some ui => Userinfo_bytes ui ++ [x40] | None => [] end
        ++ escape encodeHost (u_Host u)
      else []) ++
     (let p := EscapedPath u in
      (if decide (p ≠ [] ∧ head p ≠ Some slash ∧ u_Host u ≠ []) then [slash] else []) ++ p)) ++
  (if decide (u_RawQuery u = []) then [] else x3f :: u_RawQuery u) ++
  (if decide (u_Fragment u = []) then [] else x23 :: escape encodeFragment (u_Fragment u)).
Definition URL_String (u : URL) : string := b2s (URL_bytes u).

Example Parse_ex : match url_Parse "HTTP://u:p@h:80/a%2fb/c d?x=1&y=%20#f" with
  | Ok u => (URL_String u, b2s (u_Path u)) = ("http://u:p@h:80/a/b/c%20d?x=1&y=%20#f", "/a/b/c d")
  | Err _ => False
  end.
Proof. vm_compute. reflexivity. Qed.

(** ** Query values *)
Abbreviation Values := (gmap string (list string)).
Definition amp : byte := x26.
Definition semicolon : byte := x3b.
Definition equals : byte := x3d.

Definition Values_Set (k v : string) (m : Values) : Values := <[k := [v]]> m.

Fixpoint segments (s : bytes) : list bytes :=
  match s with
  | [] => [[]]
  | c :: s =>
      if decide (c = amp ∨ c = semicolon) then [] :: segments s
      else match segments s with h :: t => (c :: h) :: t | [] => [[c]] end
  end.

(** Empty and malformed pairs are skipped. *)
Definition parse_pair (seg : bytes) : option (string * string) :=
  if decide (seg = []) then None
  else let '(k, v) := cut equals seg in
       k ← unescape encodeQueryComponent k; v ← unescape encodeQueryComponent v; Some (b2s k, b2s v).
Definition add_pair (m : Values) (kv : string * string) : Values := <[kv.1 := default [] (m !! kv.1) ++ [kv.2]]> m.
Definition ParseQuery (q : bytes) : Values := foldl add_pair ∅ (omap parse_pair (segments q)).
Definition Query (u : URL) : Values := ParseQuery (u_RawQuery u).

Definition string_le (a b : string) : Prop := String.leb a b = true.
#[export] Instance string_le_dec : RelDecision string_le.
Proof. intros a b. apply bool_eq_dec. Defined.
Definition print_pair (kv : string * string) : bytes :=
  escape encodeQueryComponent (s2b kv.1) ++ equals :: escape encodeQueryComponent (s2b kv.2).
Definition pairs_of (m : Values) (ks : list string) : list (string * string) :=
  ks ≫= λ k, pair k <$> default [] (m !! k).
Definition Values_Encode (m : Values) : bytes :=
  join amp (print_pair <$> pairs_of m (merge_sort string_le (elements (dom m)))).

Lemma unescape_escape s : unescape encodeQueryComponent (escape encodeQueryComponent s) = Some s.
Proof.
  induction s as [| c s IH]; [done |].
  change (escape encodeQueryComponent (c :: s)) with (escape_byte encodeQueryComponent c ++ escape encodeQueryComponent s).
  assert (∀ r, unescape encodeQueryComponent (escape_byte encodeQueryComponent c ++ r)
    = b ← unescape encodeQueryComponent r; Some (c :: b)) as -> by (destruct c; reflexivity).
  rewrite IH. done.
Qed.

Lemma escape_plain s : amp ∉ escape encodeQueryComponent s ∧ semicolon ∉ escape encodeQueryComponent s
  ∧ equals ∉ escape encodeQueryComponent s.
Proof.
  assert (∀ c, has amp (escape_byte encodeQueryComponent c) = false ∧ has semicolon (escape_byte encodeQueryComponent c) = false
    ∧ has equals (escape_byte encodeQueryComponent c) = false) as H by (intros []; done).
  unfold escape. setoid_rewrite list_elem_of_bind.
  split_and!; intros (c & Hc & _); destruct (H c) as (H1 & H2 & H3); eapply has_false in Hc; done.
Qed.

Lemma parse_print kv : parse_pair (print_pair kv) = Some kv.
Proof.
  destruct kv as [k v]. unfold parse_pair, print_pair. simpl.
  rewrite decide_False by (intros E; apply (f_equal length) in E; rewrite length_app in E; simpl in E; lia).
  unfold cut. destruct (escape_plain (s2b k)) as (_ & _ & Hk).
  rewrite index_split_at by done. simpl. rewrite !unescape_escape. simpl. by rewrite !b2s_s2b.
Qed.

Lemma segments_app a b : amp ∉ a → semicolon ∉ a → segments (a ++ amp :: b) = a :: segments b.
Proof.
  induction a as [| c a IH]; intros Ha Hs; simpl.
  - done.
  - rewrite decide_False by set_solver. rewrite IH by set_solver. done.
Qed.
Lemma segments_id a : amp ∉ a → semicolon ∉ a → segments a = [a].
Proof.
  induction a as [| c a IH]; intros Ha Hs; simpl; [done |].
  rewrite decide_False by set_solver. rewrite IH by set_solver. done.
Qed.

Lemma parse_join l : omap parse_pair (segments (join amp (print_pair <$> l))) = l.
Proof.
  assert (∀ kv, amp ∉ print_pair kv ∧ semicolon ∉ print_pair kv) as H.
  { intros [k v]. unfold print_pair. destruct (escape_plain (s2b k)) as (? & ? & ?), (escape_plain (s2b v)) as (? & ? & ?).
    assert (amp ≠ equals) by done. assert (semicolon ≠ equals) by done. set_solver. }
  induction l as [| kv l IH]; [done |]. destruct l as [| kv' l].
  - cbn [fmap list_fmap join]. destruct (H kv). rewrite segments_id by done. cbn [omap list_omap]. by rewrite parse_print.
  - cbn [fmap list_fmap] in *. rewrite join_cons by done. destruct (H kv). rewrite segments_app by done.
    cbn [omap list_omap]. rewrite parse_print. by rewrite IH.
Qed.

Lemma foldl_add_same (m : Values) k vs :
  foldl add_pair m (pair k <$> vs) = if decide (vs = []) then m else <[k := default [] (m !! k) ++ vs]> m.
Proof.
  revert m. induction vs as [| v vs IH]; intros m; [done |].
  cbn [fmap list_fmap foldl]. rewrite IH. unfold add_pair at 1 2 3. cbn [fst snd].
  rewrite lookup_insert_eq. rewrite (decide_False (P := v :: vs = [])) by done.
  case_decide as Hv; [by subst |]. rewrite insert_insert_eq. simpl. rewrite <- (assoc_L (++)). done.
Qed.

Lemma foldl_pairs_of (m : Values) ks (r : Values) k :
  NoDup ks → (∀ k, k ∈ ks → r !! k = None) →
  foldl add_pair r (pairs_of m ks) !! k
  = if decide (k ∈ ks ∧ default [] (m !! k) ≠ []) then m !! k else r !! k.
Proof.
  revert r. induction ks as [| a ks IH]; intros r Hnd Hr.
  - rewrite decide_False by set_solver. done.
  - apply NoDup_cons in Hnd as [Ha Hnd]. unfold pairs_of in *. cbn [mbind list_bind]. rewrite foldl_app, foldl_add_same.
    rewrite (Hr a) by set_solver. simpl.
    destruct (m !! a) as [vs |] eqn:Ea; simpl; [destruct (decide (vs = [])) as [-> | Hvs] |].
    + rewrite IH by set_solver. apply decide_ext. split; [set_solver |].
      intros [Hk Hm]. apply elem_of_cons in Hk as [-> | Hk]; [by rewrite Ea in Hm | done].
    + rewrite IH; [| done | intros k' Hk'; rewrite lookup_insert_ne; [apply Hr; set_solver | set_solver]].
      destruct (decide (k = a)) as [-> | Hk].
      * rewrite decide_False by set_solver. rewrite lookup_insert_eq.
        rewrite decide_True by (rewrite Ea; set_solver). done.
      * rewrite lookup_insert_ne by done. apply decide_ext. set_solver.
    + rewrite IH by set_solver. apply decide_ext. split; [set_solver |].
      intros [Hk Hm]. apply elem_of_cons in Hk as [-> | Hk]; [by rewrite Ea in Hm | done].
Qed.

Lemma Query_Encode (m : Values) k :
  ParseQuery (Values_Encode m) !! k = if decide (default [] (m !! k) = []) then None else m !! k.
Proof.
  unfold ParseQuery, Values_Encode. rewrite parse_join. rewrite foldl_pairs_of.
  - rewrite lookup_empty. destruct (m !! k) as [vs |] eqn:E; simpl.
    + destruct (decide (vs = [])); [rewrite decide_False by naive_solver; done |].
      rewrite decide_True; [done |]. split; [| done]. rewrite merge_sort_Permutation, elem_of_elements. by eapply elem_of_dom_2.
    + rewrite decide_False; [done | naive_solver].
  - rewrite merge_sort_Permutation. apply NoDup_elements.
  - intros. apply lookup_empty.
Qed.
