(* ===== verification/GoConv.v ===== *)
(** Conversions of the standard library: [encoding/base64], [strconv.Atoi], the
    conversion of a [float64] to an [int64]. *)

From S2P Require Import Prelude GoPath GoNet GoJson.
From Stdlib Require Import ZArith Lia.
From Stdlib Require SpecFloat.

(** ** Base64, the standard alphabet with padding *)
Definition base64_digit (z : Z) : byte :=
  if decide (z < 26)%Z then z2b (65 + z) else if decide (z < 52)%Z then z2b (71 + z)
  else if decide (z < 62)%Z then z2b (z - 4) else if decide (z = 62)%Z then x2b else x2f.
Fixpoint base64_Encode (b : bytes) : bytes :=
  match b with
  | [] => []
  | [x] =>
      let n := (b2z x * 65536)%Z in
      [base64_digit (n / 262144); base64_digit (n / 4096 mod 64); x3d; x3d]
  | [x; y] =>
      let n := (b2z x * 65536 + b2z y * 256)%Z in
      [base64_digit (n / 262144); base64_digit (n / 4096 mod 64); base64_digit (n / 64 mod 64); x3d]
  | x :: y :: z :: b =>
      let n := (b2z x * 65536 + b2z y * 256 + b2z z)%Z in
      base64_digit (n / 262144) :: base64_digit (n / 4096 mod 64) :: base64_digit (n / 64 mod 64) :: base64_digit (n mod 64)
        :: base64_Encode b
  end.
Example base64_ex : b2s (base64_Encode (s2b "user:pass?")) = "dXNlcjpwYXNzPw=="%string ∧ b2s (base64_Encode (s2b "ab~")) = "YWJ+"%string.
Proof. vm_compute. done. Qed.

(** ** [strconv.Quote]; bytes beyond ASCII are kept as they are. *)
Definition quote_byte (c : byte) : bytes :=
  if decide (c = x22 ∨ c = x5c) then [x5c; c]
  else if decide (c = x07) then s2b "\a" else if decide (c = x08) then s2b "\b" else if decide (c = x0c) then s2b "\f"
  else if decide (c = x0a) then s2b "\n" else if decide (c = x0d) then s2b "\r" else if decide (c = x09) then s2b "\t"
  else if decide (c = x0b) then s2b "\v"
  else if decide (b2z c < 32 ∨ b2z c = 127)%Z then s2b "\x" ++ hex_byte c
  else [c].
Definition Quote (s : bytes) : bytes := x22 :: (s ≫= quote_byte) ++ [x22].

(** ** [strconv.Atoi], for a 64-bit [int] *)
Fixpoint digits_value (acc : Z) (s : bytes) : option Z :=
  match s with
  | [] => Some acc
  | c :: s => if decide (48 ≤ b2z c ≤ 57)%Z then digits_value (acc * 10 + (b2z c - 48)) s else None
  end.
Definition Atoi (s : bytes) : res Z :=
  let failed what := Err (Errorf ("strconv.ParseInt: parsing " +:+ b2s (Quote s) +:+ ": " +:+ what)) in
  let '(neg, digits) :=
    match s with
    | c :: s' => if decide (c = x2d) then (true, s') else if decide (c = x2b) then (false, s') else (false, s)
    | [] => (false, [])
    end in
  match digits with
  | [] => failed "invalid syntax"
  | _ =>
      match digits_value 0 digits with
      | None => failed "invalid syntax"
      | Some n =>
          let z := if neg : bool then (- n)%Z else n in
          if decide (- 2 ^ 63 ≤ z < 2 ^ 63)%Z then Ok z else failed "value out of range"
      end
  end.
Example Atoi_ex : Atoi (s2b "-1184") = Ok (-1184)%Z ∧ Atoi (s2b "9223372036854775808")
  = Err (Errorf ("strconv.ParseInt: parsing " +:+ b2s [x22] +:+ "9223372036854775808" +:+ b2s [x22] +:+ ": value out of range")) ∧ ∃ e, Atoi (s2b "12a") = Err e.
Proof. vm_compute. split_and!; [done | done | by eexists]. Qed.

(** ** [int64] of a [float64]: towards zero; the processor's "integer indefinite"
    for what does not fit. *)
Definition int64_of_float (f : float64) : Z :=
  match f with
  | SpecFloat.S754_finite s m e =>
      let a := if decide (0 ≤ e)%Z then (Z.pos m * 2 ^ e)%Z else (Z.pos m / 2 ^ (- e))%Z in
      let z := if s then (- a)%Z else a in
      if decide (- 2 ^ 63 ≤ z < 2 ^ 63)%Z then z else (- 2 ^ 63)%Z
  | SpecFloat.S754_zero _ => 0%Z
  | _ => (- 2 ^ 63)%Z
  end.
Definition float64_mul : float64 → float64 → float64 := SpecFloat.SFmul 53 1024.
Definition float64_div : float64 → float64 → float64 := SpecFloat.SFdiv 53 1024.
