(* ===== verification/GoBinary.v ===== *)
(** Structures of fixed size as bytes ([encoding/binary]), and the functions of
    [crypto/md5] and [hash/adler32].

    A [layout A] is how [binary.Write] and [binary.Read] lay out a type: its
    size, the two directions, and which values have a place in it (a number fits
    its width, an array has its length), with the laws that relate them.  Layouts
    of structures are made of those of their fields. *)

From S2P Require Import Prelude.
From Stdlib Require Import ZArith Lia.

(** [binary.LittleEndian] *)
Definition le_put (n : nat) (z : Z) : bytes := reverse (be_put n z).
Definition le_get (b : bytes) : Z := be_get (reverse b).

Lemma length_le_put n z : length (le_put n z) = n.
Proof. unfold le_put. by rewrite length_reverse, length_be_put. Qed.
Lemma le_get_put n z : le_get (le_put n z) = (z mod 256 ^ Z.of_nat n)%Z.
Proof. unfold le_get, le_put. by rewrite reverse_involutive, be_get_put. Qed.
Lemma le_put_get n b : length b = n → le_put n (le_get b) = b.
Proof. intros Hb. unfold le_put, le_get. rewrite be_put_get by by rewrite length_reverse. apply reverse_involutive. Qed.
Lemma le_get_range b : (0 ≤ le_get b < 256 ^ Z.of_nat (length b))%Z.
Proof. unfold le_get. rewrite <- length_reverse. apply be_get_range. Qed.

(** ** Layouts *)
Record layout (A : Type) := Layout {
  l_size : nat;
  l_put : A → bytes;
  l_get : bytes → A;
  l_ok : A → Prop;
  l_put_size : ∀ a, l_ok a → length (l_put a) = l_size;
  l_get_ok : ∀ b, length b = l_size → l_ok (l_get b);
  l_get_put : ∀ a, l_ok a → l_get (l_put a) = a;
  l_put_get : ∀ b, length b = l_size → l_put (l_get b) = b
}.
Arguments Layout {A} l_size l_put l_get l_ok.
Arguments l_size {A} _.
Arguments l_put {A} _ _.
Arguments l_get {A} _ _.
Arguments l_ok {A} _ _.
Arguments l_put_size {A} _ _ _.
Arguments l_get_ok {A} _ _ _.
Arguments l_get_put {A} _ _ _.
Arguments l_put_get {A} _ _ _.

Definition fits (n : nat) (z : Z) : Prop := (0 ≤ z < 256 ^ Z.of_nat n)%Z.
#[global] Instance fits_dec n z : Decision (fits n z).
Proof. unfold fits. apply _. Defined.

Program Definition u8 : layout byte := Layout 1 (λ x, [x]) (λ b, default x00 (head b)) (λ _, True) _ _ _ _.
Next Obligation. done. Qed.
Next Obligation. done. Qed.
Next Obligation. done. Qed.
Next Obligation. intros [| x [|]]; simpl; (done || lia). Qed.

Program Definition le (n : nat) : layout Z := Layout n (le_put n) le_get (fits n) _ _ _ _.
Next Obligation. intros. apply length_le_put. Qed.
Next Obligation. intros n b <-. apply le_get_range. Qed.
Next Obligation. intros n a Ha. simpl. rewrite le_get_put. by apply Z.mod_small. Qed.
Next Obligation. intros. by apply le_put_get. Qed.

Program Definition be (n : nat) : layout Z := Layout n (be_put n) be_get (fits n) _ _ _ _.
Next Obligation. intros. apply length_be_put. Qed.
Next Obligation. intros n b <-. apply be_get_range. Qed.
Next Obligation. intros n a Ha. simpl. rewrite be_get_put. by apply Z.mod_small. Qed.
Next Obligation. intros. by apply be_put_get. Qed.

(** An array of bytes. *)
Program Definition arr (n : nat) : layout bytes := Layout n id id (λ b, length b = n) _ _ _ _.
Next Obligation. done. Qed.
Next Obligation. done. Qed.
Next Obligation. done. Qed.
Next Obligation. done. Qed.

Program Definition unit_layout : layout () := Layout 0 (λ _, []) (λ _, tt) (λ _, True) _ _ _ _.
Next Obligation. done. Qed.
Next Obligation. done. Qed.
Next Obligation. by intros []. Qed.
Next Obligation. by intros []. Qed.

(** One field after another. *)
Program Definition pair_layout {A B} (l : layout A) (r : layout B) : layout (A * B) :=
  Layout (l_size l + l_size r) (λ ab, l_put l ab.1 ++ l_put r ab.2)
    (λ b, (l_get l (take (l_size l) b), l_get r (drop (l_size l) b))) (λ ab, l_ok l ab.1 ∧ l_ok r ab.2) _ _ _ _.
Next Obligation. intros A B l r [a b] [Ha Hb]. simpl in *. by rewrite length_app, !l_put_size. Qed.
Next Obligation.
  intros A B l r b Hb. simpl. split; apply l_get_ok; [rewrite length_take | rewrite length_drop]; lia.
Qed.
Next Obligation.
  intros A B l r [a b] [Ha Hb]. simpl in *. pose proof (l_put_size l a Ha) as Hl. rewrite <- Hl.
  rewrite take_app_length, drop_app_length. by rewrite !l_get_put.
Qed.
Next Obligation.
  intros A B l r b Hb. simpl. rewrite !l_put_get; [apply take_drop | rewrite length_drop; lia | rewrite length_take; lia].
Qed.
Infix "××" := pair_layout (at level 60, right associativity) : go_scope.

(** A structure, as a tuple of its fields. *)
Program Definition struct {A B} (l : layout B) (f : A → B) (g : B → A) (fg : ∀ b, f (g b) = b) (gf : ∀ a, g (f a) = a) : layout A :=
  Layout (l_size l) (λ a, l_put l (f a)) (λ b, g (l_get l b)) (λ a, l_ok l (f a)) _ _ _ _.
Next Obligation. intros. by apply l_put_size. Qed.
Next Obligation. intros A B l f g fg gf b Hb. simpl. rewrite fg. by apply l_get_ok. Qed.
Next Obligation. intros A B l f g fg gf a Ha. simpl. by rewrite l_get_put. Qed.
Next Obligation. intros A B l f g fg gf b Hb. simpl. rewrite fg. by apply l_put_get. Qed.

(** [binary.Write] to a buffer, and [binary.Read]: the value and what is left
    to read. *)
Definition binary_Write {A} (l : layout A) (a : A) : bytes := l_put l a.
Definition binary_Read {A} (l : layout A) (b : bytes) : res (A * bytes) :=
  if decide (l_size l ≤ length b) then Ok (l_get l (take (l_size l) b), drop (l_size l) b)
  else Err (if decide (b = []) then EOF else ErrUnexpectedEOF).

Lemma binary_Read_Write {A} (l : layout A) a b : l_ok l a → binary_Read l (binary_Write l a ++ b) = Ok (a, b).
Proof.
  intros Ha. unfold binary_Read, binary_Write. pose proof (l_put_size l a Ha) as Hl.
  rewrite decide_True by (rewrite length_app; lia). rewrite <- Hl at 1 2. rewrite take_app_length, drop_app_length.
  by rewrite l_get_put.
Qed.
Lemma binary_Read_short {A} (l : layout A) b : length b < l_size l →
  binary_Read l b = Err (if decide (b = []) then EOF else ErrUnexpectedEOF).
Proof. intros Hb. unfold binary_Read. by rewrite decide_False by lia. Qed.
Lemma binary_Read_inv {A} (l : layout A) b a r : binary_Read l b = Ok (a, r) → b = binary_Write l a ++ r ∧ l_ok l a.
Proof.
  unfold binary_Read, binary_Write. case_decide as Hl; [| done]. intros [= <- <-].
  assert (length (take (l_size l) b) = l_size l) as Ht by (rewrite length_take; lia).
  split; [| by apply l_get_ok]. rewrite l_put_get by done. by rewrite take_drop.
Qed.

(** ** [crypto/md5] *)
Module Md5.
Open Scope Z_scope.
Definition w32 (z : Z) : Z := z mod 2 ^ 32.
Definition rotl (n x : Z) : Z := Z.lor (w32 (Z.shiftl x n)) (Z.shiftr x (32 - n)).

(** 32 bits of the sines of 1 to 64. *)
Definition K : list Z := [
  0xd76aa478; 0xe8c7b756; 0x242070db; 0xc1bdceee; 0xf57c0faf; 0x4787c62a; 0xa8304613; 0xfd469501;
  0x698098d8; 0x8b44f7af; 0xffff5bb1; 0x895cd7be; 0x6b901122; 0xfd987193; 0xa679438e; 0x49b40821;
  0xf61e2562; 0xc040b340; 0x265e5a51; 0xe9b6c7aa; 0xd62f105d; 0x02441453; 0xd8a1e681; 0xe7d3fbc8;
  0x21e1cde6; 0xc33707d6; 0xf4d50d87; 0x455a14ed; 0xa9e3e905; 0xfcefa3f8; 0x676f02d9; 0x8d2a4c8a;
  0xfffa3942; 0x8771f681; 0x6d9d6122; 0xfde5380c; 0xa4beea44; 0x4bdecfa9; 0xf6bb4b60; 0xbebfbc70;
  0x289b7ec6; 0xeaa127fa; 0xd4ef3085; 0x04881d05; 0xd9d4d039; 0xe6db99e5; 0x1fa27cf8; 0xc4ac5665;
  0xf4292244; 0x432aff97; 0xab9423a7; 0xfc93a039; 0x655b59c3; 0x8f0ccc92; 0xffeff47d; 0x85845dd1;
  0x6fa87e4f; 0xfe2ce6e0; 0xa3014314; 0x4e0811a1; 0xf7537e82; 0xbd3af235; 0x2ad7d2bb; 0xeb86d391].
Definition shifts : list Z :=
  mjoin (mjoin ∘ replicate 4 <$> [[7; 12; 17; 22]; [5; 9; 14; 20]; [4; 11; 16; 23]; [6; 10; 15; 21]]).

Definition not32 (x : Z) : Z := Z.lxor x (2 ^ 32 - 1).
(** The mixing function and the word of the block, by the number of the round. *)
Definition mix (i b c d : Z) : Z :=
  if decide (i < 16) then Z.lor (Z.land b c) (Z.land (not32 b) d)
  else if decide (i < 32) then Z.lor (Z.land d b) (Z.land (not32 d) c)
  else if decide (i < 48) then Z.lxor (Z.lxor b c) d
  else Z.lxor c (Z.lor b (not32 d)).
Definition word_of (i : Z) : Z :=
  if decide (i < 16) then i
  else if decide (i < 32) then (5 * i + 1) mod 16
  else if decide (i < 48) then (3 * i + 5) mod 16
  else (7 * i) mod 16.

Definition state : Type := Z * Z * Z * Z.
Definition round (block : list Z) (s : state) (ik : Z * (Z * Z)) : state :=
  let '(a, b, c, d) := s in
  let '(i, (k, n)) := ik in
  let f := w32 (mix i b c d + a + k + default 0 (block !! Z.to_nat (word_of i))) in
  (d, w32 (b + rotl n f), b, c).
Definition compress (s : state) (block : list Z) : state :=
  let '(a, b, c, d) := s in
  let '(a', b', c', d') := foldl (round block) s (zip (seqZ 0 64) (zip K shifts)) in
  (w32 (a + a'), w32 (b + b'), w32 (c + c'), w32 (d + d')).

Fixpoint chunks {A} (n : nat) (fuel : nat) (l : list A) : list (list A) :=
  match fuel, l with
  | O, _ | _, [] => []
  | S fuel, _ => take n l :: chunks n fuel (drop n l)
  end.
Definition pad (m : bytes) : bytes :=
  let n := length m in
  m ++ x80 :: replicate (Z.to_nat ((55 - Z.of_nat n) mod 64)) x00 ++ le_put 8 (8 * Z.of_nat n).

Definition Sum (m : bytes) : bytes :=
  let p := pad m in
  let ws := le_get <$> chunks 4 (length p) p in
  let '(a, b, c, d) := foldl compress (0x67452301, 0xefcdab89, 0x98badcfe, 0x10325476) (chunks 16 (length ws) ws) in
  le_put 4 a ++ le_put 4 b ++ le_put 4 c ++ le_put 4 d.

Example Md5_empty : b2s (fmt_x (Sum [])) = "d41d8cd98f00b204e9800998ecf8427e"%string.
Proof. vm_compute. reflexivity. Qed.
Example Md5_long : b2s (fmt_x (Sum (s2b "12345678901234567890123456789012345678901234567890123456789012345678901234567890")))
  = "57edf4a22be3c955ac49da2e2107b67a"%string.
Proof. vm_compute. reflexivity. Qed.

Lemma length_Sum m : length (Sum m) = 16%nat.
Proof. unfold Sum. destruct (foldl compress _ _) as [[[a b] c] d]. by rewrite !length_app, !length_le_put. Qed.
End Md5.

(** ** [hash/adler32] *)
Definition adler32 (m : bytes) : Z :=
  let '(a, b) := foldl (λ '(a, b) x, let a := (a + b2z x) mod 65521 in (a, (b + a) mod 65521))%Z (1, 0)%Z m in
  (b * 65536 + a)%Z.
Example adler32_ex : adler32 (s2b "Wikipedia") = 0x11e60398%Z.
Proof. vm_compute. reflexivity. Qed.

Lemma adler32_fits m : fits 4 (adler32 m).
Proof.
  unfold adler32. assert (∀ l a b, (0 ≤ a < 65521 → 0 ≤ b < 65521 →
    let '(a, b) := foldl (λ '(a, b) x, let a := (a + b2z x) mod 65521 in (a, (b + a) mod 65521)) (a, b) l in
    0 ≤ a < 65521 ∧ 0 ≤ b < 65521)%Z) as Hl.
  { induction l as [| x l IH]; intros a b Ha Hb; [done |]. cbn [foldl]. apply IH; apply Z.mod_pos_bound; lia. }
  specialize (Hl m 1 0 ltac:(lia) ltac:(lia))%Z. destruct (foldl _ _ m) as [a b]. unfold fits. simpl. lia.
Qed.

(** ** [encoding/hex] *)
Fixpoint hex_DecodeString (s : bytes) : res bytes :=
  match s with
  | [] => Ok []
  | h :: l :: s =>
      match unhex_byte h l with
      | Some b => r :=? hex_DecodeString s;; Ok (b :: r)
      | None => Err (Errorf "encoding/hex: invalid byte")
      end
  | _ => Err (Errorf "encoding/hex: odd length hex string")
  end.
Lemma hex_DecodeString_fmt b : hex_DecodeString (fmt_x b) = Ok b.
Proof.
  induction b as [| x b IH]; [done |]. cbn [fmt_x]. pose proof (unhex_hex_byte x) as Hx.
  unfold hex_byte in *. cbn [app hex_DecodeString]. rewrite Hx, IH. done.
Qed.
