(* ===== verification/IpmiCode.v ===== *)
(** The completion codes of the IPMI library, [goipmi/completion_code.go]: the
    first byte of the data of every response, which is an error when it is not
    zero. *)

From S2P Require Import Prelude.
From Stdlib Require Import ZArith Lia.

Abbreviation CompletionCode := byte.

Definition CommandCompleted : CompletionCode := x00.
Definition CodeInvalidCommand : CompletionCode := xc1.
Definition CodeShortPacket : CompletionCode := xc7.
Definition CodeInvalidPacket : CompletionCode := xcc.
Definition CodePrivLevel : CompletionCode := xd4.
Definition CodeUnspecified : CompletionCode := xff.

(* @vendor/goipmi/completion_code.go:38-63 completionCodes *)
Definition completionCodes : gmap byte string := list_to_map [
  (x00, "Command completed normally");
  (xc0, "Node busy");
  (xc1, "Unrecognized or unsupported command");
  (xc2, "Command invalid for given LUN");
  (xc3, "Timeout while processing command");
  (xc4, "Out of space");
  (xc5, "Reservation canceled or invalid reservation ID");
  (xc6, "Request data truncated");
  (xc7, "Request data length invalid");
  (xc8, "Request data field length limit exceeded");
  (xc9, "Parameter out of range");
  (xca, "Cannot return number of requested data bytes");
  (xcb, "Requested sensor, data, or record not present");
  (xcc, "Invalid data field in request");
  (xcd, "Command illegal for specified sensor or record type");
  (xce, "Command response could not be provided");
  (xcf, "Cannot execute duplicated request");
  (xd0, "SDR repository in update mode");
  (xd1, "Device in firmware update mode");
  (xd2, "BMC initialization or initialization agent running");
  (xd3, "Destination unavailable");
  (xd4, "Insufficient privilege level");
  (xd5, "Command or param not supported in present state");
  (xff, "Unspecified error")]%string.

(** [%X] of a [uint8]: no leading zero. *)
Definition upper_digit (z : Z) : byte := if decide (z < 10)%Z then z2b (48 + z) else z2b (55 + z).
Definition fmt_X (b : byte) : bytes :=
  let z := b2z b in
  if decide (z < 16)%Z then [upper_digit z] else [upper_digit (z / 16); upper_digit (z mod 16)].

(* @vendor/goipmi/completion_code.go:70-76 CompletionCode.Error *)
Definition CompletionCode_Error (c : CompletionCode) : string :=
  match completionCodes !! c with
  | Some s => s
  | None => "Completion Code: " +:+ b2s (fmt_X c)
  end.
Example CompletionCode_ex : CompletionCode_Error xcc = "Invalid data field in request"%string ∧ CompletionCode_Error xa1 = "Completion Code: A1"%string
  ∧ CompletionCode_Error x0b = "Completion Code: B"%string.
Proof. vm_compute. done. Qed.
