(* ===== verification/DcpCommon.v ===== *)
(** Package [dcp/common], and [dcp/errors]: the documents every service
    exchanges, task states, error responses, the address flag. *)

From S2P Require Import Prelude GoPath GoJson IpmiCode.
From Stdlib Require Import ZArith Lia.

(** ** The text of an error: [err.Error()] *)
Definition Error (e : error) : string :=
  match e with
  | ErrNotExist => "file does not exist"
  | ErrExist => "file already exists"
  | ErrPermission => "permission denied"
  | ErrInvalid => "invalid argument"
  | EOF => "EOF"
  | ErrUnexpectedEOF => "unexpected EOF"
  | ErrShortPacket => "dhcpv4: short packet"
  | ErrInvalidPacket => "dhcpv4: invalid packet"
  | ErrNoPXEClient => "slingshot: not a PXE client"
  | ErrNoIPXEClient => "slingshot: not an iPXE client"
  | ErrNoOption175 => "slingshot: expected option 175 to contain iPXE configuration"
  | ErrInvalidPath => "slingshot: tftp mux invalid path"
  | ErrPathExists => "slingshot: tftp mux path exists"
  | ErrNoPath => "slingshot: tftp mux path does not exist"
  | ErrNoImage => "no image configured"
  | ErrBodyNotSet => "operation: body is not set"
  | ErrBodyIncompatibleType => "operation: body has incompatible type"
  | ErrStageBackwards => "service: processing stage cannot move backwards"
  | ErrTimeout => "timeout"
  | errOpcode => "invalid opcode"
  | errMode => "invalid mode"
  | ErrUnsupportedDiskType => "dcp: unsupported disk type"
  | ErrUnsupportedRequestType => "unsupported ComputeInstanceRequest.InstanceRequestType"
  | MethodNotAllowed _ => "http: Method Not Allowed"
  | Completion code => CompletionCode_Error code
  | DeadlineExceeded => "context deadline exceeded"
  | NetError msg => msg
  | Errorf msg => msg
  end.

(** ** Service documents *)
(* @dcp/common/service_document.go:7-16 ServiceDocument *)
Record ServiceDocument := {
  sd_Description : string;
  sd_Version : Z;
  sd_Kind : string;
  sd_SelfLink : string;
  sd_Signature : string;
  sd_UpdateTimeMicros : Z;
  sd_ExpirationTimeMicros : Z;
  sd_Owner : string
}.
#[export] Instance zero_ServiceDocument : Zero ServiceDocument :=
  {| sd_Description := ""; sd_Version := 0; sd_Kind := ""; sd_SelfLink := ""; sd_Signature := "";
     sd_UpdateTimeMicros := 0; sd_ExpirationTimeMicros := 0; sd_Owner := "" |}.

Definition str_empty (s : string) : bool := String.eqb s "".
Definition int_empty (z : Z) : bool := Z.eqb z 0.

#[export] Instance eta_ServiceDocument : Eta ServiceDocument := λ d,
  {| sd_Description := sd_Description d; sd_Version := sd_Version d; sd_Kind := sd_Kind d;
     sd_SelfLink := sd_SelfLink d; sd_Signature := sd_Signature d; sd_UpdateTimeMicros := sd_UpdateTimeMicros d;
     sd_ExpirationTimeMicros := sd_ExpirationTimeMicros d; sd_Owner := sd_Owner d |}.

(** Fields of the common kinds. *)
Definition list_empty {A} (l : list A) : bool := match l with [] => true | _ => false end.
Definition str_field {A} n (g : A → string) s := omitempty n g s str_empty JStr dec_string.
Definition int_field {A} n (g : A → Z) s := omitempty n g s int_empty JNum dec_int64.
Definition strs_field {A} n (g : A → list string) s := omitempty n g s list_empty (enc_list JStr) (dec_list "[]string" dec_string).
Definition map_field {A} n (g : A → gmap string string) s :=
  omitempty n g s (λ m, Nat.eqb (size m) 0) (enc_map JStr) (dec_map "map[string]string" dec_string).

Definition ServiceDocument_fields : list (field ServiceDocument) :=
  let str n g s := omitempty n g s str_empty JStr dec_string in
  let int n g s := omitempty n g s int_empty JNum dec_int64 in
  [ str "documentDescription" sd_Description (λ x d, d <| sd_Description := x |>);
    int "documentVersion" sd_Version (λ x d, d <| sd_Version := x |>);
    str "documentKind" sd_Kind (λ x d, d <| sd_Kind := x |>);
    str "documentSelfLink" sd_SelfLink (λ x d, d <| sd_SelfLink := x |>);
    str "documentSignature" sd_Signature (λ x d, d <| sd_Signature := x |>);
    int "documentUpdateTimeMicros" sd_UpdateTimeMicros (λ x d, d <| sd_UpdateTimeMicros := x |>);
    int "documentExpirationTimeMicros" sd_ExpirationTimeMicros (λ x d, d <| sd_ExpirationTimeMicros := x |>);
    str "documentOwner" sd_Owner (λ x d, d <| sd_Owner := x |>) ].

#[export] Instance json_ServiceDocument : Json ServiceDocument :=
  {| enc := enc_struct ServiceDocument_fields; dec := dec_struct "common.ServiceDocument" ServiceDocument_fields |}.

(** The integers of a document fit their type. *)
Definition int64 (z : Z) : Prop := (-2 ^ 63 ≤ z ≤ 2 ^ 63 - 1)%Z.
(** Go's [int64] wraps around on overflow. *)
Definition wrap64 (z : Z) : Z := ((z + 2 ^ 63) mod 2 ^ 64 - 2 ^ 63)%Z.
Lemma wrap64_id z : int64 z → wrap64 z = z.
Proof. unfold int64, wrap64. intros. rewrite Z.mod_small; lia. Qed.
Lemma wrap64_int64 z : int64 (wrap64 z).
Proof. unfold int64, wrap64. pose proof (Z.mod_pos_bound (z + 2 ^ 63) (2 ^ 64)). lia. Qed.
Definition document_ok (d : ServiceDocument) : Prop :=
  int64 (sd_Version d) ∧ int64 (sd_UpdateTimeMicros d) ∧ int64 (sd_ExpirationTimeMicros d).

(** A query result; the type of the documents is that of the query. *)
(* @dcp/common/service_document.go:18-28 ServiceDocumentQueryResult *)
Record ServiceDocumentQueryResult (A : Type) := {
  qr_ServiceDocument : ServiceDocument;
  qr_DocumentLinks : list string;
  qr_Documents : gmap string A
}.
Arguments qr_ServiceDocument {A} _.
Arguments qr_DocumentLinks {A} _.
Arguments qr_Documents {A} _.
#[export] Instance zero_QueryResult A : Zero (ServiceDocumentQueryResult A) :=
  {| qr_ServiceDocument := zero; qr_DocumentLinks := []; qr_Documents := (∅ : gmap string A) |}.

Definition QueryResult_fields {A} `{Zero A, Json A} : list (field (ServiceDocumentQueryResult A)) :=
  (embed qr_ServiceDocument (λ x r, {| qr_ServiceDocument := x; qr_DocumentLinks := qr_DocumentLinks r; qr_Documents := qr_Documents r |}) <$> ServiceDocument_fields)
  ++ [ omitempty "documentLinks" qr_DocumentLinks (λ x r, {| qr_ServiceDocument := qr_ServiceDocument r; qr_DocumentLinks := x; qr_Documents := qr_Documents r |})
         (λ l, bool_decide (l = [])) (enc_list JStr) (dec_list "[]string" dec_string);
       omitempty "documents" qr_Documents (λ x r, {| qr_ServiceDocument := qr_ServiceDocument r; qr_DocumentLinks := qr_DocumentLinks r; qr_Documents := x |})
         (λ m, Nat.eqb (size m) 0) (enc_map enc) (dec_map "map" dec) ].
#[export] Instance json_QueryResult {A} `{Zero A, Json A} : Json (ServiceDocumentQueryResult A) :=
  {| enc := enc_struct QueryResult_fields; dec := dec_struct "ServiceDocumentQueryResult" QueryResult_fields |}.

(* @dcp/common/service_document.go:32-34 QueryTask *)
Record QueryTask (A : Type) := { qt_Results : ServiceDocumentQueryResult A }.
Arguments qt_Results {A} _.
#[export] Instance zero_QueryTask A : Zero (QueryTask A) := {| qt_Results := zero |}.
Definition QueryTask_fields {A} `{Zero A, Json A} : list (field (QueryTask A)) :=
  [ plain "results" qt_Results (λ x _, {| qt_Results := x |}) enc dec ].
#[export] Instance json_QueryTask {A} `{Zero A, Json A} : Json (QueryTask A) :=
  {| enc := enc_struct QueryTask_fields; dec := dec_struct "QueryTask" QueryTask_fields |}.

(* @dcp/common/service_host_state.go:3-17 ServiceHostState *)
Record ServiceHostState := {
  shs_ServiceDocument : ServiceDocument;
  shs_BindAddress : string;
  shs_HTTPPort : Z;
  shs_MaintenanceInterval : Z;
  shs_OperationTimeout : Z;
  shs_StorageSandboxFile : string;
  shs_AuthorizationService : string;
  shs_ID : string;
  shs_Started : bool;
  shs_SystemHostInfo : gmap string json;
  shs_LastMaintenanceTime : Z;
  shs_PendingMaintenanceOperations : Z;
  shs_ProcessOwner : bool
}.

(* @dcp/common/system_host_info.go:3-11 SystemHostInfo *)
Record SystemHostInfo := {
  shi_Properties : gmap string string;
  shi_Environment : gmap string string;
  shi_AvailableProcessorCount : Z;
  shi_FreeMemoryByteCount : Z;
  shi_TotalMemoryByteCount : Z;
  shi_MaxMemoryByteCount : Z;
  shi_IPAddresses : list string
}.

(* @dcp/common/node_state.go:3-9 NodeState *)
Record NodeState := {
  ns_GroupReference : string;
  ns_MembershipAgentReference : string;
  ns_SystemHostInfo : SystemHostInfo;
  ns_ID : string;
  ns_Status : string
}.

(** ** Error responses *)
(* @dcp/common/service_error_response.go:3-7 ServiceErrorResponse *)
Record ServiceErrorResponse := {
  ser_Message : string;
  ser_StackTrace : list string;
  ser_StatusCode : Z
}.

(** The complete lines of [runtime.Stack]'s text, each cut two bytes short of
    its newline; slicing an empty line panics. *)
Definition newline : byte := x0a.
Fixpoint lines (s : bytes) : list bytes :=
  match index_split newline s with
  | None => []
  | Some _ =>
      match s with
      | [] => []
      | c :: s' => if decide (c = newline) then [c] :: lines s'
                   else match lines s' with h :: t => (c :: h) :: t | [] => [] end
      end
  end.

Fixpoint stack_lines (ls : list bytes) : outcome (list string) :=
  match ls with
  | [] => Ret []
  | l :: ls => if decide (length l < 2) then Panic
               else out_bind (stack_lines ls) (λ r, Ret (b2s (take (length l - 2) l) :: r))
  end.

(** [stack] is what [runtime.Stack] printed, at most 4096 bytes. *)
(* @dcp/common/helpers.go:9-27 ToServerErrorResponse *)
Definition ToServerErrorResponse (stack : bytes) (err : error) : outcome ServiceErrorResponse :=
  out_bind (stack_lines (lines (take 4096 stack))) (λ tr,
    Ret {| ser_Message := Error err; ser_StackTrace := tr; ser_StatusCode := 0 |}).

(** ** Task states *)
Abbreviation TaskStage := string.
(* @dcp/common/task_state.go:6-6 TaskStageCreated *)
Definition TaskStageCreated : TaskStage := "CREATED".
(* @dcp/common/task_state.go:7-7 TaskStageStarted *)
Definition TaskStageStarted : TaskStage := "STARTED".
(* @dcp/common/task_state.go:8-8 TaskStageFinished *)
Definition TaskStageFinished : TaskStage := "FINISHED".
(* @dcp/common/task_state.go:9-9 TaskStageFailed *)
Definition TaskStageFailed : TaskStage := "FAILED".
(* @dcp/common/task_state.go:10-10 TaskStageCancelled *)
Definition TaskStageCancelled : TaskStage := "CANCELLED".

(* @dcp/common/task_state.go:13-17 TaskState *)
Record TaskState := {
  ts_Stage : TaskStage;
  ts_Direct : bool;
  ts_Failure : option ServiceErrorResponse
}.
#[export] Instance eta_TaskState : Eta TaskState := λ t,
  {| ts_Stage := ts_Stage t; ts_Direct := ts_Direct t; ts_Failure := ts_Failure t |}.

(* @dcp/common/task_state.go:19-21 NewTaskState *)
Definition NewTaskState : TaskState := {| ts_Stage := ""; ts_Direct := false; ts_Failure := None |}.

(* @dcp/common/task_state.go:23-25 TaskState.SetStage *)
Definition TaskState_SetStage (stage : TaskStage) (t : TaskState) : TaskState := t <| ts_Stage := stage |>.

(* @dcp/common/task_state.go:27-30 TaskState.SetFailure *)
Definition TaskState_SetFailure (stack : bytes) (err : error) (t : TaskState) : outcome TaskState :=
  out_bind (ToServerErrorResponse stack err) (λ r, Ret (t <| ts_Stage := TaskStageFailed |> <| ts_Failure := Some r |>)).

(** ** Paths *)
(* @dcp/common/paths.go:4-4 Core *)
Definition Core : string := "/core".
(* @dcp/common/paths.go:6-8 Management *)
Definition Management : string := Core +:+ "/management".
Definition ProcessLog : string := Management +:+ "/process-log".
Definition SystemLog : string := Management +:+ "/system-log".
(* @dcp/common/paths.go:10-10 ODataQuery *)
Definition ODataQuery : string := Core +:+ "/odata-queries".
(* @dcp/common/paths.go:12-15 DefaultNodeGroup *)
Definition NodeGroupFactory : string := Core +:+ "/node-groups".
Definition DefaultNodeGroupName : string := "default".
Definition DefaultNodeGroup : string := NodeGroupFactory +:+ "/" +:+ DefaultNodeGroupName.

(** ** The address flag *)
(* @dcp/common/address_flag.go:8-11 AddressFlag *)
Record AddressFlag := { af_host : string; af_port : string }.

(* @dcp/common/address_flag.go:13-20 AddressFlag.Host *)
Definition AddressFlag_Host (f : AddressFlag) : string := if str_empty (af_host f) then "127.0.0.1" else af_host f.

(* @dcp/common/address_flag.go:22-29 AddressFlag.Port *)
Definition AddressFlag_Port (f : AddressFlag) : string := if str_empty (af_port f) then "19000" else af_port f.

(* @dcp/common/address_flag.go:31-33 AddressFlag.String *)
Definition AddressFlag_String (f : AddressFlag) : string := AddressFlag_Host f +:+ ":" +:+ AddressFlag_Port f.

(** [net.SplitHostPort] *)
Definition contains (c : byte) (s : bytes) : bool := existsb (Byte.eqb c) s.
Definition last_colon (s : bytes) : option (bytes * bytes) :=
  match index_split x3a (reverse s) with
  | Some (p, _ :: h) => Some (reverse h, reverse p)
  | _ => None
  end.
Definition AddrError (msg : string) (hp : bytes) : error := Errorf (msg +:+ " " +:+ b2s hp).

Definition SplitHostPort (hp : bytes) : res (bytes * bytes) :=
  match last_colon hp with
  | None => Err (AddrError "missing port in address" hp)
  | Some (h, p) =>
      let checked host hrest prest :=
        if contains x5b hrest then Err (AddrError "unexpected '[' in address" hp)
        else if contains x5d prest then Err (AddrError "unexpected ']' in address" hp)
        else Ok (host, p) in
      if decide (head hp = Some x5b) then
        match index_split x5d hp with
        | None => Err (AddrError "missing ']' in address" hp)
        | Some (l, r) =>
            let after := tail r in       (* what follows the first ']' *)
            if decide (after = []) then Err (AddrError "missing port in address" hp)
            else if decide (length l + 1 = length h) then checked (tail l) (tail hp) after
            else if decide (head after = Some x3a) then Err (AddrError "too many colons in address" hp)
            else Err (AddrError "missing port in address" hp)
        end
      else if contains x3a h then Err (AddrError "too many colons in address" hp)
      else if contains x25 h then Err (AddrError "missing brackets in address" hp)
      else checked h hp hp
  end.

(* @dcp/common/address_flag.go:35-44 AddressFlag.Set *)
Definition AddressFlag_Set (v : string) (f : AddressFlag) : AddressFlag * option error :=
  match SplitHostPort (s2b v) with
  | Err e => (f, Some e)
  | Ok (host, port) => ({| af_host := b2s host; af_port := b2s port |}, None)
  end.

(** ** 405 responses ([dcp/errors/method_not_allowed.go]) *)
Record Response := { r_status : Z; r_header : list (string * string); r_body : bytes }.

Definition ToUpper_char (c : Ascii.ascii) : Ascii.ascii :=
  let n := Ascii.nat_of_ascii c in
  if decide (97 ≤ n ∧ n ≤ 122) then Ascii.ascii_of_nat (n - 32) else c.
Fixpoint ToUpper (s : string) : string :=
  match s with String.EmptyString => "" | String.String c s => String.String (ToUpper_char c) (ToUpper s) end.
Definition Join (sep : string) (l : list string) : string := String.concat sep l.

(* @dcp/errors/method_not_allowed.go:35-43 MethodNotAllowed.ServeHTTP *)
Definition MethodNotAllowed_ServeHTTP (allowed : list string) : Response :=
  {| r_status := 405; r_header := [("Allow", Join ", " (ToUpper <$> allowed))]; r_body := [] |}.

(** ** Lemmas *)

Lemma lines_cons l s : newline ∉ l → lines (l ++ newline :: s) = (l ++ [newline]) :: lines s.
Proof.
  induction l as [| c l IH]; intros Hl.
  - simpl. reflexivity.
  - assert (newline ∈ l ++ newline :: s) as Hin by set_solver.
    cbn [app lines]. destruct (index_split newline (c :: l ++ newline :: s)) as [[? ?] |] eqn:E.
    + rewrite decide_False by set_solver. rewrite IH by set_solver. done.
    + exfalso. apply index_split_None in E. set_solver.
Qed.

Lemma stack_lines_ok ls :
  Forall (λ l, newline ∉ l ∧ l ≠ []) ls →
  stack_lines (lines (concat ((λ l, l ++ [newline]) <$> ls))) = Ret ((λ l, b2s (take (length l - 1) l)) <$> ls).
Proof.
  induction 1 as [| l ls [Hl Hne] _ IH]; [done |].
  cbn [fmap list_fmap concat]. rewrite <- (assoc_L (++)). cbn [app]. rewrite lines_cons by done.
  cbn [stack_lines]. destruct l as [| c l]; [done |].
  rewrite decide_False by (rewrite length_app; simpl; lia). setoid_rewrite IH. simpl.
  do 3 f_equal. rewrite length_app. simpl. rewrite Nat.sub_0_r.
  destruct (length l + 1) as [| n] eqn:E; [lia |].
  replace (S n - 1) with (length l) by lia. change (c :: l ++ [newline]) with ((c :: l) ++ [newline]).
  rewrite take_app_le by (simpl; lia). done.
Qed.

(** The stack trace of an error response: one entry per line of the dump,
    in order, but each line loses its last character together with the
    newline, because the slice ends two bytes before the end of a line that
    holds its one-byte newline. *)
Theorem error_response_trace (ls : list bytes) (err : error) :
  Forall (λ l, newline ∉ l ∧ l ≠ []) ls → length (concat ((λ l, l ++ [newline]) <$> ls)) ≤ 4096 →
  ToServerErrorResponse (concat ((λ l, l ++ [newline]) <$> ls)) err
  = Ret {| ser_Message := Error err; ser_StackTrace := (λ l, b2s (take (length l - 1) l)) <$> ls; ser_StatusCode := 0 |}.
Proof.
  intros Hls Hlen. unfold ToServerErrorResponse. rewrite take_ge by done. by rewrite stack_lines_ok.
Qed.

Lemma error_response_trace_witness :
  ToServerErrorResponse (concat ((λ l, l ++ [newline]) <$> [s2b "main.f()"; s2b "main.go:7"])) EOF
  = Ret {| ser_Message := "EOF"; ser_StackTrace := ["main.f("; "main.go:"]; ser_StatusCode := 0 |}.
Proof.
  apply (error_response_trace [s2b "main.f()"; s2b "main.go:7"] EOF).
  - repeat constructor; try done; vm_compute; intros H; repeat (inversion H as [| ? ? ? H']; subst; clear H; rename H' into H).
  - vm_compute. lia.
Defined.


(** The methods a 405 lists are exactly the allowed ones. *)
Example MethodNotAllowed_ex : r_header (MethodNotAllowed_ServeHTTP ["get"; "Post"]) = [("Allow", "GET, POST")].
Proof. reflexivity. Qed.
Example AddressFlag_ex : AddressFlag_Set "[::1]:80" {| af_host := ""; af_port := "" |}
  = ({| af_host := "::1"; af_port := "80" |}, None).
Proof. vm_compute. reflexivity. Qed.
Example AddressFlag_ex2 : (AddressFlag_Set "1:2:3" {| af_host := ""; af_port := "" |}).2 = Some (Errorf "too many colons in address 1:2:3").
Proof. vm_compute. reflexivity. Qed.
