(* ===== verification/DcpUri.v ===== *)
(** Package [dcp/uri]: the URIs every operation is sent to.

    [uri.URI] wraps a [*url.URL].  The functions here dereference it, so they
    take a URL; where a URI may be nil (fields of documents) it is an option. *)

From S2P Require Import Prelude GoPath GoNet GoJson DcpCommon GoURL.
From Stdlib Require Import ZArith Lia.

(* @dcp/uri/uri.go:23-25 URI *)
Definition URI : Type := URL.
#[export] Instance URI_eq_dec : EqDecision URI := URL_eq_dec.

(* @dcp/uri/uri.go:27-29 Empty *)
Definition Empty : URI := empty_URL.

(* @dcp/uri/uri.go:31-34 Parse *)
Definition Parse (s : string) : res URI := url_Parse s.

(** The error of the parse is dropped: a host that does not parse gives a URI
    without a URL. *)
(* @dcp/uri/uri.go:36-39 New *)
Definition New (host port : string) : option URI :=
  match Parse ("http://" +:+ host +:+ ":" +:+ port +:+ "/") with Ok u => Some u | Err _ => None end.

(** [dcp] is the address flag. *)
(* @dcp/uri/uri.go:41-43 Local *)
Definition Local_ (dcp : AddressFlag) : option URI := New (AddressFlag_Host dcp) (AddressFlag_Port dcp).

(** The URL and the user information are values here: a copy is equal. *)
(* @dcp/uri/uri.go:45-62 Copy *)
Definition Copy (u : URI) : URI :=
  match u_User u with
  | Some (name, Some pw) => u <| u_User := Some (name, Some pw) |>
  | Some (name, None) => u <| u_User := Some (name, None) |>
  | None => u
  end.

(* @dcp/uri/uri.go:64-70 Normalize *)
Definition Normalize (u : URI) : URI :=
  let v := Copy u in
  match u_Path v with
  | c :: _ => if decide (c ≠ slash) then v <| u_Path := slash :: u_Path v |> else v
  | [] => v
  end.

(* @dcp/uri/uri.go:72-76 Extend *)
Definition Extend (u : URI) (path : string) : URI :=
  let v := Normalize u in v <| u_Path := Join2 (u_Path v) (s2b path) |>.

(* @dcp/uri/uri.go:78-84 ExtendQuery *)
Definition ExtendQuery (u : URI) (key value : string) : URI :=
  let v := Copy u in v <| u_RawQuery := Values_Encode (Values_Set key value (Query v)) |>.

(** The error of the string decoding is dropped: anything that is not a string
    parses like the empty string. *)
(* @dcp/uri/uri.go:86-98 URI.UnmarshalJSON *)
Definition URI_UnmarshalJSON (j : json) (u : option URI) : option URI * option error :=
  let s := (dec_string j "").1 in
  match url_Parse s with
  | Err e => (u, Some e)
  | Ok ref => (Some ref, None)
  end.

(* @dcp/uri/uri.go:100-109 URI.MarshalJSON *)
Definition URI_MarshalJSON (u : option URI) : json :=
  JStr (match u with Some u => URL_String u | None => "" end).
#[export] Instance json_URI : Json (option URI) := {| enc := URI_MarshalJSON; dec := dec_custom URI_UnmarshalJSON |}.

Example New_ex : (URL_String ∘ (λ u, ExtendQuery (Extend u "a/../b//c") "$expand" "x y")) <$> New "127.0.0.1" "19000"
  = Some "http://127.0.0.1:19000/b/c?%24expand=x+y".
Proof. vm_compute. reflexivity. Qed.

(** ** Properties *)
Lemma Copy_eq u : Copy u = u.
Proof. unfold Copy. destruct u as [s o [[n [p |]] |] h pa rp rq f]; done. Qed.

Lemma Normalize_path u : u_Path u ≠ [] → rooted (u_Path (Normalize u)) = true ∧ u_Path (Normalize u) ≠ [].
Proof.
  intros H. unfold Normalize. rewrite Copy_eq. destruct (u_Path u) as [| c p] eqn:E; [done |].
  case_decide as Hc; simpl; [done |]. rewrite E. split; [| done].
  unfold rooted. apply bool_decide_eq_true. simpl. f_equal. by destruct (decide (c = slash)).
Qed.

Lemma Normalize_id u : rooted (u_Path u) = true → Normalize u = u.
Proof.
  intros H. unfold Normalize. rewrite Copy_eq. unfold rooted in H. apply bool_decide_eq_true in H.
  destruct (u_Path u) as [| c p]; [done |]. simpl in H. rewrite decide_False; [done |]. naive_solver.
Qed.

Lemma Clean_join_Clean a b : a ≠ [] → Clean (Clean a ++ slash :: b) = Clean (a ++ slash :: b).
Proof.
  intros Ha. pose proof (clean_stack_ok a) as Hok. pose proof (unclean_nonempty _ _ Hok) as Hne.
  destruct (unclean_stack _ _ Hok) as [Hr Hs].
  destruct a as [| x a]; [done |]. set (q := x :: a) in *. change (Clean q) with (unclean (rooted q) (clean_stack q)).
  set (r := unclean (rooted q) (clean_stack q)) in *.
  assert (∀ s : bytes, s ≠ [] → Clean (s ++ slash :: b)
    = unclean (rooted s) (foldl (clean_step (rooted s)) (clean_stack s) (comps b))) as E.
  { intros s Hns. destruct s as [| y s]; [done |].
    change (Clean ((y :: s) ++ slash :: b)) with (unclean (rooted ((y :: s) ++ slash :: b)) (clean_stack ((y :: s) ++ slash :: b))).
    rewrite rooted_app by done. unfold clean_stack at 1. rewrite rooted_app by done. by rewrite split_app, foldl_app. }
  rewrite (E r Hne), (E q) by done. by rewrite Hr, Hs.
Qed.

Lemma rooted_Clean a : a ≠ [] → rooted (Clean a) = rooted a.
Proof.
  intros Ha. destruct (unclean_stack _ _ (clean_stack_ok a)) as [Hr _].
  destruct a as [| x a]; done.
Qed.

Lemma Join2_nonempty a b : a ≠ [] → Join2 a b = Clean (a ++ slash :: b).
Proof. by destruct a. Qed.

(** Extending a URI twice is extending it once with the two paths joined
    by a slash; only the path changes, and it is rooted and clean. *)
Theorem Extend_Extend (u : URI) (a b : string) :
  u_Path u ≠ [] → a ≠ ""%string →
  Extend (Extend u a) b = Extend u (a +:+ "/" +:+ b)
  ∧ rooted (u_Path (Extend u a)) = true ∧ Clean (u_Path (Extend u a)) = u_Path (Extend u a).
Proof.
  intros Hu Ha. destruct (Normalize_path u Hu) as [Hr Hne].
  assert (rooted (u_Path (Extend u a)) = true) as Hra.
  { simpl. rewrite Join2_nonempty, rooted_Clean, rooted_app by (done || by destruct (u_Path (Normalize u))). done. }
  split_and!; [| done | simpl; rewrite Join2_nonempty by done; apply Clean_idemp].
  unfold Extend at 1. rewrite Normalize_id by done. unfold Extend. simpl.
  assert (∀ v : URL, u_Path (v <| u_Path := Join2 (u_Path (Normalize u)) (s2b a) |>) = Join2 (u_Path (Normalize u)) (s2b a)) as _ by done.
  f_equal. rewrite !(Join2_nonempty (u_Path (Normalize u))) by done.
  rewrite Join2_nonempty.
  - rewrite Clean_join_Clean by (by destruct (u_Path (Normalize u))).
    rewrite !s2b_app. rewrite <- (assoc_L (++)). done.
  - intros E. pose proof (rooted_Clean (u_Path (Normalize u) ++ slash :: s2b a)) as Hc.
    rewrite E, rooted_app, Hr in Hc by done. assert (u_Path (Normalize u) ++ slash :: s2b a ≠ []) by by destruct (u_Path (Normalize u)).
    specialize (Hc ltac:(done)). done.
Qed.

Lemma Extend_Extend_witness :
  Extend (Extend (empty_URL <| u_Path := s2b "/core" |>) "x/../y") "../z"
  = Extend (empty_URL <| u_Path := s2b "/core" |>) "x/../y/../z".
Proof. apply (Extend_Extend (empty_URL <| u_Path := s2b "/core" |>) "x/../y" "../z"); done. Defined.

(** The query of an extended URI has exactly the given value under the
    key, and under every other key the values it had. *)
Theorem ExtendQuery_spec (u : URI) (key value k : string) :
  Query (ExtendQuery u key value) !! k
  = if decide (k = key) then Some [value]
    else if decide (default [] (Query u !! k) = []) then None else Query u !! k.
Proof.
  unfold ExtendQuery. rewrite Copy_eq. unfold Query at 1. simpl. rewrite Query_Encode. unfold Values_Set.
  destruct (decide (k = key)) as [-> | Hk].
  - rewrite lookup_insert_eq. done.
  - by rewrite lookup_insert_ne by done.
Qed.
