(* ===== verification/Operation.v ===== *)
(** Package [dcp/operation]: operations, their messages, and joins.

    An operation is used once: it is completed, or failed, by the first call
    that does either.  Its [State] is one object that a child operation
    shares; a parent waits for its child, so the child's final state is what
    the parent goes on with.

    The Go types that travel as message bodies are a universe ([GoTypes]): a
    type code, the values of the type, and its JSON form.  The text of a body
    is kept parsed where it is JSON. *)

From S2P Require Import Prelude GoPath GoNet GoJson GoURL DcpCommon DcpUri.
From Stdlib Require Import ZArith Lia.

Class GoTypes := {
  ty : Type;
  ty_eq_dec :: EqDecision ty;
  den : ty → Type;
  codec :: ∀ t, Json (den t)
}.

(** A Go type of the program that is in the universe: its code, and the values
    of the code as values of the type. *)
Class Embeds `{GoTypes} (A : Type) `{Json A} := {
  code_of : ty;
  to_den : A → den code_of;
  of_den : den code_of → A;
  of_to_den : ∀ a, of_den (to_den a) = a;
  enc_den : ∀ a, enc (to_den a) = enc a;
  dec_den : ∀ j a, dec j (to_den a) = prod_map to_den id (dec j a)
}.

Inductive text := TJson (j : json) | TRaw (b : bytes).
Definition no_text : text := TRaw [].

(** What [json.Decoder.Decode] makes of a text: the end of the text, a value,
    or a syntax error. *)
Definition Decode {A} `{Json A} (x : text) (old : A) : A * option error :=
  match x with
  | TJson j => Unmarshal j old
  | TRaw [] => (old, Some EOF)
  | TRaw _ => (old, Some (Errorf "invalid character"))
  end.

(** ** Contexts ([dcp/operation/helpers.go]) *)
Record Context := { ctx_token : option string }.
Definition Background : Context := {| ctx_token := None |}.

(* @dcp/operation/helpers.go:16-16 RequestAuthTokenHeader *)
Definition RequestAuthTokenHeader : string := "x-xenon-auth-token".

(* @dcp/operation/helpers.go:19-21 SetAuthorizationToken *)
Definition SetAuthorizationToken (ctx : Context) (token : string) : Context := {| ctx_token := Some token |}.

(* @dcp/operation/helpers.go:24-31 GetAuthorizationToken *)
Definition GetAuthorizationToken (ctx : Context) : string := default ""%string (ctx_token ctx).

Definition ContentType : string := "Content-Type".
Definition ApplicationJSON : string := "application/json".

Record HttpRequest := {
  rq_Method : string;
  rq_URL : URI;
  rq_Header : list (string * string);
  rq_Body : option text
}.
#[export] Instance eta_HttpRequest : Eta HttpRequest := λ r,
  {| rq_Method := rq_Method r; rq_URL := rq_URL r; rq_Header := rq_Header r; rq_Body := rq_Body r |}.

Record HttpResponse := {
  res_StatusCode : Z;
  res_Status : string;
  res_Header : list (string * string);
  res_Body : res text          (* what reading the body to its end gives *)
}.

Definition Header_Get (h : list (string * string)) (k : string) : string :=
  match list_find (λ kv, equalFold kv.1 k = true) h with Some (_, (_, v)) => v | None => ""%string end.

(** [http.NewRequest] parses the printed URL again. *)
Definition NewRequest (method : string) (url : string) (body : option text) : res HttpRequest :=
  u :=? url_Parse url;;
  Ok {| rq_Method := method; rq_URL := u; rq_Header := []; rq_Body := body |}.

Section operation.
Context `{GoTypes}.

(** The dynamic value of a body: nil, a closable stream, a [*bytes.Buffer],
    another reader, or a value (behind any number of pointers). *)
Inductive body :=
  | BNil
  | BReadCloser (x : text)
  | BBuffer (x : text)
  | BReader (x : text)
  | BValue (t : ty) (v : den t).

(* @dcp/operation/state.go:20-35 State *)
Record State := {
  st_method : string;
  st_uri : option URI;
  st_body : body;
  st_statusCode : Z;
  st_httpRequest : option HttpRequest;
  st_httpResponse : option HttpResponse;
  st_isStreamResponse : bool;
  st_err : option error
}.
#[export] Instance eta_State : Eta State := λ s,
  {| st_method := st_method s; st_uri := st_uri s; st_body := st_body s; st_statusCode := st_statusCode s;
     st_httpRequest := st_httpRequest s; st_httpResponse := st_httpResponse s;
     st_isStreamResponse := st_isStreamResponse s; st_err := st_err s |}.
Definition new_State : State :=
  {| st_method := ""; st_uri := None; st_body := BNil; st_statusCode := 0; st_httpRequest := None;
     st_httpResponse := None; st_isStreamResponse := false; st_err := None |}.

(** [op_result]: None while [donec] is open, then the error, if any. *)
(* @dcp/operation/operation.go:41-54 Operation *)
Record Operation := {
  op_started : bool;
  op_result : option (option error);
  op_state : State;
  op_vars : Context;
  op_retryCount : Z;
  op_retriesRemaining : Z;
  op_expirationTime : Z
}.
#[export] Instance eta_Operation : Eta Operation := λ o,
  {| op_started := op_started o; op_result := op_result o; op_state := op_state o; op_vars := op_vars o;
     op_retryCount := op_retryCount o; op_retriesRemaining := op_retriesRemaining o; op_expirationTime := op_expirationTime o |}.

Definition defaultRetryCount : Z := 2.
Definition DefaultTimeout : Z := 60 * 1000000000.

(** [now] is [time.Now()], in nanoseconds. *)
(* @dcp/operation/operation.go:56-71 NewOperation *)
Definition NewOperation (now : Z) (vars : Context) : Operation :=
  {| op_started := false; op_result := None; op_state := new_State; op_vars := vars;
     op_retryCount := defaultRetryCount; op_retriesRemaining := defaultRetryCount;
     op_expirationTime := now + DefaultTimeout |}.

(* @dcp/operation/operation.go:77-81 Operation.Complete *)
Definition Complete (op : Operation) : Operation :=
  match op_result op with None => op <| op_result := Some None |> | Some _ => op end.

(* @dcp/operation/operation.go:83-85 Operation.Err *)
Definition Err_ (op : Operation) : option error := match op_result op with Some e => e | None => None end.

(* @dcp/operation/operation.go:87-92 Operation.Fail *)
Definition Fail_ (e : error) (op : Operation) : Operation :=
  match op_result op with None => op <| op_result := Some (Some e) |> | Some _ => op end.

(* @dcp/operation/operation.go:94-98 Operation.CreateChild *)
Definition CreateChild (now : Z) (vars : Context) (op : Operation) : Operation :=
  (NewOperation now vars) <| op_state := op_state op |>.

(** None: the wait never ends. *)
(* @dcp/operation/operation.go:105-108 Operation.Wait *)
Definition Wait (op : Operation) : option (option error) :=
  match op_result op with Some _ => Some (Err_ op) | None => None end.

(* @dcp/operation/operation.go:110-112 Operation.GetRetryCount *)
Definition GetRetryCount (op : Operation) : Z := op_retryCount op.

(* @dcp/operation/operation.go:114-118 Operation.SetRetryCount *)
Definition SetRetryCount (n : Z) (op : Operation) : Operation := op <| op_retryCount := n |> <| op_retriesRemaining := n |>.

(* @dcp/operation/operation.go:120-122 Operation.GetRetriesRemaining *)
Definition GetRetriesRemaining (op : Operation) : Z := op_retriesRemaining op.

(* @dcp/operation/operation.go:124-128 Operation.DecrementRetriesRemaining *)
Definition DecrementRetriesRemaining (op : Operation) : Z * Operation :=
  let n := op_retriesRemaining op in (n, op <| op_retriesRemaining := (n - 1)%Z |>).

(** The delay in seconds; a ticker needs a positive period. *)
(* @dcp/operation/operation.go:130-139 Operation.WaitForRetryDelay *)
Definition WaitForRetryDelay (op : Operation) : outcome Z :=
  let retryCount := (GetRetryCount op - GetRetriesRemaining op)%Z in
  if decide (retryCount ≤ 0)%Z then Panic else Ret retryCount.

(* @dcp/operation/operation.go:144-147 Operation.SetExpiration *)
Definition SetExpiration (t : Z) (op : Operation) : Operation := op <| op_expirationTime := t |>.

(* @dcp/operation/operation.go:149-151 Operation.GetExpiration *)
Definition GetExpiration (op : Operation) : Z := op_expirationTime op.

(** Starting arms the timer, once; [expire] is the timer's goroutine. *)
(* @dcp/operation/operation.go:160-176 Operation.Start *)
Definition Start (op : Operation) : Operation := op <| op_started := true |>.
Definition expire (now : Z) (op : Operation) : Operation :=
  if decide (op_started op = true ∧ (op_expirationTime op ≤ now)%Z) then Fail_ DeadlineExceeded op else op.

(** ** The message ([dcp/operation/state.go]) *)
Definition on_state (f : State → State) (op : Operation) : Operation := op <| op_state := f (op_state op) |>.

(* @dcp/operation/state.go:37-40 Operation.SetMethod *)
Definition SetMethod (m : string) : Operation → Operation := on_state (λ s, s <| st_method := m |>).
(* @dcp/operation/state.go:42-44 Operation.GetMethod *)
Definition GetMethod (op : Operation) : string := st_method (op_state op).
(* @dcp/operation/state.go:46-49 Operation.SetURI *)
Definition SetURI (u : URI) : Operation → Operation := on_state (λ s, s <| st_uri := Some u |>).
(* @dcp/operation/state.go:51-53 Operation.GetURI *)
Definition GetURI (op : Operation) : option URI := st_uri (op_state op).
(* @dcp/operation/state.go:55-58 Operation.SetBody *)
Definition SetBody (b : body) : Operation → Operation := on_state (λ s, s <| st_body := b |>).
(* @dcp/operation/state.go:60-62 Operation.GetBody *)
Definition GetBody (op : Operation) : body := st_body (op_state op).
(* @dcp/operation/state.go:64-67 Operation.SetStatusCode *)
Definition SetStatusCode (c : Z) : Operation → Operation := on_state (λ s, s <| st_statusCode := c |>).
(* @dcp/operation/state.go:69-71 Operation.GetStatusCode *)
Definition GetStatusCode (op : Operation) : Z := st_statusCode (op_state op).

(** The body of an inbound request is its stream. *)
(* @dcp/operation/state.go:73-77 Operation.SetRequest *)
Definition SetRequest (req : HttpRequest) (op : Operation) : Operation :=
  SetBody (match rq_Body req with Some x => BReadCloser x | None => BNil end)
    (on_state (λ s, s <| st_httpRequest := Some req |>) op).
(* @dcp/operation/state.go:79-81 Operation.GetRequest *)
Definition GetRequest (op : Operation) : option HttpRequest := st_httpRequest (op_state op).

(** Copying a stream out drains it. *)
(* @dcp/operation/state.go:222-233 Operation.EncodeBody *)
Definition EncodeBody (op : Operation) : Operation * res text :=
  match GetBody op with
  | BNil => (op, Err ErrBodyNotSet)
  | BReadCloser x => (SetBody (BReadCloser no_text) op, Ok x)
  | BBuffer x => (SetBody (BBuffer no_text) op, Ok x)
  | BReader x => (SetBody (BReader no_text) op, Ok x)
  | BValue t v => (op, Ok (TJson (enc v)))
  end.

(* @dcp/operation/state.go:236-243 Operation.EncodeBodyAsBuffer *)
Definition EncodeBodyAsBuffer (op : Operation) : Operation * res text :=
  match EncodeBody op with
  | (op, Err e) => (op, Err e)
  | (op, Ok x) => (op, Ok x)
  end.

Definition with_header (k v : string) (req : HttpRequest) : HttpRequest :=
  req <| rq_Header := (k, v) :: filter (λ kv, kv.1 ≠ k) (rq_Header req) |>.

(** An operation without a URI has a nil URL to print: it panics. *)
(* @dcp/operation/state.go:85-118 Operation.CreateRequest *)
Definition CreateRequest (op : Operation) : outcome (Operation * res HttpRequest) :=
  match st_httpRequest (op_state op) with
  | Some req => Ret (op, Ok req)
  | None =>
      let '(op, buf) :=
        match GetBody op with
        | BNil => (op, Ok None)
        | _ => let '(op, r) := EncodeBodyAsBuffer op in (op, res_map Some r)
        end in
      match buf with
      | Err e => Ret (op, Err e)
      | Ok buf =>
          match GetURI op with
          | None => Panic
          | Some u =>
              match NewRequest (GetMethod op) (URL_String u) buf with
              | Err e => Ret (op, Err e)
              | Ok req =>
                  let req := if buf then with_header ContentType ApplicationJSON req else req in
                  let token := GetAuthorizationToken (op_vars op) in
                  let req := if str_empty token then req else with_header RequestAuthTokenHeader token req in
                  Ret (on_state (λ s, s <| st_httpRequest := Some req |>) op, Ok req)
              end
          end
      end
  end.

(* @dcp/operation/state.go:120-141 Operation.SetResponse *)
Definition SetResponse (r : HttpResponse) (op : Operation) : Operation :=
  let op := on_state (λ s, s <| st_httpResponse := Some r |>) op in
  if st_isStreamResponse (op_state op) then
    SetBody (BReadCloser (match res_Body r with Ok x => x | Err _ => no_text end)) op
  else
    match res_Body r with
    | Err e => on_state (λ s, s <| st_err := Some e |>) op
    | Ok x => SetBody (BBuffer x) (on_state (λ s, s <| st_err := None |>) op)
    end.

(* @dcp/operation/state.go:143-145 Operation.GetResponse *)
Definition GetResponse (op : Operation) : option HttpResponse := st_httpResponse (op_state op).

(* @dcp/operation/state.go:147-149 Operation.GetResponseHeader *)
Definition GetResponseHeader (key : string) (op : Operation) : outcome string :=
  match GetResponse op with Some r => Ret (Header_Get (res_Header r) key) | None => Panic end.

(* @dcp/operation/state.go:153-156 Operation.SetIsStreamResponse *)
Definition SetIsStreamResponse (f : bool) : Operation → Operation := on_state (λ s, s <| st_isStreamResponse := f |>).
(* @dcp/operation/state.go:158-160 Operation.IsStreamResponse *)
Definition IsStreamResponse (op : Operation) : bool := st_isStreamResponse (op_state op).

(** A stream is decoded once and the body is nil afterwards, a buffer is
    emptied, and a value is copied to a destination of its own type.  A reader
    that is neither falls in the last case: its type is not the destination's. *)
(* @dcp/operation/state.go:163-219 Operation.DecodeBody *)
Definition DecodeBody (op : Operation) {t : ty} (dst : den t) : Operation * den t * option error :=
  match st_err (op_state op) with
  | Some e => (op, dst, Some e)
  | None =>
      match GetBody op with
      | BNil => (op, dst, Some ErrBodyNotSet)
      | BReadCloser x => let '(v, e) := Decode x dst in (SetBody BNil op, v, e)
      | BBuffer x => let '(v, e) := Decode x dst in (SetBody (BBuffer no_text) op, v, e)
      | BReader _ => (op, dst, Some ErrBodyIncompatibleType)
      | BValue t' v =>
          match decide (t' = t) with
          | left E => (op, eq_rect t' den v t E, None)
          | right _ => (op, dst, Some ErrBodyIncompatibleType)
          end
      end
  end.

(** The same at a Go type of the program. *)
Definition DecodeBodyAs {A} `{Json A, !Embeds A} (op : Operation) (dst : A) : Operation * A * option error :=
  let '(op, v, e) := DecodeBody op (to_den dst) in (op, of_den v, e).
Definition ValueOf {A} `{Json A, !Embeds A} (a : A) : body := BValue code_of (to_den a).

(** ** Constructors ([dcp/operation/helpers.go]) *)
(* @dcp/operation/helpers.go:33-37 NewGet *)
Definition NewGet (now : Z) (ctx : Context) (u : URI) : Operation := SetURI u (SetMethod "GET" (NewOperation now ctx)).
(* @dcp/operation/helpers.go:39-44 NewPost *)
Definition NewPost (now : Z) (ctx : Context) (u : URI) (r : body) : Operation :=
  SetBody r (SetURI u (SetMethod "POST" (NewOperation now ctx))).
(* @dcp/operation/helpers.go:46-51 NewPatch *)
Definition NewPatch (now : Z) (ctx : Context) (u : URI) (r : body) : Operation :=
  SetBody r (SetURI u (SetMethod "PATCH" (NewOperation now ctx))).
(* @dcp/operation/helpers.go:53-58 NewPut *)
Definition NewPut (now : Z) (ctx : Context) (u : URI) (r : body) : Operation :=
  SetBody r (SetURI u (SetMethod "PUT" (NewOperation now ctx))).
(* @dcp/operation/helpers.go:60-64 NewDelete *)
Definition NewDelete (now : Z) (ctx : Context) (u : URI) : Operation := SetURI u (SetMethod "DELETE" (NewOperation now ctx)).

(** The methods of an operation that make another one. *)
(* @dcp/operation/helpers.go:66-68 Operation.NewGet *)
Definition Operation_NewGet (_ : Operation) := NewGet.
(* @dcp/operation/helpers.go:70-72 Operation.NewPost *)
Definition Operation_NewPost (_ : Operation) := NewPost.
(* @dcp/operation/helpers.go:74-76 Operation.NewPatch *)
Definition Operation_NewPatch (_ : Operation) := NewPatch.
(* @dcp/operation/helpers.go:78-80 Operation.NewPut *)
Definition Operation_NewPut (_ : Operation) := NewPut.
(* @dcp/operation/helpers.go:82-84 Operation.NewDelete *)
Definition Operation_NewDelete (_ : Operation) := NewDelete.

(** ** Joins ([dcp/operation/join.go])

    The operations in the order in which their goroutines are received from;
    each carries its index and its error.  The loop returns, or goes on
    waiting when there is nothing left to receive (None). *)
Definition arrival : Type := nat * option error.

(* @dcp/operation/join.go:24-43 JoinN *)
Fixpoint join_loop (len n : Z) (reso : list nat) (erro : list error) (arrivals : list arrival) : option (res (list nat)) :=
  match arrivals with
  | [] => None
  | (o, Some err) :: arrivals =>
      let erro := erro ++ [err] in
      if decide (Z.of_nat (length erro) > len - n)%Z then Some (Err (default err (head erro)))
      else join_loop len n reso erro arrivals
  | (o, None) :: arrivals =>
      let reso := reso ++ [o] in
      if decide (Z.of_nat (length reso) = n) then Some (Ok reso)
      else join_loop len n reso erro arrivals
  end.

(* @dcp/operation/join.go:3-44 JoinN *)
Definition JoinN (os : list nat) (n : Z) (arrivals : list arrival) : option (res (list nat)) :=
  match os with
  | [] => Some (Ok os)
  | _ => join_loop (Z.of_nat (length os)) n [] [] arrivals
  end.

(* @dcp/operation/join.go:46-48 Join *)
Definition Join (os : list nat) (arrivals : list arrival) : option (res (list nat)) :=
  JoinN os (Z.of_nat (length os)) arrivals.
End operation.

(** ** Completion happens once *)
Section completion.
Context `{GoTypes}.

Inductive event := EStart | EComplete | EFail (e : error) | EExpire (now : Z).

Definition run_event (op : Operation) (ev : event) : Operation :=
  match ev with
  | EStart => Start op
  | EComplete => Complete op
  | EFail e => Fail_ e op
  | EExpire now => expire now op
  end.

(** The result the first effective event decides. *)
Fixpoint first_result (started : bool) (deadline : Z) (evs : list event) : option (option error) :=
  match evs with
  | [] => None
  | EStart :: evs => first_result true deadline evs
  | EComplete :: _ => Some None
  | EFail e :: _ => Some (Some e)
  | EExpire now :: evs =>
      if decide (started = true ∧ (deadline ≤ now)%Z) then Some (Some DeadlineExceeded)
      else first_result started deadline evs
  end.

Lemma run_event_result op ev r : op_result op = Some r → op_result (run_event op ev) = Some r.
Proof.
  intros E. destruct ev; simpl; unfold Complete, Fail_, expire; rewrite ?E; try done.
  case_decide; [unfold Fail_; by rewrite E | done].
Qed.

Lemma run_events_result evs op r : op_result op = Some r → op_result (foldl run_event op evs) = Some r.
Proof.
  revert op. induction evs as [| ev evs IH]; intros op E; [done |]. simpl. by apply IH, run_event_result.
Qed.

(** C11: whatever calls and timer expiries happen to an operation, in whatever
    order, its result is the one of the first that takes effect, and later
    ones change nothing. *)
Theorem completion_once (op : Operation) (evs : list event) :
  op_result (foldl run_event op evs)
  = match op_result op with
    | Some r => Some r
    | None => first_result (op_started op) (op_expirationTime op) evs
    end.
Proof.
  destruct (op_result op) as [r |] eqn:E; [by apply run_events_result |].
  revert op E. induction evs as [| ev evs IH]; intros op E; [done |].
  cbn [foldl first_result]. destruct ev as [| | e | now]; cbn [run_event].
  - by rewrite IH.
  - rewrite (run_events_result _ _ None); [done |]. unfold Complete. by rewrite E.
  - rewrite (run_events_result _ _ (Some e)); [done |]. unfold Fail_. by rewrite E.
  - unfold expire. case_decide as Hx; [| by rewrite IH].
    rewrite (run_events_result _ _ (Some DeadlineExceeded)); [done |]. unfold Fail_. by rewrite E.
Qed.

(** Reading a body with [DecodeBody] uses it up: a stream is gone
    afterwards and a buffer is empty, so that a second read fails, while a
    value in memory can be read any number of times. *)
Theorem DecodeBody_again (op : Operation) (t : ty) (dst dst' : den t) :
  st_err (op_state op) = None →
  let op' := (DecodeBody op dst).1.1 in
  (DecodeBody op' dst').2
  = match GetBody op with
    | BNil | BReadCloser _ => Some ErrBodyNotSet
    | BBuffer _ => Some EOF
    | BReader _ => Some ErrBodyIncompatibleType
    | BValue t' _ => if decide (t' = t) then None else Some ErrBodyIncompatibleType
    end.
Proof.
  intros E. unfold DecodeBody. rewrite E. unfold GetBody.
  destruct (st_body (op_state op)) as [| x | x | x | t' v] eqn:B; cbn; rewrite ?E, ?B; try done.
  - destruct (Decode x dst) as [v e]. cbn. by rewrite E.
  - destruct (Decode x dst) as [v e]. cbn. by rewrite E.
  - destruct (decide (t' = t)) as [-> |] eqn:D; cbn; rewrite E, B; rewrite D; done.
Qed.
End completion.

(** ** Joins *)
Section join.

(** The operations that succeeded, and the errors, in order of arrival. *)
Fixpoint oks (arrivals : list arrival) : list nat :=
  match arrivals with [] => [] | (o, None) :: l => o :: oks l | (_, Some _) :: l => oks l end.
Fixpoint errs (arrivals : list arrival) : list error :=
  match arrivals with [] => [] | (_, Some e) :: l => e :: errs l | (_, None) :: l => errs l end.

Lemma oks_errs_length arrivals : length (oks arrivals) + length (errs arrivals) = length arrivals.
Proof. induction arrivals as [| [o [e |]] l IH]; simpl; lia. Qed.

(** The loop with what was already received. *)
Lemma join_loop_spec len n reso erro arrivals :
  (1 ≤ n ≤ len)%Z → (Z.of_nat (length reso) < n)%Z → (Z.of_nat (length erro) ≤ len - n)%Z →
  (Z.of_nat (length reso + length erro + length arrivals) = len)%Z →
  join_loop len n reso erro arrivals
  = Some (if decide (n ≤ Z.of_nat (length reso + length (oks arrivals)))%Z
          then Ok (take (Z.to_nat n) (reso ++ oks arrivals))
          else Err (default EOF (head (erro ++ errs arrivals)))).
Proof.
  intros Hn. revert reso erro. induction arrivals as [| [o [e |]] arrivals IH]; intros reso erro Hr He Hlen.
  - simpl in *. lia.
  - cbn [join_loop oks errs]. pose proof (oks_errs_length arrivals). cbn [length] in Hlen.
    case_decide as Hd; rewrite length_app in Hd; cbn [length] in Hd.
    + rewrite decide_False by lia. destruct erro as [| e0 erro]; done.
    + rewrite IH; rewrite ?length_app; cbn [length]; try lia. by rewrite <- (assoc_L (++)).
  - cbn [join_loop oks errs]. pose proof (oks_errs_length arrivals). cbn [length] in Hlen.
    assert (length reso + length (o :: oks arrivals) = length (reso ++ [o]) + length (oks arrivals)) as ->
      by (rewrite length_app; simpl; lia).
    rewrite (cons_middle o reso (oks arrivals)), (assoc_L (++) reso).
    case_decide as Hd.
    + rewrite decide_True by lia. rewrite take_app_le by lia. rewrite take_ge by lia. done.
    + rewrite IH; [done | | done |]; rewrite length_app in *; cbn [length] in *; lia.
Qed.

(** C12: a join for [n] of its operations ([1 <= n <=] their number) returns once
    all of them have completed, in whatever order: with the first [n] that
    succeeded if there are as many, and otherwise with the first error. *)
Theorem JoinN_spec (os : list nat) (n : Z) (arrivals : list arrival) :
  (1 ≤ n ≤ Z.of_nat (length os))%Z → length arrivals = length os →
  JoinN os n arrivals
  = Some (if decide (n ≤ Z.of_nat (length (oks arrivals)))%Z
          then Ok (take (Z.to_nat n) (oks arrivals))
          else Err (default EOF (head (errs arrivals)))).
Proof.
  intros Hn Hlen. unfold JoinN. destruct os as [| o os]; [simpl in Hn; lia |].
  rewrite join_loop_spec; simpl in *; try lia. done.
Qed.

Lemma JoinN_spec_witness :
  JoinN [0; 1; 2] 2 [(1, None); (2, Some EOF); (0, None)] = Some (Ok [1; 0]).
Proof. apply (JoinN_spec [0; 1; 2] 2 [(1, None); (2, Some EOF); (0, None)]); simpl; lia. Defined.

Lemma join_loop_blocks len n reso erro arrivals :
  (n ≤ 0 ∨ len < n)%Z → errs arrivals = [] → erro = [] → (n ≤ Z.of_nat (length reso) ∨ Z.of_nat (length reso + length arrivals) < n)%Z →
  join_loop len n reso erro arrivals = None.
Proof.
  intros Hn. revert reso. induction arrivals as [| [o [e |]] arrivals IH]; intros reso He -> Hr; [done | done |].
  cbn [join_loop]. cbn [length] in Hr. rewrite decide_False; [| rewrite length_app; simpl; lia].
  apply IH; [done | done |]. rewrite length_app. simpl. lia.
Qed.

(** A join for none of its operations, or for more than there are, never
    returns when they all succeed. *)
Theorem JoinN_blocks (os : list nat) (n : Z) (arrivals : list arrival) :
  os ≠ [] → (n ≤ 0 ∨ Z.of_nat (length os) < n)%Z → length arrivals = length os → errs arrivals = [] →
  JoinN os n arrivals = None.
Proof.
  intros Hos Hn Hlen He. unfold JoinN. destruct os as [| o os]; [done |].
  apply join_loop_blocks; [done | done | done |]. simpl in *. lia.
Qed.

Lemma JoinN_blocks_witness : JoinN [0; 1] 0 [(1, None); (0, None)] = None.
Proof. apply (JoinN_blocks [0; 1] 0 [(1, None); (0, None)]); [done | left; done | reflexivity | reflexivity]. Defined.
End join.

(** A small universe of types, for examples. *)
Definition sample_den (b : bool) : Type := if b then string else bool.
Definition sample_codec (b : bool) : Json (sample_den b) := match b with true => json_string | false => json_bool end.
Definition sample_types : GoTypes := {| ty := bool; den := sample_den; codec := sample_codec |}.

Lemma DecodeBody_again_witness :
  let op := SetBody (BBuffer (TJson (JStr "x"))) (NewOperation (H := sample_types) 0 Background) in
  (DecodeBody (H := sample_types) op (t := true) ""%string).1.2 = "x"%string
  ∧ (DecodeBody (H := sample_types) (DecodeBody op (t := true) ""%string).1.1 (t := true) ""%string).2 = Some EOF.
Proof.
  split; [reflexivity |].
  apply (DecodeBody_again (SetBody (BBuffer (TJson (JStr "x"))) (NewOperation (H := sample_types) 0 Background)) true ""%string ""%string).
  reflexivity.
Defined.
