(* ===== verification/Client.v ===== *)
(** Package [dcp/client]: sending an operation, with retries; limits on the
    connections and on the operations in flight.

    The network is a state [W] and an exchange: what [http.Client.Do] does with
    a request before its operation times out. *)

From S2P Require Import Prelude GoPath GoNet GoJson GoURL DcpCommon DcpUri Operation.
From Stdlib Require Import ZArith Lia.

(** What came back first: the operation was done (its timer fired, and the
    request was cancelled), a response, or an error. *)
Inductive attempt :=
  | TimedOut
  | Answered (r : HttpResponse)
  | Broken (e : error).

(** [json_text] is the text of a JSON body as its sender wrote it: bodies are
    kept parsed, and their text only appears in messages. *)
Class Network (W : Type) := {
  (** the request may have been read from: its body afterwards is what is left *)
  Do : HttpRequest → W → attempt * HttpRequest * W;
  json_text : json → bytes
}.

(* @dcp/client/client.go:60-68 isNetError *)
Definition isNetError (e : error) : bool := match e with NetError _ => true | _ => false end.

Section client.
Context `{GoTypes} {W : Type} `{Network W}.

Definition text_bytes (x : text) : bytes := match x with TRaw b => b | TJson j => json_text j end.

(* @dcp/client/client.go:33-43 responseToError *)
Definition responseToError (req : HttpRequest) (r : HttpResponse) : option error :=
  if decide (200 ≤ res_StatusCode r ∧ res_StatusCode r < 400)%Z then None
  else Some (Errorf ("dcp client " +:+ rq_Method req +:+ " " +:+ URL_String (rq_URL req) +:+ ": "
        +:+ fmt_d (res_StatusCode r) +:+ " (" +:+ res_Status r +:+ ") "
        +:+ b2s (match res_Body r with Ok x => text_bytes x | Err _ => [] end))).

(* @dcp/client/client.go:45-58 doSend *)
Definition doSend (req : HttpRequest) (w : W) : attempt * HttpRequest * W :=
  match Do req w with
  | (Answered r, req', w) =>
      match responseToError req r with
      | Some e => (Broken e, req', w)
      | None => (Answered r, req', w)
      end
  | x => x
  end.

(** The loop, with the delays (in seconds) slept so far.  Every round but the
    last takes one of the remaining retries, which bounds the rounds. *)
(* @dcp/client/client.go:86-118 Send *)
Fixpoint send_loop (fuel : nat) (req : HttpRequest) (op : Operation) (w : W) (delays : list Z) : option (outcome (Operation * W * list Z)) :=
  match fuel with
  | O => None
  | S fuel =>
      match doSend req w with
      | (TimedOut, _, w) => Some (Ret (Fail_ DeadlineExceeded op, w, delays))
      | (Answered r, _, w) => Some (Ret (Complete (SetResponse r op), w, delays))
      | (Broken e, req, w) =>
          if negb (isNetError e) then Some (Ret (Fail_ e op, w, delays))
          else
            let '(n, op) := DecrementRetriesRemaining op in
            if decide (n ≤ 0)%Z then Some (Ret (Fail_ e op, w, delays))
            else match WaitForRetryDelay op with
                 | Panic => Some Panic
                 | Ret d => send_loop fuel req op w (delays ++ [d])
                 end
      end
  end.

(** None is unreachable: see [Send_returns]. *)
(* @dcp/client/client.go:71-119 Send *)
Definition Send (op : Operation) (w : W) : option (outcome (Operation * W * list Z)) :=
  match CreateRequest op with
  | Panic => Some Panic
  | Ret (op, Err e) => Some (Ret (Fail_ e op, w, []))
  | Ret (op, Ok req) =>
      let op := Start op in
      send_loop (S (Z.to_nat (GetRetriesRemaining op))) req op w []
  end.

(** Rounds of the loop for an operation whose counters are sound. *)
Lemma send_loop_spec fuel req op w ds k :
  (op_retriesRemaining op ≤ op_retryCount op)%Z → Z.to_nat (op_retriesRemaining op) < fuel →
  (op_retryCount op - op_retriesRemaining op)%Z = k →
  ∃ op' w' m, send_loop fuel req op w ds = Some (Ret (op', w', ds ++ seqZ (k + 1) (Z.of_nat m)))
    ∧ m ≤ Z.to_nat (op_retriesRemaining op) ∧ is_Some (op_result op').
Proof.
  revert req op w ds k. induction fuel as [| fuel IH]; intros req op w ds k Hc Hf Hk; [lia |].
  assert (∀ op : Operation, (∀ e, is_Some (op_result (Fail_ e op))) ∧ is_Some (op_result (Complete op))) as Hdone.
  { intros o. split; [intros e; unfold Fail_ | unfold Complete]; destruct (op_result o) eqn:E; simpl; rewrite ?E; eauto. }
  cbn [send_loop]. destruct (doSend req w) as [[[| r | e] req'] w'].
  - exists (Fail_ DeadlineExceeded op), w', 0. rewrite app_nil_r. split_and!; [done | lia | apply Hdone].
  - exists (Complete (SetResponse r op)), w', 0. rewrite app_nil_r. split_and!; [done | lia | apply Hdone].
  - destruct (isNetError e); cbn [negb].
    2: { exists (Fail_ e op), w', 0. rewrite app_nil_r. split_and!; [done | lia | apply Hdone]. }
    unfold DecrementRetriesRemaining. set (op1 := op <| op_retriesRemaining := _ |>).
    assert (op_retryCount op1 = op_retryCount op ∧ op_retriesRemaining op1 = op_retriesRemaining op - 1)%Z as [H1 H2] by done.
    case_decide as Hn.
    { eexists _, w', 0. rewrite app_nil_r. split_and!; [done | lia | apply Hdone]. }
    unfold WaitForRetryDelay, GetRetryCount, GetRetriesRemaining. rewrite decide_False by lia.
    destruct (IH req' op1 w' (ds ++ [(k + 1)%Z]) (k + 1)%Z) as (op' & w'' & m & E & Hm & Hr); [lia | lia | lia |].
    exists op', w'', (S m). replace (op_retryCount op1 - op_retriesRemaining op1)%Z with (k + 1)%Z by lia. rewrite E.
    split_and!; [| lia | done]. rewrite <- (assoc_L (++)). do 4 f_equal.
    rewrite Nat2Z.inj_succ, (seqZ_cons (k + 1)) by lia. simpl. f_equal. f_equal; lia.
Qed.

Lemma Send_settles (op : Operation) (w : W) (u : URI) :
  GetURI op = Some u → op_retriesRemaining op = op_retryCount op →
  ∃ op' w' m, Send op w = Some (Ret (op', w', seqZ 1 (Z.of_nat m)))
    ∧ m ≤ Z.to_nat (op_retryCount op) ∧ is_Some (op_result op').
Proof.
  intros Hu Hc. unfold Send.
  assert (∃ op1 r, CreateRequest op = Ret (op1, r) ∧ op_retriesRemaining op1 = op_retriesRemaining op ∧ op_retryCount op1 = op_retryCount op)
    as (op1 & r & -> & H1 & H2).
  { unfold CreateRequest. destruct (st_httpRequest (op_state op)); [eauto |].
    unfold EncodeBodyAsBuffer, EncodeBody. unfold GetURI in *.
    destruct (GetBody op); cbn; rewrite ?Hu; destruct (NewRequest _ _ _); simpl; eauto. }
  destruct r as [req | e].
  - destruct (send_loop_spec (S (Z.to_nat (GetRetriesRemaining (Start op1)))) req (Start op1) w [] 0)
      as (op' & w' & m & E & Hm & Hr); simpl; try (unfold GetRetriesRemaining; simpl); try lia.
    exists op', w', m. split_and!; [exact E | simpl in Hm; lia | done].
  - exists (Fail_ e op1), w, 0. split_and!; [done | lia |].
    unfold Fail_. destruct (op_result op1) eqn:E; simpl; rewrite ?E; eauto.
Qed.

(** C13: [Send] always returns with the operation completed or failed, unless
    the operation has no URI; it makes at most one attempt more than the retries
    that remain, and sleeps one second more before each than before the last. *)
Theorem Send_returns (op : Operation) (w : W) (u : URI) :
  GetURI op = Some u → op_retriesRemaining op = op_retryCount op →
  ∃ op' w' m, Send op w = Some (Ret (op', w', seqZ 1 (Z.of_nat m)))
    ∧ m ≤ Z.to_nat (op_retryCount op) ∧ is_Some (op_result op').
Proof. apply Send_settles. Qed.
(** [client.Send(op).Wait()]: the operation, its error, and the network. *)
Definition SendWait (op : Operation) (w : W) : outcome (Operation * option error * W) :=
  match Send op w with
  | Some (Ret (op, w, _)) => Ret (op, Err_ op, w)
  | _ => Panic
  end.

(** Sending an operation and decoding its response over [old]. *)
Definition exchange {A} `{Json A, !Embeds A} (op : Operation) (old : A) (w : W) : outcome (A * option error * W) :=
  out_bind (SendWait op w) (λ '(op, err, w),
    match err with
    | Some e => Ret (old, Some e, w)
    | None => let '(_, v, e) := DecodeBodyAs op old in Ret (v, e, w)
    end).

Definition as_res {A} (r : A * option error) : res A := match r with (_, Some e) => Err e | (a, None) => Ok a end.
End client.

(** A network that answers from a script, for examples. *)
Definition scripted (script : list attempt) : list attempt := script.
#[export] Instance scripted_network : Network (list attempt) :=
  {| Do := λ req w, match w with [] => (TimedOut, req, []) | a :: w => (a, req, w) end;
     json_text := λ j, match j with JStr s => s2b s | _ => [] end |}.

Lemma Send_returns_witness :
  let op := SetURI (empty_URL <| u_Path := s2b "/x" |>) (NewOperation (H := sample_types) 0 Background) in
  Send (H := sample_types) op [Broken (NetError "refused"); Broken (NetError "refused"); Broken (NetError "refused"); TimedOut]
  = Some (Ret (Fail_ (NetError "refused") (op <| op_started := true |> <| op_retriesRemaining := (-1)%Z |>
        <| op_state := (op_state op) <| st_httpRequest := Some {| rq_Method := ""; rq_URL := empty_URL <| u_Path := s2b "/x" |>; rq_Header := []; rq_Body := None |} |> |>),
      [TimedOut], [1; 2]%Z))
  ∧ ∃ op' w' m, Send (H := sample_types) op [Broken (NetError "refused")] = Some (Ret (op', w', seqZ 1 (Z.of_nat m)))
      ∧ m ≤ 2 ∧ is_Some (op_result op').
Proof.
  split; [vm_compute; reflexivity |].
  apply (Send_returns (SetURI (empty_URL <| u_Path := s2b "/x" |>) (NewOperation (H := sample_types) 0 Background))
    [Broken (NetError "refused")] (empty_URL <| u_Path := s2b "/x" |>)); reflexivity.
Defined.

(** ** Buffered channels of empty values, as counters

    None: the operation blocks. *)
Record chan := { ch_len : nat; ch_cap : nat }.
Definition chan_send (c : chan) : option chan :=
  if decide (ch_len c < ch_cap c) then Some {| ch_len := S (ch_len c); ch_cap := ch_cap c |} else None.
Definition chan_recv (c : chan) : option chan :=
  match ch_len c with S n => Some {| ch_len := n; ch_cap := ch_cap c |} | O => None end.

Fixpoint repeat_op (n : nat) (f : chan → option chan) (c : chan) : option chan :=
  match n with O => Some c | S n => c ← f c; repeat_op n f c end.

(** ** At most n operations in flight ([dcp/client/max_in_flight.go]) *)
(* @dcp/client/max_in_flight.go:25-27 maxInFlightClient.up *)
Definition up : chan → option chan := chan_send.
(* @dcp/client/max_in_flight.go:29-31 maxInFlightClient.down *)
Definition down : chan → option chan := chan_recv.

(* @dcp/client/max_in_flight.go:12-23 MaxInFlight *)
Definition MaxInFlight (n : nat) : option chan := repeat_op n up {| ch_len := 0; ch_cap := n |}.

(** Goroutines calling [Send]: those that passed [down] are in flight until
    they pass [up]. *)
(* @dcp/client/max_in_flight.go:33-38 maxInFlightClient.Send *)
Inductive flight_step : chan * nat → chan * nat → Prop :=
  | flight_down m m' k : down m = Some m' → flight_step (m, k) (m', S k)
  | flight_up m m' k : up m = Some m' → flight_step (m, S k) (m', k).

Lemma fill n k c : ch_len c + n ≤ ch_cap c → k = ch_len c + n → repeat_op n up c = Some {| ch_len := k; ch_cap := ch_cap c |}.
Proof.
  revert c. induction n as [| n IH]; intros c Hc ->.
  - rewrite Nat.add_0_r. by destruct c.
  - cbn [repeat_op].
    assert (up c = Some {| ch_len := S (ch_len c); ch_cap := ch_cap c |}) as -> by (unfold up, chan_send; by rewrite decide_True by lia).
    cbn [mbind option_bind].
    rewrite (IH {| ch_len := S (ch_len c); ch_cap := ch_cap c |}); simpl; [do 2 f_equal; lia | lia | done].
Qed.

Lemma flight_invariant n m k m' k' :
  rtc flight_step (m, k) (m', k') → ch_len m + k = n → ch_cap m = n → ch_len m' + k' = n ∧ ch_cap m' = n.
Proof.
  intros H. remember (m, k) as x eqn:Ex. remember (m', k') as y eqn:Ey. revert m k Ex.
  induction H as [x | x y' z Hs Hr IH]; intros m0 k0 Ex Hk Hc; subst; [by simplify_eq |].
  inversion Hs as [m1 m2 k1 Hd | m1 m2 k1 Hu]; subst.
  - unfold down, chan_recv in Hd. destruct (ch_len m0) eqn:E; [done |]. simplify_eq.
    eapply IH; [done | done | simpl; lia | done].
  - unfold up, chan_send in Hu. case_decide; [| done]. simplify_eq.
    eapply IH; [done | done | simpl; lia | done].
Qed.

(** A client limited to [n] operations never has more in flight, and an
    operation that is in flight can always leave. *)
Theorem MaxInFlight_bound (n : nat) (m : chan) (c : chan) (k : nat) :
  MaxInFlight n = Some m → rtc flight_step (m, 0) (c, k) → k ≤ n ∧ (0 < k → is_Some (up c)).
Proof.
  unfold MaxInFlight. rewrite (fill n n) by (simpl; lia). intros [= <-] H.
  apply (flight_invariant n) in H as [H1 H2]; [| simpl; lia | done].
  split; [lia |]. intros Hk. unfold up, chan_send. rewrite decide_True by lia. eauto.
Qed.

Lemma MaxInFlight_bound_witness :
  1 ≤ 1 ∧ (0 < 1 → is_Some (up {| ch_len := 0; ch_cap := 1 |})).
Proof.
  apply (MaxInFlight_bound 1 {| ch_len := 1; ch_cap := 1 |} {| ch_len := 0; ch_cap := 1 |} 1); [reflexivity |].
  eapply rtc_l; [| apply rtc_refl]. apply flight_down. reflexivity.
Defined.

(** ** Connections ([dcp/client/semaphore.go], [dcp/client/conn.go]) *)
(* @dcp/client/semaphore.go:7-12 semaphore.P *)
Definition P (n : nat) : chan → option chan := repeat_op n chan_send.
(* @dcp/client/semaphore.go:15-19 semaphore.V *)
Definition V (n : nat) : chan → option chan := repeat_op n chan_recv.

Definition MaximumConnections : nat := 64.

(** The semaphore of a dialer, and the connections it has open, with what each
    is connected to. *)
(* @dcp/client/conn.go:12-16 Dialer *)
Record Dialer := { dl_sem : chan; dl_ConnMax : nat; dl_open : list string }.

(* @dcp/client/conn.go:18-28 NewDialer *)
Definition NewDialer (connMax : nat) : Dialer :=
  let connMax := if decide (connMax = 0) then MaximumConnections else connMax in
  {| dl_sem := {| ch_len := 0; ch_cap := connMax |}; dl_ConnMax := connMax; dl_open := [] |}.

(** [dial] is the answer of the operating system.  None: the call blocks. *)
(* @dcp/client/conn.go:30-42 Dialer.Dial *)
Definition Dial (dial : option error) (address : string) (d : Dialer) : option (Dialer * option error) :=
  sem ← P 1 (dl_sem d);
  match dial with
  | Some e => sem ← V 1 sem; Some ({| dl_sem := sem; dl_ConnMax := dl_ConnMax d; dl_open := dl_open d |}, Some e)
  | None => Some ({| dl_sem := sem; dl_ConnMax := dl_ConnMax d; dl_open := address :: dl_open d |}, None)
  end.

(** Closing an open connection. *)
(* @dcp/client/conn.go:49-53 Conn.Close *)
Definition Conn_Close (i : nat) (d : Dialer) : option Dialer :=
  sem ← V 1 (dl_sem d);
  Some {| dl_sem := sem; dl_ConnMax := dl_ConnMax d; dl_open := delete i (dl_open d) |}.

Inductive dialer_step : Dialer → Dialer → Prop :=
  | step_dial dial a d d' e : Dial dial a d = Some (d', e) → dialer_step d d'
  | step_close i d d' : i < length (dl_open d) → Conn_Close i d = Some d' → dialer_step d d'.

Definition dialer_inv (d : Dialer) : Prop :=
  ch_len (dl_sem d) = length (dl_open d) ∧ ch_len (dl_sem d) ≤ ch_cap (dl_sem d) ∧ ch_cap (dl_sem d) = dl_ConnMax d.

Lemma dialer_step_inv d d' : dialer_step d d' → dialer_inv d → dialer_inv d' ∧ dl_ConnMax d' = dl_ConnMax d.
Proof.
  unfold dialer_inv. intros Hs (H1 & H2 & H3). destruct Hs as [dial a d d' e Hd | i d d' Hi Hd].
  - unfold Dial, P, repeat_op, chan_send in Hd. destruct (decide _) as [Hlt |]; [| done]. cbn in Hd.
    destruct dial as [e' |]; cbn in Hd; simplify_eq; simpl; lia.
  - unfold Conn_Close, V, repeat_op, chan_recv in Hd. destruct (ch_len (dl_sem d)) eqn:E; [done |].
    cbn in Hd. simplify_eq. simpl. rewrite length_delete by (by apply lookup_lt_is_Some). lia.
Qed.

(** A dialer never has more connections open than its limit, closing an
    open connection never blocks, and the limit is the one it was made with
    (64 for zero). *)
Theorem Dialer_bound (n : nat) (d : Dialer) (i : nat) :
  rtc dialer_step (NewDialer n) d →
  length (dl_open d) ≤ (if decide (n = 0) then 64 else n) ∧ (i < length (dl_open d) → is_Some (Conn_Close i d)).
Proof.
  intros H. assert (dialer_inv d ∧ dl_ConnMax d = dl_ConnMax (NewDialer n)) as [(H1 & H2 & H3) H4].
  { assert (dialer_inv (NewDialer n)) as Hi by (unfold dialer_inv; simpl; lia).
    revert Hi. induction H as [x | x y z Hs Hr IH]; intros Hi; [done |].
    destruct (dialer_step_inv _ _ Hs Hi) as [Hy Hm]. rewrite <- Hm. by apply IH. }
  simpl in H4. split; [unfold MaximumConnections in *; lia |]. intros Hi.
  unfold Conn_Close, V, repeat_op, chan_recv. destruct (ch_len (dl_sem d)); [lia | simpl; eauto].
Qed.

Lemma Dialer_bound_witness :
  1 ≤ 2 ∧ (0 < 1 → is_Some (Conn_Close 0 {| dl_sem := {| ch_len := 1; ch_cap := 2 |}; dl_ConnMax := 2; dl_open := ["h:1"%string] |})).
Proof.
  apply (Dialer_bound 2 {| dl_sem := {| ch_len := 1; ch_cap := 2 |}; dl_ConnMax := 2; dl_open := ["h:1"%string] |} 0).
  eapply rtc_l; [| apply rtc_refl]. eapply (step_dial None "h:1"). reflexivity.
Defined.
