(* ===== verification/Stage.v ===== *)
(** [dcp/host/stage.go]: the stages of a service, and the channels on which
    others wait for one. *)

From S2P Require Import Prelude DcpCommon.
From Stdlib Require Import ZArith Lia.

(* @dcp/host/stage.go:10-30 Stage *)
Definition Stage : Type := Z.
Definition StageCreated : Stage := 1%Z.
Definition StageInitialized : Stage := 2%Z.
Definition StageStarted : Stage := 3%Z.
Definition StageAvailable : Stage := 4%Z.
Definition StageStopped : Stage := 5%Z.

(** Channels are numbered as they are made; [sc_closed] are those that are
    closed.  The zero value has stage 0 and a nil map, which reads as empty. *)
(* @dcp/host/stage.go:32-37 StageContainer *)
Record StageContainer := {
  sc_s : Stage;
  sc_c : gmap Z (list nat);
  sc_closed : gset nat;
  sc_next : nat
}.
#[export] Instance eta_StageContainer : Eta StageContainer := λ c,
  {| sc_s := sc_s c; sc_c := sc_c c; sc_closed := sc_closed c; sc_next := sc_next c |}.
Definition new_StageContainer : StageContainer := {| sc_s := 0%Z; sc_c := ∅; sc_closed := ∅; sc_next := 0 |}.

Definition waiters (c : StageContainer) (s : Stage) : list nat := default [] (sc_c c !! s).

(* @dcp/host/stage.go:45-47 StageContainer.Stage *)
Definition stage (c : StageContainer) : Stage := sc_s c.

(* @dcp/host/stage.go:49-70 StageContainer.SetStage *)
Definition SetStage (s : Stage) (c : StageContainer) : StageContainer * option error :=
  if decide (s ≤ sc_s c)%Z then (c, Some ErrStageBackwards)
  else
    let c := c <| sc_s := s |> in
    (c <| sc_closed := sc_closed c ∪ list_to_set (waiters c s) |> <| sc_c := delete s (sc_c c) |>, None).

(* @dcp/host/stage.go:76-91 StageContainer.StageBarrier *)
Definition StageBarrier (s : Stage) (c : StageContainer) : StageContainer * nat :=
  let ch := sc_next c in
  let c := c <| sc_next := S ch |> in
  if decide (s ≤ sc_s c)%Z then (c <| sc_closed := {[ ch ]} ∪ sc_closed c |>, ch)
  else (c <| sc_c := <[s := waiters c s ++ [ch]]> (sc_c c) |>, ch).

(** ** Runs *)
Inductive stage_op := OpSet (s : Stage) | OpBarrier (s : Stage).
Definition run_op (c : StageContainer) (o : stage_op) : StageContainer :=
  match o with OpSet s => (SetStage s c).1 | OpBarrier s => (StageBarrier s c).1 end.

(** The stages that were set, in order. *)
Fixpoint stages_set (c : StageContainer) (ops : list stage_op) : list Stage :=
  match ops with
  | [] => []
  | o :: ops =>
      match o with
      | OpSet s => if decide (s ≤ sc_s c)%Z then stages_set c ops else s :: stages_set (run_op c o) ops
      | OpBarrier s => stages_set (run_op c o) ops
      end
  end.

(** Waiting channels are open, distinct from each other's stages, and older
    than the next number. *)
Definition stage_inv (c : StageContainer) : Prop :=
  (∀ s ch, ch ∈ waiters c s → ch < sc_next c ∧ ch ∉ sc_closed c)
  ∧ (∀ s s' ch, ch ∈ waiters c s → ch ∈ waiters c s' → s = s')
  ∧ (∀ ch, ch ∈ sc_closed c → ch < sc_next c).

Lemma SetStage_unfold s c : (sc_s c < s)%Z →
  (SetStage s c).1 = c <| sc_s := s |> <| sc_closed := sc_closed c ∪ list_to_set (waiters c s) |> <| sc_c := delete s (sc_c c) |>.
Proof. intros. unfold SetStage. rewrite decide_False by lia. done. Qed.

Lemma set_waiters s c s' : (sc_s c < s)%Z → waiters (SetStage s c).1 s' = if decide (s = s') then [] else waiters c s'.
Proof.
  intros. rewrite SetStage_unfold by done. unfold waiters. simpl.
  destruct (decide (s = s')) as [-> |]; [by rewrite lookup_delete_eq | by rewrite lookup_delete_ne].
Qed.

Lemma barrier_waiters s c s' : (sc_s c < s)%Z →
  waiters (StageBarrier s c).1 s' = if decide (s = s') then waiters c s ++ [sc_next c] else waiters c s'.
Proof.
  intros. unfold StageBarrier, waiters. simpl. rewrite decide_False by lia. simpl.
  destruct (decide (s = s')) as [-> |]; [by rewrite lookup_insert_eq | by rewrite lookup_insert_ne].
Qed.

Lemma run_op_inv c o : stage_inv c → stage_inv (run_op c o).
Proof.
  intros (H1 & H2 & H3). destruct o as [s | s]; cbn [run_op].
  - destruct (decide (s ≤ sc_s c)%Z) as [Hle | Hgt]; [unfold SetStage; rewrite decide_True by done; done |].
    split_and!.
    + intros s' ch. rewrite set_waiters by lia. case_decide as Hs; [by intros Hc%not_elem_of_nil |]. intros Hc.
      destruct (H1 s' ch Hc) as [? ?]. rewrite SetStage_unfold by lia. split; [done |]. simpl.
      rewrite not_elem_of_union, not_elem_of_list_to_set. split; [done |]. intros Hc'. by rewrite (H2 _ _ _ Hc Hc') in Hs.
    + intros s1 s2 ch. rewrite !set_waiters by lia. repeat case_decide; try (intros ? ?; by eapply H2); by intros ? ?%not_elem_of_nil || by intros ?%not_elem_of_nil.
    + intros ch. rewrite SetStage_unfold by lia. simpl. rewrite elem_of_union, elem_of_list_to_set. intros [Hc | Hc]; [by apply H3 | by apply (H1 s)].
  - destruct (decide (s ≤ sc_s c)%Z) as [Hle | Hgt].
    + unfold StageBarrier. simpl. rewrite decide_True by done. split_and!; simpl.
      * intros s' ch Hc. change (ch ∈ waiters c s') in Hc. destruct (H1 s' ch Hc). split; [simpl; lia |]. simpl. set_unfold. intros [-> | ?]; [lia | done].
      * exact H2.
      * intros ch. simpl. set_unfold. intros [-> | Hc]; [lia |]. apply H3 in Hc. lia.
    + assert (sc_next (StageBarrier s c).1 = S (sc_next c) ∧ sc_closed (StageBarrier s c).1 = sc_closed c) as [En Ec]
        by (unfold StageBarrier; simpl; rewrite decide_False by done; done).
      split_and!.
      * intros s' ch. rewrite barrier_waiters, En, Ec by lia. case_decide.
        -- rewrite elem_of_app, list_elem_of_singleton. intros [Hc | ->]; [destruct (H1 s ch Hc); split; [lia | done] |].
           split; [lia |]. intros Hc%H3. lia.
        -- intros Hc. destruct (H1 s' ch Hc). split; [lia | done].
      * assert (∀ s', sc_next c ∉ waiters c s') as Hn by (intros s' Hc; destruct (H1 _ _ Hc); lia).
        intros s1 s2 ch. rewrite !barrier_waiters by lia.
        repeat case_decide; subst; try done; rewrite ?elem_of_app, ?list_elem_of_singleton; intros Hc1 Hc2;
          destruct_or?; subst; try (by eapply H2); exfalso; naive_solver.
      * intros ch. rewrite En, Ec. intros Hc%H3. lia.
Qed.

Lemma run_stage c o : (sc_s c ≤ sc_s (run_op c o))%Z.
Proof.
  destruct o as [s | s]; simpl; unfold SetStage, StageBarrier; simpl; case_decide; simpl; lia.
Qed.

Lemma closed_mono c o ch : ch ∈ sc_closed c → ch ∈ sc_closed (run_op c o).
Proof.
  destruct o as [s | s]; simpl; unfold SetStage, StageBarrier; simpl; case_decide; simpl; set_solver.
Qed.
Lemma closed_mono_run c ops ch : ch ∈ sc_closed c → ch ∈ sc_closed (foldl run_op c ops).
Proof. revert c. induction ops as [| o ops IH]; intros c; simpl; [done |]. intros. by apply IH, closed_mono. Qed.

(** Waiters keep waiting until their stage is set. *)
Lemma waiters_kept c o s ch :
  ch ∈ waiters c s → o ≠ OpSet s ∨ (s ≤ sc_s c)%Z → ch ∈ waiters (run_op c o) s.
Proof.
  intros Hw Ho. destruct o as [s' | s']; cbn [run_op].
  - destruct (decide (s' ≤ sc_s c)%Z); [unfold SetStage; by rewrite decide_True |].
    rewrite set_waiters by lia. rewrite decide_False; [done |]. intros ->. naive_solver lia.
  - destruct (decide (s' ≤ sc_s c)%Z); [unfold StageBarrier; simpl; by rewrite decide_True |].
    rewrite barrier_waiters by lia. case_decide; [subst; set_solver | done].
Qed.

(** Once the stage is past [s] without [s] having been set, nothing closes the
    channels of [s]. *)
Lemma passed_never ops c s ch :
  stage_inv c → ch ∈ waiters c s → (s ≤ sc_s c)%Z →
  ch ∉ sc_closed (foldl run_op c ops) ∧ s ∉ stages_set c ops.
Proof.
  revert c. induction ops as [| o ops IH]; intros c Hi Hw Hs; cbn [foldl stages_set].
  - pose proof Hi as (H1 & _ & _). split; [by apply (H1 s) | by intros ?%not_elem_of_nil].
  - destruct (IH (run_op c o)) as [H1 H2]; [by apply run_op_inv | apply waiters_kept; auto | pose proof (run_stage c o); lia |].
    split; [done |]. destruct o as [s1 | s1]; [| done]. case_decide as Hle.
    + by replace (run_op c (OpSet s1)) with c in H2 by (simpl; unfold SetStage; by rewrite decide_True).
    + rewrite not_elem_of_cons. split; [lia | done].
Qed.

Lemma waiting_closed c ops s ch :
  stage_inv c → ch ∈ waiters c s → (sc_s c < s)%Z →
  ch ∈ sc_closed (foldl run_op c ops) ↔ s ∈ stages_set c ops.
Proof.
  revert c. induction ops as [| o ops IH]; intros c Hi Hw Hs.
  - simpl. pose proof Hi as (H1 & _ & _). split; [intros ?; by apply H1 in Hw as [] | by intros ?%not_elem_of_nil].
  - cbn [foldl stages_set]. destruct o as [s' | s'].
    + case_decide as Hle.
      { assert (run_op c (OpSet s') = c) as -> by (simpl; unfold SetStage; by rewrite decide_True). by apply IH. }
      assert (sc_s (run_op c (OpSet s')) = s') as Es by (simpl; rewrite SetStage_unfold by lia; done).
      destruct (decide (s = s')) as [<- | Hne].
      * split; [set_solver |]. intros _. apply closed_mono_run. simpl. rewrite SetStage_unfold by lia. simpl.
        rewrite elem_of_union, elem_of_list_to_set. auto.
      * assert (ch ∈ waiters (run_op c (OpSet s')) s) as Hw' by (apply waiters_kept; [done | left; naive_solver]).
        rewrite elem_of_cons. destruct (decide (s ≤ s')%Z).
        -- destruct (passed_never ops (run_op c (OpSet s')) s ch) as [H1 H2]; [by apply run_op_inv | done | lia |]. naive_solver.
        -- rewrite IH; [naive_solver | by apply run_op_inv | done | lia].
    + apply IH; [by apply run_op_inv | by apply waiters_kept; auto |].
      simpl. unfold StageBarrier. simpl. case_decide; simpl; lia.
Qed.

Lemma new_inv : stage_inv new_StageContainer.
Proof. split_and!; intros *; unfold waiters; simpl; rewrite ?lookup_empty; set_solver. Qed.

Lemma run_ops_inv ops c : stage_inv c → stage_inv (foldl run_op c ops).
Proof. revert c. induction ops as [| o ops IH]; intros c Hc; simpl; [done | by apply IH, run_op_inv]. Qed.

(** C17: a service's stage only moves forward; and the channel that
    [StageBarrier] returned for a stage is closed later exactly when the stage had
    been reached at the call, or that very stage was set after it. *)
Theorem StageBarrier_spec (before after : list stage_op) (s : Stage) :
  let c := foldl run_op new_StageContainer before in
  let '(c1, ch) := StageBarrier s c in
  let c2 := foldl run_op c1 after in
  (sc_s c ≤ sc_s c2)%Z ∧ (ch ∈ sc_closed c2 ↔ (s ≤ sc_s c)%Z ∨ s ∈ stages_set c1 after).
Proof.
  intros c. assert (stage_inv c) as Hi by apply run_ops_inv, new_inv.
  destruct (StageBarrier s c) as [c1 ch] eqn:E. intros c2.
  assert (c1 = run_op c (OpBarrier s)) as Ec1 by (simpl; by rewrite E).
  assert (∀ ops c, (sc_s c ≤ sc_s (foldl run_op c ops))%Z) as Hmono.
  { induction ops as [| o ops IH]; intros c'; simpl; [lia |]. pose proof (run_stage c' o). specialize (IH (run_op c' o)). lia. }
  split; [pose proof (Hmono after c1) as Hm1; fold c2 in Hm1; pose proof (run_stage c (OpBarrier s)) as H; rewrite <- Ec1 in H; lia |].
  assert (ch = sc_next c) as -> by (unfold StageBarrier in E; simpl in E; case_decide; congruence).
  unfold c2. rewrite Ec1. clear c2 E Ec1. destruct (decide (s ≤ sc_s c)%Z) as [Hle | Hgt].
  - split; [auto |]. intros _. apply closed_mono_run. simpl. unfold StageBarrier. simpl.
    rewrite decide_True by done. simpl. rewrite elem_of_union, elem_of_singleton. auto.
  - rewrite (waiting_closed _ _ s); [naive_solver | by apply run_op_inv | |].
    + cbn [run_op]. rewrite barrier_waiters by lia. rewrite decide_True by done.
      rewrite elem_of_app, list_elem_of_singleton. auto.
    + simpl. unfold StageBarrier. simpl. rewrite decide_False by done. simpl. lia.
Qed.

(** A stage that is jumped over leaves its waiters waiting. *)
Example jumped_over :
  let '(c1, ch) := StageBarrier StageAvailable new_StageContainer in
  bool_decide (ch ∈ sc_closed (SetStage StageStopped c1).1) = false.
Proof. vm_compute. reflexivity. Qed.
