(* ===== verification/Host.v ===== *)
(** Package [dcp/host]: services, the contexts that dispatch their requests,
    factories, and the host that serves them over HTTP.

    [W] is everything the handlers of services act on: their own state, the
    network, the clock.  A handler is a function on an operation and [W] that
    runs to its end; it completes or fails the operation, or leaves it open.
    A service that a handler is never done with keeps its caller waiting,
    which here is an operation that stays open.

    What is here runs alone: [StartService] with its goroutine up to its end, as
    the callers see it who wait for its operation, and [ServeHTTP] for a service
    that is available.  [HostQueue] has the same code in steps, where starts,
    requests and timers interleave, and requests wait for services. *)

From S2P Require Import Prelude GoPath GoNet GoJson GoURL DcpCommon DcpUri Operation Stage.
From Stdlib Require Import ZArith Lia.

(** What the host takes from its surroundings. *)
Class Env (W : Type) := {
  env_now : W → Z;                        (* time.Now *)
  env_uuid : W → string * W;              (* uuid.New *)
  env_dcp : AddressFlag                   (* the flag behind uri.Local *)
}.

Section host.
Context `{GoTypes} {W : Type} `{Env W}.

Definition HandlerFunc : Type := Context → Operation → W → Operation * W.

(** [op.CreateChild(ctx).Go(ctx, fn).Wait()]: the child shares the state of
    its parent; None: it is never done. *)
Definition run_child (fn : HandlerFunc) (ctx : Context) (op : Operation) (w : W) : Operation * option (option error) * W :=
  let '(child, w) := fn ctx (CreateChild (env_now w) ctx op) w in
  (op <| op_state := op_state child |>, Wait child, w).

(** ** Service contexts *)

(** A service's handler: its state, a value of type [h_ty] that [GetState]
    points to, and the methods it implements ([dcp/host/interfaces.go]). *)
Record ServiceContextHandler := {
  h_ty : ty;
  h_GetState : W → den h_ty;
  h_SetState : den h_ty → W → W;
  h_Start : option HandlerFunc;
  h_Get : option HandlerFunc;
  h_Post : option HandlerFunc;
  h_Patch : option HandlerFunc;
  h_Put : option HandlerFunc;
  h_Delete : option HandlerFunc
}.

(* @dcp/host/service_context.go:14-26 ServiceContext *)
Record ServiceContext := {
  sc_h : ServiceContextHandler;
  hGet : option HandlerFunc;
  hPost : option HandlerFunc;
  hPatch : option HandlerFunc;
  hPut : option HandlerFunc;
  hDelete : option HandlerFunc
}.

(* @dcp/host/service_context.go:137-139 ServiceContext.HandleGet *)
Definition sc_HandleGet (h : ServiceContextHandler) : HandlerFunc := λ ctx op w,
  (Complete (SetBody (BValue (h_ty h) (h_GetState h w)) op), w).

(* @dcp/host/service_context.go:28-57 NewServiceContext *)
Definition NewServiceContext (h : ServiceContextHandler) : ServiceContext :=
  {| sc_h := h;
     hGet := match h_Get h with Some f => Some f | None => Some (sc_HandleGet h) end;
     hPost := h_Post h;
     hPatch := h_Patch h;
     hPut := h_Put h;
     hDelete := h_Delete h |}.

Definition if_set {A} (f : option A) (m : string) : list string := match f with Some _ => [m] | None => [] end.
(* @dcp/host/service_context.go:59-83 ServiceContext.allowedMethods *)
Definition allowedMethods (s : ServiceContext) : list string :=
  if_set (hGet s) "GET" ++ if_set (hPost s) "POST" ++ if_set (hPatch s) "PATCH" ++ if_set (hPut s) "PUT"
  ++ if_set (hDelete s) "DELETE".

(* @dcp/host/service_context.go:85-102 ServiceContext.HandleStart *)
Definition sc_HandleStart (s : ServiceContext) : HandlerFunc := λ ctx op w,
  let h := sc_h s in
  let '(op, v, err) := DecodeBody op (h_GetState h w) in
  let w := h_SetState h v w in
  if match err with Some e => bool_decide (e ≠ ErrBodyNotSet) | None => false end
  then (Fail_ (default EOF err) op, w)
  else match h_Start h with
       | None => (Complete op, w)
       | Some f =>
           match run_child f ctx op w with
           | (op, Some (Some e), w) => (Fail_ e op, w)
           | (op, Some None, w) => (Complete op, w)
           | (op, None, w) => (op, w)
           end
       end.

Definition request_method (op : Operation) : string := match GetRequest op with Some r => rq_Method r | None => ""%string end.

Definition handler_for (s : ServiceContext) (m : string) : option HandlerFunc :=
  if String.eqb m "GET" then hGet s
  else if String.eqb m "POST" then hPost s
  else if String.eqb m "PATCH" then hPatch s
  else if String.eqb m "PUT" then hPut s
  else if String.eqb m "DELETE" then hDelete s
  else None.

(* @dcp/host/service_context.go:104-135 ServiceContext.HandleRequest *)
Definition sc_HandleRequest (s : ServiceContext) : HandlerFunc := λ ctx op w,
  match handler_for s (request_method op) with
  | Some f => f ctx op w
  | None => (Fail_ (MethodNotAllowed (allowedMethods s)) op, w)
  end.

(** ** Minimal services *)
(* @dcp/host/minimal_service.go:34-36 MinimalService.HandleStart *)
Definition min_HandleStart : HandlerFunc := λ ctx op w, (Complete op, w).
(* @dcp/host/minimal_service.go:38-40 MinimalService.HandleRequest *)
Definition min_HandleRequest : HandlerFunc := λ ctx op w, (Fail_ (Errorf "host: service not implemented") op, w).

(** ** Factories *)
(** The factory's handler: the type of its documents, the zero document, the
    assignment to its self link, the services it creates (there may be a new
    one at each call), and its POST handler, if it has one. *)
Record FactoryServiceContextHandler := {
  f_ty : ty;
  f_CreateDocument : den f_ty;
  f_SetSelfLink : string → den f_ty → den f_ty;
  f_CreateService : W → ServiceContext * W;
  f_Post : option HandlerFunc
}.

(** A service on a host: what it is, its stages, and its link. *)
Inductive impl :=
  | Minimal
  | Ctx (s : ServiceContext)
  | Factory (f : FactoryServiceContextHandler).

(* @dcp/host/minimal_service.go:11-16 MinimalService *)
Record Service := {
  svc_impl : impl;
  svc_stages : StageContainer;
  svc_selfLink : string
}.
#[export] Instance eta_Service : Eta Service := λ s,
  {| svc_impl := svc_impl s; svc_stages := svc_stages s; svc_selfLink := svc_selfLink s |}.

Definition new_Service (i : impl) : Service := {| svc_impl := i; svc_stages := new_StageContainer; svc_selfLink := "" |}.

(* @dcp/host/minimal_service.go:26-28 MinimalService.SelfLink *)
Definition SelfLink (s : Service) : string := svc_selfLink s.
(* @dcp/host/minimal_service.go:30-32 MinimalService.SetSelfLink *)
Definition SetSelfLink (l : string) (s : Service) : Service := s <| svc_selfLink := l |>.

Definition svc_SetStage (st : Stage) (s : Service) : Service * option error :=
  let '(c, e) := SetStage st (svc_stages s) in (s <| svc_stages := c |>, e).

(** Starting a factory or a minimal service does nothing. *)
(* @dcp/host/factory_service_context.go:39-41 FactoryServiceContext.HandleStart *)
Definition HandleStart (i : impl) : HandlerFunc :=
  match i with
  | Ctx s => sc_HandleStart s
  | Minimal | Factory _ => min_HandleStart
  end.

(** ** The host *)

(** The address of a listener: that of TCP, or another one, as [%#v] prints it. *)
Inductive Addr := TCPAddr_ (ip : IP) (port : Z) | OtherAddr (text : string).
Record Listener := { l_addr : Addr; l_open : bool }.

(* @dcp/host/service_host.go:21-29 ServiceHost *)
Record ServiceHost := {
  tcpListener : option Listener;
  services : gmap string Service;
  selfURI : option URI
}.
#[export] Instance eta_ServiceHost : Eta ServiceHost :=
  λ h, {| tcpListener := tcpListener h; services := services h; selfURI := selfURI h |}.

(* @dcp/host/service_host.go:31-37 NewServiceHost *)
Definition NewServiceHost : ServiceHost := {| tcpListener := None; services := ∅; selfURI := None |}.

(* @dcp/host/service_host.go:60-71 ServiceHost.TCPAddr *)
Definition TCPAddr (h : ServiceHost) : res (IP * Z) :=
  match tcpListener h with
  | None => Err (Errorf "no listener")
  | Some l =>
      match l_addr l with
      | TCPAddr_ ip port => Ok (ip, port)
      | OtherAddr text => Err (Errorf ("unknown address type: " +:+ text))
      end
  end.

(* @dcp/host/service_host.go:73-89 ServiceHost.setURI *)
Definition setURI (h : ServiceHost) : ServiceHost * option error :=
  match TCPAddr h with
  | Err e => (h, Some e)
  | Ok (ip, port) =>
      let host := if IP_Equal ip IPv4zero then "127.0.0.1"%string else IP_String ip in
      (h <| selfURI := New host (fmt_d port) |>, None)
  end.

(** [listen] is [net.Listen("tcp4", _)]. *)
(* @dcp/host/service_host.go:39-50 ServiceHost.Initialize *)
Definition Initialize (listen : string → res Addr) (tcpAddr : string) (h : ServiceHost) : ServiceHost * option error :=
  match listen tcpAddr with
  | Err e => (h <| tcpListener := None |>, Some e)
  | Ok a => setURI (h <| tcpListener := Some {| l_addr := a; l_open := true |} |>)
  end.

(** Stopping a host without a listener dereferences nil. *)
(* @dcp/host/service_host.go:56-58 ServiceHost.Stop *)
Definition host_Stop (h : ServiceHost) : outcome ServiceHost :=
  match tcpListener h with
  | None => Panic
  | Some l => Ret (h <| tcpListener := Some {| l_addr := l_addr l; l_open := false |} |>)
  end.

(* @dcp/host/service_host.go:91-93 ServiceHost.URI *)
Definition host_URI (h : ServiceHost) : option URI := selfURI h.

(** A host that was initialized listens, has the URI of its listener (the local
    one, when it listens on all addresses), and can be stopped; one that could not
    be has no URI. *)
Lemma Initialize_spec (listen : string → res Addr) (tcpAddr : string) :
  let '(h, err) := Initialize listen tcpAddr NewServiceHost in
  match err with
  | None => ∃ ip port, listen tcpAddr = Ok (TCPAddr_ ip port) ∧ TCPAddr h = Ok (ip, port)
      ∧ host_URI h = New (if IP_Equal ip IPv4zero then "127.0.0.1"%string else IP_String ip) (fmt_d port)
      ∧ ∃ h', host_Stop h = Ret h' ∧ (l_open <$> tcpListener h') = Some false
  | Some _ => host_URI h = None
  end.
Proof.
  unfold Initialize. destruct (listen tcpAddr) as [[ip port | text] | e]; [| done | done].
  exists ip, port. split_and!; [done | done | done |]. by eexists.
Qed.

Definition store (l : string) (s : Service) (h : ServiceHost) : ServiceHost := h <| services := <[l := s]> (services h) |>.

(** The goroutine of a started service, from its initialized stage on. *)
(* @dcp/host/service_host.go:240-262 ServiceHost.startService *)
Definition startService (op : Operation) (l : string) (s : Service) (h : ServiceHost) (w : W) : Operation * ServiceHost * W :=
  match run_child (HandleStart (svc_impl s)) Background op w with
  | (op, None, w) => (op, h, w)
  | (op, Some (Some e), w) => (Fail_ e op, h, w)
  | (op, Some None, w) =>
      match svc_SetStage StageStarted s with
      | (s, Some e) => (Fail_ e op, store l s h, w)
      | (s, None) =>
          match svc_SetStage StageAvailable s with
          | (s, Some e) => (Fail_ e op, store l s h, w)
          | (s, None) => (Complete op, store l s h, w)
          end
      end
  end.

Definition uri_path (op : Operation) : string := match GetURI op with Some u => b2s (u_Path u) | None => ""%string end.

(** Adding the service, and its goroutine up to its end: the operation and the
    host are those that a caller finds who waits for the operation, when nobody else
    acts on the host meanwhile.  All callers of the program wait.  The stages in
    between, which requests can see, are steps of [HostQueue.start_next]. *)
(* @dcp/host/service_host.go:204-236 ServiceHost.StartService *)
Definition StartService (op : Operation) (s : Service) (h : ServiceHost) (w : W) : Operation * ServiceHost * W :=
  let selfLink := SelfLink s in
  let '(selfLink, s) :=
    if str_empty selfLink then let l := path_Clean ("/" +:+ uri_path op) in (l, SetSelfLink l s) else (selfLink, s) in
  match services h !! selfLink with
  | Some _ => (Fail_ (Errorf "host: service is already bound") op, h, w)
  | None =>
      match svc_SetStage StageInitialized s with
      | (s, Some e) => (Fail_ e op, store selfLink s h, w)
      | (s, None) => startService op selfLink s (store selfLink s h) w
      end
  end.

(* @dcp/host/service_host.go:188-193 ServiceHost.StartServiceSync *)
Definition StartServiceSync (path : string) (s : Service) (h : ServiceHost) (w : W) : option (option (option error) * ServiceHost * W) :=
  u ← selfURI h;
  let '(op, h, w) := StartService (NewPost (env_now w) Background (Extend u path) BNil) s h w in
  Some (Wait op, h, w).

(** ** Requests *)
(** A POST to a factory begins with its handler and the document.  It is over when
    they fail; otherwise its operation goes on, and there is another one to start
    the new service with. *)
Definition begun : Type := Operation * W + Operation * Operation * Service * W.
(* @dcp/host/factory_service_context.go:60-92 FactoryServiceContext.handlePost *)
Definition factory_begin (f : FactoryServiceContextHandler) (selfLink : string) (ctx : Context) (op : Operation) (w : W) : begun :=
  let '(op, err, w) :=
    match f_Post f with
    | Some fn => run_child fn ctx op w
    | None => (op, Some None, w)
    end in
  match err with
  | None => inl (op, w)
  | Some (Some e) => inl (Fail_ e op, w)
  | Some None =>
      let '(op, doc, err) := DecodeBody op (f_CreateDocument f) in
      if match err with Some e => bool_decide (e ≠ EOF) | None => false end
      then inl (Fail_ (default EOF err) op, w)
      else
        let '(id, w) := env_uuid w in
        let link := path_Join selfLink id in
        let op := SetBody (BValue (f_ty f) (f_SetSelfLink f link doc)) op in
        match EncodeBodyAsBuffer op with
        | (op, Err e) => inl (Fail_ e op, w)
        | (op, Ok buf) =>
            match Local_ env_dcp with
            | None => inl (op, w)                (* the flag is no URL: panics *)
            | Some u =>
                let startOp := NewPost (env_now w) ctx (Extend u link) (BBuffer buf) in
                let '(s, w) := f_CreateService f w in inr (op, startOp, new_Service (Ctx s), w)
            end
        end
  end.
(** The POST waits for the start, and ends as it did. *)
(* @dcp/host/factory_service_context.go:93-99 FactoryServiceContext.handlePost *)
Definition factory_end (op startOp : Operation) : Operation :=
  match Wait startOp with
  | None => op
  | Some (Some e) => Fail_ e op
  | Some None => Complete op
  end.

(* @dcp/host/factory_service_context.go:43-54 FactoryServiceContext.HandleRequest *)
Definition service_begin (s : Service) (ctx : Context) (op : Operation) (w : W) : begun :=
  match svc_impl s with
  | Factory f =>
      if String.eqb (request_method op) "POST" then factory_begin f (svc_selfLink s) ctx op w
      else inl (Fail_ (MethodNotAllowed ["POST"]) op, w)
  | Ctx c => inl (sc_HandleRequest c ctx op w)
  | Minimal => inl (min_HandleRequest ctx op w)
  end.
Definition service_HandleRequest (s : Service) (ctx : Context) (op : Operation) (h : ServiceHost) (w : W) : Operation * ServiceHost * W :=
  match service_begin s ctx op w with
  | inl (op, w) => (op, h, w)
  | inr (op, startOp, s, w) => let '(startOp, h, w) := StartService startOp s h w in (factory_end op startOp, h, w)
  end.

(** None: the service is not available yet, and the request waits for its stage,
    or until its timer fires ([HostQueue.arrive]). *)
(* @dcp/host/service_host.go:161-185 ServiceHost.HandleRequest *)
Definition HandleRequest (ctx : Context) (op : Operation) (h : ServiceHost) (w : W) : option (Operation * ServiceHost * W) :=
  let selfLink := path_Clean (match GetRequest op with Some r => b2s (u_Path (rq_URL r)) | None => ""%string end) in
  match services h !! selfLink with
  | None => Some (Complete (SetStatusCode 404 op), h, w)
  | Some s =>
      if decide (stage (svc_stages s) < StageAvailable)%Z then None
      else Some (service_HandleRequest s ctx op h w)
  end.

(** The response of a completed operation. *)
Record Reply := { rp_status : Z; rp_header : list (string * string); rp_body : option text }.

(** [error_ty] is the type of error responses. *)
Context (error_ty : ty) (error_value : ServiceErrorResponse → den error_ty).

(* @dcp/host/service_host.go:123-158 ServiceHost.ServeHTTP *)
Definition respond (op : Operation) : Reply :=
  match Err_ op with
  | Some (MethodNotAllowed allowed) =>
      let r := MethodNotAllowed_ServeHTTP allowed in
      {| rp_status := r_status r; rp_header := r_header r; rp_body := None |}
  | err =>
      let op := match err with
                | Some e => SetBody (BValue error_ty (error_value {| ser_Message := Error e; ser_StackTrace := []; ser_StatusCode := 0 |}))
                              (SetStatusCode 500 op)
                | None => op
                end in
      let code := if int_empty (GetStatusCode op) then 200%Z else GetStatusCode op in
      {| rp_status := code;
         rp_header := if IsStreamResponse op then [] else [(ContentType, ApplicationJSON)];
         rp_body := match EncodeBody op with (_, Ok x) => Some x | (_, Err _) => None end |}
  end.

(** A request that need not wait; an operation that the handler leaves open is
    failed by its timer. *)
(* @dcp/host/service_host.go:96-159 ServiceHost.ServeHTTP *)
Definition ServeHTTP (req : HttpRequest) (h : ServiceHost) (w : W) : option (Reply * ServiceHost * W) :=
  let ctx := Background in
  let op := SetRequest req (NewOperation (env_now w) ctx) in
  let t := Header_Get (rq_Header req) RequestAuthTokenHeader in
  let ctx := if str_empty t then ctx else SetAuthorizationToken ctx t in
  '(op, h, w) ← HandleRequest ctx (Start op) h w;
  Some (respond (expire (GetExpiration op) op), h, w).
End host.

(** ** Properties *)
Section host_props.
Context `{GoTypes} {W : Type} `{Env W}.
Implicit Types (h : ServiceHost (W := W)) (w : W).

Lemma elem_of_if_set {A} (f : option A) m m' : m' ∈ if_set f m ↔ is_Some f ∧ m' = m.
Proof. destruct f; simpl; rewrite ?list_elem_of_singleton, ?elem_of_nil; [| split; [done | by intros [[? [=]] _]]]. naive_solver. Qed.

Lemma handler_for_allowed (s : ServiceContext (W := W)) (m : string) :
  is_Some (handler_for s m) ↔ m ∈ allowedMethods s.
Proof.
  unfold handler_for, allowedMethods. rewrite !elem_of_app, !elem_of_if_set.
  destruct (String.eqb_spec m "GET"); [naive_solver |]. destruct (String.eqb_spec m "POST"); [naive_solver |].
  destruct (String.eqb_spec m "PATCH"); [naive_solver |]. destruct (String.eqb_spec m "PUT"); [naive_solver |].
  destruct (String.eqb_spec m "DELETE"); [naive_solver |]. split; [by intros [? [=]] | naive_solver].
Qed.

(** A service answers a method exactly when its handler implements it
    (GET always: it returns the state); any other request fails with the list of
    the methods it does answer, and touches nothing. *)
Theorem HandleRequest_dispatch (sh : ServiceContextHandler) (ctx : Context) (op : Operation) (w : W) :
  let s := NewServiceContext sh in
  let m := request_method op in
  (m ∈ allowedMethods s → ∃ f, handler_for s m = Some f ∧ sc_HandleRequest s ctx op w = f ctx op w)
  ∧ (m ∉ allowedMethods s → sc_HandleRequest s ctx op w = (Fail_ (MethodNotAllowed (allowedMethods s)) op, w))
  ∧ "GET"%string ∈ allowedMethods s.
Proof.
  intros s m. unfold sc_HandleRequest. fold m. split_and!.
  - intros [f Hf]%handler_for_allowed. exists f. by rewrite Hf.
  - intros Hm. destruct (handler_for s m) eqn:E; [| done]. exfalso. apply Hm, handler_for_allowed. eauto.
  - unfold s, allowedMethods, NewServiceContext. simpl. destruct (h_Get sh); set_solver.
Qed.

Lemma svc_SetStage_ok st (s : Service (W := W)) : (stage (svc_stages s) < st)%Z →
  ∃ s', svc_SetStage st s = (s', None) ∧ svc_selfLink s' = svc_selfLink s ∧ svc_impl s' = svc_impl s ∧ stage (svc_stages s') = st.
Proof.
  unfold stage, svc_SetStage, SetStage. intros Hs. rewrite decide_False by lia. eexists. split_and!; done.
Qed.

(** How a service ends up after [StartService], by what its start handler did. *)
Definition start_link (op : Operation) (s : Service (W := W)) : string :=
  if str_empty (SelfLink s) then path_Clean ("/" +:+ uri_path op) else SelfLink s.

Lemma StartService_cases op s h w :
  stage (svc_stages s) = 0%Z →
  let l := start_link op s in
  let '(op', h', w') := StartService op s h w in
  match services h !! l with
  | Some _ => h' = h ∧ w' = w ∧ op' = Fail_ (Errorf "host: service is already bound") op
  | None =>
      ∃ s', h' = store l s' h ∧ svc_selfLink s' = l ∧ svc_impl s' = svc_impl s ∧
      let '(op1, r, w1) := run_child (HandleStart (svc_impl s)) Background op w in
      w' = w1 ∧
      match r with
      | Some None => stage (svc_stages s') = StageAvailable ∧ op' = Complete op1
      | Some (Some e) => stage (svc_stages s') = StageInitialized ∧ op' = Fail_ e op1
      | None => stage (svc_stages s') = StageInitialized ∧ op' = op1
      end
  end.
Proof.
  intros Hs l. unfold StartService.
  destruct (if str_empty (SelfLink s) then _ else _) as [l' s1] eqn:E1.
  assert (l' = l ∧ svc_selfLink s1 = l ∧ svc_impl s1 = svc_impl s ∧ stage (svc_stages s1) = 0%Z) as (-> & Hl & Himpl & Hs1).
  { unfold l, start_link. destruct (str_empty (SelfLink s)); simplify_eq; done. }
  destruct (services h !! l) as [old |] eqn:El; [done |].
  destruct (svc_SetStage_ok StageInitialized s1) as (s2 & E2 & Hl2 & Hi2 & Hs2); [rewrite Hs1; done |].
  rewrite E2. unfold startService. rewrite Hi2, Himpl.
  destruct (run_child _ _ op w) as [[op1 r] w1] eqn:Er.
  destruct r as [[e |] |].
  - exists s2. split_and!; [done | congruence | congruence | done | done | done].
  - destruct (svc_SetStage_ok StageStarted s2) as (s3 & E3 & Hl3 & Hi3 & Hs3); [rewrite Hs2; done |].
    rewrite E3. destruct (svc_SetStage_ok StageAvailable s3) as (s4 & E4 & Hl4 & Hi4 & Hs4); [rewrite Hs3; done |].
    rewrite E4. exists s4. split_and!; [| congruence | congruence | done | done | done].
    unfold store. simpl. f_equal. by rewrite insert_insert_eq.
  - exists s2. split_and!; [done | congruence | congruence | done | done | done].
Qed.

(** C19: starting a service binds it under its link (its own, or else the path
    of the operation) and makes it available when its start handler succeeds; a
    link that is taken fails the operation and leaves the host as it was; when
    the start handler fails, so does the operation, but the service stays bound
    in its initial stage. *)
Theorem StartService_spec op s h w :
  stage (svc_stages s) = 0%Z → op_result op = None →
  let l := start_link op s in
  let '(op', h', w') := StartService op s h w in
  let '(op1, r, w1) := run_child (HandleStart (svc_impl s)) Background op w in
  match services h !! l with
  | Some _ => h' = h ∧ w' = w ∧ Err_ op' = Some (Errorf "host: service is already bound")
  | None =>
      ∃ s', services h' = <[l := s']> (services h) ∧ svc_selfLink s' = l ∧ w' = w1 ∧ Wait op' = r
        ∧ (stage (svc_stages s') = StageAvailable ↔ r = Some None)
        ∧ (stage (svc_stages s') = StageInitialized ↔ r ≠ Some None)
  end.
Proof.
  intros Hs Hop l. pose proof (StartService_cases op s h w Hs) as Hc. cbv zeta in Hc. fold l in Hc.
  destruct (StartService op s h w) as [[op' h'] w'].
  destruct (run_child _ _ op w) as [[op1 r] w1] eqn:Er.
  assert (op_result op1 = None) as Hop1.
  { unfold run_child in Er. destruct (HandleStart _ _ _ _). simplify_eq. done. }
  destruct (services h !! l) as [old |].
  - destruct Hc as (-> & -> & ->). unfold Fail_, Err_. rewrite Hop. done.
  - destruct Hc as (s' & -> & Hl & Hi & -> & Hr). exists s'. split_and!; try done.
    + destruct r as [[e |] |]; destruct Hr as [_ ->]; unfold Wait, Fail_, Complete, Err_; rewrite Hop1; done.
    + destruct r as [[e |] |]; destruct Hr as [-> _]; done.
    + destruct r as [[e |] |]; destruct Hr as [-> _]; unfold StageInitialized, StageAvailable; naive_solver.
Qed.

Section replies.
Context (error_ty : ty) (error_value : ServiceErrorResponse → den error_ty).

Definition request_link (req : HttpRequest) : string := path_Clean (b2s (u_Path (rq_URL req))).

Lemma expire_done now (op : Operation) r : op_result op = Some r → expire now op = op.
Proof. intros E. unfold expire, Fail_. rewrite E. by case_decide. Qed.

(** A request for a path without a service is answered with status 404;
    the response's body is the request's own body, which nothing has read. *)
Theorem ServeHTTP_not_found (req : HttpRequest) h w :
  services h !! request_link req = None →
  ServeHTTP error_ty error_value req h w
  = Some ({| rp_status := 404; rp_header := [(ContentType, ApplicationJSON)]; rp_body := rq_Body req |}, h, w).
Proof.
  intros E. unfold ServeHTTP. set (ctx := if str_empty _ then _ else _). unfold HandleRequest. simpl.
  unfold request_link in E. rewrite E. cbn [mbind option_bind].
  rewrite (expire_done _ _ None) by done. destruct req as [m u hd [b |]]; reflexivity.
Qed.

(** A GET of an available service without a GET handler of its own returns
    the service's state, with status 200. *)
Theorem ServeHTTP_get_state (req : HttpRequest) (sh : ServiceContextHandler) (s : Service) h w :
  services h !! request_link req = Some s → stage (svc_stages s) = StageAvailable →
  svc_impl s = Ctx (NewServiceContext sh) → h_Get sh = None → rq_Method req = "GET"%string →
  ServeHTTP error_ty error_value req h w
  = Some ({| rp_status := 200; rp_header := [(ContentType, ApplicationJSON)]; rp_body := Some (TJson (enc (h_GetState sh w))) |}, h, w).
Proof.
  intros E Hs Hi Hg Hm. unfold ServeHTTP. set (ctx := if str_empty _ then _ else _). unfold HandleRequest. simpl.
  unfold request_link in E. rewrite E, Hs. rewrite decide_False by done.
  unfold service_HandleRequest, service_begin. rewrite Hi. unfold sc_HandleRequest, handler_for, request_method. simpl. rewrite Hm.
  simpl. rewrite Hg. simpl. cbn [mbind option_bind]. rewrite (expire_done _ _ None); reflexivity.
Qed.
End replies.
End host_props.

(** ** Examples *)
#[export] Instance sample_env : Env string :=
  {| env_now := λ _, 0%Z; env_uuid := λ w, ("id"%string, w); env_dcp := {| af_host := ""; af_port := "" |} |}.

(** A service whose state is the world, and one that cannot start. *)
Definition sample_service (start : option (HandlerFunc (H := sample_types) (W := string))) : ServiceContextHandler (H := sample_types) (W := string) :=
  {| h_ty := true : @ty sample_types; h_GetState := λ w, w; h_SetState := λ v _, v; h_Start := start;
     h_Get := None; h_Post := None; h_Patch := None; h_Put := None; h_Delete := None |}.
Definition sample_svc start : Service (H := sample_types) (W := string) := new_Service (Ctx (NewServiceContext (sample_service start))).
Definition sample_get (p : string) : HttpRequest :=
  {| rq_Method := "GET"; rq_URL := empty_URL <| u_Path := s2b p |>; rq_Header := []; rq_Body := Some no_text |}.
Definition sample_started start : Operation * ServiceHost (H := sample_types) (W := string) * string :=
  StartService (NewPost 0 Background (empty_URL <| u_Path := s2b "/core/x" |>) BNil) (sample_svc start) NewServiceHost "state"%string.
Definition failing : HandlerFunc (H := sample_types) (W := string) := λ ctx op w, (Fail_ ErrPermission op, w).
Definition sample_error (r : ServiceErrorResponse) : @den sample_types true := ser_Message r.

Lemma StartService_spec_witness :
  let '(op', h', w') := sample_started (Some failing) in
  ∃ s', services h' = {[ "/core/x"%string := s' ]} ∧ Wait op' = Some (Some ErrPermission) ∧ stage (svc_stages s') = StageInitialized.
Proof.
  pose proof (StartService_spec (H := sample_types) (NewPost 0 Background (empty_URL <| u_Path := s2b "/core/x" |>) BNil)
    (sample_svc (Some failing)) NewServiceHost "state"%string eq_refl eq_refl) as Hs.
  destruct Hs as (s' & Hsv & _ & _ & Hw & _ & Hst). exists s'. split_and!; [exact Hsv | exact Hw | by apply Hst].
Defined.

Lemma ServeHTTP_not_found_witness :
  (fst ∘ fst <$> ServeHTTP (H := sample_types) true sample_error (sample_get "/y") (sample_started None).1.2 "state"%string)
  = Some {| rp_status := 404; rp_header := [(ContentType, ApplicationJSON)]; rp_body := Some no_text |}.
Proof. rewrite (ServeHTTP_not_found (H := sample_types)); [reflexivity | vm_compute; reflexivity]. Defined.

(** A host with one service, in the given stage. *)
Definition sample_at (st : Stage) : Service (H := sample_types) (W := string) :=
  (SetSelfLink "/core/x" (sample_svc None)) <| svc_stages := {| sc_s := st; sc_c := ∅; sc_closed := ∅; sc_next := 0 |} |>.
Definition sample_host (st : Stage) : ServiceHost (H := sample_types) (W := string) :=
  {| tcpListener := None; services := {[ "/core/x"%string := sample_at st ]}; selfURI := None |}.

Lemma sample_lookup st p : path_Clean p = "/core/x"%string → services (sample_host st) !! path_Clean p = Some (sample_at st).
Proof. intros ->. apply lookup_singleton_eq. Qed.

Lemma ServeHTTP_get_state_witness :
  ServeHTTP (H := sample_types) true sample_error (sample_get "/core/x") (sample_host StageAvailable) "state"%string
  = Some ({| rp_status := 200; rp_header := [(ContentType, ApplicationJSON)]; rp_body := Some (TJson (JStr "state")) |},
     sample_host StageAvailable, "state"%string).
Proof.
  apply (ServeHTTP_get_state (H := sample_types) true sample_error (sample_get "/core/x") (sample_service None) (sample_at StageAvailable)).
  - apply sample_lookup. vm_compute. reflexivity.
  - reflexivity.
  - reflexivity.
  - reflexivity.
  - reflexivity.
Defined.
