(* ===== verification/HostQueue.v ===== *)
(** The host under concurrency: services that are being started while requests
    for them arrive ([dcp/host/service_host.go], [dcp/host/stage.go]).

    [Host] runs a start and a request to their ends; here they are cut where the
    goroutines of the code may interleave: a start binds its service, sets its
    first stage, runs the start handler, and sets the other two; a request for a
    service that it finds not available then asks for a stage barrier, and waits
    there until the barrier is closed or its timer fires.  A handler runs in one
    step; a POST to a factory binds the new service in that step, and is answered
    when the start of the service has ended, or its timer fires.  A request whose
    handler is not done is left to its timer.  Timers may fire at any time. *)

From S2P Require Import Prelude GoPath GoNet GoJson GoURL DcpCommon DcpUri Operation Stage Host.
From Stdlib Require Import ZArith Lia.

Section queue.
Context `{GoTypes} {W : Type} `{Env W} (error_ty : ty) (error_value : ServiceErrorResponse → den error_ty).
Implicit Types (h : ServiceHost (W := W)) (w : W).

(** ** Goroutines *)

(** Where the goroutine of a start is. *)
Inductive pc := SetInitialized | RunStart | SetStarted | SetAvailable.
(** A start of its own, or that of a service that a POST to a factory makes: the
    number of the request, and its operation, which waits for the start. *)
Record starting := { sg_pc : pc; sg_link : string; sg_op : Operation; sg_parent : option (nat * Operation) }.

(** A request that found its service not available: it has the channel of a
    barrier, or is about to ask for one. *)
Record queued := { qd_id : nat; qd_ctx : Context; qd_op : Operation; qd_link : string; qd_ch : option nat }.

Record Conc := {
  cc_host : ServiceHost (W := W);
  cc_world : W;
  cc_starting : list starting;
  cc_done : list Operation;         (* those of the starts that ended *)
  cc_queue : list queued;
  cc_open : list (nat * Operation); (* requests that handlers are not done with *)
  cc_replies : gmap nat Reply;      (* what requests were answered with, by number *)
  (** the calls of handlers: the request, the link, and the stage the service had *)
  cc_calls : list (nat * string * Stage);
  cc_next : nat
}.
#[export] Instance eta_Conc : Eta Conc := λ c,
  {| cc_host := cc_host c; cc_world := cc_world c; cc_starting := cc_starting c; cc_done := cc_done c; cc_queue := cc_queue c;
     cc_open := cc_open c; cc_replies := cc_replies c; cc_calls := cc_calls c; cc_next := cc_next c |}.
Definition init_Conc w : Conc :=
  {| cc_host := NewServiceHost; cc_world := w; cc_starting := []; cc_done := []; cc_queue := [];
     cc_open := []; cc_replies := ∅; cc_calls := []; cc_next := 0 |}.

(** *** Answers *)

(** A request is answered once: when its operation is done, or fails with its
    timer. *)
Definition answer_once (id : nat) (op : Operation) (m : gmap nat Reply) : gmap nat Reply :=
  match m !! id with Some _ => m | None => <[id := respond error_ty error_value (expire (GetExpiration op) op)]> m end.
(** The handler of a request has returned. *)
Definition settle (id : nat) (op : Operation) (c : Conc) : Conc :=
  match op_result op with
  | Some _ => c <| cc_replies := answer_once id op (cc_replies c) |>
  | None => c <| cc_open := (id, op) :: cc_open c |>
  end.

(** *** Starting a service *)

(** A start has ended, and with it the POST that waits for it. *)
Definition end_start (parent : option (nat * Operation)) (op : Operation) (c : Conc) : Conc :=
  let c := c <| cc_done := op :: cc_done c |> in
  match parent with None => c | Some (id, pop) => settle id (factory_end pop op) c end.

(** Under the lock of the host; None: the link is taken. *)
(* @dcp/host/service_host.go:204-226 ServiceHost.StartService *)
Definition bind_service (op : Operation) (s : Service) h : option (string * ServiceHost) :=
  let selfLink := SelfLink s in
  let '(selfLink, s) :=
    if str_empty selfLink then let l := path_Clean ("/" +:+ uri_path op) in (l, SetSelfLink l s) else (selfLink, s) in
  match services h !! selfLink with Some _ => None | None => Some (selfLink, store selfLink s h) end.
Definition bind_step (parent : option (nat * Operation)) (op : Operation) (s : Service) (c : Conc) : Conc :=
  match bind_service op s (cc_host c) with
  | Some (l, h) =>
      c <| cc_host := h |>
        <| cc_starting := {| sg_pc := SetInitialized; sg_link := l; sg_op := op; sg_parent := parent |} :: cc_starting c |>
  | None => end_start parent (Fail_ (Errorf "host: service is already bound") op) c
  end.

(** Setting the stage of a bound service, under the lock of its stages. *)
Definition set_stage_at (st : Stage) (l : string) h : ServiceHost * option error :=
  match services h !! l with
  | Some s => let '(s, e) := svc_SetStage st s in (store l s h, e)
  | None => (h, None)
  end.

(** The next step of a start, and where its goroutine is afterwards; None: it
    ended (or waits for a start handler that is never done). *)
(* @dcp/host/service_host.go:228-262 ServiceHost.startService *)
Definition start_next (g : starting) h w : option pc * Operation * ServiceHost * W :=
  let op := sg_op g in
  let set st next :=
    match set_stage_at st (sg_link g) h with
    | (h, Some e) => (None, Fail_ e op, h, w)
    | (h, None) => match next with Some p => (Some p, op, h, w) | None => (None, Complete op, h, w) end
    end in
  match sg_pc g with
  | SetInitialized => set StageInitialized (Some RunStart)
  | RunStart =>
      match services h !! sg_link g with
      | Some s =>
          match run_child (HandleStart (svc_impl s)) Background op w with
          | (op, None, w) => (None, op, h, w)
          | (op, Some (Some e), w) => (None, Fail_ e op, h, w)
          | (op, Some None, w) => (Some SetStarted, op, h, w)
          end
      | None => (None, op, h, w)
      end
  | SetStarted => set StageStarted (Some SetAvailable)
  | SetAvailable => set StageAvailable None
  end.
Definition start_step (i : nat) (g : starting) (c : Conc) : Conc :=
  let '(next, op, h, w) := start_next g (cc_host c) (cc_world c) in
  let c := c <| cc_host := h |> <| cc_world := w |> in
  match next with
  | Some p => c <| cc_starting := <[i := {| sg_pc := p; sg_link := sg_link g; sg_op := op; sg_parent := sg_parent g |}]> (cc_starting c) |>
  | None => end_start (sg_parent g) op (c <| cc_starting := delete i (cc_starting c) |>)
  end.

(** *** Serving a request *)

(* @dcp/host/service_host.go:96-119 ServiceHost.ServeHTTP *)
Definition inbound (req : HttpRequest) w : Context * Operation :=
  let t := Header_Get (rq_Header req) RequestAuthTokenHeader in
  (if str_empty t then Background else SetAuthorizationToken Background t,
   Start (SetRequest req (NewOperation (env_now w) Background))).

(** The handler of the service at a link is called. *)
Definition call_handler (id : nat) (l : string) (ctx : Context) (op : Operation) (s : Service) (c : Conc) : Conc :=
  let c := c <| cc_calls := (id, l, stage (svc_stages s)) :: cc_calls c |> in
  match service_begin s ctx op (cc_world c) with
  | inl (op, w) => settle id op (c <| cc_world := w |>)
  | inr (op, startOp, s, w) => bind_step (Some (id, op)) startOp s (c <| cc_world := w |>)
  end.

(* @dcp/host/service_host.go:161-175 ServiceHost.HandleRequest *)
Definition arrive (req : HttpRequest) (c : Conc) : Conc :=
  let id := cc_next c in
  let '(ctx, op) := inbound req (cc_world c) in
  let c := c <| cc_next := S id |> in
  match services (cc_host c) !! request_link req with
  | None => c <| cc_replies := answer_once id (Complete (SetStatusCode 404 op)) (cc_replies c) |>
  | Some s =>
      if decide (stage (svc_stages s) < StageAvailable)%Z then
        c <| cc_queue := {| qd_id := id; qd_ctx := ctx; qd_op := op; qd_link := request_link req; qd_ch := None |} :: cc_queue c |>
      else call_handler id (request_link req) ctx op s c
  end.

(** Asking for the barrier: the service may have become available since. *)
(* @dcp/host/service_host.go:176-179 ServiceHost.HandleRequest *)
Definition barrier (i : nat) (q : queued) (c : Conc) : Conc :=
  match services (cc_host c) !! qd_link q with
  | None => c
  | Some s =>
      let '(st, ch) := StageBarrier StageAvailable (svc_stages s) in
      c <| cc_host := store (qd_link q) (s <| svc_stages := st |>) (cc_host c) |>
        <| cc_queue := <[i := {| qd_id := qd_id q; qd_ctx := qd_ctx q; qd_op := qd_op q; qd_link := qd_link q; qd_ch := Some ch |}]> (cc_queue c) |>
  end.

(** The barrier of a request was closed: its handler is called. *)
Definition barrier_closed (q : queued) h : Prop :=
  ∃ s ch, services h !! qd_link q = Some s ∧ qd_ch q = Some ch ∧ ch ∈ sc_closed (svc_stages s).
(* @dcp/host/service_host.go:179-185 ServiceHost.HandleRequest *)
Definition resume (i : nat) (q : queued) (c : Conc) : Conc :=
  match services (cc_host c) !! qd_link q with
  | None => c
  | Some s => call_handler (qd_id q) (qd_link q) (qd_ctx q) (qd_op q) s (c <| cc_queue := delete i (cc_queue c) |>)
  end.

(** Its timer fires: it is answered, and may then leave the queue, or still be
    resumed when its barrier is closed too (a [select] picks any of the two). *)
Definition timeout (i : nat) (q : queued) (c : Conc) : Conc :=
  let op := Fail_ DeadlineExceeded (qd_op q) in
  c <| cc_replies := answer_once (qd_id q) op (cc_replies c) |>
    <| cc_queue := <[i := {| qd_id := qd_id q; qd_ctx := qd_ctx q; qd_op := op; qd_link := qd_link q; qd_ch := qd_ch q |}]> (cc_queue c) |>.
(* @dcp/host/service_host.go:177-178 ServiceHost.HandleRequest *)
Definition leave (i : nat) (c : Conc) : Conc := c <| cc_queue := delete i (cc_queue c) |>.

(** The timer of a request that a handler is not done with. *)
Definition expire_open (i : nat) (id : nat) (op : Operation) (c : Conc) : Conc :=
  c <| cc_replies := answer_once id op (cc_replies c) |> <| cc_open := delete i (cc_open c) |>.
Definition expire_post (id : nat) (op : Operation) (c : Conc) : Conc := c <| cc_replies := answer_once id op (cc_replies c) |>.

Inductive cstep : Conc → Conc → Prop :=
  | c_bind op s c : svc_stages s = new_StageContainer → cstep c (bind_step None op s c)
  | c_start i g c : cc_starting c !! i = Some g → cstep c (start_step i g c)
  | c_arrive req c : cstep c (arrive req c)
  | c_barrier i q c : cc_queue c !! i = Some q → qd_ch q = None → cstep c (barrier i q c)
  | c_resume i q c : cc_queue c !! i = Some q → barrier_closed q (cc_host c) → cstep c (resume i q c)
  | c_timeout i q c : cc_queue c !! i = Some q → cstep c (timeout i q c)
  | c_leave i q c : cc_queue c !! i = Some q → qd_ch q ≠ None → op_result (qd_op q) ≠ None → cstep c (leave i c)
  | c_expire i id op c : cc_open c !! i = Some (id, op) → cstep c (expire_open i id op c)
  | c_expire_post g id op c : g ∈ cc_starting c → sg_parent g = Some (id, op) → cstep c (expire_post id op c).

(** ** Invariant *)

Definition svc_ok (s : Service (W := W)) : Prop := stage_inv (svc_stages s) ∧ (stage (svc_stages s) ≤ StageAvailable)%Z.
Definition available (l : string) h : Prop := ∃ s, services h !! l = Some s ∧ stage (svc_stages s) = StageAvailable.

(** A channel waits for the service at a link: it is open until the service is
    available, and closed from then on. *)
Definition waits h (l : string) (ch : nat) : Prop :=
  ∃ s, services h !! l = Some s ∧
    ((stage (svc_stages s) < StageAvailable)%Z ∧ ch ∈ waiters (svc_stages s) StageAvailable
     ∨ stage (svc_stages s) = StageAvailable ∧ ch ∈ sc_closed (svc_stages s)).

Definition pc_stage (p : pc) : Stage :=
  match p with SetInitialized => 0%Z | RunStart | SetStarted => StageInitialized | SetAvailable => StageStarted end.

(** The services of a host, its starts and its queue fit together. *)
Record host_ok h (gs : list starting) (qs : list queued) : Prop := {
  ho_svc l s : services h !! l = Some s → svc_ok s ∧ svc_selfLink s = l;
  ho_rest l s : services h !! l = Some s →
    (∃ g, g ∈ gs ∧ sg_link g = l) ∨ stage (svc_stages s) = StageInitialized ∨ stage (svc_stages s) = StageAvailable;
  ho_start g : g ∈ gs → ∃ s, services h !! sg_link g = Some s ∧ stage (svc_stages s) = pc_stage (sg_pc g);
  ho_distinct : NoDup (sg_link <$> gs);
  ho_queue q : q ∈ qs → is_Some (services h !! qd_link q) ∧ ∀ ch, qd_ch q = Some ch → waits h (qd_link q) ch
}.

(** Requests are not lost: each was answered, or is queued, or is with a handler
    ([ps]); none is queued after the call of its handler ([cs]), and none is
    handled twice. *)
Record ids_ok (next : nat) (qs : list queued) (ps cs : list nat) (m : gmap nat Reply) : Prop := {
  io_all id : id < next → is_Some (m !! id) ∨ (∃ q, q ∈ qs ∧ qd_id q = id) ∨ id ∈ ps;
  io_done q : q ∈ qs → op_result (qd_op q) ≠ None → is_Some (m !! qd_id q);
  io_old id : is_Some (m !! id) → id < next;
  io_range id : id ∈ (qd_id <$> qs) ++ cs → id < next;
  io_nodup : NoDup ((qd_id <$> qs) ++ cs);
  io_called id : id ∈ ps → id ∈ cs
}.
(** The requests that are with a handler, and those whose handler was called. *)
Definition parents (gs : list starting) : list nat := omap (λ g, fst <$> sg_parent g) gs.
Definition pending (c : Conc) : list nat := ((cc_open c).*1) ++ parents (cc_starting c).
Definition called (c : Conc) : list nat := (λ call, call.1.1) <$> cc_calls c.

(** The invariant, with one more request that is with a handler. *)
Definition inv_with (extra : list nat) (c : Conc) : Prop :=
  host_ok (cc_host c) (cc_starting c) (cc_queue c) ∧
  ids_ok (cc_next c) (cc_queue c) (extra ++ pending c) (called c) (cc_replies c) ∧
  ∀ id l st, (id, l, st) ∈ cc_calls c → st = StageAvailable.
Abbreviation conc_inv := (inv_with []).

(** *** Services of the host *)

Lemma SetStage_ok st (s : Service (W := W)) :
  svc_ok s → (stage (svc_stages s) < st ≤ StageAvailable)%Z →
  ∃ s', svc_SetStage st s = (s', None) ∧ svc_impl s' = svc_impl s ∧ svc_selfLink s' = svc_selfLink s
    ∧ svc_stages s' = run_op (svc_stages s) (OpSet st) ∧ stage (svc_stages s') = st ∧ svc_ok s'.
Proof.
  intros [Hi _] [Hlt Hle]. destruct (svc_SetStage_ok st s Hlt) as (s' & E & Hl & Hm & Hs).
  exists s'. assert (svc_stages s' = run_op (svc_stages s) (OpSet st)) as Est.
  { unfold svc_SetStage in E. cbn [run_op]. by destruct (SetStage st (svc_stages s)) as [c e]; simplify_eq. }
  split_and!; try done. split; [rewrite Est; by apply run_op_inv | lia].
Qed.

Lemma new_ok (s : Service (W := W)) : svc_stages s = new_StageContainer → svc_ok s ∧ stage (svc_stages s) = 0%Z.
Proof. intros E. unfold svc_ok. rewrite E. split; [split; [apply new_inv | done] | done]. Qed.

Lemma store_store l (s s' : Service (W := W)) h : store l s' (store l s h) = store l s' h.
Proof. unfold store. simpl. f_equal. apply insert_insert_eq. Qed.
Lemma store_lookup l (s : Service (W := W)) h : services (store l s h) !! l = Some s.
Proof. apply lookup_insert_eq. Qed.
Lemma store_lookup_ne l k (s : Service (W := W)) h : l ≠ k → services (store l s h) !! k = services h !! k.
Proof. apply lookup_insert_ne. Qed.
Lemma store_is_some l (s : Service (W := W)) h k : is_Some (services h !! k) → is_Some (services (store l s h) !! k).
Proof.
  intros Hk. change (services (store l s h)) with (<[l:=s]> (services h)). apply lookup_insert_is_Some'. auto.
Qed.

Lemma bind_service_some op (s : Service) h l h1 :
  bind_service op s h = Some (l, h1) →
  ∃ s1, h1 = store l s1 h ∧ services h !! l = None ∧ svc_stages s1 = svc_stages s ∧ svc_impl s1 = svc_impl s ∧ svc_selfLink s1 = l.
Proof.
  unfold bind_service. destruct (if str_empty (SelfLink s) then _ else _) as [l' s1] eqn:E1.
  destruct (services h !! l') eqn:El; [done |]. intros [= <- <-]. exists s1.
  split; [done |]. split; [done |]. destruct (str_empty (SelfLink s)); simplify_eq; done.
Qed.

(** What a factory starts is a new service. *)
Lemma service_begin_new (s : Service (W := W)) ctx op w op1 op2 s1 w1 :
  service_begin s ctx op w = inr (op1, op2, s1, w1) → svc_stages s1 = new_StageContainer.
Proof.
  unfold service_begin. destruct (svc_impl s) as [| sc | f]; [done | done |]. destruct (String.eqb _ _); [| done]. unfold factory_begin.
  destruct (match f_Post f with Some _ => _ | None => _ end) as [[op3 [[e |] |]] w3]; [done | | done].
  destruct (DecodeBody op3 (f_CreateDocument f)) as [[op4 doc] err].
  destruct (match err with Some _ => _ | None => _ end); [done |].
  destruct (env_uuid w3) as [id w4]. destruct (EncodeBodyAsBuffer _) as [op5 [buf | e]]; [| done].
  destruct (Local_ env_dcp) as [u |]; [| done]. destruct (f_CreateService f w4) as [s2 w5]. by intros [= _ _ <- _].
Qed.

(** *** The steps keep the invariant *)

Definition upto_available (o : stage_op) : Prop := match o with OpSet st => (st ≤ StageAvailable)%Z | OpBarrier _ => True end.

#[local] Instance stage_op_eq_dec : EqDecision stage_op.
Proof. solve_decision. Defined.

(** Waiters of a service see its stages being set and others coming to wait. *)
Lemma waits_op h l (s s' : Service (W := W)) o k ch :
  services h !! l = Some s → svc_stages s' = run_op (svc_stages s) o → upto_available o →
  waits h k ch → waits (store l s' h) k ch.
Proof.
  intros Hl Es' Ho (t & Ht & Hw). destruct (decide (l = k)) as [<- | Hne].
  - assert (t = s) as -> by congruence. exists s'. rewrite store_lookup. split; [done |]. rewrite Es'. unfold stage in *.
    destruct Hw as [[Hlt Hw] | [Heq Hc]].
    + destruct (decide (o = OpSet StageAvailable)) as [-> | Hno].
      * right. cbn [run_op]. rewrite SetStage_unfold by done. split; [done |].
        apply elem_of_union. right. by apply elem_of_list_to_set.
      * left. split; [| by apply waiters_kept; [| left]]. destruct o as [st | st]; simpl in Ho; simpl.
        -- unfold SetStage. case_decide; simpl; [lia |]. assert (st ≠ StageAvailable) by congruence. lia.
        -- unfold StageBarrier. simpl. case_decide; simpl; lia.
    + right. split; [| by apply closed_mono]. destruct o as [st | st]; simpl in Ho |- *.
      * unfold SetStage. rewrite decide_True by lia. done.
      * unfold StageBarrier. simpl. case_decide; simpl; lia.
  - exists t. split; [| done]. by rewrite store_lookup_ne.
Qed.
Lemma waits_store h l (s : Service (W := W)) k ch : services h !! l = None → waits h k ch → waits (store l s h) k ch.
Proof. intros Hl (t & Ht & Hw). exists t. split; [| done]. rewrite store_lookup_ne; [done | congruence]. Qed.

(** A service of the host changes; its start goes on to where its stage is, or ends
    where services may stay. *)
Lemma host_ok_op h gs0 gs qs l (s s' : Service (W := W)) o :
  host_ok h (gs0 ++ gs) qs → services h !! l = Some s → svc_stages s' = run_op (svc_stages s) o → upto_available o → svc_ok s' →
  svc_selfLink s' = svc_selfLink s → Forall (λ g, sg_link g = l) gs0 → (∀ g, g ∈ gs → sg_link g = l → stage (svc_stages s') = pc_stage (sg_pc g)) →
  ∀ gs', sg_link <$> gs' `sublist_of` sg_link <$> gs0 → Forall (λ g, sg_link g = l ∧ stage (svc_stages s') = pc_stage (sg_pc g)) gs' →
  (∃ g, g ∈ gs' ++ gs ∧ sg_link g = l) ∨ stage (svc_stages s') = StageInitialized ∨ stage (svc_stages s') = StageAvailable →
  host_ok (store l s' h) (gs' ++ gs) qs.
Proof.
  intros [Hsvc Hrest Hst Hd Hq] Hl Es' Ho Hok Hself H0' Hg gs' Hsub Hgs' Hend. rewrite Forall_forall in H0', Hgs'. split.
  - intros k t. change (services (store l s' h)) with (<[l:=s']> (services h)).
    rewrite lookup_insert_Some. intros [[<- <-] | [_ Hk]]; [| by eapply Hsvc]. split; [done |]. rewrite Hself. by eapply Hsvc.
  - intros k t. change (services (store l s' h)) with (<[l:=s']> (services h)).
    rewrite lookup_insert_Some. intros [[<- <-] | [Hne Hk]]; [done |]. destruct (Hrest k t Hk) as [(g & Hin & Eg) | ?]; [left | by right].
    exists g. split; [| done]. apply elem_of_app. apply elem_of_app in Hin as [Hin | Hin]; [| by right]. apply H0' in Hin. congruence.
  - intros g Hin. destruct (decide (sg_link g = l)) as [El | Hne].
    + rewrite El, store_lookup. exists s'. split; [done |]. apply elem_of_app in Hin as [Hin | Hin]; [by apply Hgs' | by apply Hg].
    + rewrite store_lookup_ne by done. apply Hst. apply elem_of_app. right. apply elem_of_app in Hin as [Hin | Hin]; [| done].
      destruct (Hgs' g Hin) as [? _]. done.
  - rewrite fmap_app in *. eapply sublist_NoDup; [exact Hd |]. by apply sublist_app.
  - intros q Hin. destruct (Hq q Hin) as [Hs Hw]. split; [by apply store_is_some |].
    intros ch Hch. by eapply waits_op, Hw.
Qed.

(** The order of the starts and of the queue does not matter. *)
#[local] Instance host_ok_perm h : Proper ((≡ₚ) ==> (≡ₚ) ==> iff) (host_ok h).
Proof.
  assert (∀ gs gs' qs qs', gs ≡ₚ gs' → qs ≡ₚ qs' → host_ok h gs qs → host_ok h gs' qs') as Himp.
  { intros gs gs' qs qs' Eg Eq [Hsvc Hrest Hst Hd Hq]. split; [done | | | |].
    - intros l s Hl. destruct (Hrest l s Hl) as [(g & Hin & El) | ?]; [left; exists g; by rewrite <- Eg | by right].
    - intros g. rewrite <- Eg. apply Hst.
    - by rewrite <- Eg.
    - intros q. rewrite <- Eq. apply Hq. }
  intros gs gs' Eg qs qs' Eq. split; by apply Himp.
Qed.
#[local] Instance ids_ok_perm n : Proper ((≡ₚ) ==> (≡ₚ) ==> (=) ==> (=) ==> iff) (ids_ok n).
Proof.
  assert (∀ qs qs' ps ps' cs m, qs ≡ₚ qs' → ps ≡ₚ ps' → ids_ok n qs ps cs m → ids_ok n qs' ps' cs m) as Himp.
  { intros qs qs' ps ps' cs m Eq Ep [Ha Hd Ho Hr Hn Hc]. split; [| | done | | |].
    - intros id Hid. rewrite <- Ep. destruct (Ha id Hid) as [? | [(q & ? & ?) | ?]]; [by left | right; left; exists q; by rewrite <- Eq | by right; right].
    - intros q. rewrite <- Eq. apply Hd.
    - intros id. rewrite <- Eq. apply Hr.
    - by rewrite <- Eq.
    - intros id. rewrite <- Ep. apply Hc. }
  intros qs qs' Eq ps ps' Ep cs ? <- m ? <-. split; by apply Himp.
Qed.

Lemma insert_perm {A} (l : list A) i x y : l !! i = Some x → <[i:=y]> l ≡ₚ y :: delete i l.
Proof.
  intros Hi. rewrite insert_take_drop by (by eapply lookup_lt_Some). rewrite delete_take_drop. by rewrite Permutation_middle.
Qed.

(** A request that leaves the queue. *)
Lemma host_ok_drop h gs q qs : host_ok h gs (q :: qs) → host_ok h gs qs.
Proof. intros [Hsvc Hrest Hst Hd Hq]. split; [done | done | done | done | set_solver]. Qed.
(** One that joins it, for a service that is there and without a barrier, or with
    that of another one. *)
Lemma host_ok_queue h gs q qs :
  is_Some (services h !! qd_link q) → (∀ ch, qd_ch q = Some ch → waits h (qd_link q) ch) → host_ok h gs qs → host_ok h gs (q :: qs).
Proof. intros Hs Hw [Hsvc Hrest Hst Hd Hq]. split; [done | done | done | done |]. intros q1 [-> | ?]%elem_of_cons; [done | by apply Hq]. Qed.

(** One stage is set by the start of its service. *)
Lemma set_stage_ok h st g gs qs :
  host_ok h (g :: gs) qs → (pc_stage (sg_pc g) < st ≤ StageAvailable)%Z →
  ∃ s, services h !! sg_link g = Some s ∧ ∃ s', svc_SetStage st s = (s', None) ∧ svc_impl s' = svc_impl s ∧
    set_stage_at st (sg_link g) h = (store (sg_link g) s' h, None) ∧ stage (svc_stages s') = st ∧
    (st = StageAvailable → host_ok (store (sg_link g) s' h) gs qs) ∧
    ∀ g', sg_link g' = sg_link g → pc_stage (sg_pc g') = st → host_ok (store (sg_link g) s' h) (g' :: gs) qs.
Proof.
  intros Hok Hlt. pose proof Hok as [Hsvc Hrest Hst Hd _].
  destruct (Hst g ltac:(set_solver)) as (s & Hs & Est). exists s. split; [done |].
  destruct (SetStage_ok st s (proj1 (Hsvc _ _ Hs))) as (s' & E & Him & Hself & Es' & Hst' & Hok'); [by rewrite Est |].
  exists s'. split; [done |]. split; [done |]. unfold set_stage_at. rewrite Hs, E. split; [done |]. split; [done |].
  assert (∀ g1, g1 ∈ gs → sg_link g1 = sg_link g → stage (svc_stages s') = pc_stage (sg_pc g1)) as Hothers.
  { intros g1 Hin El. exfalso. rewrite fmap_cons, NoDup_cons in Hd. apply (proj1 Hd). rewrite <- El. by apply list_elem_of_fmap_2. }
  pose proof (host_ok_op h [g] gs qs (sg_link g) s s' (OpSet st) Hok Hs Es' ltac:(simpl; lia) Hok' Hself) as Hop.
  specialize (Hop (proj2 (Forall_singleton _ _) eq_refl) Hothers). split.
  - intros ->. apply (Hop []); [by apply sublist_nil_l | done | by right; right].
  - intros g' El Epc. apply (Hop [g']).
    + rewrite !list_fmap_singleton, El. done.
    + apply Forall_singleton. by rewrite Epc.
    + left. exists g'. split; [set_solver | done].
Qed.

(** A start ends without a stage, or goes on. *)
Lemma host_ok_drop_start h g gs qs : pc_stage (sg_pc g) = StageInitialized → host_ok h (g :: gs) qs → host_ok h gs qs.
Proof.
  intros Ep [Hsvc Hrest Hst Hd Hq]. split; [done | | set_solver | by inversion Hd | done].
  intros l s Hl. destruct (Hrest l s Hl) as [(g1 & [-> | Hin]%elem_of_cons & El) | ?]; [| left; eauto | by right].
  right. left. destruct (Hst g ltac:(set_solver)) as (t & Ht & Et). congruence.
Qed.
Lemma host_ok_next h g g' gs qs :
  host_ok h (g :: gs) qs → sg_link g' = sg_link g → pc_stage (sg_pc g') = pc_stage (sg_pc g) → host_ok h (g' :: gs) qs.
Proof.
  intros [Hsvc Hrest Hst Hd Hq] El Ep. split; [done | | | | done].
  - intros l s Hl. destruct (Hrest l s Hl) as [(g1 & Hin & Eg) | ?]; [left | by right].
    apply elem_of_cons in Hin as [-> | Hin]; [exists g'; split; [set_solver | congruence] | exists g1; split; [set_solver | done]].
  - intros g1 [-> | ?]%elem_of_cons; [rewrite El, Ep; apply Hst; set_solver | apply Hst; set_solver].
  - rewrite fmap_cons, El. by rewrite fmap_cons in Hd.
Qed.

(** *** Requests that are answered *)

Lemma answer_some id op m : is_Some (answer_once id op m !! id).
Proof. unfold answer_once. destruct (m !! id) eqn:E; [by rewrite E | by rewrite lookup_insert_eq]. Qed.
Lemma answer_other id op m id' : id' ≠ id → answer_once id op m !! id' = m !! id'.
Proof. unfold answer_once. intros Hne. destruct (m !! id); [done |]. by apply lookup_insert_ne. Qed.
Lemma answer_kept id op m id' r : m !! id' = Some r → answer_once id op m !! id' = Some r.
Proof.
  unfold answer_once. destruct (m !! id) eqn:E; [done |]. intros Hr. rewrite lookup_insert_ne; [done | congruence].
Qed.
Lemma answer_new id op m : m !! id = None →
  answer_once id op m !! id = Some (respond error_ty error_value (expire (GetExpiration op) op)).
Proof. unfold answer_once. intros ->. apply lookup_insert_eq. Qed.
Lemma answer_is_some id op m id' : is_Some (answer_once id op m !! id') ↔ id' = id ∨ is_Some (m !! id').
Proof.
  destruct (decide (id' = id)) as [-> |]; [split; [auto | intros; apply answer_some] |].
  rewrite answer_other by done. naive_solver.
Qed.

(** A request that is with a handler is answered; any known one may be. *)
Lemma ids_ok_answer n qs ps cs m id op : id < n → ids_ok n qs ps cs m → ids_ok n qs ps cs (answer_once id op m).
Proof.
  intros Hid [Ha Hd Ho Hr Hn Hc]. split; [| | | done..].
  - intros id' Hid'. rewrite answer_is_some. destruct (Ha id' Hid') as [? | ?]; auto.
  - intros q Hin Hq. rewrite answer_is_some. auto.
  - intros id'. rewrite answer_is_some. intros [-> | ?]; auto.
Qed.
Lemma ids_ok_settle n qs id ps cs m op : ids_ok n qs (id :: ps) cs m → ids_ok n qs ps cs (answer_once id op m).
Proof.
  intros Hok. pose proof Hok as [_ _ _ Hr _ Hc]. assert (id < n) as Hid by (apply Hr, elem_of_app; right; apply Hc; set_solver).
  apply (ids_ok_answer _ _ _ _ _ id op Hid) in Hok as [Ha Hd Ho Hr' Hn Hc']. split; [| done | done | done | done | set_solver].
  intros id' Hid'. destruct (Ha id' Hid') as [? | [? | [-> | ?]%elem_of_cons]]; [by left | by right; left | left; apply answer_some | by right; right].
Qed.

(** A queued one is answered, may leave the queue then, or goes to a handler. *)
Lemma ids_ok_drop n q qs ps cs m : is_Some (m !! qd_id q) → ids_ok n (q :: qs) ps cs m → ids_ok n qs ps cs m.
Proof.
  intros Hm [Ha Hd Ho Hr Hn Hc]. split; [| set_solver | done | set_solver | by inversion Hn | done].
  intros id Hid. destruct (Ha id Hid) as [? | [(q' & [-> | ?]%elem_of_cons & <-) | ?]]; [by left | by left | right; left; eauto | by right; right].
Qed.
Lemma ids_ok_replace n q q' qs ps cs m :
  qd_id q' = qd_id q → (op_result (qd_op q') ≠ None → is_Some (m !! qd_id q)) → ids_ok n (q :: qs) ps cs m → ids_ok n (q' :: qs) ps cs m.
Proof.
  intros Eid Hq [Ha Hd Ho Hr Hn Hc]. split; [| | done | by rewrite fmap_cons, Eid | by rewrite fmap_cons, Eid | done].
  - intros id Hid. destruct (Ha id Hid) as [? | [(q1 & [-> | ?]%elem_of_cons & <-) | ?]]; [by left | | | by right; right]; right; left.
    + exists q'. split; [set_solver | done].
    + exists q1. split; [set_solver | done].
  - intros q1 [-> | ?]%elem_of_cons; [by rewrite Eid | apply Hd; set_solver].
Qed.
Lemma ids_ok_call n q qs ps cs m : ids_ok n (q :: qs) ps cs m → ids_ok n qs (qd_id q :: ps) (qd_id q :: cs) m.
Proof.
  intros [Ha Hd Ho Hr Hn Hc]. assert ((qd_id <$> qs) ++ qd_id q :: cs ≡ₚ (qd_id <$> q :: qs) ++ cs) as Hp by (simpl; by rewrite Permutation_middle).
  split; [| set_solver | done | by setoid_rewrite Hp | by rewrite Hp | set_solver].
  intros id Hid. destruct (Ha id Hid) as [? | [(q' & [-> | ?]%elem_of_cons & <-) | ?]]; [by left | right; right; set_solver | right; left; eauto | right; right; set_solver].
Qed.

(** A new one is answered, is with a handler, or is queued. *)
Lemma ids_ok_fresh n qs ps cs m op : ids_ok n qs ps cs m → ids_ok (S n) qs ps cs (answer_once n op m).
Proof.
  intros [Ha Hd Ho Hr Hn Hc]. split; [| | | | done | done].
  - intros id Hid. rewrite answer_is_some. destruct (decide (id = n)); [auto |]. destruct (Ha id ltac:(lia)) as [? | ?]; auto.
  - intros q Hin Hq. rewrite answer_is_some. auto.
  - intros id. rewrite answer_is_some. intros [-> | Hm]; [lia |]. apply Ho in Hm. lia.
  - intros id Hin. apply Hr in Hin. lia.
Qed.
Lemma ids_ok_arrive n qs ps cs m : ids_ok n qs ps cs m → ids_ok (S n) qs (n :: ps) (n :: cs) m.
Proof.
  intros [Ha Hd Ho Hr Hn Hc]. assert ((qd_id <$> qs) ++ n :: cs ≡ₚ n :: (qd_id <$> qs) ++ cs) as Hp by by rewrite Permutation_middle.
  split; [| done | | setoid_rewrite Hp | rewrite Hp | set_solver].
  - intros id Hid. destruct (decide (id = n)) as [-> |]; [right; right; set_solver |].
    destruct (Ha id ltac:(lia)) as [? | [? | ?]]; [by left | by right; left | right; right; set_solver].
  - intros id Hm. apply Ho in Hm. lia.
  - intros id [-> | Hin]%elem_of_cons; [lia |]. apply Hr in Hin. lia.
  - apply NoDup_cons. split; [| done]. intros Hin. apply Hr in Hin. lia.
Qed.
Lemma ids_ok_enqueue n q qs ps cs m : qd_id q = n → op_result (qd_op q) = None → ids_ok n qs ps cs m → ids_ok (S n) (q :: qs) ps cs m.
Proof.
  intros Eq Er [Ha Hd Ho Hr Hn Hc]. split; [| | | | | done].
  - intros id Hid. destruct (decide (id = n)) as [-> |]; [right; left; exists q; split; [set_solver | done] |].
    destruct (Ha id ltac:(lia)) as [? | [(q1 & ? & ?) | ?]]; [by left | right; left; exists q1; split; [set_solver | done] | by right; right].
  - intros q1 [-> | ?]%elem_of_cons; [by rewrite Er | auto].
  - intros id Hm. apply Ho in Hm. lia.
  - intros id. cbn. rewrite Eq. intros [-> | Hin]%elem_of_cons; [lia |]. apply Hr in Hin. lia.
  - cbn. rewrite Eq. apply NoDup_cons. split; [| done]. intros Hin. apply Hr in Hin. lia.
Qed.

(** *** Handlers and starts *)

Lemma settle_ok id op c : inv_with [id] c → conc_inv (settle id op c).
Proof.
  intros (Hh & Hi & Hc). unfold settle. destruct (op_result op); (split; [done | split; [| done]]); [| done].
  by apply ids_ok_settle.
Qed.
Lemma end_start_ok parent op c : inv_with (option_list (fst <$> parent)) c → conc_inv (end_start parent op c).
Proof. intros Hc. unfold end_start. destruct parent as [[id pop] |]; [by apply settle_ok | done]. Qed.

Lemma bind_ok parent op (s : Service) c :
  svc_stages s = new_StageContainer → inv_with (option_list (fst <$> parent)) c → conc_inv (bind_step parent op s c).
Proof.
  intros Hn Hc. unfold bind_step. destruct (bind_service op s (cc_host c)) as [[l h1] |] eqn:Eb; [| by apply end_start_ok].
  apply bind_service_some in Eb as (s1 & -> & Hl & Est & _ & Hself). destruct (new_ok s1) as [Hok Hz]; [congruence |].
  destruct Hc as (Hh & Hi & Hcalls). split; [| split; [| done]].
  - destruct Hh as [Hsvc Hrest Hst Hd Hq]. split.
    + intros k t. cbn. rewrite lookup_insert_Some. intros [[<- <-] | [_ Hk]]; [done | by apply Hsvc].
    + intros k t. cbn. rewrite lookup_insert_Some. intros [[<- <-] | [_ Hk]]; [left; eexists; split; [by apply elem_of_cons; left | done] |].
      destruct (Hrest k t Hk) as [(g & Hin & El) | ?]; [left; exists g; split; [by apply elem_of_cons; right | done] | by right].
    + intros g [-> | Hin]%elem_of_cons; cbn; [rewrite lookup_insert_eq; by exists s1 |].
      destruct (Hst g Hin) as (t & Ht & ?). rewrite lookup_insert_ne by congruence. eauto.
    + change (NoDup (l :: (sg_link <$> cc_starting c))). apply NoDup_cons. split; [| done]. intros (g & El & Hin)%list_elem_of_fmap.
      destruct (Hst g Hin) as (t & Ht & _). congruence.
    + intros q Hin. destruct (Hq q Hin) as [Hs Hw]. split; [by apply store_is_some |]. intros ch Hch. by apply waits_store, Hw.
  - change (ids_ok (cc_next c) (cc_queue c)
      (((cc_open c).*1) ++ parents ({| sg_pc := SetInitialized; sg_link := l; sg_op := op; sg_parent := parent |} :: cc_starting c)) (called c) (cc_replies c)).
    eapply ids_ok_perm; [done | | done | done | exact Hi]. unfold pending, parents. cbn.
    destruct parent as [[id pop] |]; cbn; [by rewrite Permutation_middle | done].
Qed.

(** A step of a start, as it leaves the host, the world, and the goroutine. *)
Lemma start_next_ok g gs qs h w :
  host_ok h (g :: gs) qs →
  let '(next, op, h', w') := start_next g h w in
  match next with
  | Some p => host_ok h' ({| sg_pc := p; sg_link := sg_link g; sg_op := op; sg_parent := sg_parent g |} :: gs) qs
  | None => host_ok h' gs qs
  end.
Proof.
  intros Hok. unfold start_next. destruct (sg_pc g) eqn:Epc.
  - destruct (set_stage_ok h StageInitialized g gs qs Hok) as (s & _ & s' & _ & _ & -> & _ & _ & Hg); [by rewrite Epc |]. by apply Hg.
  - destruct (ho_start _ _ _ Hok g ltac:(set_solver)) as (s & Hs & Est). rewrite Hs.
    destruct (run_child _ _ (sg_op g) w) as [[op1 [[e |] |]] w1];
      [eapply host_ok_drop_start; [| done]; by rewrite Epc | | eapply host_ok_drop_start; [| done]; by rewrite Epc].
    eapply host_ok_next; [done | done |]. by rewrite Epc.
  - destruct (set_stage_ok h StageStarted g gs qs Hok) as (s & _ & s' & _ & _ & -> & _ & _ & Hg); [by rewrite Epc |]. by apply Hg.
  - destruct (set_stage_ok h StageAvailable g gs qs Hok) as (s & _ & s' & _ & _ & -> & _ & Hg & _); [by rewrite Epc |]. by apply Hg.
Qed.

#[local] Instance parents_perm : Proper ((≡ₚ) ==> (≡ₚ)) parents.
Proof. unfold parents. intros gs gs' E. by rewrite E. Qed.

Lemma start_ok i g c : cc_starting c !! i = Some g → conc_inv c → conc_inv (start_step i g c).
Proof.
  intros Hg (Hh & Hi & Hc). unfold start_step. pose proof (delete_Permutation _ _ _ Hg) as Hp. rewrite Hp in Hh.
  assert (pending c ≡ₚ option_list (fst <$> sg_parent g) ++ ((cc_open c).*1) ++ parents (delete i (cc_starting c))) as Epend.
  { unfold pending. pose proof (parents_perm _ _ Hp) as Hpp. rewrite Hpp. cbn. destruct (sg_parent g) as [[id pop] |]; cbn; [by rewrite Permutation_middle | done]. }
  cbn [app] in Hi. rewrite Epend in Hi.
  pose proof (start_next_ok g _ _ (cc_host c) (cc_world c) Hh) as Hn.
  destruct (start_next g (cc_host c) (cc_world c)) as [[[next op] h'] w'].
  destruct next as [p |]; [| by apply end_start_ok; split; [| split]].
  pose proof (insert_perm _ _ _ {| sg_pc := p; sg_link := sg_link g; sg_op := op; sg_parent := sg_parent g |} Hg) as Hp'.
  split; [| split; [| done]]; cbn; [by rewrite Hp' |].
  eapply ids_ok_perm; [done | | done | done | exact Hi]. unfold pending. cbn. pose proof (parents_perm _ _ Hp') as Hpp. rewrite Hpp. cbn.
  destruct (sg_parent g) as [[id pop] |]; cbn; [by rewrite Permutation_middle | done].
Qed.

(** The handler of a service that is available is called. *)
Lemma call_handler_ok id l ctx op (s : Service) c :
  stage (svc_stages s) = StageAvailable → host_ok (cc_host c) (cc_starting c) (cc_queue c) →
  ids_ok (cc_next c) (cc_queue c) (id :: pending c) (id :: called c) (cc_replies c) →
  (∀ id l st, (id, l, st) ∈ cc_calls c → st = StageAvailable) → conc_inv (call_handler id l ctx op s c).
Proof.
  intros Hst Hh Hi Hc. unfold call_handler.
  assert (∀ w, inv_with [id] ((c <| cc_calls := (id, l, stage (svc_stages s)) :: cc_calls c |>) <| cc_world := w |>)) as Hmid.
  { intros w. split; [done |]. split; [done |]. cbn. intros id' l' st' [E | Hin]%elem_of_cons; [congruence | by eapply Hc]. }
  destruct (service_begin s ctx op _) as [[op1 w1] | [[[op1 op2] s1] w1]] eqn:Eb; [by apply settle_ok |].
  apply bind_ok; [by eapply service_begin_new | apply Hmid].
Qed.

(** A barrier is closed when its service is available, and only then. *)
Lemma closed_iff h gs qs q : host_ok h gs qs → q ∈ qs → barrier_closed q h ↔ qd_ch q ≠ None ∧ available (qd_link q) h.
Proof.
  intros Hh Hin. destruct (ho_queue _ _ _ Hh q Hin) as [_ Hw]. split.
  - intros (s & ch & Hs & Ech & Hc). split; [congruence |]. exists s. split; [done |].
    destruct (Hw ch Ech) as (s' & Hs' & [[_ Hin'] | [Hst _]]); [| by simplify_eq].
    exfalso. destruct (ho_svc _ _ _ Hh _ _ Hs) as [[(Hi & _) _] _]. simplify_eq. by apply (Hi _ _ Hin').
  - intros (Hne & s & Hs & Est). destruct (qd_ch q) as [ch |] eqn:Ech; [| done]. exists s, ch. split; [done |]. split; [done |].
    destruct (Hw ch eq_refl) as (s' & Hs' & [[Hlt _] | [_ ?]]); simplify_eq; [lia | done].
Qed.

(** *** Requests *)

Lemma arrive_ok req c : conc_inv c → conc_inv (arrive req c).
Proof.
  intros (Hh & Hi & Hc). unfold arrive. destruct (inbound req (cc_world c)) as [ctx op] eqn:Ein.
  cbn [cc_host]. destruct (services _ !! request_link req) as [s |] eqn:Es.
  2:{ split; [done |]. split; [| done]. by apply ids_ok_fresh. }
  case_decide as Hst.
  - split; [| split; [| done]]; cbn.
    + apply host_ok_queue; [by exists s | done | done].
    + apply ids_ok_enqueue; [done | | done]. unfold inbound in Ein. by simplify_eq.
  - apply call_handler_ok; [| done | by apply ids_ok_arrive | done].
    destruct (ho_svc _ _ _ Hh _ _ Es) as [[_ Hle] _]. lia.
Qed.

Lemma barrier_ok i q c : cc_queue c !! i = Some q → conc_inv c → conc_inv (barrier i q c).
Proof.
  intros Hq (Hh & Hi & Hc). unfold barrier. destruct (services (cc_host c) !! qd_link q) as [s |] eqn:Es; [| done].
  destruct (StageBarrier StageAvailable (svc_stages s)) as [st ch] eqn:Eb.
  set (s' := s <| svc_stages := st |>).
  assert (svc_stages s' = run_op (svc_stages s) (OpBarrier StageAvailable)) as Est by (simpl; by rewrite Eb).
  destruct (ho_svc _ _ _ Hh _ _ Es) as [[Hinv Hle] Hself].
  assert (stage (svc_stages s') = stage (svc_stages s)) as Esame.
  { rewrite Est. simpl. unfold StageBarrier, stage. simpl. by case_decide. }
  assert (svc_ok s') as Hok by (split; [rewrite Est; by apply run_op_inv | by rewrite Esame]).
  assert (host_ok (store (qd_link q) s' (cc_host c)) (cc_starting c) (cc_queue c)) as Hh1.
  { pose proof (host_ok_op (cc_host c) [] (cc_starting c) (cc_queue c) (qd_link q) s s' (OpBarrier StageAvailable) Hh Es Est I Hok eq_refl) as Hop.
    apply (Hop (Forall_nil_2 _)) with (gs' := []); [| done | done | rewrite Esame; by apply (ho_rest _ _ _ Hh)].
    intros g Hin El. rewrite Esame. destruct (ho_start _ _ _ Hh g Hin) as (t & Ht & Et). rewrite El in Ht. by simplify_eq. }
  split; [| split; [| done]]; cbn.
  - rewrite (insert_perm _ _ _ _ Hq). rewrite (delete_Permutation _ _ _ Hq) in Hh1.
    apply host_ok_queue; [by eexists; apply store_lookup | | by eapply host_ok_drop].
    simpl. intros ch' [= <-]. exists s'. rewrite store_lookup. split; [done |].
    rewrite Esame. unfold s'. simpl. unfold StageBarrier in Eb. simpl in Eb. unfold stage in *. case_decide as Hcd; simplify_eq.
    + right. split; [lia |]. simpl. set_solver.
    + left. split; [lia |]. unfold waiters. simpl. rewrite lookup_insert_eq. set_solver.
  - rewrite (insert_perm _ _ _ _ Hq). rewrite (delete_Permutation _ _ _ Hq) in Hi.
    apply (ids_ok_replace _ q); [done | | done]. simpl. intros Hr. apply (io_done _ _ _ _ _ Hi q); [set_solver | done].
Qed.

Lemma resume_ok i q c : cc_queue c !! i = Some q → barrier_closed q (cc_host c) → conc_inv c → conc_inv (resume i q c).
Proof.
  intros Hq Hb (Hh & Hi & Hc). unfold resume.
  apply (closed_iff _ _ _ _ Hh) in Hb as [_ (s & Hs & Hst)]; [| by eapply list_elem_of_lookup_2]. rewrite Hs.
  rewrite (delete_Permutation _ _ _ Hq) in Hh. rewrite (delete_Permutation _ _ _ Hq) in Hi.
  apply call_handler_ok; simpl; [done | by eapply host_ok_drop | by apply ids_ok_call | done].
Qed.

Lemma timeout_ok i q c : cc_queue c !! i = Some q → conc_inv c → conc_inv (timeout i q c).
Proof.
  intros Hq (Hh & Hi & Hc). split; [| split; [| done]]; cbn; rewrite (insert_perm _ _ _ _ Hq).
  - rewrite (delete_Permutation _ _ _ Hq) in Hh. pose proof (ho_queue _ _ _ Hh q ltac:(set_solver)) as [Hs Hw].
    apply host_ok_queue; [done | done | by eapply host_ok_drop].
  - rewrite (delete_Permutation _ _ _ Hq) in Hi. apply (ids_ok_replace _ q); [done | intros; apply answer_some |].
    apply ids_ok_answer; [| done]. apply (io_range _ _ _ _ _ Hi). set_solver.
Qed.

Lemma leave_ok i q c : cc_queue c !! i = Some q → op_result (qd_op q) ≠ None → conc_inv c → conc_inv (leave i c).
Proof.
  intros Hq Hr (Hh & Hi & Hc). unfold leave. rewrite (delete_Permutation _ _ _ Hq) in Hh. rewrite (delete_Permutation _ _ _ Hq) in Hi.
  split; [by eapply host_ok_drop | split; [| done]]; cbn. eapply ids_ok_drop; [| done]. apply (io_done _ _ _ _ _ Hi q); [set_solver | done].
Qed.

Lemma expire_open_ok i id op c : cc_open c !! i = Some (id, op) → conc_inv c → conc_inv (expire_open i id op c).
Proof.
  intros Hp (Hh & Hi & Hc). split; [done | split; [| done]]. cbn. unfold pending in Hi |- *. cbn in Hi |- *.
  apply ids_ok_settle. eapply ids_ok_perm; [done | | done | done | exact Hi].
  rewrite (delete_Permutation _ _ _ Hp) at 2. done.
Qed.
Lemma expire_post_ok g id op c : g ∈ cc_starting c → sg_parent g = Some (id, op) → conc_inv c → conc_inv (expire_post id op c).
Proof.
  intros Hg Hp (Hh & Hi & Hc). split; [done | split; [| done]]. cbn. apply ids_ok_answer; [| done].
  apply (io_range _ _ _ _ _ Hi), elem_of_app. right. apply (io_called _ _ _ _ _ Hi). unfold pending. cbn. apply elem_of_app. right.
  unfold parents. apply list_elem_of_omap. exists g. by rewrite Hp.
Qed.

Lemma cstep_inv c c' : cstep c c' → conc_inv c → conc_inv c'.
Proof.
  destruct 1; [by apply (bind_ok None) | ..]; eauto using start_ok, arrive_ok, barrier_ok, resume_ok, timeout_ok, leave_ok, expire_open_ok, expire_post_ok.
Qed.
Lemma steps_inv c c' : rtc cstep c c' → conc_inv c → conc_inv c'.
Proof. induction 1 as [| x y z Hs _ IH]; [done |]. intros Hx. by apply IH, (cstep_inv x). Qed.

Lemma init_inv w : conc_inv (init_Conc w).
Proof.
  split; [split | split; [split |]]; cbn.
  - intros l s. by rewrite lookup_empty.
  - intros l s. by rewrite lookup_empty.
  - intros g []%not_elem_of_nil.
  - apply NoDup_nil_2.
  - intros q []%not_elem_of_nil.
  - lia.
  - intros q []%not_elem_of_nil.
  - intros id. rewrite lookup_empty. by intros [? [=]].
  - intros id []%not_elem_of_nil.
  - apply NoDup_nil_2.
  - intros id []%not_elem_of_nil.
  - intros id l st []%not_elem_of_nil.
Qed.
Lemma queue_inv w c : rtc cstep (init_Conc w) c → conc_inv c.
Proof. intros Hr. by apply (steps_inv _ _ Hr), init_inv. Qed.

(** ** What the host promises *)

(** C15: however services are started, requests come in, and timers fire, no request
    is lost, none is handled too early, and none is handled twice.  Each request was
    answered, or is queued for a service of the host, or is with a handler; every
    call of a handler found its service available; the requests whose
    handlers were called are all different, and none of them is still queued; and a
    queued request goes on exactly when its service is available, no matter
    whether the service became so before or after the request asked for its barrier. *)
Theorem queue_reachable w c :
  rtc cstep (init_Conc w) c →
  (∀ id, id < cc_next c → is_Some (cc_replies c !! id) ∨ (∃ q, q ∈ cc_queue c ∧ qd_id q = id) ∨ id ∈ pending c) ∧
  (∀ id l st, (id, l, st) ∈ cc_calls c → st = StageAvailable) ∧
  NoDup ((qd_id <$> cc_queue c) ++ called c) ∧
  ∀ q, q ∈ cc_queue c →
    is_Some (services (cc_host c) !! qd_link q) ∧
    (barrier_closed q (cc_host c) ↔ qd_ch q ≠ None ∧ available (qd_link q) (cc_host c)).
Proof.
  intros (Hh & Hi & Hc)%queue_inv. split; [apply (io_all _ _ _ _ _ Hi) |]. split; [done |]. split; [apply (io_nodup _ _ _ _ _ Hi) |].
  intros q Hin. split; [by apply (ho_queue _ _ _ Hh) | by eapply closed_iff].
Qed.

(** C18: the services of a host, while any starts and requests go on: each is
    registered under its own link, and either exactly one start of it is running, and
    its stage is the one this start has come to (none, initialized or started); or its
    start is over, and it is available, or still initialized, when the start
    handler failed or is never done. *)
Theorem services_reachable w c l s :
  rtc cstep (init_Conc w) c → services (cc_host c) !! l = Some s →
  svc_selfLink s = l ∧
  match filter (λ g, sg_link g = l) (cc_starting c) with
  | [] => stage (svc_stages s) = StageInitialized ∨ stage (svc_stages s) = StageAvailable
  | [g] => stage (svc_stages s) = pc_stage (sg_pc g) ∧ (stage (svc_stages s) < StageAvailable)%Z
  | _ => False
  end.
Proof.
  intros (Hh & _ & _)%queue_inv Hs. split; [by apply (ho_svc _ _ _ Hh) |].
  destruct Hh as [_ Hrest Hst Hd _].
  assert (∀ g, g ∈ filter (λ g, sg_link g = l) (cc_starting c) → sg_link g = l ∧ g ∈ cc_starting c) as Hin by (intros g ?%list_elem_of_filter; done).
  assert (NoDup (sg_link <$> filter (λ g, sg_link g = l) (cc_starting c))) as Hnd.
  { eapply sublist_NoDup; [exact Hd |]. apply fmap_sublist, sublist_filter. }
  destruct (filter _ _) as [| g [| g' gs]] eqn:E.
  - destruct (Hrest l s Hs) as [(g & Hg & El) | ?]; [| done]. exfalso. assert (g ∈ filter (λ g, sg_link g = l) (cc_starting c)) as Hf by by apply list_elem_of_filter.
    rewrite E in Hf. by apply not_elem_of_nil in Hf.
  - destruct (Hin g ltac:(set_solver)) as [El Hg]. destruct (Hst g Hg) as (t & Ht & Et). rewrite El in Ht. simplify_eq.
    split; [done |]. rewrite Et. by destruct (sg_pc g).
  - destruct (Hin g ltac:(set_solver)) as [El _], (Hin g' ltac:(set_solver)) as [El' _].
    apply NoDup_cons in Hnd as [Hnd _]. apply Hnd. simpl. rewrite El, El'. by left.
Qed.

(** *** A start on its own

    When nothing else happens, a start does what [Host.StartService] does. *)

Lemma StartService_split op (s : Service) h w :
  StartService op s h w =
  match bind_service op s h with
  | None => (Fail_ (Errorf "host: service is already bound") op, h, w)
  | Some (l, h) =>
      match services h !! l with
      | Some s =>
          match svc_SetStage StageInitialized s with
          | (s, Some e) => (Fail_ e op, h, w)
          | (s, None) => startService op l s (store l s h) w
          end
      | None => (op, h, w)
      end
  end.
Proof.
  unfold StartService, bind_service. destruct (if str_empty (SelfLink s) then _ else _) as [l s1].
  destruct (services h !! l); [done |]. change (services (store l s1 h)) with (<[l:=s1]> (services h)).
  rewrite lookup_insert_eq. destruct (svc_SetStage StageInitialized s1) as [s2 [e |]] eqn:E.
  - unfold svc_SetStage, SetStage in E. destruct (decide _); simplify_eq. by destruct s1.
  - by rewrite store_store.
Qed.

Lemma start_head g gs c : cc_starting c = g :: gs → cstep c (start_step 0 g c).
Proof. intros Eg. apply c_start. by rewrite Eg. Qed.

(** One stage set, in a run of a single start. *)
Definition stage_step (p : pc) : option (Stage * option pc) :=
  match p with
  | SetInitialized => Some (StageInitialized, Some RunStart)
  | RunStart => None
  | SetStarted => Some (StageStarted, Some SetAvailable)
  | SetAvailable => Some (StageAvailable, None)
  end.
Lemma stage_head p st next l op parent gs c (s : Service (W := W)) :
  cc_starting c = {| sg_pc := p; sg_link := l; sg_op := op; sg_parent := parent |} :: gs →
  stage_step p = Some (st, next) →
  services (cc_host c) !! l = Some s → svc_ok s → stage (svc_stages s) = pc_stage p →
  ∃ s', svc_SetStage st s = (s', None) ∧ svc_impl s' = svc_impl s ∧ svc_ok s' ∧ stage (svc_stages s') = st ∧
    cstep c (let c := c <| cc_host := store l s' (cc_host c) |> <| cc_world := cc_world c |> in
      match next with
      | Some p => c <| cc_starting := {| sg_pc := p; sg_link := l; sg_op := op; sg_parent := parent |} :: gs |>
      | None => end_start parent (Complete op) (c <| cc_starting := gs |>)
      end).
Proof.
  intros Eg Hp Hs Hok Est.
  destruct (SetStage_ok st s Hok) as (s' & E & Him & _ & _ & Hst' & Hok').
  { rewrite Est. destruct p; try done; by injection Hp as <- <-. }
  exists s'. split; [done |]. split; [done |]. split; [done |]. split; [done |].
  refine (eq_rect _ (cstep c) (start_head _ gs c Eg) _ _). unfold start_step, start_next, set_stage_at. cbn [sg_pc sg_link sg_op sg_parent].
  destruct p; try done; injection Hp as <- <-; rewrite Hs, E; cbn; by rewrite Eg.
Qed.

(** The start handler of a service, run by its start. *)
Lemma handler_head l op parent gs c (s : Service (W := W)) :
  cc_starting c = {| sg_pc := RunStart; sg_link := l; sg_op := op; sg_parent := parent |} :: gs → services (cc_host c) !! l = Some s →
  let '(op', r, w) := run_child (HandleStart (svc_impl s)) Background op (cc_world c) in
  cstep c (let c := c <| cc_host := cc_host c |> <| cc_world := w |> in
    match r with
    | Some None => c <| cc_starting := {| sg_pc := SetStarted; sg_link := l; sg_op := op'; sg_parent := parent |} :: gs |>
    | Some (Some e) => end_start parent (Fail_ e op') (c <| cc_starting := gs |>)
    | None => end_start parent op' (c <| cc_starting := gs |>)
    end).
Proof.
  intros Eg Hs. destruct (run_child (HandleStart (svc_impl s)) Background op (cc_world c)) as [[op' r] w] eqn:Er.
  refine (eq_rect _ (cstep c) (start_head _ gs c Eg) _ _). unfold start_step, start_next. cbn [sg_pc sg_link sg_op sg_parent].
  rewrite Hs, Er. destruct r as [[e |] |]; cbn; by rewrite Eg.
Qed.

Lemma startService_run l op parent gs c (s : Service (W := W)) :
  cc_starting c = {| sg_pc := RunStart; sg_link := l; sg_op := op; sg_parent := parent |} :: gs → services (cc_host c) !! l = Some s →
  svc_ok s → stage (svc_stages s) = StageInitialized →
  let '(op, h, w) := startService op l s (cc_host c) (cc_world c) in
  rtc cstep c (end_start parent op (c <| cc_host := h |> <| cc_world := w |> <| cc_starting := gs |>)).
Proof.
  intros Eg Hs Hok Est. pose proof (handler_head l op parent gs c s Eg Hs) as D1. unfold startService.
  destruct (run_child (HandleStart (svc_impl s)) Background op (cc_world c)) as [[op' r] w] eqn:Er.
  destruct r as [[e |] |]; [by apply rtc_once | | by apply rtc_once]. cbv zeta in D1.
  match type of D1 with cstep _ ?x => set (c1 := x) in D1 end.
  destruct (stage_head SetStarted StageStarted (Some SetAvailable) l op' parent gs c1 s) as (s1 & E1 & _ & Hok1 & Es1 & D2);
    [done | done | done | done | by rewrite Est |]. cbv zeta in D2.
  match type of D2 with cstep _ ?x => set (c2 := x) in D2 end.
  destruct (stage_head SetAvailable StageAvailable None l op' parent gs c2 s1) as (s2 & E2 & _ & Hok2 & Es2 & D3);
    [done | done | apply store_lookup | done | by rewrite Es1 |].
  rewrite E1, E2. eapply rtc_l; [exact D1 |]. eapply rtc_l; [exact D2 |].
  apply rtc_once. refine (eq_rect _ (cstep c2) D3 _ _). unfold c2, c1. cbn. by rewrite store_store.
Qed.

Lemma StartService_run parent op (s : Service) c :
  svc_stages s = new_StageContainer →
  let '(op', h, w) := StartService op s (cc_host c) (cc_world c) in
  rtc cstep (bind_step parent op s c) (end_start parent op' (c <| cc_host := h |> <| cc_world := w |>)).
Proof.
  intros Hn. unfold bind_step. rewrite StartService_split.
  destruct (bind_service op s (cc_host c)) as [[l h1] |] eqn:Eb; [| by destruct c].
  apply bind_service_some in Eb as (s1 & -> & Hl & Est & _). destruct (new_ok s1) as [Hok Hz]; [congruence |].
  set (c1 := c <| cc_host := _ |> <| cc_starting := _ |>). rewrite store_lookup.
  destruct (stage_head SetInitialized StageInitialized (Some RunStart) l op parent (cc_starting c) c1 s1) as (s2 & E2 & _ & Hok2 & Es2 & D2);
    [done | done | apply store_lookup | done | done |].
  rewrite E2. cbv zeta in D2. match type of D2 with cstep _ ?x => set (c2 := x) in D2 end.
  pose proof (startService_run l op parent (cc_starting c) c2 s2 eq_refl (store_lookup _ _ _) Hok2 Es2) as D3.
  change (cc_host c2) with (store l s2 (store l s1 (cc_host c))) in D3. change (cc_world c2) with (cc_world c) in D3.
  destruct (startService op l s2 (store l s2 (store l s1 (cc_host c))) (cc_world c)) as [[op3 h3] w3].
  eapply rtc_l; [exact D2 |]. exact D3.
Qed.

(** *** A queued request is served *)

(** An operation that a handler is not done with is answered by its timer. *)
Lemma settle_run id op c : cc_replies c !! id = None →
  ∃ c', rtc cstep (settle id op c) c' ∧ cc_replies c' !! id = Some (respond error_ty error_value (expire (GetExpiration op) op)).
Proof.
  intros Hn. unfold settle. destruct (op_result op).
  - eexists. split; [apply rtc_refl |]. by apply answer_new.
  - eexists. split; [apply rtc_once, (c_expire 0 id op); done |]. by apply answer_new.
Qed.

(** A call of a handler comes to an answer: what the handler replies. *)
Lemma call_handler_run id l ctx op (s : Service) c : cc_replies c !! id = None →
  let op' := (service_HandleRequest s ctx op (cc_host c) (cc_world c)).1.1 in
  ∃ c', rtc cstep (call_handler id l ctx op s c) c' ∧ cc_replies c' !! id = Some (respond error_ty error_value (expire (GetExpiration op') op')).
Proof.
  intros Hn op'. unfold call_handler, op', service_HandleRequest. clear op'. cbn [cc_world].
  change (cc_world (c <| cc_calls := (id, l, stage (svc_stages s)) :: cc_calls c |>)) with (cc_world c).
  destruct (service_begin s ctx op (cc_world c)) as [[op1 w1] | [[[op1 op2] s1] w1]] eqn:Eb; [by apply settle_run |].
  set (c1 := _ <| cc_world := w1 |>). apply service_begin_new in Eb.
  pose proof (StartService_run (Some (id, op1)) op2 s1 c1 Eb) as Hrun.
  change (cc_host c1) with (cc_host c) in Hrun. change (cc_world c1) with w1 in Hrun.
  destruct (StartService op2 s1 (cc_host c) w1) as [[op3 h3] w3]. cbn [end_start fst] in *.
  edestruct (settle_run id (factory_end op1 op3)) as (c' & Hr & Hm); [| exists c'; split; [by etrans | done]]. done.
Qed.

Definition next_pc (p : pc) : option pc :=
  match p with SetInitialized => Some RunStart | RunStart => Some SetStarted | SetStarted => Some SetAvailable | SetAvailable => None end.
Definition pc_left (p : pc) : nat := match p with SetInitialized => 3 | RunStart => 2 | SetStarted => 1 | SetAvailable => 0 end.
(** The start handler of a service has succeeded, or succeeds whenever it is
    called with the operation of the start. *)
Definition starts_well (i : impl (W := W)) (g : starting) : Prop :=
  match sg_pc g with
  | SetInitialized | RunStart => ∀ w, (run_child (HandleStart i) Background (sg_op g) w).1.2 = Some None
  | SetStarted | SetAvailable => True
  end.

(** A service with the given handler, in some stage, is bound to a link. *)
Definition bound (l : string) (i : impl (W := W)) (st : Stage) h : Prop :=
  ∃ s, services h !! l = Some s ∧ svc_impl s = i ∧ stage (svc_stages s) = st.
(** The queue, and what its requests were answered with, stay. *)
Definition queue_kept (c c' : Conc) : Prop :=
  cc_queue c' = cc_queue c ∧ ∀ q, q ∈ cc_queue c → cc_replies c' !! qd_id q = cc_replies c !! qd_id q.
#[local] Instance queue_kept_refl : Reflexive queue_kept.
Proof. by intros c. Qed.
#[local] Instance queue_kept_trans : Transitive queue_kept.
Proof. intros c1 c2 c3 [E1 D1] [E2 D2]. split; [congruence |]. intros q Hq. rewrite D2 by congruence. by apply D1. Qed.

(** A request that is with a handler is not queued. *)
Lemma pending_not_queued c id q : conc_inv c → id ∈ pending c → q ∈ cc_queue c → qd_id q ≠ id.
Proof.
  intros (_ & Hi & _) Hid Hq <-. pose proof (io_nodup _ _ _ _ _ Hi) as Hn. apply NoDup_app in Hn as (_ & Hn & _).
  apply (Hn (qd_id q)); [by apply list_elem_of_fmap_2 | by apply (io_called _ _ _ _ _ Hi)].
Qed.
Lemma parent_pending c g id op : g ∈ cc_starting c → sg_parent g = Some (id, op) → id ∈ pending c.
Proof. intros Hg Hp. unfold pending. apply elem_of_app. right. unfold parents. apply list_elem_of_omap. exists g. by rewrite Hp. Qed.

Lemma end_start_queue g op c c1 : conc_inv c → g ∈ cc_starting c → cc_queue c1 = cc_queue c → cc_replies c1 = cc_replies c →
  queue_kept c (end_start (sg_parent g) op c1).
Proof.
  intros Hc Hg Eq Er. unfold end_start. destruct (sg_parent g) as [[id pop] |] eqn:Ep.
  - unfold settle. destruct (op_result _); split; cbn; rewrite ?Eq, ?Er; try done. intros q Hq. apply answer_other.
    eapply pending_not_queued; [done | by eapply parent_pending | done].
  - split; cbn; by rewrite ?Eq, ?Er.
Qed.

Lemma end_start_host parent op c : cc_host (end_start parent op c) = cc_host c.
Proof. unfold end_start, settle. destruct parent as [[id pop] |]; [| done]. by destruct (op_result _). Qed.

Lemma start_progress i g im st c :
  conc_inv c → cc_starting c !! i = Some g → bound (sg_link g) im st (cc_host c) → starts_well im g →
  ∃ c', cstep c c' ∧ queue_kept c c' ∧
    match next_pc (sg_pc g) with
    | Some p => ∃ g' st', cc_starting c' !! i = Some g' ∧ sg_pc g' = p ∧ sg_link g' = sg_link g ∧ starts_well im g'
        ∧ bound (sg_link g) im st' (cc_host c')
    | None => bound (sg_link g) im StageAvailable (cc_host c')
    end.
Proof.
  intros Hc Hg (s & Hs & Him & _) Hw. exists (start_step i g c). split; [by apply c_start |].
  pose proof (list_elem_of_lookup_2 _ _ _ Hg) as Hin. destruct Hc as (Hh & Hrest). pose proof (conj Hh Hrest : conc_inv c) as Hc.
  rewrite (delete_Permutation _ _ _ Hg) in Hh.
  assert (∀ st, (pc_stage (sg_pc g) < st ≤ StageAvailable)%Z → ∃ h', set_stage_at st (sg_link g) (cc_host c) = (h', None) ∧ bound (sg_link g) im st h') as Hset.
  { intros st1 Hlt. destruct (set_stage_ok _ st1 g _ _ Hh Hlt) as (s0 & Hs0 & s' & _ & Him' & E & Est' & _).
    exists (store (sg_link g) s' (cc_host c)). split; [done |]. exists s'. rewrite store_lookup. simplify_eq. done. }
  assert (i < length (cc_starting c)) as Hlen by (by eapply lookup_lt_Some).
  unfold starts_well in Hw. unfold start_step, start_next. destruct (sg_pc g) eqn:Ep; cbn [next_pc].
  - destruct (Hset StageInitialized) as (h' & -> & Hb); [done |]. split; [done |].
    eexists _, StageInitialized. split; [by apply list_lookup_insert_eq | done].
  - rewrite Hs, Him. pose proof (Hw (cc_world c)) as Hr.
    destruct (run_child (HandleStart im) Background (sg_op g) (cc_world c)) as [[op' r] w']. simpl in Hr. subst r.
    split; [done |]. eexists _, _. split; [by apply list_lookup_insert_eq |]. split; [done |]. split; [done |]. split; [done |]. by exists s.
  - destruct (Hset StageStarted) as (h' & -> & Hb); [done |]. split; [done |].
    eexists _, StageStarted. split; [by apply list_lookup_insert_eq | done].
  - destruct (Hset StageAvailable) as (h' & -> & Hb); [done |]. split; [by apply end_start_queue |]. by rewrite end_start_host.
Qed.

Lemma start_finishes n i g im st c :
  pc_left (sg_pc g) = n → conc_inv c → cc_starting c !! i = Some g → bound (sg_link g) im st (cc_host c) → starts_well im g →
  ∃ c', rtc cstep c c' ∧ queue_kept c c' ∧ bound (sg_link g) im StageAvailable (cc_host c').
Proof.
  revert g st c. induction n as [| n IH]; intros g st c Hn Hc Hg Hb Hw;
    destruct (start_progress i g im st c Hc Hg Hb Hw) as (c1 & Hstep & Hk & Hnext).
  - exists c1. split; [by apply rtc_once |]. by destruct (sg_pc g).
  - assert (∃ p, next_pc (sg_pc g) = Some p ∧ pc_left p = n) as (p & Ep & Hp) by (destruct (sg_pc g); simpl in *; naive_solver).
    rewrite Ep in Hnext. destruct Hnext as (g' & st' & Hg' & Epc & El & Hw' & Hb').
    destruct (IH g' st' c1) as (c' & Hr & Hk' & Ha); [by rewrite Epc | by eapply cstep_inv | done | by rewrite El | done |].
    exists c'. rewrite El in Ha. split; [by eapply rtc_l |]. split; [by etrans | done].
Qed.

(** The reply of the handler of a service to a request, on some host. *)
Definition handled_by (im : impl (W := W)) (q : queued) (r : Reply) : Prop :=
  ∃ s h w, services h !! qd_link q = Some s ∧ svc_impl s = im ∧
    let op := (service_HandleRequest s (qd_ctx q) (qd_op q) h w).1.1 in r = respond error_ty error_value (expire (GetExpiration op) op).

Lemma served_at_barrier i q im c :
  conc_inv c → cc_queue c !! i = Some q → cc_replies c !! qd_id q = None → qd_ch q ≠ None →
  bound (qd_link q) im StageAvailable (cc_host c) →
  ∃ c' r, rtc cstep c c' ∧ cc_replies c' !! qd_id q = Some r ∧ handled_by im q r.
Proof.
  intros (Hh & _) Hq Hn Hch (s & Hs & Him & Est).
  assert (barrier_closed q (cc_host c)) as Hb.
  { eapply closed_iff; [done | by eapply list_elem_of_lookup_2 |]. split; [done |]. by exists s. }
  pose proof (c_resume i q c Hq Hb) as Hstep. unfold resume in Hstep. rewrite Hs in Hstep.
  set (c1 := c <| cc_queue := _ |>) in Hstep.
  destruct (call_handler_run (qd_id q) (qd_link q) (qd_ctx q) (qd_op q) s c1 Hn) as (c' & Hr & Hm).
  exists c'. eexists. split; [by eapply rtc_l |]. split; [exact Hm |]. by exists s, (cc_host c), (cc_world c).
Qed.

Lemma served_when_available i q im c :
  conc_inv c → cc_queue c !! i = Some q → cc_replies c !! qd_id q = None → bound (qd_link q) im StageAvailable (cc_host c) →
  ∃ c' r, rtc cstep c c' ∧ cc_replies c' !! qd_id q = Some r ∧ handled_by im q r.
Proof.
  intros Hc Hq Hn Hb. destruct (qd_ch q) as [ch |] eqn:Ech; [by eapply served_at_barrier; [| | | rewrite Ech |] |].
  pose proof (c_barrier i q c Hq Ech) as Hstep. pose proof (cstep_inv _ _ Hstep Hc) as Hc1.
  revert Hstep Hc1. destruct Hb as (s & Hs & Him & Est). unfold barrier. rewrite Hs.
  destruct (StageBarrier StageAvailable (svc_stages s)) as [st ch] eqn:Eb. intros Hstep Hc1.
  set (q1 := {| qd_id := qd_id q; qd_ctx := qd_ctx q; qd_op := qd_op q; qd_link := qd_link q; qd_ch := Some ch |}) in *.
  set (c1 := c <| cc_host := _ |> <| cc_queue := _ |>) in *.
  destruct (served_at_barrier i q1 im c1) as (c' & r & Hr & Hrep & Hby); [done | | done | done | |].
  - apply list_lookup_insert_eq. by eapply lookup_lt_Some.
  - exists (s <| svc_stages := st |>). split; [apply store_lookup |]. split; [done |].
    unfold StageBarrier in Eb. simpl in Eb. unfold stage in *. case_decide; simplify_eq; done.
  - exists c', r. split; [by eapply rtc_l | done].
Qed.

(** C16: a request that came while its service was being started is served: from
    every state that can be reached in which it is queued and its timer has not
    fired, if the service is available, or its start is still running and the start
    handler succeeds, the host can go on to a state where the request is answered
    with what the service's own handler replies. *)
Theorem queued_is_served w0 c i q im st :
  rtc cstep (init_Conc w0) c → cc_queue c !! i = Some q → cc_replies c !! qd_id q = None →
  bound (qd_link q) im st (cc_host c) →
  st = StageAvailable ∨ (∃ g, g ∈ cc_starting c ∧ sg_link g = qd_link q ∧ starts_well im g) →
  ∃ c' r, rtc cstep c c' ∧ cc_replies c' !! qd_id q = Some r ∧ handled_by im q r.
Proof.
  intros Hc%queue_inv Hq Hn Hb [-> | (g & [j Hg]%list_elem_of_lookup & El & Hw)]; [by eapply served_when_available |].
  destruct (start_finishes _ j g im st c eq_refl Hc Hg) as (c1 & Hr1 & [Eq1 Er1] & Hb1); [by rewrite El | done |].
  rewrite El in Hb1. destruct (served_when_available i q im c1) as (c' & r & Hr & Hres).
  - by eapply steps_inv.
  - by rewrite Eq1.
  - rewrite Er1; [done | by eapply list_elem_of_lookup_2].
  - done.
  - exists c', r. split; [by etrans | done].
Qed.

(** *** A service that cannot become available *)

(** Its start is over, because the start handler failed or is never done. *)
Definition stuck (l : string) (c : Conc) : Prop :=
  (∃ s, services (cc_host c) !! l = Some s ∧ (stage (svc_stages s) < StageAvailable)%Z) ∧ ∀ g, g ∈ cc_starting c → sg_link g ≠ l.
(** The answer of a timer. *)
Definition timed_out (r : Reply) : Prop :=
  rp_status r = 500%Z ∧ rp_body r =
    Some (TJson (enc (error_value {| ser_Message := "context deadline exceeded"; ser_StackTrace := []; ser_StatusCode := 0 |}))).

Lemma timed_out_respond op : op_result op = None →
  let op' := Fail_ DeadlineExceeded op in timed_out (respond error_ty error_value (expire (GetExpiration op') op')).
Proof.
  intros Ho op'. assert (op_result op' = Some (Some DeadlineExceeded)) as Hr by (unfold op', Fail_; by rewrite Ho).
  rewrite (expire_done _ _ _ Hr). unfold respond, Err_. rewrite Hr. done.
Qed.

(** Answers, and what a step does to services and starts. *)
Lemma settle_fields id op c :
  cc_host (settle id op c) = cc_host c ∧ cc_starting (settle id op c) = cc_starting c ∧ cc_calls (settle id op c) = cc_calls c
  ∧ cc_queue (settle id op c) = cc_queue c ∧ ∀ k, k ≠ id → cc_replies (settle id op c) !! k = cc_replies c !! k.
Proof. unfold settle. destruct (op_result op); split_and!; try done. intros k Hk. by apply answer_other. Qed.
Lemma end_start_fields parent op c :
  cc_host (end_start parent op c) = cc_host c ∧ cc_starting (end_start parent op c) = cc_starting c
  ∧ cc_calls (end_start parent op c) = cc_calls c ∧ cc_queue (end_start parent op c) = cc_queue c
  ∧ ∀ k, fst <$> parent ≠ Some k → cc_replies (end_start parent op c) !! k = cc_replies c !! k.
Proof.
  unfold end_start. destruct parent as [[id pop] |]; [| done].
  destruct (settle_fields id (factory_end pop op) (c <| cc_done := op :: cc_done c |>)) as (-> & -> & -> & -> & Hk).
  split_and!; try done. intros k Hne. apply Hk. simpl in Hne. congruence.
Qed.

Lemma stuck_bind l parent op (s : Service) c : stuck l c →
  stuck l (bind_step parent op s c) ∧ cc_calls (bind_step parent op s c) = cc_calls c ∧ cc_queue (bind_step parent op s c) = cc_queue c
  ∧ ∀ k, fst <$> parent ≠ Some k → cc_replies (bind_step parent op s c) !! k = cc_replies c !! k.
Proof.
  intros [(t & Ht & Hst) Hg]. unfold bind_step. destruct (bind_service op s (cc_host c)) as [[l1 h1] |] eqn:Eb.
  - apply bind_service_some in Eb as (s1 & -> & Hl & _). split_and!; [| done..]. split.
    + exists t. split; [| done]. cbn. rewrite lookup_insert_ne; [done | congruence].
    + intros g [-> | Hin]%elem_of_cons; [simpl; congruence | by apply Hg].
  - unfold stuck. destruct (end_start_fields parent (Fail_ (Errorf "host: service is already bound") op) c) as (-> & -> & -> & -> & Hk).
    split_and!; [by exists t | done..].
Qed.

Lemma stuck_start l i g c : conc_inv c → cc_starting c !! i = Some g → stuck l c →
  stuck l (start_step i g c) ∧ cc_calls (start_step i g c) = cc_calls c ∧ cc_queue (start_step i g c) = cc_queue c
  ∧ ∀ k, fst <$> sg_parent g ≠ Some k → cc_replies (start_step i g c) !! k = cc_replies c !! k.
Proof.
  intros (Hh & _) Hg [(t & Ht & Hst) Hgs]. pose proof (list_elem_of_lookup_2 _ _ _ Hg) as Hin. pose proof (Hgs g Hin) as Hne.
  unfold start_step. destruct (start_next g (cc_host c) (cc_world c)) as [[[next op] h] w] eqn:En.
  assert (services h !! l = Some t) as Ht'.
  { revert En. unfold start_next, set_stage_at. destruct (ho_start _ _ _ Hh g Hin) as (s & Hs & _). rewrite Hs.
    destruct (run_child _ _ (sg_op g) (cc_world c)) as [[op1 [[e |] |]] w1];
      destruct (svc_SetStage StageInitialized s) as [s1 [e1 |]], (svc_SetStage StageStarted s) as [s2 [e2 |]],
        (svc_SetStage StageAvailable s) as [s3 [e3 |]], (sg_pc g);
      intros [= <- <- <- <-]; rewrite ?store_lookup_ne by done; done. }
  destruct next as [p |].
  - split_and!; [| done..]. split; [by exists t |]. cbn. intros g1. rewrite (insert_perm _ _ _ _ Hg).
    intros [-> | Hin1]%elem_of_cons; [done |]. apply Hgs. rewrite (delete_Permutation _ _ _ Hg). by apply elem_of_cons; right.
  - unfold stuck. match goal with |- context [end_start ?p ?o ?x] => destruct (end_start_fields p o x) as (-> & -> & -> & -> & Hk) end.
    split_and!; [by exists t | | done..]. cbn. intros g1 Hin1. apply Hgs. rewrite (delete_Permutation _ _ _ Hg). by apply elem_of_cons; right.
Qed.

(** The call of another service's handler. *)
Lemma stuck_call l id l' ctx op (s : Service) c : l' ≠ l → stuck l c →
  stuck l (call_handler id l' ctx op s c) ∧ (∀ call, call ∈ cc_calls (call_handler id l' ctx op s c) → call.1.2 = l → call ∈ cc_calls c)
  ∧ cc_queue (call_handler id l' ctx op s c) = cc_queue c ∧ ∀ k, k ≠ id → cc_replies (call_handler id l' ctx op s c) !! k = cc_replies c !! k.
Proof.
  intros Hne Hs. unfold call_handler. set (c1 := c <| cc_calls := _ |>).
  assert (∀ call, call ∈ cc_calls c1 → call.1.2 = l → call ∈ cc_calls c) as Hcalls by (intros call [-> | ?]%elem_of_cons; [done | done]).
  destruct (service_begin s ctx op (cc_world c1)) as [[op1 w1] | [[[op1 op2] s1] w1]].
  - unfold stuck. destruct (settle_fields id op1 (c1 <| cc_world := w1 |>)) as (-> & -> & -> & -> & Hk). by split_and!; try apply Hs.
  - match goal with |- context [bind_step ?p ?o ?t ?x] => destruct (stuck_bind l p o t x Hs) as (Hs' & -> & -> & Hk) end.
    split_and!; [done | done | done |]. intros k Hkne. apply Hk. simpl. congruence.
Qed.

(** A request to it is waiting, or was answered by its timer. *)
Definition waiting (id : nat) (l : string) (c : Conc) : Prop :=
  (cc_replies c !! id = None ∧ ∃ q, q ∈ cc_queue c ∧ qd_id q = id ∧ qd_link q = l) ∨ ∃ r, cc_replies c !! id = Some r ∧ timed_out r.

Definition stays (l : string) (c c' : Conc) : Prop :=
  stuck l c' ∧ (∀ call, call ∈ cc_calls c' → call.1.2 = l → call ∈ cc_calls c) ∧ ∀ id, waiting id l c → waiting id l c'.

(** What is not in the way of the requests for it. *)
Lemma stays_other l c c' : stuck l c' → (∀ call, call ∈ cc_calls c' → call.1.2 = l → call ∈ cc_calls c) →
  (∀ q, q ∈ cc_queue c → qd_link q = l → q ∈ cc_queue c' ∧ cc_replies c' !! qd_id q = cc_replies c !! qd_id q) →
  (∀ id r, cc_replies c !! id = Some r → cc_replies c' !! id = Some r) → stays l c c'.
Proof.
  intros Hs Hc Hq Hr. split_and!; [done | done |]. intros id [(Hn & q & Hin & <- & Hl) | (r & Er & Ht)].
  - left. destruct (Hq q Hin Hl) as [Hin' ->]. split; [done |]. by exists q.
  - right. exists r. split; [by apply Hr | done].
Qed.

Lemma other_id c i q q1 : conc_inv c → cc_queue c !! i = Some q1 → q ∈ cc_queue c → q = q1 ∨ (q ∈ delete i (cc_queue c) ∧ qd_id q ≠ qd_id q1).
Proof.
  intros (_ & Hi & _) Hq1 Hq. rewrite (delete_Permutation _ _ _ Hq1) in Hq. apply elem_of_cons in Hq as [-> | Hin]; [by left | right].
  split; [done |]. pose proof (io_nodup _ _ _ _ _ Hi) as Hn. apply NoDup_app in Hn as (Hn & _ & _).
  rewrite (delete_Permutation _ _ _ Hq1), fmap_cons, NoDup_cons in Hn. intros E. apply (proj1 Hn). rewrite <- E. by apply list_elem_of_fmap_2.
Qed.
Lemma queued_known c q : conc_inv c → q ∈ cc_queue c → qd_id q < cc_next c.
Proof. intros (_ & Hi & _) Hq. apply (io_range _ _ _ _ _ Hi), elem_of_app. left. by apply list_elem_of_fmap_2. Qed.

Lemma stays_start l i g c : conc_inv c → cc_starting c !! i = Some g → stuck l c → stays l c (start_step i g c).
Proof.
  intros Hc Hg Hs. destruct (stuck_start l i g c Hc Hg Hs) as (Hs' & Ec & Eq & Hk).
  assert (∀ q, q ∈ cc_queue c → fst <$> sg_parent g ≠ Some (qd_id q)) as Hne.
  { intros q Hq E. destruct (sg_parent g) as [[id op] |] eqn:Ep; [| done]. simpl in E.
    apply (pending_not_queued c id q Hc); [eapply parent_pending; [by eapply list_elem_of_lookup_2 | done] | done | congruence]. }
  apply stays_other; [done | by rewrite Ec | intros q Hq _; rewrite Eq, Hk; auto |].
  intros id r Hr. unfold start_step. destruct (start_next g (cc_host c) (cc_world c)) as [[[[p |] op] h] w]; [done |].
  unfold end_start. destruct (sg_parent g) as [[id' pop] |]; [| done]. unfold settle. destruct (op_result _); [by apply answer_kept | done].
Qed.

Lemma call_kept id l ctx op (s : Service) c k r : cc_replies c !! k = Some r → cc_replies (call_handler id l ctx op s c) !! k = Some r.
Proof.
  intros Hr. unfold call_handler. destruct (service_begin s ctx op _) as [[op1 w1] | [[[op1 op2] s1] w1]].
  - unfold settle. destruct (op_result op1); [by apply answer_kept | done].
  - unfold bind_step. destruct (bind_service _ _ _) as [[l1 h1] |]; [done |]. unfold end_start, settle.
    destruct (op_result _); [by apply answer_kept | done].
Qed.

Lemma stays_arrive l req c : conc_inv c → stuck l c → stays l c (arrive req c).
Proof.
  intros Hc Hs. pose proof Hs as [(t & Ht & Hst) _].
  assert (∀ q, q ∈ cc_queue c → qd_id q ≠ cc_next c) as Hne by (intros q Hq E; pose proof (queued_known c q Hc Hq); lia).
  unfold arrive. destruct (inbound req (cc_world c)) as [ctx op]. cbn [cc_host].
  change (cc_host (c <| cc_next := S (cc_next c) |>)) with (cc_host c).
  destruct (services (cc_host c) !! request_link req) as [s |] eqn:Es.
  - case_decide as Hd.
    + apply stays_other; [done | done | | done]. intros q Hq _. split; [by apply elem_of_cons; right | done].
    + assert (request_link req ≠ l) as Hl by (intros E; rewrite E in Es; congruence).
      match goal with |- stays _ _ (call_handler ?i ?k ?x ?o ?t ?c1) => destruct (stuck_call l i k x o t c1 Hl Hs) as (Hs' & Hcalls & Eq & Hk) end.
      apply stays_other; [done | done | intros q Hq _; rewrite Eq, Hk; auto | intros; by apply call_kept].
  - apply stays_other; [done | done | intros q Hq _; cbn; rewrite answer_other; auto | intros; by apply answer_kept].
Qed.

Lemma stays_barrier l i q c : conc_inv c → cc_queue c !! i = Some q → stuck l c → stays l c (barrier i q c).
Proof.
  intros Hc Hq Hs. pose proof Hs as [(t & Ht & Hst) Hg]. unfold barrier.
  destruct (services (cc_host c) !! qd_link q) as [s |] eqn:Es; [| by apply stays_other].
  destruct (StageBarrier StageAvailable (svc_stages s)) as [st ch] eqn:Eb.
  set (q' := {| qd_id := qd_id q; qd_ctx := qd_ctx q; qd_op := qd_op q; qd_link := qd_link q; qd_ch := Some ch |}).
  split_and!; [| done |].
  - split; [| done]. cbn. destruct (decide (qd_link q = l)) as [El | Hne]; [| exists t; by rewrite lookup_insert_ne].
    rewrite El, lookup_insert_eq. eexists. split; [done |]. rewrite El in Es. simplify_eq. unfold StageBarrier in Eb. unfold stage in *.
    case_decide; simplify_eq; done.
  - intros id [(Hn & q0 & Hin & <- & Hl) | Hr]; [| by right]. left. split; [done |]. cbn.
    destruct (other_id c i q0 q Hc Hq Hin) as [-> | [Hin' _]].
    + exists q'. split; [| done]. rewrite (insert_perm _ _ _ _ Hq). by apply elem_of_cons; left.
    + exists q0. split; [| done]. rewrite (insert_perm _ _ _ _ Hq). by apply elem_of_cons; right.
Qed.

Lemma stays_resume l i q c : conc_inv c → cc_queue c !! i = Some q → barrier_closed q (cc_host c) → stuck l c → stays l c (resume i q c).
Proof.
  intros Hc Hq Hb Hs. pose proof Hs as [(t & Ht & Hst) Hg]. pose proof (list_elem_of_lookup_2 _ _ _ Hq) as Hin.
  apply (closed_iff _ _ _ _ (proj1 Hc) Hin) in Hb as [_ (s & Es & Est)]. unfold resume. rewrite Es.
  assert (qd_link q ≠ l) as Hl by (intros E; rewrite E in Es; simplify_eq; lia).
  match goal with |- stays _ _ (call_handler ?i ?k ?x ?o ?t ?c1) => destruct (stuck_call l i k x o t c1 Hl Hs) as (Hs' & Hcalls & Eq & Hk) end.
  apply stays_other; [done | done | | intros; by apply call_kept]. intros q0 Hin0 Hl0. rewrite Eq.
  destruct (other_id c i q0 q Hc Hq Hin0) as [-> | [Hin' Hne]]; [done |]. by rewrite Hk.
Qed.

Lemma stays_timeout l i q c : conc_inv c → cc_queue c !! i = Some q → stuck l c → stays l c (timeout i q c).
Proof.
  intros Hc Hq Hs. split_and!; [done | done |]. intros id [(Hn & q0 & Hin & <- & Hl) | (r & Er & Ht)].
  - destruct (other_id c i q0 q Hc Hq Hin) as [-> | [Hin' Hne]].
    + right. eexists. split; [by apply answer_new |]. apply timed_out_respond. destruct Hc as (_ & Hi & _).
      destruct (op_result (qd_op q)) eqn:E; [| done]. exfalso. destruct (io_done _ _ _ _ _ Hi q Hin) as [? ?]; congruence.
    + left. cbn. rewrite answer_other by done. split; [done |]. exists q0. split; [| done]. rewrite (insert_perm _ _ _ _ Hq). by apply elem_of_cons; right.
  - right. exists r. split; [by apply answer_kept | done].
Qed.

Lemma stays_leave l i q c : conc_inv c → cc_queue c !! i = Some q → op_result (qd_op q) ≠ None → stuck l c → stays l c (leave i c).
Proof.
  intros Hc Hq Hr Hs. split_and!; [done | done |]. intros id [(Hn & q0 & Hin & <- & Hl) | ?]; [left | by right].
  destruct (other_id c i q0 q Hc Hq Hin) as [-> | [Hin' Hne]].
  - exfalso. destruct Hc as (_ & Hi & _). destruct (io_done _ _ _ _ _ Hi q Hin Hr) as [? ?]. congruence.
  - split; [done |]. exists q0. done.
Qed.

Lemma stays_expire l id op c c' : conc_inv c → id ∈ pending c → stuck l c → cc_host c' = cc_host c → cc_starting c' = cc_starting c →
  cc_calls c' = cc_calls c → cc_queue c' = cc_queue c → cc_replies c' = answer_once id op (cc_replies c) → stays l c c'.
Proof.
  intros Hc Hid Hs Eh Es Ec Eq Er. apply stays_other.
  - unfold stuck. by rewrite Eh, Es.
  - by rewrite Ec.
  - intros q Hq _. rewrite Eq, Er. split; [done |]. apply answer_other. by eapply pending_not_queued.
  - intros k r Hr. rewrite Er. by apply answer_kept.
Qed.

Lemma stays_step l c c' : conc_inv c → stuck l c → cstep c c' → stays l c c'.
Proof.
  intros Hc Hs. destruct 1; eauto using stays_start, stays_arrive, stays_barrier, stays_resume, stays_timeout, stays_leave.
  - destruct (stuck_bind l None op s c Hs) as (Hs' & Ec & Eq & Hk). apply stays_other; [done | by rewrite Ec | intros; rewrite Eq, Hk; auto |].
    intros. by rewrite Hk.
  - eapply (stays_expire l id op); try done. unfold pending. apply elem_of_app. left. apply list_elem_of_fmap. exists (id, op).
    split; [done | by eapply list_elem_of_lookup_2].
  - eapply (stays_expire l id op); try done. by eapply parent_pending.
Qed.
Lemma stays_steps l c c' : conc_inv c → stuck l c → rtc cstep c c' → stays l c c'.
Proof.
  intros Hc Hs Hr. induction Hr as [| c1 c2 c3 Hstep _ IH]; [by split_and! |].
  destruct (stays_step l _ _ Hc Hs Hstep) as (Hs2 & Hc2 & Hw2).
  destruct (IH (cstep_inv _ _ Hstep Hc) Hs2) as (Hs3 & Hc3 & Hw3). split_and!; [done | auto | auto].
Qed.

(** C21: a service that is not available and whose start is over, as when its start
    handler failed or is never done, never becomes available, whatever else happens on
    the host, and its handler is never called.  Every request that arrives for it
    is queued; and one that is queued stays so until its timer fires, which can happen
    at any time, and which answers it with status 500 and "context deadline
    exceeded". *)
Theorem failed_start_times_out w c l :
  rtc cstep (init_Conc w) c → stuck l c →
  (∀ c', rtc cstep c c' → stuck l c' ∧ ∀ id st, (id, l, st) ∈ cc_calls c' → (id, l, st) ∈ cc_calls c) ∧
  (∀ req, request_link req = l → ∃ q, q ∈ cc_queue (arrive req c) ∧ qd_id q = cc_next c ∧ qd_link q = l ∧
     cc_replies (arrive req c) !! cc_next c = None) ∧
  (∀ q c', q ∈ cc_queue c → qd_link q = l → cc_replies c !! qd_id q = None → rtc cstep c c' →
     match cc_replies c' !! qd_id q with
     | Some r => timed_out r
     | None => ∃ c'' r, cstep c' c'' ∧ cc_replies c'' !! qd_id q = Some r ∧ timed_out r
     end).
Proof.
  intros Hc%queue_inv Hs. split_and!.
  - intros c' Hr. destruct (stays_steps l c c' Hc Hs Hr) as (? & Hcalls & _). split; [done |]. intros id st Hin. by apply Hcalls.
  - intros req El. destruct Hs as [(t & Ht & Hst) _]. unfold arrive. destruct (inbound req (cc_world c)) as [ctx op]. cbn [cc_host].
    change (cc_host (c <| cc_next := S (cc_next c) |>)) with (cc_host c). rewrite El, Ht, decide_True by done.
    eexists. split; [by apply elem_of_cons; left |]. split_and!; [done | done |]. cbn.
    apply eq_None_not_Some. intros Hm. destruct Hc as (_ & Hi & _). apply (io_old _ _ _ _ _ Hi) in Hm. lia.
  - intros q c' Hin Hl Hn Hr. pose proof (stays_steps l c c' Hc Hs Hr) as (Hs' & _ & Hw).
    assert (waiting (qd_id q) l c) as Hq by (left; split; [done | by exists q]). apply Hw in Hq.
    pose proof (steps_inv _ _ Hr Hc) as Hc'. destruct Hq as [(Hn' & q' & [i Hq']%list_elem_of_lookup & Eid & Hl') | (r & -> & Ht)]; [| done].
    rewrite Hn', <- Eid in *. exists (timeout i q' c'). eexists. split; [by apply c_timeout |]. split; [by apply answer_new |].
    apply timed_out_respond. destruct Hc' as (_ & Hi & _). destruct (op_result (qd_op q')) eqn:E; [| done].
    exfalso. destruct (io_done _ _ _ _ _ Hi q' (list_elem_of_lookup_2 _ _ _ Hq')) as [? ?]; congruence.
Qed.
End queue.

(** ** Examples *)

(** A GET that comes between the binding of a service and its start, and then
    asks for its barrier before or after the service got available. *)
Definition sample_op : Operation (H := sample_types) := NewPost 0 Background (empty_URL <| u_Path := s2b "/core/x" |>) BNil.
Definition sample_bound (start : option (HandlerFunc (H := sample_types) (W := string))) : Conc (H := sample_types) :=
  bind_step (H := sample_types) true sample_error None sample_op (sample_svc start) (init_Conc "state"%string).
Definition sample_queued : Conc (H := sample_types) := arrive (H := sample_types) true sample_error (sample_get "/core/x") (sample_bound None).
Definition sample_request : queued (H := sample_types) :=
  {| qd_id := 0; qd_ctx := Background; qd_op := (inbound (H := sample_types) (sample_get "/core/x") "state"%string).2;
     qd_link := "/core/x"; qd_ch := None |}.
Definition sample_starting (p : pc) : starting (H := sample_types) :=
  {| sg_pc := p; sg_link := "/core/x"; sg_op := sample_op; sg_parent := None |}.

Abbreviation sample_step := (cstep (H := sample_types) true sample_error) (only parsing).
Lemma sample_binds start : sample_step (init_Conc "state"%string) (sample_bound start).
Proof. exact (c_bind (H := sample_types) true sample_error sample_op (sample_svc start) (init_Conc "state"%string) eq_refl). Qed.
Lemma sample_runs : rtc sample_step (init_Conc "state"%string) sample_queued.
Proof.
  eapply rtc_l; [exact (sample_binds None) |].
  apply rtc_once. exact (c_arrive (H := sample_types) true sample_error (sample_get "/core/x") (sample_bound None)).
Qed.
Lemma sample_queue : cc_queue sample_queued !! 0 = Some sample_request.
Proof. reflexivity. Qed.
Lemma sample_services start : services (cc_host (sample_bound start)) !! "/core/x"%string = Some (SetSelfLink "/core/x" (sample_svc start)).
Proof.
  change (cc_host (sample_bound start)) with (store "/core/x" (SetSelfLink "/core/x" (sample_svc start)) (NewServiceHost (H := sample_types) (W := string))).
  apply store_lookup.
Qed.
Lemma sample_is_bound : bound (H := sample_types) "/core/x" (Ctx (NewServiceContext (sample_service None))) 0%Z (cc_host sample_queued).
Proof. exists (SetSelfLink "/core/x" (sample_svc None)). split; [exact (sample_services None) | split; reflexivity]. Qed.

Lemma queue_reachable_witness :
  is_Some (services (cc_host sample_queued) !! "/core/x"%string) ∧ ¬ barrier_closed sample_request (cc_host sample_queued).
Proof.
  destruct (queue_reachable (H := sample_types) true sample_error "state"%string sample_queued sample_runs) as (_ & _ & _ & Hq).
  destruct (Hq sample_request) as [Hs Hiff]; [exact (list_elem_of_lookup_2 _ 0 _ sample_queue) |].
  split; [exact Hs |]. intros [Hne _]%Hiff. by apply Hne.
Defined.

Lemma services_reachable_witness :
  stage (svc_stages (SetSelfLink "/core/x" (sample_svc None))) = pc_stage SetInitialized.
Proof.
  destruct (services_reachable (H := sample_types) true sample_error "state"%string (sample_bound None) "/core/x" _
    (rtc_once _ _ (sample_binds None)) (sample_services None)) as [_ Hst].
  change (filter _ (cc_starting (sample_bound None))) with [sample_starting SetInitialized] in Hst. exact (proj1 Hst).
Defined.

Lemma queued_is_served_witness :
  ∃ c' r, rtc sample_step sample_queued c' ∧ cc_replies c' !! 0 = Some r.
Proof.
  destruct (queued_is_served (H := sample_types) true sample_error "state"%string sample_queued 0 sample_request
    (Ctx (NewServiceContext (sample_service None))) 0%Z sample_runs sample_queue) as (c' & r & Hr & Hm & _).
  - reflexivity.
  - exact sample_is_bound.
  - right. exists (sample_starting SetInitialized).
    split; [apply list_elem_of_here |]. split; [reflexivity |]. intros w. reflexivity.
  - exists c', r. split; [exact Hr | exact Hm].
Defined.

(** The start handler fails: its start is over. *)
Definition sample_failed1 : Conc (H := sample_types) := start_step (H := sample_types) true sample_error 0 (sample_starting SetInitialized) (sample_bound (Some failing)).
Definition sample_failed : Conc (H := sample_types) := start_step (H := sample_types) true sample_error 0 (sample_starting RunStart) sample_failed1.
Lemma sample_failed_runs : rtc sample_step (init_Conc "state"%string) sample_failed.
Proof.
  eapply rtc_l; [exact (sample_binds (Some failing)) |].
  eapply rtc_l; [exact (c_start (H := sample_types) true sample_error 0 (sample_starting SetInitialized) (sample_bound (Some failing)) eq_refl) |].
  apply rtc_once. exact (c_start (H := sample_types) true sample_error 0 (sample_starting RunStart) sample_failed1 eq_refl).
Qed.
Lemma sample_failed_stuck : stuck (H := sample_types) "/core/x" sample_failed.
Proof.
  split; [| intros g []%not_elem_of_nil].
  exists (svc_SetStage StageInitialized (SetSelfLink "/core/x" (sample_svc (Some failing)))).1. split; [| reflexivity].
  exact (store_lookup "/core/x" (svc_SetStage StageInitialized (SetSelfLink "/core/x" (sample_svc (Some failing)))).1 (cc_host (sample_bound (Some failing)))).
Qed.
Lemma failed_start_times_out_witness :
  ∃ q c' r, q ∈ cc_queue (arrive (H := sample_types) true sample_error (sample_get "/core//x/") sample_failed) ∧
    rtc sample_step (arrive (H := sample_types) true sample_error (sample_get "/core//x/") sample_failed) c' ∧
    cc_replies c' !! qd_id q = Some r ∧ rp_status r = 500%Z.
Proof.
  set (c1 := arrive (H := sample_types) true sample_error (sample_get "/core//x/") sample_failed).
  assert (rtc sample_step (init_Conc "state"%string) c1) as Hr1.
  { eapply rtc_r; [exact sample_failed_runs |]. apply c_arrive. }
  assert (rtc sample_step sample_failed c1) as Hr2 by (apply rtc_once, c_arrive).
  assert (request_link (sample_get "/core//x/") = "/core/x"%string) as Hl by (vm_compute; reflexivity).
  destruct (failed_start_times_out (H := sample_types) true sample_error _ _ _ sample_failed_runs sample_failed_stuck) as (Hstay & Harr & _).
  destruct (Harr _ Hl) as (q & Hq & Eid & Hql & Hn). destruct (Hstay _ Hr2) as [Hs1 _]. rewrite <- Eid in Hn.
  destruct (failed_start_times_out (H := sample_types) true sample_error _ _ _ Hr1 Hs1) as (_ & _ & Hend).
  specialize (Hend q c1 Hq Hql Hn (rtc_refl _ _)). change (cc_replies c1 !! qd_id q = None) in Hn. rewrite Hn in Hend. destruct Hend as (c2 & r & Hstep & Hrep & Hst & _).
  exists q, c2, r. split; [exact Hq |]. split; [apply rtc_once; exact Hstep |]. split; [exact Hrep | exact Hst].
Defined.
