(* ===== verification/Loopback.v ===== *)
(** A client and a host connected to each other: what [dcp/client] sends is what
    the handler of a service of [dcp/host] is called with, and what the handler
    leaves is what the client gets.

    The network in between, [net/http] on both ends, is a parameter: any instance of
    the client's interface [Network] that does, on a connection that does not
    break, what the documentation of [net/http] says ([unbroken]).  Of answers
    without a body (1xx, 204, 304) and of redirections (3xx), which the
    client of [net/http] treats in its own way, nothing is assumed. *)

From S2P Require Import Prelude GoPath GoNet GoJson GoURL DcpCommon DcpUri Operation Client Stage Host.
From Stdlib Require Import ZArith Lia.

Section loopback.
Context `{GoTypes} {W : Type} `{Env W} (error_ty : ty) (error_value : ServiceErrorResponse → den error_ty).
Implicit Types (h : ServiceHost (W := W)) (w : W).

(** ** The network *)

(** The path that the line of a request names. *)
Definition wire_path (u : URI) : bytes := if decide (u_Path u = []) then s2b "/" else u_Path u.
(** A request as the host's end has it.  Its line names the method, the path and
    the query; there always is a body to read, with the text that was sent; of
    the headers, the host reads the token. *)
Record arrives (req req' : HttpRequest) : Prop := {
  ar_method : rq_Method req' = rq_Method req;
  ar_path : u_Path (rq_URL req') = wire_path (rq_URL req);
  ar_query : u_RawQuery (rq_URL req') = u_RawQuery (rq_URL req);
  ar_token : Header_Get (rq_Header req') RequestAuthTokenHeader = Header_Get (rq_Header req) RequestAuthTokenHeader;
  ar_body : rq_Body req' = Some (default no_text (rq_Body req))
}.
(** Answers that carry a body and are no redirections. *)
Definition plain (status : Z) : Prop := (200 ≤ status < 300 ∧ status ≠ 204 ∨ 400 ≤ status < 600)%Z.

(** An attempt on a connection that does not break, to a host that serves the
    request at once: the client's context may be done first, before or after the
    request was served; otherwise a plain answer comes as the host wrote it. *)
Definition unbroken (net : Network (ServiceHost (W := W) * W)) : Prop :=
  ∀ req h w, ∃ req', arrives req req' ∧
    match Host.ServeHTTP error_ty error_value req' h w with
    | None => True
    | Some (rp, h', w') =>
        (∃ rest v, Do req (h, w) = (TimedOut, rest, v) ∧ (v = (h, w) ∨ v = (h', w'))) ∨
        (plain (rp_status rp) → ∃ r rest, Do req (h, w) = (Answered r, rest, (h', w')) ∧
           res_StatusCode r = rp_status rp ∧ res_Body r = Ok (default no_text (rp_body rp)))
    end.
Context `{net : !Network (ServiceHost (W := W) * W)} (Hnet : unbroken net).

(** ** The call *)

(** What the body of an operation is on the wire, and what the handler's
    operation starts out with. *)
Definition wire_body (op : Operation) : text :=
  match GetBody op with BNil => no_text | BReadCloser x | BBuffer x | BReader x => x | BValue t v => TJson (enc v) end.
Definition callee_context (op : Operation) : Context :=
  let token := GetAuthorizationToken (op_vars op) in
  if str_empty token then Background else SetAuthorizationToken Background token.
Record called (op : Operation) (u : URI) (callee : Operation) : Prop := {
  called_method : request_method callee = GetMethod op;
  called_query : ∃ req, GetRequest callee = Some req ∧ u_Path (rq_URL req) = wire_path u ∧ u_RawQuery (rq_URL req) = u_RawQuery u;
  called_body : GetBody callee = BReadCloser (wire_body op);
  called_open : op_result callee = None;
  called_started : op_started callee = true;
  called_read : st_err (op_state callee) = None;
  called_status : GetStatusCode callee = 0%Z
}.

Definition new_request (op : Operation) (u : URI) : HttpRequest :=
  let req := {| rq_Method := GetMethod op; rq_URL := u; rq_Header := [];
                rq_Body := match GetBody op with BNil => None | _ => Some (wire_body op) end |} in
  let req := match GetBody op with BNil => req | _ => with_header ContentType ApplicationJSON req end in
  let token := GetAuthorizationToken (op_vars op) in
  if str_empty token then req else with_header RequestAuthTokenHeader token req.

Lemma CreateRequest_fresh op u u' :
  st_httpRequest (op_state op) = None → GetURI op = Some u → url_Parse (URL_String u) = Ok u' →
  ∃ op', CreateRequest op = Ret (op', Ok (new_request op u')) ∧ op_result op' = op_result op ∧
  st_isStreamResponse (op_state op') = st_isStreamResponse (op_state op) ∧ st_err (op_state op') = st_err (op_state op).
Proof.
  intros Hr Hu Hp. unfold CreateRequest, new_request, wire_body. rewrite Hr. unfold EncodeBodyAsBuffer, EncodeBody, NewRequest. unfold GetURI, GetMethod in *.
  destruct (GetBody op) as [| x | x | x | t v]; cbn; rewrite Hu, Hp; cbn; by eexists.
Qed.

Lemma token_header op u : Header_Get (rq_Header (new_request op u)) RequestAuthTokenHeader = GetAuthorizationToken (op_vars op).
Proof.
  unfold new_request. destruct (str_empty (GetAuthorizationToken (op_vars op))) eqn:E.
  - apply String.eqb_eq in E. rewrite E. by destruct (GetBody op).
  - by destruct (GetBody op).
Qed.

Definition callee_of (req' : HttpRequest) w : Operation := Start (SetRequest req' (NewOperation (env_now w) Background)).

Lemma callee_called op u req' w : arrives (new_request op u) req' → called op u (callee_of req' w).
Proof.
  intros [Hm Hp Hq Ht Hb]. split.
  all: unfold callee_of, request_method.
  - change (rq_Method req' = GetMethod op). rewrite Hm. unfold new_request. by destruct (GetBody op), (str_empty _).
  - exists req'. split; [done |]. rewrite Hp, Hq. unfold new_request. by destruct (GetBody op), (str_empty _).
  - unfold SetRequest, GetBody at 1. destruct req' as [m u' hd b]. cbn in Hb |- *. subst b. cbn.
    unfold new_request, wire_body. by destruct (GetBody op), (str_empty _).
  - done.
  - done.
  - unfold SetRequest. by destruct req' as [m u' hd [b |]].
  - unfold SetRequest. by destruct req' as [m u' hd [b |]].
Qed.

(** Where the answer comes from. *)
Definition answer (callee : Operation) : Reply := respond error_ty error_value (expire (GetExpiration callee) callee).

Lemma ServeHTTP_calls op u req' c s f h w :
  arrives (new_request op u) req' →
  services h !! path_Clean (b2s (wire_path u)) = Some s → stage (svc_stages s) = StageAvailable → svc_impl s = Ctx c →
  handler_for c (GetMethod op) = Some f →
  Host.ServeHTTP error_ty error_value req' h w =
    Some (let '(callee, w') := f (callee_context op) (callee_of req' w) w in (answer callee, h, w')).
Proof.
  intros Ha Hs Hst Hi Hf. unfold Host.ServeHTTP. rewrite (ar_token _ _ Ha), token_header. fold (callee_context op).
  fold (callee_of req' w). unfold HandleRequest.
  pose proof (callee_called op u req' w Ha) as [Hm (req & Hreq & Hpath & _) _ _ _ _]. rewrite Hreq, Hpath, Hs, Hst, decide_False by done.
  unfold service_HandleRequest, service_begin. rewrite Hi. unfold sc_HandleRequest. rewrite Hm, Hf.
  by destruct (f _ _ w) as [callee w'].
Qed.

(** The status and the text of an operation that a handler is done with. *)
Definition status_of (op : Operation) : Z := if int_empty (GetStatusCode op) then 200%Z else GetStatusCode op.
Definition reply_text (op : Operation) : text := match (EncodeBody op).2 with Ok x => x | Err _ => no_text end.

Lemma answer_completed callee : op_result callee = Some None →
  rp_status (answer callee) = status_of callee ∧ default no_text (rp_body (answer callee)) = reply_text callee.
Proof.
  intros Hc. unfold answer. rewrite (expire_done _ _ _ Hc). unfold respond, Err_, reply_text. rewrite Hc. split; [done |].
  cbn [rp_body]. by destruct (EncodeBody callee) as [o [x | e]].
Qed.
Lemma answer_failed callee : op_result callee ≠ Some None → (op_result callee = None → op_started callee = true) →
  (400 ≤ rp_status (answer callee) < 600)%Z.
Proof.
  intros Hc Hs. unfold answer. assert (∃ e, op_result (expire (GetExpiration callee) callee) = Some (Some e)) as [e He].
  { destruct (op_result callee) as [[e |] |] eqn:E; [exists e; by rewrite (expire_done _ _ _ E) | done |].
    exists DeadlineExceeded. unfold expire, GetExpiration. rewrite decide_True by (split; [by apply Hs | lia]). unfold Fail_. by rewrite E. }
  unfold respond, Err_. rewrite He. destruct e; cbn; lia.
Qed.

(** An operation whose request gets an answer. *)
Lemma Send_attempt op u u' h w a rest v :
  st_httpRequest (op_state op) = None → op_result op = None → GetURI op = Some u → url_Parse (URL_String u) = Ok u' →
  Do (new_request op u') (h, w) = (a, rest, v) →
  match a with
  | TimedOut => ∃ op', Send op (h, w) = Some (Ret (op', v, [])) ∧ op_result op' = Some (Some DeadlineExceeded)
  | Answered r => ∃ op', Send op (h, w) = Some (Ret (op', v, [])) ∧
      if decide (200 ≤ res_StatusCode r < 400)%Z
      then ∀ x, res_Body r = Ok x → op_result op' = Some None ∧ GetBody op' = (if st_isStreamResponse (op_state op) then BReadCloser else BBuffer) x
      else ∃ msg, op_result op' = Some (Some (Errorf msg))
  | Broken _ => True
  end.
Proof.
  intros Hr Hop Hu Hp Hdo. destruct (CreateRequest_fresh op u u' Hr Hu Hp) as (op1 & Hc & Hop1 & Hstream & _).
  assert (op_result (Start op1) = None) as Hop2 by by rewrite <- Hop, <- Hop1.
  unfold Send. rewrite Hc. cbn [send_loop]. unfold doSend. rewrite Hdo. destruct a as [| r | e]; [| | done].
  - eexists. split; [done |]. unfold Fail_. by rewrite Hop2.
  - unfold responseToError. destruct (decide (200 ≤ res_StatusCode r < 400)%Z) as [Hok | Hok].
    + eexists. split; [done |]. intros x Hx. unfold SetResponse, Complete.
      change (st_isStreamResponse (op_state (on_state _ (Start op1)))) with (st_isStreamResponse (op_state op1)).
      rewrite Hstream, Hx. destruct (st_isStreamResponse (op_state op)); cbn; by rewrite Hop1, Hop.
    + eexists. split; [done |]. eexists. unfold Fail_. by rewrite Hop2.
Qed.

(** C14: sending an operation to a service that is available, over a connection
    that does not break.  Its handler is called with the method, path and query of the
    operation, a body that reads as the one that was sent, and the client's
    token.  Unless the client's own timer fires first, which fails the operation
    with "deadline exceeded" (the handler was called by then, or not), the handler is
    called exactly once, and the client's operation ends with its answer: it is
    completed, with the body the handler left, when the handler completed its
    operation with a status from 200 to 299 other than 204; it fails with a message when
    the handler failed, left another status from 400 to 599, or is never done, so that its
    timer answers.  Nothing is said of a handler that completes with 204 or a status
    from 300 to 399. *)
Theorem Send_calls op u u' c s f h w :
  st_httpRequest (op_state op) = None → op_result op = None → GetURI op = Some u → url_Parse (URL_String u) = Ok u' →
  services h !! path_Clean (b2s (wire_path u')) = Some s → stage (svc_stages s) = StageAvailable → svc_impl s = Ctx c →
  handler_for c (GetMethod op) = Some f →
  ∃ callee, called op u' callee ∧
  let '(callee, w') := f (callee_context op) callee w in
  (op_result callee = Some None → plain (status_of callee)) → (op_result callee = None → op_started callee = true) →
  ∃ op' v, Send op (h, w) = Some (Ret (op', v, [])) ∧
    (op_result op' = Some (Some DeadlineExceeded) ∧ (v = (h, w) ∨ v = (h, w')) ∨
     v = (h, w') ∧
     if decide (op_result callee = Some None ∧ status_of callee < 400)%Z
     then op_result op' = Some None ∧ GetBody op' = (if st_isStreamResponse (op_state op) then BReadCloser else BBuffer) (reply_text callee)
     else ∃ msg, op_result op' = Some (Some (Errorf msg))).
Proof.
  intros Hr Hop Hu Hp Hs Hst Hi Hf. destruct (Hnet (new_request op u') h w) as (req' & Ha & Hserve).
  rewrite (ServeHTTP_calls op u' req' c s f h w Ha Hs Hst Hi Hf) in Hserve.
  exists (callee_of req' w). split; [by apply callee_called |].
  destruct (f (callee_context op) (callee_of req' w) w) as [callee w']. intros Hplain Hstart.
  destruct Hserve as [(rest & v & Hdo & Hv) | Hserve].
  - destruct (Send_attempt op u u' h w _ _ _ Hr Hop Hu Hp Hdo) as (op' & Hsend & Hres). exists op', v. split; [done |]. by left.
  - assert (plain (rp_status (answer callee)) ∧
      (200 ≤ rp_status (answer callee) < 400 ↔ op_result callee = Some None ∧ status_of callee < 400)%Z) as [Hpl Hiff].
    { destruct (decide (op_result callee = Some None)) as [Hc | Hc].
      - destruct (answer_completed callee Hc) as [-> _]. split; [by apply Hplain |]. specialize (Hplain Hc). unfold plain in Hplain. intuition lia.
      - pose proof (answer_failed callee Hc Hstart). split; [by right |]. split; [lia | by intros [? _]]. }
    destruct (Hserve Hpl) as (r & rest & Hdo & Hcode & Hbody).
    destruct (Send_attempt op u u' h w _ _ _ Hr Hop Hu Hp Hdo) as (op' & Hsend & Hres). exists op', (h, w'). split; [done |]. right.
    split; [done |]. rewrite Hcode in Hres. case_decide as Hd.
    + apply Hiff in Hd. rewrite decide_True by done. destruct (answer_completed callee (proj1 Hd)) as [_ Ht]. rewrite <- Ht. by apply Hres.
    + by rewrite decide_False by by rewrite <- Hiff.
Qed.
End loopback.

(** ** Examples: a service whose state is a string, replaced by a PATCH that
    brings a token, and refused without one *)
Definition patch_state : HandlerFunc (H := sample_types) (W := string) := λ ctx op w,
  if str_empty (GetAuthorizationToken ctx) then (Fail_ ErrPermission op, w)
  else match DecodeBody (H := sample_types) op (t := true : @ty sample_types) w with
       | (op, v, None) => (Complete (H := sample_types) op, v)
       | (op, _, Some e) => (Fail_ (H := sample_types) e op, w)
       end.
Definition patch_service : ServiceContextHandler (H := sample_types) (W := string) :=
  {| h_ty := true : @ty sample_types; h_GetState := λ w, w; h_SetState := λ v _, v; h_Start := None;
     h_Get := None; h_Post := None; h_Patch := Some patch_state; h_Put := None; h_Delete := None |}.
Definition sample_URI : URI := empty_URL <| u_Scheme := s2b "http" |> <| u_Host := s2b "h:80" |> <| u_Path := s2b "/core/x" |>.
Definition patch_svc : Service (H := sample_types) (W := string) :=
  (svc_SetStage StageAvailable (new_Service (Ctx (NewServiceContext patch_service)))).1.
Definition patch_host : ServiceHost (H := sample_types) (W := string) := store "/core/x" patch_svc NewServiceHost.
Definition sample_patch (ctx : Context) : Operation (H := sample_types) :=
  NewPatch (H := sample_types) 0 ctx sample_URI (BValue (H := sample_types) (true : @ty sample_types) "new"%string).

(** A network that never times out. *)
Definition arriving (req : HttpRequest) : HttpRequest :=
  {| rq_Method := rq_Method req; rq_URL := (rq_URL req) <| u_Path := wire_path (rq_URL req) |>; rq_Header := rq_Header req;
     rq_Body := Some (default no_text (rq_Body req)) |}.
#[local] Instance plain_dec status : Decision (plain status).
Proof. unfold plain. apply _. Defined.
#[local] Instance sample_net : Network (ServiceHost (H := sample_types) (W := string) * string) :=
  {| Do := λ req '(h, w),
       match Host.ServeHTTP (H := sample_types) (true : @ty sample_types) sample_error (arriving req) h w with
       | Some (rp, h', w') =>
           if decide (plain (rp_status rp)) then
             (Answered {| res_StatusCode := rp_status rp; res_Status := fmt_d (rp_status rp); res_Header := rp_header rp;
                          res_Body := Ok (default no_text (rp_body rp)) |}, req, (h', w'))
           else (Broken (Errorf "not an answer of this example"), req, (h', w'))
       | None => (TimedOut, req, (h, w))
       end;
     json_text := λ _, [] |}.
Lemma sample_unbroken : unbroken (H := sample_types) (true : @ty sample_types) sample_error sample_net.
Proof.
  intros req h w. exists (arriving req). split; [by split |]. unfold Do, sample_net.
  destruct (Host.ServeHTTP _ _ _ h w) as [[[rp h'] w'] |]; [| done]. right. intros Hp. rewrite decide_True by done. by eexists _, _.
Qed.

Lemma sample_URI_parses : url_Parse (URL_String sample_URI) = Ok sample_URI.
Proof. vm_compute. reflexivity. Qed.
Lemma patch_bound : services patch_host !! path_Clean (b2s (wire_path sample_URI)) = Some patch_svc.
Proof. assert (path_Clean (b2s (wire_path sample_URI)) = "/core/x"%string) as -> by (vm_compute; reflexivity). apply lookup_insert_eq. Qed.

Lemma Send_calls_witness :
  match Send (H := sample_types) (sample_patch (SetAuthorizationToken Background "t")) (patch_host, "old"%string) with
  | Some (Ret (op, (_, w), ds)) => op_result op = Some None ∧ w = "new"%string ∧ ds = []
  | _ => False
  end ∧
  ∃ op' v, Send (H := sample_types) (sample_patch Background) (patch_host, "old"%string) = Some (Ret (op', v, [])) ∧ op_result op' ≠ Some None.
Proof.
  split; [vm_compute; done |].
  destruct (Send_calls (H := sample_types) (true : @ty sample_types) sample_error sample_unbroken (sample_patch Background)
    sample_URI sample_URI (NewServiceContext patch_service) patch_svc patch_state patch_host "old"%string
    eq_refl eq_refl eq_refl sample_URI_parses patch_bound eq_refl eq_refl eq_refl)
    as (callee & [_ _ _ Ho _ _ _] & Hsend).
  change (patch_state _ callee _) with (Fail_ (H := sample_types) ErrPermission callee, "old"%string) in Hsend.
  assert (op_result (Fail_ (H := sample_types) ErrPermission callee) = Some (Some ErrPermission)) as He by (unfold Fail_; rewrite Ho; reflexivity).
  cbn beta iota in Hsend. rewrite He in Hsend. destruct Hsend as (op' & v & E & Hres); [done | done |].
  exists op', v. split; [exact E |]. rewrite decide_False in Hres by (intros [E' _]; discriminate E').
  intros Hc. rewrite Hc in Hres. destruct Hres as [[E' _] | [_ [msg E']]]; discriminate E'.
Defined.
