(* ===== verification/ProvTypes.v ===== *)
(** Package [dcp/provisioning], its data: the documents of computes, disks,
    networks and pools, the requests of the adapters, and the states of their
    tasks, each with its JSON form; the paths and the names of states.

    A [uri.URI] wraps a pointer and is an [option URI]; a floating point field is
    a [float64]. *)

From S2P Require Import Prelude GoPath GoJson GoURL DcpCommon DcpUri.
From Stdlib Require Import ZArith Lia.

(** ** Error responses and task states, as JSON *)
#[export] Instance eta_ServiceErrorResponse : Eta ServiceErrorResponse := λ r,
  {| ser_Message := ser_Message r; ser_StackTrace := ser_StackTrace r; ser_StatusCode := ser_StatusCode r |}.
#[export] Instance zero_ServiceErrorResponse : Zero ServiceErrorResponse :=
  {| ser_Message := ""; ser_StackTrace := []; ser_StatusCode := 0 |}.
Definition ServiceErrorResponse_fields : list (field ServiceErrorResponse) :=
  [ str_field "message" ser_Message (λ x r, r <| ser_Message := x |>);
    strs_field "stackTrace" ser_StackTrace (λ x r, r <| ser_StackTrace := x |>);
    int_field "statusCode" ser_StatusCode (λ x r, r <| ser_StatusCode := x |>) ].
#[export] Instance json_ServiceErrorResponse : Json ServiceErrorResponse :=
  {| enc := enc_struct ServiceErrorResponse_fields; dec := dec_struct "common.ServiceErrorResponse" ServiceErrorResponse_fields |}.

#[export] Instance zero_TaskState : Zero TaskState := NewTaskState.
Definition TaskState_fields : list (field TaskState) :=
  [ str_field "stage" ts_Stage (λ x t, t <| ts_Stage := x |>);
    omitempty "isDirect" ts_Direct (λ x t, t <| ts_Direct := x |>) negb enc dec;
    omitempty "failure" ts_Failure (λ x t, t <| ts_Failure := x |>) ptr_empty (enc_ptr enc) (dec_ptr dec) ].
#[export] Instance json_TaskState : Json TaskState :=
  {| enc := enc_struct TaskState_fields; dec := dec_struct "common.TaskState" TaskState_fields |}.

(** ** Computes *)
(* @dcp/provisioning/compute_state.go:6-14 FieldNameParentLink *)
Definition FieldNameParentLink : string := "parentLink".
Definition FieldNameID : string := "id".
(* @dcp/provisioning/compute_state.go:17-20 PowerStateOn *)
Definition PowerStateOn : string := "ON".
Definition PowerStateOff : string := "OFF".
Definition PowerStateUnknown : string := "UNKNOWN".
Definition PowerStateSuspend : string := "SUSPEND".
(* @dcp/provisioning/compute_state.go:24-25 PowerTransitionSoft *)
Definition PowerTransitionSoft : string := "SOFT".
Definition PowerTransitionHard : string := "HARD".
(* @dcp/provisioning/compute_state.go:36-36 CustomPropertyNameRuntimeInfo *)
Definition CustomPropertyNameRuntimeInfo : string := "runtimeInfo".
(* @dcp/provisioning/compute_state.go:29-32 BootDeviceNetwork *)
Definition BootDeviceNetwork : string := "NETWORK".
Definition BootDeviceCdrom : string := "CDROM".
Definition BootDeviceFloppy : string := "FLOPPY".
Definition BootDeviceDisk : string := "DISK".

(* @dcp/provisioning/compute_state.go:47-62 ComputeState *)
Record ComputeState := {
  cs_ServiceDocument : ServiceDocument;
  cs_ID : string;
  cs_DescriptionLink : string;
  cs_ResourcePoolLink : string;
  cs_Address : string;
  cs_PrimaryMAC : string;
  cs_PowerState : string;
  cs_ParentLink : string;
  cs_AdapterManagementReference : string;
  cs_DiskLinks : list string;
  cs_NetworkLinks : list string;
  cs_CustomProperties : gmap string string;
  cs_TenantLinks : list string
}.
#[export] Instance eta_ComputeState : Eta ComputeState := λ c,
  {| cs_ServiceDocument := cs_ServiceDocument c; cs_ID := cs_ID c;
     cs_DescriptionLink := cs_DescriptionLink c; cs_ResourcePoolLink := cs_ResourcePoolLink c;
     cs_Address := cs_Address c; cs_PrimaryMAC := cs_PrimaryMAC c; cs_PowerState := cs_PowerState c;
     cs_ParentLink := cs_ParentLink c;
     cs_AdapterManagementReference := cs_AdapterManagementReference c;
     cs_DiskLinks := cs_DiskLinks c; cs_NetworkLinks := cs_NetworkLinks c;
     cs_CustomProperties := cs_CustomProperties c; cs_TenantLinks := cs_TenantLinks c |}.
#[export] Instance zero_ComputeState : Zero ComputeState :=
  {| cs_ServiceDocument := zero; cs_ID := ""; cs_DescriptionLink := ""; cs_ResourcePoolLink := "";
     cs_Address := ""; cs_PrimaryMAC := ""; cs_PowerState := ""; cs_ParentLink := "";
     cs_AdapterManagementReference := ""; cs_DiskLinks := []; cs_NetworkLinks := [];
     cs_CustomProperties := ∅; cs_TenantLinks := [] |}.
Definition ComputeState_fields : list (field ComputeState) :=
  (embed cs_ServiceDocument (λ x c, c <| cs_ServiceDocument := x |>) <$> ServiceDocument_fields)
  ++ [ str_field "id" cs_ID (λ x c, c <| cs_ID := x |>);
       str_field "descriptionLink" cs_DescriptionLink (λ x c, c <| cs_DescriptionLink := x |>);
       str_field "resourcePoolLink" cs_ResourcePoolLink (λ x c, c <| cs_ResourcePoolLink := x |>);
       str_field "address" cs_Address (λ x c, c <| cs_Address := x |>);
       str_field "primaryMAC" cs_PrimaryMAC (λ x c, c <| cs_PrimaryMAC := x |>);
       plain "powerState" cs_PowerState (λ x c, c <| cs_PowerState := x |>) enc dec;
       str_field "parentLink" cs_ParentLink (λ x c, c <| cs_ParentLink := x |>);
       str_field "adapterManagementReference" cs_AdapterManagementReference (λ x c, c <| cs_AdapterManagementReference := x |>);
       strs_field "diskLinks" cs_DiskLinks (λ x c, c <| cs_DiskLinks := x |>);
       strs_field "networkLinks" cs_NetworkLinks (λ x c, c <| cs_NetworkLinks := x |>);
       map_field "customProperties" cs_CustomProperties (λ x c, c <| cs_CustomProperties := x |>);
       strs_field "tenantLinks" cs_TenantLinks (λ x c, c <| cs_TenantLinks := x |>) ].
#[export] Instance json_ComputeState : Json ComputeState :=
  {| enc := enc_struct ComputeState_fields; dec := dec_struct "provisioning.ComputeState" ComputeState_fields |}.

(* @dcp/provisioning/compute_state.go:64-86 ComputeDescription *)
Record ComputeDescription := {
  cd_ServiceDocument : ServiceDocument;
  cd_ID : string;
  cd_Name : string;
  cd_SupportedChildren : list string;
  cd_CPUCount : Z;
  cd_CPUMhzPerCore : Z;
  cd_TotalMemoryBytes : Z;
  cd_PowerAdapterReference : string;
  cd_BootAdapterReference : string;
  cd_HealthAdapterReference : string;
  cd_EnumerationAdapterReference : string;
  cd_InstanceAdapterReference : string;
  cd_AuthCredentialsLink : string;
  cd_EnvironmentName : string;
  cd_DataCenterID : string;
  cd_DataStoreID : string;
  cd_NetworkID : string;
  cd_RegionID : string;
  cd_ZoneID : string;
  cd_TenantLinks : list string
}.
#[export] Instance eta_ComputeDescription : Eta ComputeDescription := λ c,
  {| cd_ServiceDocument := cd_ServiceDocument c; cd_ID := cd_ID c; cd_Name := cd_Name c;
     cd_SupportedChildren := cd_SupportedChildren c; cd_CPUCount := cd_CPUCount c;
     cd_CPUMhzPerCore := cd_CPUMhzPerCore c; cd_TotalMemoryBytes := cd_TotalMemoryBytes c;
     cd_PowerAdapterReference := cd_PowerAdapterReference c;
     cd_BootAdapterReference := cd_BootAdapterReference c;
     cd_HealthAdapterReference := cd_HealthAdapterReference c;
     cd_EnumerationAdapterReference := cd_EnumerationAdapterReference c;
     cd_InstanceAdapterReference := cd_InstanceAdapterReference c;
     cd_AuthCredentialsLink := cd_AuthCredentialsLink c; cd_EnvironmentName := cd_EnvironmentName c;
     cd_DataCenterID := cd_DataCenterID c; cd_DataStoreID := cd_DataStoreID c;
     cd_NetworkID := cd_NetworkID c; cd_RegionID := cd_RegionID c; cd_ZoneID := cd_ZoneID c;
     cd_TenantLinks := cd_TenantLinks c |}.
#[export] Instance zero_ComputeDescription : Zero ComputeDescription :=
  {| cd_ServiceDocument := zero; cd_ID := ""; cd_Name := ""; cd_SupportedChildren := [];
     cd_CPUCount := 0%Z; cd_CPUMhzPerCore := 0%Z; cd_TotalMemoryBytes := 0%Z;
     cd_PowerAdapterReference := ""; cd_BootAdapterReference := ""; cd_HealthAdapterReference := "";
     cd_EnumerationAdapterReference := ""; cd_InstanceAdapterReference := "";
     cd_AuthCredentialsLink := ""; cd_EnvironmentName := ""; cd_DataCenterID := "";
     cd_DataStoreID := ""; cd_NetworkID := ""; cd_RegionID := ""; cd_ZoneID := "";
     cd_TenantLinks := [] |}.
Definition ComputeDescription_fields : list (field ComputeDescription) :=
  (embed cd_ServiceDocument (λ x c, c <| cd_ServiceDocument := x |>) <$> ServiceDocument_fields)
  ++ [ str_field "id" cd_ID (λ x c, c <| cd_ID := x |>);
       str_field "name" cd_Name (λ x c, c <| cd_Name := x |>);
       plain "supportedChildren" cd_SupportedChildren (λ x c, c <| cd_SupportedChildren := x |>) (enc_list JStr) (dec_list "[]string" dec_string);
       plain "cpuCount" cd_CPUCount (λ x c, c <| cd_CPUCount := x |>) JNum dec_int64;
       plain "cpuMhzPerCore" cd_CPUMhzPerCore (λ x c, c <| cd_CPUMhzPerCore := x |>) JNum dec_int64;
       plain "totalMemoryBytes" cd_TotalMemoryBytes (λ x c, c <| cd_TotalMemoryBytes := x |>) JNum dec_int64;
       str_field "powerAdapterReference" cd_PowerAdapterReference (λ x c, c <| cd_PowerAdapterReference := x |>);
       str_field "bootAdapterReference" cd_BootAdapterReference (λ x c, c <| cd_BootAdapterReference := x |>);
       str_field "healthAdapterReference" cd_HealthAdapterReference (λ x c, c <| cd_HealthAdapterReference := x |>);
       str_field "enumerationAdapterReference" cd_EnumerationAdapterReference (λ x c, c <| cd_EnumerationAdapterReference := x |>);
       str_field "instanceAdapterReference" cd_InstanceAdapterReference (λ x c, c <| cd_InstanceAdapterReference := x |>);
       str_field "authCredentialsLink" cd_AuthCredentialsLink (λ x c, c <| cd_AuthCredentialsLink := x |>);
       str_field "environmentName" cd_EnvironmentName (λ x c, c <| cd_EnvironmentName := x |>);
       str_field "dataCenterId" cd_DataCenterID (λ x c, c <| cd_DataCenterID := x |>);
       str_field "dataStoreId" cd_DataStoreID (λ x c, c <| cd_DataStoreID := x |>);
       str_field "networkId" cd_NetworkID (λ x c, c <| cd_NetworkID := x |>);
       str_field "regionId" cd_RegionID (λ x c, c <| cd_RegionID := x |>);
       str_field "zoneId" cd_ZoneID (λ x c, c <| cd_ZoneID := x |>);
       strs_field "tenantLinks" cd_TenantLinks (λ x c, c <| cd_TenantLinks := x |>) ].
#[export] Instance json_ComputeDescription : Json ComputeDescription :=
  {| enc := enc_struct ComputeDescription_fields; dec := dec_struct "provisioning.ComputeDescription" ComputeDescription_fields |}.

(* @dcp/provisioning/compute_state.go:88-92 ComputeStateWithDescription *)
Record ComputeStateWithDescription := {
  csd_ComputeState : ComputeState;
  csd_Description : ComputeDescription
}.
#[export] Instance eta_ComputeStateWithDescription : Eta ComputeStateWithDescription := λ c,
  {| csd_ComputeState := csd_ComputeState c; csd_Description := csd_Description c |}.
#[export] Instance zero_ComputeStateWithDescription : Zero ComputeStateWithDescription :=
  {| csd_ComputeState := zero; csd_Description := zero |}.
Definition ComputeStateWithDescription_fields : list (field ComputeStateWithDescription) :=
  (embed csd_ComputeState (λ x c, c <| csd_ComputeState := x |>) <$> ComputeState_fields)
  ++ [ plain "description" csd_Description (λ x c, c <| csd_Description := x |>) enc dec ].
#[export] Instance json_ComputeStateWithDescription : Json ComputeStateWithDescription :=
  {| enc := enc_struct ComputeStateWithDescription_fields; dec := dec_struct "provisioning.ComputeStateWithDescription" ComputeStateWithDescription_fields |}.

(** ** Disks *)
(* @dcp/provisioning/disk_state.go:65-69 FileEntry *)
Record FileEntry := {
  fe_Path : string;
  fe_Contents : string;
  fe_ContentsReference : string
}.
#[export] Instance eta_FileEntry : Eta FileEntry := λ f,
  {| fe_Path := fe_Path f; fe_Contents := fe_Contents f;
     fe_ContentsReference := fe_ContentsReference f |}.
#[export] Instance zero_FileEntry : Zero FileEntry :=
  {| fe_Path := ""; fe_Contents := ""; fe_ContentsReference := "" |}.
Definition FileEntry_fields : list (field FileEntry) :=
  [ str_field "path" fe_Path (λ x f, f <| fe_Path := x |>);
       str_field "contents" fe_Contents (λ x f, f <| fe_Contents := x |>);
       str_field "contentsReference" fe_ContentsReference (λ x f, f <| fe_ContentsReference := x |>) ].
#[export] Instance json_FileEntry : Json FileEntry :=
  {| enc := enc_struct FileEntry_fields; dec := dec_struct "provisioning.FileEntry" FileEntry_fields |}.

(* @dcp/provisioning/disk_state.go:59-63 BootConfig *)
Record BootConfig := {
  bc_Label : string;
  bc_Data : gmap string string;
  bc_Files : list FileEntry
}.
#[export] Instance eta_BootConfig : Eta BootConfig := λ b,
  {| bc_Label := bc_Label b; bc_Data := bc_Data b; bc_Files := bc_Files b |}.
#[export] Instance zero_BootConfig : Zero BootConfig :=
  {| bc_Label := ""; bc_Data := ∅; bc_Files := [] |}.
Definition BootConfig_fields : list (field BootConfig) :=
  [ str_field "label" bc_Label (λ x b, b <| bc_Label := x |>);
       map_field "data" bc_Data (λ x b, b <| bc_Data := x |>);
       omitempty "files" bc_Files (λ x b, b <| bc_Files := x |>) list_empty (enc_list enc) (dec_list "[]FileEntry" dec) ].
#[export] Instance json_BootConfig : Json BootConfig :=
  {| enc := enc_struct BootConfig_fields; dec := dec_struct "provisioning.BootConfig" BootConfig_fields |}.

(* @dcp/provisioning/disk_state.go:14-22 DiskTypeSSD *)
Definition DiskTypeSSD : string := "SSD".
Definition DiskTypeHDD : string := "HDD".
Definition DiskTypeCdrom : string := "CDROM".
Definition DiskTypeFloppy : string := "FLOPPY".
Definition DiskTypeNetwork : string := "NETWORK".
(* @dcp/provisioning/disk_state.go:25-26 DiskStatusDetached *)
Definition DiskStatusDetached : string := "DETACHED".
Definition DiskStatusAttached : string := "ATTACHED".

(* @dcp/provisioning/disk_state.go:34-57 DiskState *)
Record DiskState := {
  disk_ServiceDocument : ServiceDocument;
  disk_ID : string;
  disk_ZoneID : string;
  disk_DataCenterID : string;
  disk_ResourcePoolLink : string;
  disk_AuthCredentialsLink : string;
  disk_SourceImageReference : string;
  disk_DiskType : string;
  disk_Name : string;
  disk_DiskStatus : string;
  disk_CapacityMBytes : Z;
  disk_BootOrder : Z;
  disk_BootArguments : list string;
  disk_BootConfig : option BootConfig;
  disk_CustomizationServiceReference : string;
  disk_CostPerByte : float64;
  disk_CurrencyUnit : string;
  disk_CustomProperties : gmap string string
}.
#[export] Instance eta_DiskState : Eta DiskState := λ d,
  {| disk_ServiceDocument := disk_ServiceDocument d; disk_ID := disk_ID d;
     disk_ZoneID := disk_ZoneID d; disk_DataCenterID := disk_DataCenterID d;
     disk_ResourcePoolLink := disk_ResourcePoolLink d;
     disk_AuthCredentialsLink := disk_AuthCredentialsLink d;
     disk_SourceImageReference := disk_SourceImageReference d; disk_DiskType := disk_DiskType d;
     disk_Name := disk_Name d; disk_DiskStatus := disk_DiskStatus d;
     disk_CapacityMBytes := disk_CapacityMBytes d; disk_BootOrder := disk_BootOrder d;
     disk_BootArguments := disk_BootArguments d; disk_BootConfig := disk_BootConfig d;
     disk_CustomizationServiceReference := disk_CustomizationServiceReference d;
     disk_CostPerByte := disk_CostPerByte d; disk_CurrencyUnit := disk_CurrencyUnit d;
     disk_CustomProperties := disk_CustomProperties d |}.
#[export] Instance zero_DiskState : Zero DiskState :=
  {| disk_ServiceDocument := zero; disk_ID := ""; disk_ZoneID := ""; disk_DataCenterID := "";
     disk_ResourcePoolLink := ""; disk_AuthCredentialsLink := ""; disk_SourceImageReference := "";
     disk_DiskType := ""; disk_Name := ""; disk_DiskStatus := ""; disk_CapacityMBytes := 0%Z;
     disk_BootOrder := 0%Z; disk_BootArguments := []; disk_BootConfig := None;
     disk_CustomizationServiceReference := ""; disk_CostPerByte := zero; disk_CurrencyUnit := "";
     disk_CustomProperties := ∅ |}.
Definition DiskState_fields : list (field DiskState) :=
  (embed disk_ServiceDocument (λ x d, d <| disk_ServiceDocument := x |>) <$> ServiceDocument_fields)
  ++ [ str_field "id" disk_ID (λ x d, d <| disk_ID := x |>);
       str_field "zoneId" disk_ZoneID (λ x d, d <| disk_ZoneID := x |>);
       str_field "dataCenterId" disk_DataCenterID (λ x d, d <| disk_DataCenterID := x |>);
       str_field "resourcePoolLink" disk_ResourcePoolLink (λ x d, d <| disk_ResourcePoolLink := x |>);
       str_field "authCredentialsLink" disk_AuthCredentialsLink (λ x d, d <| disk_AuthCredentialsLink := x |>);
       str_field "sourceImageReference" disk_SourceImageReference (λ x d, d <| disk_SourceImageReference := x |>);
       str_field "type" disk_DiskType (λ x d, d <| disk_DiskType := x |>);
       str_field "name" disk_Name (λ x d, d <| disk_Name := x |>);
       str_field "status" disk_DiskStatus (λ x d, d <| disk_DiskStatus := x |>);
       int_field "capacityMBytes" disk_CapacityMBytes (λ x d, d <| disk_CapacityMBytes := x |>);
       int_field "bootOrder" disk_BootOrder (λ x d, d <| disk_BootOrder := x |>);
       strs_field "bootArguments" disk_BootArguments (λ x d, d <| disk_BootArguments := x |>);
       omitempty "bootConfig" disk_BootConfig (λ x d, d <| disk_BootConfig := x |>) ptr_empty (enc_ptr enc) (dec_ptr dec);
       str_field "customizationServiceReference" disk_CustomizationServiceReference (λ x d, d <| disk_CustomizationServiceReference := x |>);
       omitempty "costPerByte" disk_CostPerByte (λ x d, d <| disk_CostPerByte := x |>) float64_empty enc_float64 dec_float64;
       str_field "currencyUnit" disk_CurrencyUnit (λ x d, d <| disk_CurrencyUnit := x |>);
       map_field "customProperties" disk_CustomProperties (λ x d, d <| disk_CustomProperties := x |>) ].
#[export] Instance json_DiskState : Json DiskState :=
  {| enc := enc_struct DiskState_fields; dec := dec_struct "provisioning.DiskState" DiskState_fields |}.

(* @dcp/provisioning/disk_customization_request.go:5-8 DiskCustomizationRequest *)
Record DiskCustomizationRequest := {
  dcr_ComputeReference : option URI;
  dcr_DiskReference : option URI
}.
#[export] Instance eta_DiskCustomizationRequest : Eta DiskCustomizationRequest := λ d,
  {| dcr_ComputeReference := dcr_ComputeReference d; dcr_DiskReference := dcr_DiskReference d |}.
#[export] Instance zero_DiskCustomizationRequest : Zero DiskCustomizationRequest :=
  {| dcr_ComputeReference := None; dcr_DiskReference := None |}.
Definition DiskCustomizationRequest_fields : list (field DiskCustomizationRequest) :=
  [ plain "computeReference" dcr_ComputeReference (λ x d, d <| dcr_ComputeReference := x |>) enc dec;
       plain "diskReference" dcr_DiskReference (λ x d, d <| dcr_DiskReference := x |>) enc dec ].
#[export] Instance json_DiskCustomizationRequest : Json DiskCustomizationRequest :=
  {| enc := enc_struct DiskCustomizationRequest_fields; dec := dec_struct "provisioning.DiskCustomizationRequest" DiskCustomizationRequest_fields |}.

(** ** Pools, networks, snapshots, firewalls *)
(* @dcp/provisioning/resource_pool.go:17-33 ResourcePoolState *)
Record ResourcePoolState := {
  rp_ServiceDocument : ServiceDocument;
  rp_ID : string;
  rp_Name : string;
  rp_ProjectName : string;
  rp_Properties : list string;
  rp_MinCPUCount : Z;
  rp_MaxCPUCount : Z;
  rp_MinGpuCount : Z;
  rp_MaxGpuCount : Z;
  rp_MinMemoryBytes : Z;
  rp_MaxMemoryBytes : Z;
  rp_MinDiskCapacityBytes : Z;
  rp_MaxDiskCapacityBytes : Z;
  rp_CustomProperties : gmap string string
}.
#[export] Instance eta_ResourcePoolState : Eta ResourcePoolState := λ r,
  {| rp_ServiceDocument := rp_ServiceDocument r; rp_ID := rp_ID r; rp_Name := rp_Name r;
     rp_ProjectName := rp_ProjectName r; rp_Properties := rp_Properties r;
     rp_MinCPUCount := rp_MinCPUCount r; rp_MaxCPUCount := rp_MaxCPUCount r;
     rp_MinGpuCount := rp_MinGpuCount r; rp_MaxGpuCount := rp_MaxGpuCount r;
     rp_MinMemoryBytes := rp_MinMemoryBytes r; rp_MaxMemoryBytes := rp_MaxMemoryBytes r;
     rp_MinDiskCapacityBytes := rp_MinDiskCapacityBytes r;
     rp_MaxDiskCapacityBytes := rp_MaxDiskCapacityBytes r;
     rp_CustomProperties := rp_CustomProperties r |}.
#[export] Instance zero_ResourcePoolState : Zero ResourcePoolState :=
  {| rp_ServiceDocument := zero; rp_ID := ""; rp_Name := ""; rp_ProjectName := "";
     rp_Properties := []; rp_MinCPUCount := 0%Z; rp_MaxCPUCount := 0%Z; rp_MinGpuCount := 0%Z;
     rp_MaxGpuCount := 0%Z; rp_MinMemoryBytes := 0%Z; rp_MaxMemoryBytes := 0%Z;
     rp_MinDiskCapacityBytes := 0%Z; rp_MaxDiskCapacityBytes := 0%Z; rp_CustomProperties := ∅ |}.
Definition ResourcePoolState_fields : list (field ResourcePoolState) :=
  (embed rp_ServiceDocument (λ x r, r <| rp_ServiceDocument := x |>) <$> ServiceDocument_fields)
  ++ [ str_field "id" rp_ID (λ x r, r <| rp_ID := x |>);
       str_field "name" rp_Name (λ x r, r <| rp_Name := x |>);
       str_field "projectName" rp_ProjectName (λ x r, r <| rp_ProjectName := x |>);
       strs_field "properties" rp_Properties (λ x r, r <| rp_Properties := x |>);
       int_field "minCpuCount" rp_MinCPUCount (λ x r, r <| rp_MinCPUCount := x |>);
       int_field "maxCpuCount" rp_MaxCPUCount (λ x r, r <| rp_MaxCPUCount := x |>);
       int_field "minGpuCount" rp_MinGpuCount (λ x r, r <| rp_MinGpuCount := x |>);
       int_field "maxGpuCount" rp_MaxGpuCount (λ x r, r <| rp_MaxGpuCount := x |>);
       int_field "minMemoryBytes" rp_MinMemoryBytes (λ x r, r <| rp_MinMemoryBytes := x |>);
       int_field "maxMemoryBytes" rp_MaxMemoryBytes (λ x r, r <| rp_MaxMemoryBytes := x |>);
       int_field "minDiskCapacityBytes" rp_MinDiskCapacityBytes (λ x r, r <| rp_MinDiskCapacityBytes := x |>);
       int_field "maxDiskCapacityBytes" rp_MaxDiskCapacityBytes (λ x r, r <| rp_MaxDiskCapacityBytes := x |>);
       map_field "customProperties" rp_CustomProperties (λ x r, r <| rp_CustomProperties := x |>) ].
#[export] Instance json_ResourcePoolState : Json ResourcePoolState :=
  {| enc := enc_struct ResourcePoolState_fields; dec := dec_struct "provisioning.ResourcePoolState" ResourcePoolState_fields |}.

(* @dcp/provisioning/network_interface_state.go:13-21 NetworkInterfaceState *)
Record NetworkInterfaceState := {
  ni_ServiceDocument : ServiceDocument;
  ni_ID : string;
  ni_NetworkDescriptionLink : string;
  ni_LeaseLink : string;
  ni_Address : string;
  ni_NetworkBridgeLink : string
}.
#[export] Instance eta_NetworkInterfaceState : Eta NetworkInterfaceState := λ n,
  {| ni_ServiceDocument := ni_ServiceDocument n; ni_ID := ni_ID n;
     ni_NetworkDescriptionLink := ni_NetworkDescriptionLink n; ni_LeaseLink := ni_LeaseLink n;
     ni_Address := ni_Address n; ni_NetworkBridgeLink := ni_NetworkBridgeLink n |}.
#[export] Instance zero_NetworkInterfaceState : Zero NetworkInterfaceState :=
  {| ni_ServiceDocument := zero; ni_ID := ""; ni_NetworkDescriptionLink := ""; ni_LeaseLink := "";
     ni_Address := ""; ni_NetworkBridgeLink := "" |}.
Definition NetworkInterfaceState_fields : list (field NetworkInterfaceState) :=
  (embed ni_ServiceDocument (λ x n, n <| ni_ServiceDocument := x |>) <$> ServiceDocument_fields)
  ++ [ str_field "id" ni_ID (λ x n, n <| ni_ID := x |>);
       str_field "networkDescriptionLink" ni_NetworkDescriptionLink (λ x n, n <| ni_NetworkDescriptionLink := x |>);
       str_field "leaseLink" ni_LeaseLink (λ x n, n <| ni_LeaseLink := x |>);
       str_field "address" ni_Address (λ x n, n <| ni_Address := x |>);
       str_field "networkBridgeLink" ni_NetworkBridgeLink (λ x n, n <| ni_NetworkBridgeLink := x |>) ].
#[export] Instance json_NetworkInterfaceState : Json NetworkInterfaceState :=
  {| enc := enc_struct NetworkInterfaceState_fields; dec := dec_struct "provisioning.NetworkInterfaceState" NetworkInterfaceState_fields |}.

(* @dcp/provisioning/network_bridge_state.go:12-18 NetworkBridgeState *)
Record NetworkBridgeState := {
  nb_ServiceDocument : ServiceDocument;
  nb_NetworkDescriptionLink : string;
  nb_ResourcePoolLink : string;
  nb_BridgePeerAddresses : list string
}.
#[export] Instance eta_NetworkBridgeState : Eta NetworkBridgeState := λ n,
  {| nb_ServiceDocument := nb_ServiceDocument n;
     nb_NetworkDescriptionLink := nb_NetworkDescriptionLink n;
     nb_ResourcePoolLink := nb_ResourcePoolLink n; nb_BridgePeerAddresses := nb_BridgePeerAddresses n |}.
#[export] Instance zero_NetworkBridgeState : Zero NetworkBridgeState :=
  {| nb_ServiceDocument := zero; nb_NetworkDescriptionLink := ""; nb_ResourcePoolLink := "";
     nb_BridgePeerAddresses := [] |}.
Definition NetworkBridgeState_fields : list (field NetworkBridgeState) :=
  (embed nb_ServiceDocument (λ x n, n <| nb_ServiceDocument := x |>) <$> ServiceDocument_fields)
  ++ [ str_field "networkDescriptionLink" nb_NetworkDescriptionLink (λ x n, n <| nb_NetworkDescriptionLink := x |>);
       str_field "resourcePoolLink" nb_ResourcePoolLink (λ x n, n <| nb_ResourcePoolLink := x |>);
       plain "bridgePeerAddresses" nb_BridgePeerAddresses (λ x n, n <| nb_BridgePeerAddresses := x |>) (enc_list JStr) (dec_list "[]string" dec_string) ].
#[export] Instance json_NetworkBridgeState : Json NetworkBridgeState :=
  {| enc := enc_struct NetworkBridgeState_fields; dec := dec_struct "provisioning.NetworkBridgeState" NetworkBridgeState_fields |}.

(* @dcp/provisioning/network_bridge_description.go:11-14 NetworkBridgeDescription *)
Record NetworkBridgeDescription := {
  nbd_NetworkInstanceAdapterReference : option URI;
  nbd_ID : string
}.
#[export] Instance eta_NetworkBridgeDescription : Eta NetworkBridgeDescription := λ n,
  {| nbd_NetworkInstanceAdapterReference := nbd_NetworkInstanceAdapterReference n; nbd_ID := nbd_ID n |}.
#[export] Instance zero_NetworkBridgeDescription : Zero NetworkBridgeDescription :=
  {| nbd_NetworkInstanceAdapterReference := None; nbd_ID := "" |}.
Definition NetworkBridgeDescription_fields : list (field NetworkBridgeDescription) :=
  [ plain "networkInstanceAdapterReference" nbd_NetworkInstanceAdapterReference (λ x n, n <| nbd_NetworkInstanceAdapterReference := x |>) enc dec;
       plain "id" nbd_ID (λ x n, n <| nbd_ID := x |>) enc dec ].
#[export] Instance json_NetworkBridgeDescription : Json NetworkBridgeDescription :=
  {| enc := enc_struct NetworkBridgeDescription_fields; dec := dec_struct "provisioning.NetworkBridgeDescription" NetworkBridgeDescription_fields |}.

(* @dcp/provisioning/network_state.go:7-15 NetworkState *)
Record NetworkState := {
  nst_ServiceDocument : ServiceDocument;
  nst_ID : string;
  nst_Name : string;
  nst_SubnetCIDR : string;
  nst_CustomProperties : gmap string string;
  nst_TenantLinks : list string
}.
#[export] Instance eta_NetworkState : Eta NetworkState := λ n,
  {| nst_ServiceDocument := nst_ServiceDocument n; nst_ID := nst_ID n; nst_Name := nst_Name n;
     nst_SubnetCIDR := nst_SubnetCIDR n; nst_CustomProperties := nst_CustomProperties n;
     nst_TenantLinks := nst_TenantLinks n |}.
#[export] Instance zero_NetworkState : Zero NetworkState :=
  {| nst_ServiceDocument := zero; nst_ID := ""; nst_Name := ""; nst_SubnetCIDR := "";
     nst_CustomProperties := ∅; nst_TenantLinks := [] |}.
Definition NetworkState_fields : list (field NetworkState) :=
  (embed nst_ServiceDocument (λ x n, n <| nst_ServiceDocument := x |>) <$> ServiceDocument_fields)
  ++ [ str_field "id" nst_ID (λ x n, n <| nst_ID := x |>);
       str_field "name" nst_Name (λ x n, n <| nst_Name := x |>);
       str_field "subnetCIDR" nst_SubnetCIDR (λ x n, n <| nst_SubnetCIDR := x |>);
       map_field "customProperties" nst_CustomProperties (λ x n, n <| nst_CustomProperties := x |>);
       strs_field "tenantLinks" nst_TenantLinks (λ x n, n <| nst_TenantLinks := x |>) ].
#[export] Instance json_NetworkState : Json NetworkState :=
  {| enc := enc_struct NetworkState_fields; dec := dec_struct "provisioning.NetworkState" NetworkState_fields |}.

(* @dcp/provisioning/snapshot_state.go:7-16 SnapshotState *)
Record SnapshotState := {
  snap_ServiceDocument : ServiceDocument;
  snap_ID : string;
  snap_DescriptionLink : string;
  snap_ComputeLink : string;
  snap_Name : string;
  snap_Description : string;
  snap_CustomProperties : gmap string string
}.
#[export] Instance eta_SnapshotState : Eta SnapshotState := λ s,
  {| snap_ServiceDocument := snap_ServiceDocument s; snap_ID := snap_ID s;
     snap_DescriptionLink := snap_DescriptionLink s; snap_ComputeLink := snap_ComputeLink s;
     snap_Name := snap_Name s; snap_Description := snap_Description s;
     snap_CustomProperties := snap_CustomProperties s |}.
#[export] Instance zero_SnapshotState : Zero SnapshotState :=
  {| snap_ServiceDocument := zero; snap_ID := ""; snap_DescriptionLink := ""; snap_ComputeLink := "";
     snap_Name := ""; snap_Description := ""; snap_CustomProperties := ∅ |}.
Definition SnapshotState_fields : list (field SnapshotState) :=
  (embed snap_ServiceDocument (λ x s, s <| snap_ServiceDocument := x |>) <$> ServiceDocument_fields)
  ++ [ str_field "id" snap_ID (λ x s, s <| snap_ID := x |>);
       str_field "descriptionLink" snap_DescriptionLink (λ x s, s <| snap_DescriptionLink := x |>);
       plain "computeLink" snap_ComputeLink (λ x s, s <| snap_ComputeLink := x |>) enc dec;
       str_field "name" snap_Name (λ x s, s <| snap_Name := x |>);
       str_field "description" snap_Description (λ x s, s <| snap_Description := x |>);
       map_field "customProperties" snap_CustomProperties (λ x s, s <| snap_CustomProperties := x |>) ].
#[export] Instance json_SnapshotState : Json SnapshotState :=
  {| enc := enc_struct SnapshotState_fields; dec := dec_struct "provisioning.SnapshotState" SnapshotState_fields |}.

(* @dcp/provisioning/firewall_state.go:24-29 Allow *)
Record Allow := {
  allow_Name : string;
  allow_Protocol : string;
  allow_IPRange : string;
  allow_Ports : list string
}.
#[export] Instance eta_Allow : Eta Allow := λ a,
  {| allow_Name := allow_Name a; allow_Protocol := allow_Protocol a;
     allow_IPRange := allow_IPRange a; allow_Ports := allow_Ports a |}.
#[export] Instance zero_Allow : Zero Allow :=
  {| allow_Name := ""; allow_Protocol := ""; allow_IPRange := ""; allow_Ports := [] |}.
Definition Allow_fields : list (field Allow) :=
  [ str_field "name" allow_Name (λ x a, a <| allow_Name := x |>);
       str_field "protocol" allow_Protocol (λ x a, a <| allow_Protocol := x |>);
       str_field "IPRange" allow_IPRange (λ x a, a <| allow_IPRange := x |>);
       strs_field "ports" allow_Ports (λ x a, a <| allow_Ports := x |>) ].
#[export] Instance json_Allow : Json Allow :=
  {| enc := enc_struct Allow_fields; dec := dec_struct "provisioning.Allow" Allow_fields |}.

(* @dcp/provisioning/firewall_state.go:13-22 FirewallState *)
Record FirewallState := {
  fw_ServiceDocument : ServiceDocument;
  fw_ID : string;
  fw_NetworkLink : string;
  fw_Ingress : list Allow;
  fw_Egress : list Allow;
  fw_CustomProperties : gmap string string;
  fw_TenantLinks : list string
}.
#[export] Instance eta_FirewallState : Eta FirewallState := λ f,
  {| fw_ServiceDocument := fw_ServiceDocument f; fw_ID := fw_ID f;
     fw_NetworkLink := fw_NetworkLink f; fw_Ingress := fw_Ingress f; fw_Egress := fw_Egress f;
     fw_CustomProperties := fw_CustomProperties f; fw_TenantLinks := fw_TenantLinks f |}.
#[export] Instance zero_FirewallState : Zero FirewallState :=
  {| fw_ServiceDocument := zero; fw_ID := ""; fw_NetworkLink := ""; fw_Ingress := [];
     fw_Egress := []; fw_CustomProperties := ∅; fw_TenantLinks := [] |}.
Definition FirewallState_fields : list (field FirewallState) :=
  (embed fw_ServiceDocument (λ x f, f <| fw_ServiceDocument := x |>) <$> ServiceDocument_fields)
  ++ [ str_field "id" fw_ID (λ x f, f <| fw_ID := x |>);
       str_field "networkDescriptionLink" fw_NetworkLink (λ x f, f <| fw_NetworkLink := x |>);
       omitempty "ingress" fw_Ingress (λ x f, f <| fw_Ingress := x |>) list_empty (enc_list enc) (dec_list "[]Allow" dec);
       omitempty "egress" fw_Egress (λ x f, f <| fw_Egress := x |>) list_empty (enc_list enc) (dec_list "[]Allow" dec);
       map_field "customProperties" fw_CustomProperties (λ x f, f <| fw_CustomProperties := x |>);
       strs_field "tenantLinks" fw_TenantLinks (λ x f, f <| fw_TenantLinks := x |>) ].
#[export] Instance json_FirewallState : Json FirewallState :=
  {| enc := enc_struct FirewallState_fields; dec := dec_struct "provisioning.FirewallState" FirewallState_fields |}.

(** ** Requests *)
(* @dcp/provisioning/compute_instance_request.go:10-12 InstanceRequestTypeCreate *)
Definition InstanceRequestTypeCreate : string := "CREATE".
Definition InstanceRequestTypeDelete : string := "DELETE".
Definition InstanceRequestTypeValidate : string := "VALIDATE_CREDENTIALS".

(* @dcp/provisioning/compute_snapshot_request.go:5-9 ComputeSnapshotRequest *)
Record ComputeSnapshotRequest := {
  csr_SnapshotReference : option URI;
  csr_SnapshotTaskReference : option URI;
  csr_IsMockRequest : bool
}.
#[export] Instance eta_ComputeSnapshotRequest : Eta ComputeSnapshotRequest := λ c,
  {| csr_SnapshotReference := csr_SnapshotReference c;
     csr_SnapshotTaskReference := csr_SnapshotTaskReference c;
     csr_IsMockRequest := csr_IsMockRequest c |}.
#[export] Instance zero_ComputeSnapshotRequest : Zero ComputeSnapshotRequest :=
  {| csr_SnapshotReference := None; csr_SnapshotTaskReference := None; csr_IsMockRequest := false |}.
Definition ComputeSnapshotRequest_fields : list (field ComputeSnapshotRequest) :=
  [ plain "snapshotReference" csr_SnapshotReference (λ x c, c <| csr_SnapshotReference := x |>) enc dec;
       plain "snapshotTaskReference" csr_SnapshotTaskReference (λ x c, c <| csr_SnapshotTaskReference := x |>) enc dec;
       plain "isMockRequest" csr_IsMockRequest (λ x c, c <| csr_IsMockRequest := x |>) enc dec ].
#[export] Instance json_ComputeSnapshotRequest : Json ComputeSnapshotRequest :=
  {| enc := enc_struct ComputeSnapshotRequest_fields; dec := dec_struct "provisioning.ComputeSnapshotRequest" ComputeSnapshotRequest_fields |}.

(* @dcp/provisioning/compute_boot_request.go:5-10 ComputeBootRequest *)
Record ComputeBootRequest := {
  cbr_ComputeReference : option URI;
  cbr_ProvisioningTaskReference : option URI;
  cbr_BootDeviceOrder : list string;
  cbr_IsMockRequest : bool
}.
#[export] Instance eta_ComputeBootRequest : Eta ComputeBootRequest := λ c,
  {| cbr_ComputeReference := cbr_ComputeReference c;
     cbr_ProvisioningTaskReference := cbr_ProvisioningTaskReference c;
     cbr_BootDeviceOrder := cbr_BootDeviceOrder c; cbr_IsMockRequest := cbr_IsMockRequest c |}.
#[export] Instance zero_ComputeBootRequest : Zero ComputeBootRequest :=
  {| cbr_ComputeReference := None; cbr_ProvisioningTaskReference := None; cbr_BootDeviceOrder := [];
     cbr_IsMockRequest := false |}.
Definition ComputeBootRequest_fields : list (field ComputeBootRequest) :=
  [ plain "computeReference" cbr_ComputeReference (λ x c, c <| cbr_ComputeReference := x |>) enc dec;
       plain "provisioningTaskReference" cbr_ProvisioningTaskReference (λ x c, c <| cbr_ProvisioningTaskReference := x |>) enc dec;
       plain "bootDeviceOrder" cbr_BootDeviceOrder (λ x c, c <| cbr_BootDeviceOrder := x |>) (enc_list JStr) (dec_list "[]string" dec_string);
       plain "isMockRequest" cbr_IsMockRequest (λ x c, c <| cbr_IsMockRequest := x |>) enc dec ].
#[export] Instance json_ComputeBootRequest : Json ComputeBootRequest :=
  {| enc := enc_struct ComputeBootRequest_fields; dec := dec_struct "provisioning.ComputeBootRequest" ComputeBootRequest_fields |}.

(* @dcp/provisioning/compute_command_request.go:5-11 ComputeCommandReference *)
Record ComputeCommandReference := {
  ccr_ComputeReference : option URI;
  ccr_ProvisioningTaskReference : option URI;
  ccr_HostCommandReference : string;
  ccr_Commands : list string;
  ccr_IsMockRequest : bool
}.
#[export] Instance eta_ComputeCommandReference : Eta ComputeCommandReference := λ c,
  {| ccr_ComputeReference := ccr_ComputeReference c;
     ccr_ProvisioningTaskReference := ccr_ProvisioningTaskReference c;
     ccr_HostCommandReference := ccr_HostCommandReference c; ccr_Commands := ccr_Commands c;
     ccr_IsMockRequest := ccr_IsMockRequest c |}.
#[export] Instance zero_ComputeCommandReference : Zero ComputeCommandReference :=
  {| ccr_ComputeReference := None; ccr_ProvisioningTaskReference := None;
     ccr_HostCommandReference := ""; ccr_Commands := []; ccr_IsMockRequest := false |}.
Definition ComputeCommandReference_fields : list (field ComputeCommandReference) :=
  [ plain "computeReference" ccr_ComputeReference (λ x c, c <| ccr_ComputeReference := x |>) enc dec;
       plain "provisioningTaskReference" ccr_ProvisioningTaskReference (λ x c, c <| ccr_ProvisioningTaskReference := x |>) enc dec;
       str_field "hostCommandReference" ccr_HostCommandReference (λ x c, c <| ccr_HostCommandReference := x |>);
       plain "commands" ccr_Commands (λ x c, c <| ccr_Commands := x |>) (enc_list JStr) (dec_list "[]string" dec_string);
       plain "isMockRequest" ccr_IsMockRequest (λ x c, c <| ccr_IsMockRequest := x |>) enc dec ].
#[export] Instance json_ComputeCommandReference : Json ComputeCommandReference :=
  {| enc := enc_struct ComputeCommandReference_fields; dec := dec_struct "provisioning.ComputeCommandReference" ComputeCommandReference_fields |}.

(* @dcp/provisioning/compute_power_request.go:5-11 ComputePowerRequest *)
Record ComputePowerRequest := {
  cpr_ComputeReference : option URI;
  cpr_ProvisioningTaskReference : option URI;
  cpr_PowerState : string;
  cpr_PowerTransition : string;
  cpr_IsMockRequest : bool
}.
#[export] Instance eta_ComputePowerRequest : Eta ComputePowerRequest := λ c,
  {| cpr_ComputeReference := cpr_ComputeReference c;
     cpr_ProvisioningTaskReference := cpr_ProvisioningTaskReference c;
     cpr_PowerState := cpr_PowerState c; cpr_PowerTransition := cpr_PowerTransition c;
     cpr_IsMockRequest := cpr_IsMockRequest c |}.
#[export] Instance zero_ComputePowerRequest : Zero ComputePowerRequest :=
  {| cpr_ComputeReference := None; cpr_ProvisioningTaskReference := None; cpr_PowerState := "";
     cpr_PowerTransition := ""; cpr_IsMockRequest := false |}.
Definition ComputePowerRequest_fields : list (field ComputePowerRequest) :=
  [ plain "computeReference" cpr_ComputeReference (λ x c, c <| cpr_ComputeReference := x |>) enc dec;
       plain "provisioningTaskReference" cpr_ProvisioningTaskReference (λ x c, c <| cpr_ProvisioningTaskReference := x |>) enc dec;
       plain "powerState" cpr_PowerState (λ x c, c <| cpr_PowerState := x |>) enc dec;
       plain "powerTransition" cpr_PowerTransition (λ x c, c <| cpr_PowerTransition := x |>) enc dec;
       plain "isMockRequest" cpr_IsMockRequest (λ x c, c <| cpr_IsMockRequest := x |>) enc dec ].
#[export] Instance json_ComputePowerRequest : Json ComputePowerRequest :=
  {| enc := enc_struct ComputePowerRequest_fields; dec := dec_struct "provisioning.ComputePowerRequest" ComputePowerRequest_fields |}.

(* @dcp/provisioning/compute_enumerate_request.go:11-18 ComputeEnumerateRequest *)
Record ComputeEnumerateRequest := {
  cer_ResourcePoolLink : string;
  cer_ComputeDescriptionLink : string;
  cer_AdapterManagementReference : string;
  cer_EnumerationAction : string;
  cer_ParentComputeLink : string;
  cer_EnumerationTaskReference : option URI
}.
#[export] Instance eta_ComputeEnumerateRequest : Eta ComputeEnumerateRequest := λ c,
  {| cer_ResourcePoolLink := cer_ResourcePoolLink c;
     cer_ComputeDescriptionLink := cer_ComputeDescriptionLink c;
     cer_AdapterManagementReference := cer_AdapterManagementReference c;
     cer_EnumerationAction := cer_EnumerationAction c;
     cer_ParentComputeLink := cer_ParentComputeLink c;
     cer_EnumerationTaskReference := cer_EnumerationTaskReference c |}.
#[export] Instance zero_ComputeEnumerateRequest : Zero ComputeEnumerateRequest :=
  {| cer_ResourcePoolLink := ""; cer_ComputeDescriptionLink := "";
     cer_AdapterManagementReference := ""; cer_EnumerationAction := ""; cer_ParentComputeLink := "";
     cer_EnumerationTaskReference := None |}.
Definition ComputeEnumerateRequest_fields : list (field ComputeEnumerateRequest) :=
  [ plain "resourcePoolLink" cer_ResourcePoolLink (λ x c, c <| cer_ResourcePoolLink := x |>) enc dec;
       plain "computeDescriptionLink" cer_ComputeDescriptionLink (λ x c, c <| cer_ComputeDescriptionLink := x |>) enc dec;
       str_field "adapterManagementReference" cer_AdapterManagementReference (λ x c, c <| cer_AdapterManagementReference := x |>);
       plain "enumerationAction" cer_EnumerationAction (λ x c, c <| cer_EnumerationAction := x |>) enc dec;
       plain "parentComputeLink" cer_ParentComputeLink (λ x c, c <| cer_ParentComputeLink := x |>) enc dec;
       plain "enumerationTaskReference" cer_EnumerationTaskReference (λ x c, c <| cer_EnumerationTaskReference := x |>) enc dec ].
#[export] Instance json_ComputeEnumerateRequest : Json ComputeEnumerateRequest :=
  {| enc := enc_struct ComputeEnumerateRequest_fields; dec := dec_struct "provisioning.ComputeEnumerateRequest" ComputeEnumerateRequest_fields |}.

(* @dcp/provisioning/compute_health_request.go:5-7 ComputeHealthRequest *)
Record ComputeHealthRequest := {
  chq_ComputeReference : option URI
}.
#[export] Instance eta_ComputeHealthRequest : Eta ComputeHealthRequest := λ c,
  {| chq_ComputeReference := chq_ComputeReference c |}.
#[export] Instance zero_ComputeHealthRequest : Zero ComputeHealthRequest :=
  {| chq_ComputeReference := None |}.
Definition ComputeHealthRequest_fields : list (field ComputeHealthRequest) :=
  [ plain "computeReference" chq_ComputeReference (λ x c, c <| chq_ComputeReference := x |>) enc dec ].
#[export] Instance json_ComputeHealthRequest : Json ComputeHealthRequest :=
  {| enc := enc_struct ComputeHealthRequest_fields; dec := dec_struct "provisioning.ComputeHealthRequest" ComputeHealthRequest_fields |}.

(* @dcp/provisioning/compute_health_response.go:6-8 HealthStateUnknown *)
Definition HealthStateUnknown : string := "UNKNOWN".
Definition HealthStateHealthy : string := "HEALTHY".
Definition HealthStateUnhealthy : string := "UNHEALTHY".

(* @dcp/provisioning/compute_health_response.go:11-22 ComputeHealthResponse *)
Record ComputeHealthResponse := {
  chr_ServiceDocument : ServiceDocument;
  chr_HealthState : string;
  chr_CPUCount : Z;
  chr_CPUUtilizationMhz : Z;
  chr_CPUTotalMhz : Z;
  chr_CPUUtilizationPct : float64;
  chr_TotalMemoryBytes : Z;
  chr_UsedMemoryBytes : Z;
  chr_MemoryUtilizationPct : float64
}.
#[export] Instance eta_ComputeHealthResponse : Eta ComputeHealthResponse := λ c,
  {| chr_ServiceDocument := chr_ServiceDocument c; chr_HealthState := chr_HealthState c;
     chr_CPUCount := chr_CPUCount c; chr_CPUUtilizationMhz := chr_CPUUtilizationMhz c;
     chr_CPUTotalMhz := chr_CPUTotalMhz c; chr_CPUUtilizationPct := chr_CPUUtilizationPct c;
     chr_TotalMemoryBytes := chr_TotalMemoryBytes c; chr_UsedMemoryBytes := chr_UsedMemoryBytes c;
     chr_MemoryUtilizationPct := chr_MemoryUtilizationPct c |}.
#[export] Instance zero_ComputeHealthResponse : Zero ComputeHealthResponse :=
  {| chr_ServiceDocument := zero; chr_HealthState := ""; chr_CPUCount := 0%Z;
     chr_CPUUtilizationMhz := 0%Z; chr_CPUTotalMhz := 0%Z; chr_CPUUtilizationPct := zero;
     chr_TotalMemoryBytes := 0%Z; chr_UsedMemoryBytes := 0%Z; chr_MemoryUtilizationPct := zero |}.
Definition ComputeHealthResponse_fields : list (field ComputeHealthResponse) :=
  (embed chr_ServiceDocument (λ x c, c <| chr_ServiceDocument := x |>) <$> ServiceDocument_fields)
  ++ [ plain "healthState" chr_HealthState (λ x c, c <| chr_HealthState := x |>) enc dec;
       plain "cpuCount" chr_CPUCount (λ x c, c <| chr_CPUCount := x |>) JNum dec_int64;
       plain "cpuUtilizationMhz" chr_CPUUtilizationMhz (λ x c, c <| chr_CPUUtilizationMhz := x |>) JNum dec_int64;
       plain "cpuTotalMhz" chr_CPUTotalMhz (λ x c, c <| chr_CPUTotalMhz := x |>) JNum dec_int64;
       plain "cpuUtilizationPct" chr_CPUUtilizationPct (λ x c, c <| chr_CPUUtilizationPct := x |>) enc_float64 dec_float64;
       plain "totalMemoryBytes" chr_TotalMemoryBytes (λ x c, c <| chr_TotalMemoryBytes := x |>) JNum dec_int64;
       plain "usedMemoryBytes" chr_UsedMemoryBytes (λ x c, c <| chr_UsedMemoryBytes := x |>) JNum dec_int64;
       plain "memoryUtilizationPct" chr_MemoryUtilizationPct (λ x c, c <| chr_MemoryUtilizationPct := x |>) enc_float64 dec_float64 ].
#[export] Instance json_ComputeHealthResponse : Json ComputeHealthResponse :=
  {| enc := enc_struct ComputeHealthResponse_fields; dec := dec_struct "provisioning.ComputeHealthResponse" ComputeHealthResponse_fields |}.

(* @dcp/provisioning/compute_instance_request.go:19-25 ComputeInstanceRequest *)
Record ComputeInstanceRequest := {
  cir_ComputeReference : option URI;
  cir_ProvisioningTaskReference : option URI;
  cir_AuthCredentialsLink : string;
  cir_RequestType : string;
  cir_IsMockRequest : bool
}.
#[export] Instance eta_ComputeInstanceRequest : Eta ComputeInstanceRequest := λ c,
  {| cir_ComputeReference := cir_ComputeReference c;
     cir_ProvisioningTaskReference := cir_ProvisioningTaskReference c;
     cir_AuthCredentialsLink := cir_AuthCredentialsLink c; cir_RequestType := cir_RequestType c;
     cir_IsMockRequest := cir_IsMockRequest c |}.
#[export] Instance zero_ComputeInstanceRequest : Zero ComputeInstanceRequest :=
  {| cir_ComputeReference := None; cir_ProvisioningTaskReference := None;
     cir_AuthCredentialsLink := ""; cir_RequestType := ""; cir_IsMockRequest := false |}.
Definition ComputeInstanceRequest_fields : list (field ComputeInstanceRequest) :=
  [ plain "computeReference" cir_ComputeReference (λ x c, c <| cir_ComputeReference := x |>) enc dec;
       plain "provisioningTaskReference" cir_ProvisioningTaskReference (λ x c, c <| cir_ProvisioningTaskReference := x |>) enc dec;
       str_field "authCredentialsLink" cir_AuthCredentialsLink (λ x c, c <| cir_AuthCredentialsLink := x |>);
       plain "requestType" cir_RequestType (λ x c, c <| cir_RequestType := x |>) enc dec;
       plain "isMockRequest" cir_IsMockRequest (λ x c, c <| cir_IsMockRequest := x |>) enc dec ].
#[export] Instance json_ComputeInstanceRequest : Json ComputeInstanceRequest :=
  {| enc := enc_struct ComputeInstanceRequest_fields; dec := dec_struct "provisioning.ComputeInstanceRequest" ComputeInstanceRequest_fields |}.

(* @dcp/provisioning/firewall_instance_request.go:13-22 FirewallInstanceRequest *)
Record FirewallInstanceRequest := {
  fir_ServiceDocument : ServiceDocument;
  fir_RequestType : string;
  fir_AuthCredentialsLink : string;
  fir_ResourcePoolLink : string;
  fir_FirewallReference : option URI;
  fir_ProvisioningTaskReference : option URI;
  fir_IsMockRequest : bool
}.
#[export] Instance eta_FirewallInstanceRequest : Eta FirewallInstanceRequest := λ f,
  {| fir_ServiceDocument := fir_ServiceDocument f; fir_RequestType := fir_RequestType f;
     fir_AuthCredentialsLink := fir_AuthCredentialsLink f;
     fir_ResourcePoolLink := fir_ResourcePoolLink f;
     fir_FirewallReference := fir_FirewallReference f;
     fir_ProvisioningTaskReference := fir_ProvisioningTaskReference f;
     fir_IsMockRequest := fir_IsMockRequest f |}.
#[export] Instance zero_FirewallInstanceRequest : Zero FirewallInstanceRequest :=
  {| fir_ServiceDocument := zero; fir_RequestType := ""; fir_AuthCredentialsLink := "";
     fir_ResourcePoolLink := ""; fir_FirewallReference := None;
     fir_ProvisioningTaskReference := None; fir_IsMockRequest := false |}.
Definition FirewallInstanceRequest_fields : list (field FirewallInstanceRequest) :=
  (embed fir_ServiceDocument (λ x f, f <| fir_ServiceDocument := x |>) <$> ServiceDocument_fields)
  ++ [ plain "requestType" fir_RequestType (λ x f, f <| fir_RequestType := x |>) enc dec;
       str_field "authCredentialsLink" fir_AuthCredentialsLink (λ x f, f <| fir_AuthCredentialsLink := x |>);
       str_field "resourcePoolLink" fir_ResourcePoolLink (λ x f, f <| fir_ResourcePoolLink := x |>);
       plain "firewallReference" fir_FirewallReference (λ x f, f <| fir_FirewallReference := x |>) enc dec;
       plain "provisioningTaskReference" fir_ProvisioningTaskReference (λ x f, f <| fir_ProvisioningTaskReference := x |>) enc dec;
       plain "isMockRequest" fir_IsMockRequest (λ x f, f <| fir_IsMockRequest := x |>) enc dec ].
#[export] Instance json_FirewallInstanceRequest : Json FirewallInstanceRequest :=
  {| enc := enc_struct FirewallInstanceRequest_fields; dec := dec_struct "provisioning.FirewallInstanceRequest" FirewallInstanceRequest_fields |}.

(* @dcp/provisioning/network_instance_request.go:13-22 NetworkInstanceRequest *)
Record NetworkInstanceRequest := {
  nir_ServiceDocument : ServiceDocument;
  nir_RequestType : string;
  nir_AuthCredentialsLink : string;
  nir_ResourcePoolLink : string;
  nir_NetworkReference : option URI;
  nir_ProvisioningTaskReference : option URI;
  nir_IsMockRequest : bool
}.
#[export] Instance eta_NetworkInstanceRequest : Eta NetworkInstanceRequest := λ n,
  {| nir_ServiceDocument := nir_ServiceDocument n; nir_RequestType := nir_RequestType n;
     nir_AuthCredentialsLink := nir_AuthCredentialsLink n;
     nir_ResourcePoolLink := nir_ResourcePoolLink n; nir_NetworkReference := nir_NetworkReference n;
     nir_ProvisioningTaskReference := nir_ProvisioningTaskReference n;
     nir_IsMockRequest := nir_IsMockRequest n |}.
#[export] Instance zero_NetworkInstanceRequest : Zero NetworkInstanceRequest :=
  {| nir_ServiceDocument := zero; nir_RequestType := ""; nir_AuthCredentialsLink := "";
     nir_ResourcePoolLink := ""; nir_NetworkReference := None; nir_ProvisioningTaskReference := None;
     nir_IsMockRequest := false |}.
Definition NetworkInstanceRequest_fields : list (field NetworkInstanceRequest) :=
  (embed nir_ServiceDocument (λ x n, n <| nir_ServiceDocument := x |>) <$> ServiceDocument_fields)
  ++ [ plain "requestType" nir_RequestType (λ x n, n <| nir_RequestType := x |>) enc dec;
       str_field "authCredentialsLink" nir_AuthCredentialsLink (λ x n, n <| nir_AuthCredentialsLink := x |>);
       str_field "resourcePoolLink" nir_ResourcePoolLink (λ x n, n <| nir_ResourcePoolLink := x |>);
       plain "networkReference" nir_NetworkReference (λ x n, n <| nir_NetworkReference := x |>) enc dec;
       plain "provisioningTaskReference" nir_ProvisioningTaskReference (λ x n, n <| nir_ProvisioningTaskReference := x |>) enc dec;
       plain "isMockRequest" nir_IsMockRequest (λ x n, n <| nir_IsMockRequest := x |>) enc dec ].
#[export] Instance json_NetworkInstanceRequest : Json NetworkInstanceRequest :=
  {| enc := enc_struct NetworkInstanceRequest_fields; dec := dec_struct "provisioning.NetworkInstanceRequest" NetworkInstanceRequest_fields |}.

(** ** States of the tasks *)
(* @dcp/provisioning/resource_enumeration_task.go:7-11 ResourceEnumerationTaskState *)
Record ResourceEnumerationTaskState := {
  ret_ServiceDocument : ServiceDocument;
  ret_TaskInfo : option TaskState
}.
#[export] Instance eta_ResourceEnumerationTaskState : Eta ResourceEnumerationTaskState := λ r,
  {| ret_ServiceDocument := ret_ServiceDocument r; ret_TaskInfo := ret_TaskInfo r |}.
#[export] Instance zero_ResourceEnumerationTaskState : Zero ResourceEnumerationTaskState :=
  {| ret_ServiceDocument := zero; ret_TaskInfo := None |}.
Definition ResourceEnumerationTaskState_fields : list (field ResourceEnumerationTaskState) :=
  (embed ret_ServiceDocument (λ x r, r <| ret_ServiceDocument := x |>) <$> ServiceDocument_fields)
  ++ [ omitempty "taskInfo" ret_TaskInfo (λ x r, r <| ret_TaskInfo := x |>) ptr_empty (enc_ptr enc) (dec_ptr dec) ].
#[export] Instance json_ResourceEnumerationTaskState : Json ResourceEnumerationTaskState :=
  {| enc := enc_struct ResourceEnumerationTaskState_fields; dec := dec_struct "provisioning.ResourceEnumerationTaskState" ResourceEnumerationTaskState_fields |}.

(* @dcp/provisioning/compute_sub_task_state.go:5-11 ComputeSubTaskState *)
Record ComputeSubTaskState := {
  sub_task_ServiceDocument : ServiceDocument;
  sub_task_TaskInfo : option TaskState;
  sub_task_ParentTaskLink : string;
  sub_task_ParentNextStageOnSuccess : string
}.
#[export] Instance eta_ComputeSubTaskState : Eta ComputeSubTaskState := λ s,
  {| sub_task_ServiceDocument := sub_task_ServiceDocument s;
     sub_task_TaskInfo := sub_task_TaskInfo s; sub_task_ParentTaskLink := sub_task_ParentTaskLink s;
     sub_task_ParentNextStageOnSuccess := sub_task_ParentNextStageOnSuccess s |}.
#[export] Instance zero_ComputeSubTaskState : Zero ComputeSubTaskState :=
  {| sub_task_ServiceDocument := zero; sub_task_TaskInfo := None; sub_task_ParentTaskLink := "";
     sub_task_ParentNextStageOnSuccess := "" |}.
Definition ComputeSubTaskState_fields : list (field ComputeSubTaskState) :=
  (embed sub_task_ServiceDocument (λ x s, s <| sub_task_ServiceDocument := x |>) <$> ServiceDocument_fields)
  ++ [ omitempty "taskInfo" sub_task_TaskInfo (λ x s, s <| sub_task_TaskInfo := x |>) ptr_empty (enc_ptr enc) (dec_ptr dec);
       str_field "parentTaskLink" sub_task_ParentTaskLink (λ x s, s <| sub_task_ParentTaskLink := x |>);
       str_field "parentNextStageOnSuccess" sub_task_ParentNextStageOnSuccess (λ x s, s <| sub_task_ParentNextStageOnSuccess := x |>) ].
#[export] Instance json_ComputeSubTaskState : Json ComputeSubTaskState :=
  {| enc := enc_struct ComputeSubTaskState_fields; dec := dec_struct "provisioning.ComputeSubTaskState" ComputeSubTaskState_fields |}.

(* @dcp/provisioning/resource_enumeration_task.go:13-17 NewResourceEnumerationTaskState *)
Definition NewResourceEnumerationTaskState : ResourceEnumerationTaskState :=
  (zero : ResourceEnumerationTaskState) <| ret_TaskInfo := Some NewTaskState |>.
(* @dcp/provisioning/compute_sub_task_state.go:13-17 NewComputeSubTaskState *)
Definition NewComputeSubTaskState : ComputeSubTaskState :=
  (zero : ComputeSubTaskState) <| sub_task_TaskInfo := Some NewTaskState |>.

(** ** Paths *)
Definition Provisioning : string := "/provisioning".
(* @dcp/provisioning/paths.go:7-11 Compute *)
Definition Resources : string := "/resources".
Definition Compute_path : string := Resources +:+ "/compute".
Definition ComputeDescriptions : string := Resources +:+ "/compute-descriptions".
Definition Disks : string := Resources +:+ "/disks".
Definition NetworkInterfaces : string := Resources +:+ "/networks/interfaces".
(* @dcp/provisioning/paths.go:52-54 ImageFormatIso *)
Definition ImageFormatIso : string := "iso".
Definition ImageFormatFat : string := "img".
Definition ImageFormatTar : string := "tar".
(* @dcp/provisioning/paths.go:55-58 BootConfigService *)
Definition BootConfigService : string := Provisioning +:+ "/boot-config-service".
(* @dcp/provisioning/paths.go:65-67 QueryExpand *)
Definition QueryExpand : string := "expand".
Definition QueryComputeDescriptionLink : string := "descriptionLink".
Definition QueryDocumentSelfLinkLink : string := "documentSelfLink".
