(* ===== verification/Provisioning.v ===== *)
(** Package [dcp/provisioning], its operations: reading, posting, patching and
    deleting documents on the local service host, queries, and the task that a
    request of an adapter reports to.

    A function that fills in a variable returns the variable's value with the
    error, if any: what was decoded before an error stays.  [local] is
    [uri.Local()], and dereferencing a nil URI panics.

    Requests sent from several goroutines reach the network one whole exchange
    after the other, in the order [sched] of their indexes, and a join receives
    their results in the order [arr].  After a join that fails the network is the
    one that every exchange has finished with, which may be later than the
    return. *)

From S2P Require Import Prelude GoPath GoNet GoJson GoURL DcpCommon DcpUri Operation Client ProvTypes.
From Stdlib Require Import ZArith Lia.

Section provisioning.
Context `{GoTypes} {W : Type} `{Network W} (now : Z) (dcp : AddressFlag).
Context `{!Embeds ServiceDocument} `{!Embeds (QueryTask json)} `{!Embeds (ServiceDocumentQueryResult ComputeState)}.
Context `{!Embeds ComputeState} `{!Embeds ComputeDescription} `{!Embeds ComputeStateWithDescription}.
Context `{!Embeds DiskState} `{!Embeds SnapshotState} `{!Embeds ResourcePoolState}.
Context `{!Embeds NetworkInterfaceState} `{!Embeds NetworkBridgeState} `{!Embeds NetworkBridgeDescription}.

Definition local {A} (k : URI → outcome A) : outcome A :=
  match Local_ dcp with Some u => k u | None => Panic end.
(** [uri.Local()] in the body of a loop over [l]. *)
Definition local_in {A B} (l : list B) (k : URI → outcome A) : outcome A :=
  match l with [] => k empty_URL | _ => local k end.
Definition deref {A} (u : option URI) (k : URI → outcome A) : outcome A :=
  match u with Some u => k u | None => Panic end.

(** ** Reading *)

(** A GET whose response is decoded over [s]. *)
Definition get_into {A} `{Json A, !Embeds A} (ctx : Context) (u : option URI) (s : A) (w : W) : outcome (A * option error * W) :=
  deref u (λ u, exchange (NewGet now ctx u) s w).

(* @dcp/provisioning/helpers.go:19-31 GetComputeState *)
Definition GetComputeState (ctx : Context) (u : option URI) (s : ComputeState) (w : W) := get_into ctx u s w.
(* @dcp/provisioning/helpers.go:33-45 GetSnapshotState *)
Definition GetSnapshotState (ctx : Context) (u : option URI) (s : SnapshotState) (w : W) := get_into ctx u s w.
(* @dcp/provisioning/helpers.go:48-60 GetComputeDescription *)
Definition GetComputeDescription (ctx : Context) (u : option URI) (s : ComputeDescription) (w : W) := get_into ctx u s w.
(* @dcp/provisioning/resource_pool.go:35-47 GetResourcePoolState *)
Definition GetResourcePoolState (ctx : Context) (p : ResourcePoolState) (u : option URI) (w : W) := get_into ctx u p w.
(* @dcp/provisioning/network_interface_state.go:24-36 GetNetworkInterfaceState *)
Definition GetNetworkInterfaceState (ctx : Context) (u : option URI) (s : NetworkInterfaceState) (w : W) := get_into ctx u s w.
(* @dcp/provisioning/network_bridge_state.go:21-33 GetNetworkBridgeState *)
Definition GetNetworkBridgeState (ctx : Context) (u : option URI) (s : NetworkBridgeState) (w : W) := get_into ctx u s w.

(* @dcp/provisioning/helpers.go:63-76 GetComputeStateWithDescription *)
Definition GetComputeStateWithDescription (ctx : Context) (u : option URI) (s : ComputeStateWithDescription) (w : W) :
  outcome (ComputeStateWithDescription * option error * W) :=
  deref u (λ u, get_into ctx (Some (ExtendQuery u QueryExpand QueryComputeDescriptionLink)) s w).

(* @dcp/provisioning/network_bridge_description.go:17-30 GetNetworkBridgeDescription *)
Definition GetNetworkBridgeDescription (ctx : Context) (u : option URI) (s : NetworkBridgeDescription) (w : W) :
  outcome (NetworkBridgeDescription * option error * W) :=
  deref u (λ u, get_into ctx (Some (ExtendQuery u QueryExpand QueryComputeDescriptionLink)) s w).

(** What a child takes over from its parent. *)
Definition inherit (parent s : ComputeStateWithDescription) : ComputeStateWithDescription :=
  let c := csd_ComputeState s in
  let s := if str_empty (cs_AdapterManagementReference c)
           then s <| csd_ComputeState := c <| cs_AdapterManagementReference := cs_AdapterManagementReference (csd_ComputeState parent) |> |>
           else s in
  let d := csd_Description s in
  if str_empty (cd_ZoneID d) then s <| csd_Description := d <| cd_ZoneID := cd_ZoneID (csd_Description parent) |> |> else s.

(* @dcp/provisioning/helpers.go:78-98 GetInheritedParentComputeState *)
Definition GetInheritedParentComputeState (ctx : Context) (s : ComputeStateWithDescription) (w : W) :
  outcome (ComputeStateWithDescription * option error * W) :=
  let link := cs_ParentLink (csd_ComputeState s) in
  if str_empty link then Ret (s, Some (Errorf "parentLink is not set"), w)
  else local (λ l,
    out_bind (GetComputeStateWithDescription ctx (Some (Extend l link)) zero w) (λ '(parent, err, w),
      match err with
      | Some e => Ret (s, Some e, w)
      | None => Ret (inherit parent s, None, w)
      end)).

(* @dcp/provisioning/helpers.go:102-109 GetChildComputeStateWithDescription *)
Definition GetChildComputeStateWithDescription (ctx : Context) (u : option URI) (s : ComputeStateWithDescription) (w : W) :
  outcome (ComputeStateWithDescription * option error * W) :=
  out_bind (GetComputeStateWithDescription ctx u s w) (λ '(s, err, w),
    match err with
    | Some e => Ret (s, Some e, w)
    | None => GetInheritedParentComputeState ctx s w
    end).

(** ** Writing *)
Definition send_only (op : Operation) (w : W) : outcome (option error * W) :=
  out_bind (SendWait op w) (λ '(_, err, w), Ret (err, w)).

(* @dcp/provisioning/helpers.go:112-120 PatchComputeState *)
Definition PatchComputeState (ctx : Context) (u : option URI) (s : ComputeState) (w : W) : outcome (option error * W) :=
  deref u (λ u, send_only (SetBody (ValueOf s) (NewPatch now ctx u BNil)) w).

(* @dcp/provisioning/network_interface_state.go:39-47 PatchNetworkInterfaceState *)
Definition PatchNetworkInterfaceState (ctx : Context) (u : option URI) (s : NetworkInterfaceState) (w : W) : outcome (option error * W) :=
  deref u (λ u, send_only (SetBody (ValueOf s) (NewPatch now ctx u BNil)) w).

(** A POST of a document that answers with the document. *)
Definition post_new {A} `{Json A, Zero A, !Embeds A} (ctx : Context) (factory : string) (a : A) (w : W) : outcome (res A * W) :=
  local (λ l,
    let u := Extend l factory in
    out_bind (SendWait (SetBody (ValueOf a) (NewPost now ctx u BNil)) w) (λ '(op, err, w),
      match err with
      | Some e => Ret (Err (Errorf ("error POSTing " +:+ URL_String u +:+ ": " +:+ Error e)), w)
      | None => let '(_, out, e) := DecodeBodyAs op (zero : A) in Ret (as_res (out, e), w)
      end)).

(* @dcp/provisioning/disk_state.go:72-86 PostDiskState *)
Definition PostDiskState (ctx : Context) (disk : DiskState) (w : W) : outcome (res DiskState * W) := post_new ctx Disks disk w.
(* @dcp/provisioning/network_interface_state.go:50-63 PostNetworkInterfaceState *)
Definition PostNetworkInterfaceState (ctx : Context) (intf : NetworkInterfaceState) (w : W) : outcome (res NetworkInterfaceState * W) :=
  post_new ctx NetworkInterfaces intf w.

(** A POST that tolerates a service which is there already; the response is
    decoded over the document posted. *)
Definition already_started (e : error) : bool := Contains (s2b (Error e)) (s2b "Service already started").
Definition post_over {A} `{Json A, !Embeds A} (ctx : Context) (factory : string) (a : A) (w : W) : outcome (A * option error * W) :=
  local (λ l,
    out_bind (SendWait (SetBody (ValueOf a) (NewPost now ctx (Extend l factory) BNil)) w) (λ '(op, err, w),
      match err with
      | Some e =>
          if already_started e then let '(_, v, e) := DecodeBodyAs op a in Ret (v, e, w)
          else Ret (a, Some e, w)
      | None => let '(_, v, e) := DecodeBodyAs op a in Ret (v, e, w)
      end)).

(* @dcp/provisioning/helpers.go:258-272 PostComputeDescription *)
Definition PostComputeDescription (ctx : Context) (computeDesc : ComputeDescription) (w : W) := post_over ctx ComputeDescriptions computeDesc w.
(* @dcp/provisioning/helpers.go:277-296 PostOneComputeState *)
Definition PostOneComputeState (ctx : Context) (state : ComputeState) (w : W) := post_over ctx Compute_path state w.

(** ** Many requests at once *)
Fixpoint send_all (sched : list nat) (ops : list Operation) (w : W) : outcome (list Operation * W) :=
  match sched with
  | [] => Ret (ops, w)
  | i :: sched =>
      match ops !! i with
      | None => send_all sched ops w
      | Some op => out_bind (SendWait op w) (λ '(op, _, w), send_all sched (<[i := op]> ops) w)
      end
  end.

Definition arrivals_of (arr : list nat) (ops : list Operation) : list arrival :=
  omap (λ i, op ← ops !! i; Some (i, Err_ op)) arr.

(** The operations after a join of them all, or its error.  The join of all
    returns, see [Join_all]. *)
Definition send_join (sched arr : list nat) (ops : list Operation) (w : W) : outcome (res (list Operation) * W) :=
  out_bind (send_all sched ops w) (λ '(ops, w),
    match Join (seq 0 (length ops)) (arrivals_of arr ops) with
    | Some (Ok _) => Ret (Ok ops, w)
    | Some (Err e) => Ret (Err e, w)
    | None => Panic
    end).
Definition res_error {A} (r : res A) : option error := match r with Ok _ => None | Err e => Some e end.

(* @dcp/provisioning/helpers.go:123-139 PostComputeState *)
Definition PostComputeState (sched arr : list nat) (ctx : Context) (states : list ComputeState) (w : W) : outcome (option error * W) :=
  local (λ l,
    let u := Extend l Compute_path in
    out_bind (send_join sched arr ((λ s, SetBody (ValueOf s) (NewPost now ctx u BNil)) <$> states) w) (λ '(r, w),
      Ret (res_error r, w))).

(* @dcp/provisioning/helpers.go:142-157 DeleteComputeState *)
Definition DeleteComputeState (sched arr : list nat) (ctx : Context) (s : ComputeState) (w : W) : outcome (option error * W) :=
  local (λ l,
    let links := cs_DiskLinks s ++ [sd_SelfLink (cs_ServiceDocument s)] in
    let del link :=
      SetBody (ValueOf ((zero : ServiceDocument) <| sd_SelfLink := link |>)) (NewDelete now ctx (Extend l link)) in
    out_bind (send_join sched arr (del <$> links) w) (λ '(r, w), Ret (res_error r, w))).

(* @dcp/provisioning/disk_state.go:135-147 PatchDiskState *)
Definition PatchDiskState (sched arr : list nat) (ctx : Context) (disks : list DiskState) (w : W) : outcome (option error * W) :=
  local_in disks (λ l,
    let patch disk := SetBody (ValueOf disk) (NewPatch now ctx (Extend l (sd_SelfLink (disk_ServiceDocument disk))) BNil) in
    out_bind (send_join sched arr (patch <$> disks) w) (λ '(r, w), Ret (res_error r, w))).

(** [sort.Sort] orders the disks by their boot order.  It does not promise an
    order for equal ones; short lists are sorted by insertion, which is stable. *)
(* @dcp/provisioning/disk_state.go:88-100 diskList *)
Definition disk_le (x y : DiskState) : Prop := (disk_BootOrder x ≤ disk_BootOrder y)%Z.
#[global] Instance disk_le_dec x y : Decision (disk_le x y) := decide (disk_BootOrder x ≤ disk_BootOrder y)%Z.

Fixpoint decode_all {A} `{Json A, Zero A, !Embeds A} (ops : list Operation) : res (list A) :=
  match ops with
  | [] => Ok []
  | op :: ops =>
      let '(_, v, e) := DecodeBodyAs op (zero : A) in
      a :=? as_res (v, e);;
      r :=? decode_all ops;;
      Ok (a :: r)
  end.

(* @dcp/provisioning/disk_state.go:103-132 GetDiskState *)
Definition GetDiskState (sched arr : list nat) (ctx : Context) (diskLinks : list string) (w : W) : outcome (res (list DiskState) * W) :=
  local_in diskLinks (λ l,
    out_bind (send_join sched arr ((λ link, NewGet now ctx (Extend l link)) <$> diskLinks) w) (λ '(r, w),
      Ret (ops :=? r;; disks :=? decode_all ops;; Ok (merge_sort disk_le disks), w))).

(** ** Queries *)

(** A plus sign of the printed URI is a space, except in the path. *)
(* @dcp/provisioning/helpers.go:251-255 extenURIWithQueryString *)
Definition extenURIWithQueryString (u : URI) (queryString : string) : res URI :=
  let u := ExtendQuery u "$filter" queryString in
  let uStr := ReplaceAll x2b (s2b "%20") (s2b (URL_String u)) in
  Parse (b2s uStr).

(** A URI that does not parse is nil. *)
Definition with_filter (u : URI) (queryString : string) : option URI :=
  match extenURIWithQueryString u queryString with Ok u => Some u | Err _ => None end.

(* @dcp/provisioning/helpers.go:203-219 ExecuteODataQuery *)
Definition ExecuteODataQuery (ctx : Context) (queryString : string) (w : W) : outcome (option (ServiceDocumentQueryResult json) * W) :=
  local (λ l,
    out_bind (get_into ctx (with_filter (Extend l ODataQuery) queryString) (zero : QueryTask json) w) (λ '(task, err, w),
      Ret (match err with Some _ => None | None => Some (qt_Results task) end, w))).

Definition eq_clause (field value : string) : string := field +:+ " eq '" +:+ value +:+ "'".

(** The result of a query that failed is a nil dereference. *)
(* @dcp/provisioning/helpers.go:188-200 getComputeLinksByParentID *)
Definition getComputeLinksByParentID (ctx : Context) (parentLink vmIDFieldName vmID : string) (w : W) : outcome (list string * W) :=
  let queryString :=
    if str_empty vmID then "(" +:+ eq_clause FieldNameParentLink parentLink +:+ ")"
    else "(" +:+ eq_clause FieldNameParentLink parentLink +:+ " and " +:+ eq_clause vmIDFieldName vmID +:+ ")" in
  out_bind (ExecuteODataQuery ctx queryString w) (λ '(results, w),
    match results with Some r => Ret (qr_DocumentLinks r, w) | None => Panic end).

(* @dcp/provisioning/helpers.go:176-185 GetComputeStateByID *)
Definition GetComputeStateByID (ctx : Context) (parentLink vmIDFieldName vmID : string) (s : ComputeStateWithDescription) (w : W) :
  outcome (ComputeStateWithDescription * option error * W) :=
  out_bind (getComputeLinksByParentID ctx parentLink vmIDFieldName vmID w) (λ '(computeLinks, w),
    match computeLinks with
    | [] => Ret (s, Some (Errorf ("Can't find compute by parentLink " +:+ parentLink +:+ ", vmID " +:+ vmID)), w)
    | link :: _ => local (λ l, GetComputeStateWithDescription ctx (Some (Extend l link)) s w)
    end).

(* @dcp/provisioning/helpers.go:222-245 GetComputeStatesByParentLink *)
Definition GetComputeStatesByParentLink (ctx : Context) (parentLink : string) (w : W) : outcome (res (gmap string ComputeState) * W) :=
  local (λ l,
    let u := ExtendQuery (Extend l Compute_path) QueryExpand QueryDocumentSelfLinkLink in
    let queryString := "(" +:+ eq_clause FieldNameParentLink parentLink +:+ ")" in
    out_bind (get_into ctx (with_filter u queryString) (zero : ServiceDocumentQueryResult ComputeState) w) (λ '(s, err, w),
      Ret (res_map qr_Documents (as_res (s, err)), w))).
End provisioning.

(** ** Tasks ([dcp/provisioning/task_state.go]) *)

(** What the code that serves a request promises to whoever asked for it: a
    state with a stage, that can fail. *)
(* @dcp/provisioning/task_state.go:17-20 TaskState *)
Class TaskBacking (A : Type) := {
  SetStage : TaskStage → A → outcome A;
  SetFailure : bytes → error → A → outcome A
}.

Definition on_info {A} (f : TaskState → outcome TaskState) (i : option TaskState) (k : TaskState → A) : outcome A :=
  match i with None => Panic | Some t => out_bind (f t) (λ t, Ret (k t)) end.

(* @dcp/provisioning/compute_sub_task_state.go:19-26 ComputeSubTaskState.SetStage *)
#[export] Instance sub_task_backing : TaskBacking ComputeSubTaskState := {|
  SetStage := λ stage s, on_info (λ t, Ret (t <| ts_Stage := stage |>)) (sub_task_TaskInfo s) (λ t, s <| sub_task_TaskInfo := Some t |>);
  SetFailure := λ stack err s, on_info (TaskState_SetFailure stack err) (sub_task_TaskInfo s) (λ t, s <| sub_task_TaskInfo := Some t |>)
|}.

(* @dcp/provisioning/resource_enumeration_task.go:19-25 ResourceEnumerationTaskState.SetStage *)
#[export] Instance enumeration_backing : TaskBacking ResourceEnumerationTaskState := {|
  SetStage := λ stage s, on_info (λ t, Ret (TaskState_SetStage stage t)) (ret_TaskInfo s) (λ t, s <| ret_TaskInfo := Some t |>);
  SetFailure := λ stack err s, on_info (TaskState_SetFailure stack err) (ret_TaskInfo s) (λ t, s <| ret_TaskInfo := Some t |>)
|}.

Section task.
Context `{GoTypes} {W : Type} `{Network W} (now : Z) (stack : bytes).
Context {A : Type} `{Json A, !Embeds A, TaskBacking A}.

(* @dcp/provisioning/task_state.go:22-26 TaskStateWrapper *)
Record TaskStateWrapper := { tw_ctx : Context; tw_reference : option URI; tw_backing : A }.

(* @dcp/provisioning/task_state.go:28-36 NewTaskStateWrapper *)
Definition NewTaskStateWrapper (ctx : Context) (reference : option URI) (backing : A) : TaskStateWrapper :=
  {| tw_ctx := ctx; tw_reference := reference; tw_backing := backing |}.

(** The request is sent at once; its error is only logged. *)
(* @dcp/provisioning/task_state.go:41-53 TaskStateWrapper.patch *)
Definition patch (t : TaskStateWrapper) (w : W) : outcome W :=
  deref (tw_reference t) (λ u,
    out_bind (SendWait (SetBody (ValueOf (tw_backing t)) (NewPatch now (tw_ctx t) u BNil)) w) (λ '(_, _, w), Ret w)).

Definition with_backing (a : A) (t : TaskStateWrapper) : TaskStateWrapper :=
  {| tw_ctx := tw_ctx t; tw_reference := tw_reference t; tw_backing := a |}.

(* @dcp/provisioning/task_state.go:55-58 TaskStateWrapper.PatchStage *)
Definition PatchStage (stage : TaskStage) (t : TaskStateWrapper) (w : W) : outcome (TaskStateWrapper * W) :=
  out_bind (SetStage stage (tw_backing t)) (λ a,
    let t := with_backing a t in out_bind (patch t w) (λ w, Ret (t, w))).

(* @dcp/provisioning/task_state.go:60-69 TaskStateWrapper.PatchFailure *)
Definition PatchFailure (msg : string) (err : error) (t : TaskStateWrapper) (w : W) : outcome (TaskStateWrapper * W) :=
  out_bind (SetFailure stack (Errorf (msg +:+ ": " +:+ Error err)) (tw_backing t)) (λ a,
    let t := with_backing a t in out_bind (patch t w) (λ w, Ret (t, w))).
End task.
Arguments TaskStateWrapper A : clear implicits.

Section mock.
Context `{GoTypes} {W : Type} `{Network W} (now : Z) (dcp : AddressFlag) (stack : bytes).
Context `{!Embeds ServiceDocument} `{!Embeds ComputeStateWithDescription}.
Context {A : Type} `{Json A, !Embeds A, TaskBacking A}.

(** A delete takes the documents away; whether it could is not looked at.  [sch]
    is the schedule of a number of deletes. *)
(* @dcp/provisioning/helpers.go:159-173 HandleMockRequest *)
Definition HandleMockRequest (sch : nat → list nat * list nat) (ctx : Context) (req : ComputeInstanceRequest) (ts : TaskStateWrapper A) (w : W) :
  outcome (TaskStateWrapper A * W) :=
  if decide (cir_RequestType req = InstanceRequestTypeDelete) then
    out_bind (GetComputeStateWithDescription now ctx (cir_ComputeReference req) zero w) (λ '(state, err, w),
      match err with
      | Some e => PatchFailure now stack "Error obtaining ComputeState" e ts w
      | None =>
          let '(sched, arr) := sch (S (length (cs_DiskLinks (csd_ComputeState state)))) in
          out_bind (DeleteComputeState now dcp sched arr ctx (csd_ComputeState state) w) (λ '(_, w),
            PatchStage now TaskStageFinished ts w)
      end)
  else PatchStage now TaskStageFinished ts w.
End mock.

(** ** Lemmas: exchanges *)
Section exchanges.
Context `{GoTypes} {W : Type} `{Network W}.

(** The request of [op] is answered with success by the text [x], in any state
    of the network. *)
Definition answers (op : Operation) (x : text) : Prop :=
  ∃ op' req, CreateRequest op = Ret (op', Ok req) ∧
    ∀ w : W, ∃ r req' w', Do req w = (Answered r, req', w') ∧ (200 ≤ res_StatusCode r < 400)%Z ∧ res_Body r = Ok x.
(** The request of [op] is answered by an error status. *)
Definition rejects (op : Operation) (e : error) : Prop :=
  ∃ op' req, CreateRequest op = Ret (op', Ok req) ∧
    ∀ w : W, ∃ r req' w', Do req w = (Answered r, req', w') ∧ responseToError (W := W) req r = Some e.

(** An operation that was just made. *)
Definition fresh_op (op : Operation) : Prop :=
  op_result op = None ∧ st_isStreamResponse (op_state op) = false ∧ st_err (op_state op) = None.

Lemma CreateRequest_keeps op op' r : CreateRequest op = Ret (op', r) → fresh_op op → fresh_op op' ∧ op_retriesRemaining op' = op_retriesRemaining op.
Proof.
  unfold CreateRequest, fresh_op. destruct (st_httpRequest (op_state op)); [by intros [= <- <-] |].
  unfold EncodeBodyAsBuffer, EncodeBody.
  destruct (GetBody op); cbn; unfold GetURI; cbn; destruct (st_uri (op_state op)); cbn; try done;
    destruct (NewRequest _ _ _); cbn; by intros [= <- <-].
Qed.

Lemma CreateRequest_body op op' r t v : CreateRequest op = Ret (op', r) → GetBody op = BValue t v → GetBody op' = BValue t v.
Proof.
  unfold CreateRequest. intros E B. destruct (st_httpRequest (op_state op)); [by simplify_eq |].
  rewrite B in E. unfold EncodeBodyAsBuffer, EncodeBody in E. rewrite B in E. cbn in E.
  destruct (GetURI op); [| done]. destruct (NewRequest _ _ _); simplify_eq; done.
Qed.

Lemma Complete_response op r x : fresh_op op → res_Body r = Ok x →
  let op' := Complete (SetResponse r op) in
  Err_ op' = None ∧ GetBody op' = BBuffer x ∧ st_err (op_state op') = None.
Proof.
  intros (H1 & H2 & H3) Hb. unfold SetResponse. cbn. rewrite H2, Hb. unfold Complete. cbn. rewrite H1. done.
Qed.

Lemma SendWait_answers op x (w : W) : answers op x → fresh_op op →
  ∃ op' w', SendWait op w = Ret (op', None, w') ∧ Err_ op' = None ∧ GetBody op' = BBuffer x ∧ st_err (op_state op') = None.
Proof.
  intros (op1 & req & E & Hd) Hf. destruct (CreateRequest_keeps _ _ _ E Hf) as [Hf1 _].
  destruct (Hd w) as (r & req' & w' & ED & Hs & Hb).
  destruct (Complete_response (Start op1) r x) as (H1 & H2 & H3); [done | done |].
  exists (Complete (SetResponse r (Start op1))), w'. unfold SendWait, Send. rewrite E. cbn [send_loop]. unfold doSend. rewrite ED.
  unfold responseToError. rewrite decide_True by lia. by rewrite H1.
Qed.

Lemma SendWait_rejects op e (w : W) : rejects op e → fresh_op op → isNetError e = false →
  ∃ op' w', SendWait op w = Ret (op', Some e, w') ∧ Err_ op' = Some e
    ∧ st_err (op_state op') = None ∧ ∀ t v, GetBody op = BValue t v → GetBody op' = BValue t v.
Proof.
  intros (op1 & req & E & Hd) Hf He. destruct (CreateRequest_keeps _ _ _ E Hf) as [(H1 & H2 & H3) _].
  destruct (Hd w) as (r & req' & w' & ED & Hs).
  eexists _, w'. unfold SendWait, Send. rewrite E. cbn [send_loop]. unfold doSend. rewrite ED, Hs, He. cbn [negb].
  unfold Fail_. simpl. rewrite H1. split_and!; [done | done | done |].
  intros t v B. pose proof (CreateRequest_body _ _ _ _ _ E B). done.
Qed.

Lemma DecodeBodyAs_buffer {A} `{Json A, !Embeds A} op j (old a : A) :
  st_err (op_state op) = None → GetBody op = BBuffer (TJson j) → dec j old = (a, None) →
  ∃ op', DecodeBodyAs op old = (op', a, None).
Proof.
  intros E B D. unfold DecodeBodyAs, DecodeBody. rewrite E, B. unfold Decode, Unmarshal.
  rewrite dec_den, D. cbn. rewrite of_to_den. eauto.
Qed.

Lemma DecodeBodyAs_value {A} `{Json A, !Embeds A} op (old a : A) :
  st_err (op_state op) = None → GetBody op = ValueOf a → ∃ op', DecodeBodyAs op old = (op', a, None).
Proof.
  intros E B. unfold DecodeBodyAs, DecodeBody. rewrite E, B. unfold ValueOf.
  destruct (decide (code_of = code_of)) as [D | D]; [| done].
  rewrite (proof_irrel D eq_refl). cbn. rewrite of_to_den. eauto.
Qed.

(** *** Many at once *)
#[local] Instance True_PreOrder : PreOrder (λ _ _ : W, True).
Proof. by split. Qed.

Lemma send_all_spec (R : W → W → Prop) `{!PreOrder R} (P : nat → Operation → Prop) sched ops (w : W) :
  NoDup sched → (∀ i, i ∈ sched → i < length ops) →
  (∀ i op (w : W), ops !! i = Some op → ∃ op' err w', SendWait op w = Ret (op', err, w') ∧ R w w' ∧ P i op') →
  ∃ ops' w', send_all sched ops w = Ret (ops', w') ∧ R w w' ∧ length ops' = length ops
    ∧ (∀ i, i ∈ sched → ∃ op', ops' !! i = Some op' ∧ P i op').
Proof.
  intros Hnd Hlt HP.
  assert (∀ ops1 w, length ops1 = length ops → (∀ i, i ∈ sched → ops1 !! i = ops !! i) →
    ∃ ops' w', send_all sched ops1 w = Ret (ops', w') ∧ R w w' ∧ length ops' = length ops
      ∧ (∀ i, i ∉ sched → ops' !! i = ops1 !! i) ∧ (∀ i, i ∈ sched → ∃ op', ops' !! i = Some op' ∧ P i op')) as Hgen.
  { clear w. induction sched as [| k sched IH]; intros ops1 w Hl Hag.
    - exists ops1, w. split_and!; try done. intros i []%not_elem_of_nil.
    - apply NoDup_cons in Hnd as [Hk Hnd]. cbn [send_all].
      destruct (lookup_lt_is_Some_2 ops k) as [op Hop]; [apply Hlt; set_solver |].
      rewrite (Hag k) by set_solver. rewrite Hop.
      destruct (HP k op w Hop) as (op' & err & w' & E & HR & Hp). rewrite E. cbn [out_bind].
      destruct (IH Hnd ltac:(set_solver) (<[k:=op']> ops1) w') as (ops' & w'' & E' & HR' & Hl' & Hn & Hy).
      + by rewrite length_insert.
      + intros i Hi. rewrite list_lookup_insert_ne by (intros ->; done). apply Hag. set_solver.
      + exists ops', w''. split_and!; [done | by etrans | done | |].
        * intros i Hi. rewrite Hn by set_solver. apply list_lookup_insert_ne. set_solver.
        * intros i Hi. destruct (decide (i = k)) as [-> |]; [| apply Hy; set_solver].
          exists op'. rewrite Hn by done. split; [| done]. apply list_lookup_insert_eq.
          rewrite Hl. apply Hlt. set_solver. }
  destruct (Hgen ops w eq_refl ltac:(done)) as (ops' & w' & E & HR & Hl & _ & Hy). eauto 6.
Qed.

(** A join of all its operations returns, with the first error that arrives. *)
Lemma Join_all os arrivals : length arrivals = length os →
  ∃ l, Join os arrivals = Some (match errs arrivals with [] => Ok l | e :: _ => Err e end).
Proof.
  intros Hlen. unfold Join, JoinN. destruct os as [| o os].
  { exists []. by destruct arrivals. }
  rewrite join_loop_spec by (cbn [length] in *; lia). cbn [length app] in *.
  pose proof (oks_errs_length arrivals). destruct (errs arrivals) as [| e l] eqn:E; cbn [length] in *.
  - rewrite decide_True by lia. eauto.
  - rewrite decide_False by lia. eexists []. done.
Qed.

Lemma errs_arrivals_of arr ops (rs : list (option error)) :
  (∀ i, i ∈ arr → ∃ op, ops !! i = Some op ∧ rs !! i = Some (Err_ op)) →
  errs (arrivals_of arr ops) = omap (λ i, default None (rs !! i)) arr ∧ length (arrivals_of arr ops) = length arr.
Proof.
  induction arr as [| i arr IH]; intros Hi; [done |]. destruct (Hi i) as (op & E1 & E2); [set_solver |].
  destruct IH as [IH1 IH2]; [set_solver |].
  assert (arrivals_of (i :: arr) ops = (i, Err_ op) :: arrivals_of arr ops) as -> by (unfold arrivals_of; simpl; by rewrite E1).
  assert (omap (λ i, default None (rs !! i)) (i :: arr)
    = match Err_ op with Some e => e :: omap (λ i, default None (rs !! i)) arr | None => omap (λ i, default None (rs !! i)) arr end) as ->
    by (simpl; by rewrite E2).
  cbn [errs length]. split; [| by rewrite IH2]. destruct (Err_ op); by rewrite IH1.
Qed.

(** [rs] says what each operation ends with. *)
Lemma send_join_run (P : nat → Operation → Prop) sched arr ops (w : W) :
  sched ≡ₚ seq 0 (length ops) → arr ≡ₚ seq 0 (length ops) →
  (∀ i op (w : W), ops !! i = Some op → ∃ op' w', SendWait op w = Ret (op', Err_ op', w') ∧ P i op') →
  ∃ ops' w', length ops' = length ops ∧ (∀ i op', ops' !! i = Some op' → P i op') ∧
    send_join sched arr ops w = Ret (match omap (λ i, ops' !! i ≫= Err_) arr with [] => Ok ops' | e :: _ => Err e end, w').
Proof.
  intros Hs Ha HP.
  destruct (send_all_spec (λ _ _, True) P sched ops w) as (ops' & w' & E & _ & Hl' & Hy).
  - rewrite Hs. apply NoDup_seq.
  - intros i. rewrite Hs, elem_of_seq. lia.
  - intros i op w0 Hop. destruct (HP i op w0 Hop) as (op' & w1 & E1 & H1). by exists op', (Err_ op'), w1.
  - exists ops', w'. split; [done |]. split.
    + intros i op' Hi. destruct (Hy i) as (? & ? & ?); [| by simplify_eq].
      rewrite Hs, elem_of_seq. apply lookup_lt_Some in Hi. lia.
    + unfold send_join. rewrite E. cbn [out_bind].
      destruct (errs_arrivals_of arr ops' (Err_ <$> ops')) as [He Hla].
      { intros i. rewrite Ha, <- Hs. intros Hi. destruct (Hy i Hi) as (op & Hop & _). exists op. split; [done |]. by rewrite list_lookup_fmap, Hop. }
      destruct (Join_all (seq 0 (length ops')) (arrivals_of arr ops')) as [l ->].
      { by rewrite Hla, Ha, !length_seq. }
      rewrite He. assert (omap (λ i, default None ((Err_ <$> ops') !! i)) arr = omap (λ i, ops' !! i ≫= Err_) arr) as ->; [| by destruct (omap (λ i, ops' !! i ≫= Err_) arr)].
      apply list_omap_ext, Forall2_same_length_lookup. split; [done |]. intros i x y -> [= ->].
      rewrite list_lookup_fmap. by destruct (ops' !! y).
Qed.

(** Whatever the operations end with, a join of them all returns. *)
Lemma send_join_returns (R : W → W → Prop) `{!PreOrder R} sched arr ops (w : W) :
  sched ≡ₚ seq 0 (length ops) → arr ≡ₚ seq 0 (length ops) →
  (∀ i op (w : W), ops !! i = Some op → ∃ op' err w', SendWait op w = Ret (op', err, w') ∧ R w w') →
  ∃ r w', send_join sched arr ops w = Ret (r, w') ∧ R w w'.
Proof.
  intros Hs Ha HP.
  destruct (send_all_spec R (λ _ _, True) sched ops w) as (ops' & w' & E & HR & Hl & Hy).
  - rewrite Hs. apply NoDup_seq.
  - intros i. rewrite Hs, elem_of_seq. lia.
  - intros i op w0 Hop. destruct (HP i op w0 Hop) as (op' & err & w1 & E1 & HR). by exists op', err, w1.
  - unfold send_join. rewrite E. cbn [out_bind].
    destruct (errs_arrivals_of arr ops' (Err_ <$> ops')) as [_ Hla].
    { intros i. rewrite Ha, <- Hs. intros Hi. destruct (Hy i Hi) as (op & Hop & _). exists op. split; [done |].
      by rewrite list_lookup_fmap, Hop. }
    destruct (Join_all (seq 0 (length ops')) (arrivals_of arr ops')) as [l ->].
    { by rewrite Hla, Ha, !length_seq. }
    destruct (errs _); by eexists _, w'.
Qed.
End exchanges.

(** ** Properties *)
Section provisioning_props.
Context `{GoTypes} {W : Type} `{Network W} (now : Z) (dcp : AddressFlag).
Context `{!Embeds DiskState} `{!Embeds ComputeState} `{!Embeds ComputeStateWithDescription}.

Lemma fresh_NewGet ctx u : fresh_op (NewGet now ctx u).
Proof. done. Qed.

(** Bodies are decoded in the order of the operations, up to the first that
    cannot be. *)
Definition decoded {A} `{Json A, Zero A, !Embeds A} (op : Operation) : res A := let '(_, v, e) := DecodeBodyAs op (zero : A) in as_res (v, e).
Lemma decode_all_spec {A} `{Json A, Zero A, !Embeds A} ops :
  match decode_all (A := A) ops with
  | Ok l => decoded <$> ops = Ok <$> l
  | Err e => ∃ i op, ops !! i = Some op ∧ decoded (A := A) op = Err e ∧ ∀ j op', j < i → ops !! j = Some op' → ∃ a : A, decoded op' = Ok a
  end.
Proof.
  induction ops as [| op ops IH]; [done |]. cbn [decode_all]. destruct (DecodeBodyAs op (zero : A)) as [[op1 v] e] eqn:E.
  assert (decoded (A := A) op = as_res (v, e)) as Hd by (unfold decoded; by rewrite E).
  destruct e as [e |]; cbn [as_res res_bind]; cbn [as_res] in Hd.
  - exists 0, op. split_and!; [done | done | lia].
  - destruct (decode_all ops) as [l | e]; cbn [res_bind].
    + rewrite !fmap_cons, IH, Hd. done.
    + destruct IH as (i & op' & D1 & D2 & D3). exists (S i), op'. split_and!; [done | done |].
      intros [| j] op2 Hj; [intros [= <-]; by exists v | apply D3; lia].
Qed.

(** Of no links, the address is not looked at. *)
Lemma GetDiskState_local l sched arr ctx links (w : W) : Local_ dcp = Some l →
  GetDiskState now dcp sched arr ctx links w
  = out_bind (send_join sched arr ((λ link, NewGet now ctx (Extend l link)) <$> links) w) (λ '(r, w),
      Ret (ops :=? r;; disks :=? decode_all ops;; Ok (merge_sort disk_le disks), w)).
Proof. intros Hl. unfold GetDiskState, local_in, local. rewrite Hl. by destruct links. Qed.
Lemma PatchDiskState_local l sched arr ctx disks (w : W) : Local_ dcp = Some l →
  PatchDiskState now dcp sched arr ctx disks w
  = out_bind (send_join sched arr ((λ disk, SetBody (ValueOf disk) (NewPatch now ctx (Extend l (sd_SelfLink (disk_ServiceDocument disk))) BNil)) <$> disks) w)
      (λ '(r, w), Ret (res_error r, w)).
Proof. intros Hl. unfold PatchDiskState, local_in, local. rewrite Hl. by destruct disks. Qed.

(** A read of a URI returns, with the operation in its last state. *)
Lemma SendWait_get ctx u (w : W) : ∃ op w', SendWait (NewGet now ctx u) w = Ret (op, Err_ op, w').
Proof.
  destruct (Send_settles (NewGet now ctx u) w u) as (op & w' & m & E & _); [done | done |].
  unfold SendWait. rewrite E. by exists op, w'.
Qed.

(** C22: the disks behind a list of links, over any network, whatever order the
    requests are sent in and their responses arrive in.  It always returns, when
    there is a local address (without one, it panics on the first link).  Every
    link is read once, with the retries of the client; the result is the error of
    the first read that failed, in the order of the arrivals; or else that of
    the first answer, in the order of the links, that is no disk; or else exactly
    the disks that were answered, ordered by boot order. *)
Theorem GetDiskState_spec (sched arr : list nat) (ctx : Context) (links : list string) (w : W) :
  sched ≡ₚ seq 0 (length links) → arr ≡ₚ seq 0 (length links) →
  match Local_ dcp with
  | None => links ≠ [] → GetDiskState now dcp sched arr ctx links w = Panic
  | Some l =>
      ∃ r w' ops, GetDiskState now dcp sched arr ctx links w = Ret (r, w') ∧
        Forall2 (λ link op, ∃ w1 w2, SendWait (NewGet now ctx (Extend l link)) w1 = Ret (op, Err_ op, w2)) links ops ∧
        match omap (λ i, ops !! i ≫= Err_) arr with
        | e :: _ => r = Err e
        | [] =>
            (∃ i op e, r = Err e ∧ ops !! i = Some op ∧ decoded (A := DiskState) op = Err e ∧
               ∀ j op', j < i → ops !! j = Some op' → ∃ d : DiskState, decoded op' = Ok d) ∨
            ∃ disks ds, r = Ok disks ∧ decoded <$> ops = Ok <$> ds ∧ disks ≡ₚ ds ∧ Sorted disk_le disks
        end
  end.
Proof.
  intros Hs Ha. destruct (Local_ dcp) as [l |] eqn:Hl.
  2:{ unfold GetDiskState, local_in, local. rewrite Hl. by destruct links. }
  rewrite (GetDiskState_local l) by done. set (ops := (λ link, NewGet now ctx (Extend l link)) <$> links).
  destruct (send_join_run (λ i op, ∀ link, links !! i = Some link → ∃ w1 w2, SendWait (NewGet now ctx (Extend l link)) w1 = Ret (op, Err_ op, w2))
    sched arr ops w) as (ops' & w' & Hlen & HP & E); [unfold ops; by rewrite length_fmap.. | |].
  { intros i op w0 Hop. apply list_lookup_fmap_Some in Hop as (link & -> & Hlink).
    destruct (SendWait_get ctx (Extend l link) w0) as (op' & w1 & E). exists op', w1. split; [done |]. intros link' ?. simplify_eq. by exists w0, w1. }
  rewrite E. cbn [out_bind]. unfold ops in Hlen. rewrite length_fmap in Hlen. eexists _, w', ops'. split; [done |]. split.
  { apply Forall2_same_length_lookup. split; [done |]. intros i link op Hlink Hop. by apply (HP i op Hop). }
  destruct (omap (λ i, ops' !! i ≫= Err_) arr) as [| e es]; [| done]. cbn [res_bind]. pose proof (decode_all_spec (A := DiskState) ops') as Hd.
  destruct (decode_all ops') as [ds | e]; cbn [res_bind].
  - right. exists (merge_sort disk_le ds), ds. split_and!; [done | done | apply merge_sort_Permutation |].
    apply Sorted_merge_sort. intros x y. unfold disk_le. lia.
  - left. destruct Hd as (i & op & D1 & D2 & D3). by exists i, op, e.
Qed.

(** Posting a compute that exists is no error: the state is left as it was.
    Any other error status is the error; a success decodes the answer over the
    state posted. *)
Theorem PostOneComputeState_spec (ctx : Context) (s : ComputeState) (w : W) (l : URI) :
  Local_ dcp = Some l →
  let op := SetBody (ValueOf s) (NewPost now ctx (Extend l Compute_path) BNil) in
  (∀ e, rejects (W := W) op e → isNetError e = false →
    ∃ w', PostOneComputeState now dcp ctx s w = Ret (s, if already_started e then None else Some e, w')) ∧
  (∀ j s', answers (W := W) op (TJson j) → dec j s = (s', None) →
    ∃ w', PostOneComputeState now dcp ctx s w = Ret (s', None, w')).
Proof.
  intros Hl op. unfold PostOneComputeState, post_over, local. rewrite Hl. fold op.
  assert (fresh_op op) as Hf by done. split.
  - intros e He Hn. destruct (SendWait_rejects op e w He Hf Hn) as (op' & w' & E1 & E2 & E3 & E4). exists w'.
    rewrite E1. cbn [out_bind]. destruct (already_started e); [| done].
    destruct (DecodeBodyAs_value op' s s) as [op'' ->]; [done | by apply E4 | done].
  - intros j s' Ha Hd. destruct (SendWait_answers op _ w Ha Hf) as (op' & w' & E1 & E2 & E3 & E4). exists w'.
    rewrite E1. cbn [out_bind]. by destruct (DecodeBodyAs_buffer op' j s s') as [op'' ->].
Qed.

Lemma inherit_eq (parent s : ComputeStateWithDescription) :
  let c := csd_ComputeState s in
  let d := csd_Description s in
  let or_parent own theirs := if str_empty own then theirs else own in
  inherit parent s
  = s <| csd_ComputeState := c <| cs_AdapterManagementReference :=
           or_parent (cs_AdapterManagementReference c) (cs_AdapterManagementReference (csd_ComputeState parent)) |> |>
      <| csd_Description := d <| cd_ZoneID := or_parent (cd_ZoneID d) (cd_ZoneID (csd_Description parent)) |> |>.
Proof.
  unfold inherit. destruct s as [c d]. cbn [csd_ComputeState csd_Description].
  destruct (str_empty (cs_AdapterManagementReference c)), (str_empty (cd_ZoneID d)) eqn:E; destruct c, d; cbn in *; rewrite ?E; done.
Qed.

(** A compute that is read with its parent keeps its own management
    reference and zone where it has them and takes over the parent's where it has
    not; nothing else changes.  Without a parent link it is an error. *)
Theorem GetChild_spec (ctx : Context) (u l : URI) (s child parent : ComputeStateWithDescription) (jc jp : json) (w : W) :
  Local_ dcp = Some l →
  answers (W := W) (NewGet now ctx (ExtendQuery u QueryExpand QueryComputeDescriptionLink)) (TJson jc) → dec jc s = (child, None) →
  answers (W := W) (NewGet now ctx (ExtendQuery (Extend l (cs_ParentLink (csd_ComputeState child))) QueryExpand QueryComputeDescriptionLink)) (TJson jp) →
  dec jp zero = (parent, None) →
  let c := csd_ComputeState child in
  let d := csd_Description child in
  let or_parent own theirs := if str_empty own then theirs else own in
  ∃ w', GetChildComputeStateWithDescription now dcp ctx (Some u) s w
  = Ret (if str_empty (cs_ParentLink c) then (child, Some (Errorf "parentLink is not set"), w')
         else (child <| csd_ComputeState := c <| cs_AdapterManagementReference :=
                          or_parent (cs_AdapterManagementReference c) (cs_AdapterManagementReference (csd_ComputeState parent)) |> |>
                     <| csd_Description := d <| cd_ZoneID := or_parent (cd_ZoneID d) (cd_ZoneID (csd_Description parent)) |> |>,
               None, w')).
Proof.
  intros Hl Hc Hdc Hp Hdp c d or_parent. unfold GetChildComputeStateWithDescription, GetComputeStateWithDescription, get_into, deref, exchange.
  destruct (SendWait_answers _ _ w Hc (fresh_NewGet _ _)) as (op1 & w1 & E1 & _ & B1 & S1). rewrite E1. cbn [out_bind].
  destruct (DecodeBodyAs_buffer op1 jc s child S1 B1 Hdc) as [op1' ->]. cbn [out_bind].
  unfold GetInheritedParentComputeState. fold c. destruct (str_empty (cs_ParentLink c)); [by exists w1 |].
  unfold local. rewrite Hl. unfold GetComputeStateWithDescription, get_into, deref, exchange.
  destruct (SendWait_answers _ _ w1 Hp (fresh_NewGet _ _)) as (op2 & w2 & E2 & _ & B2 & S2). unfold c. rewrite E2. cbn [out_bind].
  destruct (DecodeBodyAs_buffer op2 jp (zero : ComputeStateWithDescription) parent S2 B2 Hdp) as [op2' ->]. cbn [out_bind]. exists w2.
  by rewrite inherit_eq.
Qed.
End provisioning_props.

(** ** Tasks are reported *)
Section task_props.
Context `{GoTypes} {W : Type} `{Network W} (now : Z) (stack : bytes).
Context `{!Embeds ComputeSubTaskState}.
(** The requests the network has seen. *)
Context (log : W → list HttpRequest) (Do_log : ∀ req w, log (Do req w).2 = log w ++ [req]).

Lemma doSend_log req w a req' w' : doSend req w = (a, req', w') → log w' = log w ++ [req].
Proof.
  unfold doSend. pose proof (Do_log req w) as L. destruct (Do req w) as [[[| r | e] req1] w1]; cbn in L.
  - by intros [= _ _ <-].
  - destruct (responseToError req r); by intros [= _ _ <-].
  - by intros [= _ _ <-].
Qed.

Lemma send_loop_log fuel req op (w : W) ds op' w' ds' :
  send_loop fuel req op w ds = Some (Ret (op', w', ds')) → ∃ rest, log w' = log w ++ req :: rest.
Proof.
  revert req op w ds. induction fuel as [| fuel IH]; intros req op w ds; [done |]. cbn [send_loop].
  destruct (doSend req w) as [[a req1] w1] eqn:E. apply doSend_log in E.
  destruct a as [| r | e].
  - intros [= _ <- _]. by exists [].
  - intros [= _ <- _]. by exists [].
  - destruct (isNetError e); cbn [negb]; [| intros [= _ <- _]; by exists []].
    destruct (DecrementRetriesRemaining op) as [n op1]. case_decide; [intros [= _ <- _]; by exists [] |].
    destruct (WaitForRetryDelay op1); [| done]. intros [rest L]%IH. rewrite E, <- (assoc_L (++)) in L. eauto.
Qed.

Lemma SendWait_log op op1 req (w : W) :
  CreateRequest op = Ret (op1, Ok req) → fresh_op op → op_retriesRemaining op = op_retryCount op1 →
  ∃ op' err w' rest, SendWait op w = Ret (op', err, w') ∧ log w' = log w ++ req :: rest.
Proof.
  intros E Hf Hr. destruct (CreateRequest_keeps _ _ _ E Hf) as [_ Hk].
  destruct (send_loop_spec (S (Z.to_nat (GetRetriesRemaining (Start op1)))) req (Start op1) w [] 0) as (op' & w' & m & Es & _).
  - change (op_retriesRemaining (Start op1)) with (op_retriesRemaining op1). change (op_retryCount (Start op1)) with (op_retryCount op1). lia.
  - unfold GetRetriesRemaining. lia.
  - change (op_retriesRemaining (Start op1)) with (op_retriesRemaining op1). change (op_retryCount (Start op1)) with (op_retryCount op1). lia.
  - destruct (send_loop_log _ _ _ _ _ _ _ _ Es) as [rest L]. exists op', (Err_ op'), w', rest. unfold SendWait, Send.
    rewrite E. cbn zeta. rewrite Es. done.
Qed.

(** A failure is recorded in the task and reported: the stage is FAILED, the
    message is the caller's with the error's, and the first request the network
    sees is a PATCH of the task's reference with the state as it then is. *)
Theorem PatchFailure_reports (t : TaskStateWrapper ComputeSubTaskState) (u pu : URI) (i : TaskState) (trace : list string)
    (msg : string) (err : error) (w : W) :
  tw_reference t = Some u → url_Parse (URL_String u) = Ok pu →
  sub_task_TaskInfo (tw_backing t) = Some i → stack_lines (lines (take 4096 stack)) = Ret trace →
  let failed := {| ts_Stage := TaskStageFailed; ts_Direct := ts_Direct i;
                   ts_Failure := Some {| ser_Message := msg +:+ ": " +:+ Error err; ser_StackTrace := trace; ser_StatusCode := 0 |} |} in
  let a := (tw_backing t) <| sub_task_TaskInfo := Some failed |> in
  ∃ w' req rest, PatchFailure now stack msg err t w = Ret (with_backing a t, w')
    ∧ log w' = log w ++ req :: rest
    ∧ rq_Method req = "PATCH"%string ∧ rq_URL req = pu ∧ rq_Body req = Some (TJson (enc a)).
Proof.
  intros Hu Hp Hi Hs failed a. unfold PatchFailure, SetFailure. cbn [sub_task_backing]. unfold on_info. rewrite Hi.
  unfold TaskState_SetFailure, ToServerErrorResponse. rewrite Hs. cbn [out_bind].
  change ((tw_backing t) <| sub_task_TaskInfo := _ |>) with a.
  unfold patch. cbn [with_backing tw_reference tw_backing tw_ctx]. rewrite Hu. unfold deref.
  set (op := SetBody (ValueOf a) (NewPatch now (tw_ctx t) u BNil)).
  assert (∃ op1 req, CreateRequest op = Ret (op1, Ok req) ∧ op_retryCount op1 = op_retryCount op
    ∧ rq_Method req = "PATCH"%string ∧ rq_URL req = pu ∧ rq_Body req = Some (TJson (enc a))) as (op1 & req & E & Hr & Hm & Hpu & Hb).
  { unfold CreateRequest, op. cbn. unfold NewRequest. rewrite Hp. cbn. eexists _, _. split; [done |].
    destruct (str_empty _); cbn; rewrite enc_den; done. }
  destruct (SendWait_log op op1 req w E) as (op' & er & w' & rest & Es & L); [done | by rewrite Hr |].
  rewrite Es. cbn [out_bind]. by exists w', req, rest.
Qed.
End task_props.

(** ** Examples: one type of bodies, and a network that answers by a function *)
Definition one_type (A : Type) `{Json A} : GoTypes := {| ty := unit; den := λ _, A; codec := λ _, _ |}.
Definition one_embeds (A : Type) `{Json A} : @Embeds (one_type A) A _.
Proof. refine (@Build_Embeds (one_type A) A _ tt (λ a : A, a) (λ a : A, a) _ _ _); [done | done |]. intros j a. apply surjective_pairing. Defined.
Definition function_network (f : HttpRequest → attempt) : Network () :=
  {| Do := λ req w, (f req, req, w); json_text := λ _, [] |}.

Definition attempted `{GoTypes} (f : HttpRequest → attempt) (op : Operation) : option attempt :=
  match CreateRequest op with Ret (_, Ok req) => Some (f req) | _ => None end.

Lemma attempted_answers `{GoTypes} f op r x :
  attempted f op = Some (Answered r) → (200 ≤ res_StatusCode r < 400)%Z → res_Body r = Ok x →
  @answers _ () (function_network f) op x.
Proof.
  unfold attempted. intros E Hs Hb. destruct (CreateRequest op) as [[op' [req | e]] |] eqn:C; try done.
  injection E as E. exists op', req. split; [done |]. intros w. exists r, req, w. simpl. by rewrite E.
Qed.

Lemma attempted_rejects `{GoTypes} f op e :
  match CreateRequest op with
  | Ret (_, Ok req) => match f req with Answered r => @responseToError () (function_network f) req r | _ => None end
  | _ => None
  end = Some e →
  @rejects _ () (function_network f) op e.
Proof.
  intros E. destruct (CreateRequest op) as [[op' [req | e']] |] eqn:C; try done.
  destruct (f req) as [| r |] eqn:F; try done.
  exists op', req. split; [done |]. intros w. exists r, req, w. simpl. by rewrite F.
Qed.

Definition ok_response (j : json) : HttpResponse :=
  {| res_StatusCode := 200; res_Status := "200 OK"; res_Header := []; res_Body := Ok (TJson j) |}.
Definition ok_json (j : json) : attempt := Answered (ok_response j).
Definition sample_disk (n : Z) : DiskState := (zero : DiskState) <| disk_BootOrder := n |>.
Definition sample_disks (req : HttpRequest) : attempt :=
  ok_json (enc (sample_disk (if decide (u_Path (rq_URL req) = s2b "/disks/a") then 2 else 1))).
Definition sample_local : URI := default empty_URL (Local_ {| af_host := ""; af_port := "" |}).

(** The link of the second disk is answered by something else. *)
Definition sample_disks_bad (req : HttpRequest) : attempt :=
  if decide (u_Path (rq_URL req) = s2b "/disks/a") then sample_disks req else ok_json (JStr "x").
Lemma GetDiskState_spec_witness :
  let types := one_type DiskState in let emb := one_embeds DiskState in
  let get f := GetDiskState (H0 := function_network f) (W := ()) 0 {| af_host := ""; af_port := "" |} [1; 0] [0; 1] Background ["/disks/a"; "/disks/b"]%string () in
  get sample_disks = Ret (Ok [sample_disk 1; sample_disk 2], ()) ∧
  match get (λ _, Broken EOF), get sample_disks_bad with Ret (Err _, _), Ret (Err _, _) => True | _, _ => False end ∧
  ∃ r w' ops, get sample_disks = Ret (r, w') ∧ length ops = 2 ∧
    match omap (λ i, ops !! i ≫= Err_) [0; 1] with
    | e :: _ => r = Err e
    | [] => (∃ e, r = Err e) ∨ ∃ disks ds, r = Ok disks ∧ decoded <$> ops = Ok <$> ds ∧ disks ≡ₚ ds ∧ Sorted disk_le disks
    end.
Proof.
  intros types emb get. split; [vm_compute; reflexivity |]. split; [vm_compute; exact I |].
  pose proof (GetDiskState_spec (H0 := function_network sample_disks) (W := ()) 0 {| af_host := ""; af_port := "" |} [1; 0] [0; 1] Background
    ["/disks/a"; "/disks/b"]%string () (Permutation_swap _ _ _) (Permutation_refl _)) as P.
  assert (Local_ {| af_host := ""; af_port := "" |} = Some sample_local) as Hl by (vm_compute; reflexivity).
  rewrite Hl in P. destruct P as (r & w' & ops & E & Hf & Hr). exists r, w', ops. split; [exact E |].
  split; [symmetry; exact (Forall2_length _ _ _ Hf) |]. destruct (omap _ _) as [| e es]; [| exact Hr].
  destruct Hr as [(i & op & e & Hr & _) | Hr]; [left; exists e; exact Hr | right; exact Hr].
Defined.

Definition sample_compute : ComputeState := (zero : ComputeState) <| cs_ID := "c1" |>.
(** The factory answers 500 with a message. *)
Definition conflict (msg : string) (_ : HttpRequest) : attempt :=
  Answered {| res_StatusCode := 500; res_Status := "500"; res_Header := []; res_Body := Ok (TRaw (s2b msg)) |}.
Definition conflict_error : error :=
  Errorf "dcp client POST http://127.0.0.1:19000/resources/compute: 500 (500) Service already started: c1".

Lemma PostOneComputeState_spec_witness :
  let types := one_type ComputeState in let emb := one_embeds ComputeState in
  let net := function_network (conflict "Service already started: c1") in
  ∃ w', PostOneComputeState (W := ()) 0 {| af_host := ""; af_port := "" |} Background sample_compute () = Ret (sample_compute, None, w').
Proof.
  intros types emb net.
  assert (Local_ {| af_host := ""; af_port := "" |} = Some sample_local) as Hl by (vm_compute; reflexivity).
  assert (already_started conflict_error = true) as Ha by (vm_compute; reflexivity).
  pose proof (proj1 (PostOneComputeState_spec (W := ()) 0 _ Background sample_compute () _ Hl) conflict_error) as P.
  rewrite Ha in P. apply P; [clear P | reflexivity].
  eapply attempted_rejects; vm_compute; reflexivity.
Defined.

Definition sample_child : ComputeStateWithDescription :=
  (zero : ComputeStateWithDescription) <| csd_ComputeState := sample_compute <| cs_ParentLink := "/parent" |> |>.
Definition sample_parent : ComputeStateWithDescription :=
  (zero : ComputeStateWithDescription) <| csd_Description := (zero : ComputeDescription) <| cd_ZoneID := "z" |> |>.
Definition sample_family (req : HttpRequest) : attempt :=
  ok_json (enc (if decide (u_Path (rq_URL req) = s2b "/child") then sample_child else sample_parent)).

Lemma GetChild_spec_witness :
  let types := one_type ComputeStateWithDescription in let emb := one_embeds ComputeStateWithDescription in
  let net := function_network sample_family in
  ∃ w', GetChildComputeStateWithDescription (W := ()) 0 {| af_host := ""; af_port := "" |} Background
    (Some (Extend sample_local "/child")) zero ()
  = Ret (sample_child <| csd_Description := (zero : ComputeDescription) <| cd_ZoneID := "z" |> |>, None, w').
Proof.
  intros types emb net.
  apply (GetChild_spec (W := ()) 0 {| af_host := ""; af_port := "" |} Background (Extend sample_local "/child") sample_local
    zero sample_child sample_parent (enc sample_child) (enc sample_parent) ()).
  - vm_compute. reflexivity.
  - apply (attempted_answers _ _ (ok_response (enc sample_child))); [vm_compute; reflexivity | done | reflexivity].
  - vm_compute. reflexivity.
  - apply (attempted_answers _ _ (ok_response (enc sample_parent))); [vm_compute; reflexivity | done | reflexivity].
  - vm_compute. reflexivity.
Defined.

(** A network that remembers what it saw. *)
Definition log_network : Network (list HttpRequest) :=
  {| Do := λ req w, (ok_json JNull, req, w ++ [req]); json_text := λ _, [] |}.

Lemma PatchFailure_reports_witness :
  let types := one_type ComputeSubTaskState in let emb := one_embeds ComputeSubTaskState in let net := log_network in
  let t := NewTaskStateWrapper Background (Some sample_local) NewComputeSubTaskState in
  ∃ w' req rest,
    PatchFailure (W := list HttpRequest) 0 [] "no disk" ErrNotExist t []
      = Ret (with_backing (NewComputeSubTaskState <| sub_task_TaskInfo := Some
          {| ts_Stage := TaskStageFailed; ts_Direct := false;
             ts_Failure := Some {| ser_Message := "no disk: file does not exist"; ser_StackTrace := []; ser_StatusCode := 0 |} |} |>) t, w')
    ∧ w' = [] ++ req :: rest ∧ rq_Method req = "PATCH"%string ∧ rq_URL req = sample_local
    ∧ ∃ j, rq_Body req = Some (TJson j).
Proof.
  intros types emb net t.
  assert (∀ req (w : list HttpRequest), (Do req w).2 = w ++ [req]) as HL by done.
  destruct (PatchFailure_reports (W := list HttpRequest) 0 [] (λ w, w) HL t sample_local sample_local NewTaskState []
    "no disk" ErrNotExist [] eq_refl ltac:(vm_compute; reflexivity) eq_refl eq_refl) as (w' & req & rest & H1 & H2 & H3 & H4 & H5).
  exists w', req, rest. split_and!; [exact H1 | exact H2 | exact H3 | exact H4 | eexists; exact H5].
Defined.
