(* ===== verification/Effects.v ===== *)
(** Calls that may fail, in a world they change.

    Most functions of the adapters call others, look at the error, and return it
    or go on.  [eff V A] is such a call: it takes the world [V] to a result and
    the next world, or panics.  [x :=! m;; k] goes on when [m] succeeds and
    returns its error otherwise; [x :=* m;; k] goes on with whatever it returned.

    [safe R m Q]: the call never panics, its worlds are related by the preorder
    [R], and what it returns without an error satisfies [Q]. *)

From S2P Require Import Prelude.
From Stdlib Require Import ZArith Lia.

Definition eff (V A : Type) : Type := V → outcome (res A * V).

Section eff.
Context {V : Type}.

Definition eret {A} (a : A) : eff V A := λ v, Ret (Ok a, v).
Definition efail {A} (e : error) : eff V A := λ v, Ret (Err e, v).
Definition ecatch {A B} (m : eff V A) (k : res A → eff V B) : eff V B := λ v, out_bind (m v) (λ '(r, v), k r v).
Definition ebind {A B} (m : eff V A) (k : A → eff V B) : eff V B :=
  ecatch m (λ r, match r with Ok a => k a | Err e => efail e end).
Definition of_res {A} (r : res A) : eff V A := λ v, Ret (r, v).
(** A nil dereference, when there is no value. *)
Definition of_ptr {A} (o : option A) : eff V A := λ v, match o with Some a => Ret (Ok a, v) | None => Panic end.

(** Parsing that may panic. *)
Definition of_outcome {A} (o : outcome (res A)) : eff V A := λ v, out_bind o (λ r, Ret (r, v)).

(** Functions in the forms they have elsewhere. *)
Definition call {A} (f : V → outcome (A * option error * V)) : eff V A :=
  λ v, out_bind (f v) (λ '(a, e, v), Ret (match e with Some e => Err e | None => Ok a end, v)).
Definition call_ (f : V → outcome (option error * V)) : eff V () :=
  λ v, out_bind (f v) (λ '(e, v), Ret (match e with Some e => Err e | None => Ok tt end, v)).
End eff.

(** A call that changes only the first half of the world, and one that changes
    only the second, and cannot panic. *)
Definition on_fst {V C A} (m : eff V A) : eff (V * C) A :=
  λ '(v, c), out_bind (m v) (λ '(r, v), Ret (r, (v, c))).
Definition on_snd {V C A} (f : C → res A * C) : eff (V * C) A :=
  λ '(v, c), let '(r, c) := f c in Ret (r, (v, c)).

Definition on_net {V C} (f : V → outcome V) (v : V * C) : outcome (V * C) := out_bind (f v.1) (λ w, Ret (w, v.2)).

Notation "x ':=!' m ';;' k" := (ebind m (λ x, k))
  (at level 100, m at next level, k at level 200, right associativity) : go_scope.
Notation "x ':=*' m ';;' k" := (ecatch m (λ x, k))
  (at level 100, m at next level, k at level 200, right associativity) : go_scope.

Notation "' x ':=!' m ';;' k" := (ebind m (λ x, k))
  (at level 100, x strict pattern, m at next level, k at level 200, right associativity) : go_scope.

(** What a sequence returned comes from its parts. *)
Lemma ecatch_inv {V A B} (m : eff V A) (k : res A → eff V B) v r v' : ecatch m k v = Ret (r, v') →
  ∃ r1 v1, m v = Ret (r1, v1) ∧ k r1 v1 = Ret (r, v').
Proof. unfold ecatch. destruct (m v) as [[r1 v1] |]; [| done]. intros E. by exists r1, v1. Qed.
Lemma ebind_inv {V A B} (m : eff V A) (k : A → eff V B) v r v' : ebind m k v = Ret (r, v') →
  ∃ r1 v1, m v = Ret (r1, v1) ∧ match r1 with Ok a => k a v1 = Ret (r, v') | Err e => r = Err e ∧ v' = v1 end.
Proof.
  unfold ebind. intros (r1 & v1 & E1 & E)%ecatch_inv. exists r1, v1. split; [done |]. destruct r1; [done |].
  by injection E as <- <-.
Qed.

(** ** Calls that are safe *)
Section safe.
Context {V : Type} (R : V → V → Prop) `{!PreOrder R}.

Definition safe {A} (m : eff V A) (Q : A → Prop) : Prop :=
  ∀ v, ∃ r v', m v = Ret (r, v') ∧ R v v' ∧ ∀ a, r = Ok a → Q a.

Lemma safe_weaken {A} (m : eff V A) (Q Q' : A → Prop) : safe m Q → (∀ a, Q a → Q' a) → safe m Q'.
Proof. intros Hm HQ v. destruct (Hm v) as (r & v' & E & Hr & Ha). exists r, v'. split_and!; auto. Qed.

Lemma safe_true {A} (m : eff V A) (Q : A → Prop) : safe m Q → safe m (λ _, True).
Proof. intros Hm. by eapply safe_weaken. Qed.

Lemma safe_ret {A} (a : A) (Q : A → Prop) : Q a → safe (eret a) Q.
Proof. intros Ha v. exists (Ok a), v. split_and!; [done | done |]. by intros ? [= <-]. Qed.
Lemma safe_fail {A} e (Q : A → Prop) : safe (efail e) Q.
Proof. intros v. by exists (Err e), v. Qed.
Lemma safe_of_res {A} (r : res A) (Q : A → Prop) : (∀ a, r = Ok a → Q a) → safe (of_res r) Q.
Proof. intros Hr v. by exists r, v. Qed.
Lemma safe_of_ptr {A} (o : option A) (Q : A → Prop) : is_Some o → (∀ a, o = Some a → Q a) → safe (of_ptr o) Q.
Proof. intros [a ->] Hr v. exists (Ok a), v. split_and!; [done | done |]. intros ? [= <-]. by apply Hr. Qed.

Lemma safe_catch {A B} (m : eff V A) (k : res A → eff V B) (Q : A → Prop) (Q' : B → Prop) :
  safe m Q → (∀ r, (∀ a, r = Ok a → Q a) → safe (k r) Q') → safe (ecatch m k) Q'.
Proof.
  intros Hm Hk v. unfold ecatch. destruct (Hm v) as (r & v1 & -> & H1 & Ha). cbn [out_bind].
  destruct (Hk r Ha v1) as (r2 & v2 & -> & H2 & Hb). exists r2, v2. split_and!; [done | by etrans | done].
Qed.
Lemma safe_bind {A B} (m : eff V A) (k : A → eff V B) (Q : A → Prop) (Q' : B → Prop) :
  safe m Q → (∀ a, Q a → safe (k a) Q') → safe (ebind m k) Q'.
Proof.
  intros Hm Hk. apply (safe_catch _ _ Q); [done |]. intros [a | e] Ha; [by apply Hk, Ha | apply safe_fail].
Qed.

Lemma safe_call {A} (f : V → outcome (A * option error * V)) (Q : A → Prop) :
  (∀ v, ∃ a e v', f v = Ret (a, e, v') ∧ R v v' ∧ (e = None → Q a)) → safe (call f) Q.
Proof.
  intros Hf v. destruct (Hf v) as (a & e & v' & E & Hr & HQ). unfold call. rewrite E. cbn [out_bind].
  eexists _, v'. split_and!; [done | done |]. intros a' Ha. destruct e; simplify_eq. by apply HQ.
Qed.
Lemma safe_call_ (f : V → outcome (option error * V)) :
  (∀ v, ∃ e v', f v = Ret (e, v') ∧ R v v') → safe (call_ f) (λ _, True).
Proof.
  intros Hf v. destruct (Hf v) as (e & v' & E & Hr). unfold call_. rewrite E. cbn [out_bind]. by eexists _, v'.
Qed.
End safe.

(** ** Calls that may panic

    [partly R m Q]: when the call returns, it is as [safe] says. *)
Section partly.
Context {V : Type} (R : V → V → Prop) `{!PreOrder R}.

Definition partly {A} (m : eff V A) (Q : A → Prop) : Prop :=
  ∀ v r v', m v = Ret (r, v') → R v v' ∧ ∀ a, r = Ok a → Q a.

Lemma partly_safe {A} (m : eff V A) (Q : A → Prop) : safe R m Q → partly m Q.
Proof. intros Hm v r v' E. destruct (Hm v) as (r1 & v1 & E1 & HR & HQ). rewrite E in E1. injection E1 as -> ->. by split. Qed.

Lemma partly_catch {A B} (m : eff V A) (k : res A → eff V B) (Q : A → Prop) (Q' : B → Prop) :
  partly m Q → (∀ r, (∀ a, r = Ok a → Q a) → partly (k r) Q') → partly (ecatch m k) Q'.
Proof.
  intros Hm Hk v r v'. unfold ecatch. destruct (m v) as [[r1 v1] |] eqn:Em; cbn [out_bind]; [| done]. intros Ek.
  apply Hm in Em as [H1 HQ]. apply (Hk r1 HQ) in Ek as [H2 HQ']. split; [by etrans | done].
Qed.
Lemma partly_bind {A B} (m : eff V A) (k : A → eff V B) (Q : A → Prop) (Q' : B → Prop) :
  partly m Q → (∀ a, Q a → partly (k a) Q') → partly (ebind m k) Q'.
Proof.
  intros Hm Hk. apply (partly_catch _ _ Q); [done |]. intros [a | e] Ha; [by apply Hk, Ha |].
  apply partly_safe, safe_fail. apply _.
Qed.
Lemma partly_of_ptr {A} (o : option A) : partly (of_ptr o) (λ a, o = Some a).
Proof. intros v r v'. unfold of_ptr. destruct o; [| done]. intros [= <- <-]. split; [done |]. by intros ? [= <-]. Qed.
End partly.
Lemma partly_on_fst {V C A} (R : V → V → Prop) (m : eff V A) (Q : A → Prop) :
  partly R m Q → partly (λ x y : V * C, R x.1 y.1) (on_fst m) Q.
Proof.
  intros Hm [v c] r v'. unfold on_fst. destruct (m v) as [[r1 v1] |] eqn:E; cbn [out_bind]; [| done]. intros [= <- <-]. by apply Hm in E.
Qed.

(** The same for half of the world. *)
Lemma safe_on_fst {V C A} (R : V → V → Prop) (m : eff V A) (Q : A → Prop) :
  safe R m Q → safe (λ x y : V * C, R x.1 y.1) (on_fst m) Q.
Proof.
  intros Hm [v c]. destruct (Hm v) as (r & v' & E & Hr & Ha). unfold on_fst. rewrite E. by exists r, (v', c).
Qed.
Lemma safe_on_snd {V C A} (R : V → V → Prop) `{!Reflexive R} (f : C → res A * C) (Q : A → Prop) :
  (∀ c a c', f c = (Ok a, c') → Q a) → safe (λ x y : V * C, R x.1 y.1) (on_snd f) Q.
Proof.
  intros Hf [v c]. unfold on_snd. destruct (f c) as [r c'] eqn:E. exists r, (v, c'). split_and!; [done | done |].
  intros a ->. by eapply Hf.
Qed.

Create HintDb safe.
#[export] Hint Resolve safe_fail : safe.
#[export] Hint Extern 1 (safe _ (eret _) _) => apply safe_ret; [try done] : safe.
#[export] Hint Extern 1 (safe _ (of_res _) _) => apply safe_of_res; [try done] : safe.
