(* ===== verification/Tasks.v ===== *)
(** The reports of a task, as the task sees them.

    The adapters acknowledge a request, and report on the task it belongs to by
    PATCHing the task's state.  Given a network that remembers the requests it
    was sent, [stages] is the sequence of the stages of those reports; the lemmas
    say what each step of an adapter adds to it.  Every attempt to send a request
    counts: when the connection breaks, the client tries again, so that a report
    is there up to three times in a row ([tells]), and it may be lost in the end.
    [Task] collects what is assumed of the network. *)

From S2P Require Import Prelude Effects GoPath GoNet GoJson GoURL DcpCommon DcpUri Operation Client ProvTypes Provisioning.
From Stdlib Require Import ZArith Lia.

(** [%s] of a URI; fmt recovers from the nil dereference. *)
Definition show_uri (u : option URI) : string := match u with Some u => URL_String u | None => "<nil>" end.

(** The first value of a key. *)
Fixpoint assoc (k : string) (o : list (string * json)) : option json :=
  match o with [] => None | (k', j) :: o => if decide (k' = k) then Some j else assoc k o end.

(** The stage of a report. *)
Definition stage_of (j : json) : option string :=
  match j with
  | JObj o =>
      match assoc "taskInfo" o with
      | Some (JObj t) => match assoc "stage" t with Some (JStr s) => Some s | _ => None end
      | _ => None
      end
  | _ => None
  end.
Definition task_stage (req : HttpRequest) : option string :=
  match rq_Body req with Some (TJson j) => stage_of j | _ => None end.

Lemma assoc_enc {A} (fs : list (field A)) (a : A) f :
  NoDup (f_name <$> fs) → f ∈ fs → assoc (f_name f) (omap (λ f, pair (f_name f) <$> f_enc f a) fs) = f_enc f a.
Proof.
  induction fs as [| g fs IH]; intros Hnd Hin; [by apply not_elem_of_nil in Hin |].
  apply NoDup_cons in Hnd as [Hg Hnd]. simpl. apply elem_of_cons in Hin as [-> | Hin].
  - destruct (f_enc g a) as [j |] eqn:E; simpl; [by rewrite decide_True |].
    clear IH Hnd. induction fs as [| h fs IH]; [done |]. simpl in *. apply not_elem_of_cons in Hg as [Hgh Hg].
    destruct (f_enc h a); simpl; [rewrite decide_False by congruence |]; auto.
  - destruct (f_enc g a) as [j |]; simpl; [| auto]. rewrite decide_False; [auto |].
    intros E. apply Hg. rewrite E. by apply list_elem_of_fmap_2.
Qed.

Lemma assoc_enc_None {A} (fs : list (field A)) (a : A) k :
  k ∉ (f_name <$> fs) → assoc k (omap (λ f, pair (f_name f) <$> f_enc f a) fs) = None.
Proof.
  induction fs as [| g fs IH]; intros Hk; [done |]. simpl in *. apply not_elem_of_cons in Hk as [Hg Hk].
  destruct (f_enc g a); simpl; [rewrite decide_False by congruence |]; auto.
Qed.

(** Documents without a field of this name are no reports. *)
Lemma stage_of_none {A} (fs : list (field A)) (a : A) : "taskInfo"%string ∉ (f_name <$> fs) → stage_of (enc_struct fs a) = None.
Proof. intros Hk. unfold stage_of, enc_struct. by rewrite assoc_enc_None. Qed.

(** The states of tasks: their information is what is reported. *)
Class Reporter (A : Type) `{Json A, TaskBacking A} := {
  task_info : A → option TaskState;
  SetStage_info : ∀ stage a i, task_info a = Some i →
    ∃ a' i', SetStage stage a = Ret a' ∧ task_info a' = Some i' ∧ ts_Stage i' = stage;
  SetFailure_info : ∀ stack err a i r, task_info a = Some i → ToServerErrorResponse stack err = Ret r →
    ∃ a' i', SetFailure stack err a = Ret a' ∧ task_info a' = Some i' ∧ ts_Stage i' = TaskStageFailed;
  reported : ∀ a i, task_info a = Some i → ts_Stage i ≠ ""%string → stage_of (enc a) = Some (ts_Stage i)
}.

Lemma stage_of_info {A} (fs : list (field A)) get set (a : A) (i : TaskState) :
  let f := omitempty "taskInfo" get set ptr_empty (enc_ptr enc) (dec_ptr dec) in
  NoDup (f_name <$> fs) → f ∈ fs → get a = Some i → ts_Stage i ≠ ""%string → stage_of (enc_struct fs a) = Some (ts_Stage i).
Proof.
  intros f Hnd Hin Hi Hs. unfold stage_of, enc_struct. pose proof (assoc_enc fs a f Hnd Hin) as E.
  change (f_name f) with "taskInfo"%string in E. rewrite E. cbn [f f_enc omitempty]. rewrite Hi. cbn [ptr_empty enc_ptr].
  change (enc i) with (enc_struct TaskState_fields i). unfold enc_struct, TaskState_fields. cbn.
  replace (str_empty (ts_Stage i)) with false by (symmetry; by apply String.eqb_neq). reflexivity.
Qed.

#[export] Instance sub_task_reporter : Reporter ComputeSubTaskState.
Proof.
  refine {| task_info := sub_task_TaskInfo |}.
  - intros stage a i Hi. cbn [SetStage sub_task_backing]. unfold on_info. rewrite Hi. by eexists _, _.
  - intros stack err a i r Hi Hr. cbn [SetFailure sub_task_backing]. unfold on_info, TaskState_SetFailure. rewrite Hi, Hr. by eexists _, _.
  - intros a i. apply (stage_of_info ComputeSubTaskState_fields sub_task_TaskInfo (λ x s, s <| sub_task_TaskInfo := x |>)).
    + apply (bool_decide_unpack _). vm_compute. exact I.
    + unfold ComputeSubTaskState_fields. apply elem_of_app. right. by left.
Defined.
#[export] Instance enumeration_reporter : Reporter ResourceEnumerationTaskState.
Proof.
  refine {| task_info := ret_TaskInfo |}.
  - intros stage a i Hi. cbn [SetStage enumeration_backing]. unfold on_info. rewrite Hi. by eexists _, _.
  - intros stack err a i r Hi Hr. cbn [SetFailure enumeration_backing]. unfold on_info, TaskState_SetFailure. rewrite Hi, Hr. by eexists _, _.
  - intros a i. apply (stage_of_info ResourceEnumerationTaskState_fields ret_TaskInfo (λ x r, r <| ret_TaskInfo := x |>)).
    + apply (bool_decide_unpack _). vm_compute. exact I.
    + unfold ResourceEnumerationTaskState_fields. apply elem_of_app. right. by left.
Defined.

Section tasks.
Context `{GoTypes} {W : Type} `{Network W} (now : Z) (stack : bytes).

Class Task (log : W → list HttpRequest) := {
  Do_log : ∀ req w, log (Do req w).2 = log w ++ [req];
  (** what an attempt leaves of a request is the request as it was, when its body
      was not read, or one without a document *)
  Do_rest : ∀ req w, task_stage (Do req w).1.2 = None ∨ task_stage (Do req w).1.2 = task_stage req
}.
Context (log : W → list HttpRequest) `{!Task log}.

Definition stages (w : W) : list string := omap task_stage (log w).

(** No report meets a broken connection. *)
Definition prompt : Prop := ∀ req w e, is_Some (task_stage req) → (Do req w).1.1 = Broken e → isNetError e = false.

(** The attempts for a request, [k] at most, all with its stage, when it has one. *)
Definition resent (n : nat) (o : option string) : list string := match o with Some s => replicate n s | None => [] end.
Definition tells (k : nat) (o : option string) (w w' : W) : Prop :=
  ∃ n, 1 ≤ n ≤ k ∧ (prompt → n = 1) ∧ stages w' = stages w ++ resent n o.

Lemma tells_None k w w' : tells k None w w' → stages w' = stages w.
Proof. intros (n & _ & _ & ->). apply app_nil_r. Qed.
Lemma tells_stages k o (w1 w2 w1' w2' : W) : tells k o w1 w2 → stages w1' = stages w1 → stages w2' = stages w2 → tells k o w1' w2'.
Proof. intros (n & Hn & Hp & E) E1 E2. exists n. by rewrite E1, E2. Qed.
Lemma tells_two a b (w w1 w2 : W) : tells 3 (Some a) w w1 → tells 3 (Some b) w1 w2 →
  ∃ n m, stages w2 = stages w ++ replicate n a ++ replicate m b ∧ 1 ≤ n ≤ 3 ∧ 1 ≤ m ≤ 3 ∧ (prompt → n = 1 ∧ m = 1).
Proof.
  intros (n & Hn & Hpn & E1) (m & Hm & Hpm & E2). exists n, m. split; [by rewrite E2, E1, <- (assoc_L (++)) |]. intuition.
Qed.

Lemma doSend_stages req w a req' w' : doSend req w = (a, req', w') →
  stages w' = stages w ++ option_list (task_stage req) ∧ (task_stage req' = None ∨ task_stage req' = task_stage req)
  ∧ (prompt → ∀ e, a = Broken e → is_Some (task_stage req) → isNetError e = false).
Proof.
  intros E. assert (stages w' = stages w ++ option_list (task_stage req)) as Hs.
  { unfold stages. rewrite (doSend_log log Do_log _ _ _ _ _ E), omap_app. simpl. by destruct (task_stage req). }
  split; [done |]. revert E. unfold doSend.
  pose proof (Do_rest req w) as Q. assert (prompt → _) as R by exact (λ Hp, Hp req w). destruct (Do req w) as [[a1 req1] w1]. simpl in R, Q.
  destruct a1 as [| r | e]; [| destruct (responseToError req r) eqn:Er |]; intros [= <- <- <-]; (split; [done |]); try done.
  - intros _ e' [= <-] _. unfold responseToError in Er. case_decide; [done |]. by injection Er as <-.
  - intros Hp e' [= <-] Hs'. by apply R.
Qed.

Lemma send_loop_stages fuel req op (w : W) ds op' w' ds' :
  send_loop fuel req op w ds = Some (Ret (op', w', ds')) → tells (S (Z.to_nat (op_retriesRemaining op))) (task_stage req) w w'.
Proof.
  revert req op w ds. induction fuel as [| fuel IH]; intros req op w ds; [done |]. cbn [send_loop].
  destruct (doSend req w) as [[a req1] w1] eqn:E. apply doSend_stages in E as (Hs & Hq & Hr).
  assert (∀ k, tells (S k) (task_stage req) w w1) as Hone.
  { intros k. exists 1. split_and!; [lia | lia | done |]. rewrite Hs. by destruct (task_stage req). }
  destruct a as [| r | e]; [by intros [= _ <- _] | by intros [= _ <- _] |].
  destruct (isNetError e) eqn:En; cbn [negb]; [| by intros [= _ <- _]].
  unfold DecrementRetriesRemaining. case_decide as Hn; [by intros [= _ <- _] |].
  destruct (WaitForRetryDelay _); [| done]. intros (n & Hn1 & Hp & L)%IH. cbn [op_retriesRemaining] in Hn1.
  destruct (task_stage req) as [s |] eqn:Et.
  - destruct Hq as [Hq | Hq]; rewrite Hq in L; simpl in L, Hs.
    + apply (tells_stages _ _ w w1); [apply Hone | done | by rewrite L, app_nil_r].
    + exists (S n). split_and!; [lia | cbn in Hn1; lia | |]. 
      * intros Hpr. by rewrite (Hr Hpr e eq_refl ltac:(eauto)) in En.
      * rewrite L, Hs. simpl. by rewrite <- (assoc_L (++)).
  - assert (task_stage req1 = None) as Hq' by by destruct Hq. rewrite Hq' in L. simpl in L.
    apply (tells_stages _ _ w w1); [apply Hone | done | by rewrite L, app_nil_r].
Qed.

(** An operation that has not been used. *)
Definition sendable (op : Operation) : Prop :=
  is_Some (GetURI op) ∧ op_result op = None ∧ op_retriesRemaining op = op_retryCount op.

Lemma CreateRequest_sendable op : sendable op → ∃ op1 r, CreateRequest op = Ret (op1, r) ∧ sendable op1
  ∧ st_isStreamResponse (op_state op1) = st_isStreamResponse (op_state op) ∧ op_retryCount op1 = op_retryCount op.
Proof.
  intros ([u Hu] & Hr & Hc). unfold sendable, CreateRequest. destruct (st_httpRequest (op_state op)); [by eauto 10 |].
  unfold EncodeBodyAsBuffer, EncodeBody, GetURI in *.
  destruct (GetBody op); cbn; rewrite ?Hu; destruct (NewRequest _ _ _); cbn; rewrite ?Hu; eauto 10.
Qed.

(** An operation that succeeded has its response. *)
Lemma send_loop_response fuel req op (w : W) ds op' w' ds' :
  send_loop fuel req op w ds = Some (Ret (op', w', ds')) → op_result op = None → Err_ op' = None →
  ∃ r op2, op' = Complete (SetResponse r op2) ∧ op_result op2 = None ∧ op_state op2 = op_state op.
Proof.
  assert (∀ e op, op_result op = None → Err_ (Fail_ e op) ≠ None) as Hfail by (intros e o Ho; unfold Fail_; by rewrite Ho).
  revert req op w ds. induction fuel as [| fuel IH]; intros req op w ds; [done |]. cbn [send_loop].
  destruct (doSend req w) as [[[| r | e] req1] w1]; [intros [= <- _ _] Hn He; by apply Hfail in He | |].
  - intros [= <- _ _] Hn _. by exists r, op.
  - destruct (negb (isNetError e)); [intros [= <- _ _] Hn He; by apply Hfail in He |].
    unfold DecrementRetriesRemaining. case_decide; [intros [= <- _ _] Hn He; by apply Hfail in He |].
    destruct (WaitForRetryDelay _); [| done]. intros L Hn He. eapply IH in L as (r & op2 & ? & ? & ?); [| done..]. by exists r, op2.
Qed.

(** What becomes of an operation that is sent: its request cannot be made, or is
    sent, and when it succeeds there is a response. *)
Lemma SendWait_sends op (w : W) : sendable op →
  ∃ op' err w', SendWait op w = Ret (op', err, w') ∧
    ((∃ op1 e, CreateRequest op = Ret (op1, Err e) ∧ err = Some e ∧ w' = w) ∨
     (∃ op1 req l, CreateRequest op = Ret (op1, Ok req) ∧ log w' = log w ++ req :: l
        ∧ tells (S (Z.to_nat (op_retryCount op))) (task_stage req) w w'
        ∧ (err = None → ∃ r op2, op' = Complete (SetResponse r op2) ∧ op_result op2 = None
             ∧ st_isStreamResponse (op_state op2) = st_isStreamResponse (op_state op)))).
Proof.
  intros Hs. destruct (CreateRequest_sendable op Hs) as (op1 & r & E & (_ & Hr1 & Hc1) & Hst & Hn). unfold SendWait, Send. rewrite E.
  destruct r as [req | e].
  - set (op2 := Start op1). change (op_result op2 = None) in Hr1. change (op_retriesRemaining op2 = op_retryCount op2) in Hc1.
    change (st_isStreamResponse (op_state op2) = st_isStreamResponse (op_state op)) in Hst.
    change (op_retryCount op2 = op_retryCount op) in Hn. clearbody op2.
    destruct (send_loop_spec (S (Z.to_nat (GetRetriesRemaining op2))) req op2 w [] 0) as (op' & w' & m & Es & _);
      [lia | unfold GetRetriesRemaining; lia | lia |].
    cbn zeta. rewrite Es. exists op', (Err_ op'), w'. split; [done |]. right.
    destruct (send_loop_log log Do_log _ _ _ _ _ _ _ _ Es) as [l Hl]. exists op1, req, l. split_and!; [done | done | rewrite <- Hn, <- Hc1; by eapply send_loop_stages |].
    intros He. destruct (send_loop_response _ _ _ _ _ _ _ _ Es Hr1 He) as (r & op3 & H1 & H2 & H3). exists r, op3. by rewrite H3.
  - exists (Fail_ e op1), (Some e), w. split; [| left; by exists op1, e]. unfold Fail_. by rewrite Hr1.
Qed.

(** Steps of the network that are no reports. *)
Definition silent (w w' : W) : Prop := stages w' = stages w ∧ log w `prefix_of` log w'.
#[export] Instance silent_PreOrder : PreOrder silent.
Proof.
  split; [by intros w |]. intros w1 w2 w3 [H1 H2] [H3 H4]. split; [congruence | by etrans].
Qed.
Lemma log_silent (w w' : W) : log w' = log w → silent w w'.
Proof. unfold silent, stages. by intros ->. Qed.

(** The request of an operation that is no report. *)
Definition quiet_op (op : Operation) : Prop := ∀ op1 req, CreateRequest op = Ret (op1, Ok req) → task_stage req = None.

Lemma quiet_nil op : st_httpRequest (op_state op) = None → GetBody op = BNil → quiet_op op.
Proof.
  unfold quiet_op, CreateRequest. intros Hn B op1 req. rewrite Hn, B. destruct (GetURI op); [| done].
  unfold NewRequest. destruct (url_Parse _); cbn; [| done]. intros [= _ <-]. by destruct (str_empty _).
Qed.
Lemma CreateRequest_value op op1 req t v : CreateRequest op = Ret (op1, Ok req) → st_httpRequest (op_state op) = None →
  GetBody op = BValue t v →
  rq_Method req = GetMethod op ∧ rq_Body req = Some (TJson (enc v)) ∧ ∃ u, GetURI op = Some u ∧ url_Parse (URL_String u) = Ok (rq_URL req).
Proof.
  unfold CreateRequest. intros E Hn B. revert E. rewrite Hn, B. unfold EncodeBodyAsBuffer, EncodeBody. rewrite B. cbn.
  destruct (GetURI op) as [u |]; [| done]. unfold NewRequest. destruct (url_Parse _) eqn:Hp; cbn; [| done].
  intros [= _ <-]. destruct (str_empty _); cbn; split_and!; eauto.
Qed.
Lemma quiet_value op t v : st_httpRequest (op_state op) = None → GetBody op = BValue t v → stage_of (enc v) = None → quiet_op op.
Proof. intros Hn B Hs op1 req E. destruct (CreateRequest_value _ _ _ _ _ E Hn B) as (_ & Hb & _). unfold task_stage. by rewrite Hb. Qed.

Lemma SendWait_silent op (w : W) : sendable op → quiet_op op →
  ∃ op' err w', SendWait op w = Ret (op', err, w') ∧ silent w w'
    ∧ (err = None → ∃ r op2, op' = Complete (SetResponse r op2) ∧ op_result op2 = None
         ∧ st_isStreamResponse (op_state op2) = st_isStreamResponse (op_state op)).
Proof.
  intros Hs Hq. destruct (SendWait_sends op w Hs) as (op' & err & w' & E & [(op1 & e & _ & -> & ->) | (op1 & req & l & Ec & Hl & Hst & Hr)]).
  - by exists op', (Some e), w.
  - exists op', err, w'. split; [done |]. rewrite (Hq _ _ Ec) in Hst. split; [| done].
    split; [by eapply tells_None |].
    rewrite Hl. by eexists.
Qed.

(** Reading a document is no report. *)
Lemma get_into_quiet {A} `{Json A, !Embeds A} ctx u (s : A) (w : W) :
  ∃ v err w', get_into now ctx (Some u) s w = Ret (v, err, w') ∧ silent w w'.
Proof.
  unfold get_into, deref, exchange.
  destruct (SendWait_silent (NewGet now ctx u) w) as (op' & err & w' & -> & Hs & _); [by split; [eexists |] | by apply quiet_nil |].
  cbn [out_bind]. destruct err as [e |]; [eauto |]. destruct (DecodeBodyAs op' s) as [[op2 v] e]. eauto.
Qed.

(** A new operation with a value, for a URL, is sent, whatever it ends with. *)
Lemma SendWait_value op u pu t v (w : W) : GetURI op = Some u → url_Parse (URL_String u) = Ok pu → GetBody op = BValue t v →
  st_httpRequest (op_state op) = None → op_result op = None → op_retriesRemaining op = op_retryCount op →
  ∃ op' err w' req l, SendWait op w = Ret (op', err, w') ∧ tells (S (Z.to_nat (op_retryCount op))) (stage_of (enc v)) w w'
    ∧ log w' = log w ++ req :: l ∧ rq_Method req = GetMethod op ∧ rq_URL req = pu ∧ rq_Body req = Some (TJson (enc v)).
Proof.
  intros Hu Hp Hb Hn Hf Hc.
  destruct (SendWait_sends op w) as (op' & err & w' & E & [(op1 & e & Ec & _) | (op1 & req & l & Ec & Hl & Hst & _)]); [by split; [eexists |] | |].
  - exfalso. revert Ec. unfold CreateRequest. rewrite Hn, Hb. unfold EncodeBodyAsBuffer, EncodeBody. rewrite Hb. cbn. rewrite Hu.
    unfold NewRequest. by rewrite Hp.
  - exists op', err, w', req, l. destruct (CreateRequest_value _ _ _ _ _ Ec Hn Hb) as (Hm & Hr & u' & Hu' & Hp').
    assert (rq_URL req = pu) by congruence. split_and!; try done. revert Hst. unfold task_stage. by rewrite Hr.
Qed.

(** *** Reports *)
Context {B : Type} `{Reporter B, !Embeds B}.

(** The last report of a task; the service returns after it. *)
Definition finish (ts : TaskStateWrapper B) (w : W) : outcome W :=
  out_bind (PatchStage now TaskStageFinished ts w) (λ '(_, w), Ret w).
Definition failure (msg : string) (err : error) (ts : TaskStateWrapper B) (w : W) : outcome W :=
  out_bind (PatchFailure now stack msg err ts w) (λ '(_, w), Ret w).

(** A task that is set up: it has a state, and a reference that is a URL. *)
Definition ready (t : TaskStateWrapper B) : Prop :=
  is_Some (task_info (tw_backing t)) ∧ ∃ u pu, tw_reference t = Some u ∧ url_Parse (URL_String u) = Ok pu.

Lemma patch_stages t i (w : W) : ready t → task_info (tw_backing t) = Some i → ts_Stage i ≠ ""%string →
  ∃ w' l, patch now t w = Ret w' ∧ tells 3 (Some (ts_Stage i)) w w' ∧ log w' = log w ++ l.
Proof.
  intros (_ & u & pu & Hu & Hp) Hi Hs. unfold patch. rewrite Hu. unfold deref.
  destruct (SendWait_value (SetBody (ValueOf (tw_backing t)) (NewPatch now (tw_ctx t) u BNil)) u pu code_of (to_den (tw_backing t)) w)
    as (op' & err & w' & req & l & -> & Hst & Hl & _); [done.. |].
  cbn [out_bind]. exists w', (req :: l). split_and!; [done | | done].
  by rewrite enc_den, (reported _ i) in Hst.
Qed.

Lemma PatchStage_stages stage t (w : W) : ready t → stage ≠ ""%string →
  ∃ t' w', PatchStage now stage t w = Ret (t', w') ∧ ready t' ∧ tells 3 (Some stage) w w' ∧ ∃ l, log w' = log w ++ l.
Proof.
  intros Hrd Hs. pose proof Hrd as ([i Hi] & u & pu & Hu & Hp). unfold PatchStage.
  destruct (SetStage_info stage _ i Hi) as (a & i' & -> & Hi' & <-). cbn [out_bind].
  set (t' := with_backing a t). assert (ready t') as Hrd' by (split; [by eexists | by exists u, pu]).
  destruct (patch_stages t' i' w Hrd' Hi' Hs) as (w' & l & E & Hst & Hl). rewrite E. cbn [out_bind].
  exists t', w'. eauto.
Qed.

(** A dump that the error response can be made from. *)
Definition readable_dump (stack : bytes) : Prop := ∃ l, stack_lines (lines (take 4096 stack)) = Ret l.
Context (Hstack : readable_dump stack).

Lemma PatchFailure_stages msg err t (w : W) : ready t →
  ∃ t' w', PatchFailure now stack msg err t w = Ret (t', w') ∧ ready t' ∧ tells 3 (Some TaskStageFailed) w w' ∧ ∃ l, log w' = log w ++ l.
Proof.
  intros Hrd. pose proof Hrd as ([i Hi] & u & pu & Hu & Hp). unfold PatchFailure. destruct Hstack as [ls Hls].
  edestruct (SetFailure_info stack (Errorf (msg +:+ ": " +:+ Error err)) (tw_backing t) i) as (a & i' & -> & Hi' & Hs);
    [done | unfold ToServerErrorResponse; by rewrite Hls |]. cbn [out_bind].
  set (t' := with_backing a t). assert (ready t') as Hrd' by (split; [by eexists | by exists u, pu]).
  destruct (patch_stages t' i' w Hrd' Hi') as (w' & l & E & Hst & Hl); [by rewrite Hs |]. rewrite E. cbn [out_bind].
  rewrite Hs in Hst. exists t', w'. eauto.
Qed.

Lemma finish_stages t (w : W) : ready t →
  ∃ w' l, finish t w = Ret w' ∧ tells 3 (Some TaskStageFinished) w w' ∧ log w' = log w ++ l.
Proof.
  intros Hrd. destruct (PatchStage_stages TaskStageFinished t w Hrd) as (t' & w' & E & _ & Hs & l & Hl); [done |].
  unfold finish. rewrite E. cbn [out_bind]. eauto.
Qed.
Lemma failure_stages msg err t (w : W) : ready t →
  ∃ w', failure msg err t w = Ret w' ∧ tells 3 (Some TaskStageFailed) w w'.
Proof.
  intros Hrd. destruct (PatchFailure_stages msg err t w Hrd) as (t' & w' & E & _ & Hs & l & Hl).
  unfold failure. rewrite E. cbn [out_bind]. eauto.
Qed.

(** *** The protocol

    The work on a request ends with one kind of report: that it failed, or that
    it finished, and then [ok] holds. *)
Definition ends (ok : W → Prop) (w : W) (r : outcome W) : Prop :=
  ∃ w' s, r = Ret w' ∧ tells 3 (Some s) w w' ∧ (s = TaskStageFailed ∨ s = TaskStageFinished ∧ ok w').

Lemma ends_failure ok msg e ts (w w1 : W) : ready ts → silent w w1 → ends ok w (failure msg e ts w1).
Proof.
  intros Hr [Hs _]. destruct (failure_stages msg e ts w1 Hr) as (w' & -> & E).
  exists w', TaskStageFailed. split_and!; [done | by eapply tells_stages | by left].
Qed.

Lemma ends_finish (ok : W → Prop) ts (w w1 : W) : ready ts → silent w w1 →
  (∀ w', log w1 `prefix_of` log w' → ok w') → ends ok w (finish ts w1).
Proof.
  intros Hr [Hs _] Hok. destruct (finish_stages ts w1 Hr) as (w' & l & -> & E & Hl).
  exists w', TaskStageFinished. split_and!; [done | by eapply tells_stages |]. right. split; [done |]. apply Hok. rewrite Hl. by eexists.
Qed.

(** The same for a world that has more to it. *)
Definition ends_in {C} (ok : W → Prop) (v : W * C) (r : outcome (W * C)) : Prop :=
  ∃ v' s, r = Ret v' ∧ tells 3 (Some s) v.1 v'.1 ∧ (s = TaskStageFailed ∨ s = TaskStageFinished ∧ ok v'.1).
Lemma ends_on_net {C} ok (w : W) f (v v1 : W * C) : v.1 = w → ends ok w (f v1.1) → ends_in ok v (on_net f v1).
Proof. intros <- (w' & s & E & Hs & Ho). unfold on_net. rewrite E. by exists (w', v1.2), s. Qed.

(** *** Steps that are no reports *)
Lemma safe_get {A} `{Json A, !Embeds A} ctx u (s : A) : safe silent (call (get_into now ctx (Some u) s)) (λ _, True).
Proof. apply safe_call. intros w. destruct (get_into_quiet ctx u s w) as (v & err & w' & -> & Hs). by exists v, err, w'. Qed.

Lemma safe_send op : sendable op → quiet_op op → safe silent (call (λ w, SendWait op w))
  (λ op', ∃ r op2, op' = Complete (SetResponse r op2) ∧ op_result op2 = None ∧ st_isStreamResponse (op_state op2) = st_isStreamResponse (op_state op)).
Proof.
  intros Hs Hq. apply safe_call. intros w. destruct (SendWait_silent op w Hs Hq) as (op' & err & w' & -> & Ha & Hb). by exists op', err, w'.
Qed.

Lemma safe_send_only op : sendable op → quiet_op op → safe silent (call_ (send_only op)) (λ _, True).
Proof.
  intros Hs Hq. apply safe_call_. intros w. unfold send_only.
  destruct (SendWait_silent op w Hs Hq) as (op' & err & w' & -> & Ha & _). by exists err, w'.
Qed.

Lemma join_silent sched arr ops (w : W) : sched ≡ₚ seq 0 (length ops) → arr ≡ₚ seq 0 (length ops) →
  Forall (λ op, sendable op ∧ quiet_op op) ops → ∃ r w', send_join sched arr ops w = Ret (r, w') ∧ silent w w'.
Proof.
  intros Hs Ha Hops. apply send_join_returns; [apply _ | done | done |]. intros i op w1 Hi.
  destruct (Forall_lookup_1 _ _ _ _ Hops Hi) as [Hb Hc].
  destruct (SendWait_silent op w1 Hb Hc) as (op' & err & w' & E & HS & _). by exists op', err, w'.
Qed.

Context (dcp : AddressFlag) (l : URI) (Hlocal : Local_ dcp = Some l).

Lemma safe_disks `{!Embeds DiskState} sched arr ctx links : sched ≡ₚ seq 0 (length links) → arr ≡ₚ seq 0 (length links) →
  safe silent (GetDiskState now dcp sched arr ctx links) (λ _, True).
Proof.
  intros Hs Ha w. rewrite (GetDiskState_local _ _ l) by done.
  destruct (join_silent sched arr ((λ link, NewGet now ctx (Extend l link)) <$> links) w) as (r & w' & -> & Hj); [by rewrite length_fmap.. | |].
  - apply Forall_fmap, Forall_true. intros link. split; [by split; [eexists |] | by apply quiet_nil].
  - cbn [out_bind]. by eexists _, w'.
Qed.

Lemma safe_patch_disks `{!Embeds DiskState} sched arr ctx disks : sched ≡ₚ seq 0 (length disks) → arr ≡ₚ seq 0 (length disks) →
  safe silent (call_ (PatchDiskState now dcp sched arr ctx disks)) (λ _, True).
Proof.
  intros Hs Ha. apply safe_call_. intros w. rewrite (PatchDiskState_local _ _ l) by done.
  match goal with |- context [send_join _ _ ?ops _] => destruct (join_silent sched arr ops w) as (r & w' & -> & Hj) end;
    [by rewrite length_fmap.. | |].
  - apply Forall_fmap, Forall_true. intros disk. split; [by split; [eexists |] |].
    apply (quiet_value _ code_of (to_den disk)); [done | done |]. rewrite enc_den.
    apply (stage_of_none DiskState_fields). apply (bool_decide_unpack _). vm_compute. exact I.
  - cbn [out_bind]. by eexists _, w'.
Qed.

Lemma safe_delete `{!Embeds ServiceDocument} sched arr ctx s :
  sched ≡ₚ seq 0 (S (length (cs_DiskLinks s))) → arr ≡ₚ seq 0 (S (length (cs_DiskLinks s))) →
  safe silent (call_ (DeleteComputeState now dcp sched arr ctx s)) (λ _, True).
Proof.
  intros Hs Ha. apply safe_call_. intros w. unfold DeleteComputeState, local. rewrite Hlocal. cbn zeta.
  match goal with |- context [send_join _ _ ?ops _] => destruct (join_silent sched arr ops w) as (r & w' & -> & Hj) end;
    [by rewrite length_fmap, length_app, Nat.add_comm.. | |].
  - apply Forall_fmap, Forall_true. intros link. split; [by split; [eexists |] |].
    apply (quiet_value _ code_of (to_den ((zero : ServiceDocument) <| sd_SelfLink := link |>))); [done | done |]. rewrite enc_den.
    apply (stage_of_none ServiceDocument_fields). apply (bool_decide_unpack _). vm_compute. exact I.
  - cbn [out_bind]. by eexists _, w'.
Qed.

Lemma safe_patch_compute `{!Embeds ComputeState} ctx u s : safe silent (call_ (PatchComputeState now ctx (Some u) s)) (λ _, True).
Proof.
  apply safe_send_only; [by split; [eexists |] |].
  apply (quiet_value _ code_of (to_den s)); [done | done |]. rewrite enc_den.
  apply (stage_of_none ComputeState_fields). apply (bool_decide_unpack _). vm_compute. exact I.
Qed.
End tasks.

Lemma DecodeBodyAs_stream `{GoTypes} {A} `{Json A, !Embeds A} op j (old a : A) :
  st_err (op_state op) = None → GetBody op = BReadCloser (TJson j) → dec j old = (a, None) →
  DecodeBodyAs op old = (SetBody BNil op, a, None).
Proof.
  intros E B D. unfold DecodeBodyAs, DecodeBody. rewrite E, B. unfold Decode, Unmarshal.
  rewrite dec_den, D. cbn. by rewrite of_to_den.
Qed.

(** A universe of the types of a list; a type of the list embeds in it. *)
Definition go_type : Type := {A : Type & Json A}.
Definition GoType (A : Type) `{J : Json A} : go_type := existT A J.
Definition types_of (l : list go_type) : GoTypes :=
  {| ty := nat; ty_eq_dec := _; den := λ n, projT1 (nth n l (GoType string)); codec := λ n, projT2 (nth n l (GoType string)) |}.
Definition nth_embeds (l : list go_type) (n : nat) : @Embeds (types_of l) (projT1 (nth n l (GoType string))) (projT2 (nth n l (GoType string))).
Proof. refine (@Build_Embeds (types_of l) _ _ n (λ a, a) (λ a, a) _ _ _); [done | done |]. intros j a. apply surjective_pairing. Defined.
