(* ===== verification/HostServices.v ===== *)
(** Small services and documents of package [dcp/host]: the ping service, the
    example service and its factory, authentication credentials, and the
    management state of the host. *)

From S2P Require Import Prelude GoPath GoNet GoJson GoURL DcpCommon DcpUri Operation Client Stage Host ProvTypes Provisioning Tasks.
From Stdlib Require Import ZArith Lia.

(** ** Credentials ([auth_credentials_state.go]) *)
(* @dcp/host/auth_credentials_state.go:12-15 AuthTypePublicKey *)
Definition AuthTypePublicKey : string := "PublicKey".
Definition AuthTypePassword : string := "Password".

(* @dcp/host/auth_credentials_state.go:17-40 AuthCredentialsServiceState *)
Record AuthCredentialsServiceState := {
  auth_ServiceDocument : ServiceDocument;
  auth_UserLink : string;
  auth_UserEmail : string;
  auth_PrivateKey : string;
  auth_PublicKey : string;
  auth_PrivateKeyID : string;
  auth_TokenReference : string;
  auth_Type : string
}.
#[export] Instance eta_AuthCredentialsServiceState : Eta AuthCredentialsServiceState := λ a,
  {| auth_ServiceDocument := auth_ServiceDocument a; auth_UserLink := auth_UserLink a;
     auth_UserEmail := auth_UserEmail a; auth_PrivateKey := auth_PrivateKey a;
     auth_PublicKey := auth_PublicKey a; auth_PrivateKeyID := auth_PrivateKeyID a;
     auth_TokenReference := auth_TokenReference a; auth_Type := auth_Type a |}.
#[export] Instance zero_AuthCredentialsServiceState : Zero AuthCredentialsServiceState :=
  {| auth_ServiceDocument := zero; auth_UserLink := ""; auth_UserEmail := ""; auth_PrivateKey := "";
     auth_PublicKey := ""; auth_PrivateKeyID := ""; auth_TokenReference := ""; auth_Type := "" |}.
Definition AuthCredentialsServiceState_fields : list (field AuthCredentialsServiceState) :=
  (embed auth_ServiceDocument (λ x a, a <| auth_ServiceDocument := x |>) <$> ServiceDocument_fields)
  ++ [ str_field "userLink" auth_UserLink (λ x a, a <| auth_UserLink := x |>);
       str_field "userEmail" auth_UserEmail (λ x a, a <| auth_UserEmail := x |>);
       str_field "privateKey" auth_PrivateKey (λ x a, a <| auth_PrivateKey := x |>);
       str_field "publicKey" auth_PublicKey (λ x a, a <| auth_PublicKey := x |>);
       str_field "privateKeyId" auth_PrivateKeyID (λ x a, a <| auth_PrivateKeyID := x |>);
       str_field "tokenReference" auth_TokenReference (λ x a, a <| auth_TokenReference := x |>);
       str_field "type" auth_Type (λ x a, a <| auth_Type := x |>) ].
#[export] Instance json_AuthCredentialsServiceState : Json AuthCredentialsServiceState :=
  {| enc := enc_struct AuthCredentialsServiceState_fields; dec := dec_struct "host.AuthCredentialsServiceState" AuthCredentialsServiceState_fields |}.

(** ** The example document ([example_service_document.go]) *)
(* @dcp/host/example_service_document.go:5-11 ExampleServiceDocument *)
Record ExampleServiceDocument := {
  ex_ServiceDocument : ServiceDocument;
  ex_Map : gmap string string;
  ex_Int : Z;
  ex_String : string
}.
#[export] Instance eta_ExampleServiceDocument : Eta ExampleServiceDocument := λ e,
  {| ex_ServiceDocument := ex_ServiceDocument e; ex_Map := ex_Map e; ex_Int := ex_Int e;
     ex_String := ex_String e |}.
#[export] Instance zero_ExampleServiceDocument : Zero ExampleServiceDocument :=
  {| ex_ServiceDocument := zero; ex_Map := ∅; ex_Int := 0%Z; ex_String := "" |}.
Definition ExampleServiceDocument_fields : list (field ExampleServiceDocument) :=
  (embed ex_ServiceDocument (λ x e, e <| ex_ServiceDocument := x |>) <$> ServiceDocument_fields)
  ++ [ plain "Map" ex_Map (λ x e, e <| ex_Map := x |>) (enc_map JStr) (dec_map "map[string]string" dec_string);
       plain "Int" ex_Int (λ x e, e <| ex_Int := x |>) JNum dec_int64;
       plain "String" ex_String (λ x e, e <| ex_String := x |>) enc dec ].
#[export] Instance json_ExampleServiceDocument : Json ExampleServiceDocument :=
  {| enc := enc_struct ExampleServiceDocument_fields; dec := dec_struct "host.ExampleServiceDocument" ExampleServiceDocument_fields |}.

(** ** Pings ([ping_service.go]) *)
(* @dcp/host/ping_service.go:14-16 pingRequest *)
Record pingRequest := {
  ping_URI : option URI
}.
#[export] Instance eta_pingRequest : Eta pingRequest := λ p,
  {| ping_URI := ping_URI p |}.
#[export] Instance zero_pingRequest : Zero pingRequest :=
  {| ping_URI := None |}.
Definition pingRequest_fields : list (field pingRequest) :=
  [ plain "uri" ping_URI (λ x p, p <| ping_URI := x |>) enc dec ].
#[export] Instance json_pingRequest : Json pingRequest :=
  {| enc := enc_struct pingRequest_fields; dec := dec_struct "host.pingRequest" pingRequest_fields |}.

(** ** The state of a host ([dcp/common/service_host_state.go]) *)

#[export] Instance eta_ServiceHostState : Eta ServiceHostState := λ s,
  {| shs_ServiceDocument := shs_ServiceDocument s; shs_BindAddress := shs_BindAddress s; shs_HTTPPort := shs_HTTPPort s;
     shs_MaintenanceInterval := shs_MaintenanceInterval s; shs_OperationTimeout := shs_OperationTimeout s;
     shs_StorageSandboxFile := shs_StorageSandboxFile s; shs_AuthorizationService := shs_AuthorizationService s;
     shs_ID := shs_ID s; shs_Started := shs_Started s; shs_SystemHostInfo := shs_SystemHostInfo s;
     shs_LastMaintenanceTime := shs_LastMaintenanceTime s;
     shs_PendingMaintenanceOperations := shs_PendingMaintenanceOperations s; shs_ProcessOwner := shs_ProcessOwner s |}.
#[export] Instance zero_ServiceHostState : Zero ServiceHostState :=
  {| shs_ServiceDocument := zero; shs_BindAddress := ""; shs_HTTPPort := 0; shs_MaintenanceInterval := 0;
     shs_OperationTimeout := 0; shs_StorageSandboxFile := ""; shs_AuthorizationService := ""; shs_ID := "";
     shs_Started := false; shs_SystemHostInfo := (∅ : gmap string json); shs_LastMaintenanceTime := 0;
     shs_PendingMaintenanceOperations := 0; shs_ProcessOwner := false |}.
Definition ServiceHostState_fields : list (field ServiceHostState) :=
  (embed shs_ServiceDocument (λ x s, s <| shs_ServiceDocument := x |>) <$> ServiceDocument_fields)
  ++ [ plain "bindAddress" shs_BindAddress (λ x s, s <| shs_BindAddress := x |>) enc dec;
       plain "httpPort" shs_HTTPPort (λ x s, s <| shs_HTTPPort := x |>) JNum dec_int64;
       plain "maintenanceIntervalMicros" shs_MaintenanceInterval (λ x s, s <| shs_MaintenanceInterval := x |>) JNum dec_uint64;
       plain "operationTimeoutMicros" shs_OperationTimeout (λ x s, s <| shs_OperationTimeout := x |>) JNum dec_uint64;
       plain "storageSandboxFileReference" shs_StorageSandboxFile (λ x s, s <| shs_StorageSandboxFile := x |>) enc dec;
       plain "authorizationServiceReference" shs_AuthorizationService (λ x s, s <| shs_AuthorizationService := x |>) enc dec;
       plain "id" shs_ID (λ x s, s <| shs_ID := x |>) enc dec;
       plain "isStarted" shs_Started (λ x s, s <| shs_Started := x |>) enc dec;
       plain "systemInfo" shs_SystemHostInfo (λ x s, s <| shs_SystemHostInfo := x |>) (enc_map enc) (dec_map "map[string]interface {}" dec);
       plain "lastMaintenanceTimeUtcMicros" shs_LastMaintenanceTime (λ x s, s <| shs_LastMaintenanceTime := x |>) JNum dec_uint64;
       plain "pendingMaintenanceOperations" shs_PendingMaintenanceOperations (λ x s, s <| shs_PendingMaintenanceOperations := x |>) JNum dec_int64;
       plain "isProcessOwner" shs_ProcessOwner (λ x s, s <| shs_ProcessOwner := x |>) enc dec ].
#[export] Instance json_ServiceHostState : Json ServiceHostState :=
  {| enc := enc_struct ServiceHostState_fields; dec := dec_struct "common.ServiceHostState" ServiceHostState_fields |}.

Section services.
Context `{GoTypes} {W : Type} `{Network W} (now : Z) (dcp : AddressFlag).
Context `{!Embeds AuthCredentialsServiceState} `{!Embeds ServiceHostState} `{!Embeds pingRequest} `{!Embeds ExampleServiceDocument}.

(* @dcp/host/auth_credentials_state.go:42-54 GetAuthCredentialsServiceState *)
Definition GetAuthCredentialsServiceState (ctx : Context) (a : AuthCredentialsServiceState) (u : option URI) (w : W) :
  outcome (AuthCredentialsServiceState * option error * W) := get_into now ctx u a w.

(* @dcp/host/service_host.go:265-279 GetServiceHostManagementState *)
Definition GetServiceHostManagementState (ctx : Context) (w : W) : outcome (res ServiceHostState * W) :=
  local dcp (λ l,
    out_bind (get_into now ctx (Some (Extend l Management)) (zero : ServiceHostState) w) (λ '(s, err, w),
      Ret (as_res (s, err), w))).

(** The operation is done before the ping is sent, and whatever becomes of it;
    a request without a URI panics. *)
(* @dcp/host/ping_service.go:26-41 pingService.HandlePatch *)
Definition ping_HandlePatch (ctx : Context) (op : Operation) (w : W) : outcome (Operation * W) :=
  match DecodeBodyAs op (zero : pingRequest) with
  | (op, _, Some e) => Ret (Fail_ e op, w)
  | (op, req, None) =>
      let op := Complete (SetStatusCode 201 op) in
      deref (ping_URI req) (λ u,
        out_bind (SendWait (SetBody (ValueOf req) (NewPatch now ctx u BNil)) w) (λ '(_, _, w), Ret (op, w)))
  end.

(** The state of an example service is its document. *)
(* @dcp/host/example_service.go:3-9 ExampleService *)
Definition ExampleService {W'} (get : W' → ExampleServiceDocument) (set : ExampleServiceDocument → W' → W') :
  ServiceContextHandler (W := W') :=
  {| h_ty := code_of; h_GetState := λ w, to_den (get w); h_SetState := λ v, set (of_den v);
     h_Start := None; h_Get := None; h_Post := None; h_Patch := None; h_Put := None; h_Delete := None |}.

(** A new service has a state of its own: [fresh] allocates it. *)
(* @dcp/host/example_factory_service.go:3-11 ExampleFactoryService *)
Definition ExampleFactoryService {W'} (fresh : W' → (W' → ExampleServiceDocument) * (ExampleServiceDocument → W' → W') * W') :
  FactoryServiceContextHandler (W := W') :=
  {| f_ty := code_of; f_CreateDocument := to_den (zero : ExampleServiceDocument);
     f_SetSelfLink := λ l v, let d := of_den v in to_den (d <| ex_ServiceDocument := (ex_ServiceDocument d) <| sd_SelfLink := l |> |>);
     f_CreateService := λ w, let '(get, set, w) := fresh w in (NewServiceContext (ExampleService get set), w);
     f_Post := None |}.
End services.

(** ** Properties *)
Section ping.
Context `{GoTypes} {W : Type} `{Network W} (now : Z) `{!Embeds pingRequest} `{!Embeds ComputeSubTaskState}.
Context (log : W → list HttpRequest) `{!Task log}.

(** A ping that decodes is acknowledged with 201, whatever the pinged
    service answers, and the request is forwarded to it as it was decoded; one
    that does not decode fails, and nothing is sent. *)
Theorem ping_HandlePatch_forwards ctx op op0 req err (w : W) :
  DecodeBodyAs op (zero : pingRequest) = (op0, req, err) →
  match err with
  | Some e => ping_HandlePatch now ctx op w = Ret (Fail_ e op0, w)
  | None =>
      ∀ u pu, ping_URI req = Some u → url_Parse (URL_String u) = Ok pu →
      ∃ w' r l, ping_HandlePatch now ctx op w = Ret (Complete (SetStatusCode 201 op0), w')
        ∧ log w' = log w ++ r :: l ∧ rq_Method r = "PATCH"%string ∧ rq_URL r = pu ∧ rq_Body r = Some (TJson (enc req))
  end.
Proof.
  intros D. unfold ping_HandlePatch. rewrite D. destruct err as [e |]; [done |]. intros u pu Hu Hp. rewrite Hu. cbn [deref].
  destruct (SendWait_value log (SetBody (ValueOf req) (NewPatch now ctx u BNil)) u pu code_of (to_den req) w)
    as (op' & err & w' & r & l & -> & _ & Hl & Hm & Hru & Hb); [done.. |].
  cbn [out_bind]. rewrite enc_den in Hb. by exists w', r, l.
Qed.
End ping.

Definition sample_ping : pingRequest := {| ping_URI := Some sample_local |}.
Lemma ping_HandlePatch_forwards_witness :
  let types := types_of [GoType pingRequest; GoType ComputeSubTaskState] in
  let e0 : Embeds pingRequest := nth_embeds _ 0 in let e1 : Embeds ComputeSubTaskState := nth_embeds _ 1 in let net := log_network in
  let op := SetBody (BReadCloser (TJson (enc sample_ping))) (NewPatch 0 Background sample_local BNil) in
  ∃ w' r l, ping_HandlePatch (W := list HttpRequest) 0 Background op [] = Ret (Complete (SetStatusCode 201 (SetBody BNil op)), w')
    ∧ w' = r :: l ∧ rq_URL r = sample_local.
Proof.
  intros types e0 e1 net op.
  assert (Task (λ w : list HttpRequest, w)) as T by (constructor; [done | by right]).
  assert (DecodeBodyAs op (zero : pingRequest) = (SetBody BNil op, sample_ping, None)) as D
    by (apply (DecodeBodyAs_stream _ (enc sample_ping)); [done | done | vm_compute; reflexivity]).
  assert (url_Parse (URL_String sample_local) = Ok sample_local) as Hu by (vm_compute; reflexivity).
  destruct (ping_HandlePatch_forwards (W := list HttpRequest) 0 (λ w, w) Background op _ _ _ [] D _ _ eq_refl Hu) as (w' & r & l & E & Hl & _ & Hr & _).
  exists w', r, l. split; [exact E |]. split; [exact Hl | exact Hr].
Defined.
