(* ===== verification/Godcp.v ===== *)
(** The command [dcp/cmd/godcp]: a service host with the services of all
    adapters.  Services are parameters: what the host needs to know of them is
    that none has a start handler of its own. *)

From S2P Require Import Prelude GoPath GoNet GoJson GoURL DcpCommon DcpUri Operation Client Stage Host ProvTypes Provisioning HostServices.
From Stdlib Require Import ZArith Lia.

(** The paths of the services ([provisioning/paths.go]). *)
(* @dcp/provisioning/paths.go:29-34 ProvisioningEsxCloud *)
Definition ProvisioningEsxCloud : string := Provisioning +:+ "/esxcloud".
Definition BootServiceEsxCloud : string := ProvisioningEsxCloud +:+ "/boot-service".
Definition InstanceServiceEsxCloud : string := ProvisioningEsxCloud +:+ "/instance-service".
Definition HealthServiceEsxCloud : string := ProvisioningEsxCloud +:+ "/health-service".
Definition EnumerateServiceEsxCloud : string := ProvisioningEsxCloud +:+ "/enumeration-service".
(* @dcp/provisioning/paths.go:46-50 ProvisioningDocker *)
Definition ProvisioningDocker : string := Provisioning +:+ "/docker".
Definition InstanceServiceDocker : string := ProvisioningDocker +:+ "/instance-service".
Definition HealthServiceDocker : string := ProvisioningDocker +:+ "/health-service".
Definition HealthServiceKubernetes : string := HealthServiceDocker +:+ "/kubernetes".
(* @dcp/provisioning/paths.go:61-61 SSHCommandService *)
Definition SSHCommandService : string := Provisioning +:+ "/ssh-service".

Section godcp.
Context `{GoTypes} {W : Type} `{Env W} `{Network W} `{!Embeds ServiceHostState}.

(** The handlers of the services. *)
Record Handlers := {
  ExampleFactory : FactoryServiceContextHandler (W := W);
  Ping : ServiceContextHandler (W := W);
  DockerInstance : ServiceContextHandler (W := W);
  DockerHealth : ServiceContextHandler (W := W);
  KubernetesHealth : ServiceContextHandler (W := W);
  EsxCloudInstance : ServiceContextHandler (W := W);
  EsxCloudHealth : ServiceContextHandler (W := W);
  EsxCloudEnumeration : ServiceContextHandler (W := W);
  EsxCloudBoot : ServiceContextHandler (W := W);
  SSHCommand : ServiceContextHandler (W := W)
}.

(* @dcp/cmd/godcp/main.go:37-86 services *)
Definition godcp_services (s : Handlers) : list (string * impl) :=
  let ctx h := Ctx (NewServiceContext h) in [
  ("/core/examples", Factory (ExampleFactory s));
  ("/core/ping", ctx (Ping s));
  (InstanceServiceDocker, ctx (DockerInstance s));
  (HealthServiceDocker, ctx (DockerHealth s));
  (HealthServiceKubernetes, ctx (KubernetesHealth s));
  (InstanceServiceEsxCloud, ctx (EsxCloudInstance s));
  (HealthServiceEsxCloud, ctx (EsxCloudHealth s));
  (EnumerateServiceEsxCloud, ctx (EsxCloudEnumeration s));
  (BootServiceEsxCloud, ctx (EsxCloudBoot s));
  (SSHCommandService, ctx (SSHCommand s))]%string.

(* @dcp/cmd/godcp/main.go:106-111 main *)
Fixpoint start_all (ctx : Context) (services : list (string * impl)) (h : ServiceHost) (w : W) : list Operation * ServiceHost * W :=
  match services with
  | [] => ([], h, w)
  | (uri, svc) :: services =>
      let op := NewPost (env_now w) ctx (Extend Empty uri) BNil in
      let '(op, h, w) := StartService op (new_Service svc) h w in
      let '(ops, h, w) := start_all ctx services h w in
      (op :: ops, h, w)
  end.

(** The operations that are done, in the order a join receives them. *)
Definition done_of (arr : list nat) (ops : list Operation) : list arrival :=
  omap (λ i, op ← ops !! i; err ← Wait op; Some (i, err)) arr.

(** [listen] is [net.Listen], [bind] and [token] the flags, [arr] the order in
    which the join receives from the operations.  The process ends with an error
    (Err), serves (Ok), or waits for the join for ever (None). *)
(* @dcp/cmd/godcp/main.go:36-119 main *)
Definition main (listen : string → res Addr) (bind : AddressFlag) (token : string) (s : Handlers) (arr : list nat) (w : W) :
  outcome (option (res ServiceHost) * W) :=
  let '(h, err) := Initialize listen (AddressFlag_String bind) NewServiceHost in
  match err with
  | Some e => Ret (Some (Err (Errorf ("Error initializing: " +:+ Error e))), w)
  | None =>
      let ctx := SetAuthorizationToken Background token in
      out_bind (GetServiceHostManagementState (env_now w) env_dcp ctx w) (λ '(r, w),
      match r with
      | Err e => Ret (Some (Err (Errorf ("Error getting ServiceHostState: " +:+ Error e))), w)
      | Ok _ =>
          let '(ops, h, w) := start_all ctx (godcp_services s) h w in
          match Join (seq 0 (length ops)) (done_of arr ops) with
          | None => Ret (None, w)
          | Some (Err e) => Ret (Some (Err (Errorf ("Error starting services: " +:+ Error e))), w)
          | Some (Ok _) => Ret (Some (Ok h), w)
          end
      end)
  end.

(** A signal closes the listener; until then the host serves. *)
(* @dcp/cmd/godcp/main.go:121-139 start *)
Definition start (signalled : bool) (h : ServiceHost (W := W)) : outcome ServiceHost :=
  if signalled then host_Stop h else Ret h.

(** ** All services are started *)

(** A service whose start does nothing but complete: a factory, or a context
    whose handler has no start. *)
Definition starts_alone (i : impl (W := W)) : Prop :=
  match i with
  | Ctx s => ∃ h, s = NewServiceContext h ∧ h_Start h = None
  | _ => True
  end.

Lemma run_start i ctx now u w : starts_alone i →
  ∃ op w', run_child (HandleStart i) Background (NewPost now ctx u BNil) w = (op, Some None, w') ∧ op_result op = None.
Proof.
  intros Hi. destruct i as [| s | f]; unfold run_child, HandleStart, min_HandleStart.
  - by eexists _, _.
  - destruct Hi as (h & -> & Hs). unfold sc_HandleStart. cbn [sc_h NewServiceContext]. rewrite Hs. by eexists _, _.
  - by eexists _, _.
Qed.

(** The path of a service is the link it is bound to. *)
Definition path_ok (p : string) : Prop := path_Clean ("/" +:+ b2s (u_Path (Extend Empty p))) = p.

Lemma StartService_alone p i ctx (h : ServiceHost) w :
  starts_alone i → path_ok p → services h !! p = None →
  ∃ op s w', StartService (NewPost (env_now w) ctx (Extend Empty p) BNil) (new_Service i) h w = (op, store p s h, w') ∧
    Wait op = Some None ∧ svc_impl s = i ∧ stage (svc_stages s) = StageAvailable.
Proof.
  intros Hi Hp Hfree. set (op := NewPost _ _ _ _).
  pose proof (StartService_cases op (new_Service i) h w eq_refl) as Hc. cbv zeta in Hc.
  assert (start_link op (new_Service i) = p) as Hl by exact Hp. rewrite Hl, Hfree in Hc.
  destruct (StartService op (new_Service i) h w) as [[op' h'] w'].
  destruct Hc as (s' & -> & _ & Himpl & Hr). destruct (run_start i ctx (env_now w) (Extend Empty p) w Hi) as (op1 & w1 & E & Hop1).
  fold op in E. cbn [new_Service svc_impl] in Hr. rewrite E in Hr. destruct Hr as (-> & Hs & ->).
  exists (Complete op1), s', w1. split_and!; try done. unfold Wait, Complete. by rewrite Hop1.
Qed.

Lemma start_all_spec ctx l h w :
  Forall (λ pi, starts_alone pi.2 ∧ path_ok pi.1) l → NoDup l.*1 → (∀ p, p ∈ l.*1 → services h !! p = None) →
  ∃ ops h' w', start_all ctx l h w = (ops, h', w') ∧ length ops = length l ∧ (∀ op, op ∈ ops → Wait op = Some None) ∧
    (∀ p i, (p, i) ∈ l → ∃ s, services h' !! p = Some s ∧ svc_impl s = i ∧ stage (svc_stages s) = StageAvailable) ∧
    (∀ p, p ∉ l.*1 → services h' !! p = services h !! p) ∧ tcpListener h' = tcpListener h.
Proof.
  revert h w. induction l as [| [p i] l IH]; intros h w Hl Hnd Hfree.
  { exists [], h, w. split_and!; [done | done | by intros op ?%not_elem_of_nil | by intros p i ?%not_elem_of_nil | done | done]. }
  apply Forall_cons in Hl as [[Hi Hp] Hl]. rewrite fmap_cons in Hnd. apply NoDup_cons in Hnd as [Hnew Hnd]. cbn [fst snd] in *.
  destruct (StartService_alone p i ctx h w Hi Hp) as (op & s & w1 & E & Hw & Hs & Hst); [apply Hfree; rewrite fmap_cons; by left |].
  destruct (IH (store p s h) w1 Hl Hnd) as (ops & h' & w' & E' & Hlen & Hdone & Hin & Hout & Hsame).
  { intros q Hq. cbn. rewrite lookup_insert_ne by (intros ->; done). apply Hfree. rewrite fmap_cons. by right. }
  exists (op :: ops), h', w'. cbn [start_all]. rewrite E, E'. split_and!; [done | cbn; by rewrite Hlen | | | | by rewrite Hsame].
  - intros o [-> | Ho]%elem_of_cons; [done | by apply Hdone].
  - intros q j [[= -> ->] | Hq]%elem_of_cons; [| by apply Hin]. exists s. rewrite Hout by done. cbn. by rewrite lookup_insert_eq.
  - intros q Hq. rewrite fmap_cons, not_elem_of_cons in Hq. destruct Hq as [Hqp Hq]. rewrite Hout by done. cbn.
    by rewrite lookup_insert_ne.
Qed.

Lemma done_all arr ops : (∀ op, op ∈ ops → Wait op = Some None) → arr ⊆ seq 0 (length ops) →
  errs (done_of arr ops) = [] ∧ length (done_of arr ops) = length arr.
Proof.
  intros Hd. induction arr as [| i arr IH]; intros Hs; [done |].
  assert (i ∈ seq 0 (length ops)) as Hi by (apply Hs; by left). apply elem_of_seq in Hi.
  destruct (lookup_lt_is_Some_2 ops i) as [op Hop]; [lia |]. destruct IH as [IH1 IH2]; [set_solver |].
  assert (done_of (i :: arr) ops = (i, None) :: done_of arr ops) as ->.
  { unfold done_of. cbn [omap list_omap]. rewrite Hop. cbn. rewrite (Hd op) by by eapply list_elem_of_lookup_2. done. }
  cbn [errs length]. by rewrite IH1, IH2.
Qed.

Lemma godcp_paths_ok s : Forall path_ok (godcp_services s).*1.
Proof. repeat constructor; vm_compute; reflexivity. Qed.
Lemma godcp_paths_differ s : NoDup (godcp_services s).*1.
Proof. apply (bool_decide_unpack _). vm_compute. reflexivity. Qed.

(** C20: the command serves.  When it can listen and reach the management service,
    whatever the order in which its services come up, all ten are available under
    their own paths, with their handlers, and nothing else is bound.  (None of the handlers
    has a start of its own, as none of the program's has.) *)
Theorem main_serves (listen : string → res Addr) (bind : AddressFlag) (token : string) (s : Handlers) (arr : list nat) (w w1 : W)
    ip port st :
  listen (AddressFlag_String bind) = Ok (TCPAddr_ ip port) →
  GetServiceHostManagementState (env_now w) env_dcp (SetAuthorizationToken Background token) w = Ret (Ok st, w1) →
  Forall (λ pi, starts_alone pi.2) (godcp_services s) →
  arr ≡ₚ seq 0 10 →
  ∃ h w', main listen bind token s arr w = Ret (Some (Ok h), w') ∧
    (∀ p i, (p, i) ∈ godcp_services s →
       ∃ sv, services h !! p = Some sv ∧ svc_impl sv = i ∧ stage (svc_stages sv) = StageAvailable) ∧
    (∀ p, p ∉ (godcp_services s).*1 → services h !! p = None) ∧
    ∃ h', start true h = Ret h' ∧ l_open <$> tcpListener h' = Some false.
Proof.
  intros Hlisten Hm Ha Harr. unfold main.
  assert (∃ h0, Initialize listen (AddressFlag_String bind) NewServiceHost = (h0, None) ∧ services h0 = ∅ ∧ is_Some (tcpListener h0))
    as (h0 & -> & Hempty & Hls).
  { unfold Initialize. rewrite Hlisten. eexists. split; [done |]. split; [done | by eexists]. }
  rewrite Hm. cbn [out_bind].
  destruct (start_all_spec (SetAuthorizationToken Background token) (godcp_services s) h0 w1) as (ops & h & w' & E & Hlen & Hd & Hin & Hout & Hsame).
  - pose proof (godcp_paths_ok s) as Hp. rewrite Forall_fmap in Hp. rewrite Forall_forall in Ha, Hp |- *. intros pi Hpi. split; [by apply Ha | exact (Hp pi Hpi)].
  - apply godcp_paths_differ.
  - intros p _. by rewrite Hempty.
  - rewrite E. exists h, w'. split; [| split; [exact Hin | split; [intros p Hp; by rewrite Hout, Hempty |]]].
    2: { unfold start, host_Stop. rewrite Hsame. destruct Hls as [ls ->]. by eexists. }
    change (length (godcp_services s)) with 10 in Hlen.
    destruct (done_all arr ops Hd) as [He Hl]; [intros i; rewrite Hlen, Harr; done |].
    destruct (Join_all (seq 0 (length ops)) (done_of arr ops)) as [l Ej].
    { rewrite Hl, Harr, !length_seq. done. }
    rewrite Ej, He. done.
Qed.
End godcp.

(** ** Example *)
#[local] Instance godcp_env : Env (list HttpRequest) :=
  {| env_now := λ _, 0%Z; env_uuid := λ w, ("id"%string, w); env_dcp := {| af_host := ""; af_port := "" |} |}.

Lemma main_serves_witness :
  let types := one_type ServiceHostState in let emb := one_embeds ServiceHostState in let net := log_network in
  let hd : ServiceContextHandler (W := list HttpRequest) :=
    {| h_ty := code_of; h_GetState := λ _, to_den (zero : ServiceHostState); h_SetState := λ _ w, w; h_Start := None; h_Get := None;
       h_Post := None; h_Patch := None; h_Put := None; h_Delete := None |} in
  let fac : FactoryServiceContextHandler (W := list HttpRequest) :=
    {| f_ty := code_of; f_CreateDocument := to_den (zero : ServiceHostState); f_SetSelfLink := λ _ v, v;
       f_CreateService := λ w, (NewServiceContext hd, w); f_Post := None |} in
  let s := Build_Handlers fac hd hd hd hd hd hd hd hd hd in
  ∃ h w', main (W := list HttpRequest) (λ _, Ok (TCPAddr_ [x7f; x00; x00; x01] 8082)) {| af_host := ""; af_port := "" |} "token" s
      [9; 0; 1; 2; 3; 4; 5; 6; 7; 8] [] = Ret (Some (Ok h), w')
    ∧ ∃ sv, services h !! SSHCommandService = Some sv ∧ stage (svc_stages sv) = StageAvailable.
Proof.
  intros types emb net hd fac s.
  assert (match GetServiceHostManagementState (W := list HttpRequest) (env_now ([] : list HttpRequest)) env_dcp
    (SetAuthorizationToken Background "token") [] with Ret (Ok _, _) => true | _ => false end = true) as Hb by (vm_compute; reflexivity).
  destruct (GetServiceHostManagementState (W := list HttpRequest) (env_now ([] : list HttpRequest)) env_dcp
    (SetAuthorizationToken Background "token") []) as [[[st | e] w1] |] eqn:E; [| done | done].
  destruct (main_serves (W := list HttpRequest) (λ _, Ok (TCPAddr_ [x7f; x00; x00; x01] 8082)) {| af_host := ""; af_port := "" |} "token" s
      [9; 0; 1; 2; 3; 4; 5; 6; 7; 8] [] w1 [x7f; x00; x00; x01] 8082%Z st) as (h & w' & Em & Hin & _).
  - reflexivity.
  - exact E.
  - constructor; [exact I |]. do 9 (constructor; [exists hd; split; reflexivity |]). constructor.
  - symmetry. apply (Permutation_app_comm [0; 1; 2; 3; 4; 5; 6; 7; 8] [9]).
  - exists h, w'. split; [exact Em |]. destruct (Hin SSHCommandService (Ctx (NewServiceContext hd))) as (sv & Hs & _ & Hst).
    { do 9 right. left. }
    exists sv. split; [exact Hs | exact Hst].
Defined.
