(* ===== verification/Ssh.v ===== *)
(** Package [dcp/provisioning/ssh]: the SSH client, with its retries, and the
    service that runs the commands of a request on a host.

    The SSH library is the class [SshLib]: private keys, connections and
    sessions are its types, and what they do depends on, and changes, the
    world. *)

From S2P Require Import Prelude Effects GoPath GoNet GoJson GoURL DcpCommon DcpUri Operation Client ProvTypes Provisioning HostServices Tasks.
From Stdlib Require Import ZArith Lia.

(** How a command that was run ended: an exit status, with the message of the
    remote side and the text of the error, or another error. *)
Inductive run_error := ExitError (msg : string) (status : Z) (text : string) | RunError (e : error).

(** What a command wrote, and what it left of its input. *)
Record run_result := { rr_stdout : bytes; rr_stderr : bytes; rr_stdin : option bytes; rr_error : option run_error }.

Inductive AuthMethod (K : Type) := PublicKeys (signer : K) | Password (password : string).
Arguments PublicKeys {K} signer.
Arguments Password {K} password.
Record ClientConfig (K : Type) := { cc_User : string; cc_Auth : list (AuthMethod K) }.
Arguments Build_ClientConfig {K} cc_User cc_Auth.

Class SshLib (W K C X : Type) := {
  ParsePrivateKey : bytes → res K;
  ssh_Dial : string → string → ClientConfig K → W → res C * W;
  ssh_Close : C → W → W;
  ssh_NewSession : C → W → res X * W;
  Session_Run : string → option bytes → X → W → run_result * W;
  Session_Close : X → W → W
}.

(* @dcp/provisioning/ssh/command_service.go:23-25 ComputeCommandResponse *)
Record ComputeCommandResponse := { CommandResponse : gmap string string }.
#[export] Instance eta_ComputeCommandResponse : Eta ComputeCommandResponse := λ r, {| CommandResponse := CommandResponse r |}.
#[export] Instance zero_ComputeCommandResponse : Zero ComputeCommandResponse := {| CommandResponse := ∅ |}.
Definition ComputeCommandResponse_fields : list (field ComputeCommandResponse) :=
  [ map_field "commandResponse" CommandResponse (λ x r, r <| CommandResponse := x |>) ].
#[export] Instance json_ComputeCommandResponse : Json ComputeCommandResponse :=
  {| enc := enc_struct ComputeCommandResponse_fields; dec := dec_struct "ssh.ComputeCommandResponse" ComputeCommandResponse_fields |}.

Section ssh.
Context {W K C X : Type} `{SshLib W K C X}.

(* @dcp/provisioning/ssh/client.go:18-22 Client *)
Record Client := { cl_conn : option C; cl_config : ClientConfig K; cl_address : string }.

Definition new_client (config : ClientConfig K) : Client := {| cl_conn := None; cl_config := config; cl_address := "" |}.

(* @dcp/provisioning/ssh/client.go:43-57 WithPublicKey *)
Definition WithPublicKey (user key : string) : res Client :=
  signer :=? ParsePrivateKey (s2b key);;
  Ok (new_client {| cc_User := user; cc_Auth := [PublicKeys signer] |}).

(* @dcp/provisioning/ssh/client.go:61-70 WithPassword *)
Definition WithPassword (user password : string) : res Client :=
  Ok (new_client {| cc_User := user; cc_Auth := [Password password] |}).

(** Credentials without a type are a public key. *)
(* @dcp/provisioning/ssh/client.go:24-39 WithCredentials *)
Definition WithCredentials (creds : AuthCredentialsServiceState) : res Client :=
  let authType := if str_empty (auth_Type creds) then AuthTypePublicKey else auth_Type creds in
  if decide (authType = AuthTypePublicKey) then WithPublicKey (auth_UserEmail creds) (auth_PrivateKey creds)
  else if decide (authType = AuthTypePassword) then WithPassword (auth_UserEmail creds) (auth_PrivateKey creds)
  else Err (Errorf ("unsupported authentication type: " +:+ authType)).

Context `{GoTypes} (now : Z).

(** The loop, with the delays (in seconds) slept so far. *)
(* @dcp/provisioning/ssh/client.go:79-99 Client.Connect *)
Fixpoint connect_loop (fuel : nat) (op : Operation) (c : Client) (address : string) (w : W) (delays : list Z) :
  option (outcome (Client * option error * W * list Z)) :=
  match fuel with
  | O => None
  | S fuel =>
      match ssh_Dial "tcp" address (cl_config c) w with
      | (Err e, w) =>
          let '(n, op) := DecrementRetriesRemaining op in
          if decide (n ≤ 0)%Z then Some (Ret (c, Some e, w, delays))
          else match WaitForRetryDelay op with
               | Panic => Some Panic
               | Ret d => connect_loop fuel op c address w (delays ++ [d])
               end
      | (Ok conn, w) => Some (Ret ({| cl_conn := Some conn; cl_config := cl_config c; cl_address := address |}, None, w, delays))
      end
  end.

(* @dcp/provisioning/ssh/client.go:73-78 Client.Connect *)
Definition Connect (c : Client) (address : string) (w : W) : option (outcome (Client * option error * W * list Z)) :=
  let op := SetRetryCount 25 (NewOperation now Background) in
  connect_loop 26 op c address w [].

(** A client that is not connected has no sessions: a nil dereference.  Only
    the text of an error is looked at. *)
(* @dcp/provisioning/ssh/client.go:126-150 Client.Run *)
Definition Run (c : Client) (cmd : string) (stdin : option bytes) (w : W) : outcome (bytes * option bytes * option error * W) :=
  match cl_conn c with
  | None => Panic
  | Some conn =>
      match ssh_NewSession conn w with
      | (Err e, w) => Ret ([], stdin, Some e, w)
      | (Ok session, w) =>
          let '(r, w) := Session_Run cmd stdin session w in
          let w := Session_Close session w in
          let err :=
            match rr_error r with
            | None => None
            | Some (ExitError msg status text) =>
                if negb (str_empty msg) then Some (Errorf text)
                else Some (Errorf ("process (" +:+ cmd +:+ ") exited with: " +:+ fmt_d status +:+ ". stderr: " +:+ b2s (rr_stderr r)))
            | Some (RunError e) => Some e
            end in
          Ret (rr_stdout r, rr_stdin r, err, w)
      end
  end.

(* @dcp/provisioning/ssh/client.go:16-16 retryCount *)
Definition retryCount : Z := 10.

(** What a run writes is appended to what the writer has; all runs read from
    one reader. *)
(* @dcp/provisioning/ssh/client.go:103-118 Client.RunWithRetry *)
Fixpoint run_loop (fuel : nat) (attempt : Z) (c : Client) (cmd cmdOnFailure : string) (out : bytes) (stdin : option bytes) (w : W) :
  option (outcome (bytes * option bytes * option error * W)) :=
  match fuel with
  | O => None
  | S fuel =>
      match Run c cmd stdin w with
      | Panic => Some Panic
      | Ret (o, stdin, err, w) =>
          let out := out ++ o in
          match err with
          | None => Some (Ret (out, stdin, None, w))
          | Some _ =>
              let attempt := (attempt + 1)%Z in
              if decide (attempt > retryCount)%Z then
                Some (Ret (out, stdin, Some (Errorf ("exceeded maximum number (" +:+ fmt_d retryCount
                  +:+ ") of retries for command: [" +:+ cmd +:+ "]")), w))
              else if negb (str_empty cmdOnFailure) then
                match Run c cmdOnFailure stdin w with
                | Panic => Some Panic
                | Ret (o, stdin, _, w) => run_loop fuel attempt c cmd cmdOnFailure (out ++ o) stdin w
                end
              else run_loop fuel attempt c cmd cmdOnFailure out stdin w
          end
      end
  end.
(* @dcp/provisioning/ssh/client.go:100-120 Client.RunWithRetry *)
Definition RunWithRetry (c : Client) (cmd cmdOnFailure : string) (stdin : option bytes) (w : W) :=
  run_loop (Z.to_nat retryCount) 1 c cmd cmdOnFailure [] stdin w.

(** ** The command service ([command_service.go]) *)
Context `{Network W} (dcp : AddressFlag) (stack : bytes).
Context `{!Embeds ComputeCommandReference} `{!Embeds ComputeSubTaskState} `{!Embeds ComputeStateWithDescription}.
Context `{!Embeds AuthCredentialsServiceState} `{!Embeds ComputeCommandResponse}.

(** The commands, one after the other, until one fails: the output of each, by
    command, and the command that failed. *)
(* @dcp/provisioning/ssh/command_service.go:90-98 CommandService.HandlePatch *)
Fixpoint run_commands (c : Client) (cmds : list string) (output : gmap string string) (w : W) :
  outcome (gmap string string * option (string * error) * W) :=
  match cmds with
  | [] => Ret (output, None, w)
  | cmd :: cmds =>
      out_bind (Run c cmd None w) (λ '(o, _, err, w),
        let output := <[cmd := b2s o]> output in
        match err with
        | Some e => Ret (output, Some (cmd, e), w)
        | None => run_commands c cmds output w
        end)
  end.

(* @dcp/provisioning/ssh/client.go:73-99 Client.Connect *)
Definition connect (c : Client) (address : string) (w : W) : outcome (Client * option error * W) :=
  match Connect c address w with
  | Some (Ret (c, err, w, _)) => Ret (c, err, w)
  | _ => Panic
  end.

(** The request is acknowledged before the work starts; the work is reported to
    the task.  The connection is closed after the report. *)
(* @dcp/provisioning/ssh/command_service.go:38-118 CommandService.HandlePatch *)
Definition HandlePatch (ctx : Context) (op : Operation) (w : W) : outcome (Operation * W) :=
  match DecodeBodyAs op (zero : ComputeCommandReference) with
  | (op, _, Some e) => Ret (Fail_ e op, w)
  | (op, req, None) =>
      let op := Complete (SetStatusCode 201 op) in
      let ts := NewTaskStateWrapper ctx (ccr_ProvisioningTaskReference req) NewComputeSubTaskState in
      out_bind (PatchStage now TaskStageStarted ts w) (λ '(ts, w),
        out_bind (
          if ccr_IsMockRequest req then finish now ts w
          else
            out_bind (GetComputeStateWithDescription now ctx (ccr_ComputeReference req) zero w) (λ '(computeHost, err, w),
              match err with
              | Some e => failure now stack ("Error getting ComputeState " +:+ show_uri (ccr_ComputeReference req)) e ts w
              | None =>
                  local dcp (λ l,
                    let authURI := Extend l (cd_AuthCredentialsLink (csd_Description computeHost)) in
                    out_bind (GetAuthCredentialsServiceState now ctx zero (Some authURI) w) (λ '(creds, err, w),
                      match err with
                      | Some e => failure now stack ("failed to get auth creds " +:+ URL_String authURI) e ts w
                      | None =>
                          match WithPublicKey (auth_UserEmail creds) (auth_PrivateKey creds) with
                          | Err e => failure now stack "failed to create ssh client" e ts w
                          | Ok c =>
                              match url_Parse (ccr_HostCommandReference req) with
                              | Err e => failure now stack ("url.Parse " +:+ ccr_HostCommandReference req +:+ " failed") e ts w
                              | Ok u =>
                                  out_bind (connect c (b2s (u_Host u)) w) (λ '(c, err, w),
                                    match err with
                                    | Some e => failure now stack ("connect " +:+ ccr_HostCommandReference req +:+ " failed") e ts w
                                    | None =>
                                        out_bind (
                                          out_bind (run_commands c (ccr_Commands req) ∅ w) (λ '(output, failed, w),
                                            match failed with
                                            | Some (cmd, e) => failure now stack ("exec " +:+ cmd +:+ " failed") e ts w
                                            | None =>
                                                deref (ccr_ProvisioningTaskReference req) (λ task,
                                                  let patch := SetBody (ValueOf {| CommandResponse := output |}) (NewPatch now ctx task BNil) in
                                                  out_bind (SendWait patch w) (λ '(_, err, w),
                                                    match err with
                                                    | Some e => failure now stack "patching compute result failed" e ts w
                                                    | None => finish now ts w
                                                    end))
                                            end)) (λ w,
                                          match cl_conn c with Some conn => Ret (ssh_Close conn w) | None => Panic end)
                                    end)
                              end
                          end
                      end))
              end)) (λ w, Ret (op, w)))
  end.
End ssh.

Arguments Client K C : clear implicits.

(** ** Properties *)
Section retries.
Context {W K C X : Type} `{SshLib W K C X} `{GoTypes} (now : Z).

(** The world after [n] dials that all fail. *)
Fixpoint dials_fail (n : nat) (c : Client K C) (address : string) (w : W) : option W :=
  match n with
  | O => Some w
  | S n => match ssh_Dial "tcp" address (cl_config c) w with (Err _, w) => dials_fail n c address w | (Ok _, _) => None end
  end.

Lemma connect_loop_spec r op c address (w : W) : op_retriesRemaining op = Z.of_nat r → op_retryCount op = 25%Z → r ≤ 25 →
  ∃ m w1, m ≤ r ∧ dials_fail m c address w = Some w1 ∧
    connect_loop (S r) op c address w (seqZ 1 (25 - Z.of_nat r))
    = match ssh_Dial "tcp" address (cl_config c) w1 with
      | (Ok conn, w2) => Some (Ret ({| cl_conn := Some conn; cl_config := cl_config c; cl_address := address |}, None, w2,
          seqZ 1 (25 - Z.of_nat r + Z.of_nat m)))
      | (Err e, w2) => Some (Ret (c, Some e, w2, seqZ 1 25))
      end ∧ (m = r ∨ ∃ conn, (ssh_Dial "tcp" address (cl_config c) w1).1 = Ok conn).
Proof.
  revert op w. induction r as [| r IH]; intros op w Hr Hc Hle.
  - exists 0, w. split_and!; [done | done | | by left]. cbn [connect_loop].
    destruct (ssh_Dial _ _ _ w) as [[conn | e] w2]; [by rewrite Z.add_0_r |].
    unfold DecrementRetriesRemaining. rewrite Hr. done.
  - remember (S r) as fuel. cbn [connect_loop]. destruct (ssh_Dial "tcp" address (cl_config c) w) as [[conn | e] w2] eqn:E.
    + exists 0, w. rewrite E. split_and!; [lia | done | by rewrite Z.add_0_r | right; by exists conn].
    + unfold DecrementRetriesRemaining. rewrite Hr, decide_False by lia. subst fuel.
      set (op' := op <| op_retriesRemaining := (Z.of_nat (S r) - 1)%Z |>).
      destruct (IH op' w2) as (m & w1 & Hm & Hf & El & Hd); [simpl; lia | done | lia |].
      exists (S m), w1. unfold WaitForRetryDelay, GetRetryCount, GetRetriesRemaining. rewrite decide_False by (simpl; lia).
      split; [lia |]. split; [cbn [dials_fail]; by rewrite E |].
      replace (seqZ 1 (25 - Z.of_nat (S r)) ++ _) with (seqZ 1 (25 - Z.of_nat r)).
      * rewrite El. split; [| destruct Hd as [-> | Hd]; [by left | by right]].
        destruct (ssh_Dial _ _ _ w1) as [[] ?]; [| done]. by replace (25 - Z.of_nat (S r) + Z.of_nat (S m))%Z with (25 - Z.of_nat r + Z.of_nat m)%Z by lia.
      * replace (25 - Z.of_nat r)%Z with (25 - Z.of_nat (S r) + 1)%Z by lia. rewrite seqZ_app by lia. f_equal.
        rewrite seqZ_cons, seqZ_nil by lia. f_equal. change (op_retryCount op') with (op_retryCount op).
        change (op_retriesRemaining op') with (Z.of_nat (S r) - 1)%Z. lia.
Qed.

(** Connecting dials until a dial succeeds, 26 times at most, sleeping one
    second longer after each failure; it returns the connection, or the error of
    the last dial. *)
Theorem Connect_spec (c : Client K C) (address : string) (w : W) :
  ∃ m w1, m ≤ 25 ∧ dials_fail m c address w = Some w1 ∧
    match ssh_Dial "tcp" address (cl_config c) w1 with
    | (Ok conn, w2) =>
        Connect now c address w
        = Some (Ret ({| cl_conn := Some conn; cl_config := cl_config c; cl_address := address |}, None, w2, seqZ 1 (Z.of_nat m)))
    | (Err e, w2) => m = 25 ∧ Connect now c address w = Some (Ret (c, Some e, w2, seqZ 1 25))
    end.
Proof.
  destruct (connect_loop_spec 25 (SetRetryCount 25 (NewOperation now Background)) c address w) as (m & w1 & Hm & Hf & E & Hd); [done.. |].
  exists m, w1. split; [done |]. split; [done |]. unfold Connect. change (seqZ 1 _) with (@nil Z) in E at 1. rewrite E.
  destruct (ssh_Dial _ _ _ w1) as [[conn | e] w2]; [done |]. split; [| done]. destruct Hd as [| [conn' Hd]]; [done | discriminate].
Qed.

(** A round of retries: a run that fails, and the recovery command. *)
Definition failed_round (c : Client K C) (cmd cmdOnFailure : string) (st : bytes * option bytes * W) : option (bytes * option bytes * W) :=
  let '(out, stdin, w) := st in
  match Run c cmd stdin w with
  | Ret (o, stdin, Some _, w) =>
      if str_empty cmdOnFailure then Some (out ++ o, stdin, w)
      else match Run c cmdOnFailure stdin w with
           | Ret (o', stdin, _, w) => Some (out ++ o ++ o', stdin, w)
           | Panic => None
           end
  | _ => None
  end.
Fixpoint failed_rounds (n : nat) (c : Client K C) (cmd cmdOnFailure : string) (st : bytes * option bytes * W) : option (bytes * option bytes * W) :=
  match n with O => Some st | S n => failed_round c cmd cmdOnFailure st ≫= failed_rounds n c cmd cmdOnFailure end.

Lemma Run_connected c cmd stdin (w : W) : is_Some (cl_conn c) → ∃ o stdin' err w', Run c cmd stdin w = Ret (o, stdin', err, w').
Proof.
  intros [conn Hc]. unfold Run. rewrite Hc. destruct (ssh_NewSession conn w) as [[s | e] w1]; [| eauto 10].
  destruct (Session_Run cmd stdin s w1) as [r w2]. eauto 10.
Qed.

Definition run_end (cmd : string) (out : bytes) (r : outcome (bytes * option bytes * option error * W)) :=
  match r with
  | Panic => Panic
  | Ret (o, stdin, None, w) => Ret (out ++ o, stdin, None, w)
  | Ret (o, stdin, Some _, w) =>
      Ret (out ++ o, stdin, Some (Errorf ("exceeded maximum number (10) of retries for command: [" +:+ cmd +:+ "]")), w)
  end.
Definition succeeds (r : outcome (bytes * option bytes * option error * W)) : Prop := ∃ o stdin w, r = Ret (o, stdin, None, w).

Lemma run_loop_spec r c cmd cmdOnFailure out stdin (w : W) : is_Some (cl_conn c) → r ≤ 9 →
  ∃ m out' stdin' w', m ≤ r ∧ failed_rounds m c cmd cmdOnFailure (out, stdin, w) = Some (out', stdin', w')
    ∧ run_loop (S r) (10 - Z.of_nat r) c cmd cmdOnFailure out stdin w = Some (run_end cmd out' (Run c cmd stdin' w'))
    ∧ (m = r ∨ succeeds (Run c cmd stdin' w')).
Proof.
  intros Hc. revert out stdin w. induction r as [| r IH]; intros out stdin w Hr.
  - exists 0, out, stdin, w. split_and!; [done | done | | by left]. cbn [run_loop].
    destruct (Run_connected c cmd stdin w Hc) as (o & stdin1 & err & w1 & ->). by destruct err.
  - remember (S r) as fuel. cbn [run_loop]. destruct (Run_connected c cmd stdin w Hc) as (o & stdin1 & err & w1 & E). rewrite E.
    destruct err as [e |].
    2: { exists 0, out, stdin, w. rewrite E. split_and!; [lia | done | done | right; by exists o, stdin1, w1]. }
    rewrite decide_False by (unfold retryCount; lia). subst fuel.
    replace (10 - Z.of_nat (S r) + 1)%Z with (10 - Z.of_nat r)%Z by lia.
    assert (∃ st, failed_round c cmd cmdOnFailure (out, stdin, w) = Some st ∧
      (if negb (str_empty cmdOnFailure) then match Run c cmdOnFailure stdin1 w1 with
        | Panic => Some Panic
        | Ret (o', stdin, _, w) => run_loop (S r) (10 - Z.of_nat r) c cmd cmdOnFailure ((out ++ o) ++ o') stdin w end
       else run_loop (S r) (10 - Z.of_nat r) c cmd cmdOnFailure (out ++ o) stdin1 w1)
      = run_loop (S r) (10 - Z.of_nat r) c cmd cmdOnFailure st.1.1 st.1.2 st.2) as ([[out2 stdin2] w2] & Hf & ->).
    { unfold failed_round. rewrite E. destruct (str_empty cmdOnFailure); simpl negb; [by eexists |].
      destruct (Run_connected c cmdOnFailure stdin1 w1 Hc) as (o' & stdin2 & err & w2 & ->).
      eexists; split; [done |]. simpl. by rewrite <- (assoc_L (++)). }
    destruct (IH out2 stdin2 w2) as (m & out' & stdin' & w' & Hm & Hr' & El & Hd); [lia |].
    exists (S m), out', stdin', w'. split_and!; [lia | cbn [failed_rounds]; by rewrite Hf | done |].
    destruct Hd as [-> | Hd]; [by left | by right].
Qed.

(** A command is run until it succeeds, ten times at most; every failure
    but the last is followed by one run of the recovery command, if there is
    one; what the runs write accumulates in order, and after the tenth failure
    the error says so. *)
Theorem RunWithRetry_spec (c : Client K C) (cmd cmdOnFailure : string) (stdin : option bytes) (w : W) :
  is_Some (cl_conn c) →
  ∃ m out' stdin' w', m ≤ 9 ∧ failed_rounds m c cmd cmdOnFailure ([], stdin, w) = Some (out', stdin', w')
    ∧ RunWithRetry c cmd cmdOnFailure stdin w = Some (run_end cmd out' (Run c cmd stdin' w'))
    ∧ (m = 9 ∨ succeeds (Run c cmd stdin' w')).
Proof. intros Hc. exact (run_loop_spec 9 c cmd cmdOnFailure [] stdin w Hc (le_n 9)). Qed.
End retries.

Section command.
Context {W K C X : Type} `{SshLib W K C X} `{GoTypes} `{Network W} (now : Z) (dcp : AddressFlag) (stack : bytes).
Context `{!Embeds ComputeCommandReference} `{!Embeds ComputeSubTaskState} `{!Embeds ComputeStateWithDescription}.
Context `{!Embeds AuthCredentialsServiceState} `{!Embeds ComputeCommandResponse}.

(** What SSH does is no request. *)
Class SshQuiet (log : W → list HttpRequest) := {
  Dial_quiet n a c w : log (ssh_Dial n a c w).2 = log w;
  Close_quiet c w : log (ssh_Close c w) = log w;
  NewSession_quiet c w : log (ssh_NewSession c w).2 = log w;
  Run_quiet cmd i x w : log (Session_Run cmd i x w).2 = log w;
  SessionClose_quiet x w : log (Session_Close x w) = log w
}.
Context (log : W → list HttpRequest) `{!Task log, !SshQuiet log} (Hstack : readable_dump stack).

Lemma Run_log (c : Client K C) cmd stdin (w : W) : is_Some (cl_conn c) →
  ∃ o stdin' err w', Run c cmd stdin w = Ret (o, stdin', err, w') ∧ log w' = log w.
Proof.
  intros [conn Hc]. unfold Run. rewrite Hc. pose proof (NewSession_quiet conn w) as Q.
  destruct (ssh_NewSession conn w) as [[s | e] w1]; simpl in Q; [| by eauto 10].
  pose proof (Run_quiet cmd stdin s w1) as Q1. destruct (Session_Run cmd stdin s w1) as [r w2]. simpl in Q1.
  eexists _, _, _, _. split; [done |]. by rewrite SessionClose_quiet, Q1.
Qed.

Lemma run_commands_spec (c : Client K C) cmds output (w : W) : is_Some (cl_conn c) →
  ∃ output' failed w', run_commands c cmds output w = Ret (output', failed, w') ∧ log w' = log w
    ∧ (failed = None → dom output' = dom output ∪ list_to_set cmds).
Proof.
  intros Hc. revert output w. induction cmds as [| cmd cmds IH]; intros output w; cbn [run_commands].
  { eexists _, _, _. split_and!; [done | done |]. intros _. simpl. set_solver. }
  destruct (Run_log c cmd None w Hc) as (o & i & [e |] & w1 & -> & Hl); cbn [out_bind].
  { by eexists _, (Some (cmd, e)), _. }
  destruct (IH (<[cmd := b2s o]> output) w1) as (output' & failed & w' & -> & Hl' & Hd).
  eexists _, _, _. split; [done |]. split; [congruence |]. intros Hf. rewrite (Hd Hf), dom_insert_L. set_solver.
Qed.

Lemma run_loop_log fuel attempt (c : Client K C) cmd rec out stdin (w : W) r : is_Some (cl_conn c) →
  run_loop fuel attempt c cmd rec out stdin w = Some r → ∃ o i err w', r = Ret (o, i, err, w') ∧ log w' = log w.
Proof.
  intros Hc. revert attempt out stdin w. induction fuel as [| fuel IH]; intros attempt out stdin w; [done |]. cbn [run_loop].
  destruct (Run_log c cmd stdin w Hc) as (o & i & err & w1 & -> & Hl). rewrite <- Hl.
  destruct err as [e |]; [| by intros [= <-]; eauto 10]. case_decide; [by intros [= <-]; eauto 10 |].
  destruct (negb _); [| apply IH].
  destruct (Run_log c rec i w1 Hc) as (o' & i' & err' & w2 & -> & Hl'). rewrite <- Hl'. apply IH.
Qed.

(** The retries of a connected client return, and send no request. *)
Lemma RunWithRetry_log (c : Client K C) cmd rec stdin (w : W) : is_Some (cl_conn c) →
  ∃ o i err w', RunWithRetry c cmd rec stdin w = Some (Ret (o, i, err, w')) ∧ log w' = log w.
Proof.
  intros Hc. destruct (run_loop_spec 9 c cmd rec [] stdin w Hc (le_n 9)) as (m & o & i & w1 & _ & _ & E & _).
  unfold RunWithRetry. change (Z.to_nat retryCount) with 10. change (10 - Z.of_nat 9)%Z with 1%Z in E. pose proof E as E'. rewrite E.
  apply run_loop_log in E' as (o' & i' & err & w' & -> & Hl); [| done]. eauto 10.
Qed.

Lemma dials_fail_log m (c : Client K C) address (w w1 : W) : dials_fail m c address w = Some w1 → log w1 = log w.
Proof.
  revert w. induction m as [| m IH]; intros w; [by intros [= ->] |]. cbn [dials_fail].
  pose proof (Dial_quiet "tcp" address (cl_config c) w) as Q. destruct (ssh_Dial _ _ _ w) as [[] w2]; [done |].
  simpl in Q. intros E%IH. congruence.
Qed.

Lemma connect_log (c : Client K C) address (w : W) :
  ∃ c' err w', connect now c address w = Ret (c', err, w') ∧ log w' = log w ∧ (err = None → is_Some (cl_conn c')).
Proof.
  destruct (connect_loop_spec 25 (SetRetryCount 25 (NewOperation now Background)) c address w) as (m & w1 & _ & Hf & E & _); [done.. |].
  unfold connect, Connect. change (seqZ 1 (25 - Z.of_nat 25)) with (@nil Z) in E. rewrite E.
  pose proof (Dial_quiet "tcp" address (cl_config c) w1) as Q. apply dials_fail_log in Hf.
  destruct (ssh_Dial _ _ _ w1) as [[conn | e] w2]; simpl in Q; eexists _, _, _; (split; [done |]); (split; [congruence |]); [eauto | done].
Qed.

(** The outputs of the commands were sent to the task. *)
Definition reported (req : ComputeCommandReference) (w : W) : Prop :=
  ∃ output r, dom output = list_to_set (C := gset string) (ccr_Commands req) ∧ r ∈ log w ∧ rq_Method r = "PATCH"%string
    ∧ rq_Body r = Some (TJson (enc {| CommandResponse := output |})).

Definition commands_ok (req : ComputeCommandReference) (w : W) : Prop := ccr_IsMockRequest req = true ∨ reported req w.

Lemma ends_patch req ctx task pu ts output (w w1 : W) : ready ts → url_Parse (URL_String task) = Ok pu → silent log w w1 →
  dom output = list_to_set (C := gset string) (ccr_Commands req) →
  ends log (commands_ok req) w (out_bind (SendWait (SetBody (ValueOf {| CommandResponse := output |}) (NewPatch now ctx task BNil)) w1) (λ '(_, err, w),
    match err with Some e => failure now stack "patching compute result failed" e ts w | None => finish now ts w end)).
Proof.
  intros Hr Hp Hs Hd.
  destruct (SendWait_value log (SetBody (ValueOf {| CommandResponse := output |}) (NewPatch now ctx task BNil)) task pu code_of
    (to_den {| CommandResponse := output |}) w1) as (op' & err & w2 & r & l & E & Hs2 & Hl2 & Hm & _ & Hb); [done.. |].
  rewrite E. cbn [out_bind]. rewrite enc_den in Hb, Hs2.
  change (enc _) with (enc_struct ComputeCommandResponse_fields {| CommandResponse := output |}) in Hs2.
  rewrite stage_of_none in Hs2 by (apply (bool_decide_unpack _); vm_compute; exact I). apply tells_None in Hs2.
  assert (silent log w w2) as Hs' by (etrans; [exact Hs | split; [done | rewrite Hl2; by eexists]]).
  destruct err as [e |]; [by apply (ends_failure now stack log Hstack) |]. apply (ends_finish now log); [done | done |].
  intros w3 Hl3. right. exists output, r. split; [done |]. split; [| by split]. destruct Hl3 as [k ->]. rewrite Hl2. set_solver.
Qed.

(** A request that decodes is acknowledged with 201; its task is told that the
    work started, and then that it failed or that it finished, never both.
    Each report is attempted once, and up to three times when the connection
    breaks.  It finished only if the request is a mock, or the outputs of all
    its commands were sent to the task. *)
Theorem HandlePatch_reports ctx op op0 req task pu l (w : W) :
  DecodeBodyAs op (zero : ComputeCommandReference) = (op0, req, None) →
  ccr_ProvisioningTaskReference req = Some task → url_Parse (URL_String task) = Ok pu →
  Local_ dcp = Some l → is_Some (ccr_ComputeReference req) →
  ∃ w' s n m, HandlePatch now dcp stack ctx op w = Ret (Complete (SetStatusCode 201 op0), w')
    ∧ stages log w' = stages log w ++ replicate n TaskStageStarted ++ replicate m s
    ∧ 1 ≤ n ≤ 3 ∧ 1 ≤ m ≤ 3 ∧ (prompt → n = 1 ∧ m = 1)
    ∧ (s = TaskStageFailed ∨ s = TaskStageFinished ∧ commands_ok req w').
Proof.
  intros Hdec Ht Hp Hl [cr Hcr]. unfold HandlePatch. rewrite Hdec, Ht.
  set (ts0 := NewTaskStateWrapper ctx (Some task) NewComputeSubTaskState).
  destruct (PatchStage_stages now log TaskStageStarted ts0 w) as (ts & w1 & -> & Hr & Hs & _); [by split; [eexists | exists task, pu] | done |].
  cbn [out_bind].
  match goal with |- context [out_bind ?r (λ w, Ret (_, w))] => assert (ends log (commands_ok req) w1 r) as (w' & s & -> & Hs' & Ho) end.
  2: { destruct (tells_two log _ _ _ _ _ Hs Hs') as (n & m & E1 & E2 & E3 & E4). by exists w', s, n, m. }
  clear w Hs. destruct (ccr_IsMockRequest req) eqn:Hmock.
  { apply (ends_finish now log); [done | done |]. intros w' _. by left. }
  unfold GetComputeStateWithDescription. rewrite Hcr. cbn [deref].
  edestruct (get_into_quiet (A := ComputeStateWithDescription) now log ctx) as (host & err & w2 & -> & Hs2). cbn [out_bind].
  destruct err as [e |]; [by apply (ends_failure now stack log Hstack) |]. unfold local. rewrite Hl. unfold GetAuthCredentialsServiceState.
  edestruct (get_into_quiet (A := AuthCredentialsServiceState) now log ctx) as (creds & err & w3 & -> & Hs3). cbn [out_bind].
  assert (silent log w1 w3) as Hs by (by etrans). clear w2 Hs2 Hs3.
  destruct err as [e |]; [by apply (ends_failure now stack log Hstack) |].
  destruct (WithPublicKey _ _) as [c | e]; [| by apply (ends_failure now stack log Hstack)].
  destruct (url_Parse (ccr_HostCommandReference req)) as [u | e]; [| by apply (ends_failure now stack log Hstack)].
  destruct (connect_log c (b2s (u_Host u)) w3) as (c' & err & w4 & -> & Hl4 & Hc'). cbn [out_bind].
  assert (silent log w1 w4) as Hs4 by (etrans; [exact Hs | by apply log_silent]). clear w3 Hs Hl4.
  destruct err as [e |]; [by apply (ends_failure now stack log Hstack) |]. specialize (Hc' eq_refl).
  destruct (run_commands_spec c' (ccr_Commands req) ∅ w4 Hc') as (output & failed & w5 & -> & Hl5 & Hd). cbn [out_bind].
  assert (silent log w1 w5) as Hs5 by (etrans; [exact Hs4 | by apply log_silent]). clear w4 Hs4 Hl5.
  match goal with |- ends _ _ _ (out_bind ?r _) => assert (ends log (commands_ok req) w1 r) as (w' & s & -> & Hs' & Ho) end.
  - destruct failed as [[cmd e] |]; [by apply (ends_failure now stack log Hstack) |]. cbn [deref].
    apply (ends_patch _ _ _ pu); try done. rewrite (Hd eq_refl), dom_empty_L. set_solver.
  - cbn [out_bind]. destruct Hc' as [conn ->]. exists (ssh_Close conn w'), s.
    split; [done |]. split; [eapply tells_stages; [exact Hs' | done |]; unfold stages; by rewrite Close_quiet |].
    unfold commands_ok, reported in *. by rewrite Close_quiet.
Qed.
End command.

(** ** Witnesses

    A host whose commands echo themselves, until they have run [k] times. *)
Definition sample_ssh (k : nat) : SshLib (nat * list HttpRequest) bytes () () := {|
  ParsePrivateKey := λ b, Ok b;
  ssh_Dial := λ _ _ _ w, (Ok (), w);
  ssh_Close := λ _ w, w;
  ssh_NewSession := λ _ w, (Ok (), w);
  Session_Run := λ cmd i _ w,
    ({| rr_stdout := s2b cmd; rr_stderr := []; rr_stdin := i;
        rr_error := if decide (k ≤ w.1) then None else Some (ExitError "" 1 "") |}, (S w.1, w.2));
  Session_Close := λ _ w, w
|}.
Definition sample_client : Client bytes () :=
  {| cl_conn := Some (); cl_config := {| cc_User := "u"; cc_Auth := [Password "p"] |}; cl_address := "h" |}.

Lemma RunWithRetry_spec_witness : let ssh := sample_ssh 4 in
  RunWithRetry sample_client "a" "b" None (0, []) = Some (Ret (s2b "ababa", None, None, (5, [])))
  ∧ ∃ m out' stdin' w', m ≤ 9 ∧ failed_rounds m sample_client "a" "b" ([], None, (0, [])) = Some (out', stdin', w').
Proof.
  intros ssh. split; [vm_compute; reflexivity |].
  destruct (RunWithRetry_spec sample_client "a" "b" None (0, []) ltac:(by eexists)) as (m & o & i & w' & H1 & H2 & _).
  by exists m, o, i, w'.
Defined.

Definition command_types : GoTypes := types_of
  [GoType ComputeCommandReference; GoType ComputeSubTaskState; GoType ComputeStateWithDescription;
   GoType AuthCredentialsServiceState; GoType ComputeCommandResponse].
Definition sample_network : Network (nat * list HttpRequest) :=
  {| Do := λ req w, (ok_json (JObj []), req, (w.1, w.2 ++ [req])); json_text := λ _, [] |}.
Definition sample_commands : ComputeCommandReference :=
  {| ccr_ComputeReference := Some sample_local; ccr_ProvisioningTaskReference := Some sample_local;
     ccr_HostCommandReference := "ssh://h:22"; ccr_Commands := ["a"; "b"]; ccr_IsMockRequest := false |}.
Definition sample_command_op : Operation (H := command_types) :=
  let types := command_types in
  SetBody (BReadCloser (TJson (enc sample_commands))) (NewPatch 0 Background sample_local BNil).

Lemma HandlePatch_reports_witness : let types := command_types in let ssh := sample_ssh 0 in let net := sample_network in
  let e0 : Embeds ComputeCommandReference := nth_embeds _ 0 in let e1 : Embeds ComputeSubTaskState := nth_embeds _ 1 in
  let e2 : Embeds ComputeStateWithDescription := nth_embeds _ 2 in let e3 : Embeds AuthCredentialsServiceState := nth_embeds _ 3 in
  let e4 : Embeds ComputeCommandResponse := nth_embeds _ 4 in
  let r := HandlePatch (W := nat * list HttpRequest) 0 {| af_host := ""; af_port := "" |} [] Background sample_command_op (0, []) in
  (∃ w' s, r = Ret (Complete (SetStatusCode 201 (SetBody BNil sample_command_op)), w')
    ∧ stages snd w' = [TaskStageStarted; s]) ∧
  match r with Ret (_, w') => stages snd w' = [TaskStageStarted; TaskStageFinished] ∧ w'.1 = 2 | Panic => False end.
Proof.
  intros types ssh net e0 e1 e2 e3 e4 r. split; [| vm_compute; done].
  assert (Task snd) as T by (constructor; [done | by right]).
  assert (SshQuiet (H := ssh) snd) as Q by (constructor; done).
  assert (readable_dump []) as D by (exists []; vm_compute; reflexivity).
  assert (DecodeBodyAs sample_command_op (zero : ComputeCommandReference) = (SetBody BNil sample_command_op, sample_commands, None)) as Hd
    by (apply (DecodeBodyAs_stream _ (enc sample_commands)); [done | done | vm_compute; reflexivity]).
  assert (url_Parse (URL_String sample_local) = Ok sample_local) as Hu by (vm_compute; reflexivity).
  assert (Local_ {| af_host := ""; af_port := "" |} = Some sample_local) as Hl by (vm_compute; reflexivity).
  destruct (HandlePatch_reports (W := nat * list HttpRequest) 0 {| af_host := ""; af_port := "" |} [] snd D Background
    _ _ _ sample_local _ _ (0, []) Hd eq_refl Hu Hl ltac:(by eexists)) as (w' & s & n & m & E1 & E2 & _ & _ & Hp & _).
  destruct Hp as [-> ->]; [by intros req w e _ |]. exists w', s. split; [exact E1 | exact E2].
Defined.
