(* ===== verification/Filecache.v ===== *)
(** Package [dcp/filecache]: files fetched over HTTP, kept under the hash of
    their URL.

    The file system is a map from paths to files.  Any system call may fail: the
    failures, the clock and the servers are a parameter ([Machine]).  A download
    runs alone for its URL ([singleflight]), but any file may have any contents
    when it starts. *)

From S2P Require Import Prelude GoPath GoNet GoURL.
From Stdlib Require Import ZArith Lia.

(** ** SHA-256 ([crypto/sha256]) *)
Module Sha256.
Open Scope Z_scope.
Definition w32 (z : Z) : Z := z mod 2 ^ 32.
Definition rotr (n x : Z) : Z := Z.lor (Z.shiftr x n) (w32 (Z.shiftl x (32 - n))).

(** The constants: 32 bits of the fractional part of the cube roots of the first
    64 primes, and of the square roots of the first eight. *)
Definition is_prime (n : nat) : bool := forallb (λ d, negb (Nat.eqb (n mod d) 0)) (seq 2 (n - 2)).
Definition primes : list Z := Z.of_nat <$> filter (λ n, is_prime n = true) (seq 2 310).
Fixpoint root_bits (n : nat) (target low : Z) : Z :=
  match n with
  | O => low
  | S n => let m := low + 2 ^ Z.of_nat n in root_bits n target (if decide (m * m * m <= target) then m else low)
  end.
Definition K : list Z := Eval vm_compute in (λ p, w32 (root_bits 36 (p * 2 ^ 96) 0)) <$> primes.
Definition H0 : list Z := Eval vm_compute in (λ p, w32 (Z.sqrt (p * 2 ^ 64))) <$> take 8 primes.
Example K_size : length K = 64%nat.
Proof. reflexivity. Qed.

(** The message schedule, newest word first. *)
Definition nth_z (l : list Z) (i : nat) : Z := default 0 (l !! i).
Definition next_word (w : list Z) : Z :=
  let x15 := nth_z w 14 in
  let x2 := nth_z w 1 in
  let s0 := Z.lxor (Z.lxor (rotr 7 x15) (rotr 18 x15)) (Z.shiftr x15 3) in
  let s1 := Z.lxor (Z.lxor (rotr 17 x2) (rotr 19 x2)) (Z.shiftr x2 10) in
  w32 (nth_z w 15 + s0 + nth_z w 6 + s1).
Definition schedule (block : list Z) : list Z :=
  reverse (Nat.iter 48 (λ w, next_word w :: w) (reverse block)).

Definition round (s : list Z) (kw : Z * Z) : list Z :=
  match s with
  | [a; b; c; d; e; f; g; h] =>
      let s1 := Z.lxor (Z.lxor (rotr 6 e) (rotr 11 e)) (rotr 25 e) in
      let ch := Z.lxor (Z.land e f) (Z.land (Z.lxor e (2 ^ 32 - 1)) g) in
      let t1 := h + s1 + ch + kw.1 + kw.2 in
      let s0 := Z.lxor (Z.lxor (rotr 2 a) (rotr 13 a)) (rotr 22 a) in
      let maj := Z.lxor (Z.lxor (Z.land a b) (Z.land a c)) (Z.land b c) in
      [w32 (t1 + s0 + maj); a; b; c; w32 (d + t1); e; f; g]
  | _ => s
  end.
Definition compress (h : list Z) (block : list Z) : list Z :=
  zip_with (λ x y, w32 (x + y)) h (foldl round h (zip K (schedule block))).

Fixpoint words (fuel : nat) (b : bytes) : list Z :=
  match fuel, b with
  | O, _ | _, [] => []
  | S fuel, _ => be_get (take 4 b) :: words fuel (drop 4 b)
  end.
Fixpoint blocks (fuel : nat) (ws : list Z) : list (list Z) :=
  match fuel, ws with
  | O, _ | _, [] => []
  | S fuel, _ => take 16 ws :: blocks fuel (drop 16 ws)
  end.
Definition pad (m : bytes) : bytes :=
  let n := length m in
  m ++ x80 :: replicate (Z.to_nat ((55 - Z.of_nat n) mod 64)) x00 ++ be_put 8 (8 * Z.of_nat n).

Definition Sum256 (m : bytes) : bytes :=
  let p := pad m in
  let ws := words (length p) p in
  mjoin (be_put 4 <$> foldl compress H0 (blocks (length ws) ws)).

Example Sum256_abc : b2s (fmt_x (Sum256 (s2b "abc")))
  = "ba7816bf8f01cfea414140de5dae2223b00361a396177a9cb410ff61f20015ad"%string.
Proof. vm_compute. reflexivity. Qed.
Example Sum256_two_blocks : b2s (fmt_x (Sum256 (s2b "abcdbcdecdefdefgefghfghighijhijkijkljklmklmnlmnomnopnopq")))
  = "248d6a61d20638b8e5c026930c3e6039a33ce45964ff2167f6ecedd419db06c1"%string.
Proof. vm_compute. reflexivity. Qed.
End Sha256.

(** ** Files *)
Record File := { f_data : bytes; f_mtime : Z }.

(** The outside of a download: which system calls fail, how much of a write
    succeeds, the time, and the answer of a server to a GET with the
    If-Modified-Since header, if any: status code, and the body with the error
    that cuts it short. *)
Class Machine (E : Type) := {
  os_fault : string → string → E → option error * E;
  os_write : bytes → E → option (nat * error) * E;
  os_now : E → Z;
  http_Get : URL → option Z → E → res (Z * (bytes * option error)) * E
}.

Section filecache.
Context {E : Type} `{Machine E} (downloadPath : string).

Record CacheW := { cw_ext : E; cw_files : gmap string File }.
#[export] Instance eta_CacheW : Eta CacheW := λ w, {| cw_ext := cw_ext w; cw_files := cw_files w |}.

(* @dcp/filecache/filecache.go:22-26 Path *)
Definition Path (url : string) : string :=
  let sum := Sha256.Sum256 (s2b url) in
  let name := "sha256-" +:+ b2s (fmt_x sum) +:+ filepath_Ext url in
  path_Join downloadPath name.

Definition fault (call path : string) (w : CacheW) : option error * CacheW :=
  let '(e, x) := os_fault call path (cw_ext w) in (e, w <| cw_ext := x |>).

Definition Stat (path : string) (w : CacheW) : res File * CacheW :=
  match fault "stat" path w with
  | (Some e, w) => (Err e, w)
  | (None, w) => (match cw_files w !! path with Some f => Ok f | None => Err ErrNotExist end, w)
  end.

(** Opened for writing, created or truncated. *)
Definition OpenTrunc (path : string) (w : CacheW) : option error * CacheW :=
  match fault "open" path w with
  | (Some e, w) => (Some e, w)
  | (None, w) => (None, w <| cw_files := <[path := {| f_data := []; f_mtime := os_now (cw_ext w) |}]> (cw_files w) |>)
  end.

(** [io.Copy] from a body to the open file: what was written before an error
    stays. *)
Definition Copy (path : string) (body : bytes * option error) (w : CacheW) : option error * CacheW :=
  let '(f, x) := os_write body.1 (cw_ext w) in
  let '(data, e) := match f with Some (n, e) => (take n body.1, Some e) | None => body end in
  (e, w <| cw_ext := x |> <| cw_files := <[path := {| f_data := data; f_mtime := os_now x |}]> (cw_files w) |>).

Definition Rename (old new : string) (w : CacheW) : option error * CacheW :=
  match fault "rename" old w with
  | (Some e, w) => (Some e, w)
  | (None, w) =>
      match cw_files w !! old with
      | None => (Some ErrNotExist, w)
      | Some f => (None, w <| cw_files := <[new := f]> (delete old (cw_files w)) |>)
      end
  end.

Definition tmp_of (finalPath : string) : string := finalPath +:+ ".tmp".

(** What is done with a 200 response. *)
(* @dcp/filecache/filecache.go:65-83 Download *)
Definition store (finalPath : string) (body : bytes * option error) (w : CacheW) : res string * CacheW :=
  let tmpPath := tmp_of finalPath in
  match OpenTrunc tmpPath w with
  | (Some e, w) => (Err e, w)
  | (None, w) =>
      match Copy tmpPath body w with
      | (Some e, w) => (Err e, w)
      | (None, w) =>
          match Rename tmpPath finalPath w with
          | (Some e, w) => (Err e, w)
          | (None, w) => (Ok finalPath, w)
          end
      end
  end.

(* @dcp/filecache/filecache.go:38-63 Download *)
Definition fetch (finalPath url : string) (since : option Z) (w : CacheW) : res string * CacheW :=
  match url_Parse url with
  | Err e => (Err e, w)
  | Ok u =>
      match http_Get u since (cw_ext w) with
      | (Err e, x) => (Err e, w <| cw_ext := x |>)
      | (Ok (code, body), x) =>
          let w := w <| cw_ext := x |> in
          if decide (code = 304)%Z then (Ok finalPath, w)
          else if decide (code ≠ 200)%Z then (Err (Errorf ("unexpected http status " +:+ fmt_d code)), w)
          else store finalPath body w
      end
  end.

(* @dcp/filecache/filecache.go:28-91 Download *)
Definition Download (url : string) (w : CacheW) : res string * CacheW :=
  let finalPath := Path url in
  let '(st, w) := Stat finalPath w in
  match st with
  | Err e => if decide (e = ErrNotExist) then fetch finalPath url None w else (Err e, w)
  | Ok fi => fetch finalPath url (Some (f_mtime fi)) w
  end.

(** ** Properties *)
Lemma tmp_ne p : tmp_of p ≠ p.
Proof.
  intros Hp. apply (f_equal (λ s, length (s2b s))) in Hp. unfold tmp_of in Hp. rewrite s2b_app, length_app in Hp. simpl in Hp. lia.
Qed.

Lemma fault_files call path w : cw_files (fault call path w).2 = cw_files w.
Proof. unfold fault. by destruct (os_fault _ _ _). Qed.

(** Files other than [p]. *)
Definition same_but (p : string) (w w' : CacheW) : Prop := delete p (cw_files w') = delete p (cw_files w).

Lemma OpenTrunc_files p w e w' : OpenTrunc p w = (e, w') → same_but p w w'.
Proof.
  unfold OpenTrunc, same_but. pose proof (fault_files "open" p w) as F. destruct (fault "open" p w) as [[e1 |] w1]; intros [= <- <-]; simpl in *; rewrite F.
  - done.
  - apply delete_insert_eq.
Qed.

Lemma Copy_files p body w e w' : Copy p body w = (e, w') → same_but p w w' ∧ (e = None → body.2 = None ∧ ∃ t, cw_files w' !! p = Some {| f_data := body.1; f_mtime := t |}).
Proof.
  unfold Copy, same_but. destruct (os_write _ _) as [[[n e1] |] x]; [intros [= <- <-] | destruct body as [data e1]; intros [= <- <-]]; simpl.
  - split; [apply delete_insert_eq | done].
  - split; [apply delete_insert_eq |]. intros ->. split; [done |]. eexists. apply lookup_insert_eq.
Qed.

Lemma same_but_lookup p q w w' : same_but p w w' → q ≠ p → cw_files w' !! q = cw_files w !! q.
Proof. intros S Hq. rewrite <- (lookup_delete_ne _ p q), <- (lookup_delete_ne (cw_files w) p q) by done. by rewrite S. Qed.

Lemma store_files final body w r w' :
  store final body w = (r, w') →
  (∀ p, p ≠ final → p ≠ tmp_of final → cw_files w' !! p = cw_files w !! p) ∧
  match r with
  | Err _ => cw_files w' !! final = cw_files w !! final
  | Ok f => f = final ∧ body.2 = None ∧ f_data <$> cw_files w' !! final = Some body.1
  end.
Proof.
  pose proof (tmp_ne final) as Hne. unfold store.
  destruct (OpenTrunc (tmp_of final) w) as [e1 w1] eqn:E1. apply OpenTrunc_files in E1.
  destruct e1 as [e1 |].
  { intros [= <- <-]. split; [intros; by apply (same_but_lookup _ _ _ _ E1) | by apply (same_but_lookup _ _ _ _ E1)]. }
  destruct (Copy (tmp_of final) body w1) as [e2 w2] eqn:E2. apply Copy_files in E2 as [E2 Hok].
  assert (∀ p, p ≠ tmp_of final → cw_files w2 !! p = cw_files w !! p) as E12.
  { intros p Hp. rewrite (same_but_lookup _ _ _ _ E2) by done. by apply (same_but_lookup _ _ _ _ E1). }
  destruct e2 as [e2 |]; [intros [= <- <-]; split; [auto | by apply E12] |].
  destruct (Hok eq_refl) as [Hb [t Ht]]. unfold Rename.
  pose proof (fault_files "rename" (tmp_of final) w2) as F. destruct (fault "rename" (tmp_of final) w2) as [[e3 |] w3]; simpl in F.
  { intros [= <- <-]. rewrite F. split; [auto | by apply E12]. }
  rewrite F, Ht. intros [= <- <-]. simpl. split.
  - intros p H1 H2. rewrite lookup_insert_ne, lookup_delete_ne by done. by apply E12.
  - by rewrite lookup_insert_eq.
Qed.

(** C23: whatever fails on the way, a download never leaves a partial file under
    the final name: the cached file is what it was, or it is the complete body
    of a 200 response of the server, and then the download succeeded.  Its only
    other trace is the temporary file; the name it returns is the file's. *)
Theorem Download_atomic (url : string) (w : CacheW) :
  let '(r, w') := Download url w in
  let final := Path url in
  (∀ p, p ≠ final → p ≠ tmp_of final → cw_files w' !! p = cw_files w !! p) ∧
  (∀ f, r = Ok f → f = final) ∧
  (cw_files w' !! final = cw_files w !! final ∨
   r = Ok final ∧ ∃ u since x x' data, http_Get u since x = (Ok (200%Z, (data, None)), x')
     ∧ f_data <$> cw_files w' !! final = Some data).
Proof.
  assert (∀ since w1, cw_files w1 = cw_files w → let '(r, w') := fetch (Path url) url since w1 in
    (∀ p, p ≠ Path url → p ≠ tmp_of (Path url) → cw_files w' !! p = cw_files w !! p) ∧
    (∀ f, r = Ok f → f = Path url) ∧
    (cw_files w' !! Path url = cw_files w !! Path url ∨
     r = Ok (Path url) ∧ ∃ u since x x' data, http_Get u since x = (Ok (200%Z, (data, None)), x')
       ∧ f_data <$> cw_files w' !! Path url = Some data)) as Hf.
  { intros since w1 <-. unfold fetch. destruct (url_Parse url) as [u | e]; [| split_and!; [done | done | by left]].
    destruct (http_Get u since (cw_ext w1)) as [[[code body] | e] x] eqn:Eh; [| split_and!; [done | done | by left]].
    case_decide; [split_and!; [done | by intros f [= <-] | by left] |]. destruct (decide (code ≠ 200)%Z) as [| Hc]; [split_and!; [done | done | by left] |].
    assert (code = 200%Z) as -> by lia.
    destruct (store (Path url) body (w1 <| cw_ext := x |>)) as [r w2] eqn:Es. apply store_files in Es as [H1 H2].
    split; [done |]. destruct r as [f | e]; [| split; [done | by left]]. destruct H2 as (-> & Hb & Hd).
    split; [by intros ? [= <-] |]. right. split; [done |]. exists u, since, (cw_ext w1), x, body.1.
    split; [| done]. rewrite Eh. destruct body as [d e]. simpl in *. by subst. }
  unfold Download, Stat. pose proof (fault_files "stat" (Path url) w) as F.
  destruct (fault "stat" (Path url) w) as [[e |] w1]; simpl in F.
  - case_decide; [by apply Hf |]. rewrite F. split_and!; [done | done | by left].
  - destruct (cw_files w1 !! Path url); [by apply Hf |]. rewrite decide_True by done. by apply Hf.
Qed.
End filecache.
Arguments CacheW E : clear implicits.

(** A machine on which nothing fails, whose server has one file. *)
#[local] Instance sample_machine : Machine () :=
  {| os_fault := λ _ _ _, (None, ()); os_write := λ _ _, (None, ()); os_now := λ _, 7%Z;
     http_Get := λ u since _, (Ok (match since with Some 7%Z => 304 | _ => 200 end, (s2b "tar", None))%Z, ()) |}.
Example Download_twice :
  let '(r1, w1) := Download "/tmp" "http://h/a.tar" {| cw_ext := (); cw_files := ∅ |} in
  let '(r2, w2) := Download "/tmp" "http://h/a.tar" w1 in
  r1 = Ok (Path "/tmp" "http://h/a.tar") ∧ r2 = r1 ∧ f_data <$> cw_files w2 !! Path "/tmp" "http://h/a.tar" = Some (s2b "tar").
Proof. vm_compute. done. Qed.
