(* ===== verification/BootImage.v ===== *)
(** Package [dcp/provisioning/image], [helpers.go]: the file of a disk's boot
    image, downloaded, or generated by the customization service the disk names.

    [w] is the network of the services and [c] the machine's files. *)

From S2P Require Import Prelude GoPath GoNet GoJson GoURL DcpCommon DcpUri Operation Client ProvTypes Provisioning Filecache.
From Stdlib Require Import ZArith Lia.

Section boot_image.
Context `{GoTypes} {W : Type} `{Network W} (now : Z) (dcp : AddressFlag).
Context {E : Type} `{Machine E} (downloadPath : string).
Context `{!Embeds DiskCustomizationRequest}.

(* @dcp/provisioning/image/helpers.go:18-20 Path *)
Definition image_Path (compute : ComputeState) (u : URI) : string :=
  Path downloadPath (cs_ID compute +:+ "." +:+ path_Base (b2s (u_Path u))).

(** The response is a stream that goes to the file; reading it may fail. *)
Definition stream_bytes (r : option HttpResponse) : outcome (bytes * option error) :=
  match r with
  | None => Panic
  | Some r => Ret (match res_Body r with Ok x => (text_bytes (W := W) x, None) | Err e => ([], Some e) end)
  end.

(** A disk that names a service. *)
(* @dcp/provisioning/image/helpers.go:30-63 Download *)
Definition generate (ctx : Context) (compute : ComputeState) (disk : DiskState) (w : W) (c : CacheW E) :
  outcome (res string * W * CacheW E) :=
  match Parse (disk_CustomizationServiceReference disk) with
  | Err e => Ret (Err e, w, c)
  | Ok service =>
      local dcp (λ l,
        let dcr := {| dcr_ComputeReference := Some (Extend l (sd_SelfLink (cs_ServiceDocument compute)));
                      dcr_DiskReference := Some (Extend l (sd_SelfLink (disk_ServiceDocument disk))) |} in
        let filePath := image_Path compute service in
        match OpenTrunc filePath c with
        | (Some e, c) => Ret (Err e, w, c)
        | (None, c) =>
            let op := SetIsStreamResponse true (SetBody (ValueOf dcr) (NewPost now ctx service BNil)) in
            out_bind (SendWait op w) (λ '(op, err, w),
              match err with
              | Some e => Ret (Err e, w, c)
              | None =>
                  out_bind (stream_bytes (GetResponse op)) (λ body,
                    match Copy filePath body c with
                    | (Some e, c) => Ret (Err e, w, c)
                    | (None, c) => Ret (Ok filePath, w, c)
                    end)
              end)
        end)
  end.

(* @dcp/provisioning/image/helpers.go:22-28 Download *)
Definition image_Download (ctx : Context) (compute : ComputeState) (disk : DiskState) (w : W) (c : CacheW E) :
  outcome (res string * W * CacheW E) :=
  if str_empty (disk_CustomizationServiceReference disk) then
    let '(r, c) := Download downloadPath (disk_SourceImageReference disk) c in Ret (r, w, c)
  else generate ctx compute disk w c.

(** A generated image: what the service answers with is the contents of the
    file that is returned, named after the compute and the service, and every
    other file is left alone.  When the service rejects the request, the file is
    there all the same, empty. *)
Theorem generate_spec (ctx : Context) (compute : ComputeState) (disk : DiskState) (w : W) (c : CacheW E) (l service : URI)
    (r : HttpResponse) (b : bytes) (x x' : E) :
  let file := image_Path compute service in
  let dcr := {| dcr_ComputeReference := Some (Extend l (sd_SelfLink (cs_ServiceDocument compute)));
                dcr_DiskReference := Some (Extend l (sd_SelfLink (disk_ServiceDocument disk))) |} in
  let op := SetIsStreamResponse true (SetBody (ValueOf dcr) (NewPost now ctx service BNil)) in
  disk_CustomizationServiceReference disk ≠ ""%string →
  Parse (disk_CustomizationServiceReference disk) = Ok service → Local_ dcp = Some l →
  os_fault "open" file (cw_ext c) = (None, x) → os_write b x = (None, x') →
  (∀ op' e w', SendWait op w = Ret (op', Some e, w') →
    ∃ c', image_Download ctx compute disk w c = Ret (Err e, w', c') ∧ f_data <$> cw_files c' !! file = Some []) ∧
  (∀ op' w', SendWait op w = Ret (op', None, w') → GetResponse op' = Some r → res_Body r = Ok (TRaw b) →
    ∃ c', image_Download ctx compute disk w c = Ret (Ok file, w', c')
      ∧ f_data <$> cw_files c' !! file = Some b ∧ same_but file c c').
Proof.
  intros file dcr op Hne Hp Hl Hf Hw. unfold image_Download, generate.
  replace (str_empty (disk_CustomizationServiceReference disk)) with false by (symmetry; by apply String.eqb_neq).
  rewrite Hp. unfold local. rewrite Hl. fold file. fold dcr. fold op. unfold OpenTrunc, fault. rewrite Hf. cbn [cw_files cw_ext].
  split.
  - intros op' e w' E1. rewrite E1. cbn [out_bind]. eexists. split; [done |]. simpl. by rewrite lookup_insert_eq.
  - intros op' w' E1 E2 E3. rewrite E1. cbn [out_bind]. rewrite E2. unfold stream_bytes. rewrite E3. cbn [out_bind text_bytes].
    unfold Copy. simpl. rewrite Hw. eexists. split; [done |]. simpl. rewrite lookup_insert_eq. split; [done |].
    unfold same_but. simpl. by rewrite !delete_insert_eq.
Qed.
End boot_image.
