(* ===== verification/BootConfig.v ===== *)
(** Package [dcp/provisioning/image], [boot_config.go] and
    [boot_config_service.go]: the service that makes the configuration drive of a
    disk.  It writes the files of the disk's boot configuration below a temporary
    directory, packs them into an image, answers with the image, and removes the
    directory.

    The file system maps the components of a path to a file or a directory; the
    root is always there, and there are no symbolic links.  System calls may fail
    (class [Machine]).  The template language ([html/template]), the bytes of an
    archive ([archive/tar]) and the genisoimage command are parameters. *)

From S2P Require Import Prelude GoPath GoNet GoJson GoURL DcpCommon DcpUri Operation Client ProvTypes Provisioning Tasks Filecache.
From Stdlib Require Import ZArith Lia.

Inductive node := Directory | Regular (data : bytes).
#[export] Instance node_eq_dec : EqDecision node.
Proof. solve_decision. Defined.
Abbreviation FS := (gmap (list bytes) node).

Class BootMachine (E : Type) := {
  boot_machine :: Machine E;
  (** ioutil.TempDir *)
  os_TempDir : E → res string * E;
  (** template.New(name).Parse, and what executing writes *)
  HtmlTemplate : Type;
  html_Parse : string → bytes → res HtmlTemplate;
  html_Execute : HtmlTemplate → gmap string string → res bytes;
  (** The bytes that tar.Writer writes for files that are written one after the
      other, when it is not closed. *)
  tar_Writer : list (bytes * bytes) → bytes;
  (** genisoimage -R -V label -o - dir: what it writes for the files of [dir],
      and the error that ends the reading of it *)
  genisoimage : string → FS → E → res (bytes * option error) * E
}.

(** ** Paths *)

(** [filepath.Dir]. *)
Fixpoint upto_slash_rev (r : bytes) : bytes :=
  match r with [] => [] | c :: r' => if decide (c = slash) then r else upto_slash_rev r' end.
Definition filepath_Dir (p : bytes) : bytes := Clean (reverse (upto_slash_rev (reverse p))).
Example Dir_ex : b2s (filepath_Dir (s2b "a/b/c")) = "a/b"%string ∧ b2s (filepath_Dir (s2b "a")) = "."%string
  ∧ b2s (filepath_Dir (s2b "/a")) = "/"%string ∧ b2s (filepath_Dir (s2b "a/b/")) = "a/b"%string.
Proof. vm_compute. done. Qed.

(** Where a cleaned path leads. *)
Definition locate (p : bytes) : list bytes := reverse (clean_stack p).

Section boot_config.
Context {E : Type} `{BootMachine E}.

Record BootW := { bw_ext : E; bw_fs : FS }.
#[export] Instance eta_BootW : Eta BootW := λ w, {| bw_ext := bw_ext w; bw_fs := bw_fs w |}.

(** ** System calls *)
Definition boot_fault (call : string) (p : list bytes) (w : BootW) : option error * BootW :=
  let '(e, x) := os_fault call (b2s (slash :: unpath p)) (bw_ext w) in (e, w <| bw_ext := x |>).

Definition is_dir (fs : FS) (p : list bytes) : Prop := p = [] ∨ fs !! p = Some Directory.
#[export] Instance is_dir_dec fs p : Decision (is_dir fs p).
Proof. unfold is_dir. destruct (fs !! p) as [[] |] eqn:F; destruct (decide (p = [])); try (left; auto; fail); right; naive_solver. Defined.

(** A directory, made unless it is there. *)
Definition ensure_dir (p : list bytes) (w : BootW) : option error * BootW :=
  if decide (is_dir (bw_fs w) p) then (None, w)
  else match bw_fs w !! p with
       | Some _ => (Some (Errorf "not a directory"), w)
       | None =>
           match boot_fault "mkdir" p w with
           | (Some e, w) => (Some e, w)
           | (None, w) => (None, w <| bw_fs := <[p := Directory]> (bw_fs w) |>)
           end
       end.

(** [os.MkdirAll]: the directories on the way to [at_ ++ rest]. *)
Fixpoint MkdirAll (at_ rest : list bytes) (w : BootW) : option error * BootW :=
  match ensure_dir at_ w with
  | (Some e, w) => (Some e, w)
  | (None, w) => match rest with [] => (None, w) | c :: rest => MkdirAll (at_ ++ [c]) rest w end
  end.

(** [os.Create]. *)
Definition Create (p : list bytes) (w : BootW) : option error * BootW :=
  match reverse p with
  | [] => (Some (Errorf "is a directory"), w)
  | _ :: parent =>
      if decide (is_dir (bw_fs w) (reverse parent)) then
        if decide (bw_fs w !! p = Some Directory) then (Some (Errorf "is a directory"), w)
        else match boot_fault "open" p w with
             | (Some e, w) => (Some e, w)
             | (None, w) => (None, w <| bw_fs := <[p := Regular []]> (bw_fs w) |>)
             end
      else (Some ErrNotExist, w)
  end.

(** [io.Copy] to the file that was created. *)
Definition CopyTo (p : list bytes) (r : bytes * option error) (w : BootW) : option error * BootW :=
  let '(f, x) := os_write r.1 (bw_ext w) in
  let '(data, e) := match f with Some (n, e) => (take n r.1, Some e) | None => r end in
  (e, w <| bw_ext := x |> <| bw_fs := <[p := Regular data]> (bw_fs w) |>).

(** [os.RemoveAll]; its error is not looked at. *)
Definition below (dir p : list bytes) : bool := bool_decide (take (length dir) p = dir).
Definition RemoveAll (dir : list bytes) (w : BootW) : BootW :=
  match boot_fault "unlink" dir w with
  | (Some _, w) => w
  | (None, w) => w <| bw_fs := filter (λ pn, below dir pn.1 = false) (bw_fs w) |>
  end.

(** ** The boot configuration ([boot_config.go]) *)
Definition templateExt : bytes := s2b ".tmpl".

(** The process of the generator has ended when the image has been read. *)
(* @dcp/provisioning/image/boot_config.go:23-29 BootConfig *)
Record BootDir := { bd_config : BootConfig; bd_Dir : string }.

(* @dcp/provisioning/image/boot_config.go:31-44 NewBootConfig *)
Definition NewBootConfig (config : BootConfig) (w : BootW) : res BootDir * BootW :=
  match os_TempDir (bw_ext w) with
  | (Err e, x) => (Err e, w <| bw_ext := x |>)
  | (Ok dir, x) =>
      (Ok {| bd_config := config; bd_Dir := dir |},
       w <| bw_ext := x |> <| bw_fs := <[locate (s2b dir) := Directory]> (bw_fs w) |>)
  end.

(** The contents of a file: given, or fetched. *)
(* @dcp/provisioning/image/boot_config.go:54-69 BootConfig.processFileEntry *)
Definition entry_reader (entry : FileEntry) (w : BootW) : res (bytes * option error) * BootW :=
  if negb (str_empty (fe_ContentsReference entry)) then
    let failed err := Err (Errorf ("GET " +:+ fe_ContentsReference entry +:+ ": " +:+ Error err)) in
    match url_Parse (fe_ContentsReference entry) with
    | Err e => (failed e, w)
    | Ok u =>
        match http_Get u None (bw_ext w) with
        | (Err e, x) => (failed e, w <| bw_ext := x |>)
        | (Ok (code, body), x) =>
            (if decide (code ≠ 200)%Z then failed (Errorf (fmt_d code +:+ " (" +:+ StatusText code +:+ ")")) else Ok body,
             w <| bw_ext := x |>)
        end
    end
  else (Ok (s2b (fe_Contents entry), None), w).

(** A file with the extension is a template: what it yields for the data goes to
    the file without the extension. *)
(* @dcp/provisioning/image/boot_config.go:71-94 BootConfig.processFileEntry *)
Definition render (c : BootDir) (path : bytes) (r : bytes * option error) : res (bytes * (bytes * option error)) :=
  if HasSuffix path templateExt then
    match r with
    | (_, Some e) => Err e
    | (contents, None) =>
        t :=? html_Parse (b2s path) contents;;
        b :=? html_Execute t (bc_Data (bd_config c));;
        Ok (TrimSuffix path templateExt, (b, None))
    end
  else Ok (path, r).

(** [filepath.Join] of the directory and a path. *)
Definition inside (c : BootDir) (path : bytes) : list bytes := locate (Join2 (s2b (bd_Dir c)) path).

(* @dcp/provisioning/image/boot_config.go:46-109 BootConfig.processFileEntry *)
Definition processFileEntry (c : BootDir) (entry : FileEntry) (w : BootW) : option error * BootW :=
  let path := s2b (fe_Path entry) in
  match MkdirAll [] (inside c (filepath_Dir path)) w with
  | (Some e, w) => (Some e, w)
  | (None, w) =>
      match entry_reader entry w with
      | (Err e, w) => (Some e, w)
      | (Ok r, w) =>
          match render c path r with
          | Err e => (Some e, w)
          | Ok (path, r) =>
              match Create (inside c path) w with
              | (Some e, w) => (Some e, w)
              | (None, w) => CopyTo (inside c path) r w
              end
          end
      end
  end.

Fixpoint process_entries (c : BootDir) (entries : list FileEntry) (w : BootW) : option error * BootW :=
  match entries with
  | [] => (None, w)
  | entry :: entries =>
      match processFileEntry c entry w with
      | (Some e, w) => (Some e, w)
      | (None, w) => process_entries c entries w
      end
  end.
(* @dcp/provisioning/image/boot_config.go:111-120 BootConfig.Process *)
Definition Process (c : BootDir) : BootW → option error * BootW := process_entries c (bc_Files (bd_config c)).

(* @dcp/provisioning/image/boot_config.go:122-131 BootConfig.Cleanup *)
Definition Cleanup (c : BootDir) (w : BootW) : BootW := RemoveAll (locate (s2b (bd_Dir c))) w.

(** The files below the directory, by their components relative to it. *)
Definition tree (dir : list bytes) (fs : FS) : FS :=
  list_to_map (omap (λ pn : list bytes * node, if below dir pn.1 then Some (drop (length dir) pn.1, pn.2) else None) (map_to_list fs)).

(** What the generator fails with after it started is only logged. *)
(* @dcp/provisioning/image/boot_config.go:133-178 BootConfig.ISO *)
Definition ISO (c : BootDir) (w : BootW) : res (bytes * option error) * BootW :=
  let '(r, x) := genisoimage (bc_Label (bd_config c)) (tree (locate (s2b (bd_Dir c))) (bw_fs w)) (bw_ext w) in
  (r, w <| bw_ext := x |>).

(** [filepath.Walk] visits names in order, a directory before what is in it:
    the lexical order of the components. *)
Fixpoint bytes_le (a b : bytes) : bool :=
  match a, b with
  | [], _ => true
  | _, [] => false
  | x :: a, y :: b => if decide (x = y) then bytes_le a b else bool_decide (b2z x < b2z y)%Z
  end.
Fixpoint comps_le (p q : list bytes) : bool :=
  match p, q with
  | [], _ => true
  | _, [] => false
  | x :: p, y :: q => if decide (x = y) then comps_le p q else bytes_le x y
  end.
Definition path_le (x y : list bytes * node) : Prop := comps_le x.1 y.1 = true.
#[export] Instance path_le_dec x y : Decision (path_le x y) := decide (comps_le x.1 y.1 = true).
Definition Walk (dir : list bytes) (fs : FS) : list (list bytes * node) := merge_sort path_le (map_to_list (tree dir fs)).

(** The function of the walk, with the files written so far. *)
(* @dcp/provisioning/image/boot_config.go:185-216 BootConfig.Tar *)
Fixpoint tar_files (dir : list bytes) (visited : list (list bytes * node)) (w : BootW) : list (bytes * bytes) * option error * BootW :=
  match visited with
  | [] => ([], None, w)
  | (p, n) :: visited =>
      match boot_fault "lstat" (dir ++ p) w with
      | (Some e, w) => ([], Some e, w)
      | (None, w) =>
          match n with
          | Directory => tar_files dir visited w
          | Regular data =>
              match boot_fault "open" (dir ++ p) w with
              | (Some e, w) => ([(unpath p, [])], Some e, w)
              | (None, w) => let '(l, e, w) := tar_files dir visited w in ((unpath p, data) :: l, e, w)
              end
          end
      end
  end.

(** The archive is never closed: it ends after the last byte of the last file. *)
(* @dcp/provisioning/image/boot_config.go:180-228 BootConfig.Tar *)
Definition Tar (c : BootDir) (w : BootW) : res (bytes * option error) * BootW :=
  let dir := locate (s2b (bd_Dir c)) in
  let '(l, e, w) := tar_files dir (Walk dir (bw_fs w)) w in
  (Ok (tar_Writer l, e), w).

(** ** The service ([boot_config_service.go]) *)
Context `{GoTypes} {W : Type} `{Network W} (now : Z).
Context `{!Embeds DiskCustomizationRequest} `{!Embeds ComputeState} `{!Embeds DiskState}.

(** The two requests are under way at once; [disk_first] says which is served
    first. *)
(* @dcp/provisioning/image/boot_config_service.go:118-143 BootConfigService.loadStates *)
Definition loadStates (disk_first : bool) (ctx : Context) (op : Operation) (dcr : DiskCustomizationRequest) (w : W) :
  outcome (res (ComputeState * DiskState) * W) :=
  deref (dcr_ComputeReference dcr) (λ cu,
    deref (dcr_DiskReference dcr) (λ du,
      let computeOp := Operation_NewGet op now ctx cu in
      let diskOp := Operation_NewGet op now ctx du in
      out_bind (if disk_first then
                  out_bind (SendWait diskOp w) (λ '(diskOp, diskErr, w),
                    out_bind (SendWait computeOp w) (λ '(computeOp, computeErr, w), Ret (computeOp, computeErr, diskOp, diskErr, w)))
                else
                  out_bind (SendWait computeOp w) (λ '(computeOp, computeErr, w),
                    out_bind (SendWait diskOp w) (λ '(diskOp, diskErr, w), Ret (computeOp, computeErr, diskOp, diskErr, w))))
        (λ '(computeOp, computeErr, diskOp, diskErr, w),
          Ret (match computeErr, diskErr with
               | Some e, _ | None, Some e => Err e
               | None, None =>
                   let '(_, compute, e1) := DecodeBodyAs computeOp (zero : ComputeState) in
                   let '(_, disk, e2) := DecodeBodyAs diskOp (zero : DiskState) in
                   c :=? as_res (compute, e1);;
                   d :=? as_res (disk, e2);;
                   Ok (c, d)
               end, w)))).

(** The image of a service, by the last element of its path. *)
(* @dcp/provisioning/image/boot_config_service.go:80-91 BootConfigService.HandlePost *)
Definition image_method (selfLink : string) : option (BootDir → BootW → res (bytes * option error) * BootW) :=
  let base := path_Base selfLink in
  if decide (base = ImageFormatIso) then Some ISO
  else if decide (base = ImageFormatTar) then Some Tar
  else None.

(** What is done with a temporary directory; it is cleaned up afterwards. *)
(* @dcp/provisioning/image/boot_config_service.go:71-115 BootConfigService.HandlePost *)
Definition make_image (selfLink : string) (c : BootDir) (op : Operation) (b : BootW) : Operation * BootW :=
  match Process c b with
  | (Some e, b) => (Fail_ e op, b)
  | (None, b) =>
      match image_method selfLink with
      | None => (Fail_ (Errorf "unsupported image type") op, b)
      | Some method =>
          match method c b with
          | (Err e, b) => (Fail_ e op, b)
          | (Ok (_, Some e), b) => (Fail_ e op, b)
          | (Ok (img, None), b) => (Complete (SetBody (BBuffer (TRaw img)) op), b)
          end
      end
  end.

(* @dcp/provisioning/image/boot_config_service.go:43-70 BootConfigService.HandlePost *)
Definition HandlePost (disk_first : bool) (selfLink : string) (ctx : Context) (op : Operation) (w : W) (b : BootW) :
  outcome (Operation * W * BootW) :=
  match DecodeBodyAs op (zero : DiskCustomizationRequest) with
  | (op, _, Some e) => Ret (Fail_ e op, w, b)
  | (op, dcr, None) =>
      out_bind (loadStates disk_first ctx op dcr w) (λ '(r, w),
        match r with
        | Err e => Ret (Fail_ e op, w, b)
        | Ok (_, disk) =>
            match disk_BootConfig disk with
            | None => Ret (Fail_ (Errorf "expected bootConfig field to be set") op, w, b)
            | Some config =>
                match NewBootConfig config b with
                | (Err e, b) => Ret (Fail_ e op, w, b)
                | (Ok c, b) => let '(op, b) := make_image selfLink c op b in Ret (op, w, Cleanup c b)
                end
            end
        end)
  end.
End boot_config.
Arguments BootW E : clear implicits.

(** ** Lemmas: the directory *)
Section boot_lemmas.
Context {E : Type} `{BootMachine E}.

Lemma below_spec dir p : below dir p = true ↔ ∃ q, p = dir ++ q.
Proof.
  unfold below. rewrite bool_decide_eq_true. split.
  - intros Hp. exists (drop (length dir) p). rewrite <- Hp at 1. by rewrite take_drop.
  - intros [q ->]. apply take_app_length.
Qed.

(** A path without "..", and one that its template extension does not turn into
    one. *)
Definition plain_path (p : bytes) : Prop := DOTDOT ∉ comps p.
Definition confined (e : FileEntry) : Prop := plain_path (s2b (fe_Path e)) ∧ plain_path (TrimSuffix (s2b (fe_Path e)) templateExt).

Lemma locate_below a b : a ≠ [] → plain_path b → locate (Join2 a b) = locate a ++ keep (comps b).
Proof.
  intros Ha Hb. rewrite Join2_nonempty, Clean_below by done. unfold locate.
  destruct (unclean_stack (rooted a) (reverse (keep (comps b)) ++ clean_stack a)) as [_ ->].
  - rewrite <- (clean_fold_keep (rooted a)) by (done || apply split_no_sep). apply clean_fold_ok; [apply split_no_sep | apply clean_stack_ok].
  - by rewrite reverse_app, reverse_involutive.
Qed.

Lemma upto_slash_suffix r : ∃ l, r = l ++ upto_slash_rev r.
Proof.
  induction r as [| c r [l IH]]; [by exists [] |]. simpl. case_decide; [by exists [] |]. exists (c :: l). simpl. by f_equal.
Qed.
Lemma upto_slash_head r : upto_slash_rev r = [] ∨ ∃ l, upto_slash_rev r = slash :: l.
Proof. induction r as [| c r IH]; [by left |]. simpl. case_decide as Hc; [right; eexists; by rewrite Hc | done]. Qed.

(** The directory of a plain path is plain. *)
Lemma plain_Dir p : plain_path p → plain_path (filepath_Dir p).
Proof.
  unfold plain_path, filepath_Dir. intros Hp. set (d := reverse (upto_slash_rev (reverse p))).
  assert (DOTDOT ∉ comps d) as Hd.
  { destruct (upto_slash_suffix (reverse p)) as [l Hl]. assert (p = d ++ reverse l) as Ep.
    { apply (f_equal reverse) in Hl. rewrite reverse_involutive, reverse_app in Hl. done. }
    destruct (upto_slash_head (reverse p)) as [Hh | [l' Hh]]; unfold d; rewrite Hh.
    - vm_compute. set_solver.
    - rewrite reverse_cons. intros Hin. apply Hp. rewrite Ep. unfold d. rewrite Hh, reverse_cons, <- (assoc_L (++)).
      cbn [app]. rewrite split_app. rewrite split_app in Hin. apply elem_of_app in Hin as [Hin | Hin]; [set_solver |].
      exfalso. revert Hin. vm_compute. set_solver. }
  clearbody d. destruct (decide (d = [])) as [-> | Hne]; [vm_compute; set_solver |].
  assert (Clean d = unclean (rooted d) (clean_stack d)) as -> by (by destruct d).
  assert (clean_stack d = reverse (keep (comps d))) as Es.
  { unfold clean_stack. rewrite clean_fold_keep by (done || apply split_no_sep). apply app_nil_r. }
  pose proof (clean_ok_noslash _ _ (clean_stack_ok d)) as Hok.
  assert (DOTDOT ∉ reverse (clean_stack d)) as Hs.
  { rewrite Es, reverse_involutive. unfold keep. intros Hin. apply list_elem_of_filter in Hin. by destruct Hin. }
  unfold unclean. destruct (rooted d).
  - change (comps (slash :: unpath (reverse (clean_stack d)))) with ([] :: comps (unpath (reverse (clean_stack d)))).
    destruct (clean_stack d) as [| y st]; [vm_compute; set_solver |].
    rewrite comps_unpath by first [done | eapply Forall_impl; [done | naive_solver]]. intros [? |]%elem_of_cons; done.
  - destruct (clean_stack d) as [| y st]; [vm_compute; set_solver |].
    by rewrite comps_unpath by first [done | eapply Forall_impl; [done | naive_solver]].
Qed.

(** What making directories changes: some paths on the way become directories. *)
Definition made_dirs (p : list bytes) (fs fs' : FS) : Prop :=
  ∀ q, fs' !! q = fs !! q ∨ fs !! q = None ∧ fs' !! q = Some Directory ∧ q `prefix_of` p ∧ q ≠ [].

Lemma boot_fault_fs call p (w : BootW E) : bw_fs (boot_fault call p w).2 = bw_fs w.
Proof. unfold boot_fault. by destruct (os_fault _ _ _). Qed.

Lemma made_dirs_trans p fs1 fs2 fs3 : made_dirs p fs1 fs2 → made_dirs p fs2 fs3 → made_dirs p fs1 fs3.
Proof.
  intros H1 H2 q. destruct (H2 q) as [E2 | (E2 & E3 & Hp)]; [rewrite E2; apply H1 |].
  destruct (H1 q) as [E1 | (E1 & E4 & _)]; [right; rewrite <- E1; done | congruence].
Qed.

Lemma is_dir_made p fs fs' q : made_dirs p fs fs' → is_dir fs q → is_dir fs' q.
Proof.
  intros Hm [-> | Hq]; [by left |]. destruct (Hm q) as [E1 | (E1 & _)]; [right; by rewrite E1 | congruence].
Qed.

Lemma ensure_dir_made p (w w' : BootW E) e : ensure_dir p w = (e, w') → made_dirs p (bw_fs w) (bw_fs w').
Proof.
  unfold ensure_dir. destruct (decide (is_dir (bw_fs w) p)) as [Hd | Hd]; [intros [= <- <-]; by left |].
  destruct (bw_fs w !! p) eqn:Ep; [intros [= <- <-]; by left |].
  pose proof (boot_fault_fs "mkdir" p w) as F. destruct (boot_fault "mkdir" p w) as [[e1 |] w1]; simpl in F; intros [= <- <-].
  - rewrite F. by left.
  - intros q. simpl. rewrite F. destruct (decide (q = p)) as [-> |].
    + right. rewrite lookup_insert_eq. split_and!; [done | done | done | intros ->; apply Hd; by left].
    + left. by rewrite lookup_insert_ne.
Qed.

Lemma made_dirs_mono p q fs fs' : made_dirs p fs fs' → made_dirs (p ++ q) fs fs'.
Proof.
  intros Hm r. destruct (Hm r) as [| (H1 & H2 & H3 & H4)]; [by left | right]. split_and!; try done. by apply prefix_app_r.
Qed.

Lemma MkdirAll_made at_ rest (w w' : BootW E) e : MkdirAll at_ rest w = (e, w') → made_dirs (at_ ++ rest) (bw_fs w) (bw_fs w').
Proof.
  revert at_ w. induction rest as [| c rest IH]; intros at_ w; cbn [MkdirAll].
  - destruct (ensure_dir at_ w) as [[e1 |] w1] eqn:Ee; intros [= <- <-]; rewrite app_nil_r; by eapply ensure_dir_made.
  - destruct (ensure_dir at_ w) as [[e1 |] w1] eqn:Ee; apply ensure_dir_made in Ee as Hm; apply (made_dirs_mono _ (c :: rest)) in Hm.
    + by intros [= <- <-].
    + intros Hr%IH. rewrite <- (assoc_L (++)) in Hr. by eapply made_dirs_trans.
Qed.

(** The directory is there, below directories. *)
Definition dir_ready (dir : list bytes) (fs : FS) : Prop := ∀ p, p `prefix_of` dir → is_dir fs p.

(** What processing changes: only what is below [dir], which stays ready. *)
Definition touches (dir : list bytes) (fs fs' : FS) : Prop :=
  (∀ p, below dir p = false → fs' !! p = fs !! p) ∧ dir_ready dir fs'.

Lemma touches_refl dir fs : dir_ready dir fs → touches dir fs fs.
Proof. done. Qed.
Lemma touches_trans dir fs1 fs2 fs3 : touches dir fs1 fs2 → touches dir fs2 fs3 → touches dir fs1 fs3.
Proof. intros [H1 _] [H2 H3]. split; [| done]. intros p Hp. by rewrite H2, H1. Qed.

Lemma made_touches dir k fs fs' : dir_ready dir fs → made_dirs (dir ++ k) fs fs' → touches dir fs fs'.
Proof.
  intros Hd Hm. split; [| intros p Hp; eapply is_dir_made; [done | by apply Hd]].
  intros p Hp. destruct (Hm p) as [| (H1 & _ & Hpre & Hne)]; [done |].
  destruct (prefix_weak_total p dir (dir ++ k) Hpre) as [Hpd | Hdp]; [by exists k | |].
  - destruct (Hd p Hpd) as [| Hdir]; [done | congruence].
  - exfalso. apply not_true_iff_false in Hp. by apply Hp, below_spec.
Qed.

Lemma Create_spec p (w w' : BootW E) e : Create p w = (e, w') →
  match e with
  | Some _ => bw_fs w' = bw_fs w
  | None => p ≠ [] ∧ bw_fs w !! p ≠ Some Directory ∧ bw_fs w' = <[p := Regular []]> (bw_fs w)
  end.
Proof.
  unfold Create. destruct (reverse p) as [| x parent] eqn:Er; [by intros [= <- <-] |].
  case_decide; [| by intros [= <- <-]]. case_decide as Hd; [by intros [= <- <-] |].
  pose proof (boot_fault_fs "open" p w) as F. destruct (boot_fault "open" p w) as [[e1 |] w1]; simpl in F; intros [= <- <-]; [done |].
  split_and!; [by intros -> | done | simpl; by rewrite F].
Qed.

Lemma CopyTo_spec p r (w w' : BootW E) e : CopyTo p r w = (e, w') →
  ∃ data, bw_fs w' = <[p := Regular data]> (bw_fs w) ∧ (e = None → r = (data, None)).
Proof.
  unfold CopyTo. destruct (os_write _ _) as [[[n e1] |] x]; [intros [= <- <-] | destruct r as [d e1]; intros [= <- <-]]; eexists; (split; [done |]).
  - done.
  - by intros ->.
Qed.

Lemma insert_touches dir k fs data : dir_ready dir fs → dir ++ k ≠ [] → fs !! (dir ++ k) ≠ Some Directory →
  touches dir fs (<[dir ++ k := Regular data]> fs).
Proof.
  intros Hd Hne Hnd. split.
  - intros p Hp. apply lookup_insert_ne. intros <-. apply not_true_iff_false in Hp. apply Hp, below_spec. by exists k.
  - intros p Hp. destruct (Hd p Hp) as [| Hq]; [by left |]. right. rewrite lookup_insert_ne; [done |]. intros <-. done.
Qed.

Lemma entry_reader_fs e (w : BootW E) : bw_fs (entry_reader e w).2 = bw_fs w.
Proof.
  unfold entry_reader. destruct (negb _); [| done]. destruct (url_Parse _); [| done].
  by destruct (http_Get _ _ _) as [[[code body] |] x].
Qed.

Lemma render_plain c e r p r' : confined e → render c (s2b (fe_Path e)) r = Ok (p, r') → plain_path p.
Proof.
  intros [H1 H2]. unfold render. destruct (HasSuffix _ _); [| by intros [= <- <-]].
  destruct r as [b [e1 |]]; [done |]. destruct (html_Parse _ _); [| done]. simpl. destruct (html_Execute _ _); [| done].
  by intros [= <- <-].
Qed.

(** An entry that was processed: what its file holds, and that other files are
    as they were. *)
Lemma processFileEntry_spec c e (w w' : BootW E) err : s2b (bd_Dir c) ≠ [] → confined e →
  dir_ready (locate (s2b (bd_Dir c))) (bw_fs w) → processFileEntry c e w = (err, w') →
  touches (locate (s2b (bd_Dir c))) (bw_fs w) (bw_fs w') ∧
  (err = None → ∃ w1 r p data, (entry_reader e w1).1 = Ok r ∧ render c (s2b (fe_Path e)) r = Ok (p, (data, None)) ∧
    ∀ q d, bw_fs w' !! q = Some (Regular d) ↔
      (<[locate (s2b (bd_Dir c)) ++ keep (comps p) := Regular data]> (bw_fs w)) !! q = Some (Regular d)).
Proof.
  intros Hne Hc Hd. unfold processFileEntry, inside.
  rewrite (locate_below _ (filepath_Dir _)) by (done || by apply plain_Dir, Hc).
  destruct (MkdirAll _ _ w) as [e1 w1] eqn:E1. apply MkdirAll_made in E1 as Hm1. cbn [app] in Hm1.
  pose proof (made_touches _ _ _ _ Hd Hm1) as T1. destruct e1 as [e1 |]; [by intros [= <- <-] |].
  pose proof (entry_reader_fs e w1) as F. destruct (entry_reader e w1) as [[r | e2] w2] eqn:E2; simpl in F; rewrite <- F in T1;
    [| by intros [= <- <-]].
  destruct (render c _ r) as [[p r'] | e3] eqn:E3; [| by intros [= <- <-]].
  rewrite locate_below by (done || by eapply render_plain).
  set (dir := locate (s2b (bd_Dir c))) in *. set (f := dir ++ keep (comps p)).
  destruct (Create f w2) as [e4 w4] eqn:E4. apply Create_spec in E4. destruct e4 as [e4 |]; [intros [= <- <-]; by rewrite E4 |].
  destruct E4 as (H1 & H2 & H3). intros E5. apply CopyTo_spec in E5 as (data & H4 & H5).
  rewrite H3, insert_insert_eq in H4. split.
  - eapply touches_trans; [exact T1 |]. rewrite H4. by apply insert_touches; [apply T1 | |].
  - intros ->. rewrite (H5 eq_refl) in E3. exists w1, r, p, data. rewrite E2. split_and!; [done | done |].
    intros q d. rewrite H4. fold f. destruct (decide (q = f)) as [-> |]; [by rewrite !lookup_insert_eq |].
    rewrite !lookup_insert_ne by done. rewrite F. destruct (Hm1 q) as [-> | (Hq1 & Hq2 & _)]; [done |]. rewrite Hq1, Hq2. split; congruence.
Qed.

Lemma process_entries_touches c es (w w' : BootW E) err : s2b (bd_Dir c) ≠ [] → Forall confined es →
  dir_ready (locate (s2b (bd_Dir c))) (bw_fs w) → process_entries c es w = (err, w') →
  touches (locate (s2b (bd_Dir c))) (bw_fs w) (bw_fs w').
Proof.
  intros Hne Hes. revert w. induction Hes as [| e es He _ IH]; intros w Hd; cbn [process_entries]; [by intros [= <- <-] |].
  destruct (processFileEntry c e w) as [e1 w1] eqn:E1. apply processFileEntry_spec in E1 as [T1 _]; [| done..].
  destruct e1 as [e1 |]; [by intros [= <- <-] |]. intros E2. eapply touches_trans; [exact T1 |]. apply IH; [apply T1 | done].
Qed.
End boot_lemmas.

(** ** Properties *)
Section boot_props.
Context {E : Type} `{BootMachine E} `{GoTypes} {W : Type} `{Network W} (now : Z).
Context `{!Embeds DiskCustomizationRequest} `{!Embeds ComputeState} `{!Embeds DiskState}.

(** What [ioutil.TempDir] promises: an absolute path below directories, with
    nothing there yet. *)
Definition fresh_dir (fs : FS) (dir : string) : Prop :=
  rooted (s2b dir) = true ∧ (∀ p, p `prefix_of` locate (s2b dir) → p ≠ locate (s2b dir) → is_dir fs p)
  ∧ ∀ p, below (locate (s2b dir)) p = true → fs !! p = None.

Lemma fresh_dir_ready fs dir : fresh_dir fs dir → dir_ready (locate (s2b dir)) (<[locate (s2b dir) := Directory]> fs).
Proof.
  intros (_ & Hp & _) p Hpre. destruct (decide (p = locate (s2b dir))) as [-> | Hne]; [right; apply lookup_insert_eq |].
  destruct (Hp p Hpre Hne) as [| Hd]; [by left |]. right. by rewrite lookup_insert_ne.
Qed.

Lemma image_method_fs link c m (w : BootW E) : image_method link = Some m → bw_fs (m c w).2 = bw_fs w.
Proof.
  unfold image_method. case_decide; [| case_decide; [| done]]; intros [= <-].
  - unfold ISO. by destruct (genisoimage _ _ _).
  - assert (∀ dir l (w : BootW E), bw_fs (tar_files dir l w).2 = bw_fs w) as Ht.
    { clear. intros dir l. induction l as [| [p n] l IH]; intros w; [done |]. cbn [tar_files].
      pose proof (boot_fault_fs "lstat" (dir ++ p) w) as F. destruct (boot_fault "lstat" (dir ++ p) w) as [[e |] w1]; simpl in F; [done |].
      destruct n as [| data]; [by rewrite IH |].
      pose proof (boot_fault_fs "open" (dir ++ p) w1) as F1. destruct (boot_fault "open" (dir ++ p) w1) as [[e |] w2]; simpl in F1; [simpl; congruence |].
      pose proof (IH w2) as I. destruct (tar_files dir l w2) as [[l' e] w3]. simpl in *. congruence. }
    unfold Tar. specialize (Ht (locate (s2b (bd_Dir c))) (Walk (locate (s2b (bd_Dir c))) (bw_fs w)) w).
    by destruct (tar_files _ _ w) as [[l e] w1].
Qed.

Lemma make_image_touches link c op (b : BootW E) : s2b (bd_Dir c) ≠ [] → Forall confined (bc_Files (bd_config c)) →
  dir_ready (locate (s2b (bd_Dir c))) (bw_fs b) →
  let '(op', b') := make_image link c op b in touches (locate (s2b (bd_Dir c))) (bw_fs b) (bw_fs b') ∧ is_Some (op_result op').
Proof.
  intros Hne Hc Hd. unfold make_image, Process.
  assert (∀ e op, is_Some (op_result (Fail_ e op))) as Hfail by (intros e o; unfold Fail_; destruct (op_result o) eqn:Eo; simpl; [rewrite Eo |]; eauto).
  assert (∀ op, is_Some (op_result (Complete op))) as Hcomplete by (intros o; unfold Complete; destruct (op_result o) eqn:Eo; simpl; [rewrite Eo |]; eauto).
  destruct (process_entries c (bc_Files (bd_config c)) b) as [e1 b1] eqn:E1.
  apply process_entries_touches in E1 as T1; [| done..]. destruct e1 as [e1 |]; [by split |].
  destruct (image_method link) as [m |] eqn:Em; [| by split]. pose proof (image_method_fs link c m b1 Em) as F.
  destruct (m c b1) as [[[img [e |]] | e] b2]; simpl in F; rewrite <- F in T1; by split.
Qed.

Lemma RemoveAll_restores dir (b : BootW E) : (∀ p x, (os_fault "unlink" p x).1 = None) →
  bw_fs (RemoveAll dir b) = filter (λ pn, below dir pn.1 = false) (bw_fs b).
Proof.
  intros Hu. unfold RemoveAll, boot_fault. pose proof (Hu (b2s (slash :: unpath dir)) (bw_ext b)) as Q.
  destruct (os_fault _ _ _) as [f x]. simpl in Q. by subst f.
Qed.

(** C32: a request for an image leaves no trace on the machine: whatever fails,
    when it returns the operation is completed and every file and directory is
    as it was, if no path of the configuration's files leads upwards and files
    can be removed. *)
Theorem HandlePost_restores disk_first link ctx op op' (w w' : W) (b b' : BootW E) :
  HandlePost now disk_first link ctx op w b = Ret (op', w', b') →
  (∀ compute disk op0 dcr w1 config, DecodeBodyAs op (zero : DiskCustomizationRequest) = (op0, dcr, None) →
     loadStates now disk_first ctx op0 dcr w = Ret (Ok (compute, disk), w1) →
     disk_BootConfig disk = Some config → Forall confined (bc_Files config)) →
  (∀ dir x, os_TempDir (bw_ext b) = (Ok dir, x) → fresh_dir (bw_fs b) dir) →
  (∀ p x, (os_fault "unlink" p x).1 = None) →
  bw_fs b' = bw_fs b ∧ is_Some (op_result op').
Proof.
  intros Hr Hconf Htmp Hu.
  assert (∀ e (op : Operation), is_Some (op_result (Fail_ e op))) as Hfail
    by (intros e o; unfold Fail_; destruct (op_result o) eqn:Eo; simpl; [rewrite Eo |]; eauto).
  unfold HandlePost in Hr. destruct (DecodeBodyAs op _) as [[op0 dcr] [e |]] eqn:Ed; [by simplify_eq |].
  destruct (loadStates now disk_first ctx op0 dcr w) as [[r w1] |] eqn:El; [| done]. cbn [out_bind] in Hr.
  destruct r as [[compute disk] | e]; [| by simplify_eq].
  destruct (disk_BootConfig disk) as [config |] eqn:Eb; [| by simplify_eq].
  unfold NewBootConfig in Hr. destruct (os_TempDir (bw_ext b)) as [[dir | e] x] eqn:Et; [| by simplify_eq].
  pose proof (Htmp _ _ eq_refl) as Hf. pose proof (fresh_dir_ready _ _ Hf) as Hrd. destruct Hf as (Hroot & _ & Hnew).
  set (c := {| bd_config := config; bd_Dir := dir |}) in Hr.
  set (b1 := b <| bw_ext := x |> <| bw_fs := <[locate (s2b dir) := Directory]> (bw_fs b) |>) in Hr.
  pose proof (make_image_touches link c op0 b1) as T. destruct (make_image link c op0 b1) as [op2 b2].
  destruct T as [[T1 T2] Hop]; [simpl; by destruct (s2b dir) | by eapply (Hconf compute disk) | done |].
  injection Hr as <- <- <-. split; [| done]. unfold Cleanup. rewrite RemoveAll_restores by done.
  apply map_eq. intros p. rewrite map_lookup_filter. destruct (below (locate (s2b dir)) p) eqn:Ep.
  - rewrite (Hnew p Ep). destruct (bw_fs b2 !! p); simpl; [| done]. rewrite option_guard_False; [done | simpl; congruence].
  - simpl in T1. rewrite (T1 p Ep). assert (p ≠ locate (s2b dir)).
    { intros ->. apply not_true_iff_false in Ep. apply Ep, below_spec. exists []. by rewrite app_nil_r. }
    rewrite lookup_insert_ne by done. destruct (bw_fs b !! p); simpl; [| done]. by rewrite option_guard_True by done.
Qed.

(** *** Archives *)
Lemma tree_lookup dir fs p : tree dir fs !! p = fs !! (dir ++ p).
Proof.
  apply option_eq. intros n. unfold tree. rewrite <- elem_of_list_to_map'.
  - rewrite list_elem_of_omap. split.
    + intros ([q m] & Hq%elem_of_map_to_list & Hs). simpl in Hs. destruct (below dir q) eqn:Eb; [| done].
      apply below_spec in Eb as [q' ->]. rewrite drop_app_length in Hs. by simplify_eq.
    + intros Hp. exists (dir ++ p, n). rewrite elem_of_map_to_list. split; [done |]. simpl.
      assert (below dir (dir ++ p) = true) as -> by (apply below_spec; by exists p). by rewrite drop_app_length.
  - intros n'. rewrite !list_elem_of_omap.
    intros ([q m] & Hq%elem_of_map_to_list & Hs) ([q' m'] & Hq'%elem_of_map_to_list & Hs'). simpl in Hs, Hs'.
    destruct (below dir q) eqn:Eb; [| done]. destruct (below dir q') eqn:Eb'; [| done].
    apply below_spec in Eb as [r ->]. apply below_spec in Eb' as [r' ->].
    rewrite drop_app_length in Hs, Hs'. simplify_eq. done.
Qed.

#[export] Instance bytes_le_total : Total (λ a b, bytes_le a b = true).
Proof.
  intros a. induction a as [| x a IH]; intros [| y b]; simpl; [by left | by left | by right |].
  destruct (decide (x = y)) as [-> | Hne]; [rewrite !decide_True by done; apply IH |].
  rewrite decide_False by congruence. rewrite !bool_decide_eq_true.
  assert (b2z x ≠ b2z y) by (intros ?%b2z_inj; done). lia.
Qed.
#[export] Instance bytes_le_trans : Transitive (λ a b, bytes_le a b = true).
Proof.
  intros a. induction a as [| x a IH]; intros [| y b] [| z c]; simpl; try done.
  destruct (decide (x = y)) as [-> | Hxy]; destruct (decide (y = z)) as [-> | Hyz]; try done.
  - apply IH.
  - rewrite decide_False by done. by rewrite !bool_decide_eq_true.
  - rewrite !bool_decide_eq_true. intros Hxy' Hyz'. destruct (decide (x = z)) as [-> |]; [lia |]. rewrite bool_decide_eq_true. lia.
Qed.
Lemma bytes_le_antisymm a b : bytes_le a b = true → bytes_le b a = true → a = b.
Proof.
  revert b. induction a as [| x a IH]; intros [| y b]; simpl; try done.
  destruct (decide (x = y)) as [-> | Hxy]; [rewrite decide_True by done; intros; f_equal; by apply IH |].
  rewrite decide_False by congruence. rewrite !bool_decide_eq_true. lia.
Qed.
#[export] Instance comps_le_total : Total (λ p q, comps_le p q = true).
Proof.
  intros p. induction p as [| x p IH]; intros [| y q]; simpl; [by left | by left | by right |].
  destruct (decide (x = y)) as [-> | Hne]; [rewrite !decide_True by done; apply IH |].
  rewrite decide_False by congruence. apply bytes_le_total.
Qed.
#[export] Instance comps_le_trans : Transitive (λ p q, comps_le p q = true).
Proof.
  intros p. induction p as [| x p IH]; intros [| y q] [| z r]; simpl; try done.
  destruct (decide (x = y)) as [-> | Hxy]; destruct (decide (y = z)) as [-> | Hyz]; try done.
  - apply IH.
  - by rewrite decide_False.
  - intros Hxy' Hyz'. destruct (decide (x = z)) as [-> |]; [| by apply (bytes_le_trans _ y)].
    exfalso. apply Hxy. by apply bytes_le_antisymm.
Qed.
#[export] Instance path_le_total : Total path_le.
Proof. intros x y. apply comps_le_total. Qed.
#[export] Instance path_le_trans : Transitive path_le.
Proof. intros x y z. apply comps_le_trans. Qed.

Definition regular (x : list bytes * node) : option (list bytes * bytes) :=
  match x.2 with Regular d => Some (x.1, d) | Directory => None end.
Definition file_le (x y : list bytes * bytes) : Prop := comps_le x.1 y.1 = true.

Lemma regular_sorted l : StronglySorted path_le l → StronglySorted file_le (omap regular l).
Proof.
  induction 1 as [| [p n] l _ IH Hall]; simpl; [constructor |]. destruct n as [| d]; simpl; [done |].
  constructor; [done |]. apply Forall_forall. intros [q d'] Hq. apply list_elem_of_omap in Hq as ([q' n'] & Hin & Hr).
  unfold regular in Hr. simpl in Hr. destruct n'; simplify_eq. rewrite Forall_forall in Hall. exact (Hall _ Hin).
Qed.

Lemma regular_NoDup l : NoDup l.*1 → NoDup (omap regular l).
Proof.
  induction l as [| [p n] l IH]; simpl; [constructor |]. intros [Hp Hl]%NoDup_cons. destruct n as [| d]; simpl; [by apply IH |].
  constructor; [| by apply IH]. intros Hin. apply list_elem_of_omap in Hin as ([q n'] & Hq & Hr).
  unfold regular in Hr. simpl in Hr. destruct n'; simplify_eq. apply Hp, list_elem_of_fmap. by exists (p, Regular d).
Qed.

(** The files of a walk. *)
Lemma Walk_files (dir : list bytes) (fs : FS) (m : gmap (list bytes) bytes) :
  (∀ p d, fs !! (dir ++ p) = Some (Regular d) ↔ m !! p = Some d) →
  omap regular (Walk dir fs) ≡ₚ map_to_list m ∧ StronglySorted file_le (omap regular (Walk dir fs)).
Proof.
  intros Hm. assert (Walk dir fs ≡ₚ map_to_list (tree dir fs)) as HP by apply merge_sort_Permutation.
  split; [| apply regular_sorted, StronglySorted_merge_sort; apply _]. apply NoDup_Permutation.
  - apply regular_NoDup. rewrite HP. apply NoDup_fst_map_to_list.
  - apply NoDup_map_to_list.
  - intros [p d]. rewrite elem_of_map_to_list, <- Hm, <- tree_lookup, list_elem_of_omap. split.
    + intros ([q n] & Hin & Hr). rewrite HP, elem_of_map_to_list in Hin. unfold regular in Hr. simpl in Hr. by destruct n; simplify_eq.
    + intros Hp. exists (p, Regular d). by rewrite HP, elem_of_map_to_list.
Qed.

Lemma tar_files_ok dir v (w w' : BootW E) l : tar_files dir v w = (l, None, w') → l = (λ x, (unpath x.1, x.2)) <$> omap regular v.
Proof.
  revert w l. induction v as [| [p n] v IH]; intros w l; cbn [tar_files]; [by intros [= <- _] |].
  destruct (boot_fault _ _ w) as [[e |] w1]; [done |]. destruct n as [| d]; [apply IH |].
  destruct (boot_fault _ _ w1) as [[e |] w2]; [done |]. destruct (tar_files dir v w2) as [[l' e] w3] eqn:E1.
  intros [= <- -> ->]. cbn. f_equal. by eapply IH.
Qed.

(** The files that a configuration describes, by their paths below the
    directory: each as it was read and rendered, a later one in the place of an
    earlier one. *)
Definition written (c : BootDir) (l : list (FileEntry * (bytes * option error))) (m : gmap (list bytes) bytes) : gmap (list bytes) bytes :=
  foldl (λ m x, match render c (s2b (fe_Path x.1)) x.2 with Ok (p, (data, None)) => <[keep (comps p) := data]> m | _ => m end) m l.
(** What an entry reads as, now and later. *)
Definition reads (e : FileEntry) (r : bytes * option error) : Prop := ∀ w : BootW E, (entry_reader e w).1 = Ok r.

Lemma process_written (c : BootDir) (es : list FileEntry) (rs : list (bytes * option error)) (w w' : BootW E) (m : gmap (list bytes) bytes) : let dir := locate (s2b (bd_Dir c)) in
  s2b (bd_Dir c) ≠ [] → Forall confined es → dir_ready dir (bw_fs w) → Forall2 reads es rs →
  (∀ p d, bw_fs w !! (dir ++ p) = Some (Regular d) ↔ m !! p = Some d) →
  process_entries c es w = (None, w') →
  ∀ p d, bw_fs w' !! (dir ++ p) = Some (Regular d) ↔ written c (zip es rs) m !! p = Some d.
Proof.
  intros dir Hne Hc Hd Hr. revert w m Hd Hc. induction Hr as [| e r es rs Her _ IH]; intros w m Hd Hc Hm; cbn [process_entries].
  { by intros [= <-]. }
  apply Forall_cons in Hc as [He Hc].
  destruct (processFileEntry c e w) as [[e1 |] w1] eqn:E1; [done |].
  apply processFileEntry_spec in E1 as [[_ Hd1] Hs]; [| done..].
  destruct (Hs eq_refl) as (w2 & r' & q & data & H2 & H3 & H4). rewrite (Her w2) in H2. injection H2 as <-.
  apply IH; [done | done |]. intros p d. rewrite H4. fold dir. cbn [fst snd]. rewrite H3.
  destruct (decide (p = keep (comps q))) as [-> | Hpq].
  - rewrite !lookup_insert_eq. split; congruence.
  - rewrite !lookup_insert_ne by first [done | intros ?%(inj (app dir)); congruence]. apply Hm.
Qed.

(** The archive of a configuration: when its files were processed, and the
    archive could be made, it holds exactly the files that the configuration
    describes, each once, under its path, in lexical order. *)
Theorem Tar_of_Process (c : BootDir) (rs : list (bytes * option error)) (b b1 b2 : BootW E) (archive : bytes) :
  let dir := locate (s2b (bd_Dir c)) in
  s2b (bd_Dir c) ≠ [] → Forall confined (bc_Files (bd_config c)) → dir_ready dir (bw_fs b) →
  (∀ p d, bw_fs b !! (dir ++ p) ≠ Some (Regular d)) →
  Forall2 reads (bc_Files (bd_config c)) rs →
  Process c b = (None, b1) → Tar c b1 = (Ok (archive, None), b2) →
  ∃ files, archive = tar_Writer ((λ x, (unpath x.1, x.2)) <$> files)
    ∧ files ≡ₚ map_to_list (written c (zip (bc_Files (bd_config c)) rs) ∅)
    ∧ StronglySorted file_le files.
Proof.
  intros dir Hne Hc Hd Hnone Hr HP. unfold Tar. fold dir.
  destruct (tar_files dir _ b1) as [[l e] b3] eqn:E1. intros [= <- -> ->]. apply tar_files_ok in E1 as ->.
  exists (omap regular (Walk dir (bw_fs b1))). split; [done |]. apply Walk_files.
  eapply process_written; try done. intros p d. rewrite lookup_empty. split; [by intros ?%Hnone | done].
Qed.
End boot_props.

(** ** Witnesses

    A machine on which nothing fails, whose templates are their own values and
    whose archives concatenate names and contents. *)
#[local] Instance sample_files : Machine () :=
  {| os_fault := λ _ _ _, (None, ()); os_write := λ _ _, (None, ()); os_now := λ _, 7%Z;
     http_Get := λ _ _ _, (Ok (404%Z, ([], None)), ()) |}.
#[local] Instance sample_boot : BootMachine () :=
  {| os_TempDir := λ _, (Ok "/tmp/d"%string, ()); HtmlTemplate := bytes; html_Parse := λ _ b, Ok b; html_Execute := λ b _, Ok b;
     tar_Writer := λ l, mjoin ((λ x : bytes * bytes, x.1 ++ [slash] ++ x.2 ++ [slash]) <$> l);
     genisoimage := λ _ _ _, (Ok ([], None), ()) |}.
Definition sample_entry (p t : string) : FileEntry := {| fe_Path := p; fe_Contents := t; fe_ContentsReference := "" |}.
Definition sample_config : BootConfig :=
  {| bc_Label := "l"; bc_Data := ∅; bc_Files := [sample_entry "user-data.tmpl" "x"; sample_entry "a/b" "1"; sample_entry "user-data" "y"] |}.
Definition sample_dir : BootDir := {| bd_config := sample_config; bd_Dir := "/tmp/d" |}.
Definition sample_fs : FS := {[ [s2b "tmp"] := Directory ]}.
Definition sample_boot_w : BootW () := {| bw_ext := (); bw_fs := sample_fs |}.
Definition sample_boot_d : BootW () := {| bw_ext := (); bw_fs := <[[s2b "tmp"; s2b "d"] := Directory]> sample_fs |}.

Lemma sample_confined : Forall confined (bc_Files sample_config).
Proof. apply (bool_decide_unpack (Forall _ _)). vm_compute. exact I. Qed.
Lemma sample_fresh : fresh_dir (bw_fs sample_boot_w) "/tmp/d".
Proof.
  split; [done |]. split.
  - intros p Hp Hne. change (locate (s2b "/tmp/d")) with [s2b "tmp"; s2b "d"] in *. destruct Hp as [k Hk].
    destruct p as [| x [| y [| z p]]]; simplify_list_eq; [by left | right; apply lookup_singleton_eq].
  - intros p [q ->]%below_spec. apply lookup_singleton_ne. change (locate (s2b "/tmp/d")) with [s2b "tmp"; s2b "d"]. done.
Qed.

Lemma Tar_of_Process_witness :
  (Tar sample_dir (Process sample_dir sample_boot_d).2).1 = Ok (s2b ("a/b/1/user-data/y/"), None)
  ∧ ∃ files, StronglySorted file_le files ∧
      s2b ("a/b/1/user-data/y/") = tar_Writer ((λ x, (unpath x.1, x.2)) <$> files).
Proof.
  split; [vm_compute; reflexivity |].
  destruct (Tar_of_Process sample_dir [(s2b "x", None); (s2b "1", None); (s2b "y", None)] sample_boot_d
    (Process sample_dir sample_boot_d).2 (Tar sample_dir (Process sample_dir sample_boot_d).2).2
    (s2b ("a/b/1/user-data/y/"))) as (files & H1 & _ & H3).
  - done.
  - exact sample_confined.
  - exact (fresh_dir_ready _ _ sample_fresh).
  - intros p d. destruct p as [| x p]; [vm_compute; done |].
    change (bw_fs sample_boot_d) with (<[[s2b "tmp"; s2b "d"] := Directory]> ({[ [s2b "tmp"] := Directory ]} : FS)).
    change (locate _) with [s2b "tmp"; s2b "d"]. rewrite lookup_insert_ne, lookup_singleton_ne; done.
  - repeat constructor.
  - vm_compute. reflexivity.
  - vm_compute. reflexivity.
  - by exists files.
Defined.

(** The host answers every request with the disk. *)
Definition boot_types : GoTypes := types_of [GoType DiskCustomizationRequest; GoType ComputeState; GoType DiskState].
Definition sample_boot_disk : DiskState := (zero : DiskState) <| disk_BootConfig := Some sample_config |>.
Definition disk_network : Network () := {| Do := λ req w, (ok_json (enc sample_boot_disk), req, w); json_text := λ _, [] |}.
Definition sample_dcr : DiskCustomizationRequest := {| dcr_ComputeReference := Some sample_local; dcr_DiskReference := Some sample_local |}.

Lemma HandlePost_restores_witness : let types := boot_types in let net := disk_network in
  let e0 : Embeds DiskCustomizationRequest := nth_embeds _ 0 in let e1 : Embeds ComputeState := nth_embeds _ 1 in
  let e2 : Embeds DiskState := nth_embeds _ 2 in
  let op := SetBody (ValueOf sample_dcr) (NewOperation 0 Background) in
  match HandlePost (W := ()) 0 true "/provisioning/boot-config-service/tar" Background op () sample_boot_w with
  | Ret (op', _, b') => op_result op' = Some None ∧ bw_fs b' = bw_fs sample_boot_w
  | Panic => False
  end.
Proof.
  intros types net e0 e1 e2 op.
  destruct (HandlePost _ _ _ _ _ _ _) as [[[op' w'] b'] |] eqn:E.
  - split; [apply (f_equal (λ r, match r with Ret (o, _, _) => op_result o | Panic => None end)) in E; vm_compute in E; exact (eq_sym E) |].
    apply (HandlePost_restores (W := ()) 0 true "/provisioning/boot-config-service/tar" Background op op' () w' sample_boot_w b' E).
    + intros compute disk op0 dcr w1 config Hd Hl Hb.
      assert (disk_BootConfig disk = Some sample_config) as Hs.
      { apply (f_equal (λ r, match r with Ret (Ok (_, d), _) => disk_BootConfig d | _ => None end)) in Hl. rewrite <- Hl.
        unfold DecodeBodyAs, DecodeBody, op in Hd. injection Hd as <- <-. vm_compute. reflexivity. }
      rewrite Hb in Hs. injection Hs as ->. exact sample_confined.
    + intros dir x [= <- _]. exact sample_fresh.
    + done.
  - apply (f_equal (λ r, match r with Ret _ => true | Panic => false end)) in E. vm_compute in E. discriminate.
Defined.
