(* ===== verification/Adapter.v ===== *)
(** What the adapters share: calls of the services as effects, and the lemmas
    that say which of them are no reports of a task.

    The world is that of the network, [W], with the files of the machine,
    [CacheW E].  [sch k n] is the schedule of the [k]-th batch of [n] requests:
    the order in which they are served, and that in which their results arrive. *)

From S2P Require Import Prelude Effects GoPath GoNet GoJson GoURL DcpCommon DcpUri Operation Client ProvTypes Provisioning Tasks Filecache BootImage.
From Stdlib Require Import ZArith Lia.

Section adapter.
Context {W : Type} `{GoTypes} `{Network W} (now : Z) (dcp : AddressFlag).
Context {E : Type} `{Machine E} (downloadPath : string).
Context (sch : nat → nat → list nat * list nat).
Context `{!Embeds ComputeStateWithDescription} `{!Embeds DiskState} `{!Embeds DiskCustomizationRequest}.

Definition to_local : eff W URI := of_ptr (Local_ dcp).
Definition getDisks (k : nat) (ctx : Context) (links : list string) : eff W (list DiskState) :=
  let '(sched, arr) := sch k (length links) in GetDiskState now dcp sched arr ctx links.
Definition getCompute (ctx : Context) (u : option URI) : eff W ComputeStateWithDescription :=
  call (GetComputeStateWithDescription now ctx u zero).
Definition send (op : Operation) : eff W Operation := call (λ w, SendWait op w).
Definition image_file (ctx : Context) (state : ComputeState) (disk : DiskState) : eff (W * CacheW E) string := λ '(w, c),
  out_bind (image_Download now dcp downloadPath ctx state disk w c) (λ '(r, w, c), Ret (r, (w, c))).
End adapter.

(** An answer that a call went well is from its last step. *)
Lemma ebind_Ok {V A B} (m : eff V A) (k : A → eff V B) v b v' :
  ebind m k v = Ret (Ok b, v') → ∃ a v1, m v = Ret (Ok a, v1) ∧ k a v1 = Ret (Ok b, v').
Proof.
  unfold ebind, ecatch. destruct (m v) as [[[a | e] v1] |]; cbn [out_bind]; [eauto | done | done].
Qed.
Lemma on_fst_inv {V C A} (m : eff V A) (v : V * C) r v' : on_fst m v = Ret (r, v') → m v.1 = Ret (r, v'.1) ∧ v'.2 = v.2.
Proof.
  destruct v as [v c]. unfold on_fst. destruct (m v) as [[r1 v1] |] eqn:Em; cbn [out_bind]; [| done]. by intros [= -> <-].
Qed.

Lemma GetBody_Complete `{GoTypes} op : GetBody (Complete op) = GetBody op.
Proof. unfold Complete. by destruct (op_result op). Qed.
Lemma GetResponse_Complete `{GoTypes} r op : GetResponse (Complete (SetResponse r op)) = Some r.
Proof.
  unfold GetResponse, Complete. set (op' := SetResponse r op). assert (st_httpResponse (op_state op') = Some r) as E1.
  { unfold op', SetResponse. destruct (st_isStreamResponse _); [done |]. by destruct (res_Body r). }
  destruct (op_result op'); simpl; done.
Qed.

Section adapter_safe.
Context {W : Type} `{GoTypes} `{Network W} (now : Z) (dcp : AddressFlag) (stack : bytes).
Context {E : Type} `{Machine E} (downloadPath : string) (sch : nat → nat → list nat * list nat).
Context `{!Embeds ComputeSubTaskState} `{!Embeds ComputeStateWithDescription} `{!Embeds ComputeState} `{!Embeds DiskState}.
Context `{!Embeds ServiceDocument} `{!Embeds DiskCustomizationRequest}.
Context (log : W → list HttpRequest) `{!Task log} (Hstack : readable_dump stack).
Context (l : URI) (Hlocal : Local_ dcp = Some l).
Context (Hsch : ∀ k n, (sch k n).1 ≡ₚ seq 0 n ∧ (sch k n).2 ≡ₚ seq 0 n).

Notation R := (silent log).
(** The same for a world that has more to it. *)
Definition silent_in {C} (x y : W * C) : Prop := silent log x.1 y.1.
#[export] Instance silent_in_PreOrder {C} : PreOrder (silent_in (C := C)).
Proof. split; [by intros x |]. intros x y z ? ?. unfold silent_in in *. by etrans. Qed.
Notation quietly m := (safe R m (λ _, True)).
Notation quietly_in m := (safe silent_in m (λ _, True)).

Lemma quiet_to_local : quietly (to_local dcp).
Proof. apply safe_of_ptr; [apply _ | by eexists | done]. Qed.
Lemma quiet_getDisks k ctx links : quietly (getDisks now dcp sch k ctx links).
Proof.
  unfold getDisks. destruct (Hsch k (length links)) as [H5 H6]. destruct (sch k (length links)) as [sched arr].
  by apply (safe_disks now log dcp l Hlocal).
Qed.
Lemma quiet_getCompute ctx u : is_Some u → quietly (getCompute now ctx u).
Proof. intros [v ->]. apply (safe_get (A := ComputeStateWithDescription) now log). Qed.

Lemma quiet_on_fst {C A} (m : eff W A) (Q : A → Prop) : safe R m Q → safe (silent_in (C := C)) (on_fst m) Q.
Proof. apply safe_on_fst. Qed.
Lemma quiet_on_snd {C A} (f : C → res A * C) : quietly_in (on_snd f).
Proof. by apply safe_on_snd; [apply _ |]. Qed.

(** A generated image is asked for with a POST, which is no report. *)
Lemma quiet_image_file ctx s d : quietly_in (image_file now dcp downloadPath ctx s d).
Proof.
  intros [w c]. unfold image_file, image_Download. destruct (str_empty _).
  { destruct (Download downloadPath _ c) as [r c']. by exists r, (w, c'). }
  unfold generate. destruct (Parse _) as [service | e]; [| by exists (Err e), (w, c)]. unfold local. rewrite Hlocal.
  destruct (OpenTrunc _ c) as [[e |] c1]; [by exists (Err e), (w, c1) |].
  set (dcr := {| dcr_ComputeReference := _; dcr_DiskReference := _ |}).
  destruct (SendWait_silent log (SetIsStreamResponse true (SetBody (ValueOf dcr) (NewPost now ctx service BNil))) w)
    as (op' & err & w' & -> & Hs & Hr); [by split; [eexists |] | |].
  { apply (quiet_value _ code_of (to_den dcr)); [done | done |]. rewrite enc_den.
    apply (stage_of_none DiskCustomizationRequest_fields). apply (bool_decide_unpack _). vm_compute. exact I. }
  cbn [out_bind]. destruct err as [e |]; [by exists (Err e), (w', c1) |].
  destruct (Hr eq_refl) as (r & op2 & -> & _). rewrite GetResponse_Complete. cbn [stream_bytes out_bind].
  destruct (Copy _ _ c1) as [[e |] c2]; [by exists (Err e), (w', c2) | by eexists _, (w', c2)].
Qed.

(** *** A compute that is on *)
Definition powered_on (u : URI) (w : W) : Prop :=
  ∃ r s pu, r ∈ log w ∧ rq_Method r = "PATCH"%string ∧ url_Parse (URL_String u) = Ok pu ∧ rq_URL r = pu
    ∧ rq_Body r = Some (TJson (enc s)) ∧ cs_PowerState s = PowerStateOn.

Lemma powered_on_later u (w w' : W) : powered_on u w → log w `prefix_of` log w' → powered_on u w'.
Proof.
  intros (r & s & pu & Hin & Hrest) [k Hk]. exists r, s, pu. split; [rewrite Hk; set_solver | done].
Qed.
Lemma PatchComputeState_on ctx u s (w w' : W) : cs_PowerState s = PowerStateOn →
  PatchComputeState now ctx (Some u) s w = Ret (None, w') → powered_on u w'.
Proof.
  intros Hon. unfold PatchComputeState, deref, send_only. set (op := SetBody (ValueOf s) (NewPatch now ctx u BNil)).
  destruct (SendWait_sends log op w) as (op' & err & w1 & -> & Hs); [by split; [eexists |] |]. cbn [out_bind]. intros [= -> <-].
  destruct Hs as [(? & ? & _ & ? & _) | (op1 & r & l1 & Ec & Hl & _)]; [done |].
  destruct (CreateRequest_value op op1 r code_of (to_den s) Ec) as (Hm & Hb & u' & [= <-] & Hp); [done | done |].
  rewrite enc_den in Hb. exists r, s, (rq_URL r). split_and!; try done. rewrite Hl. set_solver.
Qed.

(** What a request that finished has done: a creation has told the compute that
    it is on. *)
Definition instance_ok (req : ComputeInstanceRequest) (w : W) : Prop :=
  cir_IsMockRequest req = true ∨ cir_RequestType req = InstanceRequestTypeDelete
  ∨ cir_RequestType req = InstanceRequestTypeCreate ∧ ∃ u, cir_ComputeReference req = Some u ∧ powered_on u w.

Lemma work_ends {C} (ok : W → Prop) ts msg (w : W) (c : C) (r : res ()) (v : W * C) : ready ts → silent log w v.1 →
  (r = Ok tt → ∀ w', log v.1 `prefix_of` log w' → ok w') →
  ends_in log ok (w, c) (match r with Err e => on_net (failure now stack msg e ts) v | Ok _ => on_net (finish now ts) v end).
Proof.
  intros Hr Hs Hok. destruct r as [[] | e]; (eapply ends_on_net; [reflexivity |]).
  - apply (ends_finish now log); [done | done |]. by apply Hok.
  - by apply (ends_failure now stack log Hstack).
Qed.

(** *** Requests that are not carried out *)
Lemma mock_ends (ok : W → Prop) req ctx ts (w w1 : W) u : ready ts → silent log w w1 → cir_ComputeReference req = Some u → (∀ w, ok w) →
  ends log ok w (out_bind (HandleMockRequest now dcp stack (sch 5) ctx req ts w1) (λ '(_, w), Ret w)).
Proof.
  intros Hr Hs Hu Hok. unfold HandleMockRequest.
  assert (∀ w2, silent log w w2 → ends log ok w (out_bind (PatchStage now TaskStageFinished ts w2) (λ '(_, w), Ret w))) as Hfin
    by (intros w2 H2'; by apply (ends_finish now log)).
  case_decide; [| by apply Hfin].
  unfold GetComputeStateWithDescription. rewrite Hu. cbn [deref].
  edestruct (get_into_quiet (A := ComputeStateWithDescription) now log ctx) as (s & err & w2 & -> & Hs2). cbn [out_bind].
  assert (silent log w w2) as Hs3 by (by etrans).
  destruct err as [e |]; [by apply (ends_failure now stack log Hstack) |].
  pose proof (Hsch 5 (S (length (cs_DiskLinks (csd_ComputeState s))))) as [H5 H6]. destruct (sch 5 _) as [sched arr].
  destruct (safe_delete now log dcp l Hlocal sched arr ctx (csd_ComputeState s) H5 H6 w2) as (r & w3 & E1 & HR & _).
  unfold call_ in E1. destruct (DeleteComputeState _ _ _ _ _ _ w2) as [[e w4] |]; cbn [out_bind] in *; [| done]. injection E1 as _ <-.
  apply Hfin. by etrans.
Qed.
End adapter_safe.

#[export] Hint Resolve quiet_to_local quiet_getDisks quiet_getCompute quiet_on_fst quiet_on_snd quiet_image_file : safe.

(** Goes through a call that is made of others. *)
Ltac quietly_step :=
  match goal with
  | |- safe _ (eret _) _ => apply safe_ret; [apply _ | done]
  | |- safe _ (efail _) _ => apply safe_fail; apply _
  | |- safe _ (of_res _) _ => apply safe_of_res; [apply _ | done]
  | |- safe _ (ebind _ _) _ => eapply safe_bind; [apply _ | solve [eauto with safe] || (eapply safe_true; solve [eauto with safe]) | intros ? ?]
  | |- safe _ (ebind _ _) _ => eapply (safe_bind _ _ _ (λ _, True)); [| intros ? ?]
  | |- safe _ (ecatch _ _) _ => eapply safe_catch; [apply _ | solve [eauto with safe] | intros [?|?] ?]
  | |- safe _ (if ?b then _ else _) _ => destruct b
  | |- safe _ (match ?x with _ => _ end) _ => destruct x
  end.
Ltac quietly_steps := repeat quietly_step; eauto with safe.
