(* ===== verification/Docker.v ===== *)
(** Packages [dcp/provisioning/docker] and [dcp/provisioning/kubernetes]: the
    adapter that runs containers by Docker commands over SSH, and the health
    services.

    The world is that of the network and the SSH library, [W], with the files of
    the machine, [CacheW E].  [sch k n] is the schedule of the [k]-th read of [n]
    disks: the order in which the requests are served, and that in which their
    results arrive.  [archive/tar], the parser of JSON texts and [fmt.Sscanf] are
    parameters (class [DockerLib]). *)

From S2P Require Import Prelude Effects GoPath GoNet GoJson GoConv GoURL DcpCommon DcpUri Operation Client ProvTypes Provisioning Tasks HostServices Ssh Filecache BootImage Adapter.
From Stdlib Require Import ZArith Lia.
From Stdlib Require SpecFloat.

(** What [fmt.Sscanf] stored before it ended. *)
Record StatsScan := {
  sc_cpu : option float64;
  sc_used : float64 * string;
  sc_total : float64 * string;
  sc_mem : option float64;
  sc_err : option error
}.

Class DockerLib := {
  (** The entries of an archive, compressed or not, and the error that ends it. *)
  open_archive : bool → bytes → res (list (string * (bytes * option error)) * error);
  json_parse : bytes → res json;
  Sscanf_stats : string → StatsScan;
  (** [range] of a map visits its keys in any order. *)
  map_order : list string → list string
}.

(** ** Output of commands *)
Definition LastIndex_split (c : byte) (s : bytes) : option (bytes * bytes) :=
  match index_split c (reverse s) with
  | Some (after, _ :: before) => Some (reverse before, reverse after)
  | _ => None
  end.

(* @dcp/provisioning/docker/instance_service.go:99-105 getLastLine *)
Definition getLastLine (stdout : bytes) : bytes :=
  let line := TrimSpace stdout in
  match LastIndex_split newline line with
  | Some (_, last) => TrimSpace last
  | None => line
  end.

(** ** Statistics ([health_service.go]) *)
(* @dcp/provisioning/docker/health_service.go:93-103 unitMap *)
Definition KB : Z := 1000.
Definition MB : Z := 1000 * KB.
Definition GB : Z := 1000 * MB.
Definition TB : Z := 1000 * GB.
Definition PB : Z := 1000 * TB.
Definition unitMap : gmap string Z := {[ "KB" := KB; "MB" := MB; "GB" := GB; "TB" := TB; "PB" := PB ]}%string.

(* @dcp/provisioning/docker/health_service.go:110-116 memToBytes *)
Definition memToBytes (m : float64 * string) : Z :=
  int64_of_float (match unitMap !! m.2 with Some mul => float64_mul m.1 (float64_of_Z mul) | None => m.1 end).

Section docker.
Context {W K C X : Type} `{SshLib W K C X} `{GoTypes} `{Network W} `{DockerLib} (now : Z) (dcp : AddressFlag) (stack : bytes).
Context {E : Type} `{Machine E} (downloadPath : string).
Context (sch : nat → nat → list nat * list nat).
Context `{!Embeds ComputeInstanceRequest} `{!Embeds ComputeSubTaskState} `{!Embeds ComputeStateWithDescription}.
Context `{!Embeds AuthCredentialsServiceState} `{!Embeds ComputeState} `{!Embeds DiskState} `{!Embeds ServiceDocument}.
Context `{!Embeds DiskCustomizationRequest} `{!Embeds ComputeHealthRequest} `{!Embeds ComputeHealthResponse}.

(** *** Calls of other packages *)
Definition getCredentials (ctx : Context) (u : URI) : eff W AuthCredentialsServiceState :=
  call (GetAuthCredentialsServiceState now ctx zero (Some u)).
(** What a command with retries wrote. *)
Definition retrying (c : Client K C) (cmd cmdOnFailure : string) (stdin : option bytes) : eff W bytes := λ w,
  match RunWithRetry c cmd cmdOnFailure stdin w with
  | Some (Ret (out, _, None, w)) => Ret (Ok out, w)
  | Some (Ret (_, _, Some e, w)) => Ret (Err e, w)
  | _ => Panic
  end.

(** *** Connecting ([client.go]) *)
(* @dcp/provisioning/docker/instance_service.go:30-30 sshPort *)
Definition sshPort : Z := 22.

(** The state's address is set to the parent's as soon as that is known, also
    when the connection then fails. *)
(* @dcp/provisioning/docker/client.go:13-47 sshConnect *)
Definition sshConnect (ctx : Context) (state : ComputeStateWithDescription) :
  eff W (ComputeStateWithDescription * res (Client K C)) :=
  l :=! to_local dcp;;
  let parentComputeURI := Extend l (cs_ParentLink (csd_ComputeState state)) in
  parent :=* getCompute now ctx (Some parentComputeURI);;
  match parent with
  | Err e => eret (state, Err (Errorf ("Error getting parent ComputeState " +:+ URL_String parentComputeURI +:+ ": " +:+ Error e)))
  | Ok parentState =>
      let address := cs_Address (csd_ComputeState parentState) in
      let state := state <| csd_ComputeState := (csd_ComputeState state) <| cs_Address := address |> |> in
      let failed msg e := eret (state, Err (Errorf (msg +:+ Error e))) in
      let authURI := Extend l (cd_AuthCredentialsLink (csd_Description state)) in
      creds :=* getCredentials ctx authURI;;
      match creds with
      | Err e => failed ("failed to get auth creds " +:+ URL_String authURI +:+ ": ") e
      | Ok creds =>
          match WithCredentials creds with
          | Err e => failed "failed to create ssh client: " e
          | Ok c =>
              let managementReference := "ssh://" +:+ address +:+ ":" +:+ fmt_d sshPort in
              match url_Parse managementReference with
              | Err e => failed ("url.Parse " +:+ managementReference +:+ " failed: ") e
              | Ok u =>
                  c :=* call (connect now c (b2s (u_Host u)));;
                  match c with
                  | Err e => failed ("connect " +:+ managementReference +:+ " failed: ") e
                  | Ok c => eret (state, Ok c)
                  end
              end
          end
      end
  end.

(** *** Docker commands ([instance_service.go]) *)
(* @dcp/provisioning/docker/instance_service.go:396-415 getDockerInstance *)
Definition getDockerInstance (k : nat) (ctx : Context) (state : ComputeState) : eff W string :=
  diskStates :=! getDisks now dcp sch k ctx (cs_DiskLinks state);;
  match diskStates with
  | [disk] =>
      let dockerPort := default "" (disk_CustomProperties disk !! "DOCKER_SOCKET") in
      if negb (str_empty dockerPort) then eret ("docker -H " +:+ dockerPort)
      else eret "docker"
  | _ => efail (Errorf ("expected single disk image, given " +:+ fmt_d (Z.of_nat (length diskStates))))
  end.

Fixpoint find_repositories (entries : list (string * (bytes * option error))) (last : error) : res bytes :=
  match entries with
  | [] => Err last
  | (name, (data, e)) :: entries =>
      if decide (name = "repositories"%string) then match e with Some e => Err e | None => Ok data end
      else find_repositories entries last
  end.

(** The image identifiers of an archive, in any order. *)
(* @dcp/provisioning/docker/instance_service.go:110-165 findImageIDs *)
Definition findImageIDs (image : string) (c : CacheW E) : res (list string) * CacheW E :=
  match fault "open" image c with
  | (Some e, c) => (Err e, c)
  | (None, c) =>
      (match cw_files c !! image with
       | None => Err ErrNotExist
       | Some f =>
           archive :=? open_archive (HasSuffix (s2b image) (s2b "gz")) (f_data f);;
           let '(entries, last) := archive in
           let last := if decide (last = EOF) then Errorf ("'repositories' not found in '" +:+ image +:+ "'") else last in
           data :=? find_repositories entries last;;
           j :=? json_parse data;;
           let '(repo, err) := Unmarshal (H := {| enc := enc_map (enc_map JStr); dec := dec_map "map[string]map[string]string" (dec_map "map[string]string" dec_string) |}) j ∅ in
           match err with
           | Some e => Err e
           | None => Ok (map_order (mjoin ((λ x : string * gmap string string, (map_to_list x.2).*2) <$> map_to_list repo)))
           end
       end, c)
  end.


(** The contents of a file that is opened; there is none without a name. *)
Definition open_file (path : string) (c : CacheW E) : res bytes * CacheW E :=
  match fault "open" path c with
  | (Some e, c) => (Err e, c)
  | (None, c) =>
      (match cw_files c !! path with
       | Some f => if str_empty path then Err ErrNotExist else Ok (f_data f)
       | None => Err ErrNotExist
       end, c)
  end.

(** The error of the download is overwritten: it leaves an empty path, which
    cannot be opened.  The retries of the load share one reader. *)
(* @dcp/provisioning/docker/instance_service.go:167-196 InstanceService.dockerLoad *)
Definition dockerLoad (k : nat) (ctx : Context) (c : Client K C) (state : ComputeState) (disk : DiskState) : eff (W * CacheW E) () :=
  downloaded :=* image_file now dcp downloadPath ctx state disk;;
  let filePath := match downloaded with Ok p => p | Err _ => ""%string end in
  ids :=! on_snd (findImageIDs filePath);;
  dockerInstance :=! on_fst (getDockerInstance k ctx state);;
  let inspect := dockerInstance +:+ " inspect --format '{{.Id}}' " +:+ String.concat " " ids in
  loaded :=* on_fst (retrying c inspect "" None);;
  match loaded with
  | Ok _ => eret ()
  | Err _ =>
      f :=! on_snd (open_file filePath);;
      _ :=! on_fst (retrying c "docker load" "" (Some f));;
      eret ()
  end.

(* @dcp/provisioning/docker/instance_service.go:198-201 authScheme *)
Definition authScheme : string := "https".
Definition authPath : string := "/v1/auth".

(** [req.SetBasicAuth], on the request the operation keeps. *)
Definition SetBasicAuth (user password : string) (op : Operation) : Operation :=
  match GetRequest op with
  | None => op
  | Some req =>
      on_state (λ s, s <| st_httpRequest :=
        Some (with_header "Authorization" ("Basic " +:+ b2s (base64_Encode (s2b (user +:+ ":" +:+ password)))) req) |>) op
  end.

(** A body that cannot be read is empty. *)
(* @dcp/provisioning/docker/instance_service.go:203-231 InstanceService.dockerLogin *)
Definition dockerLogin (ctx : Context) (c : Client K C) (auth : AuthCredentialsServiceState) (host : bytes) : eff W () :=
  u :=! of_res (Parse (authScheme +:+ "://" +:+ b2s host +:+ authPath));;
  let op := SetIsStreamResponse true (NewGet now ctx u) in
  op :=! (λ w, out_bind (CreateRequest op) (λ '(op, r), Ret (res_map (λ _, op) r, w)));;
  op :=! send (SetBasicAuth (auth_PrivateKeyID auth) (auth_PrivateKey auth) op);;
  response :=! of_ptr (GetResponse op);;
  let body := match res_Body response with Ok x => text_bytes x | Err _ => [] end in
  _ :=! retrying c "umask 077; cat > .dockercfg" "" (Some body);;
  eret ().

(* @dcp/provisioning/docker/instance_service.go:233-239 InstanceService.dockerPull *)
Definition dockerPull (k : nat) (ctx : Context) (c : Client K C) (state : ComputeState) (image : string) : eff W () :=
  dockerInstance :=! getDockerInstance k ctx state;;
  _ :=! retrying c (dockerInstance +:+ " pull " +:+ image) "" None;;
  eret ().

(** What the container's address and hardware address become. *)
Definition inspected (ns : list (string * json)) (key old : string) : string :=
  match assoc key ns with
  | Some (JStr v) => if str_empty v then old else v
  | _ => old
  end.

(* @dcp/provisioning/docker/instance_service.go:241-284 dockerInspectState *)
Definition dockerInspectState (buf : bytes) (state : ComputeStateWithDescription) : res ComputeStateWithDescription :=
  j :=? json_parse buf;;
  let '(a, err) := Unmarshal (H := {| enc := enc_list (enc_map enc); dec := dec_list "[]map[string]interface {}" (dec_map "map[string]interface {}" dec) |}) j [∅ : gmap string json] in
  match err with
  | Some e => Err e
  | None =>
      match a with
      | [data] =>
          let cs := csd_ComputeState state in
          let cs := match data !! "NetworkSettings" with
                    | Some (JObj ns) => cs <| cs_Address := inspected ns "IPAddress" (cs_Address cs) |>
                                           <| cs_PrimaryMAC := inspected ns "MacAddress" (cs_PrimaryMAC cs) |>
                    | _ => cs
                    end in
          Ok (state <| csd_ComputeState := cs
                <| cs_CustomProperties := {[ CustomPropertyNameRuntimeInfo := b2s (json_text (W := W) (enc_map enc data)) ]} |> |>)
      | _ => Err (Errorf ("invalid docker inspect format: '" +:+ b2s buf +:+ "'"))
      end
  end.

(* @dcp/provisioning/docker/instance_service.go:286-299 InstanceService.dockerInspect *)
Definition dockerInspect (k : nat) (ctx : Context) (c : Client K C) (state : ComputeStateWithDescription) (id : bytes) :
  eff W ComputeStateWithDescription :=
  dockerInstance :=! getDockerInstance k ctx (csd_ComputeState state);;
  stdout :=! retrying c (dockerInstance +:+ " inspect " +:+ b2s id) "" None;;
  of_res (dockerInspectState stdout state).

(** The image of a container: pulled from a registry, after logging in when the
    disk has credentials, or loaded from a file. *)
(* @dcp/provisioning/docker/instance_service.go:312-346 InstanceService.CreateInstance *)
Definition fetch_image (ctx : Context) (c : Client K C) (state : ComputeState) (disk : DiskState) (u : URL) : eff (W * CacheW E) () :=
  creds :=! (if str_empty (disk_AuthCredentialsLink disk) then eret None
             else l :=! on_fst (to_local dcp);; a :=! on_fst (getCredentials ctx (Extend l (disk_AuthCredentialsLink disk)));; eret (Some a));;
  if decide (u_Scheme u = [] ∨ u_Scheme u = s2b "docker") then
    _ :=! (match creds with Some a => on_fst (dockerLogin ctx c a (u_Host u)) | None => eret () end);;
    on_fst (dockerPull 1 ctx c state (b2s (u_Host u ++ u_Path u)))
  else dockerLoad 1 ctx c state disk.

(** The container is started, inspected, and only then are its disk and its
    compute patched. *)
(* @dcp/provisioning/docker/instance_service.go:348-393 InstanceService.CreateInstance *)
Definition start_container (ctx : Context) (c : Client K C) (state : ComputeStateWithDescription) (disk : DiskState) (selfURI : option URI) : eff W () :=
  let cs := csd_ComputeState state in
  dockerInstance :=! getDockerInstance 2 ctx cs;;
  let run := dockerInstance +:+ " run --name " +:+ cs_ID cs +:+ " -d " +:+ String.concat " " (disk_BootArguments disk) in
  let remove := dockerInstance +:+ " rm " +:+ cs_ID cs in
  stdout :=! retrying c run remove None;;
  let id := getLastLine stdout in
  state :=! dockerInspect 3 ctx c state id;;
  _ :=! call_ (PatchDiskState now dcp [0] [0] ctx [disk <| disk_DiskStatus := DiskStatusAttached |>]);;
  let cs := csd_ComputeState state in
  let patchBody := (zero : ComputeState) <| cs_Address := cs_Address cs |> <| cs_PrimaryMAC := cs_PrimaryMAC cs |>
                     <| cs_CustomProperties := cs_CustomProperties cs |> <| cs_PowerState := PowerStateOn |> in
  call_ (PatchComputeState now ctx selfURI patchBody).

(* @dcp/provisioning/docker/instance_service.go:301-311 InstanceService.CreateInstance *)
Definition CreateInstance (ctx : Context) (c : Client K C) (state : ComputeStateWithDescription) (selfURI : option URI) : eff (W * CacheW E) () :=
  diskStates :=! on_fst (getDisks now dcp sch 0 ctx (cs_DiskLinks (csd_ComputeState state)));;
  match diskStates with
  | [disk] =>
      if decide (disk_DiskType disk ≠ DiskTypeNetwork) then efail ErrUnsupportedDiskType
      else
        u :=! of_res (url_Parse (disk_SourceImageReference disk));;
        _ :=! fetch_image ctx c (csd_ComputeState state) disk u;;
        on_fst (start_container ctx c state disk selfURI)
  | _ => efail (Errorf ("expected single disk image, given " +:+ fmt_d (Z.of_nat (length diskStates))))
  end.

(** [del] is the schedule of the deletes. *)
(* @dcp/provisioning/docker/instance_service.go:417-429 InstanceService.DeleteInstance *)
Definition DeleteInstance (ctx : Context) (c : Client K C) (state : ComputeState) : eff W () :=
  dockerInstance :=! getDockerInstance 0 ctx state;;
  _ :=! retrying c (dockerInstance +:+ " rm -fv " +:+ cs_ID state) "" None;;
  let '(sched, arr) := sch 4 (S (length (cs_DiskLinks state))) in
  call_ (DeleteComputeState now dcp sched arr ctx state).

(* @dcp/provisioning/docker/instance_service.go:431-455 getContainerPid *)
Definition getContainerPid (ctx : Context) (c : Client K C) (state : ComputeState) (id : string) : eff W Z :=
  dockerInstance :=! getDockerInstance 0 ctx state;;
  stdout :=! retrying c (dockerInstance +:+ " inspect --format '{{.State.Pid}}' " +:+ id) "" None;;
  of_res (match Atoi (getLastLine stdout) with Ok pid => Ok pid | Err e => Err (Errorf ("error getting context pid: " +:+ Error e)) end).

(** *** The instance service *)
Definition close (c : Client K C) (v : W * CacheW E) : outcome (W * CacheW E) :=
  match cl_conn c with Some conn => Ret (ssh_Close conn v.1, v.2) | None => Panic end.
(** What is done with the connection; [None]: a request of an unknown type. *)
(* @dcp/provisioning/docker/instance_service.go:74-83 InstanceService.HandlePatch *)
Definition instance_work (ctx : Context) (req : ComputeInstanceRequest) (c : Client K C) (state : ComputeStateWithDescription) :
  option (eff (W * CacheW E) ()) :=
  if decide (cir_RequestType req = InstanceRequestTypeCreate) then Some (CreateInstance ctx c state (cir_ComputeReference req))
  else if decide (cir_RequestType req = InstanceRequestTypeDelete) then Some (on_fst (DeleteInstance ctx c (csd_ComputeState state)))
  else None.

(* @dcp/provisioning/docker/instance_service.go:47-93 InstanceService.HandlePatch *)
Definition docker_HandlePatch (ctx : Context) (op : Operation) (v : W * CacheW E) : outcome (Operation * (W * CacheW E)) :=
  match DecodeBodyAs op (zero : ComputeInstanceRequest) with
  | (op, _, Some e) => Ret (Fail_ e op, v)
  | (op, req, None) =>
      let op := Complete (SetStatusCode 201 op) in
      let ts := NewTaskStateWrapper ctx (cir_ProvisioningTaskReference req) NewComputeSubTaskState in
      out_bind (PatchStage now TaskStageStarted ts v.1) (λ '(ts, w),
        let v := (w, v.2) in
        let failed msg e := on_net (failure now stack msg e ts) in
        out_bind (
          if cir_IsMockRequest req then on_net (λ w, out_bind (HandleMockRequest now dcp stack (sch 5) ctx req ts w) (λ '(_, w), Ret w)) v
          else
            out_bind (on_fst (getCompute now ctx (cir_ComputeReference req)) v) (λ '(r, v),
              match r with
              | Err e => failed ("Error getting ComputeState " +:+ show_uri (cir_ComputeReference req)) e v
              | Ok state =>
                  out_bind (on_fst (sshConnect ctx state) v) (λ '(r, v),
                    match r with
                    | Err e | Ok (_, Err e) => failed ("Error connecting via ssh " +:+ show_uri (cir_ComputeReference req)) e v
                    | Ok (state, Ok c) =>
                        out_bind (
                          match instance_work ctx req c state with
                          | None =>
                              deref (cir_ProvisioningTaskReference req) (λ task,
                                failed (URL_String task +:+ " error " +:+ cir_RequestType req) ErrUnsupportedRequestType v)
                          | Some work =>
                              out_bind (work v) (λ '(r, v),
                                match r with
                                | Err e => failed (cir_RequestType req +:+ " ID=" +:+ cs_ID (csd_ComputeState state)) e v
                                | Ok _ => on_net (finish now ts) v
                                end)
                          end) (close c)
                    end)
              end)) (λ v, Ret (op, v)))
  end.

(** *** Health ([health_service.go], [kubernetes/health_service.go]) *)

(** An output of one line is malformed.  What was scanned before an error stays. *)
(* @dcp/provisioning/docker/health_service.go:118-151 parseStats *)
Definition parseStats (buf : bytes) (health : ComputeHealthResponse) : ComputeHealthResponse * option error :=
  match index_split newline buf with
  | Some (_, _ :: line) =>
      let line := b2s line in
      let s := Sscanf_stats line in
      let health := match sc_cpu s with Some f => health <| chr_CPUUtilizationPct := f |> | None => health end in
      let health := match sc_mem s with Some f => health <| chr_MemoryUtilizationPct := f |> | None => health end in
      match sc_err s with
      | Some e => (health, Some (Errorf ("error parsing stats [" +:+ line +:+ "]: " +:+ Error e)))
      | None => (health <| chr_UsedMemoryBytes := memToBytes (sc_used s) |> <| chr_TotalMemoryBytes := memToBytes (sc_total s) |>, None)
      end
  | _ => (health, Some (Errorf ("malformed stats output: " +:+ b2s buf)))
  end.

Definition close_conn (c : Client K C) : eff W () := λ w,
  match cl_conn c with Some conn => Ret (Ok (), ssh_Close conn w) | None => Panic end.

(** The state and the health that the caller goes on with, and the error. *)
(* @dcp/provisioning/docker/health_service.go:61-87 HealthService.GetHealthStats *)
Definition GetHealthStats (ctx : Context) (state : ComputeStateWithDescription) (health : ComputeHealthResponse) :
  eff W (ComputeStateWithDescription * ComputeHealthResponse * option error) :=
  connected :=! sshConnect ctx state;;
  let '(state, c) := connected in
  match c with
  | Err e => eret (state, health, Some e)
  | Ok c =>
      r :=* (dockerInstance :=! getDockerInstance 0 ctx (csd_ComputeState state);;
             retrying c (dockerInstance +:+ " stats --no-stream=true " +:+ cs_ID (csd_ComputeState state)) "" None);;
      _ :=! close_conn c;;
      match r with
      | Err e => eret (state, health, Some e)
      | Ok stdout =>
          match parseStats stdout health with
          | (health, Some e) => eret (state, health, Some e)
          | (health, None) => eret (state, health <| chr_HealthState := HealthStateHealthy |>, None)
          end
      end
  end.

Definition HealthCheck : Type := Context → ComputeStateWithDescription → ComputeHealthResponse → eff W (ComputeHealthResponse * option error).

(* @dcp/provisioning/docker/health_service.go:89-91 getHealthState *)
Definition docker_getHealthState : HealthCheck := λ _ _ health, eret (health, None).

(** The body of a response that is no stream is a buffer. *)
(* @dcp/provisioning/kubernetes/health_service.go:22-45 getHealthState *)
Definition kubernetes_getHealthState : HealthCheck := λ ctx state health,
  let health := health <| chr_HealthState := HealthStateUnhealthy |> in
  match Parse ("https://" +:+ cs_Address (csd_ComputeState state) +:+ ":6443/healthz") with
  | Err e => eret (health, Some e)
  | Ok u =>
      r :=* send (NewGet now ctx u);;
      match r with
      | Err e => eret (health, Some e)
      | Ok op =>
          match GetBody op with
          | BBuffer x =>
              let res := b2s (text_bytes x) in
              if decide (res = "ok"%string) then eret (health <| chr_HealthState := HealthStateHealthy |>, None)
              else eret (health, Some (Errorf ("healthz reports: '" +:+ res +:+ "'")))
          | _ => of_ptr None
          end
      end
  end.

(** Errors of the checks are logged: the response is what is known. *)
(* @dcp/provisioning/docker/health_service.go:29-59 HealthService.HandlePatch *)
Definition health_HandlePatch (getHealthState : HealthCheck) (ctx : Context) (op : Operation) (w : W) : outcome (Operation * W) :=
  match DecodeBodyAs op (zero : ComputeHealthRequest) with
  | (op, _, Some e) => Ret (Fail_ e op, w)
  | (op, req, None) =>
      out_bind (getCompute now ctx (chq_ComputeReference req) w) (λ '(r, w),
        match r with
        | Err e => Ret (Fail_ e op, w)
        | Ok state =>
            let health := (zero : ComputeHealthResponse) <| chr_HealthState := HealthStateUnknown |> in
            out_bind (GetHealthStats ctx state health w) (λ '(r, w),
              match r with
              | Err e => Panic
              | Ok (state, health, _) =>
                  out_bind (getHealthState ctx state health w) (λ '(r, w),
                    match r with
                    | Err _ => Panic
                    | Ok (health, _) => Ret (Complete (SetBody (ValueOf health) op), w)
                    end)
              end)
        end)
  end.

(** *** Network interfaces ([interface.go]) *)
(* @dcp/provisioning/docker/interface.go:12-16 SSHInterface *)
Record SSHInterface := { if_client : Client K C; if_netns : Z; if_portName : string }.
#[export] Instance eta_SSHInterface : Eta SSHInterface := λ i,
  {| if_client := if_client i; if_netns := if_netns i; if_portName := if_portName i |}.

(* @dcp/provisioning/docker/interface.go:19-21 NewInterface *)
Definition NewInterface (c : Client K C) : SSHInterface := {| if_client := c; if_netns := 0; if_portName := "" |}.

(* @dcp/provisioning/docker/interface.go:24-30 SSHInterface.WithPort *)
Definition WithPort (portName : string) (s : SSHInterface) : SSHInterface * option error :=
  if str_empty portName then (s, Some (Errorf "portname can't be empty")) else (s <| if_portName := portName |>, None).

(* @dcp/provisioning/docker/interface.go:111-113 SSHInterface.netnsCmdPrefix *)
Definition netnsCmdPrefix (s : SSHInterface) : string := "ip netns exec " +:+ fmt_d (if_netns s).

(* @dcp/provisioning/docker/interface.go:102-109 SSHInterface.run *)
Definition if_run (cmd : string) (s : SSHInterface) : eff W () := λ w,
  out_bind (Run (if_client s) ("sudo " +:+ netnsCmdPrefix s +:+ " " +:+ cmd) None w) (λ '(_, _, err, w),
    Ret (match err with Some e => Err e | None => Ok tt end, w)).
Definition or_error {A} (msg : string) (m : eff W A) : eff W A :=
  r :=* m;; match r with Ok a => eret a | Err e => efail (Errorf (msg +:+ ": " +:+ Error e)) end.

(* @dcp/provisioning/docker/interface.go:32-39 SSHInterface.SetMTU *)
Definition SetMTU (mtu : Z) (s : SSHInterface) : eff W () :=
  or_error ("error setting mtu on " +:+ if_portName s) (if_run ("ip link set dev " +:+ if_portName s +:+ " mtu " +:+ fmt_d mtu) s).
(* @dcp/provisioning/docker/interface.go:41-48 SSHInterface.SetMac *)
Definition SetMac (mac : string) (s : SSHInterface) : eff W () :=
  or_error ("error setting mac on " +:+ if_portName s) (if_run ("ip link set dev " +:+ if_portName s +:+ " address " +:+ mac) s).
(* @dcp/provisioning/docker/interface.go:50-57 SSHInterface.SetIP *)
Definition SetIP (ip mask : string) (s : SSHInterface) : eff W () :=
  or_error ("error setting ip on " +:+ if_portName s) (if_run ("ip addr add " +:+ ip +:+ "/" +:+ mask +:+ " dev " +:+ if_portName s) s).
(* @dcp/provisioning/docker/interface.go:59-61 SSHInterface.SetGateway *)
Definition SetGateway (gw : string) (s : SSHInterface) : eff W () := eret ().
(* @dcp/provisioning/docker/interface.go:63-70 SSHInterface.linkSet *)
Definition linkSet (state : string) (s : SSHInterface) : eff W () :=
  or_error ("error setting interface " +:+ if_portName s +:+ " " +:+ state) (if_run ("ip link set " +:+ if_portName s +:+ " " +:+ state) s).
(* @dcp/provisioning/docker/interface.go:72-74 SSHInterface.Up *)
Definition Up : SSHInterface → eff W () := linkSet "up".
(* @dcp/provisioning/docker/interface.go:76-78 SSHInterface.Down *)
Definition Down : SSHInterface → eff W () := linkSet "down".
(* @dcp/provisioning/docker/interface.go:80-82 SSHInterface.ChangeName *)
Definition ChangeName (newName : string) (s : SSHInterface) : eff W () := eret ().
(* @dcp/provisioning/docker/interface.go:86-88 SSHInterface.WithNetns *)
Definition WithNetns (netns : Z) (s : SSHInterface) : SSHInterface := s <| if_netns := netns |>.
(** The interface is known to be in the new name space only when the move
    succeeded. *)
(* @dcp/provisioning/docker/interface.go:92-100 SSHInterface.MoveNetns *)
Definition MoveNetns (newNetns : Z) (s : SSHInterface) : eff W SSHInterface :=
  _ :=! or_error ("error adding " +:+ if_portName s +:+ " to netns " +:+ fmt_d newNetns)
          (if_run ("ip link set " +:+ if_portName s +:+ " netns " +:+ fmt_d newNetns) s);;
  eret (WithNetns newNetns s).
End docker.
Arguments HealthCheck W : clear implicits.

(** ** Lemmas: steps that are no reports *)
Section docker_safe.
Context {W K C X : Type} `{SshLib W K C X} `{GoTypes} `{Network W} `{DockerLib} (now : Z) (dcp : AddressFlag) (stack : bytes).
Context {E : Type} `{Machine E} (downloadPath : string) (sch : nat → nat → list nat * list nat).
Context `{!Embeds ComputeInstanceRequest} `{!Embeds ComputeSubTaskState} `{!Embeds ComputeStateWithDescription}.
Context `{!Embeds AuthCredentialsServiceState} `{!Embeds ComputeState} `{!Embeds DiskState} `{!Embeds ServiceDocument}.
Context `{!Embeds DiskCustomizationRequest} `{!Embeds ComputeHealthRequest} `{!Embeds ComputeHealthResponse}.
Context (log : W → list HttpRequest) `{!Task log, !SshQuiet log} (Hstack : readable_dump stack).
Context (l : URI) (Hlocal : Local_ dcp = Some l).
Context (Hsch : ∀ k n, (sch k n).1 ≡ₚ seq 0 n ∧ (sch k n).2 ≡ₚ seq 0 n).

Notation R := (silent log).
Notation RV := (silent_in log).
Notation quietly m := (safe R m (λ _, True)).
Notation quietly_in m := (safe RV m (λ _, True)).
Definition connected (c : Client K C) : Prop := is_Some (cl_conn c).

Lemma quiet_getCredentials ctx u : quietly (getCredentials now ctx u).
Proof. apply (safe_get (A := AuthCredentialsServiceState) now log). Qed.
Lemma quiet_retrying (c : Client K C) cmd rec i : connected c → quietly (retrying c cmd rec i).
Proof.
  intros Hc w. destruct (RunWithRetry_log log c cmd rec i w Hc) as (o & i' & err & w' & E1 & Hl).
  unfold retrying. rewrite E1. apply (log_silent log) in Hl. destruct err; by eexists _, w'.
Qed.
Lemma quiet_connect (c : Client K C) a : safe R (call (connect now c a)) connected.
Proof.
  apply safe_call. intros w. destruct (connect_log now log c a w) as (c' & err & w' & E1 & Hl & Hc).
  apply (log_silent log) in Hl. by exists c', err, w'.
Qed.
Hint Resolve quiet_getCredentials quiet_retrying quiet_connect : safe.

Lemma quiet_getDockerInstance k ctx s : quietly (getDockerInstance now dcp sch k ctx s).
Proof. unfold getDockerInstance. quietly_steps. Qed.
Hint Resolve quiet_getDockerInstance : safe.

Lemma quiet_sshConnect ctx s : safe R (sshConnect now dcp ctx s) (λ x, ∀ c, x.2 = Ok c → connected c).
Proof.
  unfold sshConnect.
  assert (∀ s e, safe R (eret (s, Err e)) (λ x : ComputeStateWithDescription * res (Client K C), ∀ c, x.2 = Ok c → connected c)) as Hf
    by (intros; by apply safe_ret; [apply _ |]).
  eapply safe_bind; [apply _ | by eapply quiet_to_local | intros lu _].
  eapply safe_catch; [apply _ | eapply quiet_getCompute; [apply _ | by eexists] | intros [p | e] _; [| apply Hf]].
  eapply safe_catch; [apply _ | apply quiet_getCredentials | intros [a | e] _; [| apply Hf]].
  destruct (WithCredentials a) as [c | e]; [| apply Hf]. destruct (url_Parse _) as [u | e]; [| apply Hf].
  eapply safe_catch; [apply _ | apply quiet_connect | intros [c' | e] Hc; [| apply Hf]].
  apply safe_ret; [apply _ |]. intros c1 [= <-]. by apply Hc.
Qed.

Lemma quiet_dockerPull k ctx c s im : connected c → quietly (dockerPull now dcp sch k ctx c s im).
Proof. intros Hc. unfold dockerPull. quietly_steps. Qed.
Lemma quiet_dockerInspect k ctx c s id : connected c → quietly (dockerInspect now dcp sch k ctx c s id).
Proof. intros Hc. unfold dockerInspect. quietly_steps. Qed.
Hint Resolve quiet_dockerPull quiet_dockerInspect : safe.

(** Logging in to a registry. *)
Lemma quiet_dockerLogin ctx c a h : connected c → quietly (dockerLogin now ctx c a h).
Proof.
  intros Hc. unfold dockerLogin. eapply safe_bind; [apply _ | by apply (safe_of_res _ _ (λ _, True)) | intros u _].
  eapply (safe_bind _ _ _ (λ op, sendable op ∧ quiet_op op)).
  - intros w. unfold CreateRequest, NewRequest. cbn. destruct (url_Parse _) as [pu | e]; cbn; [| by eexists _, w].
    eexists _, w. split; [done |]. split; [done |]. intros op [= <-]. split.
    + by split; [eexists |].
    + intros op1 req. unfold CreateRequest. cbn. intros [= _ <-]. by destruct (str_empty _).
  - intros op [Hs Hq]. eapply (safe_bind _ _ _ (λ op', is_Some (GetResponse op'))).
    + eapply safe_weaken; [apply (safe_send log (SetBasicAuth (auth_PrivateKeyID a) (auth_PrivateKey a) op)) |].
      * unfold SetBasicAuth, GetRequest. destruct (st_httpRequest (op_state op)); [| done]. exact Hs.
      * unfold SetBasicAuth, GetRequest. destruct (st_httpRequest (op_state op)) as [req |] eqn:Er; [| done].
        intros op1 req1. unfold CreateRequest. cbn. intros [= _ <-]. apply (Hq op req). unfold CreateRequest. by rewrite Er.
      * intros op' (r & op2 & -> & _). by rewrite GetResponse_Complete.
    + intros op' Hr. eapply (safe_bind _ _ _ (λ _, True)); [by apply safe_of_ptr; [apply _ | |] | intros r _].
      quietly_steps.
Qed.
Hint Resolve quiet_dockerLogin : safe.

Lemma quiet_dockerLoad k ctx c s d : connected c → quietly_in (dockerLoad now dcp downloadPath sch k ctx c s d).
Proof. intros Hc. unfold dockerLoad. quietly_steps. Qed.
Hint Resolve quiet_dockerLoad : safe.

Lemma quiet_fetch_image ctx c s d u : connected c → quietly_in (fetch_image now dcp downloadPath sch ctx c s d u).
Proof. intros Hc. unfold fetch_image. quietly_steps. Qed.

Lemma quiet_start_container ctx c s d u : connected c → quietly (start_container now dcp sch ctx c s d (Some u)).
Proof.
  intros Hc. unfold start_container. cbn zeta.
  do 3 (eapply (safe_bind _ _ _ (λ _, True)); [solve [eauto with safe] | intros ? _]).
  eapply (safe_bind _ _ _ (λ _, True)); [by apply (safe_patch_disks now log dcp l Hlocal) | intros ? _].
  apply (safe_patch_compute now log).
Qed.
Hint Resolve quiet_fetch_image quiet_start_container : safe.

Lemma quiet_CreateInstance ctx c s u : connected c → quietly_in (CreateInstance now dcp downloadPath sch ctx c s (Some u)).
Proof. intros Hc. unfold CreateInstance. quietly_steps. Qed.

Lemma quiet_DeleteInstance ctx c s : connected c → quietly (DeleteInstance now dcp sch ctx c s).
Proof.
  intros Hc. unfold DeleteInstance. do 2 (eapply (safe_bind _ _ _ (λ _, True)); [solve [eauto with safe] | intros ? _]).
  destruct (Hsch 4 (S (length (cs_DiskLinks s)))) as [H5 H6]. destruct (sch _ _) as [sched arr].
  by apply (safe_delete now log dcp l Hlocal).
Qed.
Hint Resolve quiet_CreateInstance quiet_DeleteInstance : safe.

(** ** Properties *)

Lemma start_container_on ctx c s d u (w w' : W) : start_container now dcp sch ctx c s d (Some u) w = Ret (Ok tt, w') → powered_on log u w'.
Proof.
  unfold start_container. cbn zeta. intros E1. do 4 (apply ebind_Ok in E1 as (? & ? & _ & E1)).
  unfold call_ in E1. destruct (PatchComputeState _ _ _ _ _) as [[[e |] w1] |] eqn:Ep; cbn [out_bind] in E1; [done | | done].
  injection E1 as <-. by eapply PatchComputeState_on in Ep.
Qed.

Lemma CreateInstance_on ctx c s u (v v' : W * CacheW E) : CreateInstance now dcp downloadPath sch ctx c s (Some u) v = Ret (Ok tt, v') → powered_on log u v'.1.
Proof.
  unfold CreateInstance. intros (disks & v1 & _ & E1)%ebind_Ok. destruct disks as [| d [| ? ?]]; [done | | done].
  case_decide; [done |]. do 2 (apply ebind_Ok in E1 as (? & ? & _ & E1)).
  apply on_fst_inv in E1 as [E1 _]. by apply start_container_on in E1.
Qed.

Lemma instance_work_ends req (ctx : Context) c s u ts (w : W) (v1 : W * CacheW E) work : connected c → ready ts → silent log w v1.1 →
  cir_ComputeReference req = Some u → instance_work now dcp downloadPath sch ctx req c s = Some work →
  ∀ msg, ends_in log (instance_ok log req) (w, v1.2) (out_bind (work v1) (λ '(r, v),
    match r with Err e => on_net (failure now stack msg e ts) v | Ok _ => on_net (finish now ts) v end)).
Proof.
  intros Hc Hr Hs Hu Hw msg.
  assert (quietly_in work ∧ ∀ v', work v1 = Ret (Ok tt, v') → ∀ w', log v'.1 `prefix_of` log w' → instance_ok log req w') as [Hq Hok].
  { unfold instance_work in Hw. rewrite Hu in Hw. case_decide as Ht; [| case_decide as Ht2; [| done]]; injection Hw as <-.
    - split; [by apply quiet_CreateInstance |]. intros v' Hv%CreateInstance_on w' Hp. right. right. split; [done |].
      exists u. split; [done |]. by eapply powered_on_later.
    - split; [by apply quiet_on_fst, quiet_DeleteInstance |]. intros _ _ w' _. right. by left. }
  destruct (Hq v1) as (r & v2 & E1 & HR & _). rewrite E1. cbn [out_bind]. assert (silent log w v2.1) as Hs2 by (by etrans).
  eapply work_ends; try done. intros ->. by apply Hok.
Qed.

(** C28: a request for a container is acknowledged with 201; its task is told that
    the work started, and then either that it failed or that it finished, never
    both and nothing else, whatever fails on the way.  Each of the two reports is
    attempted once when its connection holds, and at most three times, in a row,
    when it breaks.  A request that is neither a mock nor a delete is reported as
    finished only when it was a creation and a PATCH that says that the compute
    is on was sent for it. *)
Theorem docker_HandlePatch_reports ctx op op0 req task pu u (v : W * CacheW E) :
  DecodeBodyAs op (zero : ComputeInstanceRequest) = (op0, req, None) →
  cir_ProvisioningTaskReference req = Some task → url_Parse (URL_String task) = Ok pu → cir_ComputeReference req = Some u →
  ∃ v' s n m, docker_HandlePatch now dcp stack downloadPath sch ctx op v = Ret (Complete (SetStatusCode 201 op0), v')
    ∧ stages log v'.1 = stages log v.1 ++ replicate n TaskStageStarted ++ replicate m s
    ∧ 1 ≤ n ≤ 3 ∧ 1 ≤ m ≤ 3 ∧ (prompt → n = 1 ∧ m = 1)
    ∧ (s = TaskStageFailed ∨ s = TaskStageFinished ∧ instance_ok log req v'.1).
Proof.
  intros Hdec Ht Hp Hu. unfold docker_HandlePatch. rewrite Hdec, Ht.
  set (ts0 := NewTaskStateWrapper ctx (Some task) NewComputeSubTaskState).
  destruct (PatchStage_stages now log TaskStageStarted ts0 v.1) as (ts & w1 & -> & Hr & Hs & _); [by split; [eexists | exists task, pu] | done |].
  cbn [out_bind].
  match goal with |- context [out_bind ?r (λ v, Ret (_, v))] => assert (ends_in log (instance_ok log req) (w1, v.2) r) as (v' & s & -> & Hs' & Ho) end.
  2: { destruct (tells_two log _ _ _ _ _ Hs Hs') as (n & m & E1 & E2 & E3 & E4). by exists v', s, n, m. }
  clear Hs. destruct (cir_IsMockRequest req) eqn:Hmock.
  { eapply ends_on_net; [done |]. eapply mock_ends; try done. intros w'. by left. }
  destruct (quiet_on_fst log _ _ (quiet_getCompute now log ctx (cir_ComputeReference req) ltac:(by eexists)) (w1, v.2)) as (r & v2 & -> & H5 & _). cbn [out_bind].
  destruct r as [s | e]; [| eapply ends_on_net; [done | by apply (ends_failure now stack log Hstack)]].
  destruct (quiet_on_fst log _ _ (quiet_sshConnect ctx s) v2) as (r & v3 & -> & H6 & Hc). cbn [out_bind].
  assert (silent log w1 v3.1) as Hs3 by (by etrans).
  destruct r as [[s1 [c | e]] | e]; [| (eapply ends_on_net; [done | by apply (ends_failure now stack log Hstack)])..].
  specialize (Hc _ eq_refl c eq_refl).
  match goal with |- ends_in _ _ _ (out_bind ?r _) => assert (ends_in log (instance_ok log req) (w1, v.2) r) as (v' & s' & -> & Hs' & Ho) end.
  - destruct (instance_work _ _ _ _ _ _ _ _) as [work |] eqn:Ew.
    + by eapply (instance_work_ends req ctx c s1 u ts w1 v3 work).
    + cbn [deref]. eapply ends_on_net; [done | by apply (ends_failure now stack log Hstack)].
  - cbn [out_bind]. destruct Hc as [conn Hconn]. unfold close. rewrite Hconn. exists (ssh_Close conn v'.1, v'.2), s'.
    split; [done |]. simpl. split; [eapply tells_stages; [exact Hs' | done |]; unfold stages; by rewrite Close_quiet |].
    unfold instance_ok, powered_on in *. by rewrite Close_quiet.
Qed.
End docker_safe.

(** ** The last line *)
Definition nonblank (s : bytes) : list bytes := filter (λ x, x ≠ []) (TrimSpace <$> split newline s).

Lemma trim_left_space c s : is_space c = true → trim_left (c :: s) = trim_left s.
Proof. simpl. by intros ->. Qed.
Lemma TrimSpace_space c s : is_space c = true → TrimSpace (c :: s) = TrimSpace s.
Proof. intros Hc. unfold TrimSpace. by rewrite trim_left_space. Qed.

Lemma nonblank_space c s : is_space c = true → nonblank (c :: s) = nonblank s.
Proof.
  intros Hc. unfold nonblank. cbn [split]. pose proof (split_nonempty newline s) as Hne.
  destruct (split newline s) as [| x t]; [done |].
  case_decide; [done |]. cbn [fmap list_fmap]. rewrite (TrimSpace_space c x) by done. done.
Qed.

Lemma trim_left_snoc x c : is_space c = true → trim_left (x ++ [c]) = match trim_left x with [] => [] | y => y ++ [c] end.
Proof.
  intros Hc. induction x as [| b x IH]; simpl; [by rewrite Hc |]. by destruct (is_space b).
Qed.
Lemma TrimSpace_snoc x c : is_space c = true → TrimSpace (x ++ [c]) = TrimSpace x.
Proof.
  intros Hc. unfold TrimSpace. rewrite trim_left_snoc by done. destruct (trim_left x); [done |].
  by rewrite reverse_snoc, trim_left_space.
Qed.

Lemma split_snoc s c : c ≠ newline → ∃ i x, split newline s = i ++ [x] ∧ split newline (s ++ [c]) = i ++ [x ++ [c]].
Proof.
  intros Hc. induction s as [| b s (i & x & E1 & E2)]; simpl.
  { exists [], []. by rewrite decide_False. }
  rewrite E1, E2. case_decide; [by exists ([] :: i), x |].
  destruct i as [| y i]; [by exists [], (b :: x) | by exists ((b :: y) :: i), x].
Qed.

Lemma nonblank_snoc s c : is_space c = true → nonblank (s ++ [c]) = nonblank s.
Proof.
  intros Hc. unfold nonblank. destruct (decide (c = newline)) as [-> | Hn].
  - rewrite split_app, fmap_app, filter_app. change (filter _ (TrimSpace <$> split newline [])) with (@nil bytes). apply app_nil_r.
  - destruct (split_snoc s c Hn) as (i & x & -> & ->). rewrite !fmap_app, !filter_app. cbn. by rewrite TrimSpace_snoc.
Qed.

Lemma nonblank_trim s : nonblank (TrimSpace s) = nonblank s.
Proof.
  assert (∀ s, nonblank (trim_left s) = nonblank s) as Hl.
  { clear s. intros s. induction s as [| c s IH]; [done |]. cbn [trim_left]. destruct (is_space c) eqn:Hc; [| done]. by rewrite nonblank_space. }
  assert (∀ r, nonblank (reverse (trim_left r)) = nonblank (reverse r)) as Hr.
  { clear s. intros r. induction r as [| c r IH]; [done |]. cbn [trim_left]. destruct (is_space c) eqn:Hc; [| done].
    by rewrite reverse_cons, nonblank_snoc. }
  unfold TrimSpace. by rewrite Hr, reverse_involutive, Hl.
Qed.

Lemma trim_left_head s : trim_left s = [] ∨ ∃ c r, trim_left s = c :: r ∧ is_space c = false.
Proof. induction s as [| c s IH]; [by left |]. simpl. destruct (is_space c) eqn:Hc; [done | right; eauto]. Qed.
Lemma trim_left_id c s : is_space c = false → trim_left (c :: s) = c :: s.
Proof. simpl. by intros ->. Qed.

Lemma trim_left_nonempty s : (∃ c, c ∈ s ∧ is_space c = false) → trim_left s ≠ [].
Proof.
  induction s as [| b s IH]; intros (c & Hin & Hc); [by apply not_elem_of_nil in Hin |]. simpl.
  destruct (is_space b) eqn:Hb; [| done]. apply IH. apply elem_of_cons in Hin as [-> | Hin]; [congruence | eauto].
Qed.
Lemma trim_left_last s x c : is_space c = false → trim_left (s ++ [c]) = x → ∃ y, x = y ++ [c].
Proof.
  intros Hc <-. induction s as [| b s [y IH]]; simpl; [rewrite Hc; by exists [] |]. destruct (is_space b); [by exists y | by exists (b :: s)].
Qed.

(** A trimmed text is empty, or ends in something that is no space. *)
Lemma TrimSpace_last s : TrimSpace s = [] ∨ ∃ p c, TrimSpace s = p ++ [c] ∧ is_space c = false.
Proof.
  unfold TrimSpace. destruct (trim_left_head (reverse (trim_left s))) as [-> | (c & r & -> & Hc)]; [by left | right].
  exists (reverse r), c. by rewrite reverse_cons.
Qed.
Lemma TrimSpace_nonempty p c : is_space c = false → TrimSpace (p ++ [c]) ≠ [].
Proof.
  intros Hc. unfold TrimSpace. destruct (trim_left_last p _ c Hc eq_refl) as [y ->]. rewrite reverse_snoc, trim_left_id by done.
  rewrite reverse_cons. intros E. by apply app_nil in E as [_ E].
Qed.

Lemma TrimSpace_idemp s : TrimSpace (TrimSpace s) = TrimSpace s.
Proof.
  destruct (TrimSpace_last s) as [-> | (p & c & E & Hc)]; [done |].
  assert (trim_left (TrimSpace s) = TrimSpace s) as Hl.
  { unfold TrimSpace in *. destruct (trim_left_head s) as [-> | (b & r & Es & Hb)]; [done |]. rewrite Es in *.
    destruct (trim_left_last (reverse r) _ b Hb eq_refl) as [y Hy]. rewrite <- reverse_cons in Hy.
    rewrite Hy, reverse_snoc. by apply trim_left_id. }
  unfold TrimSpace at 1. rewrite Hl, E, reverse_snoc, trim_left_id by done. by rewrite reverse_cons, reverse_involutive.
Qed.

Lemma LastIndex_split_Some c s a b : LastIndex_split c s = Some (a, b) → s = a ++ c :: b ∧ c ∉ b.
Proof.
  unfold LastIndex_split. destruct (index_split c (reverse s)) as [[after [| x before]] |] eqn:E; [done | | done].
  intros [= <- <-]. apply index_split_Some in E as (E & Hn & [= ->]). split.
  - apply (f_equal reverse) in E. rewrite reverse_involutive, reverse_app, reverse_cons, <- (assoc_L (++)) in E. done.
  - by rewrite elem_of_reverse.
Qed.
Lemma LastIndex_split_None c s : LastIndex_split c s = None → c ∉ s.
Proof.
  unfold LastIndex_split. destruct (index_split c (reverse s)) as [[after [| x before]] |] eqn:E; [| done |].
  - by apply index_split_Some in E as (_ & _ & [=]).
  - intros _. apply index_split_None in E. by rewrite elem_of_reverse in E.
Qed.

(** The last line of the output of a command that was retried is the last
    line that is not blank, without the space around it; the empty string when
    there is none. *)
Theorem getLastLine_spec (stdout : bytes) :
  getLastLine stdout = default [] (last (filter (λ x, x ≠ []) (TrimSpace <$> split newline stdout))).
Proof.
  fold (nonblank stdout). rewrite <- nonblank_trim. unfold getLastLine. set (t := TrimSpace stdout).
  assert (TrimSpace t = t) as Ht by apply TrimSpace_idemp.
  destruct (LastIndex_split newline t) as [[p q] |] eqn:E.
  - apply LastIndex_split_Some in E as [E Hq].
    assert (TrimSpace q ≠ []) as Hne.
    { destruct (TrimSpace_last stdout) as [H5 | (p' & c & H5 & Hc)]; fold t in H5; rewrite E in H5; [by destruct p |].
      destruct q as [| b q _] using rev_ind.
      - apply app_inj_tail in H5 as [_ <-]. done.
      - rewrite app_comm_cons, (assoc_L (++)) in H5. apply app_inj_tail in H5 as [_ <-]. by apply TrimSpace_nonempty. }
    unfold nonblank. rewrite E, split_app, (split_id _ q), fmap_app, filter_app by done.
    cbn [fmap list_fmap]. rewrite filter_cons_True by done. cbn [filter list_filter]. by rewrite last_snoc.
  - apply LastIndex_split_None in E. unfold nonblank. rewrite split_id by done. cbn [fmap list_fmap]. rewrite Ht.
    destruct (decide (t = [])) as [-> | Hne]; [done |]. by rewrite filter_cons_True by done.
Qed.

(** ** Witness

    A host whose commands echo themselves and whose documents are served from
    one table: the disk has the image [docker://h/i]. *)
Definition docker_types : GoTypes := types_of
  [GoType ComputeInstanceRequest; GoType ComputeSubTaskState; GoType ComputeStateWithDescription; GoType AuthCredentialsServiceState;
   GoType ComputeState; GoType DiskState; GoType ServiceDocument; GoType DiskCustomizationRequest; GoType ComputeHealthRequest;
   GoType ComputeHealthResponse].
Definition docker_documents : gmap string json := {[
  "/disk" := JObj [("type", JStr DiskTypeNetwork); ("sourceImageReference", JStr "docker://h/i")];
  "/creds" := JObj [("type", JStr AuthTypePassword)] ]}%string.
Definition docker_compute : json :=
  JObj [("id", JStr "x"); ("diskLinks", JArr [JStr "/disk"]); ("parentLink", JStr "/parent"); ("address", JStr "h");
        ("description", JObj [("authCredentialsLink", JStr "/creds")])]%string.
Definition docker_network : Network (nat * list HttpRequest) :=
  {| Do := λ req w, (ok_json (default docker_compute (docker_documents !! b2s (u_Path (rq_URL req)))), req, (w.1, w.2 ++ [req]));
     json_text := λ _, [] |}.
Definition sample_docker : DockerLib :=
  {| open_archive := λ _ _, Err EOF; json_parse := λ _, Ok (JArr [JObj []]);
     Sscanf_stats := λ _, {| sc_cpu := None; sc_used := (float64_of_Z 0, ""%string); sc_total := (float64_of_Z 0, ""%string); sc_mem := None; sc_err := None |};
     map_order := λ l, l |}.
Definition docker_machine : Machine () :=
  {| os_fault := λ _ _ _, (None, ()); os_write := λ _ _, (None, ()); os_now := λ _, 7%Z; http_Get := λ _ _ _, (Err EOF, ()) |}.
Definition sample_instance : ComputeInstanceRequest :=
  {| cir_ComputeReference := Some sample_local; cir_ProvisioningTaskReference := Some sample_local;
     cir_AuthCredentialsLink := ""; cir_RequestType := InstanceRequestTypeCreate; cir_IsMockRequest := false |}.
Definition sample_instance_op : Operation (H := docker_types) :=
  let types := docker_types in
  SetBody (BReadCloser (TJson (enc sample_instance))) (NewPatch 0 Background sample_local BNil).
Definition sample_world : (nat * list HttpRequest) * CacheW () := ((0, []), {| cw_ext := (); cw_files := ∅ |}).
Definition in_order (k n : nat) : list nat * list nat := (seq 0 n, seq 0 n).

Lemma docker_HandlePatch_reports_witness :
  let types := docker_types in let ssh := sample_ssh 0 in let net := docker_network in let docker := sample_docker in
  let machine := docker_machine in
  let e0 : Embeds ComputeInstanceRequest := nth_embeds _ 0 in let e1 : Embeds ComputeSubTaskState := nth_embeds _ 1 in
  let e2 : Embeds ComputeStateWithDescription := nth_embeds _ 2 in let e3 : Embeds AuthCredentialsServiceState := nth_embeds _ 3 in
  let e4 : Embeds ComputeState := nth_embeds _ 4 in let e5 : Embeds DiskState := nth_embeds _ 5 in
  let e6 : Embeds ServiceDocument := nth_embeds _ 6 in let e7 : Embeds DiskCustomizationRequest := nth_embeds _ 7 in
  let e8 : Embeds ComputeHealthRequest := nth_embeds _ 8 in let e9 : Embeds ComputeHealthResponse := nth_embeds _ 9 in
  let local := {| af_host := ""; af_port := "" |} in
  let r := docker_HandlePatch (W := nat * list HttpRequest) 0 local [] "/tmp" in_order Background sample_instance_op sample_world in
  (∃ v' s, r = Ret (Complete (SetStatusCode 201 (SetBody BNil sample_instance_op)), v')
    ∧ stages snd v'.1 = [TaskStageStarted; s]) ∧
  match r with Ret (_, v') => stages snd v'.1 = [TaskStageStarted; TaskStageFinished] | Panic => False end.
Proof.
  intros types ssh net docker machine e0 e1 e2 e3 e4 e5 e6 e7 e8 e9 local r. split; [| vm_compute; done].
  assert (Task snd) as T by (constructor; [done | by right]).
  assert (SshQuiet (H := ssh) snd) as Q by (constructor; done).
  assert (readable_dump []) as D by (exists []; vm_compute; reflexivity).
  assert (Local_ local = Some sample_local) as Hl by (vm_compute; reflexivity).
  assert (∀ k n, (in_order k n).1 ≡ₚ seq 0 n ∧ (in_order k n).2 ≡ₚ seq 0 n) as Hs by done.
  assert (DecodeBodyAs sample_instance_op (zero : ComputeInstanceRequest) = (SetBody BNil sample_instance_op, sample_instance, None)) as Hd
    by (apply (DecodeBodyAs_stream _ (enc sample_instance)); [done | done | vm_compute; reflexivity]).
  assert (url_Parse (URL_String sample_local) = Ok sample_local) as Hu by (vm_compute; reflexivity).
  destruct (docker_HandlePatch_reports (W := nat * list HttpRequest) 0 local [] "/tmp" in_order snd D _ Hl Hs Background
    _ _ _ sample_local _ _ sample_world Hd eq_refl Hu eq_refl) as (v' & s & n & m & E1 & E2 & _ & _ & Hp & _).
  destruct Hp as [-> ->]; [by intros req w e _ |]. exists v', s. split; [exact E1 | exact E2].
Defined.
