(* ===== verification/EsxApi.v ===== *)
(** Package [dcp/provisioning/esxcloud], [esxc_api.go]: the API of ESX Cloud over
    HTTP, and how its client waits for it until a context is done.

    Each call of the client runs in a goroutine of its own and is abandoned when
    the context is done first.  [api A] is such a goroutine: the number with the
    world is how many more of its requests are answered before that; its result
    is [None] when it was abandoned while it waited, and what it would do later
    is not followed: [waitForTask] itself has no deadline, and goes on polling in
    that goroutine while the task is STARTED ([waitForTask_spec]).  A panic ends
    the process in any case.

    The SDK that attaches images, and what had been read of a body that could
    not be read to its end, are parameters (class [EsxLib]). *)

From S2P Require Import Prelude Effects GoPath GoNet GoJson GoURL DcpCommon DcpUri Operation Client ProvTypes Provisioning Tasks.
From Stdlib Require Import ZArith Lia.

Class EsxLib (W : Type) := {
  read_before_error : HttpResponse → text;
  (** [photon.Client]: the identifier of the task *)
  VMs_AttachISO : string → string → string → W → res string * W;
  (** [None]: it waits for ever *)
  Tasks_Wait : string → string → W → option (option error) * W
}.

(** ** Documents *)
(* @dcp/provisioning/esxcloud/esxc_api.go:36-98 EsxcapiOperation *)
Record EsxcapiOperation := {
  eo_ClientOperationID : string;
  eo_CreationTimestamp : string;
  eo_EndTime : string;
  eo_HTTPErrorMessage : string;
  eo_HTTPErrorStatusCode : Z;
  eo_ID : string;
  eo_InsertTime : string;
  eo_Kind : string;
  eo_Name : string;
  eo_OperationType : string;
  eo_Progress : Z;
  eo_Region : string;
  eo_SelfLink : string;
  eo_StartTime : string;
  eo_Status : string;
  eo_StatusMessage : string;
  eo_TargetID : Z;
  eo_TargetLink : string;
  eo_User : string;
  eo_Errors : list string
}.
#[export] Instance zero_EsxcapiOperation : Zero EsxcapiOperation :=
  {| eo_ClientOperationID := ""; eo_CreationTimestamp := ""; eo_EndTime := ""; eo_HTTPErrorMessage := ""; eo_HTTPErrorStatusCode := 0%Z;
     eo_ID := ""; eo_InsertTime := ""; eo_Kind := ""; eo_Name := ""; eo_OperationType := ""; eo_Progress := 0%Z; eo_Region := "";
     eo_SelfLink := ""; eo_StartTime := ""; eo_Status := ""; eo_StatusMessage := ""; eo_TargetID := 0%Z; eo_TargetLink := ""; eo_User := "";
     eo_Errors := [] |}.
#[export] Instance eta_EsxcapiOperation : Eta EsxcapiOperation := λ o,
  {| eo_ClientOperationID := eo_ClientOperationID o; eo_CreationTimestamp := eo_CreationTimestamp o; eo_EndTime := eo_EndTime o;
     eo_HTTPErrorMessage := eo_HTTPErrorMessage o; eo_HTTPErrorStatusCode := eo_HTTPErrorStatusCode o; eo_ID := eo_ID o;
     eo_InsertTime := eo_InsertTime o; eo_Kind := eo_Kind o; eo_Name := eo_Name o; eo_OperationType := eo_OperationType o;
     eo_Progress := eo_Progress o; eo_Region := eo_Region o; eo_SelfLink := eo_SelfLink o; eo_StartTime := eo_StartTime o;
     eo_Status := eo_Status o; eo_StatusMessage := eo_StatusMessage o; eo_TargetID := eo_TargetID o; eo_TargetLink := eo_TargetLink o;
     eo_User := eo_User o; eo_Errors := eo_Errors o |}.

(* @dcp/provisioning/esxcloud/esxc_api.go:100-108 EsxcapiAttachedDisk *)
Record EsxcapiAttachedDisk := {
  ad_ID : string;
  ad_Kind : string;
  ad_BootDisk : bool;
  ad_DiskName : string;
  ad_DiskFlavor : string;
  ad_SourceImageID : string;
  ad_DiskCapacityGBytes : Z
}.
#[export] Instance eta_EsxcapiAttachedDisk : Eta EsxcapiAttachedDisk := λ d,
  {| ad_ID := ad_ID d; ad_Kind := ad_Kind d; ad_BootDisk := ad_BootDisk d; ad_DiskName := ad_DiskName d;
     ad_DiskFlavor := ad_DiskFlavor d; ad_SourceImageID := ad_SourceImageID d; ad_DiskCapacityGBytes := ad_DiskCapacityGBytes d |}.
#[export] Instance zero_EsxcapiAttachedDisk : Zero EsxcapiAttachedDisk :=
  {| ad_ID := ""; ad_Kind := ""; ad_BootDisk := false; ad_DiskName := ""; ad_DiskFlavor := ""; ad_SourceImageID := "";
     ad_DiskCapacityGBytes := 0%Z |}.
Definition EsxcapiAttachedDisk_fields : list (field EsxcapiAttachedDisk) :=
  [ str_field "id" ad_ID (λ x d, d <| ad_ID := x |>);
    str_field "kind" ad_Kind (λ x d, d <| ad_Kind := x |>);
    omitempty "bootDisk" ad_BootDisk (λ x d, d <| ad_BootDisk := x |>) negb JBool dec_bool;
    str_field "name" ad_DiskName (λ x d, d <| ad_DiskName := x |>);
    str_field "flavor" ad_DiskFlavor (λ x d, d <| ad_DiskFlavor := x |>);
    str_field "sourceImageId" ad_SourceImageID (λ x d, d <| ad_SourceImageID := x |>);
    plain "capacityGb" ad_DiskCapacityGBytes (λ x d, d <| ad_DiskCapacityGBytes := x |>) JNum dec_int64 ].
#[export] Instance json_EsxcapiAttachedDisk : Json EsxcapiAttachedDisk :=
  {| enc := enc_struct EsxcapiAttachedDisk_fields; dec := dec_struct "esxcloud.EsxcapiAttachedDisk" EsxcapiAttachedDisk_fields |}.

(** The disks are pointers, which a message may leave nil. *)
(* @dcp/provisioning/esxcloud/esxc_api.go:110-167 EsxcapiInstance *)
Record EsxcapiInstance := {
  ei_EsxcloudID : string;
  ei_SelfLink : string;
  ei_Name : string;
  ei_MachineFlavor : string;
  ei_Tags : list string;
  ei_Kind : string;
  ei_State : string;
  ei_Description : string;
  ei_SourceImageID : string;
  ei_IPAddress : string;
  ei_Disks : list (option EsxcapiAttachedDisk);
  ei_ISOFiles : list string
}.
#[export] Instance eta_EsxcapiInstance : Eta EsxcapiInstance := λ i,
  {| ei_EsxcloudID := ei_EsxcloudID i; ei_SelfLink := ei_SelfLink i; ei_Name := ei_Name i; ei_MachineFlavor := ei_MachineFlavor i;
     ei_Tags := ei_Tags i; ei_Kind := ei_Kind i; ei_State := ei_State i; ei_Description := ei_Description i;
     ei_SourceImageID := ei_SourceImageID i; ei_IPAddress := ei_IPAddress i; ei_Disks := ei_Disks i; ei_ISOFiles := ei_ISOFiles i |}.
#[export] Instance zero_EsxcapiInstance : Zero EsxcapiInstance :=
  {| ei_EsxcloudID := ""; ei_SelfLink := ""; ei_Name := ""; ei_MachineFlavor := ""; ei_Tags := []; ei_Kind := ""; ei_State := "";
     ei_Description := ""; ei_SourceImageID := ""; ei_IPAddress := ""; ei_Disks := []; ei_ISOFiles := [] |}.
Definition EsxcapiInstance_fields : list (field EsxcapiInstance) :=
  [ str_field "id" ei_EsxcloudID (λ x i, i <| ei_EsxcloudID := x |>);
    str_field "selfLink" ei_SelfLink (λ x i, i <| ei_SelfLink := x |>);
    str_field "name" ei_Name (λ x i, i <| ei_Name := x |>);
    str_field "flavor" ei_MachineFlavor (λ x i, i <| ei_MachineFlavor := x |>);
    strs_field "tags" ei_Tags (λ x i, i <| ei_Tags := x |>);
    str_field "kind" ei_Kind (λ x i, i <| ei_Kind := x |>);
    str_field "state" ei_State (λ x i, i <| ei_State := x |>);
    str_field "description" ei_Description (λ x i, i <| ei_Description := x |>);
    str_field "sourceImageId" ei_SourceImageID (λ x i, i <| ei_SourceImageID := x |>);
    str_field "ipAddress" ei_IPAddress (λ x i, i <| ei_IPAddress := x |>);
    omitempty "attachedDisks" ei_Disks (λ x i, i <| ei_Disks := x |>) list_empty (enc_list (enc_ptr enc))
      (dec_list "[]*esxcloud.EsxcapiAttachedDisk" (dec_ptr dec));
    strs_field "isoFilePaths" ei_ISOFiles (λ x i, i <| ei_ISOFiles := x |>) ].
#[export] Instance json_EsxcapiInstance : Json EsxcapiInstance :=
  {| enc := enc_struct EsxcapiInstance_fields; dec := dec_struct "esxcloud.EsxcapiInstance" EsxcapiInstance_fields |}.

(* @dcp/provisioning/esxcloud/esxc_api.go:169-186 EsxcapiInstanceList *)
Record EsxcapiInstanceList := {
  il_ID : string;
  il_Items : list EsxcapiInstance;
  il_Kind : string;
  il_NextPageToken : string;
  il_SelfLink : string
}.

(** *** What is sent *)
Definition sent (fields : list (string * option json)) : json := JObj (omap (λ f, pair f.1 <$> f.2) fields).
Definition str_omit (s : string) : option json := if str_empty s then None else Some (JStr s).

(* @dcp/provisioning/esxcloud/esxc_api.go:196-204 esxcloudAPICreatevmDiskParams *)
Record esxcloudAPICreatevmDiskParams := {
  dp_ID : string;
  dp_Name : string;
  dp_Image : string;
  dp_Kind : string;
  dp_Flavor : string;
  dp_CapacityGb : Z;
  dp_BootDisk : bool
}.
(** The capacity has the option "string" of [encoding/json]. *)
Definition enc_DiskParams (d : esxcloudAPICreatevmDiskParams) : json :=
  sent [("id", str_omit (dp_ID d)); ("name", str_omit (dp_Name d)); ("image", str_omit (dp_Image d)); ("kind", str_omit (dp_Kind d));
        ("flavor", str_omit (dp_Flavor d)); ("capacityGb", if int_empty (dp_CapacityGb d) then None else Some (JStr (fmt_d (dp_CapacityGb d))));
        ("bootDisk", Some (JBool (dp_BootDisk d)))]%string.

(* @dcp/provisioning/esxcloud/esxc_api.go:221-223 esxcloudAPIVMOperations *)
Record esxcloudAPIVMOperations := { vo_Operation : string }.
Definition enc_VMOperations (o : esxcloudAPIVMOperations) : json := sent [("operation", str_omit (vo_Operation o))]%string.

(* @dcp/provisioning/esxcloud/esxc_api.go:227-232 esxcloudAPICreatevmParams *)
Record esxcloudAPICreatevmParams := {
  cp_Name : string;
  cp_Flavor : string;
  cp_SourceImageID : string;
  cp_AttachedDisks : list esxcloudAPICreatevmDiskParams
}.
Definition enc_CreatevmParams (p : esxcloudAPICreatevmParams) : json :=
  sent [("name", str_omit (cp_Name p)); ("flavor", str_omit (cp_Flavor p)); ("sourceImageId", str_omit (cp_SourceImageID p));
        ("attachedDisks", match cp_AttachedDisks p with [] => None | l => Some (JArr (enc_DiskParams <$> l)) end)]%string.

(** A nil disk cannot be read. *)
(* @dcp/provisioning/esxcloud/esxc_api.go:206-219 createDiskParamsForAttachedDisks *)
Definition createDiskParamsForAttachedDisks (instance : EsxcapiInstance) : option (list esxcloudAPICreatevmDiskParams) :=
  mapM (λ d, disk ← d;
    Some {| dp_ID := ""; dp_Name := ad_DiskName disk; dp_Image := ""; dp_Kind := ad_Kind disk; dp_Flavor := ad_DiskFlavor disk;
            dp_CapacityGb := ad_DiskCapacityGBytes disk; dp_BootDisk := ad_BootDisk disk |}) (ei_Disks instance).

(* @dcp/provisioning/esxcloud/esxc_api.go:188-192 setEsxCloudRestAPIHeaders *)
Definition setEsxCloudRestAPIHeaders (req : HttpRequest) : HttpRequest :=
  with_header "Data-Type" "json" (with_header "User-Agent" "esxcloud-enatai-adapter-go-client/0.5"
    (with_header ContentType "application/json; charset=utf-8" req)).

(* @dcp/provisioning/esxcloud/esxc_api.go:241-249 checkResponse *)
Definition checkResponse (r : HttpResponse) : option error :=
  if decide (200 ≤ res_StatusCode r ∧ res_StatusCode r ≤ 299)%Z then None
  else Some (Errorf ("error response from http operation: Status Code=" +:+ fmt_d (res_StatusCode r))).

(** ** Goroutines that may be abandoned *)
Definition api (W A : Type) : Type := nat * W → outcome (option (res A) * (nat * W)).

Section api.
Context {W : Type}.
Definition aret {A} (a : A) : api W A := λ v, Ret (Some (Ok a), v).
Definition afail {A} (e : error) : api W A := λ v, Ret (Some (Err e), v).
Definition apanic {A} : api W A := λ _, Panic.
Definition acatch {A B} (m : api W A) (k : res A → api W B) : api W B := λ v,
  out_bind (m v) (λ '(r, v), match r with None => Ret (None, v) | Some r => k r v end).
Definition abind {A B} (m : api W A) (k : A → api W B) : api W B :=
  acatch m (λ r, match r with Ok a => k a | Err e => afail e end).
(** A nil dereference, an index or a type assertion that fails. *)
Definition must {A} (o : option A) : api W A := match o with Some a => aret a | None => apanic end.
Definition of_err (e : option error) : api W () := match e with Some e => afail e | None => aret () end.
(** A request that is answered, or not before the goroutine is abandoned. *)
Definition awaits {A} (f : W → outcome (option (res A) * W)) : api W A := λ '(n, w),
  out_bind (f w) (λ '(r, w),
    match r, n with
    | Some r, S n => Ret (Some r, (n, w))
    | _, _ => Ret (None, (O, w))
    end).
(** The [select] of the client; [late] is what it returns when the context is
    done first. *)
Definition await {A} (patience : nat) (late : error) (m : api W A) : eff W A := λ w,
  out_bind (m (patience, w)) (λ '(r, (_, w)), Ret (default (Err late) r, w)).
End api.

Notation "x ':=!!' m ';;' k" := (abind m (λ x, k))
  (at level 100, m at next level, k at level 200, right associativity) : go_scope.
Notation "x ':=**' m ';;' k" := (acatch m (λ x, k))
  (at level 100, m at next level, k at level 200, right associativity) : go_scope.
Notation "' x ':=!!' m ';;' k" := (abind m (λ x, k))
  (at level 100, x strict pattern, m at next level, k at level 200, right associativity) : go_scope.

(** [json.Unmarshal] into a new map. *)
Definition json_of (x : text) : res json :=
  match x with
  | TJson j => Ok j
  | TRaw [] => Err (Errorf "unexpected end of JSON input")
  | TRaw _ => Err (Errorf "invalid character")
  end.
Definition as_map (x : text) : res (gmap string json) :=
  j :=? json_of x;;
  match Unmarshal (H := {| enc := enc_map enc; dec := dec_map "map[string]interface {}" dec |}) j ∅ with
  | (m, None) => Ok m
  | (_, Some e) => Err e
  end.
(** Type assertions. *)
Definition as_string (j : option json) : option string := match j with Some (JStr s) => Some s | _ => None end.
Definition as_object (j : option json) : option (list (string * json)) := match j with Some (JObj o) => Some o | _ => None end.

Section esx_api.
Context {W : Type} `{Network W, EsxLib W}.

(** A URL that cannot be parsed leaves no request to set the headers of.  A
    server that never answers is waited for until the context is done. *)
Definition api_Do (method url : string) (body : option json) (w : W) : outcome (option (res HttpResponse) * W) :=
  match NewRequest method url (TJson <$> body) with
  | Err _ => Panic
  | Ok req =>
      match Do (setEsxCloudRestAPIHeaders req) w with
      | (TimedOut, _, w) => Ret (None, w)
      | (Answered r, _, w) => Ret (Some (Ok r), w)
      | (Broken e, _, w) => Ret (Some (Err e), w)
      end
  end.
Definition ReadAll (r : HttpResponse) : text * option error :=
  match res_Body r with Ok x => (x, None) | Err e => (read_before_error r, Some e) end.

(** The state of the task; an error comes with the empty state. *)
(* @dcp/provisioning/esxcloud/esxc_api.go:693-746 EsxcapiService.getTaskStateOnce *)
Definition getTaskStateOnce (taskID zone : string) (w : W) : outcome (option (string * gmap string json * option error) * W) :=
  out_bind (api_Do "GET" ("http://" +:+ zone +:+ "/v1/tasks/" +:+ taskID) None w) (λ '(r, w),
    let failed e := Ret (Some (""%string, ∅, Some e), w) in
    match r with
    | None => Ret (None, w)
    | Some (Err e) => failed e
    | Some (Ok resp) =>
        let '(bodyBytes, err2) := ReadAll resp in
        match as_map bodyBytes with
        | Err e => failed e
        | Ok data =>
            match as_string (data !! "state"), checkResponse resp with
            | None, _ => Panic
            | Some _, Some e => failed e
            | Some taskState, None => Ret (Some (taskState, data, err2), w)
            end
        end
    end).

(** The loop has no bound: it only ends with a poll that finds another state, or
    no state because of an error; its variables are shadowed in its body.  The
    first argument is fuel, the polls to follow: [None] says that it is
    still polling after so many. *)
(* @dcp/provisioning/esxcloud/esxc_api.go:677-691 EsxcapiService.waitForTask *)
Fixpoint wait_loop (taskID zone : string) (fuel : nat) (w : W) : outcome (option (res (gmap string json * option error)) * (nat * W)) :=
  out_bind (getTaskStateOnce taskID zone w) (λ '(r, w),
    match r, fuel with
    | Some (taskState, data, err), S fuel =>
        if decide (taskState ≠ "STARTED"%string) then Ret (Some (Ok (data, err)), (fuel, w)) else wait_loop taskID zone fuel w
    | _, _ => Ret (None, (O, w))
    end).
(** The polls of a call are followed as far as the context of its caller lasts. *)
Definition waitForTask (taskID zone : string) : api W (gmap string json * option error) := λ '(n, w), wait_loop taskID zone n w.

(* @dcp/provisioning/esxcloud/esxc_api.go:360-387 EsxcapiService.EsxcapiAttachISO *)
Definition EsxcapiAttachISO (zone esxcloudVMID isoFilePath : string) : api W () :=
  let url := "http://" +:+ zone in
  attachTask :=!! awaits (λ w, let '(r, w) := VMs_AttachISO url esxcloudVMID isoFilePath w in Ret (Some r, w));;
  e :=!! awaits (λ w, let '(e, w) := Tasks_Wait url attachTask w in Ret (Ok <$> e, w));;
  of_err e.

Fixpoint attach_all (zone esxcloudVMID : string) (isoFiles : list string) : api W () :=
  match isoFiles with
  | [] => aret ()
  | isoFile :: isoFiles => _ :=!! EsxcapiAttachISO zone esxcloudVMID isoFile;; attach_all zone esxcloudVMID isoFiles
  end.

(** How the task ends is not looked at.  Without a disk there is no image. *)
(* @dcp/provisioning/esxcloud/esxc_api.go:252-358 EsxcapiService.EsxcapiInstanceInsert *)
Definition EsxcapiInstanceInsert (projectID zone : string) (instance : EsxcapiInstance) : api W EsxcapiOperation :=
  attachedDisks :=!! must (createDiskParamsForAttachedDisks instance);;
  disk :=!! must (mjoin (ei_Disks instance !! 0));;
  let postData := {| cp_Name := ei_Name instance; cp_Flavor := ei_MachineFlavor instance;
                     cp_SourceImageID := ad_SourceImageID disk; cp_AttachedDisks := attachedDisks |} in
  let url := "http://" +:+ zone +:+ "/v1/projects/" +:+ projectID +:+ "/vms" in
  resp :=!! awaits (api_Do "POST" url (Some (enc_CreatevmParams postData)));;
  let '(bodyBytes, err2) := ReadAll resp in
  data :=!! (match as_map bodyBytes with Ok d => aret d | Err e => afail e end);;
  _ :=!! of_err (checkResponse resp);;
  taskID :=!! must (as_string (data !! "id"));;
  entityMap :=!! must (as_object (data !! "entity"));;
  id :=!! must (as_string (assoc "id" entityMap));;
  _ :=!! waitForTask taskID zone;;
  _ :=!! attach_all zone id (ei_ISOFiles instance);;
  _ :=!! of_err err2;;
  aret ((zero : EsxcapiOperation) <| eo_ID := id |>).

(** The image of the instance becomes that of its first disk, which has to be
    there even if the response is an error. *)
(* @dcp/provisioning/esxcloud/esxc_api.go:389-443 EsxcapiService.EsxcapiGetInstance *)
Definition EsxcapiGetInstance (projectID zone esxcloudVMID : string) : api W (option EsxcapiInstance * option error) :=
  let url := "http://" +:+ zone +:+ "/v1/vms/" +:+ esxcloudVMID in
  resp :=** awaits (api_Do "GET" url None);;
  match resp with
  | Err e => aret (None, Some e)
  | Ok resp =>
      let '(bodyBytes, err2) := ReadAll resp in
      match (j :=? json_of bodyBytes;; Unmarshal_new (A := EsxcapiInstance) j) with
      | Err e => aret (None, Some e)
      | Ok instance =>
          disk :=!! must (mjoin (ei_Disks instance !! 0));;
          let instance := instance <| ei_Disks :=
            <[0 := Some (disk <| ad_SourceImageID := ei_SourceImageID instance |>)]> (ei_Disks instance) |> in
          match checkResponse resp with
          | Some e => aret (None, Some e)
          | None => aret (Some instance, err2)
          end
      end
  end.

(** The address in the first of the resources of a task; the shapes of the
    document are asserted. *)
(* @dcp/provisioning/esxcloud/esxc_api.go:513-524 EsxcapiService.EsxcapiGetInstanceNetworkInfo *)
Definition task_address (taskData : gmap string json) : option string :=
  match taskData !! "resourceProperties" with
  | None => Some ""%string
  | Some (JArr (JObj rp :: _)) =>
      match assoc "ip_address" rp with
      | None | Some JNull => Some ""%string
      | Some (JObj ipAddressStruct2) => as_string (assoc "ip_address" ipAddressStruct2)
      | Some _ => None
      end
  | Some _ => None
  end.

(* @dcp/provisioning/esxcloud/esxc_api.go:449-530 EsxcapiService.EsxcapiGetInstanceNetworkInfo *)
Definition EsxcapiGetInstanceNetworkInfo (projectID zone esxcloudVMID : string) : api W (string * option error) :=
  let url := "http://" +:+ zone +:+ "/v1/vms/" +:+ esxcloudVMID +:+ "/networks" in
  resp :=** awaits (api_Do "GET" url None);;
  match resp with
  | Err e => aret (""%string, Some e)
  | Ok resp =>
      let '(bodyBytes, err2) := ReadAll resp in
      match as_map bodyBytes, checkResponse resp with
      | Err e, _ | Ok _, Some e => aret (""%string, Some e)
      | Ok data, None =>
          taskID :=!! must (as_string (data !! "id"));;
          ' (taskData, _) :=!! waitForTask taskID zone;;
          ipAddress :=!! must (task_address taskData);;
          aret (ipAddress, err2)
      end
  end.

(* @dcp/provisioning/esxcloud/esxc_api.go:532-585 EsxcapiService.EsxcapiInstanceDelete *)
Definition EsxcapiInstanceDelete (projectID zone esxcloudVMID : string) : api W EsxcapiOperation :=
  let url := "http://" +:+ zone +:+ "/v1/vms/" +:+ esxcloudVMID in
  resp :=!! awaits (api_Do "DELETE" url None);;
  let '(bodyBytes, err2) := ReadAll resp in
  _ :=!! (match as_map bodyBytes with Ok _ => aret () | Err e => afail e end);;
  _ :=!! of_err (checkResponse resp);;
  _ :=!! of_err err2;;
  aret zero.

(** The response is only checked after the task, whose identifier it must have. *)
(* @dcp/provisioning/esxcloud/esxc_api.go:605-674 EsxcapiService.instanceOperationSend *)
Definition instanceOperationSend (projectID zone esxcloudVMID VMOperation : string) : api W EsxcapiOperation :=
  let url := "http://" +:+ zone +:+ "/v1/vms/" +:+ esxcloudVMID +:+ "/operations" in
  resp :=!! awaits (api_Do "POST" url (Some (enc_VMOperations {| vo_Operation := VMOperation |})));;
  let '(bodyBytes, err2) := ReadAll resp in
  data :=!! (match as_map bodyBytes with Ok d => aret d | Err e => afail e end);;
  taskID :=!! must (as_string (data !! "id"));;
  _ :=!! waitForTask taskID zone;;
  _ :=!! of_err (checkResponse resp);;
  _ :=!! of_err err2;;
  aret zero.

(* @dcp/provisioning/esxcloud/esxc_api.go:588-593 EsxcapiService.EsxcapiInstancePowerOn *)
Definition EsxcapiInstancePowerOn (projectID zone esxcloudVMID : string) : api W EsxcapiOperation :=
  instanceOperationSend projectID zone esxcloudVMID "START_VM".
(* @dcp/provisioning/esxcloud/esxc_api.go:596-601 EsxcapiService.EsxcapiInstancePowerOff *)
Definition EsxcapiInstancePowerOff (projectID zone esxcloudVMID : string) : api W EsxcapiOperation :=
  instanceOperationSend projectID zone esxcloudVMID "STOP_VM".
End esx_api.

(** ** Lemmas: the log of the network *)

(** What a goroutine does is of the kind [R]. *)
Definition api_steps {W A} (R : W → W → Prop) (m : api W A) : Prop :=
  ∀ n w r n' w', m (n, w) = Ret (r, (n', w')) → R w w'.

Section steps.
Context {W : Type} (R : W → W → Prop) `{!PreOrder R}.

Lemma steps_ret {A} (a : A) : api_steps R (aret a).
Proof. by intros n w r n' w' [= _ _ <-]. Qed.
Lemma steps_fail {A} e : api_steps R (@afail W A e).
Proof. by intros n w r n' w' [= _ _ <-]. Qed.
Lemma steps_must {A} (o : option A) : api_steps R (must o).
Proof. destruct o; [apply steps_ret | done]. Qed.
Lemma steps_of_err e : api_steps R (of_err e).
Proof. destruct e; [apply steps_fail | apply steps_ret]. Qed.
Lemma steps_catch {A B} (m : api W A) (k : res A → api W B) : api_steps R m → (∀ r, api_steps R (k r)) → api_steps R (acatch m k).
Proof.
  intros Hm Hk n w r n' w'. unfold acatch. destruct (m (n, w)) as [[r1 [n1 w1]] |] eqn:Em; cbn [out_bind]; [| done].
  apply Hm in Em. destruct r1 as [r1 |]; [| by intros [= _ _ <-]]. intros Ek%Hk. by etrans.
Qed.
Lemma steps_bind {A B} (m : api W A) (k : A → api W B) : api_steps R m → (∀ a, api_steps R (k a)) → api_steps R (abind m k).
Proof. intros Hm Hk. apply steps_catch; [done |]. intros [a | e]; [apply Hk | apply steps_fail]. Qed.
Lemma steps_awaits {A} (f : W → outcome (option (res A) * W)) : (∀ w r w', f w = Ret (r, w') → R w w') → api_steps R (awaits f).
Proof.
  intros Hf n w r n' w'. unfold awaits. destruct (f w) as [[r1 w1] |] eqn:Ef; cbn [out_bind]; [| done].
  apply Hf in Ef. destruct r1, n; by intros [= _ _ <-].
Qed.
Lemma partly_await {A} p e (m : api W A) : api_steps R m → partly R (await p e m) (λ _, True).
Proof.
  intros Hm w r w'. unfold await. destruct (m (p, w)) as [[r1 [n1 w1]] |] eqn:Em; cbn [out_bind]; [| done].
  intros [= _ <-]. by apply Hm in Em.
Qed.
End steps.

Create HintDb steps.
#[export] Hint Resolve steps_ret steps_fail steps_must steps_of_err : steps.
(** Goes through a goroutine that is made of others. *)
Ltac api_step :=
  match goal with
  | |- api_steps _ (abind _ _) => apply steps_bind; [apply _ | | intros ?]
  | |- api_steps _ (acatch _ _) => apply steps_catch; [apply _ | | intros ?]
  | |- api_steps _ (if ?b then _ else _) => destruct b
  | |- api_steps _ (match ?x with _ => _ end) => destruct x
  | |- api_steps _ (aret _) => apply steps_ret; apply _
  | |- api_steps _ (afail _) => apply steps_fail; apply _
  | |- api_steps _ (must _) => apply steps_must; apply _
  | |- api_steps _ (of_err _) => apply steps_of_err; apply _
  end.

Lemma assoc_sent k fields : k ∉ fields.*1 → assoc k (omap (λ f : string * option json, pair f.1 <$> f.2) fields) = None.
Proof.
  induction fields as [| [k' [j |]] fields IH]; intros Hk; [done | |]; cbn in *; apply not_elem_of_cons in Hk as [Hn Hk].
  - rewrite decide_False by done. by apply IH.
  - by apply IH.
Qed.
Lemma stage_of_sent fields : "taskInfo"%string ∉ fields.*1 → stage_of (sent fields) = None.
Proof. intros Hk. unfold stage_of, sent. by rewrite assoc_sent. Qed.

Class EsxQuiet {W} `{EsxLib W} (log : W → list HttpRequest) := {
  AttachISO_quiet : ∀ url id path w, log (VMs_AttachISO url id path w).2 = log w;
  Wait_quiet : ∀ url id w, log (Tasks_Wait url id w).2 = log w
}.

Section quiet.
Context {W : Type} `{GoTypes, Network W, EsxLib W, !Embeds ComputeSubTaskState}.
Context (log : W → list HttpRequest) `{!Task log, !EsxQuiet log}.
Notation R := (silent log).

Lemma api_Do_silent method url body w r w' : (∀ j, body = Some j → stage_of j = None) →
  api_Do method url body w = Ret (r, w') → R w w'.
Proof.
  intros Hb. unfold api_Do, NewRequest. destruct (url_Parse url) as [u | e]; [| done]. cbn [res_bind].
  set (req := setEsxCloudRestAPIHeaders _).
  assert (task_stage req = None) as Hq by (unfold task_stage; destruct body as [j |]; [by apply Hb | done]).
  pose proof (Do_log req w) as Hl. destruct (Do req w) as [[a req'] w1]. simpl in Hl.
  assert (R w w1) as HR.
  { split; [| rewrite Hl; by eexists]. unfold stages. rewrite Hl, omap_app. simpl. by rewrite Hq, app_nil_r. }
  destruct a; by intros [= _ <-].
Qed.
Lemma Do_steps method url body : (∀ j, body = Some j → stage_of j = None) → api_steps R (awaits (api_Do method url body)).
Proof. intros Hb. apply steps_awaits. intros w r w'. by apply api_Do_silent. Qed.
Lemma get_steps method url : api_steps R (awaits (api_Do method url None)).
Proof. by apply Do_steps. Qed.

Lemma getTaskStateOnce_silent taskID zone w r w' : getTaskStateOnce taskID zone w = Ret (r, w') → R w w'.
Proof.
  unfold getTaskStateOnce. destruct (api_Do _ _ _ w) as [[a w1] |] eqn:Ed; cbn [out_bind]; [| done].
  apply api_Do_silent in Ed; [| done]. destruct a as [[resp | e] |]; [| by intros [= _ <-].. ].
  destruct (ReadAll resp) as [x e2]. destruct (as_map x); [| by intros [= _ <-]].
  destruct (as_string _); [| done]. destruct (checkResponse resp); by intros [= _ <-].
Qed.
Lemma wait_steps taskID zone : api_steps R (waitForTask taskID zone).
Proof.
  intros n. unfold waitForTask. induction n as [| n IH]; intros w r n' w'; cbn [wait_loop];
    (destruct (getTaskStateOnce taskID zone w) as [[a w1] |] eqn:Eg; cbn [out_bind]; [| done]); apply getTaskStateOnce_silent in Eg.
  - destruct a as [[[? ?] ?] |]; by intros [= _ _ <-].
  - destruct a as [[[st data] e] |]; [| by intros [= _ _ <-]]. case_decide; [by intros [= _ _ <-] |].
    intros El%IH. by etrans.
Qed.

Lemma attach_steps zone id isos : api_steps R (attach_all zone id isos).
Proof.
  induction isos as [| iso isos IH]; cbn [attach_all]; [apply steps_ret; apply _ |].
  apply steps_bind; [apply _ | | done]. unfold EsxcapiAttachISO. apply steps_bind; [apply _ | | intros task].
  - apply steps_awaits. intros w r w'. pose proof (AttachISO_quiet ("http://" +:+ zone) id iso w) as Hq.
    destruct (VMs_AttachISO _ _ _ w) as [r1 w1]. intros [= _ <-]. by apply log_silent.
  - apply steps_bind; [apply _ | | intros e; apply steps_of_err; apply _]. apply steps_awaits. intros w r w'.
    pose proof (Wait_quiet ("http://" +:+ zone) task w) as Hq. destruct (Tasks_Wait _ _ w) as [e1 w1]. intros [= _ <-]. by apply log_silent.
Qed.

Lemma insert_steps project zone i : api_steps R (EsxcapiInstanceInsert project zone i).
Proof.
  unfold EsxcapiInstanceInsert. repeat (api_step || apply wait_steps || apply attach_steps).
  apply Do_steps. intros j [= <-]. apply stage_of_sent. apply (bool_decide_unpack _). vm_compute. exact I.
Qed.
Lemma delete_steps project zone id : api_steps R (EsxcapiInstanceDelete project zone id).
Proof. unfold EsxcapiInstanceDelete. repeat (api_step || apply get_steps). Qed.
Lemma operation_steps project zone id o : api_steps R (instanceOperationSend project zone id o).
Proof.
  unfold instanceOperationSend. repeat (api_step || apply wait_steps).
  apply Do_steps. intros j [= <-]. apply stage_of_sent. apply (bool_decide_unpack _). vm_compute. exact I.
Qed.
Lemma get_instance_steps project zone id : api_steps R (EsxcapiGetInstance project zone id).
Proof. unfold EsxcapiGetInstance. repeat (api_step || apply get_steps). Qed.
Lemma network_info_steps project zone id : api_steps R (EsxcapiGetInstanceNetworkInfo project zone id).
Proof. unfold EsxcapiGetInstanceNetworkInfo. repeat (api_step || apply wait_steps || apply get_steps). Qed.
End quiet.

(** ** Waiting for a task *)
Section wait.
Context {W : Type} `{Network W, EsxLib W} (taskID zone : string).

(** [m] polls, all of which found the task in its first state. *)
Inductive started : nat → W → W → Prop :=
  | started_O w : started 0 w w
  | started_S m w w1 w2 data err : getTaskStateOnce taskID zone w = Ret (Some ("STARTED"%string, data, err), w1) →
      started m w1 w2 → started (S m) w w2.

Lemma wait_steps_on fuel m w wm : started m w wm →
  waitForTask taskID zone (m + fuel, w) = waitForTask taskID zone (fuel, wm).
Proof.
  induction 1 as [| m w w1 w2 data err Eg _ IH]; [done |]. rewrite <- IH.
  unfold waitForTask. cbn [Nat.add wait_loop]. rewrite Eg. cbn [out_bind]. by rewrite decide_False by tauto.
Qed.
Lemma started_split m k w wm : started (m + k) w wm → ∃ w1, started m w w1 ∧ started k w1 wm.
Proof.
  revert w. induction m as [| m IH]; intros w Hs; [exists w; by split; [constructor |] |]. cbn in Hs.
  inversion Hs as [| ? ? w1 ? data err Eg Hs']; subst. destruct (IH _ Hs') as (w2 & H1 & H2). exists w2. split; [by econstructor | done].
Qed.
(** Either it is still polling, or there is a poll that ends the loop. *)
Lemma wait_cases fuel w :
  (∃ wm, started fuel w wm ∧ getTaskStateOnce taskID zone wm ≠ Panic) ∨
  ∃ m wm, m ≤ fuel ∧ started m w wm ∧
    (∀ data err w', getTaskStateOnce taskID zone wm ≠ Ret (Some ("STARTED"%string, data, err), w')) ∧
    (m < fuel ∨ getTaskStateOnce taskID zone wm = Panic).
Proof.
  revert w. induction fuel as [| fuel IH]; intros w.
  - destruct (getTaskStateOnce taskID zone w) as [[[[[st data] err] |] w1] |] eqn:Eg.
    1, 2: left; exists w; split; [constructor | congruence].
    right. exists 0, w. split_and!; [done | constructor | congruence | by right].
  - destruct (getTaskStateOnce taskID zone w) as [[[[[st data] err] |] w1] |] eqn:Eg.
    2, 3: right; exists 0, w; split_and!; [lia | constructor | congruence | left; lia].
    destruct (decide (st = "STARTED"%string)) as [-> | Hst].
    2: right; exists 0, w; split_and!; [lia | constructor | congruence | left; lia].
    destruct (IH w1) as [(wm & Hs & Hp) | (m & wm & Hm & Hs & Hn & Hl)].
    + left. exists wm. split; [by econstructor | done].
    + right. exists (S m), wm. split_and!; [lia | by econstructor | done |]. destruct Hl; [left; lia | by right].
Qed.

(** The call goes on as from the first poll that does not find it STARTED. *)
Lemma wait_from fuel m w wm : m ≤ fuel → started m w wm →
  waitForTask taskID zone (fuel, w) = out_bind (getTaskStateOnce taskID zone wm) (λ '(r, w1),
    match r, fuel - m with
    | Some (taskState, data, err), S fuel' =>
        if decide (taskState ≠ "STARTED"%string) then Ret (Some (Ok (data, err)), (fuel', w1)) else waitForTask taskID zone (fuel', w1)
    | _, _ => Ret (None, (O, w1))
    end).
Proof.
  intros Hm Hs. replace fuel with (m + (fuel - m)) at 1 by lia. rewrite (wait_steps_on _ _ _ _ Hs).
  unfold waitForTask. by destruct (fuel - m).
Qed.
Lemma wait_returns fuel w r n' w' : waitForTask taskID zone (fuel, w) = Ret (Some r, (n', w')) ↔
  ∃ m wm taskState data err, fuel = m + S n' ∧ started m w wm ∧
    getTaskStateOnce taskID zone wm = Ret (Some (taskState, data, err), w') ∧ taskState ≠ "STARTED"%string ∧ r = Ok (data, err).
Proof.
  split.
  - destruct (wait_cases fuel w) as [(wm & Hs & _) | (m & wm & Hm & Hs & Hn & _)].
    + rewrite (wait_from _ _ _ _ ltac:(done) Hs), Nat.sub_diag.
      destruct (getTaskStateOnce taskID zone wm) as [[[[[? ?] ?] |] ?] |]; done.
    + rewrite (wait_from _ _ _ _ Hm Hs). destruct (getTaskStateOnce taskID zone wm) as [[[[[st data] err] |] w1] |] eqn:Eg; [| done..].
      cbn [out_bind]. destruct (fuel - m) as [| k] eqn:Ek; [done |]. destruct (decide (st ≠ "STARTED"%string)) as [Hst | Hst].
      2:{ apply dec_stable in Hst as ->. by edestruct Hn. }
      intros [= <- <- <-]. exists m, wm, st, data, err. split_and!; [lia | done..].
  - intros (m & wm & st & data & err & -> & Hs & Eg & Hst & ->). rewrite (wait_steps_on _ _ _ _ Hs).
    unfold waitForTask. cbn [wait_loop]. rewrite Eg. cbn [out_bind]. by rewrite decide_True.
Qed.
Lemma wait_panics fuel w : waitForTask taskID zone (fuel, w) = Panic ↔
  ∃ m wm, m ≤ fuel ∧ started m w wm ∧ getTaskStateOnce taskID zone wm = Panic.
Proof.
  split.
  - destruct (wait_cases fuel w) as [(wm & Hs & _) | (m & wm & Hm & Hs & Hn & _)].
    + rewrite (wait_from _ _ _ _ ltac:(done) Hs), Nat.sub_diag.
      destruct (getTaskStateOnce taskID zone wm) as [[[[[? ?] ?] |] ?] |] eqn:Eg; [done.. |]. intros _. by exists fuel, wm.
    + rewrite (wait_from _ _ _ _ Hm Hs). destruct (getTaskStateOnce taskID zone wm) as [[[[[st data] err] |] w1] |] eqn:Eg; cbn [out_bind].
      * destruct (fuel - m) as [| k] eqn:Ek; [done |]. destruct (decide (st ≠ "STARTED"%string)) as [| Hst]; [done |].
        apply dec_stable in Hst as ->. by edestruct Hn.
      * done.
      * intros _. by exists m, wm.
  - intros (m & wm & Hm & Hs & Eg). by rewrite (wait_from _ _ _ _ Hm Hs), Eg.
Qed.

(** C30: waiting for a task of ESX Cloud has no bound of its own.  Whatever number
    [fuel] of polls is followed: it returns exactly when one of them is the first
    that does not find the task STARTED (an error counts, as it comes with no
    state), and returns the data and the error of that very poll; it has not
    returned when all of them find it STARTED, or the one after those
    that do is never answered; it panics exactly when that one is malformed.
    So a task that stays STARTED is polled for ever. *)
Theorem waitForTask_spec (fuel : nat) (w : W) :
  (∀ r n' w', waitForTask taskID zone (fuel, w) = Ret (Some r, (n', w')) ↔
    ∃ m wm taskState data err, fuel = m + S n' ∧ started m w wm ∧
      getTaskStateOnce taskID zone wm = Ret (Some (taskState, data, err), w') ∧
      taskState ≠ "STARTED"%string ∧ r = Ok (data, err)) ∧
  (∀ wm, started (S fuel) w wm → ∃ w', waitForTask taskID zone (fuel, w) = Ret (None, (0, w'))) ∧
  (∀ m wm w', m ≤ fuel → started m w wm → getTaskStateOnce taskID zone wm = Ret (None, w') →
    waitForTask taskID zone (fuel, w) = Ret (None, (0, w'))) ∧
  (waitForTask taskID zone (fuel, w) = Panic ↔
    ∃ m wm, m ≤ fuel ∧ started m w wm ∧ getTaskStateOnce taskID zone wm = Panic).
Proof.
  split_and!; [apply wait_returns | | | apply wait_panics].
  - intros wm Hs. replace (S fuel) with (fuel + 1) in Hs by lia. apply started_split in Hs as (w1 & Hs & H1).
    rewrite (wait_from _ _ _ _ ltac:(done) Hs), Nat.sub_diag. inversion H1 as [| ? ? w2 ? data err Eg _]; subst.
    exists w2. by rewrite Eg.
  - intros m wm w' Hm Hs Eg. by rewrite (wait_from _ _ _ _ Hm Hs), Eg.
Qed.
End wait.

(** A task that is found STARTED, and then ERROR. *)
#[local] Instance ex_esx : EsxLib (list attempt) := {|
  read_before_error _ := TRaw []; VMs_AttachISO _ _ _ w := (Err ErrTimeout, w); Tasks_Wait _ _ w := (None, w) |}.
Definition poll_answer (state : string) : attempt :=
  Answered {| res_StatusCode := 200; res_Status := "200 OK"; res_Header := []; res_Body := Ok (TJson (JObj [("state", JStr state)])) |}.
Lemma waitForTask_spec_witness :
  ∃ data, waitForTask "t1" "zone" (5, [poll_answer "STARTED"; poll_answer "ERROR"; TimedOut]) = Ret (Some (Ok (data, None)), (3, [TimedOut])).
Proof.
  eexists. apply (waitForTask_spec "t1" "zone" 5). eexists 1, _, "ERROR"%string, _, _. split; [done |].
  split; [eapply started_S; [vm_compute; reflexivity | constructor] |]. split; [vm_compute; reflexivity | done].
Defined.
