(* ===== verification/EsxCloud.v ===== *)
(** Package [dcp/provisioning/esxcloud], [client.go], [instance.go] and the
    services: the adapter that runs instances on ESX Cloud.

    [pat k] is how many requests of the [k]-th call of the client are answered
    before its context is done; the rest of the world is that of [Adapter]. *)

From S2P Require Import Prelude Effects GoPath GoNet GoJson GoConv GoURL DcpCommon DcpUri Operation Client ProvTypes Provisioning Tasks Filecache BootImage Adapter EsxApi.
From Stdlib Require Import ZArith Lia.
From Stdlib Require SpecFloat.

(* @dcp/provisioning/esxcloud/instance.go:18-22 nameKey *)
Definition nameKey : string := "photon-".
Definition InstanceTimeout : Z := 15 * 60 * 1000000000.
Definition customPropertyIndexVMID : string := "ESXCLOUD_VMID".

Definition TrimPrefix (s p : bytes) : bytes := if HasPrefix s p then drop (length p) s else s.

Section esxcloud.
Context {W : Type} `{GoTypes} `{Network W, EsxLib W} (now : Z) (dcp : AddressFlag) (stack : bytes).
Context {E : Type} `{Machine E} (downloadPath : string).
Context (sch : nat → nat → list nat * list nat) (pat : nat → nat).
Context `{!Embeds ComputeInstanceRequest} `{!Embeds ComputeSubTaskState} `{!Embeds ComputeStateWithDescription}.
Context `{!Embeds ComputeState} `{!Embeds DiskState} `{!Embeds ServiceDocument} `{!Embeds DiskCustomizationRequest}.
Context `{!Embeds ResourcePoolState} `{!Embeds ComputeDescription} `{!Embeds ComputeHealthRequest} `{!Embeds ComputeHealthResponse}.
Context `{!Embeds ComputeBootRequest} `{!Embeds ComputeEnumerateRequest} `{!Embeds ResourceEnumerationTaskState}.

(** ** The client ([client.go]) *)
Inductive http_Client := new_http_Client.
(* @dcp/provisioning/esxcloud/esxc_api.go:22-24 EsxcapiService *)
Record EsxcapiService := { es_httpClient : http_Client }.
(* @dcp/provisioning/esxcloud/esxc_api.go:27-34 EsxcapiNew *)
Definition EsxcapiNew (client : option http_Client) : res EsxcapiService :=
  match client with
  | None => Err (Errorf "client is nil")
  | Some c => Ok {| es_httpClient := c |}
  end.
(* @dcp/provisioning/esxcloud/client.go:14-16 Client *)
Record EsxClient := { ec_service : EsxcapiService }.
(* @dcp/provisioning/esxcloud/client.go:19-33 NewClient *)
Definition NewClient : res EsxClient :=
  esxcapi :=? EsxcapiNew (Some new_http_Client);;
  Ok {| ec_service := esxcapi |}.

Definition late (what : string) : error := Errorf (what +:+ ": " +:+ Error DeadlineExceeded).

(* @dcp/provisioning/esxcloud/client.go:36-71 Client.InsertInstance *)
Definition InsertInstance (k : nat) (project zone : string) (instance : EsxcapiInstance) : eff W EsxcapiOperation :=
  await (pat k) (late ("insert(" +:+ ei_Name instance +:+ ")")) (EsxcapiInstanceInsert project zone instance).

(* @dcp/provisioning/esxcloud/client.go:74-109 Client.DeleteInstance *)
Definition DeleteInstance (k : nat) (projectID zone esxcloudVMID : string) : eff W EsxcapiOperation :=
  await (pat k) (late ("delete(id=" +:+ esxcloudVMID +:+ ")")) (EsxcapiInstanceDelete projectID zone esxcloudVMID).

(* @dcp/provisioning/esxcloud/client.go:122-159 Client.powerChangeInstance *)
Definition powerChangeInstance (k : nat) (projectID zone esxcloudVMID : string) (powerOn : bool) : eff W EsxcapiOperation :=
  await (pat k) (late ("powerChangeInstance(id=" +:+ esxcloudVMID +:+ ")"))
    (if powerOn then EsxcapiInstancePowerOn projectID zone esxcloudVMID else EsxcapiInstancePowerOff projectID zone esxcloudVMID).
(* @dcp/provisioning/esxcloud/client.go:112-114 Client.PowerOnInstance *)
Definition PowerOnInstance (k : nat) (projectID zone esxcloudVMID : string) : eff W EsxcapiOperation :=
  powerChangeInstance k projectID zone esxcloudVMID true.
(* @dcp/provisioning/esxcloud/client.go:117-119 Client.PowerOffInstance *)
Definition PowerOffInstance (k : nat) (projectID zone esxcloudVMID : string) : eff W EsxcapiOperation :=
  powerChangeInstance k projectID zone esxcloudVMID false.

(** The goroutine does nothing: in time, the list is nil and there is no error. *)
(* @dcp/provisioning/esxcloud/client.go:162-182 Client.ListInstance *)
Definition ListInstance (k : nat) (project zone : string) : option EsxcapiInstanceList * option error :=
  match pat k with
  | O => (None, Some (late ("ListInstance(" +:+ zone +:+ ")")))
  | S _ => (None, None)
  end.

(** Asks for the address until there is one.  The instance is dereferenced
    whether or not it could be read. *)
(* @dcp/provisioning/esxcloud/client.go:226-234 Client.GetInstance *)
Fixpoint network_loop (attempts : nat) (project zone esxcloudVMID : string) (ci : EsxcapiInstance) (err : option error) :
  api W (EsxcapiInstance * option error) :=
  match attempts with
  | O => aret (ci, err)
  | S attempts =>
      if str_empty (ei_IPAddress ci) then
        ' (ip, err) :=!! EsxcapiGetInstanceNetworkInfo project zone esxcloudVMID;;
        network_loop attempts project zone esxcloudVMID (ci <| ei_IPAddress := ip |>) err
      else aret (ci, err)
  end.
(* @dcp/provisioning/esxcloud/client.go:212-248 Client.GetInstance *)
Definition GetInstance (k : nat) (project zone esxcloudVMID : string) : eff W EsxcapiInstance :=
  r :=! await (pat k) (late ("get instance(id=" +:+ esxcloudVMID +:+ ")")) (
    ' (ci, err) :=!! EsxcapiGetInstance project zone esxcloudVMID;;
    ci :=!! must ci;;
    ' (ci, err) :=!! network_loop 120 project zone esxcloudVMID ci err;;
    let ci := if str_empty (ei_IPAddress ci) then ci <| ei_IPAddress := "0.0.0.0"%string |> else ci in
    aret (ci, err));;
  let '(ci, err) := r in
  match err with Some e => efail e | None => eret ci end.

(** ** Instances ([instance.go]) *)
(* @dcp/provisioning/esxcloud/instance.go:26-35 Instance *)
Record Instance_ := {
  in_computeHost : ComputeStateWithDescription;
  in_pool : ResourcePoolState;
  in_diskStates : list DiskState;
  in_esxcloudVMID : string;
  in_MachineType : string;
  in_client : option EsxClient
}.
#[export] Instance eta_Instance_ : Eta Instance_ := λ i,
  {| in_computeHost := in_computeHost i; in_pool := in_pool i; in_diskStates := in_diskStates i; in_esxcloudVMID := in_esxcloudVMID i;
     in_MachineType := in_MachineType i; in_client := in_client i |}.

(** [regexp.MustCompile("[^/]*$").FindString]: what follows the last slash. *)
Definition after_last_slash (s : string) : string :=
  match index_split slash (reverse (s2b s)) with
  | Some (after, _) => b2s (reverse after)
  | None => s
  end.

(* @dcp/provisioning/esxcloud/instance.go:50-77 newInstance *)
Definition newInstance (pool : ResourcePoolState) (computeHost : ComputeStateWithDescription) (client : option EsxClient) : Instance_ :=
  let cs := csd_ComputeState computeHost in
  {| in_computeHost := computeHost; in_pool := pool; in_diskStates := [];
     in_esxcloudVMID := default ""%string (cs_CustomProperties cs !! customPropertyIndexVMID);
     in_MachineType := after_last_slash (cs_DescriptionLink cs); in_client := client |}.

(* @dcp/provisioning/esxcloud/instance.go:38-48 NewInstance *)
Definition NewInstance (pool : ResourcePoolState) (c : ComputeStateWithDescription) : res Instance_ :=
  match NewClient with
  | Err e => Err (Errorf ("error creating ESX Cloud client: " +:+ Error e))
  | Ok g => Ok (newInstance pool c (Some g))
  end.

(* @dcp/provisioning/esxcloud/instance.go:85-92 Instance.Name *)
Definition Name (i : Instance_) : string := nameKey +:+ cs_ID (csd_ComputeState (in_computeHost i)).
(* @dcp/provisioning/esxcloud/instance.go:94-96 Instance.Description *)
Definition Description (i : Instance_) : string := cs_DescriptionLink (csd_ComputeState (in_computeHost i)).
(* @dcp/provisioning/esxcloud/instance.go:98-100 Instance.Project *)
Definition Project (i : Instance_) : string := rp_Name (in_pool i).
(* @dcp/provisioning/esxcloud/instance.go:102-104 Instance.Zone *)
Definition Zone (i : Instance_) : string := cd_ZoneID (csd_Description (in_computeHost i)).

(** The error of the parser is dropped with the URL. *)
(* @dcp/provisioning/esxcloud/instance.go:106-110 Instance.APIPrefix *)
Definition APIPrefix (i : Instance_) : outcome URL :=
  match url_Parse (cs_AdapterManagementReference (csd_ComputeState (in_computeHost i))) with
  | Err _ => Panic
  | Ok api => Ret (api <| u_Path := Join2 (u_Path api) (s2b (Project i)) |>)
  end.
(* @dcp/provisioning/esxcloud/instance.go:112-116 Instance.MachineTypeURL *)
Definition MachineTypeURL (i : Instance_) : outcome URL :=
  out_bind (APIPrefix i) (λ u,
    Ret (u <| u_Path := foldl Join2 (u_Path u) (s2b <$> ["zones"%string; Zone i; "machineTypes"%string; in_MachineType i]) |>)).

(** The disks and the image files; the first disk is the one to boot from. *)
(* @dcp/provisioning/esxcloud/instance.go:127-155 Instance.ToESXCLOUDInstance *)
Fixpoint esx_disks (ctx : Context) (compute : ComputeState) (l : list DiskState) (index : Z) :
  eff (W * CacheW E) (list EsxcapiAttachedDisk * list string) :=
  match l with
  | [] => eret ([], [])
  | ds :: l =>
      if decide (disk_DiskType ds = "CDROM"%string) then
        isoFile :=! image_file now dcp downloadPath ctx compute ds;;
        ' (disks, isoFiles) :=! esx_disks ctx compute l index;;
        eret (disks, isoFile :: isoFiles)
      else
        let disk := {| ad_ID := ""; ad_Kind := "ephemeral-disk"; ad_BootDisk := bool_decide (index = 0%Z); ad_DiskName := disk_Name ds;
                       ad_DiskFlavor := disk_Name ds; ad_SourceImageID := disk_SourceImageReference ds;
                       ad_DiskCapacityGBytes := Z.shiftr (disk_CapacityMBytes ds) 10 |} in
        ' (disks, isoFiles) :=! esx_disks ctx compute l (index + 1)%Z;;
        eret (disk :: disks, isoFiles)
  end.
(* @dcp/provisioning/esxcloud/instance.go:118-172 Instance.ToESXCLOUDInstance *)
Definition ToESXCLOUDInstance (ctx : Context) (i : Instance_) : eff (W * CacheW E) EsxcapiInstance :=
  ' (disks, isoFiles) :=! esx_disks ctx (csd_ComputeState (in_computeHost i)) (in_diskStates i) 0;;
  eret ((zero : EsxcapiInstance) <| ei_Name := Name i |> <| ei_Description := Description i |> <| ei_MachineFlavor := in_MachineType i |>
          <| ei_Disks := Some <$> disks |> <| ei_ISOFiles := isoFiles |>).

(* @dcp/provisioning/esxcloud/instance.go:264-266 NameToComputeID *)
Definition NameToComputeID (e : EsxcapiInstance) : string := b2s (TrimPrefix (s2b (ei_Name e)) (s2b nameKey)).
(* @dcp/provisioning/esxcloud/instance.go:268-270 DescriptionToLink *)
Definition DescriptionToLink (e : EsxcapiInstance) : string := ei_Description e.
(* @dcp/provisioning/esxcloud/instance.go:174-185 Instance.ToComputeState *)
Definition ToComputeState (i : Instance_) (e : EsxcapiInstance) : ComputeState :=
  (zero : ComputeState) <| cs_ID := NameToComputeID e |> <| cs_ResourcePoolLink := sd_SelfLink (rp_ServiceDocument (in_pool i)) |>
    <| cs_DescriptionLink := DescriptionToLink e |>.

(** The calls of the client, which is a pointer. *)
Definition with_client {A} (i : Instance_) (m : eff W A) : eff W A := _ :=! of_ptr (in_client i);; m.

(* @dcp/provisioning/esxcloud/instance.go:187-204 Instance.Insert *)
Definition Insert (ctx : Context) (i : Instance_) : eff (W * CacheW E) Instance_ :=
  esxInstance :=! ToESXCLOUDInstance ctx i;;
  gop :=! on_fst (with_client i (InsertInstance 0 (Project i) (Zone i) esxInstance));;
  eret (i <| in_esxcloudVMID := eo_ID gop |>).
(* @dcp/provisioning/esxcloud/instance.go:206-216 Instance.Delete *)
Definition Delete (i : Instance_) : eff W () :=
  _ :=! with_client i (DeleteInstance 1 (Project i) (Zone i) (in_esxcloudVMID i));; eret ().
(* @dcp/provisioning/esxcloud/instance.go:218-225 Instance.PowerOn *)
Definition PowerOn (i : Instance_) : eff W () :=
  _ :=! with_client i (PowerOnInstance 1 (Project i) (Zone i) (in_esxcloudVMID i));; eret ().
(* @dcp/provisioning/esxcloud/instance.go:227-234 Instance.PowerOff *)
Definition PowerOff (i : Instance_) : eff W () :=
  _ :=! with_client i (PowerOffInstance 0 (Project i) (Zone i) (in_esxcloudVMID i));; eret ().

(** The capacity is an [int64]. *)
(* @dcp/provisioning/esxcloud/instance.go:275-290 attachedDisksToDisks *)
Definition attachedDiskToDisk (disk : EsxcapiAttachedDisk) : DiskState :=
  (zero : DiskState) <| disk_ID := ad_ID disk |> <| disk_ZoneID := ""%string |> <| disk_SourceImageReference := ad_SourceImageID disk |>
    <| disk_DiskType := DiskTypeHDD |> <| disk_Name := ad_DiskName disk |> <| disk_DiskStatus := DiskStatusAttached |>
    <| disk_CapacityMBytes := wrap64 (ad_DiskCapacityGBytes disk * 1024) |>.
(* @dcp/provisioning/esxcloud/instance.go:272-299 attachedDisksToDisks *)
Definition attachedDisksToDisks (disks : list (option EsxcapiAttachedDisk)) : option (list DiskState) :=
  mapM (fmap attachedDiskToDisk) disks.

(* @dcp/provisioning/esxcloud/instance.go:238-262 Instance.GetState *)
Definition GetState (i : Instance_) : eff W (string * list DiskState) :=
  r :=* with_client i (GetInstance 2 (Project i) (Zone i) (in_esxcloudVMID i));;
  match r with
  | Err e => efail (Errorf ("error querying instance - " +:+ Error e))
  | Ok ci =>
      diskStates :=! of_ptr (attachedDisksToDisks (ei_Disks ci));;
      eret (ei_IPAddress ci, diskStates)
  end.

(** ** The instance service ([instance_service.go]) *)
(* @dcp/provisioning/esxcloud/instance_service.go:144-152 InstanceService.create *)
Fixpoint post_disks (ctx : Context) (resourcePoolLink : string) (l : list DiskState) : eff W (list string) :=
  match l with
  | [] => eret []
  | diskState :: l =>
      let diskState := diskState <| disk_ResourcePoolLink := resourcePoolLink |> in
      p :=* (λ w, PostDiskState now dcp ctx diskState w);;
      match p with
      | Err e => efail (Errorf ("error posting disk state " +:+ disk_Name diskState +:+ " - " +:+ Error e))
      | Ok p => links :=! post_disks ctx resourcePoolLink l;; eret (sd_SelfLink (disk_ServiceDocument p) :: links)
      end
  end.

(* @dcp/provisioning/esxcloud/instance_service.go:100-168 InstanceService.create *)
Definition create (ctx : Context) (i : Instance_) (resourcePoolLink : string) (computeHostStateRef : option URI) : eff (W * CacheW E) () :=
  diskStates :=! on_fst (getDisks now dcp sch 0 ctx (cs_DiskLinks (csd_ComputeState (in_computeHost i))));;
  i :=! Insert ctx (i <| in_diskStates := diskStates |>);;
  on_fst (
    _ :=! PowerOn i;;
    ' (ipAddress, diskStates) :=! GetState i;;
    diskLinks :=! post_disks ctx resourcePoolLink diskStates;;
    let chsPatchBody := (zero : ComputeState) <| cs_DiskLinks := diskLinks |> <| cs_Address := ipAddress |> <| cs_PowerState := PowerStateOn |>
                          <| cs_CustomProperties := {[ customPropertyIndexVMID := in_esxcloudVMID i ]} |> in
    err :=* call_ (PatchComputeState now ctx computeHostStateRef chsPatchBody);;
    match err with
    | Err e => efail (Errorf ("error patching compute host " +:+ Error e))
    | Ok _ => eret ()
    end).

(** A power-off that fails is ignored. *)
(* @dcp/provisioning/esxcloud/instance_service.go:171-192 InstanceService.delete *)
Definition delete (ctx : Context) (i : Instance_) (c : ComputeState) : eff W () :=
  _ :=* PowerOff i;;
  _ :=! Delete i;;
  let '(sched, arr) := sch 4 (S (length (cs_DiskLinks c))) in
  call_ (DeleteComputeState now dcp sched arr ctx c).

(** The work on a request runs in a context of its own, without the token of
    the request; [None]: a request of an unknown type. *)
(* @dcp/provisioning/esxcloud/instance_service.go:78-86 InstanceService.HandlePatch *)
Definition instance_work (req : ComputeInstanceRequest) (computeHost : ComputeStateWithDescription) (i : Instance_) :
  option (eff (W * CacheW E) ()) :=
  let cs := csd_ComputeState computeHost in
  if decide (cir_RequestType req = InstanceRequestTypeCreate) then
    Some (create Background i (cs_ResourcePoolLink cs) (cir_ComputeReference req))
  else if decide (cir_RequestType req = InstanceRequestTypeDelete) then Some (on_fst (delete Background i cs))
  else None.

(* @dcp/provisioning/esxcloud/instance_service.go:27-97 InstanceService.HandlePatch *)
Definition esx_HandlePatch (ctx : Context) (op : Operation) (v : W * CacheW E) : outcome (Operation * (W * CacheW E)) :=
  match DecodeBodyAs op (zero : ComputeInstanceRequest) with
  | (op, _, Some e) => Ret (Fail_ e op, v)
  | (op, req, None) =>
      let op := Complete (SetStatusCode 201 op) in
      let ts := NewTaskStateWrapper ctx (cir_ProvisioningTaskReference req) NewComputeSubTaskState in
      out_bind (PatchStage now TaskStageStarted ts v.1) (λ '(ts, w),
        let v := (w, v.2) in
        let failed msg e := on_net (failure now stack msg e ts) in
        out_bind (
          if cir_IsMockRequest req then on_net (λ w, out_bind (HandleMockRequest now dcp stack (sch 5) ctx req ts w) (λ '(_, w), Ret w)) v
          else
            out_bind (on_fst (call (GetChildComputeStateWithDescription now dcp ctx (cir_ComputeReference req) zero)) v) (λ '(r, v),
              match r with
              | Err e => failed ("Error getting ComputeState " +:+ show_uri (cir_ComputeReference req)) e v
              | Ok computeHost =>
                  local dcp (λ l,
                    let rpooluri := Extend l (cs_ResourcePoolLink (csd_ComputeState computeHost)) in
                    out_bind (on_fst (call (GetResourcePoolState now ctx zero (Some rpooluri))) v) (λ '(r, v),
                      match r with
                      | Err e => failed ("Error getting resource pool " +:+ URL_String rpooluri) e v
                      | Ok resourcePool =>
                          match NewInstance resourcePool computeHost with
                          | Err _ => Panic
                          | Ok i =>
                              match instance_work req computeHost i with
                              | None =>
                                  deref (cir_ProvisioningTaskReference req) (λ task,
                                    failed (URL_String task +:+ " error " +:+ cir_RequestType req) ErrUnsupportedRequestType v)
                              | Some work =>
                                  out_bind (work v) (λ '(r, v),
                                    match r with
                                    | Err e => failed (cir_RequestType req +:+ "(" +:+ Name i +:+ ") error") e v
                                    | Ok _ => on_net (finish now ts) v
                                    end)
                              end
                          end
                      end))
              end)) (λ v, Ret (op, v)))
  end.

(** ** The other services *)
(** Booting is left to the instance service. *)
(* @dcp/provisioning/esxcloud/boot_service.go:23-37 BootService.HandlePatch *)
Definition boot_HandlePatch (ctx : Context) (op : Operation) (w : W) : outcome (Operation * W) :=
  match DecodeBodyAs op (zero : ComputeBootRequest) with
  | (op, _, Some e) => Ret (Fail_ e op, w)
  | (op, req, None) =>
      let op := Complete (SetStatusCode 201 op) in
      let ts := NewTaskStateWrapper ctx (cbr_ProvisioningTaskReference req) NewComputeSubTaskState in
      out_bind (PatchStage now TaskStageFinished ts w) (λ '(_, w), Ret (op, w))
  end.

(* @dcp/provisioning/esxcloud/health_service.go:53-63 HealthService.HandlePatch *)
Definition esx_health : ComputeHealthResponse :=
  let cpuPct := float64_of_Z 20 in
  (zero : ComputeHealthResponse) <| chr_CPUCount := 100%Z |> <| chr_CPUUtilizationPct := cpuPct |>
    <| chr_CPUTotalMhz := (1000 * 100)%Z |>
    <| chr_CPUUtilizationMhz := int64_of_float (float64_mul (float64_of_Z (1000 * 100)) cpuPct) |>
    <| chr_MemoryUtilizationPct := float64_of_Z 80 |> <| chr_TotalMemoryBytes := 1%Z |> <| chr_UsedMemoryBytes := 1%Z |>.

(* @dcp/provisioning/esxcloud/health_service.go:26-67 HealthService.HandlePatch *)
Definition esx_health_HandlePatch (ctx : Context) (op : Operation) (w : W) : outcome (Operation * W) :=
  match DecodeBodyAs op (zero : ComputeHealthRequest) with
  | (op, _, Some e) => Ret (Fail_ e op, w)
  | (op, req, None) =>
      out_bind (GetComputeStateWithDescription now ctx (chq_ComputeReference req) zero w) (λ '(computeState, err, w),
        match err with
        | Some e => Ret (Fail_ e op, w)
        | None =>
            local dcp (λ l,
              let rpooluri := Extend l (cs_ResourcePoolLink (csd_ComputeState computeState)) in
              out_bind (GetResourcePoolState now ctx zero (Some rpooluri) w) (λ '(_, err, w),
                match err with
                | Some e => Ret (Fail_ e op, w)
                | None => Ret (Complete (SetBody (ValueOf esx_health) op), w)
                end))
        end)
  end.

(** The list is dereferenced, nil or not. *)
(* @dcp/provisioning/esxcloud/client.go:184-209 Client.ListComputeHosts *)
Definition ListComputeHosts (k : nat) (pool : ResourcePoolState) (description : ComputeDescription) (apiURI : string) :
  outcome (res (list ComputeState)) :=
  let host := (zero : ComputeStateWithDescription) <| csd_Description := description |>
                <| csd_ComputeState := (zero : ComputeState) <| cs_AdapterManagementReference := apiURI |> |> in
  let i := {| in_computeHost := host; in_pool := pool; in_diskStates := []; in_esxcloudVMID := ""; in_MachineType := ""; in_client := None |} in
  match ListInstance k (Project i) (Zone i) with
  | (_, Some e) => Ret (Err e)
  | (None, None) => Panic
  | (Some esxcloudInstances, None) => Ret (Ok (ToComputeState (newInstance pool host None) <$> il_Items esxcloudInstances))
  end.

Definition enumeration_failure (msg : string) (err : error) (ts : TaskStateWrapper ResourceEnumerationTaskState) (w : W) : outcome W :=
  out_bind (PatchFailure now stack msg err ts w) (λ '(_, w), Ret w).
(* @dcp/provisioning/esxcloud/enumeration_service.go:26-85 EnumerationService.HandlePatch *)
Definition enumeration_HandlePatch (ctx : Context) (op : Operation) (w : W) : outcome (Operation * W) :=
  match DecodeBodyAs op (zero : ComputeEnumerateRequest) with
  | (op, _, Some e) => Ret (Fail_ e op, w)
  | (op, req, None) =>
      let op := Complete (SetStatusCode 201 op) in
      let ts := NewTaskStateWrapper ctx (cer_EnumerationTaskReference req) NewResourceEnumerationTaskState in
      out_bind (PatchStage now TaskStageStarted ts w) (λ '(ts, w),
        let failed msg e := enumeration_failure msg e ts in
        out_bind (local dcp (λ l,
          let descriptionURL := Extend l (cer_ComputeDescriptionLink req) in
          out_bind (GetComputeDescription now ctx (Some descriptionURL) zero w) (λ '(description, err, w),
            match err with
            | Some e => failed ("Error getting ComputeState " +:+ URL_String descriptionURL) e w
            | None =>
                let rpoolurl := Extend l (cer_ResourcePoolLink req) in
                out_bind (GetResourcePoolState now ctx zero (Some rpoolurl) w) (λ '(resourcePool, err, w),
                  match err, NewClient with
                  | Some e, _ => failed ("Error getting resource pool " +:+ URL_String rpoolurl) e w
                  | None, Err e => failed "Error creating ESX Cloud client" e w
                  | None, Ok _ =>
                      out_bind (ListComputeHosts 0 resourcePool description (cer_AdapterManagementReference req)) (λ instances,
                        match instances with
                        | Err e => failed "Error getting instances" e w
                        | Ok instances =>
                            let '(sched, arr) := sch 0 (length instances) in
                            out_bind (PostComputeState now dcp sched arr Background instances w) (λ '(err, w),
                              match err with
                              | Some e => failed "Error POSTing instances" e w
                              | None => out_bind (PatchStage now TaskStageFinished ts w) (λ '(_, w), Ret w)
                              end)
                        end)
                  end)
            end))) (λ w, Ret (op, w)))
  end.
End esxcloud.

(** ** Lemmas: steps that are no reports *)
Section esx_safe.
Context {W : Type} `{GoTypes} `{Network W, EsxLib W} (now : Z) (dcp : AddressFlag) (stack : bytes).
Context {E : Type} `{Machine E} (downloadPath : string).
Context (sch : nat → nat → list nat * list nat) (pat : nat → nat).
Context `{!Embeds ComputeInstanceRequest} `{!Embeds ComputeSubTaskState} `{!Embeds ComputeStateWithDescription}.
Context `{!Embeds ComputeState} `{!Embeds DiskState} `{!Embeds ServiceDocument} `{!Embeds DiskCustomizationRequest}.
Context `{!Embeds ResourcePoolState}.
Context (log : W → list HttpRequest) `{!Task log, !EsxQuiet log} (Hstack : readable_dump stack).
Context (l : URI) (Hlocal : Local_ dcp = Some l).
Context (Hsch : ∀ k n, (sch k n).1 ≡ₚ seq 0 n ∧ (sch k n).2 ≡ₚ seq 0 n).
Notation R := (silent log).
Notation RV := (silent_in log).
Notation partially m := (partly R m (λ _, True)).
Notation partially_in m := (partly RV m (λ _, True)).

Lemma safe_child ctx u : is_Some u → safe R (call (GetChildComputeStateWithDescription now dcp ctx u zero)) (λ _, True).
Proof.
  intros [v ->]. apply safe_call. intros w. unfold GetChildComputeStateWithDescription, GetComputeStateWithDescription. cbn [deref].
  edestruct (get_into_quiet (A := ComputeStateWithDescription) now log ctx) as (s & err & w1 & -> & Hs). cbn [out_bind].
  destruct err as [e |]; [by eexists _, _, w1 |]. unfold GetInheritedParentComputeState.
  destruct (str_empty _); [by eexists _, _, w1 |]. unfold local. rewrite Hlocal. unfold GetComputeStateWithDescription. cbn [deref].
  edestruct (get_into_quiet (A := ComputeStateWithDescription) now log ctx) as (p & err & w2 & -> & Hs2). cbn [out_bind].
  destruct err as [e |]; eexists _, _, w2; (split; [done |]; split; [by etrans | done]).
Qed.
Lemma safe_pool ctx u : safe R (call (GetResourcePoolState now ctx zero (Some u))) (λ _, True).
Proof. apply (safe_get (A := ResourcePoolState) now log). Qed.

Lemma safe_post_disk ctx d : safe R (λ w, PostDiskState now dcp ctx d w) (λ _, True).
Proof.
  intros w. unfold PostDiskState, post_new, local. rewrite Hlocal.
  edestruct (SendWait_silent log) as (op' & err & w' & -> & Hs & _); [by split; [eexists |] | |].
  { apply (quiet_value _ code_of (to_den d)); [done | done |]. rewrite enc_den.
    apply (stage_of_none DiskState_fields). apply (bool_decide_unpack _). vm_compute. exact I. }
  cbn [out_bind]. destruct err as [e |]; [by eexists _, w' |].
  destruct (DecodeBodyAs op' _) as [[op2 v] [e |]]; by eexists _, w'.
Qed.
Lemma safe_post_disks ctx pool ds : safe R (post_disks now dcp ctx pool ds) (λ _, True).
Proof.
  induction ds as [| d ds IH]; cbn [post_disks]; [by apply safe_ret; [apply _ |] |].
  eapply safe_catch; [apply _ | apply safe_post_disk | intros [p | e] _; [| apply safe_fail; apply _]].
  eapply safe_bind; [apply _ | done | intros links _; by apply safe_ret; [apply _ |]].
Qed.
Lemma quiet_esx_disks ctx c ds i : safe RV (esx_disks now dcp downloadPath ctx c ds i) (λ _, True).
Proof.
  revert i. induction ds as [| d ds IH]; intros i; cbn [esx_disks]; [by apply safe_ret; [apply _ |] |].
  case_decide; [eapply safe_bind; [apply _ | by eapply quiet_image_file | intros f _] |];
    (eapply safe_bind; [apply _ | apply IH | intros [? ?] _; by apply safe_ret; [apply _ |]]).
Qed.

(** *** Calls of the API *)
Lemma partly_client {A} i (m : eff W A) : partially m → partially (with_client i m).
Proof. intros Hm. eapply partly_bind; [apply _ | apply partly_of_ptr; apply _ | done]. Qed.
Lemma partly_ret {V A} (RR : V → V → Prop) `{!PreOrder RR} (a : A) : partly RR (eret a) (λ _, True).
Proof. by apply partly_safe, safe_ret; [apply _ |]. Qed.
Lemma network_loop_steps n project zone id ci err : api_steps R (network_loop n project zone id ci err).
Proof.
  revert ci err. induction n as [| n IH]; intros ci err; cbn [network_loop]; [apply steps_ret; apply _ |].
  destruct (str_empty _); [| apply steps_ret; apply _]. apply steps_bind; [apply _ | by apply network_info_steps | intros [ip e]; apply IH].
Qed.

Lemma partly_Insert ctx i : partially_in (Insert now dcp downloadPath pat ctx i).
Proof.
  unfold Insert. eapply (partly_bind _ _ _ (λ _, True)); [apply partly_safe | intros esx _].
  { unfold ToESXCLOUDInstance. eapply safe_bind; [apply _ | apply quiet_esx_disks | intros [? ?] _]. by apply safe_ret; [apply _ |]. }
  eapply partly_bind; [apply _ | apply partly_on_fst, partly_client, partly_await, insert_steps; apply _ | intros op _; apply partly_ret; apply _].
Qed.
Lemma partly_op i (m : eff W EsxcapiOperation) : partially m → partially (_ :=! with_client i m;; eret ()).
Proof. intros Hm. eapply partly_bind; [apply _ | by apply partly_client | intros op _; apply partly_ret; apply _]. Qed.
Lemma partly_GetState i : partially (GetState pat i).
Proof.
  unfold GetState. eapply partly_catch; [apply _ | apply partly_client | intros [ci | e] _].
  - unfold GetInstance. eapply partly_bind; [apply _ | apply partly_await | intros [ci [e |]] _; [apply partly_safe, safe_fail; apply _ | apply partly_ret; apply _]].
    apply steps_bind; [apply _ | by apply get_instance_steps | intros [ci err]].
    apply steps_bind; [apply _ | apply steps_must; apply _ | intros ci'].
    apply steps_bind; [apply _ | apply network_loop_steps | intros [ci2 err2]]. apply steps_ret; apply _.
  - eapply partly_bind; [apply _ | apply partly_of_ptr; apply _ | intros ds _; apply partly_ret; apply _].
  - apply partly_safe, safe_fail; apply _.
Qed.

Lemma partly_create ctx i pool u : partially_in (create now dcp downloadPath sch pat ctx i pool (Some u)).
Proof.
  unfold create. eapply partly_bind; [apply _ | apply partly_safe; by eapply quiet_on_fst, quiet_getDisks | intros ds _].
  eapply partly_bind; [apply _ | apply partly_Insert | intros i' _]. apply partly_on_fst.
  eapply partly_bind; [apply _ | apply partly_op, partly_await, operation_steps; apply _ | intros _ _].
  eapply partly_bind; [apply _ | apply partly_GetState | intros [ip ds'] _].
  eapply partly_bind; [apply _ | apply partly_safe, safe_post_disks | intros links _]. apply partly_safe.
  eapply safe_catch; [apply _ | by apply (safe_patch_compute now log) | intros [? | e] _; [by apply safe_ret; [apply _ |] | apply safe_fail; apply _]].
Qed.
Lemma partly_delete ctx i c : partially (delete now dcp sch pat ctx i c).
Proof.
  unfold delete. eapply partly_catch; [apply _ | apply partly_op, partly_await, operation_steps; apply _ | intros r _].
  eapply partly_bind; [apply _ | apply partly_op, partly_await, delete_steps; apply _ | intros _ _]. apply partly_safe.
  destruct (Hsch 4 (S (length (cs_DiskLinks c)))) as [H5 H6]. destruct (sch _ _) as [sched arr].
  by apply (safe_delete now log dcp l Hlocal).
Qed.

Lemma create_on ctx i pool u (v v' : W * CacheW E) :
  create now dcp downloadPath sch pat ctx i pool (Some u) v = Ret (Ok tt, v') → powered_on log u v'.1.
Proof.
  unfold create. intros E1. do 2 (apply ebind_Ok in E1 as (? & ? & _ & E1)). apply on_fst_inv in E1 as [E1 _].
  apply ebind_Ok in E1 as (? & ? & _ & E1). apply ebind_Ok in E1 as ([ip ds] & ? & _ & E1).
  apply ebind_Ok in E1 as (links & ? & _ & E1). unfold ecatch, call_ in E1.
  destruct (PatchComputeState _ _ _ _ _) as [[[e |] w1] |] eqn:Ep; cbn [out_bind] in E1; [done | | done].
  injection E1 as <-. by eapply PatchComputeState_on in Ep.
Qed.

Lemma instance_work_steps req host i u work (v v' : W * CacheW E) r : cir_ComputeReference req = Some u →
  instance_work now dcp downloadPath sch pat req host i = Some work → work v = Ret (r, v') →
  silent log v.1 v'.1 ∧ (r = Ok tt → ∀ w', log v'.1 `prefix_of` log w' → instance_ok log req w').
Proof.
  intros Hu Hw Hv. unfold instance_work in Hw. rewrite Hu in Hw. case_decide as Ht; [| case_decide as Ht2; [| done]]; injection Hw as <-.
  - split; [by apply partly_create in Hv as [? _] |]. intros -> w' Hp. apply create_on in Hv. right. right. split; [done |].
    exists u. split; [done |]. by eapply powered_on_later.
  - split; [| intros _ w' _; right; by left]. by apply (partly_on_fst R _ _ (partly_delete _ _ _)) in Hv as [? _].
Qed.

(** When a request for an instance on ESX Cloud returns, it was acknowledged with
    201; its task is told that the work started, and then that it failed or
    that it finished, never both, each report once or, when the connection
    breaks, up to three times; a creation finished only if a PATCH that says
    that the compute is on was sent.  The one other way out is a panic
    of the calls that create or delete the instance. *)
Theorem esx_HandlePatch_reports ctx op op0 req task pu u (v : W * CacheW E) :
  DecodeBodyAs op (zero : ComputeInstanceRequest) = (op0, req, None) →
  cir_ProvisioningTaskReference req = Some task → url_Parse (URL_String task) = Ok pu → cir_ComputeReference req = Some u →
  (∃ v' s n m, esx_HandlePatch now dcp stack downloadPath sch pat ctx op v = Ret (Complete (SetStatusCode 201 op0), v')
    ∧ stages log v'.1 = stages log v.1 ++ replicate n TaskStageStarted ++ replicate m s
    ∧ 1 ≤ n ≤ 3 ∧ 1 ≤ m ≤ 3 ∧ (prompt → n = 1 ∧ m = 1)
    ∧ (s = TaskStageFailed ∨ s = TaskStageFinished ∧ instance_ok log req v'.1))
  ∨ ∃ host i work v1, esx_HandlePatch now dcp stack downloadPath sch pat ctx op v = Panic
    ∧ cir_IsMockRequest req = false ∧ instance_work now dcp downloadPath sch pat req host i = Some work ∧ work v1 = Panic.
Proof.
  intros Hdec Ht Hp Hu. unfold esx_HandlePatch. rewrite Hdec, Ht.
  set (ts0 := NewTaskStateWrapper ctx (Some task) NewComputeSubTaskState).
  destruct (PatchStage_stages now log TaskStageStarted ts0 v.1) as (ts & w1 & -> & Hr & Hs & _); [by split; [eexists | exists task, pu] | done |].
  cbn [out_bind].
  match goal with |- context [out_bind ?r (λ v, Ret (_, v))] =>
    assert (ends_in log (instance_ok log req) (w1, v.2) r ∨ r = Panic ∧ ∃ host i work v1, cir_IsMockRequest req = false
      ∧ instance_work now dcp downloadPath sch pat req host i = Some work ∧ work v1 = Panic) as [(v' & s & -> & Hs' & Ho) | (-> & host & i & work & v1 & Hrest)]
  end; [| | right; by exists host, i, work, v1].
  2: { left. destruct (tells_two log _ _ _ _ _ Hs Hs') as (n & m & E1 & E2 & E3 & E4). by exists v', s, n, m. }
  clear Hs. destruct (cir_IsMockRequest req) eqn:Hmock.
  { left. eapply ends_on_net; [done |]. eapply mock_ends; try done. intros w'. by left. }
  destruct (quiet_on_fst log _ _ (safe_child ctx (cir_ComputeReference req) ltac:(by eexists)) (w1, v.2)) as (r & v2 & -> & Hs2 & _). cbn [out_bind].
  destruct r as [host | e]; [| left; eapply ends_on_net; [done | by apply (ends_failure now stack log Hstack)]].
  unfold local. rewrite Hlocal.
  destruct (quiet_on_fst log _ _ (safe_pool ctx (Extend l (cs_ResourcePoolLink (csd_ComputeState host)))) v2) as (r & v3 & -> & Hs3 & _). cbn [out_bind].
  assert (silent log w1 v3.1) as Hs4 by (by etrans). clear Hs2 Hs3.
  destruct r as [pool | e]; [| left; eapply ends_on_net; [done | by apply (ends_failure now stack log Hstack)]].
  cbn [NewInstance NewClient EsxcapiNew res_bind]. destruct (instance_work _ _ _ _ _ req host _) as [work |] eqn:Ew.
  2: { left. cbn [deref]. eapply ends_on_net; [done | by apply (ends_failure now stack log Hstack)]. }
  destruct (work v3) as [[r v4] |] eqn:Ev; cbn [out_bind]; [left | right; split; [done |]; by eexists _, _, work, v3].
  destruct (instance_work_steps _ _ _ _ _ _ _ _ Hu Ew Ev) as [Hs5 Hok]. eapply work_ends; try done. by etrans.
Qed.
End esx_safe.

(** ** Disks *)
Section esx_props.
Context {W : Type} `{GoTypes} `{Network W, EsxLib W} (now : Z) (dcp : AddressFlag) {E : Type} `{Machine E} (downloadPath : string) (pat : nat → nat).
Context `{!Embeds DiskCustomizationRequest}.

(** A disk and what is asked for it; the size the API's disk stands for is the
    disk's, in whole gigabytes. *)
Definition asked_for (d : DiskState) (a : EsxcapiAttachedDisk) : Prop :=
  ad_DiskName a = disk_Name d ∧ ad_SourceImageID a = disk_SourceImageReference d
  ∧ (int64 (disk_CapacityMBytes d) →
     disk_CapacityMBytes (attachedDiskToDisk a) = (disk_CapacityMBytes d - disk_CapacityMBytes d mod 1024)%Z).

Lemma capacity_GB c : int64 c → wrap64 (Z.shiftr c 10 * 1024) = (c - c mod 1024)%Z.
Proof.
  intros Hc. rewrite Z.shiftr_div_pow2 by lia. change (2 ^ 10)%Z with 1024%Z.
  pose proof (Z.div_mod c 1024 ltac:(lia)) as Hd. pose proof (Z.mod_pos_bound c 1024 ltac:(lia)) as Hm.
  rewrite wrap64_id; [lia |]. unfold int64 in *. change (2 ^ 63)%Z with (9007199254740992 * 1024)%Z in *. nia.
Qed.

(** C29: the instance asked for has, in order, one disk for each of the compute's
    disks that is no CD-ROM, of the same name, image and size, rounded down to
    gigabytes and without overflow; exactly the first of them all (number 0) is booted
    from, and each CD-ROM is one image file.  (When the files of the CD-ROMs were
    downloaded; otherwise there is no instance.) *)
Theorem esx_disks_spec ctx c ds index (v v' : W * CacheW E) disks isos :
  esx_disks now dcp downloadPath ctx c ds index v = Ret (Ok (disks, isos), v') → (0 ≤ index)%Z →
  Forall2 asked_for (filter (λ d, disk_DiskType d ≠ "CDROM"%string) ds) disks
  ∧ length isos = length (filter (λ d, disk_DiskType d = "CDROM"%string) ds)
  ∧ ∀ k a, disks !! k = Some a → ad_BootDisk a = bool_decide (index = 0%Z ∧ k = 0).
Proof.
  revert index v v' disks isos. induction ds as [| d ds IH]; intros index v v' disks isos; cbn [esx_disks].
  { intros [= <- <- _] _. by split_and!. }
  case_decide as Ht; intros Hr Hi.
  - apply ebind_Ok in Hr as (f & v1 & _ & Hr). apply ebind_Ok in Hr as ([ds' is'] & v2 & Hr & [= <- <- _]).
    destruct (IH _ _ _ _ _ Hr Hi) as (H5 & H6 & H7). rewrite filter_cons_False by (by intros ?). rewrite filter_cons_True by done.
    split_and!; [done | simpl; by rewrite H6 | done].
  - apply ebind_Ok in Hr as ([ds' is'] & v2 & Hr & [= <- <- _]).
    destruct (IH _ _ _ _ _ Hr ltac:(lia)) as (H5 & H6 & H7). rewrite filter_cons_True by done. rewrite filter_cons_False by done.
    split_and!; [constructor; [| done] | done |].
    + split_and!; [done | done |]. intros Hc. simpl. by apply capacity_GB.
    + intros [| k] a; simpl; [intros [= <-]; by apply bool_decide_ext; split; [|intros [? _]] |].
      intros Hk%H7. rewrite Hk. apply bool_decide_ext. lia.
Qed.

(** An instance and its compute. *)
Lemma Name_ComputeID (i : Instance_) e : ei_Name e = Name i → NameToComputeID e = cs_ID (csd_ComputeState (in_computeHost i)).
Proof.
  intros He. unfold NameToComputeID. rewrite He. unfold Name, TrimPrefix.
  assert (s2b (nameKey +:+ cs_ID (csd_ComputeState (in_computeHost i))) = s2b nameKey ++ s2b (cs_ID (csd_ComputeState (in_computeHost i)))) as ->
    by reflexivity.
  replace (HasPrefix _ _) with true by (symmetry; apply HasPrefix_spec; by eexists).
  rewrite drop_app_length. apply b2s_s2b.
Qed.

(** ** Crashes *)

(** An instance that cannot be queried crashes the adapter: when the request
    for it fails in time, the address of no instance is looked at. *)
Theorem GetInstance_crashes k project zone id (w : W) u e :
  url_Parse ("http://" +:+ zone +:+ "/v1/vms/" +:+ id) = Ok u →
  (Do (setEsxCloudRestAPIHeaders {| rq_Method := "GET"; rq_URL := u; rq_Header := []; rq_Body := None |}) w).1.1 = Broken e →
  pat k ≠ 0 → GetInstance pat k project zone id w = Panic.
Proof.
  intros Hu Hd Hp. unfold GetInstance, ebind, ecatch, await, abind at 1, acatch at 1, EsxcapiGetInstance, acatch at 1, awaits, api_Do, NewRequest.
  rewrite Hu. cbn. destruct (Do _ w) as [[a req] w1]. simpl in Hd. subst a. destruct (pat k); [done |]. reflexivity.
Qed.

(** Listing the instances of a pool gives none: the list is nil, and read. *)
Lemma ListComputeHosts_spec k pool description apiURI :
  ListComputeHosts pat k pool description apiURI =
    match pat k with O => Ret (Err (late ("ListInstance(" +:+ cd_ZoneID description +:+ ")"))) | S _ => Panic end.
Proof. unfold ListComputeHosts, ListInstance. by destruct (pat k). Qed.
End esx_props.

Section enumeration.
Context {W : Type} `{GoTypes} `{Network W, EsxLib W} (now : Z) (dcp : AddressFlag) (stack : bytes).
Context (sch : nat → nat → list nat * list nat) (pat : nat → nat).
Context `{!Embeds ComputeState} `{!Embeds ResourcePoolState} `{!Embeds ComputeDescription}.
Context `{!Embeds ComputeEnumerateRequest} `{!Embeds ResourceEnumerationTaskState}.
Context (log : W → list HttpRequest) `{!Task log} (Hstack : readable_dump stack) (l : URI) (Hlocal : Local_ dcp = Some l).

(** Enumerating the instances of ESX Cloud never finishes: the task is told
    that it started, and then that it failed; or, when all that is read can be
    read and the list is ready before its context is done, the adapter crashes. *)
Theorem enumeration_never_finishes ctx op op0 req task pu (w : W) :
  DecodeBodyAs op (zero : ComputeEnumerateRequest) = (op0, req, None) →
  cer_EnumerationTaskReference req = Some task → url_Parse (URL_String task) = Ok pu →
  (∃ w' n m, enumeration_HandlePatch now dcp stack sch pat ctx op w = Ret (Complete (SetStatusCode 201 op0), w')
     ∧ stages log w' = stages log w ++ replicate n TaskStageStarted ++ replicate m TaskStageFailed
     ∧ 1 ≤ n ≤ 3 ∧ 1 ≤ m ≤ 3 ∧ (prompt → n = 1 ∧ m = 1))
  ∨ enumeration_HandlePatch now dcp stack sch pat ctx op w = Panic ∧ pat 0 ≠ 0.
Proof.
  intros Hdec Ht Hp. unfold enumeration_HandlePatch. rewrite Hdec, Ht.
  set (ts0 := NewTaskStateWrapper ctx (Some task) NewResourceEnumerationTaskState).
  destruct (PatchStage_stages now log TaskStageStarted ts0 w) as (ts & w1 & -> & Hr & Hs & _); [by split; [eexists | exists task, pu] | done |].
  cbn [out_bind]. unfold local. rewrite Hlocal.
  assert (∀ msg e w2, silent log w1 w2 → ∃ w' n m, out_bind (enumeration_failure now stack msg e ts w2) (λ w, Ret (Complete (SetStatusCode 201 op0), w))
    = Ret (Complete (SetStatusCode 201 op0), w') ∧ stages log w' = stages log w ++ replicate n TaskStageStarted ++ replicate m TaskStageFailed
    ∧ 1 ≤ n ≤ 3 ∧ 1 ≤ m ≤ 3 ∧ (prompt → n = 1 ∧ m = 1)) as Hfail.
  { intros msg e w2 [Hs2 _]. destruct (failure_stages now stack log Hstack msg e ts w2 Hr) as (w3 & E3 & Hs3).
    unfold failure in E3. unfold enumeration_failure. rewrite E3.
    assert (tells log 3 (Some TaskStageFailed) w1 w3) as Hs4 by by eapply tells_stages.
    destruct (tells_two log _ _ _ _ _ Hs Hs4) as (n & m & E4). by exists w3, n, m. }
  edestruct (get_into_quiet (A := ComputeDescription) now log ctx) as (description & err & w2 & E2 & Hs2).
  unfold GetComputeDescription. rewrite E2. cbn [out_bind]. destruct err as [e |]; [left; by apply Hfail |].
  edestruct (get_into_quiet (A := ResourcePoolState) now log ctx) as (pool & err & w3 & E3 & Hs3).
  unfold GetResourcePoolState. rewrite E3. cbn [out_bind]. assert (silent log w1 w3) as Hs4 by (by etrans).
  destruct err as [e |]; [left; by apply Hfail |]. cbn [NewClient EsxcapiNew res_bind]. rewrite ListComputeHosts_spec.
  destruct (pat 0); [left; by apply Hfail | by right].
Qed.
End enumeration.

(** ** Witnesses

    An ESX Cloud whose tasks are completed at once, at the host [z]. *)
Definition esx_documents : gmap string json := {[
  "/pool" := JObj [("name", JStr "p")];
  "/disk" := JObj [("type", JStr "HDD"); ("name", JStr "d"); ("sourceImageReference", JStr "i"); ("capacityMBytes", JNum 2500)];
  "/v1/projects/p/vms" := JObj [("id", JStr "t"); ("entity", JObj [("id", JStr "vm")])];
  "/v1/vms/vm/operations" := JObj [("id", JStr "t")];
  "/v1/tasks/t" := JObj [("state", JStr "COMPLETED")];
  "/v1/vms/vm" := JObj [("id", JStr "vm"); ("ipAddress", JStr "10.0.0.1"); ("attachedDisks", JArr [JObj [("name", JStr "d"); ("capacityGb", JNum 2)]])] ]}%string.
Definition esx_compute : json :=
  JObj [("id", JStr "x"); ("diskLinks", JArr [JStr "/disk"]); ("parentLink", JStr "/parent"); ("resourcePoolLink", JStr "/pool");
        ("description", JObj [("zoneId", JStr "z")])]%string.
Definition esx_answer (req : HttpRequest) : attempt := ok_json (default esx_compute (esx_documents !! b2s (u_Path (rq_URL req)))).
Definition esx_network : Network (list HttpRequest) := {| Do := λ req w, (esx_answer req, req, w ++ [req]); json_text := λ _, [] |}.
Definition dead_network : Network (list HttpRequest) := {| Do := λ req w, (Broken EOF, req, w ++ [req]); json_text := λ _, [] |}.
Definition esx_lib {W : Type} : EsxLib W :=
  {| read_before_error := λ _, no_text; VMs_AttachISO := λ _ _ _ w, (Ok "t"%string, w); Tasks_Wait := λ _ _ w, (Some None, w) |}.
Definition esx_machine : Machine () :=
  {| os_fault := λ _ _ _, (None, ()); os_write := λ _ _, (None, ()); os_now := λ _, 7%Z; http_Get := λ _ _ _, (Err EOF, ()) |}.
Definition esx_types : GoTypes := types_of
  [GoType ComputeInstanceRequest; GoType ComputeSubTaskState; GoType ComputeStateWithDescription; GoType ComputeState; GoType DiskState;
   GoType ServiceDocument; GoType DiskCustomizationRequest; GoType ResourcePoolState; GoType ComputeDescription;
   GoType ComputeEnumerateRequest; GoType ResourceEnumerationTaskState].
Definition create_request : ComputeInstanceRequest :=
  {| cir_ComputeReference := Some sample_local; cir_ProvisioningTaskReference := Some sample_local;
     cir_AuthCredentialsLink := ""; cir_RequestType := InstanceRequestTypeCreate; cir_IsMockRequest := false |}.
Definition create_op : Operation (H := esx_types) :=
  let types := esx_types in SetBody (BReadCloser (TJson (enc create_request))) (NewPatch 0 Background sample_local BNil).
Definition esx_order (k n : nat) : list nat * list nat := (seq 0 n, seq 0 n).

Lemma esx_HandlePatch_reports_witness :
  let types := esx_types in let net := esx_network in let lib := esx_lib (W := list HttpRequest) in let machine := esx_machine in
  let e0 : Embeds ComputeInstanceRequest := nth_embeds _ 0 in let e1 : Embeds ComputeSubTaskState := nth_embeds _ 1 in
  let e2 : Embeds ComputeStateWithDescription := nth_embeds _ 2 in let e3 : Embeds ComputeState := nth_embeds _ 3 in
  let e4 : Embeds DiskState := nth_embeds _ 4 in let e5 : Embeds ServiceDocument := nth_embeds _ 5 in
  let e6 : Embeds DiskCustomizationRequest := nth_embeds _ 6 in let e7 : Embeds ResourcePoolState := nth_embeds _ 7 in
  let local := {| af_host := ""; af_port := "" |} in let v := ([], {| cw_ext := (); cw_files := ∅ |}) in
  let r := esx_HandlePatch (W := list HttpRequest) 0 local [] "/tmp" esx_order (λ _, 5) Background create_op v in
  ((∃ v' s, r = Ret (Complete (SetStatusCode 201 (SetBody BNil create_op)), v') ∧ stages (λ w, w) v'.1 = [TaskStageStarted; s]) ∨ r = Panic) ∧
  match r with Ret (_, v') => stages (λ w, w) v'.1 = [TaskStageStarted; TaskStageFinished] | Panic => False end.
Proof.
  intros types net lib machine e0 e1 e2 e3 e4 e5 e6 e7 local v r. split; [| vm_compute; done].
  assert (Task (W := list HttpRequest) (λ w, w)) as T by (constructor; [done | by right]).
  assert (EsxQuiet (W := list HttpRequest) (λ w, w)) as Q by (constructor; done).
  assert (readable_dump []) as D by (exists []; vm_compute; reflexivity).
  assert (Local_ local = Some sample_local) as Hl by (vm_compute; reflexivity).
  assert (∀ k n, (esx_order k n).1 ≡ₚ seq 0 n ∧ (esx_order k n).2 ≡ₚ seq 0 n) as Hs by done.
  assert (DecodeBodyAs create_op (zero : ComputeInstanceRequest) = (SetBody BNil create_op, create_request, None)) as Hd
    by (apply (DecodeBodyAs_stream _ (enc create_request)); [done | done | vm_compute; reflexivity]).
  assert (url_Parse (URL_String sample_local) = Ok sample_local) as Hu by (vm_compute; reflexivity).
  destruct (esx_HandlePatch_reports (W := list HttpRequest) 0 local [] "/tmp" esx_order (λ _, 5) (λ w, w) D _ Hl Hs Background
    _ _ _ sample_local _ _ v Hd eq_refl Hu eq_refl) as [(v' & s & n & m & E1 & E2 & _ & _ & Hp & _) | (host & i & work & v1 & E1 & _)].
  - left. destruct Hp as [-> ->]; [intros ? ? ? _; by intros [=] |]. exists v', s. split; [exact E1 | exact E2].
  - right. exact E1.
Defined.

Definition small_disk : DiskState :=
  (zero : DiskState) <| disk_DiskType := "HDD"%string |> <| disk_Name := "d"%string |> <| disk_CapacityMBytes := 2500%Z |>.
Definition small_asked (boot : bool) : EsxcapiAttachedDisk :=
  {| ad_ID := ""; ad_Kind := "ephemeral-disk"; ad_BootDisk := boot; ad_DiskName := "d"; ad_DiskFlavor := "d"; ad_SourceImageID := "";
     ad_DiskCapacityGBytes := 2 |}.
Lemma esx_disks_spec_witness :
  let types := one_type DiskCustomizationRequest in let net := esx_network in let lib := esx_lib (W := list HttpRequest) in
  let machine := esx_machine in let e : Embeds DiskCustomizationRequest := one_embeds _ in
  ∃ disks, esx_disks 0 {| af_host := ""; af_port := "" |} "/tmp" Background zero [small_disk; small_disk] 0 ([], {| cw_ext := (); cw_files := ∅ |})
    = Ret (Ok (disks, []), ([], {| cw_ext := (); cw_files := ∅ |})) ∧ length disks = 2
    ∧ (∀ k a, disks !! k = Some a → ad_BootDisk a = bool_decide (0%Z = 0%Z ∧ k = 0)) ∧ Forall2 asked_for [small_disk; small_disk] disks.
Proof.
  intros types net lib machine e. exists [small_asked true; small_asked false]. split; [vm_compute; reflexivity |]. split; [reflexivity |].
  edestruct (esx_disks_spec (W := list HttpRequest) 0 {| af_host := ""; af_port := "" |} "/tmp" Background zero [small_disk; small_disk] 0
    ([], {| cw_ext := (); cw_files := ∅ |}) ([], {| cw_ext := (); cw_files := ∅ |}) [small_asked true; small_asked false] []) as (H1 & _ & H3); [vm_compute; reflexivity | done |].
  split; [exact H3 | exact H1].
Defined.

Lemma GetInstance_crashes_witness : let net := dead_network in let lib := esx_lib (W := list HttpRequest) in
  GetInstance (W := list HttpRequest) (λ _, 5) 2 "p" "z" "vm" [] = Panic.
Proof.
  intros net lib. eapply GetInstance_crashes; [vm_compute; reflexivity | reflexivity | done].
Defined.

Definition enumerate_request : ComputeEnumerateRequest := (zero : ComputeEnumerateRequest) <| cer_EnumerationTaskReference := Some sample_local |>.
Definition enumerate_op : Operation (H := esx_types) :=
  let types := esx_types in SetBody (BReadCloser (TJson (enc enumerate_request))) (NewPatch 0 Background sample_local BNil).
Lemma enumeration_never_finishes_witness :
  let types := esx_types in let net := dead_network in let lib := esx_lib (W := list HttpRequest) in
  let e3 : Embeds ComputeState := nth_embeds _ 3 in let e7 : Embeds ResourcePoolState := nth_embeds _ 7 in
  let e8 : Embeds ComputeDescription := nth_embeds _ 8 in let e9 : Embeds ComputeEnumerateRequest := nth_embeds _ 9 in
  let e10 : Embeds ResourceEnumerationTaskState := nth_embeds _ 10 in
  let local := {| af_host := ""; af_port := "" |} in
  ∃ w', enumeration_HandlePatch (W := list HttpRequest) 0 local [] esx_order (λ _, 0) Background enumerate_op []
      = Ret (Complete (SetStatusCode 201 (SetBody BNil enumerate_op)), w')
      ∧ ∃ n m, stages (λ w, w) w' = replicate n TaskStageStarted ++ replicate m TaskStageFailed ∧ 1 ≤ m.
Proof.
  intros types net lib e3 e7 e8 e9 e10 local.
  assert (Task (W := list HttpRequest) (λ w, w)) as T by (constructor; [done | by right]).
  assert (readable_dump []) as D by (exists []; vm_compute; reflexivity).
  assert (Local_ local = Some sample_local) as Hl by (vm_compute; reflexivity).
  assert (DecodeBodyAs enumerate_op (zero : ComputeEnumerateRequest) = (SetBody BNil enumerate_op, enumerate_request, None)) as Hd
    by (apply (DecodeBodyAs_stream _ (enc enumerate_request)); [done | done | vm_compute; reflexivity]).
  assert (url_Parse (URL_String sample_local) = Ok sample_local) as Hu by (vm_compute; reflexivity).
  destruct (enumeration_never_finishes (W := list HttpRequest) 0 local [] esx_order (λ _, 0) (λ w, w) D _ Hl Background
    _ _ _ sample_local _ [] Hd eq_refl Hu) as [(w' & n & m & E1 & E2 & _ & [Hm _] & _) | [_ Hn]]; [| by destruct (Hn eq_refl)].
  exists w'. split; [exact E1 |]. exists n, m. split; [exact E2 | exact Hm].
Defined.
