(* ===== verification/SlingTypes.v ===== *)
(** Package [slingshot/types]: hardware addresses, addresses, networks and
    times with their JSON forms, and the documents of the DHCP services. *)

From S2P Require Import Prelude GoPath GoNet GoJson DcpCommon.
From Stdlib Require Import ZArith Lia.

(** ** Hardware addresses *)

(** The struct only embeds [net.HardwareAddr]. *)
(* @slingshot/types/mac.go:11-13 MAC *)
Record MAC := mkMAC { mac_HardwareAddr : HardwareAddr }.
#[export] Instance MAC_eq_dec : EqDecision MAC.
Proof. solve_decision. Defined.
#[export] Instance zero_MAC : Zero MAC := mkMAC [].

(* @slingshot/types/mac.go:15-22 NewMAC *)
Definition NewMAC (s : string) : outcome MAC :=
  match ParseMAC s with Ok hw => Ret (mkMAC hw) | Err _ => Panic end.

Definition sep_append (s : bytes) (e : byte) : bytes :=
  (if decide (s = []) then s else s ++ [colon]) ++ hex_byte e.

(* @slingshot/types/mac.go:24-39 NewMACFromBytes *)
Definition NewMACFromBytes (b : bytes) : res MAC :=
  let s := foldl sep_append [] b in
  hw :=? ParseMAC (b2s s);;
  Ok (mkMAC hw).

(* @slingshot/types/mac.go:41-43 MAC.String *)
Definition MAC_String (m : MAC) : string := HardwareAddr_String (mac_HardwareAddr m).

(* @slingshot/types/mac.go:45-47 MAC.Equal *)
Definition MAC_Equal (m n : MAC) : bool := bool_decide (mac_HardwareAddr m = mac_HardwareAddr n).

(* @slingshot/types/mac.go:49-51 MAC.MarshalJSON *)
Definition MAC_MarshalJSON (m : MAC) : json := JStr (HardwareAddr_String (mac_HardwareAddr m)).

(** A colon between every two characters. *)
(* @slingshot/types/mac.go:62-75 MAC.UnmarshalJSON *)
Fixpoint canonicalize (s : bytes) : bytes :=
  match s with
  | a :: b :: ((_ :: _) as s) => a :: b :: colon :: canonicalize s
  | _ => s
  end.

(* @slingshot/types/mac.go:53-83 MAC.UnmarshalJSON *)
Definition MAC_UnmarshalJSON (j : json) (m : MAC) : MAC * option error :=
  match dec_string j "" with
  | (_, Some e) => (m, Some (derr_error e))
  | (s, None) =>
      let s := s2b s in
      let s := if decide (colon ∉ s ∧ dash ∉ s) then canonicalize s else s in
      match ParseMAC (b2s s) with
      | Ok hw => (mkMAC hw, None)
      | Err e => (mkMAC [], Some e)      (* the field is assigned nil first *)
      end
  end.
#[export] Instance json_MAC : Json MAC := {| enc := MAC_MarshalJSON; dec := dec_custom MAC_UnmarshalJSON |}.

Lemma foldl_sep_append b s :
  s ≠ [] → b ≠ [] → foldl sep_append s b = s ++ colon :: mac_bytes b.
Proof.
  revert s. induction b as [| x b IH]; [done |]. intros s Hs _. cbn [foldl].
  assert (sep_append s x = s ++ colon :: hex_byte x) as ->.
  { unfold sep_append. rewrite decide_False by done. by rewrite <- (assoc_L (++)). }
  destruct b as [| y b]; [done |].
  rewrite IH; [| by destruct s | done]. rewrite <- (assoc_L (++)). done.
Qed.


Lemma NewMACFromBytes_eq b :
  NewMACFromBytes b = if mac_len (length b) then Ok (mkMAC b)
                      else Err (Errorf ("invalid MAC address: " +:+ b2s (mac_bytes b))).
Proof.
  unfold NewMACFromBytes. assert (foldl sep_append [] b = mac_bytes b) as ->.
  { destruct b as [| x b]; [done |]. cbn [foldl]. unfold sep_append at 2. rewrite decide_True by done.
    cbn [app]. destruct b as [| y b]; [done |]. rewrite foldl_sep_append by done. done. }
  unfold ParseMAC. rewrite s2b_b2s, ParseMAC_mac_bytes. by destruct (mac_len _).
Qed.

Lemma fmt_x_nonempty_tail b hw : ∃ c r, fmt_x (b :: hw) = c :: r.
Proof. simpl. eauto. Qed.

Lemma canonicalize_fmt_x hw : canonicalize (fmt_x hw) = mac_bytes hw.
Proof.
  induction hw as [| b hw IH]; [done |].
  destruct hw as [| b' hw]; [done |].
  destruct (fmt_x_nonempty_tail b' hw) as (c & r & E).
  change (fmt_x (b :: b' :: hw)) with (hex_digit (b2z b / 16) :: hex_digit (b2z b mod 16) :: fmt_x (b' :: hw)).
  change (mac_bytes (b :: b' :: hw)) with (hex_digit (b2z b / 16) :: hex_digit (b2z b mod 16) :: colon :: mac_bytes (b' :: hw)).
  rewrite <- IH, E. done.
Qed.

(** A hardware address built from the bytes of a packet is accepted
    exactly when it has the length of a MAC-48, EUI-64 or InfiniBand address,
    and then it is those bytes. *)
Theorem NewMACFromBytes_spec (b : bytes) (m : MAC) :
  NewMACFromBytes b = Ok m ↔ (length b = 6 ∨ length b = 8 ∨ length b = 20) ∧ mac_HardwareAddr m = b.
Proof.
  rewrite NewMACFromBytes_eq. unfold mac_len. case_bool_decide; split.
  - intros [= <-]. done.
  - intros [_ <-]. by destruct m.
  - done.
  - intros [H' _]. done.
Qed.

Lemma MAC_json_roundtrip hw m :
  mac_len (length hw) = true → MAC_UnmarshalJSON (MAC_MarshalJSON (mkMAC hw)) m = (mkMAC hw, None).
Proof.
  intros H. unfold MAC_UnmarshalJSON, MAC_MarshalJSON. cbn [dec_string mac_HardwareAddr].
  unfold HardwareAddr_String. rewrite s2b_b2s.
  rewrite decide_False. 2:{
    destruct hw as [| b [| b' hw]]; [done | done |]. intros [Hc _]. apply Hc.
    apply list_elem_of_lookup. exists 2. apply mac_bytes_sep. }
  unfold ParseMAC. rewrite s2b_b2s, ParseMAC_mac_bytes, H. done.
Qed.

Lemma hex_digits_plain s :
  Forall (λ c, is_hex_digit c = true) s → colon ∉ s ∧ dash ∉ s.
Proof. rewrite Forall_forall. intros H. split; intros Hin%H; done. Qed.

(** The JSON form of a hardware address reads back as the address, and so
    do its digits written without separators. *)
Theorem MAC_JSON_roundtrip (hw : HardwareAddr) (m : MAC) :
  length hw = 6 ∨ length hw = 8 ∨ length hw = 20 →
  MAC_UnmarshalJSON (MAC_MarshalJSON (mkMAC hw)) m = (mkMAC hw, None)
  ∧ MAC_UnmarshalJSON (JStr (b2s (fmt_x hw))) m = (mkMAC hw, None).
Proof.
  intros H. assert (mac_len (length hw) = true) as Hl by by apply bool_decide_eq_true.
  split; [by apply MAC_json_roundtrip |].
  unfold MAC_UnmarshalJSON. cbn [dec_string]. rewrite s2b_b2s.
  rewrite decide_True by apply hex_digits_plain, fmt_x_digits.
  unfold ParseMAC. rewrite canonicalize_fmt_x, s2b_b2s, ParseMAC_mac_bytes, Hl. done.
Qed.

Lemma MAC_JSON_roundtrip_witness :
  MAC_UnmarshalJSON (JStr "001122aabbcc") (mkMAC []) = (mkMAC [x00; x11; x22; xaa; xbb; xcc], None).
Proof.
  apply (MAC_JSON_roundtrip [x00; x11; x22; xaa; xbb; xcc] (mkMAC [])). left. reflexivity.
Defined.

(** ** Addresses *)
(* @slingshot/types/ip.go:9-11 IP *)
Record IPj := mkIP { ip_IP : IP }.
#[export] Instance IPj_eq_dec : EqDecision IPj.
Proof. solve_decision. Defined.
#[export] Instance zero_IPj : Zero IPj := mkIP [].

(* @slingshot/types/ip.go:13-20 NewIP *)
Definition NewIP (s : string) : outcome IPj :=
  match ParseIP_bytes (s2b s) with Some ip => Ret (mkIP ip) | None => Panic end.

(* @slingshot/types/ip.go:22-27 IP.MarshalJSON *)
Definition IP_MarshalJSON (ip : IPj) : json :=
  if decide (ip_IP ip = []) then JNull else JStr (IP_String (ip_IP ip)).

(* @slingshot/types/ip.go:29-43 IP.UnmarshalJSON *)
Definition IP_UnmarshalJSON (j : json) (ip : IPj) : IPj * option error :=
  match dec_string j "" with
  | (_, Some e) => (ip, Some (derr_error e))
  | (s, None) =>
      match ParseIP_bytes (s2b s) with
      | Some a => (mkIP a, None)
      | None => (mkIP [], Some (Errorf "types: invalid IP"))
      end
  end.
#[export] Instance json_IPj : Json IPj := {| enc := IP_MarshalJSON; dec := dec_custom IP_UnmarshalJSON |}.

(** ** Networks *)
(* @slingshot/types/ipnet.go:8-10 IPNet *)
Record IPNetj := mkIPNet { ipnet_IPNet : option IPNet }.
#[export] Instance zero_IPNetj : Zero IPNetj := mkIPNet None.

(** [ParseCIDR] returns a network whenever it returns no error. *)
(* @slingshot/types/ipnet.go:12-24 NewIPNet *)
Definition NewIPNet (cidr : string) : outcome IPNetj :=
  match ParseCIDR_bytes (s2b cidr) with
  | None => Panic
  | Some (_, net) => Ret (mkIPNet (Some net))
  end.

(* @slingshot/types/ipnet.go:26-34 IPNet.MarshalJSON *)
Definition IPNet_MarshalJSON (ip : IPNetj) : json :=
  JStr (match ipnet_IPNet ip with Some n => IPNet_String n | None => "" end).

(* @slingshot/types/ipnet.go:36-56 IPNet.UnmarshalJSON *)
Definition IPNet_UnmarshalJSON (j : json) (ip : IPNetj) : IPNetj * option error :=
  match dec_string j "" with
  | (_, Some e) => (ip, Some (derr_error e))
  | (s, None) =>
      match ParseCIDR_bytes (s2b s) with
      | None => (ip, Some (Errorf ("invalid CIDR address: " +:+ s)))
      | Some (_, net) => (mkIPNet (Some net), None)
      end
  end.
#[export] Instance json_IPNetj : Json IPNetj := {| enc := IPNet_MarshalJSON; dec := dec_custom IPNet_UnmarshalJSON |}.

Lemma dtoi_dec_byte b r :
  dtoi (dec_byte b ++ dot :: r) = Some (b2z b, dot :: r).
Proof. destruct b; reflexivity. Qed.
Lemma dtoi_dec_byte_end b : dtoi (dec_byte b) = Some (b2z b, []).
Proof. destruct b; reflexivity. Qed.

Lemma b2z_small b : ¬ (255 < b2z b)%Z.
Proof. pose proof (b2z_range b). lia. Qed.

Lemma parseIPv4_dotted a b c d : parseIPv4 (dotted [a; b; c; d]) = Some (IPv4 a b c d).
Proof.
  unfold parseIPv4. rewrite dotted_join. cbn [join].
  cbn [parse_v4_from].
  rewrite !dtoi_dec_byte, dtoi_dec_byte_end.
  repeat rewrite (decide_False (P := (255 < _)%Z)) by apply b2z_small.
  rewrite !decide_True by done. simpl. by rewrite !z2b_b2z.
Qed.

Lemma first_sep_dotted b s : first_sep (dec_byte b ++ dot :: s) = Some dot.
Proof. destruct b; reflexivity. Qed.

Lemma ParseIP_dotted a b c d : ParseIP_bytes (dotted [a; b; c; d]) = Some (IPv4 a b c d).
Proof.
  unfold ParseIP_bytes, dotted at 1. rewrite first_sep_dotted, decide_True by done. apply parseIPv4_dotted.
Qed.

Lemma IP_bytes_dotted ip : To4 ip ≠ [] → IP_bytes ip = dotted (To4 ip).
Proof.
  intros H. unfold IP_bytes. rewrite decide_False by (by intros ->).
  rewrite decide_True; [done | by apply To4_nonempty].
Qed.

Lemma IP_Equal_v4InV6 ip : To4 ip ≠ [] → IP_Equal ip (v4InV6Prefix ++ To4 ip) = true.
Proof.
  intros H. unfold To4 in *. unfold IP_Equal.
  destruct (decide (length ip = 4)) as [E | _].
  - rewrite length_app, E. simpl. by apply bool_decide_eq_true.
  - destruct (decide _) as [[E1 E2] |]; [| done].
    assert (v4InV6Prefix ++ drop 12 ip = ip) as ->.
    { rewrite <- E2. apply take_drop. }
    rewrite decide_True by done. by apply bool_decide_eq_true.
Qed.

(** An IPv4 address written to JSON reads back as an equal address, in its
    sixteen-byte form; no address is written as null, which does not read back. *)
Theorem IP_JSON_roundtrip (ip : IP) (old : IPj) :
  (To4 ip ≠ [] → ∃ ip', IP_UnmarshalJSON (IP_MarshalJSON (mkIP ip)) old = (mkIP ip', None) ∧ IP_Equal ip ip' = true)
  ∧ IP_UnmarshalJSON (IP_MarshalJSON (mkIP [])) old = (mkIP [], Some (Errorf "types: invalid IP")).
Proof.
  split; [| done]. intros H. exists (v4InV6Prefix ++ To4 ip). split; [| by apply IP_Equal_v4InV6].
  unfold IP_UnmarshalJSON, IP_MarshalJSON. cbn [ip_IP]. rewrite decide_False by (by intros ->).
  cbn [dec_string]. unfold IP_String. rewrite s2b_b2s, IP_bytes_dotted by done.
  destruct (length_4 (To4 ip) (To4_nonempty _ H)) as (a & b & c & d & E).
  rewrite E, ParseIP_dotted. done.
Qed.

(** A network as [ParseCIDR] makes it: a masked IPv4 address. *)
Definition v4_net (n : nat) (ip : IP) : IPNet := {| IPNet_IP := ip; IPNet_Mask := CIDRMask n 32 |}.

Lemma below_33 (P : nat → bool) n : forallb P (seq 0 33) = true → n ≤ 32 → P n = true.
Proof.
  intros H Hn. eapply forallb_forall; [exact H |]. apply in_seq. lia.
Qed.

Lemma CIDRMask_facts n : n ≤ 32 →
  length (CIDRMask n 32) = 4 ∧ simple_len (bits_of (CIDRMask n 32)) = Some n
  ∧ dtoi (s2b (fmt_d (Z.of_nat n))) = Some (Z.of_nat n, []).
Proof.
  intros Hn. set (P := λ n, bool_decide (simple_len (bits_of (CIDRMask n 32)) = Some n
     ∧ dtoi (s2b (fmt_d (Z.of_nat n))) = Some (Z.of_nat n, []))).
  assert (P n = true) as H by (apply (below_33 P); [vm_compute; reflexivity | done]).
  apply bool_decide_eq_true in H as [H1 H2]. done.
Qed.

Lemma dotted_no_slash a b c d : slash ∉ dotted [a; b; c; d].
Proof.
  assert (∀ b, slash ∉ dec_byte b) as Hs.
  { intros x. apply has_false. destruct x; reflexivity. }
  pose proof (Hs a). pose proof (Hs b). pose proof (Hs c). pose proof (Hs d).
  assert (slash ≠ dot) by done. unfold dotted. set_solver.
Qed.

Lemma IPNet_String_v4 n ip : n ≤ 32 → length ip = 4 →
  s2b (IPNet_String (v4_net n ip)) = dotted ip ++ slash :: s2b (fmt_d (Z.of_nat n)).
Proof.
  intros Hn Hip. destruct (CIDRMask_facts n Hn) as (Hl & Hs & _).
  unfold IPNet_String, v4_net. cbn [IPNet_IP IPNet_Mask]. rewrite To4_v4 by done.
  rewrite (decide_True (P := length ip = 4)) by done.
  rewrite (decide_False (P := _ ∧ _)) by lia. rewrite (decide_False (P := _ ∨ _)) by lia. rewrite Hs.
  rewrite !s2b_app. unfold IP_String. rewrite s2b_b2s, IP_bytes_dotted; rewrite To4_v4 by done.
  - done.
  - by intros ->.
Qed.

(** An IPv4 network in the form [ParseCIDR] yields (its address masked)
    survives the JSON round trip. *)
Theorem IPNet_JSON_roundtrip (n : nat) (ip : IP) (old : IPNetj) :
  n ≤ 32 → length ip = 4 → IP_Mask ip (CIDRMask n 32) = ip →
  IPNet_UnmarshalJSON (IPNet_MarshalJSON (mkIPNet (Some (v4_net n ip)))) old = (mkIPNet (Some (v4_net n ip)), None).
Proof.
  intros Hn Hip Hm. destruct (CIDRMask_facts n Hn) as (Hl & _ & Hd).
  unfold IPNet_UnmarshalJSON, IPNet_MarshalJSON. cbn [ipnet_IPNet dec_string].
  rewrite IPNet_String_v4 by done. unfold ParseCIDR_bytes.
  destruct (length_4 ip Hip) as (a & b & c & d & ->).
  rewrite index_split_at by apply dotted_no_slash. rewrite parseIPv4_dotted, Hd.
  rewrite decide_False by lia. rewrite Nat2Z.id. change (8 * 4) with 32.
  do 2 f_equal. unfold v4_net. f_equal. f_equal. etrans; [| exact Hm]. unfold IP_Mask.
  rewrite !Hl. done.
Qed.

Lemma IPNet_JSON_roundtrip_witness :
  IPNet_UnmarshalJSON (JStr "10.1.0.0/16") zero = (mkIPNet (Some (v4_net 16 [x0a; x01; x00; x00])), None).
Proof.
  apply (IPNet_JSON_roundtrip 16 [x0a; x01; x00; x00] zero); [lia | reflexivity | vm_compute; reflexivity].
Defined.

(** ** Times

    A time is its Unix second and the nanoseconds within it. *)
(* @slingshot/types/time.go:8-10 Time *)
Record Time := mkTime { Unix : Z; Nanosecond : Z }.
#[export] Instance zero_Time : Zero Time := mkTime (-62135596800) 0.

Definition time_Microsecond : Z := 1000.

(* @slingshot/types/time.go:12-16 Time.MarshalJSON *)
Definition Time_MarshalJSON (t : Time) : json :=
  let epocMicroS := wrap64 (Unix t * time_Microsecond) in JNum epocMicroS.

(** Go's division truncates. *)
(* @slingshot/types/time.go:18-27 Time.UnmarshalJSON *)
Definition Time_UnmarshalJSON (j : json) (t : Time) : Time * option error :=
  match dec_int64 j 0%Z with
  | (_, Some e) => (t, Some (derr_error e))
  | (epocMicroS, None) => (mkTime (Z.quot epocMicroS time_Microsecond) 0, None)
  end.
#[export] Instance json_Time : Json Time := {| enc := Time_MarshalJSON; dec := dec_custom Time_UnmarshalJSON |}.

(** [d] is a [time.Duration] in nanoseconds. *)
(* @slingshot/types/time.go:29-31 Time.Add *)
Definition Time_Add (t : Time) (d : Z) : Time :=
  let n := (Nanosecond t + d)%Z in mkTime (Unix t + n / 1000000000)%Z (n mod 1000000000)%Z.

(** A time survives the JSON round trip, cut down to its second, exactly
    when its number of thousandths of a second fits 64 bits. *)
Theorem Time_JSON_roundtrip (t old : Time) :
  int64 (Unix t * 1000) ↔ Time_UnmarshalJSON (Time_MarshalJSON t) old = (mkTime (Unix t) 0, None).
Proof.
  unfold Time_UnmarshalJSON, Time_MarshalJSON, time_Microsecond.
  pose proof (wrap64_int64 (Unix t * 1000)) as Hw.
  unfold dec_int64. rewrite dec_int_in by exact Hw. split.
  - intros H. rewrite wrap64_id by done. by rewrite Z.quot_mul by lia.
  - intros [= H]. unfold int64 in *.
    assert (-9223372036854775 <= Unix t <= 9223372036854775)%Z; [| lia].
    rewrite <- H. generalize dependent (wrap64 (Unix t * 1000)). intros w Hw _.
    Z.to_euclidean_division_equations. lia.
Qed.

(** ** Requests and documents *)
(* @slingshot/types/types.go:7-10 AcquireLeaseRequest *)
Record AcquireLeaseRequest := { acq_Kind : string; acq_MAC : MAC }.
#[export] Instance eta_AcquireLeaseRequest : Eta AcquireLeaseRequest := λ r, {| acq_Kind := acq_Kind r; acq_MAC := acq_MAC r |}.

(* @slingshot/types/types.go:12-19 NewAcquireLeaseRequest *)
Definition NewAcquireLeaseRequest (mac : MAC) : AcquireLeaseRequest :=
  {| acq_Kind := "com:vmware:photon:controller:cloudstore:dcp:entity:DhcpSubnetService:AcquireLeaseRequest";
     acq_MAC := mac |}.
Definition AcquireLeaseRequest_fields : list (field AcquireLeaseRequest) :=
  [ plain "kind" acq_Kind (λ x r, r <| acq_Kind := x |>) enc dec;
    plain "mac" acq_MAC (λ x r, r <| acq_MAC := x |>) enc dec ].
#[export] Instance json_AcquireLeaseRequest : Json AcquireLeaseRequest :=
  {| enc := enc_struct AcquireLeaseRequest_fields; dec := dec_struct "types.AcquireLeaseRequest" AcquireLeaseRequest_fields |}.

(* @slingshot/types/types.go:21-24 ReleaseLeaseRequest *)
Record ReleaseLeaseRequest := { rel_Kind : string; rel_MAC : MAC }.
#[export] Instance eta_ReleaseLeaseRequest : Eta ReleaseLeaseRequest := λ r, {| rel_Kind := rel_Kind r; rel_MAC := rel_MAC r |}.

(* @slingshot/types/types.go:26-33 NewReleaseLeaseRequest *)
Definition NewReleaseLeaseRequest (mac : MAC) : ReleaseLeaseRequest :=
  {| rel_Kind := "com:vmware:photon:controller:cloudstore:dcp:entity:DhcpSubnetService:ReleaseLeaseRequest";
     rel_MAC := mac |}.
Definition ReleaseLeaseRequest_fields : list (field ReleaseLeaseRequest) :=
  [ plain "kind" rel_Kind (λ x r, r <| rel_Kind := x |>) enc dec;
    plain "mac" rel_MAC (λ x r, r <| rel_MAC := x |>) enc dec ].
#[export] Instance json_ReleaseLeaseRequest : Json ReleaseLeaseRequest :=
  {| enc := enc_struct ReleaseLeaseRequest_fields; dec := dec_struct "types.ReleaseLeaseRequest" ReleaseLeaseRequest_fields |}.

(* @slingshot/types/types.go:43-46 Range *)
Record Range := { range_Low : IPj; range_High : IPj }.
#[export] Instance eta_Range : Eta Range := λ r, {| range_Low := range_Low r; range_High := range_High r |}.
#[export] Instance zero_Range : Zero Range := {| range_Low := zero; range_High := zero |}.
Definition Range_fields : list (field Range) :=
  [ plain "low" range_Low (λ x r, r <| range_Low := x |>) enc dec;
    plain "high" range_High (λ x r, r <| range_High := x |>) enc dec ].
#[export] Instance json_Range : Json Range :=
  {| enc := enc_struct Range_fields; dec := dec_struct "types.Range" Range_fields |}.

(* @slingshot/types/types.go:35-41 Subnet *)
Record Subnet := {
  sub_ServiceDocument : ServiceDocument;
  sub_ID : string;
  sub_Subnet : IPNetj;
  sub_Ranges : list Range
}.
#[export] Instance eta_Subnet : Eta Subnet := λ s,
  {| sub_ServiceDocument := sub_ServiceDocument s; sub_ID := sub_ID s; sub_Subnet := sub_Subnet s; sub_Ranges := sub_Ranges s |}.
#[export] Instance zero_Subnet : Zero Subnet :=
  {| sub_ServiceDocument := zero; sub_ID := ""; sub_Subnet := zero; sub_Ranges := [] |}.
Definition Subnet_fields : list (field Subnet) :=
  (embed sub_ServiceDocument (λ x s, s <| sub_ServiceDocument := x |>) <$> ServiceDocument_fields)
  ++ [ plain "id" sub_ID (λ x s, s <| sub_ID := x |>) enc dec;
       plain "subnetAddress" sub_Subnet (λ x s, s <| sub_Subnet := x |>) enc dec;
       plain "ranges" sub_Ranges (λ x s, s <| sub_Ranges := x |>) (enc_list enc) (dec_list "[]types.Range" dec) ].
#[export] Instance json_Subnet : Json Subnet :=
  {| enc := enc_struct Subnet_fields; dec := dec_struct "types.Subnet" Subnet_fields |}.

(** [omitempty] has no effect on the address: a struct is never empty. *)
(* @slingshot/types/types.go:48-56 Lease *)
Record Lease := {
  lease_ServiceDocument : ServiceDocument;
  lease_IP : IPj;
  lease_MAC : MAC;
  lease_NetworkDescriptionLink : string;
  lease_Description : Subnet
}.
#[export] Instance eta_Lease : Eta Lease := λ l,
  {| lease_ServiceDocument := lease_ServiceDocument l; lease_IP := lease_IP l; lease_MAC := lease_MAC l;
     lease_NetworkDescriptionLink := lease_NetworkDescriptionLink l; lease_Description := lease_Description l |}.
#[export] Instance zero_Lease : Zero Lease :=
  {| lease_ServiceDocument := zero; lease_IP := zero; lease_MAC := zero; lease_NetworkDescriptionLink := "";
     lease_Description := zero |}.
Definition Lease_fields : list (field Lease) :=
  (embed lease_ServiceDocument (λ x l, l <| lease_ServiceDocument := x |>) <$> ServiceDocument_fields)
  ++ [ plain "ip" lease_IP (λ x l, l <| lease_IP := x |>) enc dec;
       plain "mac" lease_MAC (λ x l, l <| lease_MAC := x |>) enc dec;
       plain "networkDescriptionLink" lease_NetworkDescriptionLink (λ x l, l <| lease_NetworkDescriptionLink := x |>) enc dec;
       plain "description" lease_Description (λ x l, l <| lease_Description := x |>) enc dec ].
#[export] Instance json_Lease : Json Lease :=
  {| enc := enc_struct Lease_fields; dec := dec_struct "types.Lease" Lease_fields |}.

(* @slingshot/types/types.go:58-72 Configuration *)
Record Configuration := {
  conf_ServiceDocument : ServiceDocument;
  conf_Enabled : bool;
  conf_Image : string;
  conf_LeaseTimeSec : Z;
  conf_Routers : list IPj;
  conf_NameServers : list IPj;
  conf_Data : gmap string string
}.
#[export] Instance eta_Configuration : Eta Configuration := λ c,
  {| conf_ServiceDocument := conf_ServiceDocument c; conf_Enabled := conf_Enabled c; conf_Image := conf_Image c;
     conf_LeaseTimeSec := conf_LeaseTimeSec c; conf_Routers := conf_Routers c; conf_NameServers := conf_NameServers c;
     conf_Data := conf_Data c |}.
#[export] Instance zero_Configuration : Zero Configuration :=
  {| conf_ServiceDocument := zero; conf_Enabled := false; conf_Image := ""; conf_LeaseTimeSec := 0;
     conf_Routers := []; conf_NameServers := []; conf_Data := ∅ |}.
Definition Configuration_fields : list (field Configuration) :=
  (embed conf_ServiceDocument (λ x c, c <| conf_ServiceDocument := x |>) <$> ServiceDocument_fields)
  ++ [ plain "isEnabled" conf_Enabled (λ x c, c <| conf_Enabled := x |>) enc dec;
       omitempty "hostBootImageReference" conf_Image (λ x c, c <| conf_Image := x |>) str_empty enc dec;
       omitempty "leaseDurationTimeMicros" conf_LeaseTimeSec (λ x c, c <| conf_LeaseTimeSec := x |>) int_empty JNum dec_uint64;
       omitempty "routerAddresses" conf_Routers (λ x c, c <| conf_Routers := x |>) list_empty (enc_list enc) (dec_list "[]types.IP" dec);
       omitempty "nameServerAddresses" conf_NameServers (λ x c, c <| conf_NameServers := x |>) list_empty (enc_list enc) (dec_list "[]types.IP" dec);
       omitempty "data" conf_Data (λ x c, c <| conf_Data := x |>) (λ m, Nat.eqb (size m) 0) (enc_map enc) (dec_map "map[string]string" dec) ].
#[export] Instance json_Configuration : Json Configuration :=
  {| enc := enc_struct Configuration_fields; dec := dec_struct "types.Configuration" Configuration_fields |}.

(** What a decode over an old configuration leaves: keys that are absent keep
    their old value, which is how a node's configuration overrides its
    subnet's. *)
Example Configuration_override :
  let old := zero <| conf_Enabled := true |> <| conf_LeaseTimeSec := 1200%Z |> in
  dec (JObj [("hostBootImageReference", JStr "img")]) old
  = (old <| conf_Image := "img" |>, None).
Proof. reflexivity. Qed.

Lemma omap_names {A} (a : A) fs : (omap (λ f, pair (f_name f) <$> f_enc f a) fs).*1 ⊆ f_name <$> fs.
Proof.
  induction fs as [| f fs IH]; simpl; [done |]. destruct (f_enc f a); simpl; set_solver.
Qed.

(** Addresses in the form [ParseIP] yields. *)
Definition ip_canonical (ip : IPj) : Prop := ∃ a b c d, ip = mkIP (IPv4 a b c d).

Lemma ip_canonical_dec ip old : ip_canonical ip → dec (enc ip) old = (ip, None).
Proof.
  intros (a & b & c & d & ->). simpl. unfold dec_custom, IP_UnmarshalJSON, IP_MarshalJSON.
  cbn [ip_IP]. rewrite decide_False by done. cbn [dec_string]. unfold IP_String.
  rewrite s2b_b2s, IP_bytes_dotted by done. rewrite To4_IPv4, ParseIP_dotted. done.
Qed.

Lemma ServiceDocument_faithful d : document_ok d → Forall (faithful d) ServiceDocument_fields.
Proof.
  intros (H1 & H2 & H3). unfold int64 in *.
  repeat constructor; apply omitempty_faithful; intros; done || by apply dec_int_in.
Qed.

Lemma embed_all_faithful {A B} (get : A → B) set fs a :
  Forall (faithful (get a)) fs → Forall (faithful a) (embed get set <$> fs).
Proof. intros H. apply Forall_fmap. eapply Forall_impl; [exact H |]. intros. by apply embed_faithful. Qed.

Definition configuration_ok (c : Configuration) : Prop :=
  document_ok (conf_ServiceDocument c) ∧ (0 ≤ conf_LeaseTimeSec c < 2 ^ 64)%Z
  ∧ Forall ip_canonical (conf_Routers c) ∧ Forall ip_canonical (conf_NameServers c).

Lemma size_empty (m : gmap string string) : Nat.eqb (size m) 0 = true → m = ∅.
Proof. intros H%Nat.eqb_eq. by apply map_size_empty_inv. Qed.

Lemma str_empty_true s : str_empty s = true → s = ""%string.
Proof. apply String.eqb_eq. Qed.
Lemma int_empty_true z : int_empty z = true → z = 0%Z.
Proof. apply Z.eqb_eq. Qed.
Lemma list_empty_true {A} (l : list A) : list_empty l = true → l = [].
Proof. by destruct l. Qed.

(** One field after the other; an omitted field is zero on both sides. *)
Ltac copy_fields :=
  repeat first
    [ rewrite copied_plain
    | rewrite copied_omitempty by
        (let H := fresh in intros H;
         first [apply str_empty_true in H | apply int_empty_true in H | apply list_empty_true in H
               | apply size_empty in H]; simpl in H; rewrite H; reflexivity) ].

Lemma ServiceDocument_copied d : copied d ServiceDocument_fields zero = d.
Proof. destruct d. unfold ServiceDocument_fields. copy_fields. reflexivity. Qed.

Lemma list_ip_dec (l old : list IPj) : Forall ip_canonical l →
  dec_list "[]types.IP" dec (enc_list enc l) old = (l, None).
Proof.
  intros H. apply dec_enc_list. intros a b Ha. apply ip_canonical_dec.
  rewrite Forall_forall in H. auto.
Qed.

(** A node configuration survives the JSON round trip into a fresh
    variable, with every omitted field back at its zero value. *)
Theorem Configuration_roundtrip (c : Configuration) :
  configuration_ok c → Unmarshal_new (enc c) = Ok c.
Proof.
  intros (Hd & Hl & Hr & Hn). apply Unmarshal_new_ok.
  change (dec (enc c) zero) with (dec_struct "types.Configuration" Configuration_fields (enc_struct Configuration_fields c) zero).
  rewrite dec_enc_struct.
  - f_equal. unfold Configuration_fields. rewrite copied_app, copied_embed by (first [done | by intros []]).
    destruct c as [d en im le ro na da]. cbn [conf_ServiceDocument].
    change (conf_ServiceDocument zero) with (zero : ServiceDocument). rewrite ServiceDocument_copied.
    copy_fields. reflexivity.
  - apply (bool_decide_unpack _). vm_compute. exact I.
  - apply faithful_app; [by apply faithful_all, embed_all_faithful, ServiceDocument_faithful |].
    rewrite copied_embed by (first [done | by intros []]).
    change (conf_ServiceDocument zero) with (zero : ServiceDocument). rewrite ServiceDocument_copied.
    apply (faithful_app c [_; _; _; _; _] [_]).
    + apply faithful_all. repeat constructor; first [apply plain_faithful | apply omitempty_faithful]; intros; try done.
      * apply dec_int_in. lia.
      * by apply list_ip_dec.
      * by apply list_ip_dec.
    + split; [| exact I]. intros j. destruct c as [d en im le ro na da]. copy_fields.
      simpl. destruct (Nat.eqb (size da) 0); [done |]. intros [= <-].
      unfold lift_dec. change (enc_map enc da) with (enc_map JStr da).
      rewrite (dec_enc_map "map[string]string" JStr dec_string); done.
Qed.

Lemma Configuration_roundtrip_witness :
  let c := zero <| conf_Enabled := true |> <| conf_LeaseTimeSec := 1200%Z |>
                <| conf_Routers := [mkIP (IPv4 x0a x00 x00 x01)] |> <| conf_Data := {[ "k" := "v" ]} |> in
  Unmarshal_new (enc c) = Ok c.
Proof.
  apply Configuration_roundtrip. unfold configuration_ok, document_ok, int64. simpl. split_and!; try lia.
  - constructor; [| constructor]. repeat eexists.
  - constructor.
Defined.
