(* ===== verification/Lease.v ===== *)
(** The services behind DHCP leases: [bmp/provisioning/lease.go] and
    [slingshot/bmp] (the client of the remote store), and package
    [slingshot/lease] (what a DHCP transaction is told to hand out). *)

From S2P Require Import Prelude GoPath GoNet GoJson GoURL DcpCommon DcpUri Operation Client SlingTypes.
From Stdlib Require Import ZArith Lia.

(** ** The store a lease manager relies on *)
(* @slingshot/lease/manager.go:15-18 Store *)
Class Store (S W : Type) := {
  LoadConfiguration : S → string → Configuration → W → outcome (Configuration * option error * W);
  AcquireLease : S → string → MAC → W → outcome (res Lease * W)
}.

(** ** The remote store *)
Section remote.
Context `{GoTypes} {W : Type} `{Network W} (now : Z) (dcp : AddressFlag).
Context `{!Embeds AcquireLeaseRequest} `{!Embeds Lease} `{!Embeds Configuration} `{!Embeds Subnet} `{!Embeds (ServiceDocumentQueryResult Subnet)}.

(* @bmp/provisioning/lease.go:12-24 AcquireLease *)
Definition provisioning_AcquireLease (ctx : Context) (subnetURI : URI) (mac : MAC) (w : W) : outcome (res Lease * W) :=
  let req := NewAcquireLeaseRequest mac in
  let op := SetBody (ValueOf req) (NewPatch now ctx subnetURI BNil) in
  out_bind (exchange op (zero : Lease) w) (λ '(out, err, w), Ret (as_res (out, err), w)).

(* @bmp/provisioning/lease.go:26-39 PatchLease *)
Definition PatchLease (ctx : Context) (lease : Lease) (w : W) : outcome (res Lease * W) :=
  match Local_ dcp with
  | None => Panic
  | Some u =>
      let leaseURI := Extend u (sd_SelfLink (lease_ServiceDocument lease)) in
      let op := SetBody (ValueOf lease) (NewPatch now ctx leaseURI BNil) in
      out_bind (exchange op (zero : Lease) w) (λ '(out, err, w), Ret (as_res (out, err), w))
  end.

(** *** [slingshot/bmp/bmp.go] *)
(* @slingshot/bmp/bmp.go:20-25 CloudStorePath *)
Definition CloudStorePath : string := "/photon/cloudstore".
Definition SubnetPath : string := CloudStorePath +:+ "/dhcp-subnets".
Definition LeasePath : string := CloudStorePath +:+ "/dhcp-leases".
Definition ConfigurationPath : string := CloudStorePath +:+ "/dhcp-host-configuration".

Definition QueryExpand : string := "expand".
Definition QueryDocumentSelfLinkLink : string := "documentSelfLink".

(* @slingshot/bmp/bmp.go:27-29 Client *)
Record Client := { URI_ : URI }.

(* @slingshot/bmp/bmp.go:31-34 NewClient *)
Definition NewClient : outcome Client :=
  match New "172.31.253.66" "19000" with Some u => Ret {| URI_ := u |} | None => Panic end.

Definition net_string (n : IPNetj) : outcome string :=
  match ipnet_IPNet n with Some n => Ret (IPNet_String n) | None => Panic end.

(** The body is a buffer with the JSON of the subnet. *)
(* @slingshot/bmp/bmp.go:37-59 Client.CreateSubnet *)
Definition CreateSubnet (b : Client) (s : Subnet) (w : W) : outcome (res Subnet * W) :=
  out_bind (if str_empty (sd_SelfLink (sub_ServiceDocument s)) then
              out_bind (net_string (sub_Subnet s)) (λ l,
                Ret (s <| sub_ServiceDocument := (sub_ServiceDocument s) <| sd_SelfLink := l |> |>))
            else Ret s) (λ s,
  let u := Extend (URI_ b) SubnetPath in
  let op := NewPost now Background u (BBuffer (TJson (enc s))) in
  out_bind (exchange op (zero : Subnet) w) (λ '(out, err, w), Ret (as_res (out, err), w))).

(** [order] is the order in which Go iterates over the map of documents. *)
(* @slingshot/bmp/bmp.go:62-87 Client.ListSubnets *)
Definition ListSubnets (order : list string) (b : Client) (w : W) : outcome (res (list Subnet) * W) :=
  let u := Extend (URI_ b) SubnetPath in
  let u := ExtendQuery u QueryExpand QueryDocumentSelfLinkLink in
  out_bind (exchange (NewGet now Background u) (zero : ServiceDocumentQueryResult Subnet) w) (λ '(s, err, w),
    match err with
    | Some e => Ret (Err e, w)
    | None => Ret (Ok (omap (λ k, qr_Documents s !! k) order), w)
    end).

(* @slingshot/bmp/bmp.go:92-96 Client.AcquireLease *)
Definition bmp_AcquireLease (b : Client) (subnetSelfLink : string) (mac : MAC) (w : W) : outcome (res Lease * W) :=
  provisioning_AcquireLease Background (Extend (URI_ b) subnetSelfLink) mac w.

(* @slingshot/bmp/bmp.go:99-108 Client.LoadConfiguration *)
Definition bmp_LoadConfiguration (b : Client) (id : string) (configuration : Configuration) (w : W) : outcome (Configuration * option error * W) :=
  let u := Extend (URI_ b) (path_Join ConfigurationPath id) in
  exchange (NewGet now Background u) configuration w.

#[export] Instance bmp_store : Store Client W :=
  {| LoadConfiguration := bmp_LoadConfiguration; AcquireLease := bmp_AcquireLease |}.
End remote.

(** ** Lease managers ([slingshot/lease/manager.go]) *)
(* @slingshot/lease/manager.go:20-22 ClientMAC *)
Definition ClientMAC (chaddr : HardwareAddr) : MAC := mkMAC chaddr.

(* @slingshot/lease/manager.go:24-33 Manager *)
Record Manager (S : Type) := { m_store : S; m_subnet : Subnet; m_ip : IP; m_id : string }.
Arguments m_store {S} _.
Arguments m_subnet {S} _.
Arguments m_ip {S} _.
Arguments m_id {S} _.

Section manager.
Context {S W : Type} `{Store S W}.

(** [new] is [bmp.NewClient()]. *)
(* @slingshot/lease/manager.go:37-47 NewManager *)
Definition NewManager (new : S) (id : string) (subnet : Subnet) (ip : IP) : Manager S :=
  {| m_store := new; m_subnet := subnet; m_ip := ip; m_id := id |}.

(* @slingshot/lease/manager.go:49-66 Manager.getConfiguration *)
Definition getConfiguration (m : Manager S) (mac : MAC) (w : W) : outcome (res Configuration * W) :=
  out_bind (net_string (sub_Subnet (m_subnet m))) (λ net,
  out_bind (LoadConfiguration (m_store m) net zero w) (λ '(c, err, w),
    match err with
    | Some e => Ret (Err (Errorf ("error getting subnet (" +:+ net +:+ ") configuration: " +:+ Error e)), w)
    | None =>
        let c := c <| conf_LeaseTimeSec := 1200%Z |> in
        out_bind (LoadConfiguration (m_store m) (MAC_String mac) c w) (λ '(c, _, w), Ret (Ok c, w))
    end)).

(* @slingshot/lease/manager.go:68-88 Manager.Get *)
Definition Get (m : Manager S) (mac : MAC) (w : W) : outcome (res (Subnet * Lease * Configuration) * W) :=
  out_bind (getConfiguration m mac w) (λ '(r, w),
    match r with
    | Err e => Ret (Err e, w)
    | Ok configuration =>
        if negb (conf_Enabled configuration) then Ret (Err (Errorf ("dhcp disabled for " +:+ MAC_String mac)), w)
        else
          out_bind (AcquireLease (m_store m) (sd_SelfLink (sub_ServiceDocument (m_subnet m))) mac w) (λ '(l, w),
            match l with
            | Err e => Ret (Err e, w)
            | Ok lease => Ret (Ok (m_subnet m, lease, configuration), w)
            end)
    end).

(* @slingshot/lease/manager.go:90-92 Manager.MyIP *)
Definition MyIP (m : Manager S) : IP := m_ip m.

(** ** The factory of lease managers ([slingshot/lease/manager_factory.go]) *)
(* @slingshot/lease/manager_factory.go:17-26 ManagerFactory *)
Record ManagerFactory := { mf_id : string; mf_m : gmap Z (Manager S) }.

(* @slingshot/lease/manager_factory.go:28-34 NewManagerFactory *)
Definition NewManagerFactory (id : string) : ManagerFactory := {| mf_id := id; mf_m := ∅ |}.

(** The subnets the store lists, and the addresses of an interface. *)
Context (list_subnets : W → outcome (res (list Subnet) * W)) (InterfaceAddrs : Z → res (list IP)) (new_store : S).

Fixpoint first_containing (ip : IP) (l : list Subnet) : outcome (option Subnet) :=
  match l with
  | [] => Ret None
  | s :: l =>
      match ipnet_IPNet (sub_Subnet s) with
      | None => Panic
      | Some n => if IPNet_Contains n ip then Ret (Some s) else first_containing ip l
      end
  end.

(* @slingshot/lease/manager_factory.go:36-49 ManagerFactory.findSubnetForIP *)
Definition findSubnetForIP (ip : IP) (w : W) : outcome (res Subnet * W) :=
  out_bind (list_subnets w) (λ '(r, w),
    match r with
    | Err e => Ret (Err e, w)
    | Ok subnets =>
        out_bind (first_containing ip subnets) (λ s,
          Ret (match s with
               | Some s => Ok s
               | None => Err (Errorf ("no subnet for ip: " +:+ IP_String ip))
               end, w))
    end).

Fixpoint first_ipv4 (addrs : list IP) : IP :=
  match addrs with [] => [] | a :: addrs => if decide (To4 a ≠ []) then To4 a else first_ipv4 addrs end.

(* @slingshot/lease/manager_factory.go:51-76 ManagerFactory.findAddrForInterface *)
Definition findAddrForInterface (ifindex : Z) : res IP :=
  a :=? InterfaceAddrs ifindex;;
  let ip := first_ipv4 a in
  if decide (ip = []) then Err (Errorf "no ipv4 address on interface") else Ok ip.

(* @slingshot/lease/manager_factory.go:78-98 ManagerFactory.createManagerForIP *)
Definition createManagerForIP (f : ManagerFactory) (ifindex : Z) (ip : IP) (w : W) : outcome (res (Manager S) * ManagerFactory * W) :=
  out_bind (findSubnetForIP ip w) (λ '(r, w),
    match r with
    | Err e => Ret (Err e, f, w)
    | Ok s =>
        let l := NewManager new_store (mf_id f) s ip in
        Ret (Ok l, {| mf_id := mf_id f; mf_m := <[ifindex := l]> (mf_m f) |}, w)
    end).

(** [singleflight.Do] runs its function when no other call for the same key is
    under way: calls here are one after the other. *)
(* @slingshot/lease/manager_factory.go:100-123 ManagerFactory.LeaseManager *)
Definition LeaseManager (f : ManagerFactory) (ifindex : Z) (w : W) : outcome (res (Manager S) * ManagerFactory * W) :=
  match mf_m f !! ifindex with
  | Some l => Ret (Ok l, f, w)
  | None =>
      match findAddrForInterface ifindex with
      | Err e => Ret (Err e, f, w)
      | Ok ip => createManagerForIP f ifindex ip w
      end
  end.
End manager.

(** ** An in-memory store ([slingshot/bmp/test_bmp.go])

    The store the managers are exercised with: leases by subnet, in order. *)
(* @slingshot/bmp/test_bmp.go:5-9 TestStore *)
Record TestStore := {
  Leases : gmap string (list Lease);
  Subnets : gmap string Subnet;
  Configurations : gmap string Configuration
}.
#[export] Instance eta_TestStore : Eta TestStore := λ s,
  {| Leases := Leases s; Subnets := Subnets s; Configurations := Configurations s |}.

(* @slingshot/bmp/test_bmp.go:11-17 NewTestStore *)
Definition NewTestStore : TestStore := {| Leases := ∅; Subnets := ∅; Configurations := ∅ |}.

(* @slingshot/bmp/test_bmp.go:19-21 TestStore.ListLeases *)
Definition ListLeases (subnetID : string) (s : TestStore) : list Lease := default [] (Leases s !! subnetID).

(** The last lease of the address. *)
Definition find_lease (mac : MAC) (l : list Lease) : option Lease := last (filter (λ e, MAC_Equal (lease_MAC e) mac = true) l).

(* @slingshot/bmp/test_bmp.go:23-49 TestStore.AcquireLease *)
Definition test_AcquireLease (subnetSelfLink : string) (mac : MAC) (s : TestStore) : Lease * TestStore :=
  let leases := ListLeases subnetSelfLink s in
  match find_lease mac leases with
  | Some lease => (lease, s)
  | None =>
      let lease := (zero : Lease) <| lease_MAC := mac |> <| lease_NetworkDescriptionLink := subnetSelfLink |> in
      (lease, s <| Leases := <[subnetSelfLink := leases ++ [lease]]> (Leases s) |>)
  end.

(* @slingshot/bmp/test_bmp.go:51-57 TestStore.LoadConfiguration *)
Definition test_LoadConfiguration (id : string) (configuration : Configuration) (s : TestStore) : Configuration :=
  match Configurations s !! id with Some c => c | None => configuration end.

(* @slingshot/bmp/test_bmp.go:60-63 TestStore.CreateSubnet *)
Definition test_CreateSubnet (net : string) (sub : Subnet) (s : TestStore) : TestStore := s <| Subnets := <[net := sub]> (Subnets s) |>.

#[export] Instance test_store : Store () TestStore :=
  {| LoadConfiguration := λ _ id c s, Ret (test_LoadConfiguration id c s, None, s);
     AcquireLease := λ _ l mac s, let '(lease, s) := test_AcquireLease l mac s in Ret (Ok lease, s) |}.

(** ** Properties *)

Lemma find_lease_app mac l e : lease_MAC e = mac → find_lease mac (l ++ [e]) = Some e.
Proof.
  intros He. unfold find_lease. rewrite filter_app, filter_cons_True, filter_nil.
  - apply last_snoc.
  - unfold MAC_Equal. rewrite He. by apply bool_decide_eq_true.
Qed.

(** Acquiring a lease for the same address on the same subnet again gives the
    same lease and leaves the store alone; the lease is for that address, and
    leases of other subnets are untouched. *)
Theorem AcquireLease_idempotent (link other : string) (mac : MAC) (s : TestStore) :
  let '(lease, s1) := test_AcquireLease link mac s in
  lease_MAC lease = mac ∧ test_AcquireLease link mac s1 = (lease, s1)
  ∧ (other ≠ link → ListLeases other s1 = ListLeases other s).
Proof.
  unfold test_AcquireLease at 1. destruct (find_lease mac (ListLeases link s)) as [lease |] eqn:E.
  - split_and!; [| unfold test_AcquireLease; by rewrite E | done].
    unfold find_lease in E. apply last_Some_elem_of in E. apply list_elem_of_filter in E as [E _].
    unfold MAC_Equal in E. apply bool_decide_eq_true in E. destruct (lease_MAC lease), mac. simpl in E. by subst.
  - split_and!; [done | | unfold ListLeases; simpl; intros; by rewrite lookup_insert_ne].
    set (lease := _ <| lease_NetworkDescriptionLink := _ |>). set (s1 := s <| Leases := _ |>).
    unfold test_AcquireLease. assert (ListLeases link s1 = ListLeases link s ++ [lease]) as ->.
    { unfold ListLeases at 1, s1. simpl. by rewrite lookup_insert_eq. }
    by rewrite find_lease_app.
Qed.

Section manager_props.
Context {S W : Type} `{Store S W}.

(** A manager hands out a lease only when the configuration says so.  The
    configuration is the subnet's with a lease time of 1200 seconds, overridden
    by what the store has for the node, whether or not it has anything.  When
    DHCP is disabled, or the subnet's configuration cannot be loaded, no lease is
    acquired. *)
Theorem Get_spec (m : Manager S) (mac : MAC) (w w1 w2 : W) (net : IPNet) (c1 c2 : Configuration) (e1 e2 : option error) :
  ipnet_IPNet (sub_Subnet (m_subnet m)) = Some net →
  LoadConfiguration (m_store m) (IPNet_String net) zero w = Ret (c1, e1, w1) →
  LoadConfiguration (m_store m) (MAC_String mac) (c1 <| conf_LeaseTimeSec := 1200%Z |>) w1 = Ret (c2, e2, w2) →
  Get m mac w =
    match e1 with
    | Some e => Ret (Err (Errorf ("error getting subnet (" +:+ IPNet_String net +:+ ") configuration: " +:+ Error e)), w1)
    | None =>
        if conf_Enabled c2 then
          out_bind (AcquireLease (m_store m) (sd_SelfLink (sub_ServiceDocument (m_subnet m))) mac w2) (λ '(l, w3),
            Ret (res_map (λ l, (m_subnet m, l, c2)) l, w3))
        else Ret (Err (Errorf ("dhcp disabled for " +:+ MAC_String mac)), w2)
    end.
Proof.
  intros Hn H1 H2. unfold Get, getConfiguration, net_string. rewrite Hn. cbn [out_bind]. rewrite H1. cbn [out_bind].
  destruct e1 as [e |]; cbn [out_bind]; [done |]. rewrite H2. cbn [out_bind].
  destruct (conf_Enabled c2); cbn [negb]; [| done].
  destruct (AcquireLease _ _ _ _) as [[[l | e] w3] |]; done.
Qed.

Context (list_subnets : W → outcome (res (list Subnet) * W)) (InterfaceAddrs : Z → res (list IP)) (new_store : S).

(** Once a lease manager was found for an interface it is kept: later calls
    return the same manager without asking anyone, and other interfaces keep
    theirs; a failure is not kept. *)
Theorem LeaseManager_cached (f f' : ManagerFactory) (i j : Z) (w w' w2 : W) (r : res (Manager S)) :
  LeaseManager list_subnets InterfaceAddrs new_store f i w = Ret (r, f', w') →
  match r with
  | Ok l => LeaseManager list_subnets InterfaceAddrs new_store f' i w2 = Ret (Ok l, f', w2)
      ∧ (j ≠ i → mf_m f' !! j = mf_m f !! j)
  | Err _ => f' = f
  end.
Proof.
  unfold LeaseManager at 1. destruct (mf_m f !! i) as [l |] eqn:E.
  - intros [= <- <- <-]. split; [| done]. unfold LeaseManager. by rewrite E.
  - destruct (findAddrForInterface InterfaceAddrs i) as [ip | e]; [| by intros [= <- <- <-]].
    unfold createManagerForIP. destruct (findSubnetForIP _ ip w) as [[[s | e] w1] |]; cbn [out_bind]; [| by intros [= <- <- <-] | done].
    intros [= <- <- <-]. split.
    + unfold LeaseManager. simpl. by rewrite lookup_insert_eq.
    + intros Hj. simpl. by rewrite lookup_insert_ne.
Qed.
End manager_props.

(** ** Examples *)
Definition sample_net : IPNet := v4_net 24 [x0a; x00; x00; x00].
Definition sample_subnet : Subnet := (zero : Subnet) <| sub_Subnet := mkIPNet (Some sample_net) |>
  <| sub_ServiceDocument := (zero : ServiceDocument) <| sd_SelfLink := "/subnets/1" |> |>.
Definition sample_mac : MAC := mkMAC [x00; x50; x56; x00; x00; x01].
Definition sample_manager : Manager () := NewManager () "host" sample_subnet [x0a; x00; x00; x01].
Definition sample_conf : Configuration := (zero : Configuration) <| conf_Enabled := true |>.
Definition sample_store : TestStore := NewTestStore <| Configurations := {[ "10.0.0.0/24"%string := sample_conf ]} |>.

Lemma Get_spec_witness :
  Get sample_manager sample_mac sample_store
  = let '(l, s) := test_AcquireLease "/subnets/1" sample_mac sample_store in
    Ret (Ok (sample_subnet, l, sample_conf <| conf_LeaseTimeSec := 1200%Z |>), s).
Proof.
  etrans.
  - apply (Get_spec sample_manager sample_mac sample_store sample_store sample_store sample_net sample_conf
      (sample_conf <| conf_LeaseTimeSec := 1200%Z |>) None None); [reflexivity | vm_compute; reflexivity | vm_compute; reflexivity].
  - reflexivity.
Defined.

Definition sample_list (s : TestStore) : outcome (res (list Subnet) * TestStore) := Ret (Ok [sample_subnet], s).
Definition sample_addrs (i : Z) : res (list IP) := Ok [[x0a; x00; x00; x05]].

Lemma LeaseManager_cached_witness :
  let f := {| mf_id := "host"; mf_m := {[ 3%Z := NewManager () "host" sample_subnet [x0a; x00; x00; x05] ]} |} in
  LeaseManager sample_list sample_addrs () f 3 sample_store = Ret (Ok (NewManager () "host" sample_subnet [x0a; x00; x00; x05]), f, sample_store)
  ∧ (4 ≠ 3 → mf_m f !! 4 = (∅ : gmap Z (Manager ())) !! 4)%Z.
Proof.
  apply (LeaseManager_cached sample_list sample_addrs () (NewManagerFactory "host") _ 3 4 sample_store sample_store sample_store
    (Ok (NewManager () "host" sample_subnet [x0a; x00; x00; x05]))).
  reflexivity.
Defined.
