(* ===== verification/Tftp.v ===== *)
(** Package [slingshot/image/tftp]: handlers of file requests, and how they
    are combined: by the first element of the path, by overlaying, and over a
    directory of the file system. *)

From S2P Require Import Prelude GoPath GoNet.
From Stdlib Require Import ZArith Lia.

(** ** Handlers ([gotftpd.Handler])

    [W] is what handlers act on.  A file that is read is what its reader
    yields: bytes up to its end, or an error on the way. *)
Record Conn := { LocalAddr : string; RemoteAddr : string }.
Definition ZeroConn : Conn := {| LocalAddr := ""; RemoteAddr := "" |}.
Definition stream : Type := res bytes.

Record Handler (W : Type) := {
  ReadFile : Conn → string → W → res stream * W;
  WriteFile : Conn → string → W → res () * W
}.
Arguments ReadFile {W} _.
Arguments WriteFile {W} _.

(** ** Muxers ([slingshot/image/tftp/muxer.go]) *)
(* @slingshot/image/tftp/muxer.go:36-51 splitPath *)
Definition splitPath (p : bytes) : bytes * bytes :=
  let p := Clean p in
  let p := match p with c :: p' => if decide (c = slash) then p' else p | [] => p end in
  match index_split slash p with
  | None => (p, [])
  | Some (l, r) => (l, r)
  end.

Section handlers.
Context {W : Type}.
Implicit Types (c : Conn) (w : W).

(** A muxer: the handlers by name (lines 19-22). *)
Abbreviation Muxer := (gmap bytes (Handler W)).

(* @slingshot/image/tftp/muxer.go:24-30 NewMuxer *)
Definition NewMuxer : Muxer := ∅.

(* @slingshot/image/tftp/muxer.go:56-73 Muxer.Add *)
Definition Muxer_Add (path : bytes) (h : Handler W) (t : Muxer) : Muxer * option error :=
  let '(head, _) := splitPath path in
  if decide (length head = 0) then (t, Some ErrInvalidPath)
  else match t !! head with
       | Some _ => (t, Some ErrPathExists)
       | None => (<[head := h]> t, None)
       end.

(* @slingshot/image/tftp/muxer.go:75-85 Muxer.findHandler *)
Definition findHandler (head : bytes) (t : Muxer) : res (Handler W) :=
  match t !! head with Some h => Ok h | None => Err ErrNotExist end.

(* @slingshot/image/tftp/muxer.go:87-95 Muxer.ReadFile *)
Definition Muxer_ReadFile (t : Muxer) c (filename : string) w : res stream * W :=
  let '(head, tail) := splitPath (s2b filename) in
  match findHandler head t with
  | Err e => (Err e, w)
  | Ok h => ReadFile h c (b2s tail) w
  end.

(* @slingshot/image/tftp/muxer.go:97-105 Muxer.WriteFile *)
Definition Muxer_WriteFile (t : Muxer) c (filename : string) w : res () * W :=
  let '(head, tail) := splitPath (s2b filename) in
  match findHandler head t with
  | Err e => (Err e, w)
  | Ok h => WriteFile h c (b2s tail) w
  end.

(** ** Overlays ([slingshot/image/tftp/overlay_handler.go]) *)
(* @slingshot/image/tftp/overlay_handler.go:14-24 OverlayHandler.ReadFile *)
Fixpoint Overlay_ReadFile (hs : list (Handler W)) c (filename : string) w : res stream * W :=
  match hs with
  | [] => (Err ErrNotExist, w)
  | h :: hs =>
      match ReadFile h c filename w with
      | (Err e, w) => if decide (e = ErrNotExist) then Overlay_ReadFile hs c filename w else (Err e, w)
      | (Ok rc, w) => (Ok rc, w)
      end
  end.

(* @slingshot/image/tftp/overlay_handler.go:28-30 OverlayHandler.WriteFile *)
Definition Overlay_WriteFile (hs : list (Handler W)) c (filename : string) w : res () * W := (Err ErrPermission, w).

(* @slingshot/image/tftp/overlay_handler.go:9-9 OverlayHandler *)
Definition OverlayHandler (hs : list (Handler W)) : Handler W :=
  {| ReadFile := Overlay_ReadFile hs; WriteFile := Overlay_WriteFile hs |}.

(** ** Directories ([slingshot/image/tftp/path_handler.go]) *)

(** What opening a file may report, as [os.IsExist], [os.IsNotExist] and
    [os.IsPermission] classify it. *)
Inductive os_error := OsExist (msg : string) | OsNotExist (msg : string) | OsPermission (msg : string) | OsOther (msg : string).

Definition O_RDONLY : Z := 0.
Definition O_WRONLY : Z := 1.

(** The opener: the file's contents, as its reader yields them. *)
(* @slingshot/image/tftp/path_handler.go:11-11 PathHandlerOpener *)
Definition PathHandlerOpener : Type := string → Z → Z → W → (stream + os_error) * W.

(* @slingshot/image/tftp/path_handler.go:13-19 PathHandler *)
Record PathHandler := { ph_Path : bytes; ph_FileMode : Z; ph_Opener : option PathHandlerOpener }.

(* @slingshot/image/tftp/path_handler.go:21-27 NewPathHandler *)
Definition NewPathHandler (path : string) : PathHandler := {| ph_Path := s2b path; ph_FileMode := 0; ph_Opener := None |}.

(** The path that is opened; None: permission denied. *)
(* @slingshot/image/tftp/path_handler.go:30-36 PathHandler.open *)
Definition open_path (h : PathHandler) (filename : bytes) : option bytes :=
  let r := Clean (ph_Path h) in
  let s := Clean (Join2 (ph_Path h) filename) in
  if HasPrefix s r then Some s else None.

(** [OpenFile] is the default opener, [os.OpenFile]. *)
Context (OpenFile : PathHandlerOpener).

(* @slingshot/image/tftp/path_handler.go:29-60 PathHandler.open *)
Definition open (h : PathHandler) (filename : bytes) (flag : Z) w : res stream * W :=
  match open_path h filename with
  | None => (Err ErrPermission, w)
  | Some s =>
      let o := default OpenFile (ph_Opener h) in
      let mode := ph_FileMode h in
      let mode := if decide (Z.land flag O_WRONLY ≠ 0 ∧ mode = 0)%Z then 420%Z else mode in
      let '(r, w) := o (b2s s) flag mode w in
      (match r with
       | inl f => Ok f
       | inr (OsExist _) => Err ErrExist
       | inr (OsNotExist _) => Err ErrNotExist
       | inr (OsPermission _) => Err ErrPermission
       | inr (OsOther m) => Err (Errorf m)
       end, w)
  end.

(* @slingshot/image/tftp/path_handler.go:62-64 PathHandler.ReadFile *)
Definition Path_ReadFile (h : PathHandler) c (filename : string) w : res stream * W := open h (s2b filename) O_RDONLY w.
(* @slingshot/image/tftp/path_handler.go:66-68 PathHandler.WriteFile *)
Definition Path_WriteFile (h : PathHandler) c (filename : string) w : res () * W :=
  let '(r, w) := open h (s2b filename) O_WRONLY w in (res_map (λ _, ()) r, w).

(** ** Properties *)

Lemma Overlay_first (hs : list (Handler W)) c f w :
  (∃ hs1 h hs2 w1 r w2, hs = hs1 ++ h :: hs2 ∧ Overlay_ReadFile hs1 c f w = (Err ErrNotExist, w1)
     ∧ ReadFile h c f w1 = (r, w2) ∧ r ≠ Err ErrNotExist ∧ Overlay_ReadFile hs c f w = (r, w2))
  ∨ (∃ w', Overlay_ReadFile hs c f w = (Err ErrNotExist, w')).
Proof.
  revert w. induction hs as [| h hs IH]; intros w; [right; by exists w |].
  cbn [Overlay_ReadFile]. destruct (ReadFile h c f w) as [r w1] eqn:E.
  destruct (decide (r = Err ErrNotExist)) as [-> | Hr].
  - rewrite decide_True by done. destruct (IH w1) as [(hs1 & h' & hs2 & w2 & r & w3 & -> & H1 & H2 & H3 & H4) | [w' Hw]].
    + left. exists (h :: hs1), h', hs2, w2, r, w3. split_and!; try done. cbn [Overlay_ReadFile]. rewrite E. by rewrite decide_True.
    + right. by exists w'.
  - left. exists [], h, hs, w, r, w1. split_and!; try done. destruct r as [rc | e]; [done |]. rewrite decide_False; [done | congruence].
Qed.

(** An overlay answers with the first of its handlers, in order, that does
    not say that the file does not exist, and with that error only when each of
    them says so. *)
Theorem Overlay_ReadFile_spec (hs : list (Handler W)) c (f : string) w (r : res stream) w' :
  Overlay_ReadFile hs c f w = (r, w') →
  (r ≠ Err ErrNotExist ∧ ∃ hs1 h hs2 w1, hs = hs1 ++ h :: hs2
     ∧ Overlay_ReadFile hs1 c f w = (Err ErrNotExist, w1) ∧ ReadFile h c f w1 = (r, w'))
  ∨ r = Err ErrNotExist.
Proof.
  intros E. destruct (Overlay_first hs c f w) as [(hs1 & h & hs2 & w1 & r' & w2 & Hhs & H1 & H2 & H3 & H4) | [w1 Hw]].
  - left. rewrite E in H4. simplify_eq. split; [done |]. by exists hs1, h, hs2, w1.
  - right. congruence.
Qed.

Lemma splitPath_join p head tail : splitPath p = (head, tail) →
  slash ∉ head ∧ (tail = [] ∨ ∃ t, tail = slash :: t) ∧ (Clean p = head ++ tail ∨ Clean p = slash :: head ++ tail).
Proof.
  unfold splitPath. set (q := match Clean p with c :: p' => if decide (c = slash) then p' else Clean p | [] => Clean p end).
  assert (Clean p = q ∨ Clean p = slash :: q) as Hq.
  { unfold q. destruct (Clean p) as [| c p']; [by left |]. destruct (decide (c = slash)) as [-> |]; [by right | by left]. }
  intros E. destruct (index_split slash q) as [[l r] |] eqn:Ei; simplify_eq.
  - apply index_split_Some in Ei as (Eq & Hl & Hr). rewrite Eq in Hq. split_and!; [done | | done].
    destruct tail as [| c t]; [by left |]. right. exists t. simpl in Hr. congruence.
  - apply index_split_None in Ei. rewrite app_nil_r. split_and!; [done | by left | done].
Qed.

(** A muxer serves a file from the handler that was added for the first
    element of its cleaned path, and passes it the rest; a handler is added only
    under a new, non-empty name, and leaves the others in place. *)
Theorem Muxer_spec (t : Muxer) (p : bytes) (h : Handler W) c (f : string) w :
  let '(t', err) := Muxer_Add p h t in
  let '(name, _) := splitPath p in
  let '(head, tail) := splitPath (s2b f) in
  match err with
  | Some e => t' = t ∧ (e = ErrInvalidPath ∧ name = [] ∨ e = ErrPathExists ∧ is_Some (t !! name))
  | None => name ≠ [] ∧ t !! name = None ∧
      Muxer_ReadFile t' c f w = if decide (head = name) then ReadFile h c (b2s tail) w else Muxer_ReadFile t c f w
  end.
Proof.
  unfold Muxer_Add. destruct (splitPath p) as [name rest] eqn:Ep. destruct (splitPath (s2b f)) as [head tail] eqn:Ef.
  destruct (decide (length name = 0)) as [Hl | Hl].
  - split; [done |]. left. split; [done | by apply length_zero_iff_nil].
  - destruct (t !! name) eqn:Et; [split; [done | right; eauto] |].
    split_and!; [by intros -> | done |]. unfold Muxer_ReadFile, findHandler. rewrite Ef.
    destruct (decide (head = name)) as [-> | Hne]; [by rewrite lookup_insert_eq |]. by rewrite lookup_insert_ne.
Qed.

Lemma open_path_eq h f : ph_Path h ≠ [] →
  open_path h f = if HasPrefix (Clean (ph_Path h ++ slash :: f)) (Clean (ph_Path h)) then Some (Clean (ph_Path h ++ slash :: f)) else None.
Proof.
  intros Hp. unfold open_path, Join2. destruct (ph_Path h) as [| x a]; [done |]. by rewrite Clean_idemp.
Qed.

(** The directory [s] is [r] or below it, element by element. *)
Definition below (r s : bytes) : Prop := rooted s = rooted r ∧ ∃ st, clean_stack s = st ++ clean_stack r.

Lemma unpath_prefix a b : a ≠ [] → unpath a `prefix_of` unpath (a ++ b).
Proof.
  intros Ha. destruct (decide (b = [])) as [-> | Hb]; [by rewrite app_nil_r |].
  rewrite join_app by done. by apply prefix_app_r.
Qed.

(** A file name without ".." elements is opened below the handler's
    directory: the elements of the opened path are the directory's followed by
    the name's.  (The directory "." denies every file.) *)
Theorem open_below (h : PathHandler) (f : bytes) :
  ph_Path h ≠ [] → Clean (ph_Path h) ≠ DOT → DOTDOT ∉ comps f →
  ∃ s, open_path h f = Some s ∧ below (ph_Path h) s
    ∧ clean_stack s = reverse (keep (comps f)) ++ clean_stack (ph_Path h).
Proof.
  intros Hp Hdot Hf. rewrite open_path_eq, Clean_below by done.
  set (P := ph_Path h) in *. set (st := reverse (keep (comps f)) ++ clean_stack P).
  assert (clean_ok (rooted P) st) as Hok.
  { unfold st. rewrite <- (clean_fold_keep (rooted P)) by (done || apply split_no_sep).
    apply clean_fold_ok; [apply split_no_sep | apply clean_stack_ok]. }
  assert (HasPrefix (unclean (rooted P) st) (Clean P) = true) as ->.
  { apply HasPrefix_spec. unfold Clean in *. destruct P as [| x P']; [done |]. set (Q := x :: P') in *.
    unfold unclean in *. destruct (rooted Q).
    - apply prefix_cons. unfold st. rewrite reverse_app, reverse_involutive.
      destruct (decide (reverse (clean_stack Q) = [])) as [-> |]; [simpl; by apply prefix_nil |]. by apply unpath_prefix.
    - destruct (clean_stack Q) as [| y l] eqn:E; [done |].
      assert (st ≠ []) as Hst by (unfold st; by destruct (reverse (keep (comps f)))).
      destruct st as [| z st'] eqn:Est; [done |]. rewrite <- Est. unfold st. rewrite reverse_app, reverse_involutive.
      apply unpath_prefix. rewrite reverse_cons. by destruct (reverse l). }
  destruct (unclean_stack _ _ Hok) as [Hr Hs]. eexists. split; [done |]. split; [| done].
  split; [done |]. exists (reverse (keep (comps f))). done.
Qed.

Lemma comps_clean p : rooted p = true → clean_stack p ≠ [] → Clean p = slash :: unpath (reverse (clean_stack p))
  ∧ comps (Clean p) = [] :: reverse (clean_stack p).
Proof.
  intros Hr Hst. assert (Clean p = slash :: unpath (reverse (clean_stack p))) as E.
  { unfold Clean. destruct p as [| x p]; [done |]. unfold unclean. by rewrite Hr. }
  split; [done |]. rewrite E. simpl. rewrite comps_unpath; [done | done |].
  eapply Forall_impl; [exact (clean_ok_noslash _ _ (clean_stack_ok p)) |]. by intros x [].
Qed.

(** C34: whatever the name, a path that is opened under a rooted directory is
    below the directory, or is a sibling whose name only starts like the
    directory's: the check compares the two paths as text. *)
Theorem open_confined (h : PathHandler) (f s : bytes) :
  rooted (ph_Path h) = true → clean_stack (ph_Path h) ≠ [] → open_path h f = Some s →
  below (ph_Path h) s ∨ ∃ k, s = Clean (ph_Path h) ++ k ∧ k ≠ [] ∧ head k ≠ Some slash.
Proof.
  intros Hr Hst. assert (ph_Path h ≠ []) as Hp by (by intros E; rewrite E in Hr).
  rewrite open_path_eq by done. set (P := ph_Path h) in *. set (q := P ++ slash :: f).
  destruct (HasPrefix (Clean q) (Clean P)) eqn:Hpre; [| done]. intros [= <-].
  apply HasPrefix_spec in Hpre as [k Hk]. assert (rooted q = true) as Hrq by (unfold q; by rewrite rooted_app).
  destruct (comps_clean P Hr Hst) as [EP CP].
  destruct (unclean_stack _ _ (clean_stack_ok q)) as [Hcr Hcs].
  assert (Clean q = unclean (rooted q) (clean_stack q)) as Eq by (unfold q; by destruct P).
  rewrite <- Eq in Hcr, Hcs.
  destruct k as [| c k].
  - left. rewrite app_nil_r in Hk. rewrite Hk. split; [| exists []]; rewrite EP.
    + done.
    + simpl. rewrite <- Hk in EP. rewrite <- EP, Hcs. rewrite Hk in EP.
      assert (clean_stack (Clean P) = clean_stack P) as E2.
      { destruct (unclean_stack _ _ (clean_stack_ok P)) as [_ E]. unfold P in *. destruct (ph_Path h); [done | exact E]. }
      rewrite <- E2. rewrite <- Hk. by rewrite Hcs.
  - destruct (decide (c = slash)) as [-> | Hc].
    2: { right. exists (c :: k). split_and!; [done | done |]. simpl. congruence. }
    left. split; [by rewrite Hcr, Hrq, Hr |]. exists (reverse (comps k)). rewrite Hcs.
    assert (clean_stack q ≠ []) as Hne.
    { intros E. rewrite Hk in Eq. rewrite E, Hrq, EP in Eq. simpl in Eq.
      apply (f_equal length) in Eq. simpl in Eq. rewrite length_app in Eq. simpl in Eq. lia. }
    destruct (comps_clean q Hrq Hne) as [_ Cq]. rewrite Hk, split_app, CP in Cq. apply (f_equal tail) in Cq. simpl in Cq.
    rewrite <- (reverse_involutive (clean_stack q)), <- Cq. by rewrite reverse_app, reverse_involutive.
Qed.
End handlers.

(** The textual check lets a client out of the served directory: with
    /srv/tftp served, the file of another directory whose name starts alike is
    opened. *)
Theorem open_escape :
  open_path (W := ()) (NewPathHandler "/srv/tftp") (s2b "../tftp-private/key") = Some (s2b "/srv/tftp-private/key")
  ∧ ¬ below (s2b "/srv/tftp") (s2b "/srv/tftp-private/key").
Proof.
  split; [vm_compute; reflexivity |]. intros [_ [st E]].
  apply (f_equal reverse) in E. rewrite reverse_app in E. vm_compute in E. discriminate E.
Qed.

(** ** Examples *)
Definition const_handler (r : res stream) : Handler () := {| ReadFile := λ _ _ w, (r, w); WriteFile := λ _ _ w, (Err ErrPermission, w) |}.

Lemma Overlay_ReadFile_spec_witness :
  Err ErrPermission ≠ Err (A := stream) ErrNotExist ∧ (∃ hs1 h hs2 w1,
    [const_handler (Err ErrNotExist); const_handler (Err ErrPermission); const_handler (Ok (Ok []))] = hs1 ++ h :: hs2
    ∧ Overlay_ReadFile hs1 ZeroConn "f" () = (Err ErrNotExist, w1) ∧ ReadFile h ZeroConn "f" w1 = (Err ErrPermission, ()))
  ∨ Err (A := stream) ErrPermission = Err ErrNotExist.
Proof. apply Overlay_ReadFile_spec. reflexivity. Defined.

Lemma open_below_witness :
  ∃ s, open_path (W := ()) (NewPathHandler "/srv/tftp/") (s2b "a//./b") = Some s ∧ below (s2b "/srv/tftp/") s
    ∧ clean_stack s = reverse (keep (comps (s2b "a//./b"))) ++ clean_stack (s2b "/srv/tftp/").
Proof.
  apply (open_below (NewPathHandler "/srv/tftp/") (s2b "a//./b")); [done | vm_compute; discriminate |].
  apply (bool_decide_unpack _). vm_compute. exact I.
Defined.

Lemma open_confined_witness :
  below (s2b "/srv/tftp") (s2b "/srv/tftp-private/key") ∨ ∃ k, s2b "/srv/tftp-private/key" = Clean (s2b "/srv/tftp") ++ k ∧ k ≠ [] ∧ head k ≠ Some slash.
Proof.
  apply (open_confined (W := ()) (NewPathHandler "/srv/tftp") (s2b "../tftp-private/key")); vm_compute; [reflexivity | discriminate | reflexivity].
Defined.
