(* ===== verification/TftpPacket.v ===== *)
(** The packets of the TFTP library, [gotftpd/packet.go]: how they are read
    from the bytes of a datagram and written to one.

    A [bytes.Buffer] is the bytes that are left to read, or those written so
    far, in which case a write never fails.  The order in which Go ranges over the options of a packet
    that is written is a parameter. *)

From S2P Require Import Prelude GoPath GoURL.
From Stdlib Require Import ZArith Lia.

(** ** The data *)

(** [opcode], a [uint16] (lines 12, 16-21). *)
Definition opcodeRRQ : Z := 1.
Definition opcodeWRQ : Z := 2.
Definition opcodeDATA : Z := 3.
Definition opcodeACK : Z := 4.
Definition opcodeERROR : Z := 5.
Definition opcodeOACK : Z := 6.

Definition modeNETASCII : bytes := s2b "netascii".
Definition modeOCTET : bytes := s2b "octet".

(** Error codes as the protocol has them. *)
(* @vendor/gotftpd/packet.go:28-31 tftpError *)
Record tftpError := { Code : Z; Message : string }.

Definition tftpErrNotDefined := {| Code := 0; Message := "Not defined, see error message (if any)." |}.
Definition tftpErrNotFound := {| Code := 1; Message := "File not found." |}.
Definition tftpErrAccessViolation := {| Code := 2; Message := "Access violation." |}.
Definition tftpErrIllegalOperation := {| Code := 4; Message := "Illegal TFTP operation." |}.
Definition tftpErrOptionNegotiation := {| Code := 8; Message := "Option negotiation error." |}.

Abbreviation options := (gmap bytes bytes).

(* @vendor/gotftpd/packet.go:114-118 packetXRQ *)
Record packetXRQ := { xrq_filename : bytes; xrq_mode : bytes; xrq_options : options }.

(** The types that implement [packet], in the order of their opcodes, with
    their fields (lines 161-172, 195-197, 207-210, 231-233). *)
(* @vendor/gotftpd/packet.go:52-55 packet *)
Inductive packet :=
  | RRQ (p : packetXRQ)
  | WRQ (p : packetXRQ)
  | DATA (blockNr : Z) (data : bytes)
  | ACK (blockNr : Z)
  | ERROR (errorCode : Z) (errorMessage : bytes)
  | OACK (o : options).

#[global] Instance packetXRQ_eq_dec : EqDecision packetXRQ.
Proof. solve_decision. Defined.
#[global] Instance packet_eq_dec : EqDecision packet.
Proof. solve_decision. Defined.

Section packets.
(** [strings.ToLower] of a text that is not ASCII. *)
Context (unicode_lower : bytes → bytes).
(** [range] over a map of options. *)
Context (range : options → list (bytes * bytes)).

(** [strings.ToLower] *)
Definition ToLower (s : bytes) : bytes :=
  if forallb (λ c, bool_decide (b2z c < 128)%Z) s then lower <$> s else unicode_lower s.

(** ** Reading *)

(** [binary.Read] of a big-endian [uint16]. *)
Definition read_uint16 (b : bytes) : res (Z * bytes) :=
  match b with
  | [] => Err EOF
  | [_] => Err ErrUnexpectedEOF
  | x :: y :: b => Ok (be_get [x; y], b)
  end.

(* @vendor/gotftpd/packet.go:57-70 readChunk *)
Definition readChunk (b : bytes) : res (bytes * bytes) :=
  match index_split x00 b with
  | None => Err ErrUnexpectedEOF
  | Some (l, r) => Ok (l, drop 1 r)
  end.

(** A round reads two bytes at least, so that as many rounds as there are
    bytes are enough ([readOptions_write]). *)
Fixpoint readOptions_loop (fuel : nat) (b : bytes) (o : options) : res options :=
  match fuel, b with
  | _, [] => Ok o
  | O, _ => Ok o
  | S fuel, _ =>
      r :=? readChunk b;; let '(k, b) := r in
      r :=? readChunk b;; let '(v, b) := r in
      readOptions_loop fuel b (<[ToLower k := ToLower v]> o)
  end.
(* @vendor/gotftpd/packet.go:82-99 readOptions *)
Definition readOptions (b : bytes) : res options := readOptions_loop (length b) b ∅.

(* @vendor/gotftpd/packet.go:120-145 packetXRQ.Read *)
Definition XRQ_Read (b : bytes) : res packetXRQ :=
  r :=? readChunk b;; let '(filename, b) := r in
  r :=? readChunk b;; let '(m, b) := r in
  let mode := ToLower m in
  if decide (mode ≠ modeNETASCII ∧ mode ≠ modeOCTET) then Err errMode
  else o :=? readOptions b;; Ok {| xrq_filename := filename; xrq_mode := mode; xrq_options := o |}.

(* @vendor/gotftpd/packet.go:174-183 packetDATA.Read *)
Definition DATA_Read (b : bytes) : res packet := r :=? read_uint16 b;; let '(n, b) := r in Ok (DATA n b).
(* @vendor/gotftpd/packet.go:199-201 packetACK.Read *)
Definition ACK_Read (b : bytes) : res packet := r :=? read_uint16 b;; let '(n, b) := r in Ok (ACK n).
(* @vendor/gotftpd/packet.go:212-220 packetERROR.Read *)
Definition ERROR_Read (b : bytes) : res packet :=
  r :=? read_uint16 b;; let '(c, b) := r in r :=? readChunk b;; let '(m, b) := r in Ok (ERROR c m).
(* @vendor/gotftpd/packet.go:235-243 packetOACK.Read *)
Definition OACK_Read (b : bytes) : res packet := o :=? readOptions b;; Ok (OACK o).

(* @vendor/gotftpd/packet.go:249-281 packetFromWire *)
Definition packetFromWire (b : bytes) : res packet :=
  r :=? read_uint16 b;; let '(opcode, b) := r in
  if decide (opcode = opcodeRRQ) then p :=? XRQ_Read b;; Ok (RRQ p)
  else if decide (opcode = opcodeWRQ) then p :=? XRQ_Read b;; Ok (WRQ p)
  else if decide (opcode = opcodeDATA) then DATA_Read b
  else if decide (opcode = opcodeACK) then ACK_Read b
  else if decide (opcode = opcodeERROR) then ERROR_Read b
  else if decide (opcode = opcodeOACK) then OACK_Read b
  else Err errOpcode.

(** ** Writing *)
(* @vendor/gotftpd/packet.go:72-80 writeChunk *)
Definition writeChunk (line : bytes) : bytes := line ++ [x00].

(* @vendor/gotftpd/packet.go:101-112 writeOptions *)
Definition writeOptions (o : options) : bytes := range o ≫= λ kv, writeChunk kv.1 ++ writeChunk kv.2.

(* @vendor/gotftpd/packet.go:147-159 packetXRQ.Write *)
Definition XRQ_Write (p : packetXRQ) : bytes :=
  writeChunk (xrq_filename p) ++ writeChunk (xrq_mode p) ++ writeOptions (xrq_options p).

(** [binary.Write] of a big-endian [uint16] is [be_put 2]. *)
(* @vendor/gotftpd/packet.go:185-193 packetDATA.Write *)
Definition DATA_Write (blockNr : Z) (data : bytes) : bytes := be_put 2 blockNr ++ data.
(* @vendor/gotftpd/packet.go:203-205 packetACK.Write *)
Definition ACK_Write (blockNr : Z) : bytes := be_put 2 blockNr.
(* @vendor/gotftpd/packet.go:222-229 packetERROR.Write *)
Definition ERROR_Write (errorCode : Z) (errorMessage : bytes) : bytes := be_put 2 errorCode ++ writeChunk errorMessage.
(* @vendor/gotftpd/packet.go:245-247 packetOACK.Write *)
Definition OACK_Write (o : options) : bytes := writeOptions o.

(* @vendor/gotftpd/packet.go:283-314 packetToWire *)
Definition packetToWire (p : packet) : bytes :=
  match p with
  | RRQ p => be_put 2 opcodeRRQ ++ XRQ_Write p
  | WRQ p => be_put 2 opcodeWRQ ++ XRQ_Write p
  | DATA blockNr data => be_put 2 opcodeDATA ++ DATA_Write blockNr data
  | ACK blockNr => be_put 2 opcodeACK ++ ACK_Write blockNr
  | ERROR errorCode errorMessage => be_put 2 opcodeERROR ++ ERROR_Write errorCode errorMessage
  | OACK o => be_put 2 opcodeOACK ++ OACK_Write o
  end.

(** ** Round trip *)

(** What a packet must be to come back as it is: numbers are 16-bit unsigned,
    texts are delimited by a zero byte, and modes and options are read in lower
    case. *)
Definition uint16 (z : Z) : Prop := (0 ≤ z < 65536)%Z.
Definition no_nul (s : bytes) : Prop := x00 ∉ s.
Definition options_ok (o : options) : Prop :=
  map_Forall (λ k v, no_nul k ∧ no_nul v ∧ ToLower k = k ∧ ToLower v = v) o.
Definition xrq_ok (p : packetXRQ) : Prop :=
  no_nul (xrq_filename p) ∧ (xrq_mode p = modeNETASCII ∨ xrq_mode p = modeOCTET) ∧ options_ok (xrq_options p).
Definition packet_ok (p : packet) : Prop :=
  match p with
  | RRQ p | WRQ p => xrq_ok p
  | DATA n _ => uint16 n
  | ACK n => uint16 n
  | ERROR c m => uint16 c ∧ no_nul m
  | OACK o => options_ok o
  end.

Lemma read_uint16_mod z b : read_uint16 (be_put 2 z ++ b) = Ok ((z mod 65536)%Z, b).
Proof.
  pose proof (be_get_put 2 z) as Hg. pose proof (length_be_put 2 z) as Hl.
  destruct (be_put 2 z) as [| x [| y [| ? ?]]]; try done. simpl app. cbn [read_uint16]. by rewrite Hg.
Qed.
Lemma read_uint16_put z b : uint16 z → read_uint16 (be_put 2 z ++ b) = Ok (z, b).
Proof.
  intros Hz. rewrite read_uint16_mod. by rewrite Z.mod_small.
Qed.

Lemma length_writeChunk l : length (writeChunk l) = S (length l).
Proof. unfold writeChunk. rewrite length_app. simpl. lia. Qed.
Lemma readChunk_write l b : no_nul l → readChunk (writeChunk l ++ b) = Ok (l, b).
Proof.
  intros Hl. unfold readChunk, writeChunk. rewrite <- app_assoc. simpl app. by rewrite index_split_at.
Qed.

Hypothesis range_perm : ∀ o, range o ≡ₚ map_to_list o.

Lemma readOptions_loop_write (l : list (bytes * bytes)) fuel o :
  length (l ≫= λ kv, writeChunk kv.1 ++ writeChunk kv.2) ≤ fuel →
  Forall (λ kv, no_nul kv.1 ∧ no_nul kv.2 ∧ ToLower kv.1 = kv.1 ∧ ToLower kv.2 = kv.2) l →
  readOptions_loop fuel (l ≫= λ kv, writeChunk kv.1 ++ writeChunk kv.2) o = Ok (foldl (λ o kv, <[kv.1 := kv.2]> o) o l).
Proof.
  revert fuel o. induction l as [| [k v] l IH]; intros fuel o Hf Hl; [by destruct fuel |].
  apply Forall_cons in Hl as [(Hk & Hv & Lk & Lv) Hl]. cbn [fst snd] in *.
  rewrite bind_cons in *. cbn [fst snd] in *. rewrite <- app_assoc in *.
  rewrite !length_app, !length_writeChunk in Hf. destruct fuel as [| fuel]; [lia |].
  assert (∀ c k, writeChunk k ++ c ≠ []) as Hne by (intros c k'; by destruct k').
  cbn [readOptions_loop]. destruct (writeChunk k ++ _) eqn:E; [by apply Hne in E |]. rewrite <- E.
  rewrite readChunk_write by done. cbn [res_bind]. rewrite readChunk_write by done. cbn [res_bind].
  rewrite Lk, Lv, IH; [done | lia | done].
Qed.

(** Options in any order make the same map. *)
Lemma foldl_insert_perm (l : list (bytes * bytes)) (o : options) :
  l ≡ₚ map_to_list o → foldl (λ o kv, <[kv.1 := kv.2]> o) ∅ l = o.
Proof.
  intros Hp. transitivity (list_to_map (M := options) (reverse l)).
  - clear Hp. induction l as [| [k v] l IH] using rev_ind; [done |].
    rewrite foldl_app, reverse_app. cbn [foldl reverse rev_append app list_to_map foldr fst snd]. by rewrite IH.
  - rewrite <- (list_to_map_to_list o). assert (reverse l ≡ₚ map_to_list o) as Hr by by rewrite reverse_Permutation.
    apply list_to_map_proper; [| done]. rewrite Hr. apply NoDup_fst_map_to_list.
Qed.

Lemma readOptions_write o : options_ok o → readOptions (writeOptions o) = Ok o.
Proof.
  intros Ho. unfold readOptions, writeOptions.
  rewrite readOptions_loop_write; [by rewrite (foldl_insert_perm _ o) | done |].
  rewrite range_perm. apply Forall_forall. intros [k v] Hkv%elem_of_map_to_list. by apply (Ho k v).
Qed.

Lemma ToLower_mode m : m = modeNETASCII ∨ m = modeOCTET → ToLower m = m ∧ no_nul m.
Proof.
  intros [-> | ->]; (split; [reflexivity | apply (bool_decide_unpack _); vm_compute; exact I]).
Qed.

Lemma XRQ_Read_Write p : xrq_ok p → XRQ_Read (XRQ_Write p) = Ok p.
Proof.
  intros (Hf & Hm & Ho). destruct (ToLower_mode _ Hm) as [HL Hn]. unfold XRQ_Read, XRQ_Write.
  rewrite readChunk_write by done. cbn [res_bind]. rewrite readChunk_write by done. cbn [res_bind].
  rewrite HL, decide_False by tauto. rewrite readOptions_write by done. by destruct p.
Qed.

(** C40: a packet that is written is read back as it was, whatever the order of
    its options, when its numbers fit 16 bits and its texts hold no zero byte
    (and its mode and options are in lower case, which reading makes them). *)
Theorem packetFromWire_ToWire (p : packet) : packet_ok p → packetFromWire (packetToWire p) = Ok p.
Proof.
  destruct p as [p | p | n d | n | c m | o]; cbn [packet_ok packetToWire]; intros Hp; unfold packetFromWire;
    rewrite read_uint16_put by done; cbn [res_bind]; try (rewrite XRQ_Read_Write by done; done);
    unfold DATA_Read, ACK_Read, ERROR_Read, OACK_Read, DATA_Write, ACK_Write, ERROR_Write, OACK_Write;
    rewrite ?decide_False by done; rewrite decide_True by done.
  - by rewrite read_uint16_put.
  - rewrite <- (app_nil_r (be_put 2 n)). by rewrite read_uint16_put.
  - destruct Hp as [Hc Hm]. rewrite read_uint16_put by done. cbn [res_bind].
    rewrite <- (app_nil_r (writeChunk m)). by rewrite readChunk_write.
  - by rewrite readOptions_write.
Qed.
End packets.

(** Writing a packet and reading it never makes a data packet of another one. *)
Lemma packetFromWire_DATA unicode_lower range (p : packet) n d :
  packetFromWire unicode_lower (packetToWire range p) = Ok (DATA n d) → ∃ m, p = DATA m d ∧ n = (m mod 65536)%Z.
Proof.
  pose proof read_uint16_mod as R.
  unfold packetFromWire. destruct p as [p | p | m d' | m | c e | o]; cbn [packetToWire]; rewrite R; cbn [res_bind];
    rewrite ?decide_False by done; rewrite ?decide_True by done; intros E.
  - by apply res_bind_Ok in E as (? & _ & [=]).
  - by apply res_bind_Ok in E as (? & _ & [=]).
  - unfold DATA_Read, DATA_Write in E. rewrite R in E. cbn [res_bind] in E. injection E as <- <-. by exists m.
  - by apply res_bind_Ok in E as ([? ?] & _ & [=]).
  - apply res_bind_Ok in E as ([? ?] & _ & E). by apply res_bind_Ok in E as ([? ?] & _ & [=]).
  - by apply res_bind_Ok in E as (? & _ & [=]).
Qed.

Lemma packetFromWire_DATA' unicode_lower range n d :
  packetFromWire unicode_lower (packetToWire range (DATA n d)) = Ok (DATA (n mod 65536) d).
Proof.
  unfold packetFromWire. cbn [packetToWire]. rewrite read_uint16_mod. cbn [res_bind].
  rewrite !decide_False by done. rewrite decide_True by done. unfold DATA_Read, DATA_Write. by rewrite read_uint16_mod.
Qed.

(** ** Examples *)
Example RRQ_ex :
  packetFromWire id ([x00; x01] ++ writeChunk (s2b "pxelinux.0") ++ writeChunk (s2b "OCTET") ++ writeChunk (s2b "BlkSize") ++ writeChunk (s2b "1432"))
  = Ok (RRQ {| xrq_filename := s2b "pxelinux.0"; xrq_mode := modeOCTET; xrq_options := {[ s2b "blksize" := s2b "1432" ]} |})
  ∧ packetFromWire id [x00] = Err ErrUnexpectedEOF ∧ packetFromWire id [x00; x7f] = Err errOpcode
  ∧ packetFromWire id ([x00; x01] ++ writeChunk (s2b "filename") ++ writeChunk (s2b "invalid")) = Err errMode.
Proof. vm_compute. done. Qed.

Lemma packetFromWire_ToWire_witness :
  packetFromWire id (packetToWire (λ o, reverse (map_to_list o))
    (RRQ {| xrq_filename := s2b "pxelinux.0"; xrq_mode := modeOCTET;
            xrq_options := {[ s2b "blksize" := s2b "1432"; s2b "timeout" := s2b "2" ]} |}))
  = Ok (RRQ {| xrq_filename := s2b "pxelinux.0"; xrq_mode := modeOCTET;
               xrq_options := {[ s2b "blksize" := s2b "1432"; s2b "timeout" := s2b "2" ]} |}).
Proof.
  apply (packetFromWire_ToWire id (λ o, reverse (map_to_list o))); [intros o; by rewrite reverse_Permutation |].
  split_and!; [apply (bool_decide_unpack _); vm_compute; exact I | by right |].
  apply map_Forall_insert_2; [| apply map_Forall_singleton]; split_and!; try reflexivity; apply (bool_decide_unpack _); vm_compute; exact I.
Defined.
