(* ===== verification/TftpServer.v ===== *)
(** The server of the TFTP library: one request of a client
    ([gotftpd/handler.go]), and the table of clients ([gotftpd/server.go]).

    A request is served by reading the datagrams of its client from a channel,
    with a timeout.  What happens to the server while it waits is a list of
    events: a datagram arrives, or the time it gives the client has passed.  When
    the list is over, the server is still waiting. *)

From S2P Require Import Prelude GoPath GoConv DcpCommon Tftp TftpPacket.
From Stdlib Require Import ZArith Lia.

Inductive event := In (buf : bytes) | Elapsed.

(** [io.ReadCloser]: what is left to read, the error that follows it (EOF when
    it ends well), and what closing does. *)
(* @vendor/gotftpd/handler.go:13-15 ReadCloser *)
Record ReadCloser (W : Type) := { rc_data : bytes; rc_err : error; rc_Close : W → W }.
Arguments rc_data {W} _.
Arguments rc_err {W} _.
Arguments rc_Close {W} _ _.

(** [io.ReadAtLeast(rc, buf, len(buf))] (its documentation is repeated at lines
    238-244 of handler.go): what was read, the error, what is left. *)
Definition ReadAtLeast (min : nat) (d : bytes) (e : error) : bytes * option error * bytes :=
  let b := take min d in
  (b, if decide (min ≤ length b) then None
      else if decide (e = EOF ∧ 0 < length b) then Some ErrUnexpectedEOF else Some e, drop min d).

(** ** A session *)

(** The session's own fields; its reader and writer are in [io]. *)
(* @vendor/gotftpd/handler.go:55-65 session *)
Record session := { s_blksize : Z; s_timeout : Z }.
#[global] Instance eta_session : Eta session := λ s, {| s_blksize := s_blksize s; s_timeout := s_timeout s |}.

(** What a session acts on: the events to come, the datagrams that were sent,
    the errors of the next sends (none, once the list is over), and what the
    handler acts on. *)
Record io (W : Type) := { todo : list event; sent : list bytes; faults : list (option error); world : W }.
Arguments todo {W} _.
Arguments sent {W} _.
Arguments faults {W} _.
Arguments world {W} _.
#[global] Instance eta_io {W} : Eta (io W) :=
  λ s, {| todo := todo s; sent := sent s; faults := faults s; world := world s |}.

Section session.
Context (unicode_lower : bytes → bytes) (range : options → list (bytes * bytes)).
Context {W : Type} (ReadFile : Conn → string → W → res (ReadCloser W) * W) (c : Conn).
Implicit Types (s : io W).

(* @vendor/gotftpd/server.go:61-71 packetWriterImpl.write *)
Definition write (x : packet) s : option error * io W :=
  match faults s with
  | Some e :: fs => (Some e, s <| faults := fs |>)
  | None :: fs => (None, s <| faults := fs |> <| sent := sent s ++ [packetToWire range x] |>)
  | [] => (None, s <| sent := sent s ++ [packetToWire range x] |>)
  end.

(** None: nothing has happened yet. *)
(* @vendor/gotftpd/server.go:45-52 packetReaderImpl.read *)
Definition read s : option (res packet) * io W :=
  match todo s with
  | [] => (None, s)
  | In buf :: evs => (Some (packetFromWire unicode_lower buf), s <| todo := evs |>)
  | Elapsed :: evs => (Some (Err ErrTimeout), s <| todo := evs |>)
  end.

(* @vendor/gotftpd/handler.go:81-88 session.writeError *)
Definition writeError (err : tftpError) (message : string) s : option error * io W :=
  write (ERROR (Code err) (s2b message)) s.

(** The inner loop: reads until the packet is the one that is waited for, or
    the time is over, which the clock or the read says ([ErrTimeout] is the only
    error of a read that is not one of the packet). *)
Fixpoint wait_reply (v : packet → bool) (evs : list event) : option (res packet) * list event :=
  match evs with
  | [] => (None, [])
  | Elapsed :: evs => (Some (Err ErrTimeout), evs)
  | In buf :: evs =>
      match packetFromWire unicode_lower buf with
      | Err e => (Some (Err e), evs)
      | Ok p => if v p then (Some (Ok p), evs) else wait_reply v evs
      end
  end.

Fixpoint write_and_wait (tries : nat) (p : packet) (v : packet → bool) s : option (res packet) * io W :=
  match tries with
  | O => (Some (Err ErrTimeout), s)
  | S tries =>
      match write p s with
      | (Some e, s) => (Some (Err e), s)
      | (None, s) =>
          let '(r, evs) := wait_reply v (todo s) in
          let s := s <| todo := evs |> in
          match r with
          | None => (None, s)
          | Some (Err e) =>
              if decide (e = ErrTimeout) then write_and_wait tries p v s
              else let '(_, s) := writeError tftpErrNotDefined (Error e) s in (Some (Err e), s)
          | Some (Ok p) => (Some (Ok p), s)
          end
      end
  end.
(* @vendor/gotftpd/handler.go:90-130 session.writeAndWaitForPacket *)
Definition writeAndWaitForPacket := write_and_wait 3.

Definition clamp (lo hi i : Z) : Z := if decide (i < lo)%Z then lo else if decide (i > hi)%Z then hi else i.

(* @vendor/gotftpd/handler.go:149-191 session.negotiate *)
Definition negotiate (o : options) (x : session) : res options * session :=
  let oack : options := ∅ in
  let blk :=
    match o !! s2b "blksize" with
    | None => (Ok oack, x)
    | Some blksize =>
        match Atoi blksize with
        | Err e => (Err e, x)
        | Ok i =>
            let x := x <| s_blksize := clamp 8 65464 i |> in
            (Ok (<[s2b "blksize" := s2b (fmt_d (s_blksize x))]> oack), x)
        end
    end in
  match blk with
  | (Err e, x) => (Err e, x)
  | (Ok oack, x) =>
      match o !! s2b "timeout" with
      | None => (Ok oack, x)
      | Some timeout =>
          match Atoi timeout with
          | Err e => (Err e, x)
          | Ok i =>
              let x := x <| s_timeout := clamp 1 255 i |> in
              (Ok (<[s2b "timeout" := s2b (fmt_d (s_timeout x))]> oack), x)
          end
      end
  end.

(* @vendor/gotftpd/handler.go:193-198 ackValidator *)
Definition ackValidator (blockNr : Z) (p : packet) : bool :=
  match p with ACK n => bool_decide (n = blockNr) | _ => false end.

(** What the error of a read says: whether the file ends with the block, or the
    error that ends the transfer. *)
(* @vendor/gotftpd/handler.go:246-255 session.serveRRQ *)
Definition read_end (readErr : option error) : res bool :=
  match readErr with
  | None => Ok false
  | Some e => if decide (e = EOF ∨ e = ErrUnexpectedEOF) then Ok true else Err e
  end.

(** Block numbers are [uint16]s.  A round that is not the last one reads
    [blksize] bytes, so that one round more than there are bytes is enough
    ([send_loop_fuel]).  The result says why the loop ended: Ok when the file
    did. *)
(* @vendor/gotftpd/handler.go:234-266 session.serveRRQ *)
Fixpoint send_blocks (fuel : nat) (blksize : nat) (blockNr : Z) (d : bytes) (err : error) s : option (res ()) * io W :=
  match fuel with
  | O => (None, s)
  | S fuel =>
      let '(buf, readErr, d) := ReadAtLeast blksize d err in
      match read_end readErr with
      | Err e => let '(_, s) := writeError tftpErrNotDefined (Error e) s in (Some (Err e), s)
      | Ok eof =>
          match writeAndWaitForPacket (DATA blockNr buf) (ackValidator blockNr) s with
          | (None, s) => (None, s)
          | (Some (Err e), s) => (Some (Err e), s)
          | (Some (Ok _), s) =>
              if eof : bool then (Some (Ok tt), s)
              else send_blocks fuel blksize ((blockNr + 1) mod 65536) d err s
          end
      end
  end.

(** What follows once the file is open. *)
(* @vendor/gotftpd/handler.go:219-232 session.serveRRQ *)
Definition send_file (p : packetXRQ) (rc : ReadCloser W) (x : session) s : option (res ()) * io W :=
  let send (x : session) s :=
    send_blocks (S (length (rc_data rc))) (Z.to_nat (s_blksize x)) 1 (rc_data rc) (rc_err rc) s in
  if decide (xrq_options p = ∅) then send x s
  else
    match negotiate (xrq_options p) x with
    | (Err e, _) => let '(_, s) := writeError tftpErrOptionNegotiation (Error e) s in (Some (Err e), s)
    | (Ok options, x) =>
        match writeAndWaitForPacket (OACK options) (ackValidator 0) s with
        | (None, s) => (None, s)
        | (Some (Err e), s) => (Some (Err e), s)
        | (Some (Ok _), s) => send x s
        end
    end.

(** The file is closed when the function returns. *)
(* @vendor/gotftpd/handler.go:200-267 session.serveRRQ *)
Definition serveRRQ (p : packetXRQ) (x : session) s : option (res ()) * io W :=
  match ReadFile c (b2s (xrq_filename p)) (world s) with
  | (Err e, w) =>
      let code := if decide (e = ErrNotExist) then tftpErrNotFound
                  else if decide (e = ErrPermission) then tftpErrAccessViolation else tftpErrNotDefined in
      let '(_, s) := writeError code (Error e) (s <| world := w |>) in (Some (Err e), s)
  | (Ok rc, w) =>
      let '(r, s) := send_file p rc x (s <| world := w |>) in
      match r with
      | None => (None, s)
      | Some r => (Some r, s <| world := rc_Close rc (world s) |>)
      end
  end.

(* @vendor/gotftpd/handler.go:269-271 session.serveWRQ *)
Definition serveWRQ (p : packetXRQ) s : option (res ()) * io W :=
  let '(_, s) := writeError tftpErrNotDefined "not supported" s in (Some (Ok tt), s).

(* @vendor/gotftpd/handler.go:132-147 session.serve *)
Definition session_serve (x : session) s : option (res ()) * io W :=
  match read s with
  | (None, s) => (None, s)
  | (Some (Err e), s) => let '(_, s) := writeError tftpErrNotDefined (Error e) s in (Some (Err e), s)
  | (Some (Ok (RRQ p)), s) => serveRRQ p x s
  | (Some (Ok (WRQ p)), s) => serveWRQ p s
  | (Some (Ok _), s) => let '(_, s) := writeError tftpErrIllegalOperation "" s in (Some (Ok tt), s)
  end.

(* @vendor/gotftpd/handler.go:67-79 serve *)
Definition serve s : option (res ()) * io W := session_serve {| s_blksize := 512; s_timeout := 3 |} s.
End session.

(** A handler of [Tftp], as the library calls it: [partial] is what a reader
    that fails yields before it does. *)
Definition of_handler {W} (partial : bytes) (h : Handler W) (c : Conn) (filename : string) (w : W) : res (ReadCloser W) * W :=
  let '(r, w) := ReadFile h c filename w in
  (match r with
   | Err e => Err e
   | Ok (Ok b) => Ok {| rc_data := b; rc_err := EOF; rc_Close := id |}
   | Ok (Err e) => Ok {| rc_data := partial; rc_err := e; rc_Close := id |}
   end, w).

(** ** What a session sends *)

(** How often the time passes in a list of events. *)
Fixpoint elapsed (evs : list event) : nat :=
  match evs with [] => 0 | In _ :: evs => elapsed evs | Elapsed :: evs => S (elapsed evs) end.

(** Each datagram from the i-th on, as often as it is sent. *)
Fixpoint bursts (wire : nat → bytes) (i : nat) (ks : list nat) : list bytes :=
  match ks with [] => [] | k :: ks => replicate k (wire i) ++ bursts wire (S i) ks end.

Lemma elem_of_bursts wire i ks b : b ∈ bursts wire i ks → ∃ j, i ≤ j < i + length ks ∧ b = wire j.
Proof.
  revert i. induction ks as [| k ks IH]; intros i; [by intros ?%elem_of_nil |]. cbn [bursts length].
  intros [[-> _]%elem_of_replicate | (j & Hj & ->)%IH]%elem_of_app; [exists i | exists j]; split; (done || lia).
Qed.
Lemma bursts_elem wire i ks j : Forall (λ k, 1 ≤ k ≤ 3) ks → i ≤ j < i + length ks → wire j ∈ bursts wire i ks.
Proof.
  revert i. induction ks as [| k ks IH]; intros i Hks Hj; simpl in Hj; [lia |].
  apply Forall_cons in Hks as [Hk Hks]. cbn [bursts]. apply elem_of_app. destruct (decide (j = i)) as [-> | Hne].
  - left. apply elem_of_replicate. split; [done | lia].
  - right. apply IH; [done | lia].
Qed.

(** A file of [len] bytes has one block more than it has full ones; the last is
    shorter than the others, and may be empty. *)
Definition block (n : nat) (data : bytes) (i : nat) : bytes := take n (drop (i * n) data).
Definition blocks (n len : nat) : nat := S (len / n).

Lemma block_full n (data : bytes) i : 0 < n → i * n ≤ length data →
  n ≤ length (drop (i * n) data) ↔ S i < blocks n (length data).
Proof.
  intros Hn Hi. rewrite length_drop. unfold blocks. split; intros H.
  - apply -> Nat.succ_lt_mono. enough (S i ≤ length data / n) by lia. apply Nat.div_le_lower_bound; lia.
  - assert (S i ≤ length data / n) as H2 by lia. apply (Nat.mul_le_mono_l _ _ n) in H2.
    pose proof (Nat.mul_div_le (length data) n). lia.
Qed.
Lemma block_last n (data : bytes) i : 0 < n → i * n ≤ length data → length (drop (i * n) data) < n → S i = blocks n (length data).
Proof.
  intros Hn Hi H. rewrite length_drop in H. unfold blocks. f_equal. apply Nat.div_unique with (length data - i * n); lia.
Qed.

Section transcript.
Context (unicode_lower : bytes → bytes) (range : options → list (bytes * bytes)).
Context {W : Type}.
Implicit Types (s : io W).

(** At most one error packet. *)
Definition complaint (es : list bytes) : Prop := es = [] ∨ ∃ code m, es = [packetToWire range (ERROR code m)].

Lemma write_spec x s o s' : write range x s = (o, s') →
  todo s' = todo s ∧ world s' = world s ∧
  sent s' = sent s ++ (if o is Some _ then [] else [packetToWire range x]).
Proof.
  unfold write. destruct (faults s) as [| [e |] fs]; intros [= <- <-]; simpl; split_and!; try done. by rewrite app_nil_r.
Qed.
Lemma writeError_spec e m s o s' : writeError range e m s = (o, s') →
  todo s' = todo s ∧ world s' = world s ∧ ∃ es, complaint es ∧ sent s' = sent s ++ es.
Proof.
  intros (H1 & H2 & H3)%write_spec. split_and!; [done | done |]. eexists. split; [| done].
  destruct o; [by left | right; eauto].
Qed.

Lemma wait_reply_spec v evs r evs' : wait_reply unicode_lower v evs = (r, evs') →
  match r with
  | None => evs' = [] ∧ elapsed evs = 0
  | Some (Ok p) => v p = true ∧ elapsed evs = elapsed evs'
  | Some (Err e) => elapsed evs ≤ S (elapsed evs')
  end.
Proof.
  revert r evs'. induction evs as [| [buf |] evs IH]; intros r evs'; cbn [wait_reply elapsed].
  - by intros [= <- <-].
  - destruct (packetFromWire unicode_lower buf) as [p | e]; [| intros [= <- <-]; lia].
    destruct (v p) eqn:Ev; [by intros [= <- <-] | apply IH].
  - intros [= <- <-]. lia.
Qed.

(** One packet is sent at most as often as there are tries, until the answer
    that is waited for; the time passes at most once for each. *)
Lemma write_and_wait_spec tries p v s r s' : write_and_wait unicode_lower range tries p v s = (r, s') →
  ∃ k es, k ≤ tries ∧ complaint es ∧ sent s' = sent s ++ replicate k (packetToWire range p) ++ es ∧ world s' = world s ∧
  match r with
  | None => todo s' = [] ∧ elapsed (todo s) < tries ∧ es = [] ∧ 1 ≤ k
  | Some (Ok q) => v q = true ∧ es = [] ∧ 1 ≤ k ∧ elapsed (todo s) ≤ elapsed (todo s') + tries
  | Some (Err _) => True
  end.
Proof.
  revert s r s'. induction tries as [| tries IH]; intros s r s'; cbn [write_and_wait].
  { intros [= <- <-]. exists 0, []. split_and!; [lia | by left | by rewrite app_nil_r | done | done]. }
  destruct (write range p s) as [[e |] s1] eqn:Ew; apply write_spec in Ew as (Ht & Hw & Hs).
  { intros [= <- <-]. exists 0, []. split_and!; [lia | by left | by rewrite Hs | done | done]. }
  destruct (wait_reply unicode_lower v (todo s1)) as [[[q | e] |] evs] eqn:Er; apply wait_reply_spec in Er.
  - intros [= <- <-]. exists 1, []. destruct Er as [Hv He]. rewrite Ht in He. simpl. split_and!; try done; [lia | by left | lia].
  - case_decide.
    + intros (k & es & Hk & Hes & Hsent & Hworld & Hr)%IH. simpl in *. exists (S k), es. split_and!; [lia | done | | by rewrite Hworld |].
      * rewrite Hsent, Hs, <- app_assoc. done.
      * rewrite Ht in Er. destruct r as [[q |] |]; [| done |]; destruct_and!; split_and!; (done || lia).
    + destruct (writeError range tftpErrNotDefined (Error e) _) as [o s2] eqn:E2. intros [= <- <-].
      apply writeError_spec in E2 as (_ & Hw2 & es & Hes & Hs2). simpl in *. exists 1, es.
      split_and!; [lia | done | by rewrite Hs2, Hs, <- app_assoc | congruence | done].
  - intros [= <- <-]. exists 1, []. simpl. rewrite Ht in Er. destruct Er as [-> He].
    split_and!; try done; [lia | by left | lia].
Qed.

(** The number of blocks that may be sent: not the last one, when reading the
    file fails before it. *)
Definition ends_well (err : error) : Prop := err = EOF ∨ err = ErrUnexpectedEOF.
#[global] Instance ends_well_dec err : Decision (ends_well err).
Proof. unfold ends_well. apply _. Defined.
Definition sendable (n len : nat) (err : error) : nat := if decide (ends_well err) then blocks n len else len / n.
Definition wire (n : nat) (data : bytes) (i : nat) : bytes :=
  packetToWire range (DATA (Z.of_nat (S i) mod 65536) (block n data i)).

(** What sending the blocks from the i-th on does. *)
Definition transcript (n : nat) (data : bytes) (err : error) (i : nat) s (r : option (res ())) s' : Prop :=
  ∃ ks es, sent s' = sent s ++ bursts (wire n data) i ks ++ es ∧ Forall (λ k, 1 ≤ k ≤ 3) ks ∧ complaint es
    ∧ i + length ks ≤ sendable n (length data) err ∧ world s' = world s ∧
  match r with
  | None => es = [] ∧ elapsed (todo s) < 3 * (sendable n (length data) err - i)
  | Some (Ok _) => es = [] ∧ ends_well err ∧ i + length ks = blocks n (length data)
  | Some (Err _) => True
  end.

Section blocks.
Context (n : nat) (data : bytes) (err : error) (Hn : 0 < n).
Abbreviation DATA_i i := (DATA (Z.of_nat (S i) mod 65536) (block n data i)).
Abbreviation send_one i s :=
  (writeAndWaitForPacket unicode_lower range (DATA_i i) (ackValidator (Z.of_nat (S i) mod 65536)) s).

Lemma transcript_complaint i s e s' es : i ≤ sendable n (length data) err →
  complaint es → sent s' = sent s ++ es → world s' = world s → transcript n data err i s (Some (Err e)) s'.
Proof. intros Hi Hes Hs Hw. exists [], es. cbn [bursts app length]. split_and!; (done || lia). Qed.

Lemma transcript_stop i s r s' : S i ≤ sendable n (length data) err → send_one i s = (r, s') →
  match r with
  | None => transcript n data err i s None s'
  | Some (Err e) => transcript n data err i s (Some (Err e)) s'
  | Some (Ok _) => ∃ k, 1 ≤ k ≤ 3 ∧ sent s' = sent s ++ replicate k (wire n data i) ∧ world s' = world s
      ∧ elapsed (todo s) ≤ elapsed (todo s') + 3
  end.
Proof.
  intros Hi (k & es & Hk & Hes & Hs & Hw & Hr)%write_and_wait_spec. destruct r as [[q | e] |].
  - destruct Hr as (_ & -> & H1 & Hel). rewrite app_nil_r in Hs. by exists k.
  - destruct (decide (k = 0)) as [-> | Hk0]; [apply (transcript_complaint i s e s' es); (done || lia) |].
    exists [k], es. cbn [bursts length]. rewrite app_nil_r. split_and!; try done; [by constructor; [lia |] | lia].
  - destruct Hr as (Ht & Hel & -> & Hk1). exists [k], []. cbn [bursts length]. rewrite !app_nil_r in *.
    split_and!; try done; [by constructor; [lia |] | lia | lia].
Qed.

Lemma transcript_cons i s k s1 r s' : 1 ≤ k ≤ 3 → sent s1 = sent s ++ replicate k (wire n data i) → world s1 = world s →
  elapsed (todo s) ≤ elapsed (todo s1) + 3 →
  transcript n data err (S i) s1 r s' → transcript n data err i s r s'.
Proof.
  intros Hk Hs Hw Hel (ks & es & Hs' & Hks & Hes & Hlen & Hw' & Hr). exists (k :: ks), es. cbn [bursts length].
  split_and!; [by rewrite Hs', Hs, <- !app_assoc | by constructor | done | lia | congruence |].
  destruct r as [[[] | e] |]; [destruct Hr as (-> & He & Hl); split_and!; [done | done | lia] | done |].
  destruct Hr as [-> He]. split; [done | lia].
Qed.

Lemma ReadAtLeast_spec i : i * n ≤ length data →
  ∃ readErr, ReadAtLeast n (drop (i * n) data) err = (block n data i, readErr, drop (S i * n) data)
  ∧ match read_end readErr with
    | Ok false => S i < blocks n (length data) ∧ S i * n ≤ length data
    | Ok true => ends_well err ∧ S i = blocks n (length data)
    | Err _ => ¬ ends_well err ∧ S i = blocks n (length data)
    end.
Proof.
  intros Hi. unfold ReadAtLeast. eexists. split; [rewrite drop_drop; do 3 f_equal; lia |].
  pose proof (block_full n data i Hn Hi) as Hfull. pose proof (block_last n data i Hn Hi) as Hlast.
  rewrite length_take in *. pose proof (length_drop data (i * n)) as Hl. set (l := length (drop (i * n) data)) in *.
  destruct (decide (n ≤ n `min` l)) as [Hle | Hle]; [split; [apply Hfull; lia | lia] |].
  specialize (Hlast ltac:(lia)). destruct (decide (err = EOF ∧ 0 < n `min` l)) as [[-> _] | _].
  - split; [by left | done].
  - unfold read_end. by destruct (decide (err = EOF ∨ err = ErrUnexpectedEOF)).
Qed.

Lemma send_blocks_spec fuel i s r s' :
  i * n ≤ length data → length (drop (i * n) data) < fuel →
  send_blocks unicode_lower range fuel n (Z.of_nat (S i) mod 65536) (drop (i * n) data) err s = (r, s') →
  transcript n data err i s r s'.
Proof.
  revert i s. induction fuel as [| fuel IH]; intros i s Hi Hf; [lia |]. rewrite length_drop in Hf. cbn [send_blocks].
  destruct (ReadAtLeast_spec i Hi) as (readErr & -> & Hend).
  assert (sendable n (length data) err = if decide (ends_well err) then blocks n (length data) else pred (blocks n (length data))) as Hsend by done.
  destruct (read_end readErr) as [[] | e].
  - destruct Hend as [Hwell Heq]. rewrite decide_True in Hsend by done.
    destruct (send_one i s) as [r1 s1] eqn:E1. apply transcript_stop in E1; [| lia].
    destruct r1 as [[q | e] |]; cbv beta iota; intros [= <- <-]; [| done | done]. destruct E1 as (k & Hk & Hs & Hw & Hel).
    apply (transcript_cons i s k s1); try done. exists [], []. cbn [bursts length].
    split_and!; [by rewrite !app_nil_r | done | by left | lia | done | done | done | lia].
  - destruct Hend as [Hlt Hle]. assert (S i ≤ sendable n (length data) err) as Hm by (rewrite Hsend; case_decide; lia).
    destruct (send_one i s) as [r1 s1] eqn:E1. apply transcript_stop in E1; [| done].
    destruct r1 as [[q | e] |]; [| by intros [= <- <-] | by intros [= <- <-]]. destruct E1 as (k & Hk & Hs & Hw & Hel).
    replace ((Z.of_nat (S i) mod 65536 + 1) mod 65536)%Z with (Z.of_nat (S (S i)) mod 65536)%Z by (rewrite Zplus_mod_idemp_l; f_equal; lia).
    intros Hr%IH; [| done | rewrite length_drop; lia]. by apply (transcript_cons i s k s1).
  - destruct Hend as [Hwell Heq]. rewrite decide_False in Hsend by done.
    destruct (writeError range tftpErrNotDefined (Error e) s) as [o s1] eqn:E1. intros [= <- <-].
    apply writeError_spec in E1 as (_ & Hw & es & Hes & Hs). apply (transcript_complaint i s e s1 es); (done || lia).
Qed.
End blocks.
End transcript.

(** ** Negotiation *)
Lemma clamp_range lo hi i : (lo ≤ hi)%Z → (lo ≤ clamp lo hi i ≤ hi)%Z ∧ ((lo ≤ i ≤ hi)%Z → clamp lo hi i = i).
Proof. intros H. unfold clamp. repeat case_decide; lia. Qed.

(** The limits of a session: they hold at its start, and negotiating keeps
    them. *)
Definition session_ok (x : session) : Prop := (8 ≤ s_blksize x ≤ 65464 ∧ 1 ≤ s_timeout x ≤ 255)%Z.

Lemma negotiate_ok (o : options) (x : session) : session_ok x → session_ok (negotiate o x).2.
Proof.
  intros [Hb Ht]. assert (∀ i, 8 ≤ clamp 8 65464 i ≤ 65464)%Z as Cb by (intros i; by apply clamp_range).
  assert (∀ i, 1 ≤ clamp 1 255 i ≤ 255)%Z as Ct by (intros i; by apply clamp_range).
  unfold negotiate. destruct (o !! s2b "blksize") as [b |]; [destruct (Atoi b) as [i | e] |]; [| done |];
    (destruct (o !! s2b "timeout") as [t |]; [destruct (Atoi t) as [j | e] |]; split; cbn; auto).
Qed.

(** What an option asks for, and what it gets: [v] was the session's value
    before and is [v'] after. *)
Definition granted (lo hi : Z) (ask answer : option bytes) (v v' : Z) : Prop :=
  match ask with
  | None => answer = None ∧ v' = v
  | Some a => ∃ i, Atoi a = Ok i ∧ v' = clamp lo hi i ∧ answer = Some (s2b (fmt_d v'))
  end.

(** C33: negotiating keeps the block size within 8 and 65464 bytes and the
    timeout within 1 and 255 seconds.  It fails only when the value of one of the
    two options is not a number; otherwise what is acknowledged is, for each of
    the two that was asked for, the value the session then uses, which is the one
    asked for within the limits, and nothing else. *)
Theorem negotiate_spec (o : options) (x : session) : session_ok x →
  let '(r, x') := negotiate o x in
  session_ok x' ∧
  match r with
  | Err e => ∃ k v, (k = s2b "blksize" ∨ k = s2b "timeout") ∧ o !! k = Some v ∧ Atoi v = Err e
  | Ok oack =>
      granted 8 65464 (o !! s2b "blksize") (oack !! s2b "blksize") (s_blksize x) (s_blksize x')
      ∧ granted 1 255 (o !! s2b "timeout") (oack !! s2b "timeout") (s_timeout x) (s_timeout x')
      ∧ ∀ k, is_Some (oack !! k) → k = s2b "blksize" ∨ k = s2b "timeout"
  end.
Proof.
  intros Hx. pose proof (negotiate_ok o x Hx) as Hok. destruct (negotiate o x) as [r x'] eqn:E. split; [done |].
  unfold negotiate in E. unfold granted.
  destruct (o !! s2b "blksize") as [b |] eqn:Eb; [destruct (Atoi b) as [i | e] eqn:Ei |].
  2: { injection E as <- <-. exists (s2b "blksize"), b. split_and!; [by left | done | done]. }
  all: destruct (o !! s2b "timeout") as [t |] eqn:Et; [destruct (Atoi t) as [j | e] eqn:Ej |]; injection E as <- <-.
  2, 5: exists (s2b "timeout"), t; split_and!; [by right | done | done].
  all: split_and!; repeat match goal with
    | |- ∃ i, Ok ?k = Ok i ∧ _ => exists k; split_and!
    | |- ∀ k, is_Some (_ !! k) → _ => intros k; rewrite ?lookup_insert_is_Some, ?lookup_empty; unfold is_Some; naive_solver
    end; try done; by simplify_map_eq.
Qed.

(** ** A request *)
Section request.
Context (unicode_lower : bytes → bytes) (range : options → list (bytes * bytes)).
Context {W : Type} (ReadFile : Conn → string → W → res (ReadCloser W) * W) (c : Conn).
Implicit Types (s : io W).

(** The session's values once the options of the request are dealt with. *)
Definition agreed (p : packetXRQ) (x : session) : session :=
  if decide (xrq_options p = ∅) then x else (negotiate (xrq_options p) x).2.
Definition blksize (p : packetXRQ) (x : session) : nat := Z.to_nat (s_blksize (agreed p x)).

Lemma agreed_ok p x : session_ok x → session_ok (agreed p x) ∧ 0 < blksize p x.
Proof.
  intros Hx. assert (session_ok (agreed p x)) as Ha by (unfold agreed; case_decide; [done | by apply negotiate_ok]).
  split; [done |]. unfold blksize. destruct Ha. lia.
Qed.

(** What is sent after a file was opened: the acknowledgement of the options,
    if there are any, and the blocks of the file. *)
Definition answered (p : packetXRQ) (x : session) (data : bytes) (err : error) s (r : option (res ())) s' : Prop :=
  let n := blksize p x in
  ∃ o k ks es, sent s' = sent s ++ replicate k (packetToWire range (OACK o)) ++ bursts (wire range n data) 0 ks ++ es
    ∧ k ≤ 3 ∧ Forall (λ k, 1 ≤ k ≤ 3) ks ∧ complaint range es ∧ length ks ≤ sendable n (length data) err
    ∧ (xrq_options p = ∅ → k = 0) ∧ world s' = world s
    ∧ match r with
      | None => elapsed (todo s) < 3 * S (blocks n (length data))
      | Some (Ok _) => es = [] ∧ ends_well err ∧ length ks = blocks n (length data)
      | Some (Err _) => True
      end.

Lemma sendable_le n len err : sendable n len err ≤ blocks n len.
Proof. unfold sendable, blocks. case_decide; lia. Qed.

Lemma send_spec p x data err s r s' : session_ok x →
  send_blocks unicode_lower range (S (length data)) (blksize p x) 1 data err s = (r, s') →
  transcript range (blksize p x) data err 0 s r s'.
Proof.
  intros Hx Hsend. destruct (agreed_ok p x Hx) as [_ Hn].
  apply (send_blocks_spec unicode_lower range (blksize p x) data err Hn (S (length data)) 0); [lia | rewrite drop_0; lia | by rewrite drop_0].
Qed.

Lemma send_file_spec p rc x s r s' : session_ok x →
  send_file unicode_lower range p rc x s = (r, s') → answered p x (rc_data rc) (rc_err rc) s r s'.
Proof.
  intros Hx. pose proof (sendable_le (blksize p x) (length (rc_data rc)) (rc_err rc)) as Hle.
  assert (∀ s1 r s', send_blocks unicode_lower range (S (length (rc_data rc))) (blksize p x) 1 (rc_data rc) (rc_err rc) s1 = (r, s') →
    transcript range (blksize p x) (rc_data rc) (rc_err rc) 0 s1 r s') as Hsend by (intros s1 r1 s1'; by apply send_spec).
  unfold send_file. unfold blksize, agreed in Hsend. case_decide as Ho.
  - intros (ks & es & Hs & Hks & Hes & Hlen & Hw & Hr)%Hsend. exists ∅, 0, ks, es. unfold blksize, agreed in *.
    rewrite decide_True in * by done. split_and!; try done; [lia |]. destruct r as [[] |]; [done | done | lia].
  - destruct (negotiate (xrq_options p) x) as [[o | e] y] eqn:En.
    2: { destruct (writeError range _ _ _) as [? s1] eqn:E1. intros [= <- <-].
         apply writeError_spec in E1 as (_ & Hw & es & Hes & Hs). exists ∅, 0, [], es. cbn [replicate bursts app length].
         split_and!; try done; lia. }
    destruct (writeAndWaitForPacket unicode_lower range (OACK o) _ s) as [[[q | e] |] s1] eqn:E1;
      apply write_and_wait_spec in E1 as (k & es & Hk & Hes & Hs & Hw & Hr).
    + destruct Hr as (_ & -> & H1 & Hel). intros (ks & es & Hs' & Hks & Hes' & Hlen & Hw' & Hr')%Hsend.
      rewrite app_nil_r in Hs. exists o, k, ks, es. unfold blksize, agreed in *. rewrite decide_False, En in * by done. cbn [snd] in *.
      split_and!; try done; [by rewrite Hs', Hs, <- !app_assoc | congruence |]. destruct r as [[] |]; [done | done | lia].
    + intros [= <- <-]. exists o, k, [], es. cbn [bursts app length]. split_and!; try done; lia.
    + intros [= <- <-]. destruct Hr as (_ & Hel & -> & _). exists o, k, [], []. cbn [bursts app length].
      split_and!; try done; lia.
Qed.

(** When a file could be opened, what is sent to its client is the
    acknowledgement of the options, at most three times and only if there are any,
    then the blocks of the file in their order, each of them one to three times
    and the next one only after it, then at most one error packet.  All of the blocks were sent,
    and no error, when the request ends well; the last one is not sent when
    reading the file fails.  The request cannot still wait once the time has
    passed three times for each block and for the options, and when it ends, the
    file is closed. *)
Theorem serveRRQ_spec (p : packetXRQ) (x : session) s (rc : ReadCloser W) w r s' :
  session_ok x → ReadFile c (b2s (xrq_filename p)) (world s) = (Ok rc, w) →
  serveRRQ unicode_lower range ReadFile c p x s = (r, s') →
  ∃ s1, answered p x (rc_data rc) (rc_err rc) (s <| world := w |>) r s1
    ∧ sent s' = sent s1 ∧ world s' = (if r is Some _ then rc_Close rc w else w).
Proof.
  intros Hx E. unfold serveRRQ. rewrite E. destruct (send_file _ _ _ _ _ _) as [r1 s1] eqn:Es.
  apply send_file_spec in Es; [| done]. intros Er.
  assert (world s1 = w) as Hw by by destruct Es as (o & k & ks & es & _ & _ & _ & _ & _ & _ & -> & _).
  exists s1. destruct r1; injection Er as <- <-; split_and!; try done. simpl. by rewrite Hw.
Qed.

(** C26: a client that falls silent cannot keep a request, nor its file open:
    once the time has passed three times for each block and three times more, the
    request has ended, and has closed the file. *)
Theorem serveRRQ_ends (p : packetXRQ) (x : session) s (rc : ReadCloser W) w :
  session_ok x → ReadFile c (b2s (xrq_filename p)) (world s) = (Ok rc, w) →
  3 * S (blocks (blksize p x) (length (rc_data rc))) ≤ elapsed (todo s) →
  ∃ r s', serveRRQ unicode_lower range ReadFile c p x s = (Some r, s') ∧ world s' = rc_Close rc w.
Proof.
  intros Hx Hfile Hel. destruct (serveRRQ unicode_lower range ReadFile c p x s) as [r s'] eqn:E.
  destruct (serveRRQ_spec p x s rc w r s' Hx Hfile E) as (s1 & Ha & _ & Hw).
  destruct r as [r |]; [by exists r, s' |].
  destruct Ha as (o & k & ks & es & _ & _ & _ & _ & _ & _ & _ & Hlt). simpl in *. lia.
Qed.

(** What is sent for a file that could not be opened. *)
Definition refusal (e : error) : packet :=
  ERROR (if decide (e = ErrNotExist) then 1 else if decide (e = ErrPermission) then 2 else 0) (s2b (Error e)).

(** Every request but one for a file that can be opened is answered, as
    soon as it is read, with one error packet: a write with "not supported", a
    packet that is not a request with code 4, one that cannot be read and a timeout with
    their error, and a file with the code of the handler's error. *)
Theorem serve_refuses s (ev : event) evs : todo s = ev :: evs → faults s = [] →
  (∀ buf p, ev = In buf → packetFromWire unicode_lower buf = Ok (RRQ p) →
     ∃ e w, ReadFile c (b2s (xrq_filename p)) (world s) = (Err e, w)) →
  ∃ r s' answer, serve unicode_lower range ReadFile c s = (Some r, s') ∧ todo s' = evs
    ∧ sent s' = sent s ++ [packetToWire range answer]
    ∧ match ev with
      | Elapsed => answer = ERROR 0 (s2b "timeout")
      | In buf =>
          match packetFromWire unicode_lower buf with
          | Err e => answer = ERROR 0 (s2b (Error e))
          | Ok (RRQ p) => ∃ e w, ReadFile c (b2s (xrq_filename p)) (world s) = (Err e, w) ∧ answer = refusal e
          | Ok (WRQ p) => answer = ERROR 0 (s2b "not supported")
          | Ok _ => answer = ERROR 4 []
          end
      end.
Proof.
  intros Ht Hf Hfile. unfold serve, session_serve, read. rewrite Ht.
  assert (∀ e m s1, faults s1 = [] → writeError range e m s1 = (None, s1 <| sent := sent s1 ++ [packetToWire range (ERROR (Code e) (s2b m))] |>)) as Hw.
  { intros e m s1 H1. unfold writeError, write. by rewrite H1. }
  destruct ev as [buf |]; [| rewrite Hw by done; do 3 eexists; split_and!; done].
  destruct (packetFromWire unicode_lower buf) as [[p | p | | | |] | e] eqn:Ep;
    try (rewrite Hw by done; do 3 eexists; split_and!; done).
  - destruct (Hfile buf p eq_refl Ep) as (e & w & E). unfold serveRRQ. change (world (s <| todo := evs |>)) with (world s).
    rewrite E. cbv beta iota zeta. rewrite Hw by done.
    do 3 eexists. split_and!; [done | done | done |]. exists e, w. split; [done |]. unfold refusal. by repeat case_decide.
  - unfold serveWRQ. rewrite Hw by done. do 3 eexists. split_and!; done.
Qed.
End request.

(** ** Examples *)
Definition file_reader (d : bytes) (e : error) : Conn → string → nat → res (ReadCloser nat) * nat :=
  λ _ _ w, (Ok {| rc_data := d; rc_err := e; rc_Close := S |}, w).
Definition ex_file : bytes := s2b "0123456789abcdef0123".
Definition ex_request : packetXRQ :=
  {| xrq_filename := s2b "f"; xrq_mode := modeOCTET; xrq_options := {[ s2b "blksize" := s2b "9" ]} |}.
Definition ex_session : session := {| s_blksize := 512; s_timeout := 3 |}.
Definition ack (z : Z) : event := In (packetToWire map_to_list (ACK z)).
(** The second block is sent three times, and its acknowledgement repeated. *)
Definition ex_events : list event := [ack 0; ack 0; ack 1; Elapsed; ack 1; Elapsed; ack 2; ack 2; ack 3; ack 3].
Definition ex_io (evs : list event) : io nat := {| todo := evs; sent := []; faults := []; world := 7 |}.


(** What the code does in two corners.  The first read of a request waits for
    no time at all: when its timer comes before the datagram, which the loop of
    [Serve] puts in the channel after it started the goroutine, the client is told
    that a timeout occurred.  A file whose reader fails with [ErrUnexpectedEOF],
    as that of a truncated archive does, ends as if it were complete. *)
Example first_read_race evs :
  serve id map_to_list (file_reader ex_file EOF) ZeroConn (ex_io (Elapsed :: evs))
  = (Some (Err ErrTimeout), {| todo := evs; sent := [packetToWire map_to_list (ERROR 0 (s2b "timeout"))]; faults := []; world := 7 |}).
Proof. reflexivity. Qed.
Example truncated_file :
  let '(r, s) := serveRRQ id map_to_list (file_reader (s2b "012") ErrUnexpectedEOF) ZeroConn
    {| xrq_filename := s2b "f"; xrq_mode := modeOCTET; xrq_options := ∅ |} ex_session (ex_io [ack 1]) in
  r = Some (Ok tt) ∧ sent s = [packetToWire map_to_list (DATA 1 (s2b "012"))].
Proof. vm_compute. done. Qed.

Lemma negotiate_spec_witness :
  let o : options := {[ s2b "blksize" := s2b "1432"; s2b "timeout" := s2b "900"; s2b "tsize" := s2b "0" ]} in
  let '(r, x') := negotiate o ex_session in
  session_ok x' ∧
  match r with
  | Err e => ∃ k v, (k = s2b "blksize" ∨ k = s2b "timeout") ∧ o !! k = Some v ∧ Atoi v = Err e
  | Ok oack =>
      granted 8 65464 (o !! s2b "blksize") (oack !! s2b "blksize") (s_blksize ex_session) (s_blksize x')
      ∧ granted 1 255 (o !! s2b "timeout") (oack !! s2b "timeout") (s_timeout ex_session) (s_timeout x')
      ∧ ∀ k, is_Some (oack !! k) → k = s2b "blksize" ∨ k = s2b "timeout"
  end.
Proof.
  intros o. apply (negotiate_spec o ex_session). vm_compute. repeat split; discriminate.
Defined.

Lemma serveRRQ_spec_witness :
  let '(r, s') := serveRRQ id map_to_list (file_reader ex_file EOF) ZeroConn ex_request ex_session (ex_io [ack 0; Elapsed; ack 1]) in
  ∃ s1, answered map_to_list ex_request ex_session ex_file EOF (ex_io [ack 0; Elapsed; ack 1]) r s1
    ∧ sent s' = sent s1 ∧ world s' = (if r is Some _ then 8 else 7).
Proof.
  destruct (serveRRQ id map_to_list (file_reader ex_file EOF) ZeroConn ex_request ex_session (ex_io [ack 0; Elapsed; ack 1])) as [r s'] eqn:E.
  apply (serveRRQ_spec id map_to_list (file_reader ex_file EOF) ZeroConn ex_request ex_session (ex_io [ack 0; Elapsed; ack 1])
    {| rc_data := ex_file; rc_err := EOF; rc_Close := S |} 7 r s'); [vm_compute; repeat split; discriminate | reflexivity | exact E].
Defined.

Lemma serveRRQ_ends_witness :
  12 ≤ elapsed (replicate 12 Elapsed) ∧ ∃ r s',
    serveRRQ id map_to_list (file_reader ex_file EOF) ZeroConn ex_request ex_session (ex_io (replicate 12 Elapsed)) = (Some r, s') ∧ world s' = 8.
Proof.
  split; [simpl; lia |].
  apply (serveRRQ_ends id map_to_list (file_reader ex_file EOF) ZeroConn ex_request ex_session (ex_io (replicate 12 Elapsed))
    {| rc_data := ex_file; rc_err := EOF; rc_Close := S |} 7); [vm_compute; repeat split; discriminate | reflexivity | vm_compute; lia].
Defined.

Definition no_file : Conn → string → nat → res (ReadCloser nat) * nat := λ _ _ w, (Err ErrNotExist, w).
Lemma serve_refuses_witness :
  let buf := packetToWire map_to_list (RRQ ex_request) in
  ∃ r s' answer, serve id map_to_list no_file ZeroConn (ex_io [In buf; Elapsed]) = (Some r, s') ∧ todo s' = [Elapsed]
    ∧ sent s' = [] ++ [packetToWire map_to_list answer]
    ∧ match packetFromWire id buf with
      | Err e => answer = ERROR 0 (s2b (Error e))
      | Ok (RRQ p) => ∃ e w, no_file ZeroConn (b2s (xrq_filename p)) 7 = (Err e, w) ∧ answer = refusal e
      | Ok (WRQ p) => answer = ERROR 0 (s2b "not supported")
      | Ok _ => answer = ERROR 4 []
      end.
Proof.
  intros buf. apply (serve_refuses id map_to_list no_file ZeroConn (ex_io [In buf; Elapsed]) (In buf) [Elapsed]); [reflexivity | reflexivity |].
  intros b p _ _. by exists ErrNotExist, 7.
Defined.
