(* ===== verification/TftpTransfer.v ===== *)
(** What a TFTP client gets from the server of [TftpServer].

    The client is the one the protocol describes: it takes the block it expects
    next, ignores what else arrives, and is done with a block that is shorter
    than the others.  Datagrams may be lost, duplicated and reordered.  *)

From S2P Require Import Prelude GoPath GoConv DcpCommon Tftp TftpPacket TftpServer.
From Stdlib Require Import ZArith Lia.

(** ** A client *)
Record client := { got : bytes; next : nat; finished : bool }.
Definition new_client : client := {| got := []; next := 0; finished := false |}.

Section transfer.
Context (unicode_lower : bytes → bytes) (range : options → list (bytes * bytes)).

Definition client_step (n : nat) (k : client) (buf : bytes) : client :=
  if finished k then k
  else match packetFromWire unicode_lower buf with
       | Ok (DATA m d) =>
           if decide (m = Z.of_nat (S (next k)) mod 65536)%Z then
             {| got := got k ++ d; next := S (next k); finished := bool_decide (length d < n) |}
           else k
       | _ => k
       end.
Definition client_run (n : nat) (k : client) (bufs : list bytes) : client := foldl (client_step n) k bufs.

(** What the client has is the blocks it counted. *)
Definition client_ok (n : nat) (data : bytes) (err : error) (k : client) : Prop :=
  if finished k then got k = data ∧ ends_well err
  else got k = take (next k * n) data ∧ next k * n ≤ length data.

Lemma wire_step n data err k i : 0 < n → client_ok n data err k → i < sendable n (length data) err →
  (Z.of_nat (blocks n (length data)) ≤ 65536)%Z →
  client_step n k (wire range n data i) =
    if finished k then k
    else if decide (i = next k) then
      {| got := got k ++ block n data i; next := S i; finished := bool_decide (S i = blocks n (length data)) |}
    else k.
Proof.
  intros Hn Hk Hi Hb. unfold client_step, client_ok in *. destruct (finished k); [done |]. destruct Hk as [_ Hk].
  pose proof (sendable_le n (length data) err) as Hle.
  assert (packetFromWire unicode_lower (wire range n data i) = Ok (DATA (Z.of_nat (S i) mod 65536) (block n data i))) as ->.
  { unfold wire. rewrite packetFromWire_DATA'. by rewrite Z.mod_mod. }
  destruct (decide (i = next k)) as [-> | Hne].
  - rewrite decide_True by done. f_equal. apply bool_decide_ext. unfold block. rewrite length_take.
    pose proof (block_full n data (next k) Hn Hk) as Hfull. pose proof (block_last n data (next k) Hn Hk) as Hlast. lia.
  - rewrite decide_False; [done |]. assert (next k < blocks n (length data)) as Hlt.
    { unfold blocks. apply Nat.lt_succ_r, Nat.div_le_lower_bound; lia. }
    intros E. apply Hne. Z.to_euclidean_division_equations. lia.
Qed.

Lemma wire_step_ok n data err k i : 0 < n → client_ok n data err k → i < sendable n (length data) err →
  (Z.of_nat (blocks n (length data)) ≤ 65536)%Z → client_ok n data err (client_step n k (wire range n data i)).
Proof.
  intros Hn Hk Hi Hb. rewrite (wire_step n data err) by done. unfold client_ok in *.
  destruct (finished k) eqn:Ef; [by rewrite Ef |]. case_decide as Hik; [subst i | by rewrite Ef].
  destruct Hk as [Hg Hle]. cbn [finished got next]. rewrite Hg. unfold block.
  assert (take (next k * n) data ++ take n (drop (next k * n) data) = take (S (next k) * n) data) as ->.
  { rewrite <- (take_drop (next k * n) data) at 3. rewrite take_app, length_take, take_take. f_equal; f_equal; lia. }
  pose proof (block_full n data (next k) Hn Hle) as Hfull. pose proof (block_last n data (next k) Hn Hle) as Hlast.
  rewrite length_drop in *. case_bool_decide as Heq.
  - split; [apply take_ge; lia |]. unfold sendable in Hi. case_decide; [done |]. unfold blocks in Heq. lia.
  - split; [done | lia].
Qed.

(** A datagram that does not hold data changes nothing. *)
Lemma other_step n k p : (∀ m d, p ≠ DATA m d) → client_step n k (packetToWire range p) = k.
Proof.
  intros Hp. unfold client_step. destruct (finished k); [done |].
  destruct (packetFromWire unicode_lower (packetToWire range p)) as [[] |] eqn:E; try done.
  apply packetFromWire_DATA in E as (m & -> & _). by destruct (Hp m data).
Qed.

Section file.
Context (n : nat) (data : bytes) (err : error) (Hn : 0 < n) (Hblocks : (Z.of_nat (blocks n (length data)) ≤ 65536)%Z).

(** What may arrive: a block that may be sent, or a packet that is no data. *)
Definition arrives (b : bytes) : Prop :=
  (∃ i, i < sendable n (length data) err ∧ b = wire range n data i) ∨ ∃ p, (∀ m d, p ≠ DATA m d) ∧ b = packetToWire range p.

Lemma client_run_ok bufs k : Forall arrives bufs → client_ok n data err k → client_ok n data err (client_run n k bufs).
Proof.
  unfold client_run. revert k. induction bufs as [| b bufs IH]; intros k; [done |]. cbn [foldl].
  intros [Hb Hbufs]%Forall_cons Hk. apply IH; [done |].
  destruct Hb as [(i & Hi & ->) | (p & Hp & ->)]; [by apply wire_step_ok | by rewrite other_step].
Qed.

Lemma client_run_app k l l' : client_run n k (l ++ l') = client_run n (client_run n k l) l'.
Proof. unfold client_run. by rewrite foldl_app. Qed.
Lemma client_run_others l k : Forall (λ b, ∃ p, (∀ m d, p ≠ DATA m d) ∧ b = packetToWire range p) l → client_run n k l = k.
Proof.
  revert k. induction l as [| b l IH]; intros k; [done |]. intros [(p & Hp & ->) Hl]%Forall_cons.
  unfold client_run. cbn [foldl]. rewrite other_step by done. by apply IH.
Qed.

(** A client that hears all of the blocks in the order they are sent in gets
    one block for each. *)
Lemma client_run_burst k i r : client_ok n data err k → finished k = false → next k = i → i < sendable n (length data) err →
  1 ≤ r → ∃ k', client_run n k (replicate r (wire range n data i)) = k' ∧ client_ok n data err k'
    ∧ next k' = S i ∧ finished k' = bool_decide (S i = blocks n (length data)).
Proof.
  intros Hk Hf Hi Hlt Hr. pose proof (wire_step_ok n data err k i Hn Hk Hlt Hblocks) as Hok.
  destruct r as [| r]; [lia |]. exists (client_step n k (wire range n data i)).
  pose proof (wire_step n data err k i Hn Hk Hlt Hblocks) as E. rewrite Hf, decide_True in E by done.
  split_and!; [| done | by rewrite E | by rewrite E]. unfold client_run. cbn [replicate foldl]. clear Hr.
  induction r as [| r IH]; [done |]. cbn [replicate foldl].
  rewrite (wire_step n data err _ i Hn Hok Hlt Hblocks), decide_False by (rewrite E; simpl; lia).
  by destruct (finished (client_step n k (wire range n data i))).
Qed.
Lemma client_run_bursts ks i k : client_ok n data err k → finished k = false → next k = i → Forall (λ k, 1 ≤ k ≤ 3) ks →
  ks ≠ [] → i + length ks ≤ sendable n (length data) err →
  let k' := client_run n k (bursts (wire range n data) i ks) in
  client_ok n data err k' ∧ finished k' = bool_decide (i + length ks = blocks n (length data)).
Proof.
  revert i k. induction ks as [| r ks IH]; intros i k Hk Hf Hi Hall Hne Hlen; [done |]. apply Forall_cons in Hall as [Hr Hks].
  cbn [length bursts] in *. pose proof (sendable_le n (length data) err) as Hle.
  destruct (client_run_burst k i r) as (k1 & E1 & Hk1 & Hi1 & Hf1); [done | done | done | lia | lia |].
  rewrite client_run_app, E1. destruct ks as [| r2 ks]; [simpl; split; [done |]; rewrite Hf1; apply bool_decide_ext; lia |].
  destruct (IH (S i) k1) as [H1 H2]; [done | rewrite Hf1, bool_decide_false; [done | cbn [length] in *; lia] | done | done | done | cbn [length] in *; lia |].
  split; [done |]. rewrite H2. apply bool_decide_ext. cbn [length] in *. lia.
Qed.
End file.

(** ** What a client gets *)
Context {W : Type} (ReadFile : Conn → string → W → res (ReadCloser W) * W) (c : Conn).

Lemma answered_arrives p x data err s r s' : sent s = [] → answered range (W := W) p x data err s r s' →
  Forall (arrives (blksize p x) data err) (sent s').
Proof.
  intros Hs (o & k & ks & es & -> & Hk & Hks & Hes & Hlen & _). rewrite Hs. simpl app. apply Forall_forall.
  intros b [[-> _]%elem_of_replicate | [(j & Hj & ->)%elem_of_bursts | Hb]%elem_of_app]%elem_of_app.
  - right. by exists (OACK o).
  - left. exists j. split; [lia | done].
  - right. destruct Hes as [-> | (code & m & ->)]; [by apply elem_of_nil in Hb |].
    apply list_elem_of_singleton in Hb as ->. by exists (ERROR code m).
Qed.

Lemma new_client_ok n data err : client_ok n data err new_client.
Proof. split; [done | simpl; lia]. Qed.

(** C24: whatever the network does with the datagrams that a request sends (it
    may lose, repeat and reorder them), and whatever the timeouts and the other datagrams
    were, what the client has of the file at any time is a prefix of it, and it is
    done only with the whole file, read to its end.  (For files of fewer blocks than there
    are block numbers.) *)
Theorem client_gets_prefix (p : packetXRQ) (x : session) (s : io W) (rc : ReadCloser W) w r s' (arrived : list bytes) :
  session_ok x → sent s = [] → ReadFile c (b2s (xrq_filename p)) (world s) = (Ok rc, w) →
  serveRRQ unicode_lower range ReadFile c p x s = (r, s') →
  (Z.of_nat (blocks (blksize p x) (length (rc_data rc))) ≤ 65536)%Z →
  Forall (λ b, b ∈ sent s') arrived →
  let k := client_run (blksize p x) new_client arrived in
  got k `prefix_of` rc_data rc ∧ (finished k = true → got k = rc_data rc ∧ ends_well (rc_err rc)).
Proof.
  intros Hx Hs Hfile Hserve Hb Harr. destruct (serveRRQ_spec unicode_lower range ReadFile c p x s rc w r s' Hx Hfile Hserve) as (s1 & Ha & Hs1 & _).
  apply answered_arrives in Ha; [| done]. rewrite <- Hs1 in Ha. rewrite Forall_forall in Ha.
  destruct (agreed_ok p x Hx) as [_ Hn].
  assert (client_ok (blksize p x) (rc_data rc) (rc_err rc) (client_run (blksize p x) new_client arrived)) as Hok.
  { apply client_run_ok; [done | done | | apply new_client_ok]. eapply Forall_impl; [exact Harr | auto]. }
  unfold client_ok in Hok. simpl. destruct (finished _).
  - destruct Hok as [-> He]. by split.
  - destruct Hok as [-> _]. split; [apply prefix_take | done].
Qed.

(** When a request for a file ends well, every block of it was sent: a
    client that received what was sent has the whole file, and is done. *)
Theorem client_gets_file (p : packetXRQ) (x : session) (s : io W) (rc : ReadCloser W) w s' :
  session_ok x → sent s = [] → ReadFile c (b2s (xrq_filename p)) (world s) = (Ok rc, w) →
  serveRRQ unicode_lower range ReadFile c p x s = (Some (Ok tt), s') →
  (Z.of_nat (blocks (blksize p x) (length (rc_data rc))) ≤ 65536)%Z →
  let k := client_run (blksize p x) new_client (sent s') in finished k = true ∧ got k = rc_data rc.
Proof.
  intros Hx Hs Hfile Hserve Hb. destruct (serveRRQ_spec unicode_lower range ReadFile c p x s rc w _ s' Hx Hfile Hserve) as (s1 & Ha & Hs1 & _).
  destruct (agreed_ok p x Hx) as [_ Hn].
  destruct Ha as (o & k & ks & es & E & Hk & Hks & _ & Hlen & _ & _ & -> & Hwell & Hall).
  rewrite Hs1, E. simpl. rewrite Hs, app_nil_r. cbn [app]. rewrite client_run_app.
  rewrite (client_run_others _ (replicate k (packetToWire range (OACK o)))).
  2: { apply Forall_replicate. by exists (OACK o). }
  destruct (client_run_bursts (blksize p x) (rc_data rc) (rc_err rc) Hn Hb ks 0 new_client) as [Hok Hf]; try done.
  - apply new_client_ok.
  - intros ->. unfold blocks in Hall. simpl in Hall. lia.
  - rewrite bool_decide_true in Hf by lia. split; [done |]. unfold client_ok in Hok. rewrite Hf in Hok. by destruct Hok.
Qed.

(** ** A client that answers

    Datagrams that are not the answer that is waited for. *)
Definition noise (v : packet → bool) (evs : list event) : Prop :=
  ∀ buf, In buf ∈ evs → ∃ p, packetFromWire unicode_lower buf = Ok p ∧ v p = false.

Lemma noise_tail v ev evs : noise v (ev :: evs) → noise v evs.
Proof. intros H buf Hb. apply H. by right. Qed.

Lemma wait_reply_noise v evs buf p rest : noise v evs → packetFromWire unicode_lower buf = Ok p → v p = true →
  if decide (elapsed evs = 0) then wait_reply unicode_lower v (evs ++ In buf :: rest) = (Some (Ok p), rest)
  else ∃ evs', wait_reply unicode_lower v (evs ++ In buf :: rest) = (Some (Err ErrTimeout), evs' ++ In buf :: rest)
       ∧ noise v evs' ∧ elapsed evs = S (elapsed evs').
Proof.
  intros Hn Hp Hv. induction evs as [| [b |] evs IH]; cbn [elapsed wait_reply app].
  - by rewrite Hp, Hv.
  - destruct (Hn b) as (q & -> & ->); [by left |]. apply IH. by eapply noise_tail.
  - exists evs. split_and!; [done | by eapply noise_tail | done].
Qed.

Lemma write_and_wait_answer tries v q noises buf p rest (s : io W) :
  faults s = [] → todo s = noises ++ In buf :: rest → noise v noises → elapsed noises < tries →
  packetFromWire unicode_lower buf = Ok p → v p = true →
  ∃ s', write_and_wait unicode_lower range tries q v s = (Some (Ok p), s') ∧ faults s' = [] ∧ todo s' = rest.
Proof.
  revert noises s. induction tries as [| tries IH]; intros noises s Hf Ht Hn He Hp Hv; [lia |].
  cbn [write_and_wait]. unfold write. rewrite Hf. cbn [todo]. 
  pose proof (wait_reply_noise v noises buf p rest Hn Hp Hv) as Hw. simpl. rewrite Ht. case_decide.
  - rewrite Hw. by eexists.
  - destruct Hw as (evs' & -> & Hn' & He'). cbv beta iota. rewrite decide_True by done. apply (IH evs'); try done. lia.
Qed.

(** The answers of a client: the acknowledgement of the i-th block, of those
    after it, and so on up to the last one, each after at most two timeouts and
    after anything but that acknowledgement. *)
Inductive answers (last : nat) : nat → list event → list event → Prop :=
  | answers_done i rest : last < i → answers last i rest rest
  | answers_ack i noises buf evs rest :
      i ≤ last → noise (ackValidator (Z.of_nat i mod 65536)) noises → elapsed noises ≤ 2 →
      packetFromWire unicode_lower buf = Ok (ACK (Z.of_nat i mod 65536)) →
      answers last (S i) evs rest → answers last i (noises ++ In buf :: evs) rest.

Lemma send_blocks_answered n data err fuel i (s : io W) rest :
  0 < n → ends_well err → i * n ≤ length data → length (drop (i * n) data) < fuel →
  faults s = [] → answers (blocks n (length data)) (S i) (todo s) rest →
  ∃ s', send_blocks unicode_lower range fuel n (Z.of_nat (S i) mod 65536) (drop (i * n) data) err s = (Some (Ok tt), s')
    ∧ todo s' = rest ∧ faults s' = [].
Proof.
  intros Hn Hwell. revert i s. induction fuel as [| fuel IH]; intros i s Hi Hfuel Hf Hans; [lia |].
  cbn [send_blocks]. rewrite length_drop in Hfuel.
  destruct (ReadAtLeast_spec n data err Hn i Hi) as (readErr & -> & Hend).
  assert (S i ≤ blocks n (length data)) as Hle by (destruct (read_end readErr) as [[] |]; lia).
  inversion Hans as [? ? Hlt | ? noises buf evs ? _ Hno Hel Hbuf Hrest]; subst; [lia |].
  destruct (write_and_wait_answer 3 (ackValidator (Z.of_nat (S i) mod 65536)) (DATA (Z.of_nat (S i) mod 65536) (block n data i))
    noises buf _ evs s Hf (eq_sym ltac:(eassumption)) Hno ltac:(lia) Hbuf) as (s1 & E1 & Hf1 & Ht1); [by apply bool_decide_true |].
  unfold writeAndWaitForPacket. rewrite E1.
  destruct (read_end readErr) as [[] | e]; [| | by destruct Hend].
  - destruct Hend as [_ Heq]. exists s1. split_and!; [done | | done]. rewrite Ht1. inversion Hrest; [done | lia].
  - replace ((Z.of_nat (S i) mod 65536 + 1) mod 65536)%Z with (Z.of_nat (S (S i)) mod 65536)%Z by (rewrite Zplus_mod_idemp_l; f_equal; lia).
    apply IH; [tauto | rewrite length_drop; lia | done | by rewrite Ht1].
Qed.

(** The values of the options of a request are numbers. *)
Definition understood (p : packetXRQ) (x : session) : bool :=
  match (negotiate (xrq_options p) x).1 with Ok _ => true | Err _ => false end.

(** A client that acknowledges the options it asked for and then every
    block, each before the third timeout, gets the file: the request ends well,
    and what is left to read afterwards is what came after the last
    acknowledgement.  (The options it asked for must be understood, and nothing
    fail in reading the file or in sending.) *)
Theorem file_is_served (p : packetXRQ) (x : session) (s : io W) (rc : ReadCloser W) w (rest : list event) :
  session_ok x → faults s = [] → ReadFile c (b2s (xrq_filename p)) (world s) = (Ok rc, w) → ends_well (rc_err rc) →
  understood p x = true →
  answers (blocks (blksize p x) (length (rc_data rc))) (if decide (xrq_options p = ∅) then 1 else 0) (todo s) rest →
  ∃ s', serveRRQ unicode_lower range ReadFile c p x s = (Some (Ok tt), s') ∧ todo s' = rest.
Proof.
  intros Hx Hf Hfile Hwell Ho Hans. unfold understood in Ho. destruct (agreed_ok p x Hx) as [_ Hn].
  assert (∀ s1 : io W, faults s1 = [] → answers (blocks (blksize p x) (length (rc_data rc))) 1 (todo s1) rest →
    ∃ s', send_blocks unicode_lower range (S (length (rc_data rc))) (blksize p x) 1 (rc_data rc) (rc_err rc) s1 = (Some (Ok tt), s')
    ∧ todo s' = rest) as Hsend.
  { intros s1 Hf1 Ha1. edestruct (send_blocks_answered (blksize p x) (rc_data rc) (rc_err rc) (S (length (rc_data rc))) 0 s1 rest Hn Hwell)
      as (s' & E & Ht & _); [lia | rewrite drop_0; lia | done | done |]. exists s'. by rewrite drop_0 in E. }
  unfold serveRRQ. rewrite Hfile. unfold send_file. cbv zeta. unfold blksize, agreed in *.
  destruct (decide (xrq_options p = ∅)) as [He | He].
  - match goal with |- context [send_blocks _ _ _ _ _ _ _ ?s1] => destruct (Hsend s1 Hf Hans) as (s' & -> & Ht) end. by eexists.
  - destruct (negotiate (xrq_options p) x) as [[o | ?] y]; [| done]. cbn [fst snd] in *.
    inversion Hans as [? ? Hlt | ? noises buf evs ? _ Hno Hel Hbuf Hrest]; subst; [unfold blocks in *; lia |].
    unfold writeAndWaitForPacket. match goal with |- context [write_and_wait _ _ _ _ _ ?s1] =>
      destruct (write_and_wait_answer 3 (ackValidator 0) (OACK o) noises buf _ evs s1 Hf (eq_sym ltac:(eassumption)) Hno ltac:(lia) Hbuf)
        as (s2 & E1 & Hf2 & Ht2); [done |] end.
    rewrite E1. destruct (Hsend s2 Hf2) as (s' & -> & Ht); [by rewrite Ht2 |]. by eexists.
Qed.
End transfer.

(** ** From a request to a file *)
Section handler.
Context (unicode_lower : bytes → bytes) (range : options → list (bytes * bytes)).
Context {W : Type} (partial : bytes) (h : Handler W) (c : Conn).

(** The values every session starts with. *)
Definition initial : session := {| s_blksize := 512; s_timeout := 3 |}.

(** What a client does that gets a file: it asks for it with the datagram
    [buf], with options that are numbers, and then answers as the protocol says; [rest] is
    what arrives after its last acknowledgement.  The file has at most as many
    blocks as there are block numbers. *)
Record cooperates (p : packetXRQ) (x : session) (d buf : bytes) (evs rest : list event) : Prop := {
  co_request : packetFromWire unicode_lower buf = Ok (RRQ p);
  co_understood : understood p x = true;
  co_blocks : (Z.of_nat (blocks (blksize p x) (length d)) ≤ 65536)%Z;
  co_answers : answers unicode_lower (blocks (blksize p x) (length d)) (if decide (xrq_options p = ∅) then 1 else 0) evs rest
}.

(** What a session starts with: nothing was sent, and nothing fails in sending. *)
Definition fresh (s : io W) : Prop := sent s = [] ∧ faults s = [].

Lemma session_file_served (p : packetXRQ) (x : session) (s : io W) (d buf : bytes) (evs rest : list event) (w : W) :
  session_ok x → Tftp.ReadFile h c (b2s (xrq_filename p)) (world s) = (Ok (Ok d), w) → cooperates p x d buf evs rest →
  fresh s → todo s = In buf :: evs →
  ∃ s', session_serve unicode_lower range (of_handler partial h) c x s = (Some (Ok tt), s') ∧ todo s' = rest ∧ world s' = w
    ∧ let k := client_run unicode_lower (blksize p x) new_client (sent s') in finished k = true ∧ got k = d.
Proof.
  intros Hx Hfile [Hbuf Hu Hb Hans] [Hs Hf] Ht. unfold session_serve, read. rewrite Ht, Hbuf.
  set (s1 := s <| todo := evs |>).
  assert (of_handler partial h c (b2s (xrq_filename p)) (world s1) = (Ok {| rc_data := d; rc_err := EOF; rc_Close := id |}, w)) as Hopen.
  { unfold of_handler. simpl. by rewrite Hfile. }
  destruct (file_is_served unicode_lower range (of_handler partial h) c p x s1 _ w rest Hx Hf Hopen) as (s' & E & Hrest); [by left | done | done |].
  exists s'. split; [done |]. split; [done |]. split.
  - destruct (serveRRQ_spec unicode_lower range (of_handler partial h) c p x s1 _ w _ s' Hx Hopen E) as (_ & _ & _ & Hw). done.
  - by apply (client_gets_file unicode_lower range (of_handler partial h) c p x s1 _ w s' Hx Hs Hopen E).
Qed.
(** The first read waits for no time: when its timer comes first, the request is
    not served, and the client is told so. *)
Lemma session_timed_out (x : session) (s : io W) (evs : list event) : fresh s → todo s = Elapsed :: evs →
  session_serve unicode_lower range (of_handler partial h) c x s
  = (Some (Err ErrTimeout), s <| todo := evs |> <| sent := [packetToWire range (ERROR 0 (s2b "timeout"))] |>).
Proof.
  intros [Hs Hf] Ht. unfold session_serve, read. rewrite Ht. unfold writeError, write. destruct s as [t sn fa wo]. simpl in *. by subst.
Qed.

(** C25: a client that asks for a file which the handler has, and then answers
    as the protocol says, gets the file when its request is read in time: the
    server takes its request, sends what makes the client have the whole file and
    be done, and leaves to the next request what arrived after the last
    acknowledgement.  The first read waits for no time at all, so its timer
    may come before the request: then the request stays unread, the handler is not asked,
    and the client is sent one datagram, the error "timeout".  (The request's options are
    numbers, the file has at most 65536 blocks, and no datagram fails to be sent.) *)
Theorem handler_file_served (p : packetXRQ) (s : io W) (d buf : bytes) (evs rest : list event) (w : W) :
  Tftp.ReadFile h c (b2s (xrq_filename p)) (world s) = (Ok (Ok d), w) → cooperates p initial d buf evs rest → fresh s →
  (todo s = In buf :: evs →
    ∃ s', serve unicode_lower range (of_handler partial h) c s = (Some (Ok tt), s') ∧ todo s' = rest ∧ world s' = w
    ∧ let k := client_run unicode_lower (blksize p initial) new_client (sent s') in finished k = true ∧ got k = d)
  ∧ (todo s = Elapsed :: In buf :: evs →
    ∃ s', serve unicode_lower range (of_handler partial h) c s = (Some (Err ErrTimeout), s') ∧ todo s' = In buf :: evs
    ∧ world s' = world s ∧ sent s' = [packetToWire range (ERROR 0 (s2b "timeout"))]).
Proof.
  intros Hfile Hco Hfr. split; [by apply session_file_served |]. intros Ht. unfold serve.
  rewrite (session_timed_out _ s (In buf :: evs) Hfr Ht). by eexists.
Qed.
End handler.

(** ** Examples *)
Example served_ex :
  let '(r, s) := serveRRQ id map_to_list (file_reader ex_file EOF) ZeroConn ex_request ex_session (ex_io ex_events) in
  r = Some (Ok tt) ∧ todo s = [ack 3] ∧ world s = 8
  ∧ sent s = packetToWire map_to_list <$>
      [OACK {[ s2b "blksize" := s2b "9" ]}; DATA 1 (s2b "012345678"); DATA 2 (s2b "9abcdef01"); DATA 2 (s2b "9abcdef01");
       DATA 2 (s2b "9abcdef01"); DATA 3 (s2b "23")].
Proof. vm_compute. done. Qed.

Lemma client_gets_prefix_witness :
  let '(r, s) := serveRRQ id map_to_list (file_reader ex_file EOF) ZeroConn ex_request ex_session (ex_io ex_events) in
  let k := client_run id 9 new_client (default [] ∘ (sent s !!.) <$> [1; 3; 3; 0; 1]) in
  next k = 2 ∧ got k `prefix_of` ex_file ∧ (finished k = true → got k = ex_file ∧ ends_well EOF).
Proof.
  destruct (serveRRQ id map_to_list (file_reader ex_file EOF) ZeroConn ex_request ex_session (ex_io ex_events)) as [r s] eqn:E.
  split; [apply (f_equal snd) in E; vm_compute in E; subst s; vm_compute; reflexivity |].
  apply (client_gets_prefix id map_to_list (file_reader ex_file EOF) ZeroConn ex_request ex_session (ex_io ex_events)
    {| rc_data := ex_file; rc_err := EOF; rc_Close := S |} 7 r s); try reflexivity.
  - vm_compute. repeat split; discriminate.
  - exact E.
  - vm_compute. discriminate.
  - apply (f_equal snd) in E. vm_compute in E. subst s. vm_compute. repeat constructor.
Defined.

Lemma client_gets_file_witness :
  let '(r, s) := serveRRQ id map_to_list (file_reader ex_file EOF) ZeroConn ex_request ex_session (ex_io ex_events) in
  let k := client_run id 9 new_client (sent s) in finished k = true ∧ got k = ex_file.
Proof.
  destruct (serveRRQ id map_to_list (file_reader ex_file EOF) ZeroConn ex_request ex_session (ex_io ex_events)) as [r s] eqn:E.
  assert (r = Some (Ok tt)) as -> by (apply (f_equal fst) in E; vm_compute in E; by symmetry).
  apply (client_gets_file id map_to_list (file_reader ex_file EOF) ZeroConn ex_request ex_session (ex_io ex_events)
    {| rc_data := ex_file; rc_err := EOF; rc_Close := S |} 7 s); try reflexivity.
  - vm_compute. repeat split; discriminate.
  - exact E.
  - vm_compute. discriminate.
Defined.

(** The acknowledgements of [ex_events], with what comes between them. *)
Lemma ex_events_answers : answers id 3 0 ex_events [ack 3].
Proof.
  assert (∀ v evs, forallb (λ ev, match ev with In buf => match packetFromWire id buf with Ok p => negb (v p) | Err _ => false end
    | Elapsed => true end) evs = true → noise id v evs) as Hnoise.
  { intros v evs Hf buf Hb. rewrite forallb_forall in Hf. specialize (Hf (In buf) (proj1 (list_elem_of_In _ _) Hb)). simpl in Hf.
    destruct (packetFromWire id buf) as [p |]; [| done]. exists p. split; [done | by destruct (v p)]. }
  apply (answers_ack id 3 0 []); [lia | by apply Hnoise | simpl; lia | vm_compute; reflexivity |].
  apply (answers_ack id 3 1 [ack 0]); [lia | apply Hnoise; vm_compute; reflexivity | simpl; lia | vm_compute; reflexivity |].
  apply (answers_ack id 3 2 [Elapsed; ack 1; Elapsed]); [lia | apply Hnoise; vm_compute; reflexivity | simpl; lia | vm_compute; reflexivity |].
  apply (answers_ack id 3 3 [ack 2]); [lia | apply Hnoise; vm_compute; reflexivity | simpl; lia | vm_compute; reflexivity |].
  apply answers_done. lia.
Qed.

Lemma file_is_served_witness :
  ∃ s', serveRRQ id map_to_list (file_reader ex_file EOF) ZeroConn ex_request ex_session (ex_io ex_events) = (Some (Ok tt), s')
    ∧ todo s' = [ack 3].
Proof.
  apply (file_is_served id map_to_list (file_reader ex_file EOF) ZeroConn ex_request ex_session (ex_io ex_events)
    {| rc_data := ex_file; rc_err := EOF; rc_Close := S |} 7 [ack 3]); try reflexivity.
  - vm_compute. repeat split; discriminate.
  - by left.
  - exact ex_events_answers.
Defined.

Definition ex_handler : Handler nat :=
  {| Tftp.ReadFile := λ _ f w, (if decide (f = "f"%string) then Ok (Ok ex_file) else Err ErrNotExist, S w);
     WriteFile := λ _ _ w, (Err ErrPermission, w) |}.
Definition ex_todo : list event := In (packetToWire map_to_list (RRQ ex_request)) :: ex_events.
Lemma handler_file_served_witness :
  (∃ s', serve id map_to_list (of_handler [] ex_handler) ZeroConn (ex_io ex_todo) = (Some (Ok tt), s')
    ∧ todo s' = [ack 3] ∧ world s' = 8
    ∧ let k := client_run id 9 new_client (sent s') in finished k = true ∧ got k = ex_file)
  ∧ ∃ s', serve id map_to_list (of_handler [] ex_handler) ZeroConn (ex_io (Elapsed :: ex_todo)) = (Some (Err ErrTimeout), s')
    ∧ todo s' = ex_todo ∧ world s' = 7 ∧ sent s' = [packetToWire map_to_list (ERROR 0 (s2b "timeout"))].
Proof.
  assert (cooperates id ex_request initial ex_file (packetToWire map_to_list (RRQ ex_request)) ex_events [ack 3]) as Hco.
  { split; [reflexivity | reflexivity | vm_compute; discriminate | exact ex_events_answers]. }
  split.
  - by apply (handler_file_served id map_to_list [] ex_handler ZeroConn ex_request (ex_io ex_todo) ex_file _ ex_events [ack 3] 8 eq_refl Hco).
  - by apply (handler_file_served id map_to_list [] ex_handler ZeroConn ex_request (ex_io (Elapsed :: ex_todo)) ex_file _ ex_events [ack 3] 8 eq_refl Hco).
Defined.
