(* ===== verification/TftpTable.v ===== *)
(** The clients of the TFTP server: [Serve] of [gotftpd/server.go].

    Each client has a channel for ten datagrams and a goroutine that serves its
    requests one after the other.  The loop that reads from the socket and the
    goroutines share the table of channels under a lock: what is done while it is
    held is one step. *)

From S2P Require Import Prelude.
From Stdlib Require Import ZArith Lia.

(** A goroutine serves a request, or is done with it and about to lock. *)
Inductive phase := Serving | Leaving.
#[global] Instance phase_eq_dec : EqDecision phase.
Proof. solve_decision. Defined.

(** Channels and their goroutines are named by the same number.  [accepted] and
    [taken] record which datagrams were put in a channel, and which were read from
    one, of which client. *)
Record clients := {
  table : gmap string nat;
  chans : gmap nat (list bytes);
  gos : gmap nat (string * phase);
  nextgo : nat;
  accepted : list (string * bytes);
  taken : list (string * bytes)
}.
#[global] Instance eta_clients : Eta clients := λ s,
  {| table := table s; chans := chans s; gos := gos s; nextgo := nextgo s; accepted := accepted s; taken := taken s |}.

Definition no_clients : clients :=
  {| table := ∅; chans := ∅; gos := ∅; nextgo := 0; accepted := []; taken := [] |}.

Definition capacity : nat := 10.

(** A new channel and the goroutine that reads from it. *)
(* @vendor/gotftpd/server.go:114-133 Serve *)
Definition find_chan (addr : string) (s : clients) : nat * clients :=
  match table s !! addr with
  | Some ch => (ch, s)
  | None =>
      let ch := nextgo s in
      (ch, s <| table := <[addr := ch]> (table s) |> <| chans := <[ch := []]> (chans s) |>
             <| gos := <[ch := (addr, Serving)]> (gos s) |> <| nextgo := S ch |>)
  end.

(** A datagram of [addr] arrives, with its control message or without. *)
(* @vendor/gotftpd/server.go:96-159 Serve *)
Definition receive (cm : bool) (addr : string) (b : bytes) (s : clients) : clients :=
  if negb cm then s
  else
    let '(ch, s) := find_chan addr s in
    let q := default [] (chans s !! ch) in
    if decide (length q < capacity) then
      s <| chans := <[ch := q ++ [b]]> (chans s) |> <| accepted := accepted s ++ [(addr, b)] |>
    else s.

(** The lock is taken after a request was served. *)
(* @vendor/gotftpd/server.go:140-145 Serve *)
Definition leave (g : nat) (addr : string) (s : clients) : clients :=
  if decide (length (default [] (chans s !! g)) = 0) then
    s <| table := delete addr (table s) |> <| gos := delete g (gos s) |>
  else s <| gos := <[g := (addr, Serving)]> (gos s) |>.

(** What may happen next: a datagram arrives, a goroutine that serves reads one
    or returns, one that has returned looks at its channel. *)
(* @vendor/gotftpd/server.go:85-160 Serve *)
Inductive step : clients → clients → Prop :=
  | step_receive cm addr b s : step s (receive cm addr b s)
  | step_take g addr b q s :
      gos s !! g = Some (addr, Serving) → chans s !! g = Some (b :: q) →
      step s (s <| chans := <[g := q]> (chans s) |> <| taken := taken s ++ [(addr, b)] |>)
  | step_return g addr s :
      gos s !! g = Some (addr, Serving) → step s (s <| gos := <[g := (addr, Leaving)]> (gos s) |>)
  | step_leave g addr s : gos s !! g = Some (addr, Leaving) → step s (leave g addr s).

Definition reachable : clients → Prop := rtc step no_clients.

(** ** Invariant *)

(** The datagrams of one client. *)
Definition of_client (addr : string) (l : list (string * bytes)) : list bytes := (filter (λ p, p.1 = addr) l).*2.

(** Those that wait for its goroutine. *)
Definition waiting (s : clients) (addr : string) : list bytes :=
  default [] (ch ← table s !! addr; chans s !! ch).

Record inv (s : clients) : Prop := {
  inv_table : ∀ addr g, table s !! addr = Some g ↔ ∃ ph, gos s !! g = Some (addr, ph);
  inv_chans : ∀ g, is_Some (gos s !! g) → ∃ q, chans s !! g = Some q ∧ length q ≤ capacity;
  inv_gone : ∀ g q, gos s !! g = None → chans s !! g = Some q → q = [];
  inv_next : ∀ g, nextgo s ≤ g → gos s !! g = None ∧ chans s !! g = None;
  inv_fifo : ∀ addr, of_client addr (accepted s) = of_client addr (taken s) ++ waiting s addr
}.

Lemma of_client_app addr l a b : of_client addr (l ++ [(a, b)]) = of_client addr l ++ (if decide (a = addr) then [b] else []).
Proof. unfold of_client. rewrite filter_app, fmap_app. f_equal. rewrite filter_cons. simpl. by case_decide. Qed.

(** A goroutine's client is found in the table, and no other goroutine has it. *)
Lemma inv_owner s g addr ph : inv s → gos s !! g = Some (addr, ph) → table s !! addr = Some g.
Proof. intros Hs Hg. apply (inv_table s Hs). by exists ph. Qed.
Lemma inv_other s g a ch b : inv s → table s !! a = Some g → table s !! b = Some ch → a ≠ b → g ≠ ch.
Proof.
  intros Hs [ph Ha]%(inv_table s Hs) [ph' Hb]%(inv_table s Hs) Hne ->. rewrite Ha in Hb. congruence.
Qed.

Lemma waiting_at s addr g q : table s !! addr = Some g → chans s !! g = Some q → waiting s addr = q.
Proof. intros Ht Hq. unfold waiting. rewrite Ht. simpl. by rewrite Hq. Qed.
Lemma waiting_none s addr : table s !! addr = None → waiting s addr = [].
Proof. intros Ht. unfold waiting. by rewrite Ht. Qed.

Lemma find_chan_inv addr s : inv s → let '(ch, s') := find_chan addr s in
  inv s' ∧ table s' !! addr = Some ch ∧ accepted s' = accepted s ∧ taken s' = taken s.
Proof.
  intros Hs. unfold find_chan. destruct (table s !! addr) as [ch |] eqn:Et; [done |].
  simpl. split_and!; [| by rewrite lookup_insert_eq | done | done].
  destruct (inv_next s Hs (nextgo s)) as [Hg Hc]; [done |].
  constructor; simpl.
  - intros a g. destruct (decide (a = addr)) as [-> | Ha], (decide (g = nextgo s)) as [-> | Hne];
      rewrite ?lookup_insert_eq, ?lookup_insert_ne by done.
    + split; [by eexists | done].
    + split; [congruence | intros [ph Hg']; exfalso; assert (table s !! addr = Some g) by (apply (inv_table s Hs); eauto); congruence].
    + rewrite (inv_table s Hs). split; [intros [ph ?]; congruence | intros [ph ?]; congruence].
    + apply (inv_table s Hs).
  - intros g. destruct (decide (g = nextgo s)) as [-> | Hne]; rewrite ?lookup_insert_eq, ?lookup_insert_ne by done; [| apply (inv_chans s Hs)].
    intros _. exists []. split; [done | simpl; lia].
  - intros g q. destruct (decide (g = nextgo s)) as [-> | Hne]; rewrite ?lookup_insert_eq, ?lookup_insert_ne by done; [done | apply (inv_gone s Hs)].
  - intros g Hle. rewrite !lookup_insert_ne by lia. apply (inv_next s Hs). lia.
  - intros a. rewrite (inv_fifo s Hs). f_equal. unfold waiting. simpl. destruct (decide (a = addr)) as [-> | Ha].
    + rewrite Et, lookup_insert_eq. simpl. by rewrite lookup_insert_eq.
    + rewrite lookup_insert_ne by done. destruct (table s !! a) as [ch |] eqn:Ea; [| done]. simpl.
      rewrite lookup_insert_ne; [done |]. intros <-. apply (inv_table s Hs) in Ea as [ph Ha']. congruence.
Qed.

(** Changing what waits in one channel, and the histories with it. *)
Lemma set_chan_inv s ch addr q acc tkn :
  inv s → table s !! addr = Some ch → length q ≤ capacity →
  (∀ a, of_client a acc = of_client a tkn ++ (if decide (a = addr) then q else waiting s a)) →
  inv (s <| chans := <[ch := q]> (chans s) |> <| accepted := acc |> <| taken := tkn |>).
Proof.
  intros Hs Ht Hq Hh. destruct (proj1 (inv_table s Hs addr ch) Ht) as [ph Hg]. constructor; simpl.
  - apply (inv_table s Hs).
  - intros g. destruct (decide (g = ch)) as [-> | Hne]; rewrite ?lookup_insert_eq, ?lookup_insert_ne by done; [by exists q | apply (inv_chans s Hs)].
  - intros g q' Hnone. rewrite lookup_insert_ne by congruence. by apply (inv_gone s Hs).
  - intros g Hle. pose proof (inv_next s Hs g Hle) as [H1 H2]. rewrite lookup_insert_ne by congruence. done.
  - intros a. rewrite Hh. f_equal. unfold waiting. simpl. case_decide as Ha.
    + subst. rewrite Ht. simpl. by rewrite lookup_insert_eq.
    + destruct (table s !! a) as [g |] eqn:Ea; [| done]. simpl. rewrite lookup_insert_ne; [done |].
      by apply (inv_other s ch addr g a).
Qed.

Lemma receive_inv cm addr b s : inv s → inv (receive cm addr b s).
Proof.
  intros Hs. unfold receive. destruct cm; [| done]. simpl negb. cbv iota.
  pose proof (find_chan_inv addr s Hs) as Hf. destruct (find_chan addr s) as [ch s1]. destruct Hf as (Hs1 & Ht & _ & _).
  destruct (proj1 (inv_table s1 Hs1 addr ch) Ht) as [ph Hg]. destruct (inv_chans s1 Hs1 ch) as (q & Hq & Hl); [by rewrite Hg |].
  rewrite Hq. simpl. case_decide as Hc; [| done].
  apply (set_chan_inv s1 ch addr (q ++ [b]) (accepted s1 ++ [(addr, b)]) (taken s1)); [done | done | rewrite length_app; simpl; lia |].
  intros a. rewrite of_client_app, (inv_fifo s1 Hs1). destruct (decide (addr = a)) as [<- | Ha].
  - rewrite decide_True by done. rewrite (waiting_at s1 addr ch q) by done. by rewrite app_assoc.
  - rewrite decide_False by done. by rewrite app_nil_r.
Qed.

Lemma take_inv g addr b q s : inv s → gos s !! g = Some (addr, Serving) → chans s !! g = Some (b :: q) →
  inv (s <| chans := <[g := q]> (chans s) |> <| taken := taken s ++ [(addr, b)] |>).
Proof.
  intros Hs Hg Hq. pose proof (inv_owner s g addr _ Hs Hg) as Ht.
  destruct (inv_chans s Hs g) as (q' & Hq' & Hl); [by rewrite Hg |]. rewrite Hq in Hq'. injection Hq' as <-. simpl in Hl.
  apply (set_chan_inv s g addr q (accepted s) (taken s ++ [(addr, b)])); [done | done | lia |].
  intros a. rewrite of_client_app, (inv_fifo s Hs). destruct (decide (addr = a)) as [<- | Ha].
  - rewrite decide_True by done. rewrite (waiting_at s addr g (b :: q)) by done. by rewrite <- app_assoc.
  - rewrite decide_False by done. by rewrite app_nil_r.
Qed.

(** A goroutine changes its phase. *)
Lemma phase_inv g addr ph ph' s : inv s → gos s !! g = Some (addr, ph) → inv (s <| gos := <[g := (addr, ph')]> (gos s) |>).
Proof.
  intros Hs Hg. constructor; simpl.
  - intros a g'. rewrite (inv_table s Hs). destruct (decide (g' = g)) as [-> | Hne]; rewrite ?lookup_insert_eq, ?lookup_insert_ne by done; [| done].
    rewrite Hg. naive_solver.
  - intros g'. destruct (decide (g' = g)) as [-> | Hne]; rewrite ?lookup_insert_eq, ?lookup_insert_ne by done; intros _Hg.
    + apply (inv_chans s Hs). by rewrite Hg.
    + by apply (inv_chans s Hs).
  - intros g' q. destruct (decide (g' = g)) as [-> | Hne]; rewrite ?lookup_insert_eq, ?lookup_insert_ne by done; [done | apply (inv_gone s Hs)].
  - intros g' Hle. pose proof (inv_next s Hs g' Hle) as [H1 H2]. rewrite lookup_insert_ne by congruence. done.
  - apply (inv_fifo s Hs).
Qed.

Lemma leave_inv g addr s : inv s → gos s !! g = Some (addr, Leaving) → inv (leave g addr s).
Proof.
  intros Hs Hg. unfold leave. case_decide as Hl; [| by eapply phase_inv].
  pose proof (inv_owner s g addr _ Hs Hg) as Ht. destruct (inv_chans s Hs g) as (q & Hq & _); [by rewrite Hg |].
  rewrite Hq in Hl. simpl in Hl. apply length_zero_iff_nil in Hl as ->.
  constructor; simpl.
  - intros a g'. destruct (decide (a = addr)) as [-> | Ha], (decide (g' = g)) as [-> | Hne];
      rewrite ?lookup_delete_eq, ?lookup_delete_ne by done.
    + split; [done | by intros [ph ?]].
    + split; [done |]. intros [ph Hg']. apply (inv_owner s) in Hg'; [congruence | done].
    + split; [| by intros [ph ?]]. intros [ph Hg']%(inv_table s Hs). congruence.
    + apply (inv_table s Hs).
  - intros g' [x Hx]. apply lookup_delete_Some in Hx as [_ Hx]. apply (inv_chans s Hs). by rewrite Hx.
  - intros g' q' Hnone Hq'. apply lookup_delete_None in Hnone as [<- | Hnone]; [congruence | by apply (inv_gone s Hs g')].
  - intros g' Hle. rewrite lookup_delete_None. destruct (inv_next s Hs g' Hle). by split; [right |].
  - intros a. rewrite (inv_fifo s Hs). f_equal. unfold waiting. simpl. destruct (decide (a = addr)) as [-> | Ha].
    + rewrite lookup_delete_eq, Ht. simpl. by rewrite Hq.
    + by rewrite lookup_delete_ne.
Qed.

Lemma clients_step_inv s s' : inv s → step s s' → inv s'.
Proof.
  intros Hs Hstep. revert Hs. destruct Hstep as [cm addr b s | g addr b q s Hg Hq | g addr s Hg | g addr s Hg]; intros Hs.
  - by apply receive_inv.
  - by apply take_inv.
  - by eapply phase_inv.
  - by apply leave_inv.
Qed.

Lemma reachable_clients_inv s : reachable s → inv s.
Proof.
  assert (inv no_clients) as H0.
  { constructor; simpl; try done.
    - intros a g. split; [done | by intros [ph ?]].
    - by intros g [x ?]. }
  revert H0. unfold reachable. generalize no_clients. intros s0 H0 H. induction H as [| s1 s2 s3 H12 H23 IH]; [done |].
  apply IH. by eapply clients_step_inv.
Qed.

(** C27: whatever the order of arrivals and goroutines: a client has at most one
    goroutine; at most ten of its datagrams wait, and those that do have a
    goroutine that has yet to look at them; and what was read of a client's
    datagrams and what waits are those that were accepted, each of them once and in the order of
    their arrival. *)
Theorem clients_fifo (s : clients) (addr : string) : reachable s →
  of_client addr (accepted s) = of_client addr (taken s) ++ waiting s addr
  ∧ length (waiting s addr) ≤ capacity
  ∧ (waiting s addr ≠ [] → ∃ g ph, table s !! addr = Some g ∧ gos s !! g = Some (addr, ph))
  ∧ ∀ g g' ph ph', gos s !! g = Some (addr, ph) → gos s !! g' = Some (addr, ph') → g = g'.
Proof.
  intros Hs%reachable_clients_inv. split_and!.
  - apply (inv_fifo s Hs).
  - destruct (table s !! addr) as [g |] eqn:Et; [| rewrite waiting_none by done; simpl; lia].
    destruct (proj1 (inv_table s Hs addr g) Et) as [ph Hg]. destruct (inv_chans s Hs g) as (q & Hq & Hl); [by rewrite Hg |].
    by rewrite (waiting_at s addr g q).
  - intros Hne. destruct (table s !! addr) as [g |] eqn:Et; [| by rewrite waiting_none in Hne].
    destruct (proj1 (inv_table s Hs addr g) Et) as [ph Hg]. by exists g, ph.
  - intros g g' ph ph' Hg%(inv_owner s) Hg'%(inv_owner s); [congruence | done | done].
Qed.

(** A datagram with a control message is dropped only when ten wait already. *)
Theorem receive_accepts (s : clients) (addr : string) (b : bytes) : reachable s →
  accepted (receive true addr b s) = accepted s ++ (if decide (length (waiting s addr) < capacity) then [(addr, b)] else []).
Proof.
  intros Hs%reachable_clients_inv. unfold receive. simpl negb. cbv iota.
  assert (let '(ch, s') := find_chan addr s in default [] (chans s' !! ch) = waiting s addr ∧ accepted s' = accepted s) as Hf.
  { unfold find_chan, waiting. destruct (table s !! addr) as [ch |] eqn:Et; simpl; [done |]. by rewrite lookup_insert_eq. }
  destruct (find_chan addr s) as [ch s']. destruct Hf as [-> Ha]. case_decide; simpl; [by rewrite Ha | by rewrite Ha, app_nil_r].
Qed.

(** ** Example: two clients; one comes back while its goroutine leaves. *)
Definition c1 : string := "10.0.0.1:2070".
Definition c2 : string := "10.0.0.2:2070".
Definition ex_busy : clients := receive true c2 [x02] (receive true c1 [x01] no_clients).
Definition ex_taken : clients := ex_busy <| chans := <[0 := []]> (chans ex_busy) |> <| taken := taken ex_busy ++ [(c1, [x01])] |>.
Definition ex_leaving : clients := ex_taken <| gos := <[0 := (c1, Leaving)]> (gos ex_taken) |>.
Definition ex_clients : clients := leave 0 c1 (receive true c1 [x03] ex_leaving).

Lemma ex_clients_reachable : reachable ex_clients.
Proof.
  apply (rtc_l step _ (receive true c1 [x01] no_clients)); [apply step_receive |].
  apply (rtc_l step _ ex_busy); [apply step_receive |].
  apply (rtc_l step _ ex_taken); [apply (step_take 0 c1 [x01] [] ex_busy); vm_compute; reflexivity |].
  apply (rtc_l step _ ex_leaving); [apply (step_return 0 c1 ex_taken); vm_compute; reflexivity |].
  apply (rtc_l step _ (receive true c1 [x03] ex_leaving)); [apply step_receive |].
  apply (rtc_l step _ ex_clients); [apply (step_leave 0 c1); vm_compute; reflexivity |]. apply rtc_refl.
Qed.

Lemma clients_fifo_witness :
  waiting ex_clients c1 = [[x03]] ∧ of_client c1 (accepted ex_clients) = of_client c1 (taken ex_clients) ++ waiting ex_clients c1.
Proof. split; [vm_compute; reflexivity |]. apply (clients_fifo ex_clients c1 ex_clients_reachable). Defined.

Lemma receive_accepts_witness :
  accepted (receive true c2 [x04] ex_clients)
  = accepted ex_clients ++ (if decide (length (waiting ex_clients c2) < capacity) then [(c2, [x04])] else []).
Proof. apply (receive_accepts ex_clients c2 [x04] ex_clients_reachable). Defined.
