(* ===== verification/IpmiCommand.v ===== *)
(** The commands of the IPMI library: requests and responses with their layouts
    ([goipmi/command.go], [goipmi/chassis.go]), and the names of manufacturers
    ([goipmi/oem.go]).

    What the library does with the data of a message is reflected on its type:
    [Marshal] is how it is written, [Unmarshal] how it is read; [Codec] relates
    the two. *)

From S2P Require Import Prelude GoBinary IpmiCode.
From Stdlib Require Import ZArith Lia.

(** ** Network functions and commands *)
Abbreviation NetworkFunction := byte.
Definition NetworkFunctionChassis : NetworkFunction := x00.
Definition NetworkFunctionApp : NetworkFunction := x06.

Abbreviation Command := byte.
Definition CommandGetDeviceID : Command := x01.
Definition CommandGetAuthCapabilities : Command := x38.
Definition CommandGetSessionChallenge : Command := x39.
Definition CommandActivateSession : Command := x3a.
Definition CommandSetSessionPrivilegeLevel : Command := x3b.
Definition CommandCloseSession : Command := x3c.
Definition CommandChassisControl : Command := x02.
Definition CommandChassisStatus : Command := x01.
Definition CommandSetSystemBootOptions : Command := x08.
Definition CommandGetSystemBootOptions : Command := x09.

(** AuthType and PrivLevel (command.go, lines 68-84). *)
Definition AuthTypeNone : byte := x00.
Definition AuthTypeMD5 : byte := x02.
Definition AuthTypePassword : byte := x04.
Definition PrivLevelAdmin : byte := x04.

(** ** Data of messages *)
Class Marshal (A : Type) := marshal : A → bytes.
Class Unmarshal (A : Type) := unmarshal : bytes → res A.
(** Values that come back as they were written. *)
Class Codec (A : Type) `{Marshal A, Unmarshal A} := {
  codec_ok : A → Prop;
  unmarshal_marshal : ∀ a : A, codec_ok a → unmarshal (marshal a) = Ok a
}.

(** A type of fixed size, as [encoding/binary] lays it out. *)
Class Fixed (A : Type) := layout_of : layout A.
#[global] Instance fixed_marshal `{Fixed A} : Marshal A := binary_Write layout_of.
#[global] Instance fixed_unmarshal `{Fixed A} : Unmarshal A := λ b, r :=? binary_Read layout_of b;; Ok r.1.
#[global] Program Instance fixed_codec `{Fixed A} : Codec A := {| codec_ok := l_ok layout_of |}.
Next Obligation.
  intros A l a Ha. unfold unmarshal, fixed_unmarshal, marshal, fixed_marshal.
  rewrite <- (app_nil_r (binary_Write layout_of a)). by rewrite binary_Read_Write.
Qed.

(** A structure with the fields of a tuple. *)
Ltac record_eq := let x := fresh in intros x; repeat match goal with p : _ * _ |- _ => destruct p end; first [done | by destruct x].

(** The requests. *)
(* @vendor/goipmi/command.go:22-27 Request *)
Record Request (A : Type) := { rq_NetworkFunction : NetworkFunction; rq_Command : Command; rq_Data : A }.
Arguments rq_NetworkFunction {A} _.
Arguments rq_Command {A} _.
Arguments rq_Data {A} _.

(* @vendor/goipmi/command.go:34-35 DeviceIDRequest *)
Record DeviceIDRequest := { }.
#[global] Instance DeviceIDRequest_layout : Fixed DeviceIDRequest :=
  struct unit_layout (λ _, tt) (λ _, Build_DeviceIDRequest) ltac:(record_eq) ltac:(record_eq).

(* @vendor/goipmi/command.go:37-48 DeviceIDResponse *)
Record DeviceIDResponse := {
  di_CompletionCode : CompletionCode;
  di_DeviceID : byte;
  di_DeviceRevision : byte;
  di_FirmwareRevision1 : byte;
  di_FirmwareRevision2 : byte;
  di_IPMIVersion : byte;
  di_AdditionalDeviceSupport : byte;
  di_ManufacturerID : Z;
  di_ProductID : Z
}.
#[global] Instance DeviceIDResponse_layout : Fixed DeviceIDResponse :=
  struct (u8 ×× u8 ×× u8 ×× u8 ×× u8 ×× u8 ×× u8 ×× le 2 ×× le 2)
    (λ r, (di_CompletionCode r, (di_DeviceID r, (di_DeviceRevision r, (di_FirmwareRevision1 r, (di_FirmwareRevision2 r,
       (di_IPMIVersion r, (di_AdditionalDeviceSupport r, (di_ManufacturerID r, di_ProductID r)))))))))
    (λ '(c, (d, (dr, (f1, (f2, (v, (a, (m, p)))))))), Build_DeviceIDResponse c d dr f1 f2 v a m p)
    ltac:(record_eq) ltac:(record_eq).

(* @vendor/goipmi/command.go:50-54 AuthCapabilitiesRequest *)
Record AuthCapabilitiesRequest := { acq_ChannelNumber : byte; acq_PrivLevel : byte }.
#[global] Instance AuthCapabilitiesRequest_layout : Fixed AuthCapabilitiesRequest :=
  struct (u8 ×× u8) (λ r, (acq_ChannelNumber r, acq_PrivLevel r)) (λ '(c, p), Build_AuthCapabilitiesRequest c p)
    ltac:(record_eq) ltac:(record_eq).

(* @vendor/goipmi/command.go:56-65 AuthCapabilitiesResponse *)
Record AuthCapabilitiesResponse := {
  acp_CompletionCode : CompletionCode;
  acp_ChannelNumber : byte;
  acp_AuthTypeSupport : byte;
  acp_Status : byte;
  acp_Reserved : byte;
  acp_OEMID : Z;
  acp_OEMAux : byte
}.
#[global] Instance AuthCapabilitiesResponse_layout : Fixed AuthCapabilitiesResponse :=
  struct (u8 ×× u8 ×× u8 ×× u8 ×× u8 ×× le 2 ×× u8)
    (λ r, (acp_CompletionCode r, (acp_ChannelNumber r, (acp_AuthTypeSupport r, (acp_Status r, (acp_Reserved r, (acp_OEMID r, acp_OEMAux r)))))))
    (λ '(c, (n, (t, (s, (r, (i, a)))))), Build_AuthCapabilitiesResponse c n t s r i a)
    ltac:(record_eq) ltac:(record_eq).

(* @vendor/goipmi/command.go:87-91 SessionChallengeRequest *)
Record SessionChallengeRequest := { scq_AuthType : byte; scq_Username : bytes }.
#[global] Instance SessionChallengeRequest_layout : Fixed SessionChallengeRequest :=
  struct (u8 ×× arr 16) (λ r, (scq_AuthType r, scq_Username r)) (λ '(a, u), Build_SessionChallengeRequest a u)
    ltac:(record_eq) ltac:(record_eq).

(* @vendor/goipmi/command.go:93-98 SessionChallengeResponse *)
Record SessionChallengeResponse := { scp_CompletionCode : CompletionCode; scp_TemporarySessionID : Z; scp_Challenge : bytes }.
#[global] Instance SessionChallengeResponse_layout : Fixed SessionChallengeResponse :=
  struct (u8 ×× le 4 ×× arr 16) (λ r, (scp_CompletionCode r, (scp_TemporarySessionID r, scp_Challenge r)))
    (λ '(c, (i, h)), Build_SessionChallengeResponse c i h) ltac:(record_eq) ltac:(record_eq).

(* @vendor/goipmi/command.go:100-106 ActivateSessionRequest *)
Record ActivateSessionRequest := { asq_AuthType : byte; asq_PrivLevel : byte; asq_AuthCode : bytes; asq_InSeq : bytes }.
#[global] Instance ActivateSessionRequest_layout : Fixed ActivateSessionRequest :=
  struct (u8 ×× u8 ×× arr 16 ×× arr 4) (λ r, (asq_AuthType r, (asq_PrivLevel r, (asq_AuthCode r, asq_InSeq r))))
    (λ '(a, (p, (c, i))), Build_ActivateSessionRequest a p c i) ltac:(record_eq) ltac:(record_eq).

(* @vendor/goipmi/command.go:108-115 ActivateSessionResponse *)
Record ActivateSessionResponse := {
  asp_CompletionCode : CompletionCode; asp_AuthType : byte; asp_SessionID : Z; asp_InboundSeq : Z; asp_MaxPriv : byte }.
#[global] Instance ActivateSessionResponse_layout : Fixed ActivateSessionResponse :=
  struct (u8 ×× u8 ×× le 4 ×× le 4 ×× u8)
    (λ r, (asp_CompletionCode r, (asp_AuthType r, (asp_SessionID r, (asp_InboundSeq r, asp_MaxPriv r)))))
    (λ '(c, (a, (i, (q, p)))), Build_ActivateSessionResponse c a i q p) ltac:(record_eq) ltac:(record_eq).

(* @vendor/goipmi/command.go:117-120 SessionPrivilegeLevelRequest *)
Record SessionPrivilegeLevelRequest := { spq_PrivLevel : byte }.
#[global] Instance SessionPrivilegeLevelRequest_layout : Fixed SessionPrivilegeLevelRequest :=
  struct u8 spq_PrivLevel Build_SessionPrivilegeLevelRequest ltac:(record_eq) ltac:(record_eq).

(* @vendor/goipmi/command.go:122-126 SessionPrivilegeLevelResponse *)
Record SessionPrivilegeLevelResponse := { spp_CompletionCode : CompletionCode; spp_NewPrivilegeLevel : byte }.
#[global] Instance SessionPrivilegeLevelResponse_layout : Fixed SessionPrivilegeLevelResponse :=
  struct (u8 ×× u8) (λ r, (spp_CompletionCode r, spp_NewPrivilegeLevel r)) (λ '(c, p), Build_SessionPrivilegeLevelResponse c p)
    ltac:(record_eq) ltac:(record_eq).

(* @vendor/goipmi/command.go:128-131 CloseSessionRequest *)
Record CloseSessionRequest := { csq_SessionID : Z }.
#[global] Instance CloseSessionRequest_layout : Fixed CloseSessionRequest :=
  struct (le 4) csq_SessionID Build_CloseSessionRequest ltac:(record_eq) ltac:(record_eq).

(* @vendor/goipmi/command.go:133-136 CloseSessionResponse *)
Record CloseSessionResponse := { csp_CompletionCode : CompletionCode }.
#[global] Instance CloseSessionResponse_layout : Fixed CloseSessionResponse :=
  struct u8 csp_CompletionCode Build_CloseSessionResponse ltac:(record_eq) ltac:(record_eq).

(** ** The chassis *)

(** [ChassisControl] and [BootDevice] are [uint8]s (chassis.go, lines 5-27). *)
Abbreviation ChassisControl := byte.
Abbreviation BootDevice := byte.
Definition SystemPower : byte := x01.
Definition BootParamSetInProgress : byte := x00.
Definition BootParamInfoAck : byte := x04.
Definition BootParamBootFlags : byte := x05.
Definition BootParamInitMbox : byte := x07.

(* @vendor/goipmi/chassis.go:71-72 ChassisStatusRequest *)
Record ChassisStatusRequest := { }.
#[global] Instance ChassisStatusRequest_layout : Fixed ChassisStatusRequest :=
  struct unit_layout (λ _, tt) (λ _, Build_ChassisStatusRequest) ltac:(record_eq) ltac:(record_eq).

(* @vendor/goipmi/chassis.go:74-81 ChassisStatusResponse *)
Record ChassisStatusResponse := {
  cs_CompletionCode : CompletionCode; cs_PowerState : byte; cs_LastPowerEvent : byte; cs_State : byte; cs_FrontControlPanel : byte }.
#[global] Instance ChassisStatusResponse_layout : Fixed ChassisStatusResponse :=
  struct (u8 ×× u8 ×× u8 ×× u8 ×× u8)
    (λ r, (cs_CompletionCode r, (cs_PowerState r, (cs_LastPowerEvent r, (cs_State r, cs_FrontControlPanel r)))))
    (λ '(c, (p, (e, (s, f)))), Build_ChassisStatusResponse c p e s f) ltac:(record_eq) ltac:(record_eq).

(* @vendor/goipmi/chassis.go:83-86 ChassisControlRequest *)
Record ChassisControlRequest := { ccq_ChassisControl : ChassisControl }.
#[global] Instance ChassisControlRequest_layout : Fixed ChassisControlRequest :=
  struct u8 ccq_ChassisControl Build_ChassisControlRequest ltac:(record_eq) ltac:(record_eq).

(* @vendor/goipmi/chassis.go:88-91 ChassisControlResponse *)
Record ChassisControlResponse := { ccp_CompletionCode : CompletionCode }.
#[global] Instance ChassisControlResponse_layout : Fixed ChassisControlResponse :=
  struct u8 ccp_CompletionCode Build_ChassisControlResponse ltac:(record_eq) ltac:(record_eq).

(* @vendor/goipmi/chassis.go:93-97 SetSystemBootOptionsRequest *)
Record SetSystemBootOptionsRequest := { sbq_Param : byte; sbq_Data : bytes }.

(* @vendor/goipmi/chassis.go:99-102 SetSystemBootOptionsResponse *)
Record SetSystemBootOptionsResponse := { sbp_CompletionCode : CompletionCode }.
#[global] Instance SetSystemBootOptionsResponse_layout : Fixed SetSystemBootOptionsResponse :=
  struct u8 sbp_CompletionCode Build_SetSystemBootOptionsResponse ltac:(record_eq) ltac:(record_eq).

(* @vendor/goipmi/chassis.go:104-109 SystemBootOptionsRequest *)
Record SystemBootOptionsRequest := { boq_Param : byte; boq_Set : byte; boq_Block : byte }.
#[global] Instance SystemBootOptionsRequest_layout : Fixed SystemBootOptionsRequest :=
  struct (u8 ×× u8 ×× u8) (λ r, (boq_Param r, (boq_Set r, boq_Block r))) (λ '(p, (s, b)), Build_SystemBootOptionsRequest p s b)
    ltac:(record_eq) ltac:(record_eq).

(* @vendor/goipmi/chassis.go:111-117 SystemBootOptionsResponse *)
Record SystemBootOptionsResponse := {
  bop_CompletionCode : CompletionCode; bop_Version : byte; bop_Param : byte; bop_Data : bytes }.

(* @vendor/goipmi/chassis.go:119-125 SetSystemBootOptionsRequest.MarshalBinary *)
#[global] Instance SetSystemBootOptionsRequest_marshal : Marshal SetSystemBootOptionsRequest :=
  λ r, sbq_Param r :: sbq_Data r.

(* @vendor/goipmi/chassis.go:127-130 validSetBootOptionsDataLength *)
Definition validSetBootOptionsDataLength : gmap byte nat := {[ BootParamInfoAck := 2; BootParamBootFlags := 5 ]}.

(* @vendor/goipmi/chassis.go:132-145 SetSystemBootOptionsRequest.UnmarshalBinary *)
#[global] Instance SetSystemBootOptionsRequest_unmarshal : Unmarshal SetSystemBootOptionsRequest := λ buf,
  match buf with
  | param :: (_ :: _) as data =>
      match validSetBootOptionsDataLength !! param with
      | Some l => if decide (length data < l) then Err (Completion CodeShortPacket) else Ok {| sbq_Param := param; sbq_Data := data |}
      | None => Ok {| sbq_Param := param; sbq_Data := data |}
      end
  | _ => Err (Completion CodeShortPacket)
  end.

(* @vendor/goipmi/chassis.go:147-155 SystemBootOptionsResponse.MarshalBinary *)
#[global] Instance SystemBootOptionsResponse_marshal : Marshal SystemBootOptionsResponse :=
  λ r, bop_CompletionCode r :: bop_Version r :: bop_Param r :: bop_Data r.

(* @vendor/goipmi/chassis.go:157-167 SystemBootOptionsResponse.UnmarshalBinary *)
#[global] Instance SystemBootOptionsResponse_unmarshal : Unmarshal SystemBootOptionsResponse := λ buf,
  match buf with
  | c :: v :: p :: data => Ok {| bop_CompletionCode := c; bop_Version := v; bop_Param := p; bop_Data := data |}
  | _ => Err (Completion CodeShortPacket)
  end.

#[global] Program Instance SetSystemBootOptionsRequest_codec : Codec SetSystemBootOptionsRequest :=
  {| codec_ok r := sbq_Data r ≠ [] ∧ default 0 (validSetBootOptionsDataLength !! sbq_Param r) ≤ length (sbq_Data r) |}.
Next Obligation.
  intros [p [| x d]] [Hd Hl]; [done |]. unfold unmarshal, marshal. simpl in *.
  destruct (validSetBootOptionsDataLength !! p) as [n |]; [| done]. simpl in Hl. by rewrite decide_False by (simpl; lia).
Qed.
#[global] Program Instance SystemBootOptionsResponse_codec : Codec SystemBootOptionsResponse := {| codec_ok _ := True |}.
Next Obligation. by intros []. Qed.

(** A bare completion code is a response, too. *)
#[global] Instance CompletionCode_layout : Fixed byte := u8.

(** The selector panics when there is no second byte. *)
(* @vendor/goipmi/chassis.go:169-171 SystemBootOptionsResponse.BootDeviceSelector *)
Definition BootDeviceSelector (r : SystemBootOptionsResponse) : outcome BootDevice :=
  match bop_Data r !! 1 with
  | Some b => Ret (z2b (Z.shiftl (Z.land (Z.shiftr (b2z b) 2) 15) 2))
  | None => Panic
  end.

(* @vendor/goipmi/chassis.go:173-175 ChassisStatusResponse.IsSystemPowerOn *)
Definition IsSystemPowerOn (s : ChassisStatusResponse) : bool :=
  bool_decide (Z.land (b2z (cs_PowerState s)) (b2z SystemPower) = b2z SystemPower).
(* @vendor/goipmi/chassis.go:177-182 ChassisStatusResponse.String *)
Definition ChassisStatusResponse_String (s : ChassisStatusResponse) : string := if IsSystemPowerOn s then "on" else "off".
(* @vendor/goipmi/chassis.go:184-186 ChassisStatusResponse.PowerRestorePolicy *)
Definition PowerRestorePolicy (s : ChassisStatusResponse) : Z := Z.shiftr (Z.land (b2z (cs_PowerState s)) 0x60) 5.

(* @vendor/goipmi/chassis.go:188-201 bootDeviceStrings *)
Definition bootDeviceStrings : gmap byte string := list_to_map [
  (x00, "none"); (x04, "pxe"); (x08, "disk"); (x0c, "safe"); (x10, "diag"); (x14, "cdrom"); (x18, "bios"); (x1c, "rfloppy");
  (x24, "rprimary"); (x20, "rcdrom"); (x2c, "rdisk"); (x3c, "floppy")]%string.
(* @vendor/goipmi/chassis.go:203-208 BootDevice.String *)
Definition BootDevice_String (d : BootDevice) : string := default "unknown"%string (bootDeviceStrings !! d).

(* @vendor/goipmi/chassis.go:210-226 ChassisControl.String *)
Definition ChassisControl_String (c : ChassisControl) : outcome string :=
  match b2z c with
  | 0 => Ret "down" | 1 => Ret "up" | 2 => Ret "cycle" | 3 => Ret "reset" | 4 => Ret "diag" | 5 => Ret "acpi"
  | _ => Panic
  end%Z%string.

(** ** Manufacturers *)
(* @vendor/goipmi/oem.go:47-79 oemStrings *)
Definition oemStrings : gmap Z string := list_to_map [
  (0, "Unknown"); (11, "Hewlett-Packard"); (42, "Sun Microsystems"); (94, "Nokia"); (107, "Bull Company"); (116, "Hitachi");
  (119, "NEEC"); (186, "Toshiba"); (343, "Intel Corporation"); (373, "Tatung"); (399, "Hitachi"); (674, "Dell Inc");
  (2168, "LMC"); (4337, "RadiSys Corporation"); (4413, "Broadcom Corporation"); (5593, "Magnum Technologies");
  (6653, "Tyan Computer Corporation"); (9237, "Newisys"); (10368, "Fujitsu Siemens"); (10418, "Avocent"); (10437, "Peppercon AG");
  (10876, "Supermicro"); (11102, "OSA"); (11129, "Google"); (12634, "PICMG"); (13742, "Raritan"); (15000, "Kontron");
  (16394, "Pigeon Point Systems"); (20974, "AMI"); (28458, "Nokia Siemens Networks"); (47488, "Supermicro")]%Z%string.
(* @vendor/goipmi/oem.go:80-86 OemID.String *)
Definition OemID_String (id : Z) : string :=
  match oemStrings !! id with Some s => s | None => "Unknown (" +:+ fmt_d id +:+ ")" end.
