(* ===== verification/IpmiMessage.v ===== *)
(** Datagrams of the IPMI library: the RMCP header ([goipmi/rmcp.go]), IPMI
    messages ([goipmi/message.go]) and ASF messages ([goipmi/asf.go]). *)

From S2P Require Import Prelude GoBinary IpmiCode IpmiCommand.
From Stdlib Require Import ZArith Lia.

(** ** RMCP *)
Definition rmcpClassASF : byte := x06.
Definition rmcpClassIPMI : byte := x07.
Definition rmcpVersion1 : byte := x06.

(* @vendor/goipmi/rmcp.go:20-25 rmcpHeader *)
Record rmcpHeader := { rh_Version : byte; rh_Reserved : byte; rh_RMCPSequenceNumber : byte; rh_Class : byte }.
#[global] Instance rmcpHeader_layout : Fixed rmcpHeader :=
  struct (u8 ×× u8 ×× u8 ×× u8) (λ h, (rh_Version h, (rh_Reserved h, (rh_RMCPSequenceNumber h, rh_Class h))))
    (λ '(v, (r, (s, c))), Build_rmcpHeader v r s c) ltac:(record_eq) ltac:(record_eq).
Definition rmcpHeaderSize : nat := 4.

(* @vendor/goipmi/rmcp.go:27-37 rmcpHeaderFromBytes *)
Definition rmcpHeaderFromBytes (buf : bytes) : res rmcpHeader :=
  match buf with
  | v :: r :: s :: c :: _ => Ok (Build_rmcpHeader v r s c)
  | _ => Err (Completion CodeShortPacket)
  end.

(* @vendor/goipmi/rmcp.go:39-41 rmcpHeader.unsupportedClass *)
Definition unsupportedClass (h : rmcpHeader) : error := Errorf ("unsupported RMCP class: " +:+ fmt_d (b2z (rh_Class h))).

(** ** IPMI messages *)
(* @vendor/goipmi/message.go:13-17 ipmiSession *)
Record ipmiSession := { AuthType : byte; Sequence : Z; SessionID : Z }.
#[global] Instance ipmiSession_layout : Fixed ipmiSession :=
  struct (u8 ×× le 4 ×× le 4) (λ s, (AuthType s, (Sequence s, SessionID s))) (λ '(a, (q, i)), Build_ipmiSession a q i)
    ltac:(record_eq) ltac:(record_eq).
#[global] Instance eta_ipmiSession : Eta ipmiSession := λ s,
  {| AuthType := AuthType s; Sequence := Sequence s; SessionID := SessionID s |}.

(* @vendor/goipmi/message.go:19-27 ipmiHeader *)
Record ipmiHeader := {
  MsgLen : byte; RsAddr : byte; NetFnRsLUN : byte; Checksum : byte; RqAddr : byte; RqSeq : byte; ih_Command : Command }.
#[global] Instance ipmiHeader_layout : Fixed ipmiHeader :=
  struct (u8 ×× u8 ×× u8 ×× u8 ×× u8 ×× u8 ×× u8)
    (λ h, (MsgLen h, (RsAddr h, (NetFnRsLUN h, (Checksum h, (RqAddr h, (RqSeq h, ih_Command h)))))))
    (λ '(l, (a, (n, (c, (q, (s, m)))))), Build_ipmiHeader l a n c q s m) ltac:(record_eq) ltac:(record_eq).
#[global] Instance eta_ipmiHeader : Eta ipmiHeader := λ h,
  {| MsgLen := MsgLen h; RsAddr := RsAddr h; NetFnRsLUN := NetFnRsLUN h; Checksum := Checksum h; RqAddr := RqAddr h;
     RqSeq := RqSeq h; ih_Command := ih_Command h |}.

Definition ipmiSessionSize : nat := 9.
Definition ipmiHeaderSize : nat := 7.
Definition ipmiBufSize : nat := 1024.
Example sizes_ok : l_size rmcpHeader_layout = rmcpHeaderSize ∧ l_size ipmiSession_layout = ipmiSessionSize
  ∧ l_size ipmiHeader_layout = ipmiHeaderSize.
Proof. done. Qed.

(* @vendor/goipmi/message.go:44-52 Message *)
Record Message := {
  m_rmcp : rmcpHeader;
  m_session : ipmiSession;
  m_AuthCode : bytes;
  m_header : ipmiHeader;
  m_Data : bytes;
  m_RequestID : string
}.
#[global] Instance eta_Message : Eta Message := λ m,
  {| m_rmcp := m_rmcp m; m_session := m_session m; m_AuthCode := m_AuthCode m; m_header := m_header m;
     m_Data := m_Data m; m_RequestID := m_RequestID m |}.

(* @vendor/goipmi/message.go:54-57 Message.NetFn *)
Definition NetFn (m : Message) : NetworkFunction := z2b (Z.shiftr (b2z (NetFnRsLUN (m_header m))) 2).

(** A message without data has no completion code: the index is out of
    range. *)
(* @vendor/goipmi/message.go:59-62 Message.CompletionCode *)
Definition m_CompletionCode (m : Message) : outcome CompletionCode :=
  match m_Data m with c :: _ => Ret c | [] => Panic end.

(* @vendor/goipmi/message.go:86-91 messageDataFromBytes *)
Definition messageDataFromBytes `{Unmarshal A} (buf : bytes) : res A := unmarshal buf.
(* @vendor/goipmi/message.go:140-151 messageDataToBytes *)
Definition messageDataToBytes `{Marshal A} (data : A) : bytes := marshal data.

(** The response is a completion code when the data cannot be read. *)
(* @vendor/goipmi/message.go:64-76 Message.Request *)
Definition m_Request `{Unmarshal A} (m : Message) : A + CompletionCode :=
  match messageDataFromBytes (m_Data m) with
  | Ok a => inl a
  | Err (Completion c) => inr c
  | Err _ => inr CodeUnspecified
  end.

(* @vendor/goipmi/message.go:78-84 Message.Response *)
Definition m_Response `{Unmarshal A} (m : Message) : outcome (res A) :=
  out_bind (m_CompletionCode m) (λ c,
  Ret (if decide (c = CommandCompleted) then messageDataFromBytes (m_Data m) else Err (Completion c))).

(* @vendor/goipmi/message.go:182-188 checksum *)
Definition checksum (b : bytes) : byte := z2b (- foldl (λ c x, c + b2z x) 0 b)%Z.
(* @vendor/goipmi/message.go:174-176 Message.headerChecksum *)
Definition headerChecksum (h : ipmiHeader) : byte := checksum [RsAddr h; NetFnRsLUN h].
(* @vendor/goipmi/message.go:178-180 Message.payloadChecksum *)
Definition payloadChecksum (h : ipmiHeader) (data : bytes) : byte :=
  z2b (b2z (checksum [RqAddr h; RqSeq h; ih_Command h]) + b2z (checksum data)).

(** What follows the header is read with one call, which reads what there is:
    the rest of the array stays zero.  (A call that asks for nothing reads it,
    even at the end, with a Go of the time of the library.) *)
Definition read_payload (n : nat) (rest : bytes) : res bytes :=
  match n, rest with
  | O, _ => Ok []
  | _, [] => Err EOF
  | _, _ => Ok (take n (rest ++ replicate n x00))
  end.

(** The data of a message whose headers were read.  The header says how many
    bytes they are; a negative number panics, in [make] or when the data are
    sliced. *)
(* @vendor/goipmi/message.go:126-137 messageFromBytes *)
Definition read_data (rh : rmcpHeader) (s : ipmiSession) (code : bytes) (h : ipmiHeader) (rest : bytes) : outcome (res Message) :=
  let dataLen := (b2z (MsgLen h) - Z.of_nat ipmiHeaderSize)%Z in
  if decide (dataLen < -1)%Z then Panic
  else
    match read_payload (Z.to_nat (dataLen + 1)) rest with
    | Err e => Ret (Err e)
    | Ok data =>
        if decide (dataLen < 0)%Z then Panic
        else
          let d := take (Z.to_nat dataLen) data in
          if decide (data !! Z.to_nat dataLen ≠ Some (payloadChecksum h d)) then Ret (Err (Completion CodeInvalidPacket))
          else Ret (Ok {| m_rmcp := rh; m_session := s; m_AuthCode := code; m_header := h; m_Data := d; m_RequestID := "" |})
    end.

(* @vendor/goipmi/message.go:93-138 messageFromBytes *)
Definition messageFromBytes (buf : bytes) : outcome (res Message) :=
  if decide (length buf < rmcpHeaderSize + ipmiSessionSize + ipmiHeaderSize) then Ret (Err (Completion CodeShortPacket))
  else
    match
      r :=? binary_Read rmcpHeader_layout buf;; let '(rh, buf) := r in
      r :=? binary_Read ipmiSession_layout buf;; let '(s, buf) := r in
      r :=? (if decide (AuthType s ≠ x00) then binary_Read (arr 16) buf else Ok (replicate 16 x00, buf));; let '(code, buf) := r in
      r :=? binary_Read ipmiHeader_layout buf;; let '(h, buf) := r in
      if decide (headerChecksum h ≠ Checksum h) then Err (Completion CodeInvalidPacket)
      else if decide (b2z (MsgLen h) ≤ 0)%Z then Err (Completion CodeInvalidPacket)
      else Ok (rh, s, code, h, buf)
    with
    | Err e => Ret (Err e)
    | Ok (rh, s, code, h, rest) => read_data rh s code h rest
    end.

(** The header as it is written: with the length, which wraps around, and the
    checksum. *)
Definition sealed (h : ipmiHeader) (dbuf : bytes) : ipmiHeader :=
  let h := h <| MsgLen := z2b (Z.of_nat (ipmiHeaderSize + length dbuf)) |> in
  h <| Checksum := headerChecksum h |>.
(* @vendor/goipmi/message.go:153-172 Message.toBytes *)
Definition toBytes (m : Message) (dbuf : bytes) : bytes :=
  let h := sealed (m_header m) dbuf in
  binary_Write rmcpHeader_layout (m_rmcp m) ++ binary_Write ipmiSession_layout (m_session m)
    ++ (if decide (AuthType (m_session m) ≠ x00) then m_AuthCode m else [])
    ++ binary_Write ipmiHeader_layout h ++ dbuf ++ [payloadChecksum h dbuf].

(** ** ASF messages: numbers are big-endian. *)
Definition asfMessageTypePing : byte := x80.
Definition asfMessageTypePong : byte := x40.
Definition asfIANA : Z := 0x000011be.

(* @vendor/goipmi/asf.go:22-28 asfHeader *)
Record asfHeader := {
  ah_IANAEnterpriseNumber : Z; ah_MessageType : byte; ah_MessageTag : byte; ah_Reserved : byte; ah_DataLength : byte }.
#[global] Instance asfHeader_layout : Fixed asfHeader :=
  struct (be 4 ×× u8 ×× u8 ×× u8 ×× u8)
    (λ h, (ah_IANAEnterpriseNumber h, (ah_MessageType h, (ah_MessageTag h, (ah_Reserved h, ah_DataLength h)))))
    (λ '(i, (t, (g, (r, l)))), Build_asfHeader i t g r l) ltac:(record_eq) ltac:(record_eq).
Definition asfHeaderSize : nat := 8.

(* @vendor/goipmi/asf.go:30-34 asfMessage *)
Record asfMessage := { am_rmcp : rmcpHeader; am_header : asfHeader; am_Data : bytes }.

(* @vendor/goipmi/asf.go:36-42 asfPong *)
Record asfPong := {
  ap_IANAEnterpriseNumber : Z; ap_OEM : Z; ap_SupportedEntities : byte; ap_SupportedInteractions : byte; ap_Reserved : bytes }.
#[global] Instance asfPong_layout : Fixed asfPong :=
  struct (be 4 ×× be 4 ×× u8 ×× u8 ×× arr 6)
    (λ p, (ap_IANAEnterpriseNumber p, (ap_OEM p, (ap_SupportedEntities p, (ap_SupportedInteractions p, ap_Reserved p)))))
    (λ '(i, (o, (e, (t, r)))), Build_asfPong i o e t r) ltac:(record_eq) ltac:(record_eq).

(* @vendor/goipmi/asf.go:44-46 asfHeader.unsupportedMessageType *)
Definition unsupportedMessageType (m : asfMessage) : error :=
  Errorf ("unsupported ASF message type: " +:+ fmt_d (b2z (ah_MessageType (am_header m)))).

(** The header is read byte by byte; what is there is long enough. *)
(* @vendor/goipmi/asf.go:48-73 asfMessageFromBytes *)
Definition asfMessageFromBytes (buf : bytes) : res asfMessage :=
  if decide (length buf < rmcpHeaderSize + asfHeaderSize) then Err (Completion CodeShortPacket)
  else
    rh :=? rmcpHeaderFromBytes buf;;
    let buf := drop rmcpHeaderSize buf in
    Ok {| am_rmcp := rh; am_header := l_get asfHeader_layout (take asfHeaderSize buf); am_Data := drop asfHeaderSize buf |}.

(* @vendor/goipmi/asf.go:75-85 asfMessage.toBytes *)
Definition asf_toBytes `{Fixed A} (m : asfMessage) (data : option A) : bytes :=
  binary_Write rmcpHeader_layout (am_rmcp m) ++ binary_Write asfHeader_layout (am_header m)
    ++ match data with None => [] | Some d => binary_Write layout_of d end.

(* @vendor/goipmi/asf.go:87-90 asfMessage.response *)
Definition asf_response `{Fixed A} (m : asfMessage) : res A := r :=? binary_Read layout_of (am_Data m);; Ok r.1.

(* @vendor/goipmi/asf.go:100-102 asfPong.valid *)
Definition asf_valid (p : asfPong) : bool := negb (bool_decide (Z.land (b2z (ap_SupportedEntities p)) 0x80 = 0%Z)).

(** ** Checksums *)
Definition bsum (b : bytes) : Z := foldl (λ c x, c + b2z x)%Z 0%Z b.
Arguments bsum : simpl never.
Lemma bsum_foldl c b : foldl (λ c x, c + b2z x)%Z c b = (c + bsum b)%Z.
Proof.
  unfold bsum. revert c. induction b as [| x b IH]; intros c; cbn [foldl]; [lia |].
  rewrite IH, (IH (0 + b2z x))%Z. lia.
Qed.
Lemma bsum_cons x b : bsum (x :: b) = (b2z x + bsum b)%Z.
Proof. unfold bsum at 1. cbn [foldl]. by rewrite bsum_foldl. Qed.
Lemma bsum_app a b : bsum (a ++ b) = (bsum a + bsum b)%Z.
Proof. induction a as [| x a IH]; [done |]. cbn [app]. rewrite !bsum_cons, IH. lia. Qed.

(** What a checksum covers adds up to zero with it. *)
Lemma headerChecksum_spec h : headerChecksum h = Checksum h ↔ ((b2z (RsAddr h) + b2z (NetFnRsLUN h) + b2z (Checksum h)) mod 256 = 0)%Z.
Proof.
  unfold headerChecksum, checksum. cbn [foldl]. pose proof (b2z_range (Checksum h)) as Hr.
  split.
  - intros E. apply (f_equal b2z) in E. rewrite b2z_z2b in E. Z.to_euclidean_division_equations. lia.
  - intros E. apply (inj b2z). rewrite b2z_z2b. Z.to_euclidean_division_equations. lia.
Qed.
Lemma payloadChecksum_spec h d k :
  k = payloadChecksum h d ↔ ((b2z (RqAddr h) + b2z (RqSeq h) + b2z (ih_Command h) + bsum (d ++ [k])) mod 256 = 0)%Z.
Proof.
  assert (bsum (d ++ [k]) = bsum d + b2z k)%Z as -> by by rewrite bsum_app.
  unfold payloadChecksum, checksum. fold (bsum d). cbn [foldl]. pose proof (b2z_range k) as Hr. split.
  - intros E. apply (f_equal b2z) in E. rewrite !b2z_z2b in E. Z.to_euclidean_division_equations. lia.
  - intros E. apply (inj b2z). rewrite !b2z_z2b. Z.to_euclidean_division_equations. lia.
Qed.
(** Another byte makes another sum. *)
Lemma bsum_insert b i x y : b !! i = Some x → bsum (<[i := y]> b) = (bsum b - b2z x + b2z y)%Z.
Proof.
  revert i. induction b as [| z b IH]; intros [| i]; cbn; try done.
  - intros [= ->]. rewrite !bsum_cons. lia.
  - intros Hi. rewrite !bsum_cons, IH by done. lia.
Qed.

(** ** Reading what was written *)
Definition message_ok (m : Message) : Prop :=
  l_ok ipmiSession_layout (m_session m) ∧ (AuthType (m_session m) ≠ x00 → length (m_AuthCode m) = 16).

(** The authentication code of a message, which is zero when it is not sent. *)
Definition sent_code (m : Message) : bytes := if decide (AuthType (m_session m) ≠ x00) then m_AuthCode m else replicate 16 x00.

Lemma length_header_bytes (l a n c q s m : byte) rest : binary_Write ipmiHeader_layout (Build_ipmiHeader l a n c q s m) ++ rest = l :: a :: n :: c :: q :: s :: m :: rest.
Proof. done. Qed.

(** A datagram with these headers is read up to its data. *)
Lemma messageFromBytes_headers_all m h rest : message_ok m →
  messageFromBytes (binary_Write rmcpHeader_layout (m_rmcp m) ++ binary_Write ipmiSession_layout (m_session m)
    ++ (if decide (AuthType (m_session m) ≠ x00) then m_AuthCode m else []) ++ binary_Write ipmiHeader_layout h ++ rest)
  = if decide (headerChecksum h ≠ Checksum h) then Ret (Err (Completion CodeInvalidPacket))
    else if decide (b2z (MsgLen h) ≤ 0)%Z then Ret (Err (Completion CodeInvalidPacket))
    else read_data (m_rmcp m) (m_session m) (sent_code m) h rest.
Proof.
  intros [Hs Hc]. unfold messageFromBytes, sent_code.
  assert (length (binary_Write ipmiSession_layout (m_session m)) = 9) as Hls by by apply l_put_size.
  assert (length (binary_Write rmcpHeader_layout (m_rmcp m)) = 4) as Hlr by by apply l_put_size.
  assert (length (binary_Write ipmiHeader_layout h) = 7) as Hlh by by apply l_put_size.
  rewrite decide_False by (rewrite !length_app, Hls, Hlr, Hlh; unfold rmcpHeaderSize, ipmiSessionSize, ipmiHeaderSize; lia).
  rewrite binary_Read_Write by done. cbn [res_bind]. rewrite binary_Read_Write by done. cbn [res_bind].
  destruct (decide (AuthType (m_session m) ≠ x00)) as [Ha | Ha].
  - rewrite (binary_Read_Write (arr 16) (m_AuthCode m)) by by apply Hc. cbn [res_bind].
    rewrite binary_Read_Write by done. cbn [res_bind]. case_decide; [done |]. by case_decide.
  - cbn [app res_bind]. rewrite binary_Read_Write by done. cbn [res_bind]. case_decide; [done |]. by case_decide.
Qed.
Lemma messageFromBytes_headers m h rest : message_ok m → b2z (MsgLen h) ≠ 0%Z →
  messageFromBytes (binary_Write rmcpHeader_layout (m_rmcp m) ++ binary_Write ipmiSession_layout (m_session m)
    ++ (if decide (AuthType (m_session m) ≠ x00) then m_AuthCode m else []) ++ binary_Write ipmiHeader_layout h ++ rest)
  = if decide (headerChecksum h ≠ Checksum h) then Ret (Err (Completion CodeInvalidPacket))
    else read_data (m_rmcp m) (m_session m) (sent_code m) h rest.
Proof.
  intros Hm Hl. rewrite messageFromBytes_headers_all by done. pose proof (b2z_range (MsgLen h)) as Hr.
  case_decide; [done |]. by rewrite decide_False by lia.
Qed.

Lemma read_data_whole rh s code h d k : b2z (MsgLen h) = Z.of_nat (ipmiHeaderSize + length d) →
  read_data rh s code h (d ++ [k]) =
    if decide (k = payloadChecksum h d)
    then Ret (Ok {| m_rmcp := rh; m_session := s; m_AuthCode := code; m_header := h; m_Data := d; m_RequestID := "" |})
    else Ret (Err (Completion CodeInvalidPacket)).
Proof.
  intros Hl. unfold read_data. rewrite Hl. unfold ipmiHeaderSize.
  replace (Z.of_nat (7 + length d) - Z.of_nat 7)%Z with (Z.of_nat (length d)) by lia.
  rewrite decide_False by lia. replace (Z.to_nat (Z.of_nat (length d) + 1)) with (S (length d)) by lia.
  assert (read_payload (S (length d)) (d ++ [k]) = Ok (d ++ [k])) as ->.
  { unfold read_payload. destruct (d ++ [k]) eqn:E; [by destruct d |]. rewrite <- E. f_equal.
    rewrite take_app_le by (rewrite length_app; simpl; lia). apply take_ge. rewrite length_app. simpl. lia. }
  rewrite decide_False by lia. rewrite Nat2Z.id, take_app_length.
  rewrite lookup_app_r by lia. rewrite Nat.sub_diag. cbn [lookup list_lookup].
  destruct (decide (k = payloadChecksum h d)) as [-> | Hk]; [by rewrite decide_False by tauto |].
  rewrite decide_True by congruence. done.
Qed.

Lemma sealed_len h d : length d ≤ 248 → b2z (MsgLen (sealed h d)) = Z.of_nat (ipmiHeaderSize + length d).
Proof. intros Hd. simpl. rewrite b2z_z2b. unfold ipmiHeaderSize. rewrite Z.mod_small; lia. Qed.

(** A message is read back from the bytes it was written to. *)
Lemma messageFromBytes_written m d : message_ok m → length d ≤ 248 →
  messageFromBytes (toBytes m d) =
    Ret (Ok {| m_rmcp := m_rmcp m; m_session := m_session m; m_AuthCode := sent_code m; m_header := sealed (m_header m) d;
               m_Data := d; m_RequestID := "" |}).
Proof.
  intros Hm Hd. pose proof (sealed_len (m_header m) d Hd) as Hl. unfold toBytes.
  rewrite messageFromBytes_headers by (done || (rewrite Hl; unfold ipmiHeaderSize; lia)).
  rewrite decide_False by (intros H; by apply H). rewrite read_data_whole by done. by rewrite decide_True.
Qed.

Lemma m_Request_data `{Codec A} (m : Message) (a : A) : codec_ok a → m_Data m = messageDataToBytes a → m_Request m = inl a.
Proof.
  intros Ha Hd. unfold m_Request, messageDataFromBytes. rewrite Hd. unfold messageDataToBytes. by rewrite unmarshal_marshal.
Qed.
Lemma m_Response_data `{Codec A} (m : Message) (a : A) : codec_ok a → m_Data m = messageDataToBytes a →
  head (m_Data m) = Some CommandCompleted → m_Response m = Ret (Ok a).
Proof.
  intros Ha Hd Hc. unfold m_Response, m_CompletionCode, messageDataFromBytes. rewrite Hd in *. unfold messageDataToBytes in *.
  rewrite unmarshal_marshal by done. destruct (marshal a) as [| c l]; [done |]. injection Hc as ->. cbn [out_bind]. by rewrite decide_True.
Qed.

(** C38: a datagram carries a value.  What is written of a message is read back
    with its session, its authentication code (when its session has one), its
    function, command and request number, as long as the data have at most 248
    bytes (their number and seven is sent as a single byte); and the value is
    found in it, by [Request] at the far end, and by [Response] here when it
    begins with the code of a completed command. *)
Theorem messageFromBytes_toBytes `{Codec A} (m : Message) (a : A) :
  message_ok m → codec_ok a → length (messageDataToBytes a) ≤ 248 →
  ∃ m', messageFromBytes (toBytes m (messageDataToBytes a)) = Ret (Ok m') ∧
    m_rmcp m' = m_rmcp m ∧ m_session m' = m_session m ∧ (AuthType (m_session m) ≠ x00 → m_AuthCode m' = m_AuthCode m) ∧
    NetFn m' = NetFn m ∧ ih_Command (m_header m') = ih_Command (m_header m) ∧ RqSeq (m_header m') = RqSeq (m_header m) ∧
    m_Request m' = inl a ∧
    (head (messageDataToBytes a) = Some CommandCompleted → m_Response m' = Ret (Ok a)).
Proof.
  intros Hm Ha Hd. eexists. split; [by apply messageFromBytes_written |]. do 2 (split; [done |]).
  split; [intros Hc; cbn; unfold sent_code; by rewrite decide_True |]. do 3 (split; [done |]).
  split; [by apply m_Request_data | intros Hc; by apply m_Response_data].
Qed.

Definition ex_message : Message := {|
  m_rmcp := Build_rmcpHeader rmcpVersion1 x00 xff rmcpClassIPMI; m_session := Build_ipmiSession AuthTypeMD5 7 9;
  m_AuthCode := replicate 16 xaa; m_header := Build_ipmiHeader x00 x20 x18 x00 x81 x04 CommandCloseSession; m_Data := [];
  m_RequestID := "" |}.
Lemma ex_message_ok : message_ok ex_message.
Proof. split; [vm_compute; intuition done | done]. Qed.

Lemma messageFromBytes_toBytes_witness :
  ∃ m', messageFromBytes (toBytes ex_message (messageDataToBytes (Build_CloseSessionRequest 9))) = Ret (Ok m')
    ∧ m_Request m' = inl (Build_CloseSessionRequest 9).
Proof.
  destruct (messageFromBytes_toBytes ex_message (Build_CloseSessionRequest 9)) as (m' & H & _ & _ & _ & _ & _ & _ & Hr & _).
  - exact ex_message_ok.
  - vm_compute. intuition done.
  - vm_compute. lia.
  - by exists m'.
Defined.

(** ** Datagrams that are not messages *)
Lemma read_payload_nil n : read_payload (S n) [] = Err EOF.
Proof. done. Qed.
Lemma read_data_panics rh s code h rest : read_data rh s code h rest = Panic ↔ (b2z (MsgLen h) < 7)%Z.
Proof.
  unfold read_data, ipmiHeaderSize. change (Z.of_nat 7) with 7%Z. case_decide as H1; [split; [lia | done] |].
  destruct (decide (b2z (MsgLen h) - 7 < 0)%Z) as [H2 | H2].
  - replace (b2z (MsgLen h) - 7 + 1)%Z with 0%Z by lia. cbn [Z.to_nat read_payload]. split; [lia | done].
  - destruct (read_payload _ rest) as [data |]; [case_decide |]; (split; [done | lia]).
Qed.

(** A datagram that goes on after its header crashes its reader exactly when its header is intact and says
    that the message is shorter than a header, but not empty: the length is only
    compared with zero.  Nothing in such a datagram is secret, so anyone who can
    reach a client, or the simulator, can send one. *)
Theorem messageFromBytes_panics (m : Message) (h : ipmiHeader) (rest : bytes) : message_ok m → rest ≠ [] →
  messageFromBytes (binary_Write rmcpHeader_layout (m_rmcp m) ++ binary_Write ipmiSession_layout (m_session m)
    ++ (if decide (AuthType (m_session m) ≠ x00) then m_AuthCode m else []) ++ binary_Write ipmiHeader_layout h ++ rest) = Panic
  ↔ headerChecksum h = Checksum h ∧ (1 ≤ b2z (MsgLen h) ≤ 6)%Z.
Proof.
  intros Hm _. rewrite messageFromBytes_headers_all by done. pose proof (b2z_range (MsgLen h)) as Hr.
  destruct (decide (headerChecksum h ≠ Checksum h)) as [Hh | Hh]; [split; [done | tauto] |].
  case_decide; [split; [done | lia] |]. rewrite read_data_panics. split; [| lia]. intros Hl. split; [| lia].
  destruct (decide (headerChecksum h = Checksum h)); tauto.
Qed.
Lemma messageFromBytes_panics_witness :
  messageFromBytes (binary_Write rmcpHeader_layout (m_rmcp ex_message) ++ binary_Write ipmiSession_layout (m_session ex_message)
    ++ m_AuthCode ex_message ++ binary_Write ipmiHeader_layout (Build_ipmiHeader x05 x20 x18 xc8 x81 x04 x01) ++ [x00]) = Panic.
Proof.
  change (messageFromBytes _) with (messageFromBytes (binary_Write rmcpHeader_layout (m_rmcp ex_message) ++ binary_Write ipmiSession_layout (m_session ex_message)
    ++ (if decide (AuthType (m_session ex_message) ≠ x00) then m_AuthCode ex_message else [])
    ++ binary_Write ipmiHeader_layout (Build_ipmiHeader x05 x20 x18 xc8 x81 x04 x01) ++ [x00])).
  apply messageFromBytes_panics; [exact ex_message_ok | done |]. vm_compute. intuition done.
Defined.

(** ** Damaged messages *)

(** A datagram with whole data is accepted when both sums are zero. *)
Lemma messageFromBytes_sums m h tl : message_ok m → b2z (MsgLen h) = Z.of_nat (ipmiHeaderSize + pred (length tl)) → tl ≠ [] →
  (((b2z (RsAddr h) + b2z (NetFnRsLUN h) + b2z (Checksum h)) mod 256 ≠ 0 ∨
    (b2z (RqAddr h) + b2z (RqSeq h) + b2z (ih_Command h) + bsum tl) mod 256 ≠ 0)%Z) →
  messageFromBytes (binary_Write rmcpHeader_layout (m_rmcp m) ++ binary_Write ipmiSession_layout (m_session m)
    ++ (if decide (AuthType (m_session m) ≠ x00) then m_AuthCode m else []) ++ binary_Write ipmiHeader_layout h ++ tl)
  = Ret (Err (Completion CodeInvalidPacket)).
Proof.
  intros Hm Hl Htl Hbad. rewrite messageFromBytes_headers by (done || (rewrite Hl; unfold ipmiHeaderSize; lia)).
  case_decide as Hh; [done |]. apply headerChecksum_spec in Hh.
  destruct tl as [| k d _] using rev_ind; [done |]. rewrite length_app, Nat.add_1_r in Hl.
  rewrite read_data_whole by done. rewrite decide_False; [done |].
  rewrite payloadChecksum_spec. tauto.
Qed.

(** The sums of what is written. *)
Lemma sealed_sums h d :
  let h' := sealed h d in
  ((b2z (RsAddr h') + b2z (NetFnRsLUN h') + b2z (Checksum h')) mod 256 = 0 ∧
   (b2z (RqAddr h') + b2z (RqSeq h') + b2z (ih_Command h') + bsum (d ++ [payloadChecksum h' d])) mod 256 = 0)%Z.
Proof. intros h'. split; [by apply headerChecksum_spec | by apply payloadChecksum_spec]. Qed.

(** One byte more or less of a sum that was zero. *)
Lemma one_byte_off (z : Z) (x y : byte) : (z mod 256 = 0)%Z → x ≠ y → ((z - b2z x + b2z y) mod 256 ≠ 0)%Z.
Proof.
  intros Hz Hne E. apply Hne, (inj b2z). pose proof (b2z_range x). pose proof (b2z_range y).
  Z.to_euclidean_division_equations. lia.
Qed.

Ltac another x y S Hb :=
  let E := fresh in intros E; apply (one_byte_off _ x y S); [intros ->; by apply Hb | rewrite <- E; f_equal; lia].

(** C36: no change of a single byte that follows the length of a message goes
    unnoticed: what was written is not accepted with any one of its addresses,
    its function, command, request number, data or checksums altered. *)
Theorem damage_is_detected (m : Message) (d : bytes) (i : nat) (b : byte) :
  message_ok m → length d ≤ 248 →
  rmcpHeaderSize + ipmiSessionSize + (if decide (AuthType (m_session m) ≠ x00) then 16 else 0) < i < length (toBytes m d) →
  toBytes m d !! i ≠ Some b →
  messageFromBytes (<[i := b]> (toBytes m d)) = Ret (Err (Completion CodeInvalidPacket)).
Proof.
  intros Hm Hd Hi Hb. pose proof (sealed_sums (m_header m) d) as [S1 S2]. pose proof (sealed_len (m_header m) d Hd) as Hl.
  unfold toBytes in *. set (h := sealed (m_header m) d) in *. set (tl := d ++ [payloadChecksum h d]) in *.
  assert (pred (length tl) = length d) as Htl by (unfold tl; rewrite length_app; simpl; lia).
  assert (tl ≠ []) as Hne by (unfold tl; by destruct d).
  set (pre := binary_Write rmcpHeader_layout (m_rmcp m) ++ binary_Write ipmiSession_layout (m_session m)
    ++ (if decide (AuthType (m_session m) ≠ x00) then m_AuthCode m else [])).
  assert (∀ l, binary_Write rmcpHeader_layout (m_rmcp m) ++ binary_Write ipmiSession_layout (m_session m)
    ++ (if decide (AuthType (m_session m) ≠ x00) then m_AuthCode m else []) ++ l = pre ++ l) as Hpre
    by (intros l; unfold pre; by rewrite <- !app_assoc).
  rewrite Hpre in Hi, Hb |- *.
  assert (length pre = rmcpHeaderSize + ipmiSessionSize + (if decide (AuthType (m_session m) ≠ x00) then 16 else 0)) as Hlp.
  { unfold pre. rewrite !length_app. rewrite (l_put_size ipmiSession_layout) by apply Hm. destruct Hm as [_ Hc].
    rewrite (l_put_size rmcpHeader_layout) by done. case_decide; [rewrite Hc by done; done | done]. }
  rewrite <- Hlp in Hi. replace i with (length pre + (i - length pre)) in Hb |- * by lia.
  rewrite lookup_app_r in Hb by lia. rewrite insert_app_r.
  replace (length pre + (i - length pre) - length pre) with (i - length pre) in Hb by lia.
  rewrite length_app in Hi. destruct (i - length pre) as [| j] eqn:Ej; [lia |].
  destruct h as [ln a f c q s cm]. rewrite length_header_bytes in Hi, Hb |- *. cbn [MsgLen RsAddr NetFnRsLUN Checksum RqAddr RqSeq ih_Command] in *.
  assert (∀ h' tl', MsgLen h' = ln → length tl' = length tl → 
    (((b2z (RsAddr h') + b2z (NetFnRsLUN h') + b2z (Checksum h')) mod 256 ≠ 0 ∨
    (b2z (RqAddr h') + b2z (RqSeq h') + b2z (ih_Command h') + bsum tl') mod 256 ≠ 0)%Z) →
    messageFromBytes (pre ++ binary_Write ipmiHeader_layout h' ++ tl') = Ret (Err (Completion CodeInvalidPacket))) as Hcase.
  { intros h' tl' E1 E2 Hbad. rewrite <- Hpre. apply messageFromBytes_sums; [done | by rewrite E1, E2, Htl | | done].
    intros ->. by destruct tl. }
  clearbody tl pre. clear Hpre Hlp Hl.
  destruct j as [| [| [| [| [| [| j]]]]]]; cbn [insert list_insert] in *; cbn [lookup list_lookup] in Hb.
  - apply (Hcase (Build_ipmiHeader ln b f c q s cm) tl); [done | done | left]. cbn. another a b S1 Hb.
  - apply (Hcase (Build_ipmiHeader ln a b c q s cm) tl); [done | done | left]. cbn. another f b S1 Hb.
  - apply (Hcase (Build_ipmiHeader ln a f b q s cm) tl); [done | done | left]. cbn. another c b S1 Hb.
  - apply (Hcase (Build_ipmiHeader ln a f c b s cm) tl); [done | done | right]. cbn. another q b S2 Hb.
  - apply (Hcase (Build_ipmiHeader ln a f c q b cm) tl); [done | done | right]. cbn. another s b S2 Hb.
  - apply (Hcase (Build_ipmiHeader ln a f c q s b) tl); [done | done | right]. cbn. another cm b S2 Hb.
  - cbn [length] in Hi. destruct (lookup_lt_is_Some_2 tl j) as [x Hx]; [lia |].
    apply (Hcase (Build_ipmiHeader ln a f c q s cm) (<[j := b]> tl)); [done | apply length_insert | right].
    cbn [RqAddr RqSeq ih_Command]. pose proof (bsum_insert tl j x b Hx) as Hs. unfold insert in *. rewrite Hs. another x b S2 Hb.
Qed.
Lemma damage_is_detected_witness :
  messageFromBytes (<[36 := x0a]> (toBytes ex_message (messageDataToBytes (Build_CloseSessionRequest 9)))) = Ret (Err (Completion CodeInvalidPacket)).
Proof.
  apply damage_is_detected; [exact ex_message_ok | vm_compute; lia | vm_compute; lia |]. vm_compute. discriminate.
Defined.
