(* ===== verification/IpmiLan.v ===== *)
(** Sessions of the IPMI library over UDP, [goipmi/lan.go], with the properties of
    a connection, [goipmi/connection.go].

    A socket is the class [Socket].  A session is a state [lan] next to the socket:
    its calls are [eff (C * lan)]. *)

From S2P Require Import Prelude Effects GoNet DcpCommon GoBinary IpmiCode IpmiCommand IpmiMessage.
From Stdlib Require Import ZArith Lia.

(* @vendor/goipmi/connection.go:10-18 Connection *)
Record Connection := {
  Path : string; Hostname : string; Port : Z; Username : string; Password : string; Interface : string }.

(** [net.LookupHost]: addresses, and an error. *)
(* @vendor/goipmi/connection.go:20-29 Connection.RemoteIP *)
Definition RemoteIP (lookup : string → list string * option error) (c : Connection) : string :=
  match ParseIP_bytes (s2b (Hostname c)) with
  | Some _ => Hostname c
  | None =>
      let '(addrs, err) := lookup (Hostname c) in
      match err, addrs with
      | Some _, a :: _ => a
      | _, _ => Hostname c
      end
  end.

(** [dial] tells the local address of a connection. *)
(* @vendor/goipmi/connection.go:31-42 Connection.LocalIP *)
Definition LocalIP (dial : string → res string) (c : Connection) : string :=
  match dial (Hostname c +:+ ":" +:+ fmt_d (Port c)) with
  | Err _ => Hostname c
  | Ok addr => match SplitHostPort (s2b addr) with Ok (host, _) => b2s host | Err _ => "" end
  end.

(** ** Sessions over UDP *)

(** The socket, and the random numbers of the system. *)
Class Socket (C : Type) := {
  sock_dial : string → C → res () * C;             (* [net.Dial("udp4", addr)] *)
  sock_write : bytes → C → res () * C;
  sock_deadline : Z → C → res () * C;              (* the time from now, in seconds *)
  sock_read : nat → C → res bytes * C;             (* at most so many bytes *)
  sock_close : C → res () * C;
  rand_read : C → res (byte * byte * byte * byte) * C
}.

(* @vendor/goipmi/lan.go:17-28 lan *)
Record lan := {
  l_Connection : Connection;
  l_session : ipmiSession;
  rqSeq : byte;
  conn : bool;                    (* is not nil *)
  active : bool;
  authcode : bytes;
  username : bytes;
  priv : byte;
  lun : byte;
  timeout : Z                     (* in seconds *)
}.
#[global] Instance eta_lan : Eta lan := λ l,
  {| l_Connection := l_Connection l; l_session := l_session l; rqSeq := rqSeq l; conn := conn l; active := active l;
     authcode := authcode l; username := username l; priv := priv l; lun := lun l; timeout := timeout l |}.

(** [copy] of a string to an array of 16 bytes. *)
Definition fixed16 (s : string) : bytes := take 16 (s2b s ++ replicate 16 x00).

(* @vendor/goipmi/lan.go:30-37 newLanTransport *)
Definition newLanTransport (c : Connection) : lan := {|
  l_Connection := c; l_session := Build_ipmiSession x00 0 0; rqSeq := x00; conn := false; active := false;
  authcode := fixed16 (Password c); username := fixed16 (Username c); priv := x00; lun := x00; timeout := 0 |}.

(* @vendor/goipmi/lan.go:137-142 lan.nextSequence *)
Definition nextSequence (l : lan) : Z * lan :=
  let l :=
    if decide (Sequence (l_session l) ≠ 0)%Z
    then l <| l_session := (l_session l) <| Sequence := ((Sequence (l_session l) + 1) mod 2 ^ 32)%Z |> |> else l in
  (Sequence (l_session l), l).
(* @vendor/goipmi/lan.go:144-147 lan.nextRqSeq *)
Definition nextRqSeq (l : lan) : byte * lan :=
  let l := l <| rqSeq := z2b (b2z (rqSeq l) + 1) |> in (z2b (Z.shiftl (b2z (rqSeq l)) 2), l).

(* @vendor/goipmi/lan.go:188-199 lan.authMD5 *)
Definition authMD5 (l : lan) (data : bytes) : bytes :=
  Md5.Sum (authcode l ++ le_put 4 (SessionID (l_session l)) ++ data ++ le_put 4 (Sequence (l_session l)) ++ authcode l).

(** [copy(msg[n:], b)]. *)
Definition copy_at (n : nat) (b msg : bytes) : bytes := take n msg ++ take (length msg - n) b ++ drop (n + length b) msg.

(* @vendor/goipmi/lan.go:149-186 lan.message *)
Definition message `{Marshal A} (r : Request A) (l : lan) : bytes * lan :=
  let '(seq, l) := nextSequence l in
  let '(rq, l) := nextRqSeq l in
  let m := {|
    m_rmcp := {| rh_Version := rmcpVersion1; rh_Reserved := x00; rh_RMCPSequenceNumber := xff; rh_Class := rmcpClassIPMI |};
    m_session := {| AuthType := x00; Sequence := seq; SessionID := SessionID (l_session l) |};
    m_AuthCode := replicate 16 x00;
    m_header := {|
      MsgLen := x00; RsAddr := x20; NetFnRsLUN := z2b (Z.lor (Z.shiftl (b2z (rq_NetworkFunction r)) 2) (Z.land (b2z (lun l)) 3));
      Checksum := x00; RqAddr := x81; RqSeq := rq; ih_Command := rq_Command r |};
    m_Data := []; m_RequestID := "" |} in
  let m :=
    if active l && negb (bool_decide (AuthType (l_session l) = x00))
    then m <| m_AuthCode := authcode l |> <| m_session := (m_session m) <| AuthType := AuthType (l_session l) |> |> else m in
  let msg := toBytes m (messageDataToBytes (rq_Data r)) in
  if active l && bool_decide (AuthType (l_session l) = AuthTypeMD5)
  then
    let hlen := rmcpHeaderSize + ipmiSessionSize in
    let offset := hlen + 16 + 1 in
    (copy_at hlen (authMD5 l (drop offset msg)) msg, l)
  else (msg, l).

Section lan.
Context {C : Type} `{!Socket C}.
Abbreviation V := (C * lan)%type.

(** A call of the socket: the connection must be there. *)
Definition io {A} (f : C → res A * C) : eff V A := λ '(c, l), let '(r, c) := f c in Ret (r, (c, l)).
Definition on_conn {A} (f : C → res A * C) : eff V A := λ '(c, l), if conn l then io f (c, l) else Panic.
Definition modify (f : lan → lan) : eff V () := λ '(c, l), Ret (Ok tt, (c, f l)).
Definition gets {A} (f : lan → A) : eff V A := λ '(c, l), Ret (Ok (f l), (c, l)).

(** [net.JoinHostPort]. *)
Definition JoinHostPort (host port : string) : string :=
  if has colon (s2b host) || has x25 (s2b host) then "[" +:+ host +:+ "]:" +:+ port else host +:+ ":" +:+ port.

(* @vendor/goipmi/lan.go:39-43 lan.dial *)
Definition dial : eff V () :=
  l :=! gets id;; io (sock_dial (JoinHostPort (Hostname (l_Connection l)) (fmt_d (Port (l_Connection l))))).

(* @vendor/goipmi/lan.go:98-101 lan.sendPacket *)
Definition sendPacket (buf : bytes) : eff V () := on_conn (sock_write buf).

(* @vendor/goipmi/lan.go:103-117 lan.recvPacket *)
Definition recvPacket : eff V bytes :=
  l :=! gets id;;
  _ :=! on_conn (sock_deadline (timeout l));;
  on_conn (sock_read ipmiBufSize).

(* @vendor/goipmi/lan.go:119-135 lan.recvMessage *)
Definition recvMessage : eff V Message :=
  buf :=! recvPacket;;
  header :=! of_res (rmcpHeaderFromBytes buf);;
  if decide (rh_Class header ≠ rmcpClassIPMI) then efail (unsupportedClass header)
  else of_outcome (messageFromBytes buf).

(* @vendor/goipmi/lan.go:77-89 lan.send *)
Definition lan_send {A B} `{Marshal A} `{Unmarshal B} (req : Request A) : eff V B :=
  _ :=! (λ '(c, l), let '(msg, l) := message req l in sendPacket msg (c, l));;
  m :=! recvMessage;;
  of_outcome (m_Response m).

(* @vendor/goipmi/lan.go:222-260 lan.ping *)
Definition ping : eff V () :=
  let msg := {|
    am_rmcp := {| rh_Version := rmcpVersion1; rh_Reserved := x00; rh_RMCPSequenceNumber := xff; rh_Class := rmcpClassASF |};
    am_header := {| ah_IANAEnterpriseNumber := asfIANA; ah_MessageType := asfMessageTypePing; ah_MessageTag := x00;
                    ah_Reserved := x00; ah_DataLength := x00 |};
    am_Data := [] |} in
  _ :=! sendPacket (asf_toBytes (A := asfPong) msg None);;
  buf :=! recvPacket;;
  m :=! of_res (asfMessageFromBytes buf);;
  if decide (ah_MessageType (am_header m) ≠ asfMessageTypePong) then efail (unsupportedMessageType m)
  else
    pong :=! of_res (asf_response m);;
    if asf_valid pong then eret tt else efail (Errorf "IPMI not supported").

(** The loop over the authentication types, MD5, password and none: its first
    round takes MD5, or returns an error. *)
(* @vendor/goipmi/lan.go:262-287 lan.getAuthCapabilities *)
Definition getAuthCapabilities : eff V () :=
  l :=! gets id;;
  r :=! lan_send (B := AuthCapabilitiesResponse) {| rq_NetworkFunction := NetworkFunctionApp; rq_Command := CommandGetAuthCapabilities;
    rq_Data := {| acq_ChannelNumber := x0e; acq_PrivLevel := priv l |} |};;
  match [AuthTypeMD5; AuthTypePassword; AuthTypeNone] with
  | [] => eret tt
  | t :: _ =>
      if decide (Z.land (b2z (acp_AuthTypeSupport r)) (Z.shiftl 1 (b2z t)) ≠ 0)%Z
      then modify (λ l, l <| l_session := (l_session l) <| AuthType := t |> |>)
      else efail (Completion CodePrivLevel)
  end.

(* @vendor/goipmi/lan.go:289-306 lan.getSessionChallenge *)
Definition getSessionChallenge : eff V SessionChallengeResponse :=
  l :=! gets id;;
  r :=! lan_send (B := SessionChallengeResponse) {| rq_NetworkFunction := NetworkFunctionApp; rq_Command := CommandGetSessionChallenge;
    rq_Data := {| scq_AuthType := AuthType (l_session l); scq_Username := username l |} |};;
  _ :=! modify (λ l, l <| l_session := (l_session l) <| SessionID := scp_TemporarySessionID r |> |>);;
  eret r.

(** Without random numbers, it panics. *)
(* @vendor/goipmi/lan.go:308-314 lan.inSeq *)
Definition inSeq : eff V bytes :=
  r :=* io rand_read;;
  match r with
  | Ok (a, b, c, d) => eret [a; b; c; d]
  | Err _ => λ _, Panic
  end.

(** The session is active while the request is under way: it is authenticated. *)
(* @vendor/goipmi/lan.go:316-341 lan.activateSession *)
Definition activateSession (sc : SessionChallengeResponse) : eff V () :=
  l :=! gets id;;
  seq :=! inSeq;;
  _ :=! modify (λ l, l <| active := true |>);;
  r :=* lan_send (B := ActivateSessionResponse) {| rq_NetworkFunction := NetworkFunctionApp; rq_Command := CommandActivateSession;
    rq_Data := {| asq_AuthType := AuthType (l_session l); asq_PrivLevel := priv l; asq_AuthCode := scp_Challenge sc; asq_InSeq := seq |} |};;
  match r with
  | Err e => _ :=! modify (λ l, l <| active := false |>);; efail e
  | Ok r => modify (λ l, l <| l_session := {| AuthType := asp_AuthType r; Sequence := asp_InboundSeq r; SessionID := asp_SessionID r |} |>)
  end.

(* @vendor/goipmi/lan.go:343-360 lan.setSessionPriv *)
Definition setSessionPriv : eff V () :=
  l :=! gets id;;
  r :=! lan_send (B := SessionPrivilegeLevelResponse) {| rq_NetworkFunction := NetworkFunctionApp;
    rq_Command := CommandSetSessionPrivilegeLevel; rq_Data := {| spq_PrivLevel := priv l |} |};;
  modify (λ l, l <| priv := spp_NewPrivilegeLevel r |>).

(* @vendor/goipmi/lan.go:362-372 lan.closeSession *)
Definition closeSession : eff V () :=
  l :=! gets id;;
  _ :=! lan_send (B := CloseSessionResponse) {| rq_NetworkFunction := NetworkFunctionApp; rq_Command := CommandCloseSession;
    rq_Data := {| csq_SessionID := SessionID (l_session l) |} |};;
  eret tt.

(* @vendor/goipmi/lan.go:201-220 lan.openSession *)
Definition openSession : eff V () :=
  _ :=! ping;;
  _ :=! getAuthCapabilities;;
  r :=! getSessionChallenge;;
  _ :=! activateSession r;;
  setSessionPriv.

(* @vendor/goipmi/lan.go:45-58 lan.open *)
Definition lan_open : eff V () :=
  _ :=! dial;;
  _ :=! modify (λ l, l <| conn := true |> <| priv := PrivLevelAdmin |> <| timeout := 5%Z |> <| lun := x00 |>);;
  openSession.

(* @vendor/goipmi/lan.go:60-75 lan.close *)
Definition lan_close : eff V () :=
  l :=! gets id;;
  _ :=! (if active l then _ :=* closeSession;; modify (λ l, l <| active := false |>) else eret tt);;
  l :=! gets id;;
  _ :=! (if conn l then _ :=* io sock_close;; modify (λ l, l <| conn := false |>) else eret tt);;
  eret tt.
End lan.

(** ** Packets of a session *)
Definition lan_ok (l : lan) : Prop :=
  l_ok ipmiSession_layout (l_session l) ∧ length (authcode l) = 16 ∧ length (username l) = 16 ∧ (active l = true → conn l = true).

Lemma length_fixed16 s : length (fixed16 s) = 16.
Proof. unfold fixed16. rewrite length_take, length_app, length_replicate. lia. Qed.
Lemma newLanTransport_ok c : lan_ok (newLanTransport c).
Proof. split; [vm_compute; intuition done |]. cbn. by rewrite !length_fixed16. Qed.

(** What an authentication code covers of a message: all that follows the length. *)
Definition signed (h : ipmiHeader) (d : bytes) : bytes :=
  [RsAddr h; NetFnRsLUN h; Checksum h; RqAddr h; RqSeq h; ih_Command h] ++ d ++ [payloadChecksum h d].
(** The authentication code that a message should have (section 22.17.1 of the
    standard), with the key that is shared. *)
Definition auth_code (key : bytes) (m : Message) : bytes :=
  let s := m_session m in
  if decide (AuthType s = x00) then replicate 16 x00
  else if decide (AuthType s = AuthTypeMD5)
  then Md5.Sum (key ++ le_put 4 (SessionID s) ++ signed (m_header m) (m_Data m) ++ le_put 4 (Sequence s) ++ key)
  else key.

Definition session_bytes (m : Message) : bytes :=
  binary_Write rmcpHeader_layout (m_rmcp m) ++ binary_Write ipmiSession_layout (m_session m).
Lemma length_session_bytes m : l_ok ipmiSession_layout (m_session m) → length (session_bytes m) = rmcpHeaderSize + ipmiSessionSize.
Proof. intros Hs. unfold session_bytes. rewrite length_app, (l_put_size ipmiSession_layout) by done. done. Qed.

Lemma toBytes_parts m d : toBytes m d =
  session_bytes m ++ (if decide (AuthType (m_session m) ≠ x00) then m_AuthCode m else [])
    ++ z2b (Z.of_nat (ipmiHeaderSize + length d)) :: signed (sealed (m_header m) d) d.
Proof. unfold toBytes, session_bytes. rewrite <- !app_assoc. done. Qed.

Lemma copy_at_middle a b c b' : length b' = length b → copy_at (length a) b' (a ++ b ++ c) = a ++ b' ++ c.
Proof.
  intros Hb. unfold copy_at. rewrite take_app_length. f_equal. rewrite !length_app.
  rewrite take_ge by lia. f_equal. rewrite Hb. rewrite app_assoc, <- length_app. apply drop_app_length.
Qed.

(** The packet of a request, which goes out as a message of the session that is
    authenticated. *)
Definition request_header (nf : NetworkFunction) (c : Command) (l : lan) (d : bytes) : ipmiHeader :=
  sealed {|
    MsgLen := x00; RsAddr := x20; NetFnRsLUN := z2b (Z.lor (Z.shiftl (b2z nf) 2) (Z.land (b2z (lun l)) 3));
    Checksum := x00; RqAddr := x81; RqSeq := z2b (Z.shiftl (b2z (rqSeq l)) 2); ih_Command := c |} d.
Definition next_lan (l : lan) : lan := (nextRqSeq (nextSequence l).2).2.
Definition packet_session (l : lan) : ipmiSession :=
  (l_session l) <| AuthType := if active l then AuthType (l_session l) else x00 |>.
Definition packet (key : bytes) (s : ipmiSession) (h : ipmiHeader) (d : bytes) : Message :=
  let m code := {|
    m_rmcp := {| rh_Version := rmcpVersion1; rh_Reserved := x00; rh_RMCPSequenceNumber := xff; rh_Class := rmcpClassIPMI |};
    m_session := s; m_AuthCode := code; m_header := h; m_Data := d; m_RequestID := "" |} in
  m (auth_code key (m [])).

Lemma next_lan_keeps l : lan_ok l → lan_ok (next_lan l) ∧ active (next_lan l) = active l ∧ conn (next_lan l) = conn l
  ∧ authcode (next_lan l) = authcode l ∧ username (next_lan l) = username l ∧ priv (next_lan l) = priv l ∧ lun (next_lan l) = lun l
  ∧ AuthType (l_session (next_lan l)) = AuthType (l_session l) ∧ SessionID (l_session (next_lan l)) = SessionID (l_session l)
  ∧ Sequence (l_session (next_lan l)) =
      (if decide (Sequence (l_session l) = 0)%Z then 0%Z else ((Sequence (l_session l) + 1) mod 2 ^ 32)%Z)
  ∧ rqSeq (next_lan l) = z2b (b2z (rqSeq l) + 1) ∧ timeout (next_lan l) = timeout l ∧ l_Connection (next_lan l) = l_Connection l.
Proof.
  intros [Hs Hl]. unfold next_lan, nextRqSeq, nextSequence. destruct Hs as (Ha & Hq & Hi). cbn in Ha, Hq, Hi. unfold lan_ok.
  destruct (decide (Sequence (l_session l) = 0)%Z) as [E | E].
  - rewrite (decide_False (P := Sequence (l_session l) ≠ 0)%Z) by tauto. cbn. rewrite E. unfold fits in *. cbn in *. intuition lia.
  - rewrite (decide_True (P := Sequence (l_session l) ≠ 0)%Z) by done. cbn. unfold fits in *. cbn in *.
    pose proof (Z.mod_pos_bound (Sequence (l_session l) + 1) (2 ^ 32) ltac:(lia)). intuition.
Qed.

Lemma packet_ok key s h d : l_ok ipmiSession_layout s → length key = 16 → message_ok (packet key s h d).
Proof.
  intros Hs Hk. split; [done |]. intros Ha. cbn in *. unfold auth_code. cbn.
  rewrite decide_False by done. case_decide; [apply Md5.length_Sum | done].
Qed.
Lemma packet_code key s h d : m_AuthCode (packet key s h d) = auth_code key (packet key s h d).
Proof. done. Qed.
Lemma packet_sent key s h d : sent_code (packet key s h d) = m_AuthCode (packet key s h d).
Proof.
  unfold sent_code. case_decide as H; [done |]. unfold packet, auth_code. cbn in *.
  destruct (decide (AuthType s = x00)); [done | tauto].
Qed.

Lemma packet_session_ok l : lan_ok l → l_ok ipmiSession_layout (packet_session l).
Proof. intros [(Ha & Hq & Hi) _]. done. Qed.

(** The code that is written over the key is the one a receiver computes. *)
Lemma md5_rewritten m d key : l_ok ipmiSession_layout (m_session m) → AuthType (m_session m) ≠ x00 → length (m_AuthCode m) = 16 →
  let s := m_session m in
  copy_at (rmcpHeaderSize + ipmiSessionSize)
    (Md5.Sum (key ++ le_put 4 (SessionID s) ++ drop (rmcpHeaderSize + ipmiSessionSize + 16 + 1) (toBytes m d) ++ le_put 4 (Sequence s) ++ key))
    (toBytes m d)
  = toBytes (m <| m_AuthCode :=
      Md5.Sum (key ++ le_put 4 (SessionID s) ++ signed (sealed (m_header m) d) d ++ le_put 4 (Sequence s) ++ key) |>) d.
Proof.
  intros Hs Ha Hc s. rewrite !toBytes_parts. unfold upd. cbn [m_session m_AuthCode m_header].
  rewrite !(decide_True (P := AuthType (m_session m) ≠ x00)) by done. rewrite <- (length_session_bytes m Hs).
  assert (∀ (a c : bytes) x l, drop (length a + length c + 1) (a ++ c ++ x :: l) = l) as Hdrop.
  { intros a c x l. change (x :: l) with ([x] ++ l). rewrite !app_assoc, <- (Nat.add_assoc (length a)).
    rewrite <- (drop_app_length ((a ++ c) ++ [x]) l) at 2. rewrite !length_app. simpl. f_equal. lia. }
  rewrite <- Hc, Hdrop. apply copy_at_middle. by rewrite Md5.length_Sum.
Qed.

Arguments toBytes : simpl never.
Arguments copy_at : simpl never.
Arguments auth_code : simpl never.
Lemma message_packet `{Marshal A} (r : Request A) l : lan_ok l →
  let d := messageDataToBytes (rq_Data r) in let l' := next_lan l in
  message r l = (toBytes (packet (authcode l) (packet_session l') (request_header (rq_NetworkFunction r) (rq_Command r) l' d) d) d, l').
Proof.
  intros Hl d l'. destruct (next_lan_keeps l Hl) as (Hl' & Hact & _ & Hcode & _). fold l' in Hl', Hact, Hcode.
  unfold message. destruct (nextSequence l) as [seq l1] eqn:E1. destruct (nextRqSeq l1) as [rq l2] eqn:E2.
  assert (l2 = l') as -> by (unfold l', next_lan; rewrite E1; cbn [snd]; by rewrite E2).
  clearbody l'. assert (seq = Sequence (l_session l')) as ->.
  { unfold nextSequence in E1. unfold nextRqSeq in E2. injection E1 as <- <-. injection E2 as _ <-. done. }
  assert (rq = z2b (Z.shiftl (b2z (rqSeq l')) 2)) as ->.
  { unfold nextRqSeq in E2. by injection E2 as <- <-. }
  fold d. rewrite <- Hcode. clear E1 E2 Hact Hcode. clearbody d. clear Hl l l1.
  unfold packet, packet_session, request_header. destruct Hl' as (Hs & Hc & _).
  destruct l' as [cn [at_ sq si] rs co ac key un pr lu ti]. cbn in Hs, Hc |- *. destruct ac; [| done]. cbn [andb].
  destruct (bool_decide_reflect (at_ = x00)) as [-> | Hat]; [done |]. cbn [negb andb].
  destruct (bool_decide_reflect (at_ = AuthTypeMD5)) as [-> | Hmd]; cbn [upd].
  - f_equal. unfold authMD5. cbn [authcode l_session SessionID Sequence].
    match goal with |- context [toBytes ?m d] => etrans; [exact (md5_rewritten m d key Hs Hat Hc) |] end.
    reflexivity.
  - f_equal. unfold auth_code. cbn [AuthType m_session].
    rewrite (decide_False (P := at_ = x00)), (decide_False (P := at_ = AuthTypeMD5)) by done. reflexivity.
Qed.

(** What the far end reads. *)
Lemma message_received `{Marshal A} (r : Request A) l : lan_ok l → length (messageDataToBytes (rq_Data r)) ≤ 248 →
  let d := messageDataToBytes (rq_Data r) in let l' := next_lan l in
  messageFromBytes (message r l).1 =
    Ret (Ok (packet (authcode l) (packet_session l') (request_header (rq_NetworkFunction r) (rq_Command r) l' d) d)).
Proof.
  intros Hl Hd d l'. destruct (next_lan_keeps l Hl) as (Hl' & _). fold l' in Hl'.
  rewrite message_packet by done. cbn [fst]. fold d l'.
  rewrite messageFromBytes_written; [| apply packet_ok; [by apply packet_session_ok | apply Hl] | done].
  rewrite packet_sent. done.
Qed.

Lemma NetFn_lun (nf : NetworkFunction) (k : byte) : (b2z nf < 64)%Z →
  z2b (Z.shiftr (b2z (z2b (Z.lor (Z.shiftl (b2z nf) 2) (Z.land (b2z k) 3)))) 2) = nf.
Proof.
  change 3%Z with (Z.ones 2). rewrite Z.land_ones by lia. change (2 ^ 2)%Z with 4%Z.
  set (P nf k := negb (bool_decide (b2z nf < 64)%Z) || bool_decide (z2b (Z.shiftr (b2z (z2b (Z.lor (Z.shiftl (b2z nf) 2) k))) 2) = nf)).
  assert (∀ nf, forallb (P nf) [0; 1; 2; 3]%Z = true) as H by (apply byte_ind_256; vm_compute; reflexivity).
  intros Hn. specialize (H nf). rewrite forallb_forall in H. specialize (H (b2z k mod 4)%Z). unfold P in H.
  rewrite orb_true_iff, negb_true_iff, bool_decide_eq_false, bool_decide_eq_true in H. destruct H; [| lia | done].
  pose proof (Z.mod_pos_bound (b2z k) 4 ltac:(lia)). assert (b2z k mod 4 = 0 ∨ b2z k mod 4 = 1 ∨ b2z k mod 4 = 2 ∨ b2z k mod 4 = 3)%Z by lia.
  simpl. intuition.
Qed.

(** C9: the packet of a request.  A controller that reads it finds the function,
    the command and the data of the request, the identifier of the session and
    the next sequence number; in an active session, the authentication code is the
    one it computes itself of the packet and the shared key.  (Network functions have
    six bits, and the data at most 248 bytes.) *)
Theorem message_authentic `{Codec A} (r : Request A) (l : lan) :
  lan_ok l → (b2z (rq_NetworkFunction r) < 64)%Z → codec_ok (rq_Data r) → length (messageDataToBytes (rq_Data r)) ≤ 248 →
  let '(buf, l') := message r l in
  let s := l_session l in
  let seq := if decide (Sequence s = 0)%Z then 0%Z else ((Sequence s + 1) mod 2 ^ 32)%Z in
  Sequence (l_session l') = seq ∧
  ∃ m, messageFromBytes buf = Ret (Ok m) ∧
    NetFn m = rq_NetworkFunction r ∧ ih_Command (m_header m) = rq_Command r ∧ m_Request m = inl (rq_Data r) ∧
    m_session m = {| AuthType := if active l then AuthType s else x00; Sequence := seq; SessionID := SessionID s |} ∧
    m_AuthCode m = auth_code (authcode l) m.
Proof.
  intros Hl Hnf Hc Hd. destruct (message r l) as [buf l'] eqn:E. pose proof (message_received r l Hl Hd) as Hr. rewrite E in Hr.
  rewrite message_packet in E by done. injection E as _ <-. cbn [fst] in Hr.
  destruct (next_lan_keeps l Hl) as (Hl' & Ha & _ & Hk & _ & _ & Hlun & Hat & Hi & Hq & _).
  split; [done |]. eexists. split; [exact Hr |]. split.
  { by apply NetFn_lun. }
  split; [done |]. split; [by apply m_Request_data |]. split; [| done].
  change (m_session _) with (packet_session (next_lan l)). rewrite <- Ha, <- Hat, <- Hi, <- Hq. done.
Qed.

Definition ex_lan : lan := (newLanTransport (Build_Connection "" "bmc" 623 "root" "calvin" "lan"))
  <| conn := true |> <| active := true |> <| l_session := Build_ipmiSession AuthTypeMD5 41 7 |>.
Lemma ex_lan_ok : lan_ok ex_lan.
Proof. split; [vm_compute; intuition done |]. done. Qed.
Lemma message_authentic_witness :
  let '(buf, l') := message (Build_Request _ NetworkFunctionChassis CommandChassisControl (Build_ChassisControlRequest x01)) ex_lan in
  Sequence (l_session l') = 42%Z ∧ ∃ m, messageFromBytes buf = Ret (Ok m) ∧ m_AuthCode m = auth_code (authcode ex_lan) m.
Proof.
  pose proof (message_authentic (Build_Request _ NetworkFunctionChassis CommandChassisControl (Build_ChassisControlRequest x01)) ex_lan
    ex_lan_ok ltac:(done) ltac:(done) ltac:(vm_compute; lia)) as H. cbv beta in H |- *.
  destruct (message _ _) as [buf l']. destruct H as (Hs & m & Hm & _ & _ & _ & _ & Hk). split; [done |]. by exists m.
Defined.

(** ** The life of a session *)
Section session.
Context {C : Type} `{!Socket C}.
Abbreviation V := (C * lan)%type.

(** What all calls but those that begin or end a session do to it. *)
Definition kept (x y : V) : Prop := lan_ok x.2 → lan_ok y.2 ∧ conn y.2 = conn x.2 ∧ active y.2 = active x.2.
#[global] Instance kept_preorder : PreOrder kept.
Proof.
  split; [by intros x |]. intros x y z H1 H2 Hx. destruct (H1 Hx) as (Hy & -> & ->) || destruct (H1 Hx) as (Hy & <- & <-). by apply H2.
Qed.

Lemma partly_io {A} (f : C → res A * C) : partly kept (io f) (λ _, True).
Proof. intros [c l] r v'. unfold io. destruct (f c) as [a c']. intros [= <- <-]. by split. Qed.
Lemma partly_on_conn {A} (f : C → res A * C) : partly kept (on_conn f) (λ _, True).
Proof. intros [c l] r v'. unfold on_conn. destruct (conn l); [apply partly_io | done]. Qed.
Lemma partly_gets {A} (f : lan → A) : partly kept (gets f) (λ _, True).
Proof. by intros [c l] r v' [= <- <-]. Qed.
Lemma partly_modify (f : lan → lan) : (∀ l, lan_ok l → lan_ok (f l) ∧ conn (f l) = conn l ∧ active (f l) = active l) →
  partly kept (modify f) (λ _, True).
Proof. intros Hf [c l] r v' [= <- <-]. split; [exact (Hf l) | done]. Qed.
Lemma partly_of_outcome {A} (o : outcome (res A)) : partly kept (of_outcome o) (λ a, o = Ret (Ok a)).
Proof. intros v r v'. unfold of_outcome. destruct o as [r0 |]; [| done]. intros [= <- <-]. split; [done |]. by intros a ->. Qed.
Lemma partly_of_res {A} (r : res A) : partly kept (of_res r) (λ _, True).
Proof. apply partly_safe, safe_of_res; [apply _ | done]. Qed.
Lemma partly_fail {A} e (Q : A → Prop) : partly kept (efail e) Q.
Proof. apply partly_safe, safe_fail. apply _. Qed.
Lemma partly_eret {A} (a : A) : partly kept (eret a) (λ _, True).
Proof. by apply partly_safe, safe_ret; [apply _ |]. Qed.

Lemma partly_recvPacket : partly kept recvPacket (λ _, True).
Proof.
  unfold recvPacket. apply (partly_bind _ _ _ (λ _, True)); [apply partly_gets | intros l _].
  apply (partly_bind _ _ _ (λ _, True)); [apply partly_on_conn | intros _ _]. apply partly_on_conn.
Qed.

(** What a request returns was read from bytes. *)
Lemma partly_lan_send {A B} `{Marshal A} `{Unmarshal B} (req : Request A) :
  partly kept (lan_send (B := B) req) (λ b, ∃ buf, unmarshal buf = Ok b).
Proof.
  unfold lan_send. apply (partly_bind _ _ _ (λ _, True)).
  { intros [c l] r v'. destruct (message req l) as [msg l'] eqn:E. intros E1. destruct (partly_on_conn (sock_write msg) (c, l') r v' E1) as [H1 _].
    split; [| done]. intros Hl. rewrite message_packet in E by done. injection E as _ <-.
    destruct (next_lan_keeps l Hl) as (Hl' & Ha & Hc & _). destruct (H1 Hl') as (? & H2 & H3). cbn [snd] in *. by rewrite H2, H3, Ha, Hc. }
  intros _ _. apply (partly_bind _ _ _ (λ _, True)).
  - unfold recvMessage. apply (partly_bind _ _ _ (λ _, True)); [apply partly_recvPacket | intros buf _].
    apply (partly_bind _ _ _ (λ _, True)); [apply partly_of_res | intros h _].
    case_decide; [apply partly_fail |]. intros v r v' E. by destruct (partly_of_outcome _ v r v' E).
  - intros m _ v r v' E. destruct (partly_of_outcome _ v r v' E) as [E1 Hb]. split; [done |]. intros b Eb. specialize (Hb b Eb).
    exists (m_Data m). unfold m_Response in Hb. destruct (m_CompletionCode m); cbn [out_bind] in Hb; [| done].
    case_decide; [| done]. by injection Hb.
Qed.

Lemma unmarshal_fits {B} `{Fixed B} buf b : unmarshal buf = Ok b → l_ok layout_of b.
Proof.
  unfold unmarshal, fixed_unmarshal. intros E. apply res_bind_Ok in E as ([b' r] & E & [= <-]). by apply binary_Read_inv in E as [_ Hb].
Qed.

Lemma partly_ping : partly kept ping (λ _, True).
Proof.
  unfold ping. apply (partly_bind _ _ _ (λ _, True)); [apply partly_on_conn | intros _ _].
  apply (partly_bind _ _ _ (λ _, True)); [apply partly_recvPacket | intros buf _].
  apply (partly_bind _ _ _ (λ _, True)); [apply partly_of_res | intros m _].
  case_decide; [apply partly_fail |]. apply (partly_bind _ _ _ (λ _, True)); [apply partly_of_res | intros p _].
  destruct (asf_valid p); [apply partly_eret | apply partly_fail].
Qed.
Lemma partly_getAuthCapabilities : partly kept getAuthCapabilities (λ _, True).
Proof.
  unfold getAuthCapabilities. apply (partly_bind _ _ _ (λ _, True)); [apply partly_gets | intros l _].
  apply (partly_bind _ _ _ _ _ (partly_lan_send _)). intros r _. case_decide; [| apply partly_fail]. by apply partly_modify.
Qed.
Lemma partly_getSessionChallenge : partly kept getSessionChallenge (λ _, True).
Proof.
  unfold getSessionChallenge. apply (partly_bind _ _ _ (λ _, True)); [apply partly_gets | intros l _].
  apply (partly_bind _ _ _ _ _ (partly_lan_send _)). intros r [buf Hr]. apply unmarshal_fits in Hr as (_ & Hi & _).
  apply (partly_bind _ _ _ (λ _, True)); [| intros _ _; apply partly_eret].
  apply partly_modify. intros l' [(Ha & Hq & _) Hl]. split; [| done]. by split.
Qed.
Lemma partly_setSessionPriv : partly kept setSessionPriv (λ _, True).
Proof.
  unfold setSessionPriv. apply (partly_bind _ _ _ (λ _, True)); [apply partly_gets | intros l _].
  apply (partly_bind _ _ _ _ _ (partly_lan_send _)). intros r _. by apply partly_modify.
Qed.
Lemma partly_inSeq : partly kept inSeq (λ _, True).
Proof.
  unfold inSeq. apply (partly_catch _ _ _ (λ _, True)); [apply partly_io |]. intros [[[[a b] c] d] |] _; [apply partly_eret |].
  by intros v r v'.
Qed.

(** A session becomes active with the answer, and not without it. *)
Lemma activateSession_life sc c l r c' l' : lan_ok l → conn l = true → activateSession sc (c, l) = Ret (r, (c', l')) →
  lan_ok l' ∧ conn l' = true ∧ (r = Ok tt ↔ active l' = true).
Proof.
  intros Hl Hc. unfold activateSession, ebind at 1, ecatch at 1. cbn [gets out_bind]. unfold ebind at 1, ecatch at 1.
  destruct (inSeq (c, l)) as [[r1 [c1 l1]] |] eqn:E1; cbn [out_bind]; [| done].
  assert (∃ a b c d, r1 = Ok [a; b; c; d] ∧ l1 = l) as (s1 & s2 & s3 & s4 & -> & ->).
  { revert E1. unfold inSeq, ecatch, io. destruct (rand_read c) as [[[[[? ?] ?] ?] | ?] ?]; cbn; [| done].
    intros [= <- <- <-]. by do 4 eexists. }
  unfold ebind at 1, ecatch at 1. cbn [modify out_bind]. unfold ecatch at 1.
  set (l1 := l <| active := true |>). assert (lan_ok l1) as Hl1 by by destruct Hl as (? & ? & ? & _).
  destruct (lan_send _ (c1, l1)) as [[r2 [c2 l2]] |] eqn:E2; cbn [out_bind]; [| done].
  destruct (partly_lan_send _ _ _ _ E2) as [H2 Hr]. destruct (H2 Hl1) as (Hl2 & Hc2 & Ha2). cbn in Hc2, Ha2. rewrite Hc in Hc2.
  destruct r2 as [a | e].
  - destruct (Hr a eq_refl) as [buf Ha]. apply unmarshal_fits in Ha as (_ & _ & Hi & Hq & _). intros [= <- <- <-].
    split; [| done]. destruct Hl2 as (_ & Hk & Hu & _). by split_and!.
  - intros [= <- <- <-]. split; [| by split]. destruct Hl2 as (Hs & Hk & Hu & _). by split_and!.
Qed.

Lemma partly_dial : partly kept dial (λ _, True).
Proof. unfold dial. apply (partly_bind _ _ _ (λ _, True)); [apply partly_gets | intros l _]. apply partly_io. Qed.

Lemma openSession_life c l r c' l' : lan_ok l → conn l = true → openSession (c, l) = Ret (r, (c', l')) →
  lan_ok l' ∧ (r = Ok tt → conn l' = true ∧ active l' = true).
Proof.
  intros Hl Hc E. unfold openSession in E.
  apply ebind_inv in E as (r1 & [c1 l1] & E1 & E). destruct (partly_ping _ _ _ E1) as [K1 _]. destruct (K1 Hl) as (Hl1 & Hc1 & _).
  destruct r1 as [[] | e]; [| destruct E as [-> [= -> ->]]; by split].
  apply ebind_inv in E as (r2 & [c2 l2] & E2 & E). destruct (partly_getAuthCapabilities _ _ _ E2) as [K2 _]. destruct (K2 Hl1) as (Hl2 & Hc2 & _).
  destruct r2 as [[] | e]; [| destruct E as [-> [= -> ->]]; by split].
  apply ebind_inv in E as (r3 & [c3 l3] & E3 & E). destruct (partly_getSessionChallenge _ _ _ E3) as [K3 _]. destruct (K3 Hl2) as (Hl3 & Hc3 & _).
  destruct r3 as [sc | e]; [| destruct E as [-> [= -> ->]]; by split]. cbn [snd] in *.
  apply ebind_inv in E as (r4 & [c4 l4] & E4 & E). apply activateSession_life in E4 as (Hl4 & Hc4 & Ha4); [| done | congruence].
  destruct r4 as [[] | e]; [| destruct E as [-> [= -> ->]]; by split].
  destruct (partly_setSessionPriv _ _ _ E) as [K5 _]. destruct (K5 Hl4) as (Hl5 & Hc5 & Ha5). cbn [snd] in *.
  split; [done |]. intros _. rewrite Hc5, Ha5. split; [done | by apply Ha4].
Qed.
Lemma open_life c l r c' l' : lan_ok l → lan_open (c, l) = Ret (r, (c', l')) →
  lan_ok l' ∧ (r = Ok tt → conn l' = true ∧ active l' = true).
Proof.
  intros Hl E. unfold lan_open in E.
  apply ebind_inv in E as (r1 & [c1 l1] & E1 & E). destruct (partly_dial _ _ _ E1) as [K1 _]. destruct (K1 Hl) as (Hl1 & _ & _).
  destruct r1 as [[] | e]; [| destruct E as [-> [= -> ->]]; by split].
  apply ebind_inv in E as (r2 & [c2 l2] & E2 & E). injection E2 as <- <- <-.
  apply openSession_life in E; [done | | done]. destruct Hl1 as (? & ? & ? & _). done.
Qed.
Lemma close_life c l r c' l' : lan_ok l → lan_close (c, l) = Ret (r, (c', l')) →
  r = Ok tt ∧ lan_ok l' ∧ active l' = false ∧ conn l' = false.
Proof.
  intros Hl E. unfold lan_close in E.
  apply ebind_inv in E as (r0 & v0 & E0 & E). injection E0 as <- <-.
  apply ebind_inv in E as (r1 & [c1 l1] & E1 & E).
  assert (r1 = Ok tt ∧ lan_ok l1 ∧ active l1 = false) as (-> & Hl1 & Ha1).
  { cbn [id] in E1. destruct (active l) eqn:Ha; [| injection E1 as <- <- <-; done].
    apply ecatch_inv in E1 as (r2 & [c2 l2] & E2 & E1). injection E1 as <- <- <-.
    assert (lan_ok l2) as Hl2.
    { unfold closeSession in E2. apply ebind_inv in E2 as (r3 & v3 & E3 & E2). injection E3 as <- <-.
      apply ebind_inv in E2 as (r4 & [c4 l4] & E4 & E2). destruct (partly_lan_send _ _ _ _ E4) as [K4 _]. destruct (K4 Hl) as (Hl4 & _).
      destruct r4; [injection E2 as _ _ <- | destruct E2 as [_ [= _ ->]]]; done. }
    destruct Hl2 as (? & ? & ? & _). done. }
  apply ebind_inv in E as (r2 & v2 & E2 & E). injection E2 as <- <-. cbn [id] in E.
  apply ebind_inv in E as (r3 & [c3 l3] & E3 & E).
  assert (r3 = Ok tt ∧ lan_ok l3 ∧ active l3 = false ∧ conn l3 = false) as (-> & Hl3).
  { destruct (conn l1) eqn:Hc; [| injection E3 as <- <- <-; done].
    apply ecatch_inv in E3 as (r4 & [c4 l4] & E4 & E3). injection E3 as <- <- <-.
    assert (l4 = l1) as ->. { unfold io in E4. destruct (sock_close c1). by injection E4 as _ _ <-. }
    destruct Hl1 as (? & ? & ? & _). split; [done |]. split_and!; [split_and! | |]; try done. cbn. by rewrite Ha1. }
  by injection E as <- <- <-.
Qed.

(** The datagrams that crash their reader: they pass for IPMI messages, and either
    [messageFromBytes] panics (their length says less than the header takes) or
    they carry no data, so that there is no completion code. *)
Definition crashes_reader (buf : bytes) : Prop :=
  (∃ h, rmcpHeaderFromBytes buf = Ok h ∧ rh_Class h = rmcpClassIPMI) ∧
  (messageFromBytes buf = Panic ∨ ∃ m, messageFromBytes buf = Ret (Ok m) ∧ m_Data m = []).
(** After the packet was sent, such a datagram is the first that comes. *)
Definition crashing_answer (msg : bytes) (l : lan) (c : C) : Prop :=
  ∃ c1 c2 c3 buf, sock_write msg c = (Ok tt, c1) ∧ sock_deadline (timeout l) c1 = (Ok tt, c2) ∧
    sock_read ipmiBufSize c2 = (Ok buf, c3) ∧ crashes_reader buf.

Lemma recv_crash {B} `{Unmarshal B} buf (v : V) :
  (m :=! (header :=! of_res (rmcpHeaderFromBytes buf);;
          if decide (rh_Class header ≠ rmcpClassIPMI) then efail (unsupportedClass header) else of_outcome (messageFromBytes buf));;
   of_outcome (m_Response (A := B) m)) v = Panic ↔ crashes_reader buf.
Proof.
  unfold ebind, ecatch, of_res, crashes_reader. cbn [out_bind]. destruct (rmcpHeaderFromBytes buf) as [h | e]; cbn [out_bind].
  2:{ split; [done |]. intros [(h & [=] & _) _]. }
  destruct (decide (rh_Class h ≠ rmcpClassIPMI)) as [Hc | Hc]; cbn [efail out_bind].
  { split; [done |]. intros [(h' & [= <-] & ?) _]. tauto. }
  apply dec_stable in Hc. assert (∃ h', (Ok h : res rmcpHeader) = Ok h' ∧ rh_Class h' = rmcpClassIPMI) as Hh by by exists h.
  unfold of_outcome. destruct (messageFromBytes buf) as [[m | e] |]; cbn [out_bind efail].
  - unfold m_Response, m_CompletionCode. destruct (m_Data m) eqn:Ed; cbn [out_bind].
    + split; [| done]. intros _. split; [done |]. right. by exists m.
    + split; [done |]. intros [_ [? | (m' & [= <-] & ?)]]; congruence.
  - split; [done |]. by intros [_ [? | (m' & [=] & _)]].
  - split; [| done]. intros _. split; [done |]. by left.
Qed.

Lemma send_crash {A B} `{Marshal A} `{Unmarshal B} (req : Request A) c l : lan_ok l →
  lan_send (B := B) req (c, l) = Panic ↔ conn l = false ∨ crashing_answer (message req l).1 l c.
Proof.
  intros Hl. destruct (message req l) as [msg l1] eqn:Em.
  assert (conn l1 = conn l ∧ timeout l1 = timeout l) as [Hc Ht].
  { rewrite message_packet in Em by done. injection Em as _ <-. destruct (next_lan_keeps l Hl) as (_ & _ & ? & _ & _ & _ & _ & _ & _ & _ & _ & ? & _). done. }
  unfold lan_send, ebind at 1, ecatch at 1. rewrite Em. unfold sendPacket, on_conn, io. rewrite Hc. cbn [fst].
  destruct (conn l) eqn:Hcl; cbn [out_bind]; [| split; [by left | done]].
  unfold crashing_answer. destruct (sock_write msg c) as [[[] | e] c1] eqn:E1; cbn [out_bind efail].
  2:{ split; [done |]. intros [? | (? & ? & ? & ? & ? & _)]; congruence. }
  unfold recvMessage, recvPacket, on_conn, io. unfold ebind at 1 2 3 4, ecatch at 1 2 3 4. cbn [gets out_bind id]. rewrite ?Hc, ?Ht. cbn [out_bind].
  destruct (sock_deadline (timeout l) c1) as [[[] | e] c2] eqn:E2; cbn [out_bind efail].
  2:{ split; [done |]. intros [? | (? & ? & ? & ? & ? & ? & _)]; congruence. }
  rewrite ?Hc. destruct (sock_read ipmiBufSize c2) as [[buf | e] c3] eqn:E3; cbn [out_bind efail].
  2:{ split; [done |]. intros [? | (? & ? & ? & ? & ? & ? & ? & _)]; congruence. }
  etrans; [exact (recv_crash (B := B) buf (c3, l1)) |]. split.
  - intros Hx. right. by exists c1, c2, c3, buf.
  - intros [? | (? & ? & ? & ? & ? & ? & ? & Hx)]; [done |]. congruence.
Qed.

Definition close_request (l : lan) : Request CloseSessionRequest := {|
  rq_NetworkFunction := NetworkFunctionApp; rq_Command := CommandCloseSession; rq_Data := {| csq_SessionID := SessionID (l_session l) |} |}.
Lemma close_crash c l : lan_ok l →
  lan_close (c, l) = Panic ↔ active l = true ∧ crashing_answer (message (close_request l) l).1 l c.
Proof.
  intros Hl. unfold lan_close, ebind at 1, ecatch at 1. cbn [gets out_bind id]. unfold ebind at 1, ecatch at 1.
  destruct (active l) eqn:Ha; cbn [out_bind].
  - assert (lan_send (B := CloseSessionResponse) (close_request l) (c, l) = Panic ↔ crashing_answer (message (close_request l) l).1 l c) as Hp.
    { rewrite send_crash by done. destruct Hl as (_ & _ & _ & Hc). rewrite Hc by done. intuition done. }
    assert (closeSession (c, l) = Panic ↔ lan_send (B := CloseSessionResponse) (close_request l) (c, l) = Panic) as Hs.
    { unfold closeSession, ebind, ecatch. cbn [gets out_bind id]. fold (close_request l).
      destruct (lan_send (close_request l) (c, l)) as [[[] ?] |]; cbn; split; done. }
    rewrite <- Hp, <- Hs. unfold ecatch at 1. destruct (closeSession (c, l)) as [[r [c1 l1]] |] eqn:E; cbn [out_bind modify]; [| by split].
    unfold ebind at 1, ecatch at 1. cbn [gets out_bind id]. unfold ebind, ecatch, io.
    destruct (conn _); [destruct (sock_close c1) |]; by (split; [| intros [_ ?]]).
  - split; [| by intros [? _]]. unfold ebind at 1, ecatch at 1. cbn [gets out_bind id eret]. unfold ebind, ecatch, io.
    destruct (conn _); [destruct (sock_close c) |]; done.
Qed.

(** C35: the life of a session, with any controller.  When opening returns, the
    state is well-formed (numbers fit their fields, an active session has a
    connection), and when it succeeds, the session is active.  A request of any
    kind that returns keeps the state well-formed and the session as it is; it
    crashes exactly without a connection, or when the datagram that answers it
    passes for an IPMI message and its length is wrong or it carries no data.
    Closing returns no error and leaves neither a session nor a connection,
    whatever the controller answers, unless such a datagram answers the request
    to close an active session: then, and only then, it crashes. *)
Theorem session_life (c : C) (l : lan) : lan_ok l →
  (∀ r c' l', lan_open (c, l) = Ret (r, (c', l')) → lan_ok l' ∧ (r = Ok tt → conn l' = true ∧ active l' = true)) ∧
  (∀ A B (mA : Marshal A) (uB : Unmarshal B) (req : Request A),
    (∀ r c' l', lan_send (B := B) req (c, l) = Ret (r, (c', l')) → lan_ok l' ∧ conn l' = conn l ∧ active l' = active l) ∧
    (lan_send (B := B) req (c, l) = Panic ↔ conn l = false ∨ crashing_answer (message req l).1 l c)) ∧
  (∀ r c' l', lan_close (c, l) = Ret (r, (c', l')) → r = Ok tt ∧ lan_ok l' ∧ active l' = false ∧ conn l' = false) ∧
  (lan_close (c, l) = Panic ↔ active l = true ∧ crashing_answer (message (close_request l) l).1 l c).
Proof.
  intros Hl. split_and!.
  - intros r c' l'. by apply open_life.
  - intros A B mA uB req. split; [| by apply send_crash]. intros r c' l' Es. by destruct (partly_lan_send req _ _ _ Es) as [K _]; apply K.
  - intros r c' l'. by apply close_life.
  - by apply close_crash.
Qed.
End session.

(** A controller that does not answer. *)
#[local] Instance silent : Socket () := {|
  sock_dial _ c := (Ok tt, c); sock_write _ c := (Ok tt, c); sock_deadline _ c := (Ok tt, c); sock_read _ c := (Err ErrTimeout, c);
  sock_close c := (Ok tt, c); rand_read c := (Ok (x00, x01, x02, x03), c) |}.
(** One whose every datagram is a message without data. *)
Definition no_data : bytes := toBytes (packet (replicate 16 x00) (Build_ipmiSession x00 0 7) (request_header x07 x3c ex_lan []) []) [].
Definition wordless : Socket () := {|
  sock_dial _ c := (Ok tt, c); sock_write _ c := (Ok tt, c); sock_deadline _ c := (Ok tt, c); sock_read _ c := (Ok no_data, c);
  sock_close c := (Ok tt, c); rand_read c := (Ok (x00, x01, x02, x03), c) |}.
Lemma session_life_witness :
  (∃ l', lan_close (tt, ex_lan) = Ret (Ok tt, (tt, l')) ∧ conn l' = false) ∧
  lan_send (Socket0 := wordless) (B := CloseSessionResponse) (close_request ex_lan) (tt, ex_lan) = Panic.
Proof.
  split.
  - destruct (session_life tt ex_lan ex_lan_ok) as (_ & _ & H & _).
    destruct (lan_close (tt, ex_lan)) as [[r [[] l']] |] eqn:Ec; [| vm_compute in Ec; done]. destruct (H _ _ _ eq_refl) as (-> & _ & _ & Hc). by exists l'.
  - destruct (@session_life () wordless tt ex_lan ex_lan_ok) as (_ & H & _).
    apply (H CloseSessionRequest CloseSessionResponse _ _ (close_request ex_lan)). right.
    exists tt, tt, tt, no_data. split_and!; [done | done | done |]. split; [by eexists |]. right. eexists. split; [vm_compute; reflexivity | done].
Defined.
