(* ===== verification/IpmiTool.v ===== *)
(** The program ipmitool as a transport of the IPMI library, [goipmi/tool.go]:
    requests become its arguments, and what it prints the responses.  Running a
    program is the class [Exec]. *)

From S2P Require Import Prelude Effects GoPath DcpCommon GoBinary IpmiCode IpmiCommand IpmiMessage IpmiLan.
From Stdlib Require Import ZArith Lia.

(** Running a program: what it writes, and whether it failed. *)
Class Exec (C : Type) := {
  exec_path : string → C → string;                 (* [cmd.Path], of a name *)
  exec_run : string → list string → C → (string * string * option error) * C
}.

(* @vendor/goipmi/tool.go:15-17 tool *)
Record tool := { t_Connection : Connection }.
(* @vendor/goipmi/tool.go:19-21 newToolTransport *)
Definition newToolTransport (c : Connection) : tool := {| t_Connection := c |}.

(* @vendor/goipmi/tool.go:52-70 tool.options *)
Definition options (t : tool) : list string :=
  let c := t_Connection t in
  let intf := if decide (Interface c = "")%string then "lanplus"%string else Interface c in
  let options := ["-H"; Hostname c; "-U"; Username c; "-P"; Password c; "-I"; intf]%string in
  if decide (Port c ≠ 0)%Z then options ++ ["-p"; fmt_d (Port c)]%string else options.

(* @vendor/goipmi/tool.go:72-82 tool.cmd *)
Definition cmd (t : tool) (args : list string) : string * list string :=
  let path := Path (t_Connection t) in
  let opts := options t ++ args in
  (if decide (path = "")%string then "ipmitool"%string else path, opts).

(* @vendor/goipmi/tool.go:144-154 rawEncode *)
Definition rawEncode (data : bytes) : list string := (λ b, "0x" +:+ b2s (fmt_x [b])) <$> data.

(* @vendor/goipmi/tool.go:126-142 rawDecode *)
Definition rawDecode (data : bytes) : outcome bytes :=
  foldl (λ buf s, out_bind buf (λ buf, match hex_DecodeString s with Ok b => Ret (buf ++ b) | Err _ => Panic end)) (Ret [])
    (split x20 data).

(* @vendor/goipmi/tool.go:100-107 requestToBytes *)
Definition requestToBytes `{Marshal A} (r : Request A) : bytes :=
  rq_NetworkFunction r :: rq_Command r :: messageDataToBytes (rq_Data r).
(* @vendor/goipmi/tool.go:109-112 requestToStrings *)
Definition requestToStrings `{Marshal A} (r : Request A) : list string := rawEncode (requestToBytes r).

(* @vendor/goipmi/tool.go:114-119 responseFromBytes *)
Definition responseFromBytes `{Unmarshal B} (msg : bytes) : res B := messageDataFromBytes (CommandCompleted :: msg).
(* @vendor/goipmi/tool.go:121-124 responseFromString *)
Definition responseFromString `{Unmarshal B} (s : string) : outcome (res B) :=
  out_bind (rawDecode (TrimSpace (s2b s))) (λ msg, Ret (responseFromBytes msg)).

Section tool.
Context {C : Type} `{!Exec C}.

(* @vendor/goipmi/tool.go:84-98 tool.run *)
Definition run (args : list string) : eff (C * tool) string := λ '(c, t),
  let '(path, opts) := cmd t args in
  let '((stdout, stderr, err), c') := exec_run path opts c in
  match err with
  | Some e => Ret (Err (Errorf ("run " +:+ exec_path path c +:+ " " +:+ String.concat " " (path :: opts) +:+ ": " +:+ stderr
                                +:+ " (" +:+ Error e +:+ ")")), (c', t))
  | None => Ret (Ok stdout, (c', t))
  end.

(* @vendor/goipmi/tool.go:31-42 tool.send *)
Definition tool_send {A B} `{Marshal A} `{Unmarshal B} (req : Request A) : eff (C * tool) B :=
  output :=! run ("raw"%string :: requestToStrings req);;
  of_outcome (responseFromString output).
End tool.

(** ** What the program prints *)

(** A line of what [ipmitool raw] prints, a blank and two digits for each byte. *)
Definition printed (d : bytes) : bytes := mjoin ((λ b, x20 :: fmt_x [b]) <$> d) ++ [x0a].
Definition hexes (d : bytes) : list bytes := (λ b, fmt_x [b]) <$> d.

Lemma printed_join x d : printed (x :: d) = x20 :: join x20 (hexes (x :: d)) ++ [x0a].
Proof.
  unfold printed. rewrite app_comm_cons. f_equal. revert x. induction d as [| y d IH]; intros x; [done |].
  change (hexes (x :: y :: d)) with (fmt_x [x] :: hexes (y :: d)). rewrite join_cons by done. rewrite app_comm_cons, <- IH. done.
Qed.

Lemma hex_not_space c : is_hex_digit c = true → is_space c = false.
Proof.
  assert (implb (is_hex_digit c) (negb (is_space c)) = true) as H
    by (revert c; apply (byte_ind_256 (λ c, implb (is_hex_digit c) (negb (is_space c)))); vm_compute; reflexivity).
  intros E. rewrite E in H. cbn in H. by apply negb_true_iff.
Qed.
Lemma hex_no_space b : Forall (λ c, is_space c = false) (fmt_x b).
Proof.
  induction b as [| x b IH]; [constructor |]. cbn [fmt_x]. apply Forall_app. split; [| done].
  apply Forall_forall. intros c Hc. apply hex_not_space. pose proof (hex_byte_digits x) as Hd. rewrite forallb_forall in Hd.
  by apply Hd, list_elem_of_In.
Qed.
Lemma hexes_no_blank d : Forall (λ x, x20 ∉ x) (hexes d).
Proof.
  apply Forall_fmap, Forall_forall. intros b _ H. pose proof (hex_no_space [b]) as Hb. rewrite Forall_forall in Hb.
  by specialize (Hb x20 H).
Qed.

(** Text without white space at its ends is all that is left of it. *)
Lemma TrimSpace_ends l a m b r : Forall (λ c, is_space c = true) l → Forall (λ c, is_space c = true) r →
  is_space a = false → is_space b = false →
  TrimSpace (l ++ (a :: m ++ [b]) ++ r) = a :: m ++ [b].
Proof.
  intros Hl Hr Ha Hb. unfold TrimSpace.
  assert (∀ l x s, Forall (λ c, is_space c = true) l → is_space x = false → trim_left (l ++ x :: s) = x :: s) as Ht.
  { clear. induction l as [| y l IH]; intros x s Hl Hx; cbn [app trim_left]; [by rewrite Hx |].
    inversion_clear Hl as [| ? ? Hy Hl']. rewrite Hy. by apply IH. }
  change ((a :: m ++ [b]) ++ r) with (a :: (m ++ [b]) ++ r). rewrite Ht by done.
  rewrite app_comm_cons, reverse_app, app_comm_cons, reverse_app. change (reverse [b]) with [b].
  cbn [app]. rewrite (Ht (reverse r) b) by (done || by apply Forall_reverse). change (b :: reverse (a :: m)) with (reverse [b] ++ reverse (a :: m)).
  by rewrite <- reverse_app, reverse_involutive.
Qed.

Lemma hex_byte_ends b : ∃ h l, fmt_x [b] = [h; l] ∧ is_space h = false ∧ is_space l = false.
Proof.
  pose proof (hex_no_space [b]) as H. cbn [fmt_x] in *. rewrite app_nil_r in *. unfold hex_byte in *.
  do 2 eexists. split; [done |]. inversion_clear H as [| ? ? H1 H2]. inversion_clear H2. done.
Qed.
Lemma hexes_ends x d : ∃ a m b, join x20 (hexes (x :: d)) = a :: m ++ [b] ∧ is_space a = false ∧ is_space b = false.
Proof.
  unfold hexes. revert x. induction d as [| y d IH]; intros x; destruct (hex_byte_ends x) as (h & l & E & Hh & Hl).
  - exists h, [], l. rewrite fmap_cons, E. done.
  - destruct (IH y) as (a & m & b & E2 & Ha & Hb). exists h, (l :: x20 :: a :: m), b. rewrite fmap_cons, join_cons by done.
    by rewrite E, E2.
Qed.

Lemma decode_hexes d buf :
  foldl (λ buf s, out_bind buf (λ buf, match hex_DecodeString s with Ok b => Ret (buf ++ b) | Err _ => Panic end)) (Ret buf) (hexes d)
  = Ret (buf ++ d).
Proof.
  revert buf. induction d as [| x d IH]; intros buf; [by rewrite app_nil_r |]. cbn [hexes fmap list_fmap foldl]. rewrite hex_DecodeString_fmt. cbn [out_bind].
  rewrite IH. by rewrite <- app_assoc.
Qed.
Lemma decode_panics l : foldl (λ buf s, out_bind buf (λ buf, match hex_DecodeString s with Ok b => Ret (buf ++ b) | Err _ => Panic end)) Panic l = Panic.
Proof. by induction l. Qed.

(** A line break is not a digit. *)
Lemma split_broken x d : ∃ i w, split x20 (join x20 (hexes (x :: d)) ++ [x0a]) = hexes i ++ [fmt_x [w] ++ [x0a]].
Proof.
  destruct (x :: d) as [| w i _] eqn:E using rev_ind; [done |]. clear E. exists i, w.
  assert (hexes (i ++ [w]) = hexes i ++ [fmt_x [w]]) as -> by (unfold hexes; by rewrite fmap_app).
  assert (Forall (λ x, x20 ∉ x) (hexes i ++ [fmt_x [w] ++ [x0a]])) as Hf.
  { pose proof (hexes_no_blank (i ++ [w])) as Hf. unfold hexes in Hf. rewrite fmap_app in Hf.
    apply Forall_app in Hf as [H1 H2]. apply Forall_app. split; [done |]. apply Forall_singleton. inversion_clear H2 as [| ? ? Hw _].
    rewrite elem_of_app. intros [H | H]; [by apply Hw | by apply list_elem_of_singleton in H]. }
  rewrite <- (split_join x20 (hexes i ++ [fmt_x [w] ++ [x0a]])); [| by destruct (hexes i) | done]. f_equal.
  destruct (hexes i) as [| y l] eqn:El; [done |]. rewrite <- El. rewrite !join_app by (by rewrite ?El). rewrite <- app_assoc. done.
Qed.

(** What ipmitool prints for a response is read back, when it prints a single
    line: the response is the one whose bytes, after the completion code, were
    printed.  With a second line, which the program begins after 16 bytes, the
    client crashes. *)
Theorem responseFromString_printed `{Unmarshal B} (d e : bytes) :
  responseFromString (B := B) (b2s (printed d)) = Ret (unmarshal (CommandCompleted :: d)) ∧
  (d ≠ [] → e ≠ [] → responseFromString (B := B) (b2s (printed d ++ printed e)) = Panic).
Proof.
  unfold responseFromString, rawDecode. rewrite !s2b_b2s. split.
  - destruct d as [| x d]; [done |]. rewrite printed_join. destruct (hexes_ends x d) as (a & m & b & E & Ha & Hb).
    rewrite E. change (x20 :: (a :: m ++ [b]) ++ [x0a]) with ([x20] ++ (a :: m ++ [b]) ++ [x0a]).
    rewrite TrimSpace_ends by (done || by repeat constructor). rewrite <- E.
    rewrite split_join by (done || apply hexes_no_blank). rewrite decode_hexes. done.
  - intros Hd He. destruct d as [| x d]; [done |]. destruct e as [| y e]; [done |]. clear Hd He.
    rewrite !printed_join. destruct (hexes_ends x d) as (a & m & b & E & Ha & Hb). destruct (hexes_ends y e) as (a' & m' & b' & E' & Ha' & Hb').
    rewrite E, E'. replace ((x20 :: (a :: m ++ [b]) ++ [x0a]) ++ x20 :: (a' :: m' ++ [b']) ++ [x0a])
      with ([x20] ++ (a :: (m ++ [b; x0a; x20; a'] ++ m') ++ [b']) ++ [x0a]) by (cbn [app]; rewrite <- ?app_assoc; cbn [app]; rewrite <- ?app_assoc; done).
    rewrite TrimSpace_ends by (done || by repeat constructor).
    replace (a :: (m ++ [b; x0a; x20; a'] ++ m') ++ [b']) with (((a :: m ++ [b]) ++ [x0a]) ++ x20 :: (a' :: m' ++ [b']))
      by (cbn [app]; rewrite <- ?app_assoc; cbn [app]; rewrite <- ?app_assoc; done).
    rewrite split_app, <- E. destruct (split_broken x d) as (i & w & ->). rewrite !foldl_app, decode_hexes.
    destruct (hex_byte_ends w) as (h & l & Ew & _). pose proof (hex_DecodeString_fmt [w]) as Hw. rewrite Ew in Hw.
    rewrite Ew. cbn [foldl app out_bind]. cbn [hex_DecodeString app] in *. destruct (unhex_byte h l); [| done]. cbn [res_bind].
    by rewrite decode_panics.
Qed.
