(* ===== verification/IpmiClient.v ===== *)
(** Clients of the IPMI library, [goipmi/client.go], over a transport
    ([goipmi/transport.go]): a class, with sessions over UDP and the program
    ipmitool as instances.  [recorded] is a transport that remembers what it was
    asked to send, and what came of it. *)

From S2P Require Import Prelude Effects GoBinary IpmiCode IpmiCommand IpmiMessage IpmiLan IpmiTool.
From Stdlib Require Import ZArith Lia.

(** ** Transports *)

(* @vendor/goipmi/transport.go:7-13 transport *)
Class Transport (T : Type) := {
  t_open : eff T ();
  t_close : eff T ();
  t_send : ∀ {A B} `{Marshal A} `{Unmarshal B}, Request A → eff T B
}.

#[global] Instance lan_transport `{!Socket C} : Transport (C * lan) :=
  {| t_open := lan_open; t_close := lan_close; t_send _ _ _ _ := lan_send |}.
(* @vendor/goipmi/tool.go:23-29 tool.open *)
#[global] Instance tool_transport `{!Exec C} : Transport (C * tool) :=
  {| t_open := eret tt; t_close := eret tt; t_send _ _ _ _ := tool_send |}.

(** The one that was chosen. *)
Definition on_either {C T U A} (m : eff (C * T) A) (n : eff (C * U) A) : eff (C * (T + U)) A := λ '(c, t),
  match t with
  | inl t => out_bind (m (c, t)) (λ '(r, (c, t)), Ret (r, (c, inl t)))
  | inr u => out_bind (n (c, u)) (λ '(r, (c, u)), Ret (r, (c, inr u)))
  end.
#[global] Instance either_transport `{!Transport (C * T), !Transport (C * U)} : Transport (C * (T + U)) :=
  {| t_open := on_either t_open t_open; t_close := on_either t_close t_close;
     t_send _ _ _ _ req := on_either (t_send req) (t_send req) |}.

(* @vendor/goipmi/transport.go:15-27 newTransport *)
Definition newTransport (c : Connection) : res (lan + tool) :=
  if decide (Interface c = "lan")%string then
    if decide (Path c = "")%string then Ok (inl (newLanTransport c)) else Ok (inr (newToolTransport c))
  else if decide (Interface c = "lanplus")%string then Ok (inr (newToolTransport c))
  else Err (Errorf ("unsupported interface: " +:+ Interface c)).

(** ** The client *)
(* @vendor/goipmi/client.go:5-9 Client *)
Record Client := { cl_Connection : Connection; cl_transport : lan + tool }.
(* @vendor/goipmi/client.go:11-21 NewClient *)
Definition NewClient (c : Connection) : res Client :=
  t :=? newTransport c;; Ok {| cl_Connection := c; cl_transport := t |}.

Section client.
Context `{!Transport T}.

(* @vendor/goipmi/client.go:23-27 Client.Open *)
Definition Open : eff T () := t_open.
(* @vendor/goipmi/client.go:29-32 Client.Close *)
Definition Close : eff T () := t_close.
(* @vendor/goipmi/client.go:34-38 Client.Send *)
Definition Send {A B} `{Marshal A} `{Unmarshal B} (req : Request A) : eff T B := t_send req.

(* @vendor/goipmi/client.go:40-49 Client.DeviceID *)
Definition DeviceID : eff T DeviceIDResponse :=
  Send {| rq_NetworkFunction := NetworkFunctionApp; rq_Command := CommandGetDeviceID; rq_Data := Build_DeviceIDRequest |}.

(* @vendor/goipmi/client.go:51-61 Client.setBootParam *)
Definition setBootParam (param : byte) (data : bytes) : eff T () :=
  _ :=! Send (B := SetSystemBootOptionsResponse) {| rq_NetworkFunction := NetworkFunctionChassis;
    rq_Command := CommandSetSystemBootOptions; rq_Data := {| sbq_Param := param; sbq_Data := data |} |};;
  eret tt.

(* @vendor/goipmi/client.go:63-96 Client.SetBootDevice *)
Definition SetBootDevice (dev : BootDevice) : eff T () :=
  err :=* setBootParam BootParamSetInProgress [x01];;
  let useProgress := match err with Ok _ => true | Err _ => false end in
  err :=* setBootParam BootParamInfoAck [x01; x01];;
  match err with
  | Err e =>
      _ :=* (if useProgress then setBootParam BootParamSetInProgress [x00] else eret tt);;
      efail e
  | Ok _ =>
      err :=* setBootParam BootParamBootFlags [x80; dev; x00; x00; x00];;
      _ :=* (match err with
             | Ok _ => if useProgress then setBootParam BootParamSetInProgress [x02] else eret tt
             | Err _ => eret tt
             end);;
      _ :=* (if useProgress then setBootParam BootParamSetInProgress [x00] else eret tt);;
      of_res err
  end.

(* @vendor/goipmi/client.go:98-106 Client.Control *)
Definition Control (ctl : ChassisControl) : eff T () :=
  _ :=! Send (B := ChassisControlResponse) {| rq_NetworkFunction := NetworkFunctionChassis; rq_Command := CommandChassisControl;
    rq_Data := {| ccq_ChassisControl := ctl |} |};;
  eret tt.
End client.

(** ** What a client asks for *)

(** A request that was sent, and the error it had. *)
Record sent := { s_NetFn : NetworkFunction; s_Command : Command; s_data : bytes; s_err : option error }.
Definition err_of {A} (r : res A) : option error := match r with Ok _ => None | Err e => Some e end.

#[global] Instance recorded `{!Transport T} : Transport (T * list sent) := {|
  t_open := on_fst t_open; t_close := on_fst t_close;
  t_send _ _ _ _ req := λ '(t, log),
    out_bind (t_send req t) (λ '(r, t),
    Ret (r, (t, log ++ [{| s_NetFn := rq_NetworkFunction req; s_Command := rq_Command req;
                           s_data := messageDataToBytes (rq_Data req); s_err := err_of r |}])))
|}.

(** The dialogue about the boot device, given the outcomes of its requests: it is
    begun (unless the controller does not know how), acknowledged, the device is
    set for the next boot, committed, and ended when it was begun. *)
Definition boot_request (param : byte) (data : bytes) (err : option error) : sent :=
  {| s_NetFn := NetworkFunctionChassis; s_Command := CommandSetSystemBootOptions; s_data := param :: data; s_err := err |}.
Definition boot_script (dev : BootDevice) (begun acked set committed ended : option error) : list sent :=
  boot_request x00 [x01] begun ::
  boot_request x04 [x01; x01] acked ::
  (if decide (acked = None) then
     boot_request x05 [x80; dev; x00; x00; x00] set ::
     (if decide (set = None ∧ begun = None) then [boot_request x00 [x02] committed] else [])
   else []) ++
  (if decide (begun = None) then [boot_request x00 [x00] ended] else []).
Definition boot_result (acked set : option error) : res () :=
  match acked, set with Some e, _ | None, Some e => Err e | None, None => Ok tt end.

Lemma setBootParam_recorded `{!Transport T} param data (t : T) log :
  (setBootParam param data (t, log) = Panic) ∨
  ∃ r t', setBootParam param data (t, log) = Ret (r, (t', log ++ [boot_request param data (err_of r)])).
Proof.
  unfold setBootParam, Send, ebind, ecatch. cbn [t_send recorded].
  destruct (t_send _ t) as [[r t'] |]; cbn [out_bind]; [right | by left].
  destruct r as [r | e]; [exists (Ok tt), t' | exists (Err e), t']; done.
Qed.

(** One request of the dialogue, in a hypothesis. *)
Ltac boot_step E t r :=
  match type of E with context [setBootParam ?p ?d (?x, ?log)] =>
    let E1 := fresh in destruct (setBootParam_recorded p d x log) as [E1 | (r & t & E1)]; rewrite E1 in E; clear E1;
    cbn [out_bind] in E; [done |]
  end.
(** A result without a value. *)
Lemma unit_res (r : res ()) : r = match err_of r with None => Ok tt | Some e => Err e end.
Proof. by destruct r as [[] |]. Qed.

(** C10: setting the boot device is the dialogue, over any transport: whatever the
    controller answers, a change that was begun is ended, the device is asked for
    only after the acknowledgement, the change is committed only when it was
    begun and the device was set; and the caller hears the first error that
    matters. *)
Theorem SetBootDevice_trace `{!Transport T} (dev : BootDevice) (t t' : T) (log log' : list sent) (r : res ()) :
  SetBootDevice dev (t, log) = Ret (r, (t', log')) →
  ∃ begun acked set committed ended,
    log' = log ++ boot_script dev begun acked set committed ended ∧ r = boot_result acked set.
Proof.
  unfold SetBootDevice, ecatch. intros E. unfold boot_script, boot_result.
  boot_step E t1 r1. boot_step E t2 r2. destruct r2 as [u | e].
  - boot_step E t3 r3. exists (err_of r1), None, (err_of r3).
    destruct r3 as [u3 | e3]; destruct r1 as [u1 | e1]; cbn [eret] in E.
    + boot_step E t4 r4. boot_step E t5 r5. exists (err_of r4), (err_of r5). destruct u3. injection E as <- <- <-.
      cbn. by rewrite <- !app_assoc.
    + cbn in E. injection E as <- <- <-. destruct u3. exists None, None. cbn. by rewrite <- !app_assoc.
    + cbn in E. boot_step E t4 r4. injection E as <- <- <-. exists None, (err_of r4). cbn. by rewrite <- !app_assoc.
    + cbn in E. injection E as <- <- <-. exists None, None. cbn. by rewrite <- !app_assoc.
  - exists (err_of r1), (Some e), None, None. destruct r1 as [u1 | e1]; cbn in E.
    + boot_step E t3 r3. cbn in E. injection E as <- <- <-. exists (err_of r3). cbn. by rewrite <- !app_assoc.
    + injection E as <- <- <-. exists None. cbn. by rewrite <- !app_assoc.
Qed.

(** A controller whose answers are known. *)
#[local] Instance scripted : Transport (list (res bytes)) := {|
  t_open := eret tt; t_close := eret tt;
  t_send _ _ _ _ _ := λ answers,
    match answers with
    | [] => Ret (Err ErrTimeout, [])
    | r :: answers => Ret ((b :=? r;; unmarshal b), answers)
    end
|}.
Lemma SetBootDevice_trace_witness :
  ∃ begun acked set committed ended,
    [boot_request x00 [x01] None; boot_request x04 [x01; x01] None; boot_request x05 [x80; x08; x00; x00; x00] (Some ErrTimeout);
     boot_request x00 [x00] (Some ErrTimeout)] = [] ++ boot_script x08 begun acked set committed ended ∧
    Err ErrTimeout = boot_result acked set.
Proof. eapply (SetBootDevice_trace x08 [Ok [x00]; Ok [x00]] []). vm_compute. reflexivity. Defined.
