(* ===== verification/IpmiSim.v ===== *)
(** The simulator of a controller, [goipmi/simulator.go]: a UDP server with
    handlers for the commands of sessions and of the chassis. *)

From S2P Require Import Prelude Effects GoNet GoBinary IpmiCode IpmiCommand IpmiMessage IpmiLan.
From Stdlib Require Import ZArith Lia.

Definition authTypeSupport : byte :=
  z2b (Z.lor (Z.lor (Z.shiftl 1 (b2z AuthTypeNone)) (Z.shiftl 1 (b2z AuthTypeMD5))) (Z.shiftl 1 (b2z AuthTypePassword))).

(** Any value that can be written is a response. *)
(* @vendor/goipmi/command.go:29-32 Response *)
Inductive Response : Type := | Reply {A : Type} {H : Marshal A} (a : A).
Definition response_bytes (r : Response) : bytes := match r with Reply a => messageDataToBytes a end.

(** What the built-in handlers keep. *)
Record memory := { ids : gmap Z string; bopts : list bytes }.
#[global] Instance eta_memory : Eta memory := λ d, {| ids := ids d; bopts := bopts d |}.

(* @vendor/goipmi/simulator.go:16-17 Handler *)
Definition Handler : Type := Message → memory → outcome (Response * memory).

(* @vendor/goipmi/simulator.go:19-27 Simulator *)
Record Simulator := {
  sim_conn : option (IP * Z);        (* where it listens *)
  handlers : gmap NetworkFunction (gmap Command Handler);
  sim_memory : memory
}.
#[global] Instance eta_Simulator : Eta Simulator := λ s,
  {| sim_conn := sim_conn s; handlers := handlers s; sim_memory := sim_memory s |}.

(** ** Handlers *)
(* @vendor/goipmi/simulator.go:104-109 Simulator.chassisStatus *)
Definition chassisStatus : Handler := λ _ d,
  Ret (Reply {| cs_CompletionCode := CommandCompleted; cs_PowerState := SystemPower; cs_LastPowerEvent := x00; cs_State := x00;
                cs_FrontControlPanel := x00 |}, d).

(** An index that is out of range panics. *)
(* @vendor/goipmi/simulator.go:111-123 Simulator.getSystemBootOptions *)
Definition getSystemBootOptions : Handler := λ m d,
  match m_Request (A := SystemBootOptionsRequest) m with
  | inr err => Ret (Reply err, d)
  | inl r =>
      match bopts d !! Z.to_nat (b2z (boq_Param r)) with
      | Some data => Ret (Reply {| bop_CompletionCode := CommandCompleted; bop_Version := x01; bop_Param := boq_Param r; bop_Data := data |}, d)
      | None => Panic
      end
  end.

(* @vendor/goipmi/simulator.go:125-134 Simulator.setSystemBootOptions *)
Definition setSystemBootOptions : Handler := λ m d,
  match m_Request (A := SetSystemBootOptionsRequest) m with
  | inr err => Ret (Reply err, d)
  | inl r =>
      let i := Z.to_nat (b2z (sbq_Param r)) in
      if decide (i < length (bopts d))
      then Ret (Reply (Build_SetSystemBootOptionsResponse x00), d <| bopts := <[i := sbq_Data r]> (bopts d) |>)
      else Panic
  end.

(* @vendor/goipmi/simulator.go:136-141 Simulator.deviceID *)
Definition deviceID : Handler := λ _ d,
  Ret (Reply {| di_CompletionCode := CommandCompleted; di_DeviceID := x00; di_DeviceRevision := x00; di_FirmwareRevision1 := x00;
                di_FirmwareRevision2 := x00; di_IPMIVersion := x51; di_AdditionalDeviceSupport := x00; di_ManufacturerID := 0;
                di_ProductID := 0 |}, d).

(* @vendor/goipmi/simulator.go:143-149 Simulator.authCapabilities *)
Definition authCapabilities : Handler := λ _ d,
  Ret (Reply {| acp_CompletionCode := CommandCompleted; acp_ChannelNumber := x01; acp_AuthTypeSupport := authTypeSupport;
                acp_Status := x00; acp_Reserved := x00; acp_OEMID := 0; acp_OEMAux := x00 |}, d).

(** [bytes.TrimRight] of zeros. *)
Fixpoint drop_nuls (b : bytes) : bytes := match b with x00 :: b => drop_nuls b | _ => b end.
Definition trim_nuls (b : bytes) : bytes := reverse (drop_nuls (reverse b)).

(* @vendor/goipmi/simulator.go:151-170 Simulator.sessionChallenge *)
Definition sessionChallenge : Handler := λ m d,
  match m_Data m with
  | [] => Panic
  | _ :: rest =>
      let username := trim_nuls rest in
      let id := adler32 username in
      Ret (Reply {| scp_CompletionCode := CommandCompleted; scp_TemporarySessionID := id; scp_Challenge := replicate 16 x00 |},
           d <| ids := <[id := b2s username]> (ids d) |>)
  end.

(* @vendor/goipmi/simulator.go:172-180 Simulator.sessionActivate *)
Definition sessionActivate : Handler := λ m d,
  Ret (Reply {| asp_CompletionCode := CommandCompleted; asp_AuthType := AuthType (m_session m); asp_SessionID := SessionID (m_session m);
                asp_InboundSeq := Sequence (m_session m); asp_MaxPriv := PrivLevelAdmin |}, d).

(* @vendor/goipmi/simulator.go:182-187 Simulator.sessionPrivilege *)
Definition sessionPrivilege : Handler := λ m d,
  match m_Data m with
  | [] => Panic
  | p :: _ => Ret (Reply {| spp_CompletionCode := CommandCompleted; spp_NewPrivilegeLevel := p |}, d)
  end.

(* @vendor/goipmi/simulator.go:189-191 Simulator.sessionClose *)
Definition sessionClose : Handler := λ _ d, Ret (Reply CommandCompleted, d).

(** ** The simulator *)
Definition builtin : gmap NetworkFunction (gmap Command Handler) := {[
  NetworkFunctionApp := {[
    CommandGetDeviceID := deviceID;
    CommandGetAuthCapabilities := authCapabilities;
    CommandGetSessionChallenge := sessionChallenge;
    CommandActivateSession := sessionActivate;
    CommandSetSessionPrivilegeLevel := sessionPrivilege;
    CommandCloseSession := sessionClose
  ]};
  NetworkFunctionChassis := {[
    CommandChassisStatus := chassisStatus;
    CommandGetSystemBootOptions := getSystemBootOptions;
    CommandSetSystemBootOptions := setSystemBootOptions
  ]}
]}.
(* @vendor/goipmi/simulator.go:29-55 NewSimulator *)
Definition NewSimulator : Simulator :=
  {| sim_conn := None; handlers := builtin;
     sim_memory := {| ids := ∅; bopts := replicate (S (Z.to_nat (b2z BootParamInitMbox))) [] |} |}.

(** There must be handlers of the function already. *)
(* @vendor/goipmi/simulator.go:57-60 Simulator.SetHandler *)
Definition SetHandler (netfn : NetworkFunction) (command : Command) (handler : Handler) (s : Simulator) : outcome Simulator :=
  match handlers s !! netfn with
  | Some commands => Ret (s <| handlers := <[netfn := <[command := handler]> commands]> (handlers s) |>)
  | None => Panic
  end.

(* @vendor/goipmi/simulator.go:72-78 Simulator.LocalAddr *)
Definition LocalAddr (s : Simulator) : option (IP * Z) := sim_conn s.
(** A simulator that was not started has no address. *)
(* @vendor/goipmi/simulator.go:62-70 Simulator.NewConnection *)
Definition NewConnection (s : Simulator) : outcome Connection :=
  match LocalAddr s with
  | None => Panic
  | Some (ip, port) => Ret {| Path := ""; Hostname := IP_String ip; Port := port; Username := ""; Password := ""; Interface := "lan" |}
  end.

Definition find_handler (s : Simulator) (netfn : NetworkFunction) (command : Command) : option Handler :=
  match handlers s !! netfn with Some commands => commands !! command | None => None end.
(* @vendor/goipmi/simulator.go:193-204 Simulator.ipmiCommand *)
Definition ipmiCommand (m : Message) (s : Simulator) : outcome (bytes * Simulator) :=
  match find_handler s (NetFn m) (ih_Command (m_header m)) with
  | None => Ret (toBytes m (messageDataToBytes CodeInvalidCommand), s)
  | Some handler =>
      let m := m <| m_RequestID := default "" (ids (sim_memory s) !! SessionID (m_session m)) |> in
      out_bind (handler m (sim_memory s)) (λ '(response, d),
      Ret (toBytes m (response_bytes response), s <| sim_memory := d |>))
  end.

(* @vendor/goipmi/simulator.go:206-219 Simulator.asfCommand *)
Definition asfCommand (m : asfMessage) : bytes :=
  let h := am_header m in
  if decide (ah_MessageType h ≠ asfMessageTypePing) then []
  else
    let m := {| am_rmcp := am_rmcp m;
                am_header := {| ah_IANAEnterpriseNumber := ah_IANAEnterpriseNumber h; ah_MessageType := asfMessageTypePong;
                                ah_MessageTag := ah_MessageTag h; ah_Reserved := ah_Reserved h; ah_DataLength := ah_DataLength h |};
                am_Data := am_Data m |} in
    asf_toBytes m (Some {| ap_IANAEnterpriseNumber := asfIANA; ap_OEM := 0; ap_SupportedEntities := x81;
                           ap_SupportedInteractions := x00; ap_Reserved := replicate 6 x00 |}).

(** One datagram: the response, if any.  The buffer is the server's own, and
    keeps what the datagram does not overwrite. *)
(* @vendor/goipmi/simulator.go:228-259 Simulator.serve *)
Definition serve_one (buf packet : bytes) (s : Simulator) : outcome (option bytes * bytes * Simulator) :=
  let n := length (take ipmiBufSize packet) in
  let buf := take ipmiBufSize packet ++ drop n buf in
  match rmcpHeaderFromBytes buf with
  | Err _ => Ret (None, buf, s)
  | Ok header =>
      if decide (rh_Class header = rmcpClassASF) then
        match asfMessageFromBytes buf with
        | Err _ => Ret (None, buf, s)
        | Ok m => Ret (Some (asfCommand m), buf, s)
        end
      else if decide (rh_Class header = rmcpClassIPMI) then
        out_bind (messageFromBytes (take n buf)) (λ r,
        match r with
        | Err _ => Ret (None, buf, s)
        | Ok m => out_bind (ipmiCommand m s) (λ '(response, s), Ret (Some response, buf, s))
        end)
      else Ret (None, buf, s)
  end.

(** The server ends when it cannot write, or when its connection is closed, after
    the last datagram. *)
(* @vendor/goipmi/simulator.go:221-266 Simulator.serve *)
Fixpoint serve_from (buf : bytes) (packets : list (bytes * bool)) (s : Simulator) : outcome (list bytes * Simulator) :=
  match packets with
  | [] => Ret ([], s)
  | (packet, written) :: packets =>
      out_bind (serve_one buf packet s) (λ '(response, buf, s),
      match response with
      | None => serve_from buf packets s
      | Some b =>
          if written then out_bind (serve_from buf packets s) (λ '(bs, s), Ret (b :: bs, s))
          else Ret ([], s)
      end)
  end.
Definition serve : list (bytes * bool) → Simulator → outcome (list bytes * Simulator) := serve_from (replicate ipmiBufSize x00).

(** [listen] is [net.ListenUDP]. *)
(* @vendor/goipmi/simulator.go:80-96 Simulator.Run *)
Definition Run (listen : res (IP * Z)) (s : Simulator) : res Simulator :=
  match listen with Ok addr => Ok (s <| sim_conn := Some addr |>) | Err e => Err e end.

(** ** Which requests crash it *)
Definition serving (d : memory) : Simulator := {| sim_conn := None; handlers := builtin; sim_memory := d |}.

Lemma builtin_app d c : find_handler (serving d) NetworkFunctionApp c =
  if decide (c = CommandGetDeviceID) then Some deviceID else if decide (c = CommandGetAuthCapabilities) then Some authCapabilities
  else if decide (c = CommandGetSessionChallenge) then Some sessionChallenge else if decide (c = CommandActivateSession) then Some sessionActivate
  else if decide (c = CommandSetSessionPrivilegeLevel) then Some sessionPrivilege
  else if decide (c = CommandCloseSession) then Some sessionClose else None.
Proof.
  unfold find_handler. cbn [handlers serving]. unfold builtin. rewrite lookup_insert_eq.
  repeat (case_decide; [subst; done |]). by rewrite !lookup_insert_ne, lookup_singleton_ne by done.
Qed.
Lemma builtin_chassis d c : find_handler (serving d) NetworkFunctionChassis c =
  if decide (c = CommandChassisStatus) then Some chassisStatus
  else if decide (c = CommandGetSystemBootOptions) then Some getSystemBootOptions
  else if decide (c = CommandSetSystemBootOptions) then Some setSystemBootOptions else None.
Proof.
  unfold find_handler. cbn [handlers serving]. unfold builtin. rewrite lookup_insert_ne, lookup_singleton_eq by done.
  repeat (case_decide; [subst; done |]). by rewrite !lookup_insert_ne, lookup_singleton_ne by done.
Qed.
Lemma builtin_other d n c : n ≠ NetworkFunctionApp → n ≠ NetworkFunctionChassis → find_handler (serving d) n c = None.
Proof. intros H1 H2. unfold find_handler. cbn [handlers serving]. unfold builtin. by rewrite lookup_insert_ne, lookup_singleton_ne. Qed.

(** A request that the handler of its command cannot take. *)
Definition crashing (m : Message) (d : memory) : Prop :=
  (NetFn m = NetworkFunctionApp ∧
     (ih_Command (m_header m) = CommandGetSessionChallenge ∨ ih_Command (m_header m) = CommandSetSessionPrivilegeLevel) ∧ m_Data m = []) ∨
  (NetFn m = NetworkFunctionChassis ∧ ih_Command (m_header m) = CommandGetSystemBootOptions ∧
     ∃ r : SystemBootOptionsRequest, m_Request m = inl r ∧ length (bopts d) ≤ Z.to_nat (b2z (boq_Param r))) ∨
  (NetFn m = NetworkFunctionChassis ∧ ih_Command (m_header m) = CommandSetSystemBootOptions ∧
     ∃ r : SetSystemBootOptionsRequest, m_Request m = inl r ∧ length (bopts d) ≤ Z.to_nat (b2z (sbq_Param r))).

Lemma get_crashes m id d : getSystemBootOptions (m <| m_RequestID := id |>) d = Panic ↔
  ∃ r : SystemBootOptionsRequest, m_Request m = inl r ∧ length (bopts d) ≤ Z.to_nat (b2z (boq_Param r)).
Proof.
  unfold getSystemBootOptions. change (m_Request (A := SystemBootOptionsRequest) (m <| m_RequestID := id |>)) with (m_Request (A := SystemBootOptionsRequest) m).
  destruct (m_Request m) as [r | e]; [| naive_solver].
  destruct (bopts d !! Z.to_nat (b2z (boq_Param r))) eqn:E.
  - apply lookup_lt_Some in E. split; [done |]. intros (r' & [= <-] & Hr). lia.
  - apply lookup_ge_None in E. split; [intros _; by exists r | done].
Qed.
Lemma set_crashes m id d : setSystemBootOptions (m <| m_RequestID := id |>) d = Panic ↔
  ∃ r : SetSystemBootOptionsRequest, m_Request m = inl r ∧ length (bopts d) ≤ Z.to_nat (b2z (sbq_Param r)).
Proof.
  unfold setSystemBootOptions. change (m_Request (A := SetSystemBootOptionsRequest) (m <| m_RequestID := id |>)) with (m_Request (A := SetSystemBootOptionsRequest) m).
  destruct (m_Request m) as [r | e]; [| naive_solver]. case_decide as H.
  - split; [done |]. intros (r' & [= <-] & Hr). lia.
  - split; [intros _; exists r; split; [done | lia] | done].
Qed.

Lemma ipmiCommand_Panic m d h : find_handler (serving d) (NetFn m) (ih_Command (m_header m)) = Some h →
  (ipmiCommand m (serving d) = Panic ↔
   h (m <| m_RequestID := default "" (ids d !! SessionID (m_session m)) |>) d = Panic).
Proof.
  intros E. unfold ipmiCommand. rewrite E. cbn [sim_memory serving].
  destruct (h _ d) as [[r d'] |]; cbn [out_bind]; split; done.
Qed.

(** The numbers of functions and commands. *)
Ltac numbers := unfold NetworkFunctionApp, NetworkFunctionChassis, CommandGetDeviceID, CommandGetAuthCapabilities, CommandGetSessionChallenge,
  CommandActivateSession, CommandSetSessionPrivilegeLevel, CommandCloseSession, CommandChassisStatus, CommandGetSystemBootOptions,
  CommandSetSystemBootOptions in *.

(** C37: exactly these requests crash the simulator, of all messages: a challenge
    or a privilege level without data, and a boot option that is not one of the
    eight it has (of a request that is otherwise in order). *)
Theorem ipmiCommand_crashes (m : Message) (d : memory) : ipmiCommand m (serving d) = Panic ↔ crashing m d.
Proof.
  destruct (decide (NetFn m = NetworkFunctionApp)) as [Hn | Hn]; [| destruct (decide (NetFn m = NetworkFunctionChassis)) as [Hn2 | Hn2]].
  - pose proof (builtin_app d (ih_Command (m_header m))) as Hh. rewrite <- Hn in Hh at 1. unfold crashing. rewrite Hn.
    repeat (let Hc := fresh "Hc" in case_decide as Hc; [rewrite (ipmiCommand_Panic _ _ _ Hh), Hc; unfold sessionChallenge, sessionPrivilege;
      cbn; try destruct (m_Data m); numbers; naive_solver |]).
    unfold ipmiCommand. rewrite Hh. split; [done |]. numbers. intros H. exfalso. intuition congruence.
  - pose proof (builtin_chassis d (ih_Command (m_header m))) as Hh. rewrite <- Hn2 in Hh at 1. unfold crashing. rewrite Hn2.
    case_decide as H1; [rewrite (ipmiCommand_Panic _ _ _ Hh), H1; unfold chassisStatus; numbers; naive_solver |].
    case_decide as H2; [rewrite (ipmiCommand_Panic _ _ _ Hh), get_crashes, H2; numbers; naive_solver |].
    case_decide as H3; [rewrite (ipmiCommand_Panic _ _ _ Hh), set_crashes, H3; numbers; naive_solver |].
    unfold ipmiCommand. rewrite Hh. split; [done |]. numbers. intros H. exfalso. intuition congruence.
  - unfold ipmiCommand. rewrite builtin_other by done. unfold crashing. naive_solver.
Qed.

(** A datagram of a single byte, after a ping: the simulator answers the ping
    again, since the rest of its buffer is still there. *)
Definition ex_ping : bytes := [x06; x00; xff; x06; x00; x00; x11; xbe; x80; x00; x00; x00].
Example stale_datagram :
  match serve [(ex_ping, true); ([x06], true)] NewSimulator with
  | Ret ([a; b], _) => bool_decide (a = b ∧ length a = 28)
  | _ => false
  end = true.
Proof. vm_compute. reflexivity. Qed.
