(* ===== verification/IpmiBmc.v ===== *)
(** A client of the IPMI library and the simulator, end to end: what a session
    does to the simulator, over a network that loses nothing. *)

From S2P Require Import Prelude Effects GoNet GoBinary IpmiCode IpmiCommand IpmiMessage IpmiLan IpmiTool IpmiClient IpmiSim.
From Stdlib Require Import ZArith Lia.

(** The network: the server with its buffer, unless it crashed, what it has
    answered, and the random numbers of the client. *)
Record world := { w_server : outcome (bytes * Simulator); w_inbox : list bytes; w_random : byte * byte * byte * byte }.

Definition deliver (packet : bytes) (w : world) : world :=
  match w_server w with
  | Panic => w
  | Ret (buf, s) =>
      match serve_one buf packet s with
      | Panic => {| w_server := Panic; w_inbox := w_inbox w; w_random := w_random w |}
      | Ret (response, buf, s) =>
          {| w_server := Ret (buf, s); w_inbox := w_inbox w ++ match response with Some b => [b] | None => [] end; w_random := w_random w |}
      end
  end.

#[global] Instance world_socket : Socket world := {|
  sock_dial _ w := (Ok tt, w);
  sock_write packet w := (Ok tt, deliver packet w);
  sock_deadline _ w := (Ok tt, w);
  sock_read n w :=
    match w_inbox w with
    | [] => (Err ErrTimeout, w)
    | b :: inbox => (Ok (take n b), {| w_server := w_server w; w_inbox := inbox; w_random := w_random w |})
    end;
  sock_close w := (Ok tt, w);
  rand_read w := (Ok (w_random w), w)
|}.

(** The simulator is waiting for a datagram. *)
Definition waiting (buf : bytes) (s : Simulator) (rnd : byte * byte * byte * byte) : world :=
  {| w_server := Ret (buf, s); w_inbox := []; w_random := rnd |}.

(** ** Datagrams *)
Lemma length_toBytes m d : message_ok m → length (toBytes m d) ≤ 37 + length d.
Proof.
  intros [Hs Hc]. rewrite toBytes_parts, !length_app, length_session_bytes by done. unfold signed, rmcpHeaderSize, ipmiSessionSize.
  cbn [length app]. rewrite length_app. cbn [length]. case_decide; [rewrite Hc by done | cbn [length]]; lia.
Qed.
Lemma rmcpHeader_toBytes m d rest : rmcpHeaderFromBytes (toBytes m d ++ rest) = Ok (m_rmcp m).
Proof. unfold toBytes. cbn. by destruct (m_rmcp m). Qed.

Lemma take_buf (b : bytes) : length b ≤ 1024 → take ipmiBufSize b = b.
Proof. intros H. by apply take_ge. Qed.

Lemma serve_message buf m m' d s response s' : message_ok m → rh_Class (m_rmcp m) = rmcpClassIPMI → length d ≤ 248 → length buf = 1024 →
  messageFromBytes (toBytes m d) = Ret (Ok m') → ipmiCommand m' s = Ret (response, s') →
  ∃ buf', length buf' = 1024 ∧ serve_one buf (toBytes m d) s = Ret (Some response, buf', s').
Proof.
  intros Hm Hc Hd Hb Hr Hi. pose proof (length_toBytes m d Hm) as Hl. unfold serve_one. rewrite take_buf by lia.
  exists (toBytes m d ++ drop (length (toBytes m d)) buf). split; [rewrite length_app, length_drop; lia |].
  rewrite rmcpHeader_toBytes, Hc. rewrite decide_False by done. rewrite decide_True by done. rewrite take_app_length, Hr. cbn [out_bind].
  by rewrite Hi.
Qed.

(** ** One request and its response *)
Lemma recvPacket_got srv b inbox rnd l : conn l = true → length b ≤ 1024 →
  recvPacket ({| w_server := srv; w_inbox := b :: inbox; w_random := rnd |}, l) =
    Ret (Ok b, ({| w_server := srv; w_inbox := inbox; w_random := rnd |}, l)).
Proof.
  intros Hc Hb. unfold recvPacket, ebind, ecatch, gets, on_conn. cbn [out_bind]. rewrite Hc. cbn [io sock_deadline world_socket out_bind].
  rewrite Hc. cbn [io sock_read world_socket out_bind w_inbox]. by rewrite take_buf.
Qed.

Lemma exchange `{Marshal A} `{Codec B} (req : Request A) (h : Handler) (r : Response) (b : B) d' buf s rnd l :
  lan_ok l → conn l = true → length buf = 1024 →
  (b2z (rq_NetworkFunction req) < 64)%Z → length (messageDataToBytes (rq_Data req)) ≤ 248 →
  find_handler s (rq_NetworkFunction req) (rq_Command req) = Some h →
  (∀ m, m_Data m = messageDataToBytes (rq_Data req) → m_session m = packet_session (next_lan l) →
        h m (sim_memory s) = Ret (r, d')) →
  response_bytes r = messageDataToBytes b → codec_ok b → head (messageDataToBytes b) = Some CommandCompleted →
  length (messageDataToBytes b) ≤ 248 →
  ∃ buf', length buf' = 1024 ∧
    lan_send (B := B) req (waiting buf s rnd, l) = Ret (Ok b, (waiting buf' (s <| sim_memory := d' |>) rnd, next_lan l)).
Proof.
  intros Hl Hco Hb Hnf Hd Hh Hrun Hrb Hok Hhd Hlen.
  destruct (next_lan_keeps l Hl) as (Hl' & Hact & Hco' & _). pose proof (message_received req l Hl Hd) as Hrcv.
  unfold lan_send, ebind at 1, ecatch at 1. rewrite message_packet in Hrcv |- * by done. cbn [fst] in Hrcv.
  set (d := messageDataToBytes (rq_Data req)) in *.
  set (P := packet _ _ _ _) in *.
  assert (message_ok P) as HP by (apply packet_ok; [by apply packet_session_ok | apply Hl]).
  assert (ih_Command (m_header P) = rq_Command req) as Hcmd by done.
  assert (NetFn P = rq_NetworkFunction req) as Hfn by by apply NetFn_lun.
  assert (m_Data P = d) as HPd by done. assert (m_session P = packet_session (next_lan l)) as HPs by done.
  assert (m_rmcp P = Build_rmcpHeader rmcpVersion1 x00 xff rmcpClassIPMI) as HPr by done. clearbody P.
  set (rid := default "" (ids (sim_memory s) !! SessionID (m_session P))).
  assert (ipmiCommand P s = Ret (toBytes (P <| m_RequestID := rid |>) (messageDataToBytes b), s <| sim_memory := d' |>)) as Hi.
  { unfold ipmiCommand. rewrite Hfn, Hcmd, Hh. fold rid. rewrite Hrun by done. cbn [out_bind]. by rewrite Hrb. }
  destruct (serve_message buf P P d s _ _ HP ltac:(by rewrite HPr) Hd Hb Hrcv Hi) as (buf' & Hb' & Hs).
  unfold sendPacket, on_conn. rewrite Hco', Hco. unfold io. cbn [sock_write world_socket out_bind].
  unfold deliver. cbn [w_server waiting]. rewrite Hs. cbn [w_inbox waiting app].
  set (Q := P <| m_RequestID := rid |>) in *. assert (message_ok Q) as HQ by exact HP.
  assert (rh_Class (m_rmcp Q) = rmcpClassIPMI) as HQr by (change (m_rmcp Q) with (m_rmcp P); by rewrite HPr).
  pose proof (length_toBytes Q (messageDataToBytes b) HQ) as HlQ.
  exists buf'. split; [done |]. unfold recvMessage, ebind, ecatch. cbn [out_bind].
  rewrite recvPacket_got by (rewrite ?Hco'; done || lia). cbn [out_bind]. rewrite <- (app_nil_r (toBytes Q _)), rmcpHeader_toBytes, app_nil_r. cbn [of_res out_bind].
  rewrite HQr. rewrite decide_False by (intros X; by apply X).
  unfold of_outcome. rewrite messageFromBytes_written by done. cbn [out_bind]. by rewrite (m_Response_data _ b).
Qed.

Lemma fixed_length `{Fixed A} (a : A) : l_ok layout_of a → length (messageDataToBytes a) = l_size layout_of.
Proof. apply l_put_size. Qed.

(** C31: a client takes the first datagram it reads for the response to its
    request.  Whatever it asks, and whichever command, request number, session or
    authentication code the waiting datagram has (that of an answer which was given
    up, or of anyone who can write to the port), its data are what the request
    returns. *)
Theorem reply_is_not_matched `{Codec B} `{Marshal A} (req : Request A) (m : Message) (b : B) (w : world) (inbox : list bytes) (l : lan) :
  lan_ok l → conn l = true → w_inbox w = toBytes m (messageDataToBytes b) :: inbox →
  message_ok m → rh_Class (m_rmcp m) = rmcpClassIPMI → codec_ok b → head (messageDataToBytes b) = Some CommandCompleted →
  length (messageDataToBytes b) ≤ 248 →
  ∃ w', lan_send (B := B) req (w, l) = Ret (Ok b, (w', next_lan l)).
Proof.
  intros Hl Hc Hin Hm Hcl Hok Hhd Hlen. destruct (next_lan_keeps l Hl) as (_ & _ & Hc' & _).
  pose proof (length_toBytes m (messageDataToBytes b) Hm) as Hlm.
  unfold lan_send, ebind at 1, ecatch at 1. rewrite message_packet by done. cbv zeta. unfold sendPacket, on_conn.
  rewrite Hc', Hc. cbn [io sock_write world_socket out_bind]. set (w1 := deliver _ w).
  assert (∃ inbox', w_inbox w1 = toBytes m (messageDataToBytes b) :: inbox') as [inbox' Hw1].
  { unfold w1, deliver. destruct (w_server w) as [[buf s] |]; [| by exists inbox].
    destruct (serve_one buf _ s) as [[[r buf'] s'] |]; [| by exists inbox].
    cbn [w_inbox]. rewrite Hin. by eexists. }
  clearbody w1. destruct w1 as [srv ib rnd]. cbn [w_inbox] in Hw1. subst ib. eexists.
  unfold recvMessage, ebind, ecatch. rewrite recvPacket_got by (rewrite ?Hc'; done || lia).
  cbn [out_bind]. rewrite <- (app_nil_r (toBytes m _)), rmcpHeader_toBytes, app_nil_r. cbn [of_res out_bind].
  rewrite Hcl. rewrite decide_False by (intros X; by apply X).
  unfold of_outcome. rewrite messageFromBytes_written by done. cbn [out_bind]. by rewrite (m_Response_data _ b).
Qed.
(** The answer to a request for a session's end, as that to a command of the chassis. *)
Lemma reply_is_not_matched_witness :
  ∃ w', lan_send (B := ChassisControlResponse) {| rq_NetworkFunction := NetworkFunctionChassis; rq_Command := CommandChassisControl;
      rq_Data := {| ccq_ChassisControl := x01 |} |}
    ({| w_server := Panic; w_inbox := [toBytes ex_message [x00]]; w_random := (x00, x01, x02, x03) |}, ex_lan)
    = Ret (Ok (Build_ChassisControlResponse x00), (w', next_lan ex_lan)).
Proof.
  apply (reply_is_not_matched _ ex_message (Build_ChassisControlResponse x00) _ []); try done; vm_compute; lia.
Defined.

(** ** Opening a session *)
Section client.
Context (rnd : byte * byte * byte * byte).

(** A session in a state that can send. *)
Definition at_work (l : lan) : Prop := lan_ok l ∧ conn l = true.
Lemma next_at_work l : at_work l → at_work (next_lan l).
Proof. intros [Hl Hc]. destruct (next_lan_keeps l Hl) as (Hl' & _ & Hc' & _). split; [done | by rewrite Hc']. Qed.

(** The exchange with a built-in handler. *)
Lemma exchange_builtin `{Marshal A} `{Codec B} (req : Request A) (h : Handler) (b : B) d d' buf l :
  at_work l → length buf = 1024 →
  (b2z (rq_NetworkFunction req) < 64)%Z → length (messageDataToBytes (rq_Data req)) ≤ 248 →
  find_handler (serving d) (rq_NetworkFunction req) (rq_Command req) = Some h →
  (∀ m, m_Data m = messageDataToBytes (rq_Data req) → m_session m = packet_session (next_lan l) → h m d = Ret (Reply b, d')) →
  codec_ok b → head (messageDataToBytes b) = Some CommandCompleted → length (messageDataToBytes b) ≤ 248 →
  ∃ buf', length buf' = 1024 ∧
    lan_send (B := B) req (waiting buf (serving d) rnd, l) = Ret (Ok b, (waiting buf' (serving d') rnd, next_lan l)).
Proof.
  intros [Hl Hc] Hb Hnf Hd Hh Hrun Hok Hhd Hlen.
  by apply (exchange req h (Reply b) b d' buf (serving d) rnd l Hl Hc Hb Hnf Hd Hh Hrun eq_refl Hok Hhd Hlen).
Qed.

Lemma ping_answered buf d l : at_work l → length buf = 1024 →
  ∃ buf', length buf' = 1024 ∧ ping (waiting buf (serving d) rnd, l) = Ret (Ok tt, (waiting buf' (serving d) rnd, l)).
Proof.
  intros [Hl Hc] Hb. set (p := [x06; x00; xff; x06; x00; x00; x11; xbe; x80; x00; x00; x00] : bytes).
  exists (p ++ drop 12 buf). split; [rewrite length_app, length_drop, Hb; done |].
  unfold ping, ebind, ecatch, sendPacket, on_conn. rewrite Hc. cbn [io sock_write world_socket].
  change (asf_toBytes _ None) with p.
  unfold deliver. cbn [w_server waiting].
  assert (serve_one buf p (serving d) = Ret (Some
    [x06; x00; xff; x06; x00; x00; x11; xbe; x40; x00; x00; x00; x00; x00; x11; xbe; x00; x00; x00; x00; x81; x00; x00; x00; x00; x00; x00; x00],
    p ++ drop 12 buf, serving d)) as ->.
  { unfold serve_one. change (take ipmiBufSize p) with p. change (length p) with 12. unfold p. cbn [app rmcpHeaderFromBytes].
    rewrite decide_True by done. unfold asfMessageFromBytes.
    rewrite decide_False by (cbn [length]; unfold rmcpHeaderSize, asfHeaderSize; lia). cbn. done. }
  cbn [out_bind w_inbox waiting app]. rewrite recvPacket_got by (done || cbn; lia). done.
Qed.

(** The state of a session: active or not, the way it is authenticated and its
    identifier. *)
Definition session_is (l : lan) (a : bool) (t : byte) (i : Z) : Prop :=
  at_work l ∧ active l = a ∧ AuthType (l_session l) = t ∧ SessionID (l_session l) = i.
Lemma session_is_next l a t i : session_is l a t i → session_is (next_lan l) a t i.
Proof.
  intros (Hw & <- & <- & <-). destruct (next_lan_keeps l (proj1 Hw)) as (_ & Ha & _ & _ & _ & _ & _ & Ht & Hi & _).
  split; [by apply next_at_work | done].
Qed.
Lemma next_user l : at_work l → username (next_lan l) = username l ∧ priv (next_lan l) = priv l.
Proof. intros [Hl _]. destruct (next_lan_keeps l Hl) as (_ & _ & _ & _ & Hu & Hp & _). done. Qed.

Lemma getAuthCapabilities_answered d buf l t i : session_is l false t i → length buf = 1024 →
  ∃ buf' l', length buf' = 1024 ∧ session_is l' false AuthTypeMD5 i ∧ username l' = username l ∧ priv l' = priv l ∧
    getAuthCapabilities (waiting buf (serving d) rnd, l) = Ret (Ok tt, (waiting buf' (serving d) rnd, l')).
Proof.
  intros Hs Hb. pose proof (session_is_next _ _ _ _ Hs) as (Hw' & Ha' & _ & Hi'). destruct (next_user l (proj1 Hs)) as [Hu Hp].
  edestruct (exchange_builtin (B := AuthCapabilitiesResponse) {| rq_NetworkFunction := NetworkFunctionApp; rq_Command := CommandGetAuthCapabilities;
    rq_Data := {| acq_ChannelNumber := x0e; acq_PrivLevel := priv l |} |} authCapabilities
    (Build_AuthCapabilitiesResponse CommandCompleted x01 authTypeSupport x00 x00 0 x00) d d buf l (proj1 Hs) Hb) as (buf' & Hb' & E);
    try done; [vm_compute; lia | vm_compute; lia |].
  exists buf', ((next_lan l) <| l_session := (l_session (next_lan l)) <| AuthType := AuthTypeMD5 |> |>).
  split; [done |]. split.
  { split; [| done]. destruct Hw' as [((? & Hq & Hid) & Hl) Hc]. split; [split; [by split | done] | done]. }
  split; [done |]. split; [done |]. unfold getAuthCapabilities, ebind, ecatch. cbn [gets out_bind id]. by rewrite E.
Qed.

Lemma getSessionChallenge_answered d buf l i : session_is l false AuthTypeMD5 i → length buf = 1024 →
  let name := trim_nuls (username l) in
  ∃ buf' l' sc, length buf' = 1024 ∧ session_is l' false AuthTypeMD5 (adler32 name) ∧ priv l' = priv l ∧ scp_Challenge sc = replicate 16 x00 ∧
    getSessionChallenge (waiting buf (serving d) rnd, l) =
      Ret (Ok sc, (waiting buf' (serving (d <| ids := <[adler32 name := b2s name]> (ids d) |>)) rnd, l')).
Proof.
  intros Hs Hb name. pose proof (session_is_next _ _ _ _ Hs) as (Hw' & Ha' & Ht' & Hi'). destruct (next_user l (proj1 Hs)) as [_ Hp].
  edestruct (exchange_builtin (B := SessionChallengeResponse) {| rq_NetworkFunction := NetworkFunctionApp; rq_Command := CommandGetSessionChallenge;
    rq_Data := {| scq_AuthType := AuthType (l_session l); scq_Username := username l |} |} sessionChallenge
    (Build_SessionChallengeResponse CommandCompleted (adler32 name) (replicate 16 x00)) d (d <| ids := <[adler32 name := b2s name]> (ids d) |>)
    buf l (proj1 Hs) Hb) as (buf' & Hb' & E).
  { done. }
  { rewrite fixed_length; [cbn; lia |]. split; [done |]. apply Hs. }
  { done. }
  { intros m Hm _. unfold sessionChallenge. rewrite Hm. done. }
  { split; [done |]. split; [apply adler32_fits | done]. }
  { done. }
  { vm_compute; lia. }
  exists buf', ((next_lan l) <| l_session := (l_session (next_lan l)) <| SessionID := adler32 name |> |>), (Build_SessionChallengeResponse CommandCompleted (adler32 name) (replicate 16 x00)).
  split; [done |]. split.
  { split; [| done]. destruct Hw' as [((? & Hq & Hid) & Hl) Hc]. split; [split; [split; [done |]; split; [done | apply adler32_fits] | done] | done]. }
  split; [done |]. split; [done |]. unfold getSessionChallenge, ebind, ecatch. cbn [gets out_bind id]. by rewrite E.
Qed.

Lemma inSeq_random w l : inSeq (w, l) = Ret (Ok (let '(a, b, c, e) := w_random w in [a; b; c; e]), (w, l)).
Proof. unfold inSeq, ecatch, io. cbn [rand_read world_socket out_bind]. by destruct (w_random w) as [[[? ?] ?] ?]. Qed.

Lemma activateSession_answered d buf l i sc : session_is l false AuthTypeMD5 i → length buf = 1024 → length (scp_Challenge sc) = 16 →
  ∃ buf' l', length buf' = 1024 ∧ session_is l' true AuthTypeMD5 i ∧ priv l' = priv l ∧
    activateSession sc (waiting buf (serving d) rnd, l) = Ret (Ok tt, (waiting buf' (serving d) rnd, l')).
Proof.
  intros Hs Hb Hc. set (l1 := l <| active := true |>).
  assert (session_is l1 true AuthTypeMD5 i) as H1.
  { destruct Hs as ([(Hl & Hk & Hu & _) Hco] & _ & Ht & Hi). split; [by split | done]. }
  pose proof (session_is_next _ _ _ _ H1) as (Hw' & Ha' & Ht' & Hi'). destruct (next_user l1 (proj1 H1)) as [_ Hp].
  set (s := packet_session (next_lan l1)). assert (l_ok ipmiSession_layout s) as (_ & Hq & Hid) by apply packet_session_ok, Hw'.
  set (seq := let '(a, b, c, e) := rnd in [a; b; c; e] : bytes). assert (length seq = 4) as Hlseq by (unfold seq; by destruct rnd as [[[? ?] ?] ?]).
  edestruct (exchange_builtin (B := ActivateSessionResponse) {| rq_NetworkFunction := NetworkFunctionApp; rq_Command := CommandActivateSession;
    rq_Data := {| asq_AuthType := AuthType (l_session l); asq_PrivLevel := priv l; asq_AuthCode := scp_Challenge sc; asq_InSeq := seq |} |} sessionActivate
    (Build_ActivateSessionResponse CommandCompleted (AuthType s) (SessionID s) (Sequence s) PrivLevelAdmin) d d buf l1 (proj1 H1) Hb)
    as (buf' & Hb' & E).
  { done. }
  { rewrite fixed_length; [cbn; lia | done]. }
  { done. }
  { intros m _ Hm. unfold sessionActivate. by rewrite Hm. }
  { done. }
  { done. }
  { rewrite fixed_length; [cbn; lia | done]. }
  exists buf', ((next_lan l1) <| l_session := {| AuthType := AuthType s; Sequence := Sequence s; SessionID := SessionID s |} |>).
  assert (AuthType s = AuthTypeMD5) as Hst.
  { change (AuthType s) with (if active (next_lan l1) then AuthType (l_session (next_lan l1)) else x00). by rewrite Ha'. }
  split; [done |]. split; [split; [| done] |].
  { destruct Hw' as [(_ & Hk & Hu & Hac) Hco]. by split. }
  split; [done |]. unfold activateSession, ebind, ecatch. cbn [gets out_bind]. rewrite inSeq_random. cbn [out_bind w_random waiting modify].
  fold seq. fold l1. unfold id. by rewrite E.
Qed.

Lemma setSessionPriv_answered d buf l t i : session_is l true t i → length buf = 1024 →
  ∃ buf' l', length buf' = 1024 ∧ session_is l' true t i ∧
    setSessionPriv (waiting buf (serving d) rnd, l) = Ret (Ok tt, (waiting buf' (serving d) rnd, l')).
Proof.
  intros Hs Hb. pose proof (session_is_next _ _ _ _ Hs) as Hn.
  edestruct (exchange_builtin (B := SessionPrivilegeLevelResponse) {| rq_NetworkFunction := NetworkFunctionApp;
    rq_Command := CommandSetSessionPrivilegeLevel; rq_Data := {| spq_PrivLevel := priv l |} |} sessionPrivilege
    (Build_SessionPrivilegeLevelResponse CommandCompleted (priv l)) d d buf l (proj1 Hs) Hb) as (buf' & Hb' & E).
  { done. }
  { vm_compute; lia. }
  { done. }
  { intros m Hm _. unfold sessionPrivilege. by rewrite Hm. }
  { done. }
  { done. }
  { vm_compute; lia. }
  exists buf', ((next_lan l) <| priv := priv l |>). split; [done |]. split; [exact Hn |].
  unfold setSessionPriv, ebind, ecatch. cbn [gets out_bind id]. by rewrite E.
Qed.

(** The name the simulator knows a user by. *)
Definition user_of (c : Connection) : bytes := trim_nuls (fixed16 (Username c)).
Definition known (c : Connection) (d : memory) : memory := d <| ids := <[adler32 (user_of c) := b2s (user_of c)]> (ids d) |>.

Lemma open_answered c d buf : length buf = 1024 →
  ∃ buf' l', length buf' = 1024 ∧ session_is l' true AuthTypeMD5 (adler32 (user_of c)) ∧
    lan_open (waiting buf (serving d) rnd, newLanTransport c) = Ret (Ok tt, (waiting buf' (serving (known c d)) rnd, l')).
Proof.
  intros Hb. set (l0 := (newLanTransport c) <| conn := true |> <| priv := PrivLevelAdmin |> <| timeout := 5%Z |> <| lun := x00 |>).
  assert (session_is l0 false x00 0) as H0.
  { split; [| done]. destruct (newLanTransport_ok c) as (? & ? & ? & _). by split. }
  destruct (ping_answered buf d l0 (proj1 H0) Hb) as (buf1 & Hb1 & E1).
  destruct (getAuthCapabilities_answered d buf1 l0 x00 0 H0 Hb1) as (buf2 & l2 & Hb2 & H2 & Hu2 & _ & E2).
  destruct (getSessionChallenge_answered d buf2 l2 0 H2 Hb2) as (buf3 & l3 & sc & Hb3 & H3 & _ & Hsc & E3).
  rewrite Hu2 in H3, E3. fold (user_of c) in H3, E3.
  change (getSessionChallenge (waiting buf2 (serving d) rnd, l2) = Ret (Ok sc, (waiting buf3 (serving (known c d)) rnd, l3))) in E3.
  destruct (activateSession_answered (known c d) buf3 l3 _ sc H3 Hb3) as (buf4 & l4 & Hb4 & H4 & _ & E4); [by rewrite Hsc |].
  destruct (setSessionPriv_answered (known c d) buf4 l4 _ _ H4 Hb4) as (buf5 & l5 & Hb5 & H5 & E5).
  exists buf5, l5. split; [done |]. split; [done |]. unfold lan_open, ebind, ecatch. unfold dial, ebind, ecatch.
  cbn [gets out_bind io sock_dial world_socket modify]. fold l0. unfold openSession, ebind, ecatch.
  rewrite E1. cbn [out_bind]. rewrite E2. cbn [out_bind]. rewrite E3. cbn [out_bind].
  rewrite E4. cbn [out_bind]. by rewrite E5.
Qed.

(** ** The boot device *)
Lemma setBootParam_answered d buf l a t i param data : session_is l a t i → length buf = 1024 →
  codec_ok (Build_SetSystemBootOptionsRequest param data) → length data ≤ 200 → Z.to_nat (b2z param) < length (bopts d) →
  ∃ buf' l', length buf' = 1024 ∧ session_is l' a t i ∧
    setBootParam param data (waiting buf (serving d) rnd, l) =
      Ret (Ok tt, (waiting buf' (serving (d <| bopts := <[Z.to_nat (b2z param) := data]> (bopts d) |>)) rnd, l')).
Proof.
  intros Hs Hb Hok Hd Hp.
  edestruct (exchange_builtin (B := SetSystemBootOptionsResponse) {| rq_NetworkFunction := NetworkFunctionChassis;
    rq_Command := CommandSetSystemBootOptions; rq_Data := {| sbq_Param := param; sbq_Data := data |} |} setSystemBootOptions
    (Build_SetSystemBootOptionsResponse x00) d (d <| bopts := <[Z.to_nat (b2z param) := data]> (bopts d) |>) buf l (proj1 Hs) Hb)
    as (buf' & Hb' & E).
  { done. }
  { change (S (length data) ≤ 248). lia. }
  { done. }
  { intros m Hm _. unfold setSystemBootOptions. rewrite (m_Request_data m _ Hok Hm). cbn [sbq_Param sbq_Data].
    by rewrite decide_True. }
  { done. }
  { done. }
  { vm_compute; lia. }
  exists buf', (next_lan l). split; [done |]. split; [by apply session_is_next |].
  unfold setBootParam, Send, ebind, ecatch. cbn [t_send lan_transport]. by rewrite E.
Qed.

(** What the simulator remembers of a boot device. *)
Definition boot_flags (dev : BootDevice) : bytes := [x80; dev; x00; x00; x00].
Definition boot_set (dev : BootDevice) (d : memory) : memory :=
  d <| bopts := <[0 := [x00]]> (<[5 := boot_flags dev]> (<[4 := [x01; x01]]> (bopts d))) |>.

Lemma boot_set_bopts dev d : length (bopts d) = 8 →
  bopts (boot_set dev d) !! 5 = Some (boot_flags dev) ∧ bopts (boot_set dev d) !! 0 = Some [x00].
Proof.
  intros Hd. change (bopts (boot_set dev d)) with (<[0 := [x00]]> (<[5 := boot_flags dev]> (<[4 := [x01; x01]]> (bopts d)))).
  generalize dependent (bopts d). by intros [| ? [| ? [| ? [| ? [| ? [| ? ?]]]]]].
Qed.

Lemma SetBootDevice_answered d buf l a t i dev : session_is l a t i → length buf = 1024 → length (bopts d) = 8 →
  ∃ buf' l', length buf' = 1024 ∧ session_is l' a t i ∧
    SetBootDevice dev (waiting buf (serving d) rnd, l) = Ret (Ok tt, (waiting buf' (serving (boot_set dev d)) rnd, l')).
Proof.
  intros H0 Hb0 Hd.
  destruct (setBootParam_answered d buf l a t i BootParamSetInProgress [x01] H0 Hb0) as (buf1 & l1 & Hb1 & H1 & E1); [split; [done | vm_compute; lia] | simpl; lia | cbn; lia |].
  set (d1 := d <| bopts := _ |>) in E1.
  destruct (setBootParam_answered d1 buf1 l1 a t i BootParamInfoAck [x01; x01] H1 Hb1) as (buf2 & l2 & Hb2 & H2 & E2); [split; [done | vm_compute; lia] | simpl; lia | cbn; rewrite length_insert; lia |].
  set (d2 := d1 <| bopts := _ |>) in E2.
  destruct (setBootParam_answered d2 buf2 l2 a t i BootParamBootFlags (boot_flags dev) H2 Hb2) as (buf3 & l3 & Hb3 & H3 & E3); [split; [done | vm_compute; lia] | simpl; lia | cbn; rewrite !length_insert; lia |].
  set (d3 := d2 <| bopts := _ |>) in E3.
  destruct (setBootParam_answered d3 buf3 l3 a t i BootParamSetInProgress [x02] H3 Hb3) as (buf4 & l4 & Hb4 & H4 & E4); [split; [done | vm_compute; lia] | simpl; lia | cbn; rewrite !length_insert; lia |].
  set (d4 := d3 <| bopts := _ |>) in E4.
  destruct (setBootParam_answered d4 buf4 l4 a t i BootParamSetInProgress [x00] H4 Hb4) as (buf5 & l5 & Hb5 & H5 & E5); [split; [done | vm_compute; lia] | simpl; lia | cbn; rewrite !length_insert; lia |].
  set (d5 := d4 <| bopts := _ |>) in E5.
  exists buf5, l5. split; [done |]. split; [done |].
  assert (boot_set dev d = d5) as ->.
  { unfold d5, d4, d3, d2, d1, boot_set. cbn. f_equal.
    by destruct (bopts d) as [| ? [| ? [| ? [| ? [| ? [| ? ?]]]]]]. }
  unfold SetBootDevice, ecatch. fold (boot_flags dev). rewrite E1. cbn [out_bind]. rewrite E2. cbn [out_bind]. rewrite E3. cbn [out_bind].
  rewrite E4. cbn [out_bind]. by rewrite E5.
Qed.

Lemma boot_options_answered d buf l a t i dev : session_is l a t i → length buf = 1024 → length (bopts d) = 8 →
  ∃ buf' l', length buf' = 1024 ∧ session_is l' a t i ∧
    lan_send (B := SystemBootOptionsResponse) {| rq_NetworkFunction := NetworkFunctionChassis; rq_Command := CommandGetSystemBootOptions;
      rq_Data := {| boq_Param := BootParamBootFlags; boq_Set := x00; boq_Block := x00 |} |} (waiting buf (serving (boot_set dev d)) rnd, l) =
    Ret (Ok {| bop_CompletionCode := CommandCompleted; bop_Version := x01; bop_Param := BootParamBootFlags; bop_Data := boot_flags dev |},
         (waiting buf' (serving (boot_set dev d)) rnd, l')).
Proof.
  intros Hs Hb Hd.
  edestruct (exchange_builtin (B := SystemBootOptionsResponse) {| rq_NetworkFunction := NetworkFunctionChassis; rq_Command := CommandGetSystemBootOptions;
      rq_Data := {| boq_Param := BootParamBootFlags; boq_Set := x00; boq_Block := x00 |} |} getSystemBootOptions
    {| bop_CompletionCode := CommandCompleted; bop_Version := x01; bop_Param := BootParamBootFlags; bop_Data := boot_flags dev |}
    (boot_set dev d) (boot_set dev d) buf l (proj1 Hs) Hb) as (buf' & Hb' & E); try done; [vm_compute; lia | | simpl; lia |].
  - intros m Hm _. unfold getSystemBootOptions. rewrite (m_Request_data m (Build_SystemBootOptionsRequest BootParamBootFlags x00 x00)) by done.
    cbn [boq_Param]. change (Z.to_nat (b2z BootParamBootFlags)) with 5. by rewrite (proj1 (boot_set_bopts dev d Hd)).
  - exists buf', (next_lan l). split; [done |]. split; [by apply session_is_next |]. done.
Qed.

Lemma closeSession_answered d buf l a t i : session_is l a t i → length buf = 1024 →
  ∃ buf' l', length buf' = 1024 ∧ session_is l' a t i ∧
    closeSession (waiting buf (serving d) rnd, l) = Ret (Ok tt, (waiting buf' (serving d) rnd, l')).
Proof.
  intros Hs Hb. assert (fits 4 (SessionID (l_session l))) as Hi by apply Hs.
  edestruct (exchange (B := CloseSessionResponse) {| rq_NetworkFunction := NetworkFunctionApp; rq_Command := CommandCloseSession;
    rq_Data := {| csq_SessionID := SessionID (l_session l) |} |} sessionClose (Reply CommandCompleted) (Build_CloseSessionResponse CommandCompleted) d buf
    (serving d) rnd l (proj1 (proj1 Hs)) (proj2 (proj1 Hs)) Hb) as (buf' & Hb' & E).
  { done. }
  { rewrite fixed_length; [cbn; lia | done]. }
  { done. }
  { done. }
  { done. }
  { done. }
  { done. }
  { vm_compute; lia. }
  exists buf', (next_lan l). split; [done |]. split; [by apply session_is_next |].
  unfold closeSession, ebind, ecatch. cbn [gets out_bind id]. by rewrite E.
Qed.
Lemma close_answered d buf l t i : session_is l true t i → length buf = 1024 →
  ∃ buf' l', active l' = false ∧ conn l' = false ∧
    lan_close (waiting buf (serving d) rnd, l) = Ret (Ok tt, (waiting buf' (serving d) rnd, l')).
Proof.
  intros Hs Hb. destruct (closeSession_answered d buf l true t i Hs Hb) as (buf1 & l1 & _ & ([_ Hc1] & _) & E1).
  exists buf1, (l1 <| active := false |> <| conn := false |>). split; [done |]. split; [done |].
  unfold lan_close, ebind, ecatch. cbn [gets out_bind id]. destruct Hs as (_ & Ha & _). rewrite Ha, E1. cbn [out_bind modify].
  unfold gets. cbn [out_bind id]. change (conn (l1 <| active := false |>)) with (conn l1). rewrite Hc1. done.
Qed.
End client.

(** A program that sets the device to boot from, and asks for it. *)
Definition configure (dev : BootDevice) : eff (world * lan) BootDevice :=
  _ :=! Open;;
  _ :=! SetBootDevice dev;;
  r :=! Send (B := SystemBootOptionsResponse) {| rq_NetworkFunction := NetworkFunctionChassis; rq_Command := CommandGetSystemBootOptions;
    rq_Data := {| boq_Param := BootParamBootFlags; boq_Set := x00; boq_Block := x00 |} |};;
  b :=! of_outcome (out_bind (BootDeviceSelector r) (λ b, Ret (Ok b)));;
  _ :=! Close;;
  eret b.

Lemma BootDeviceSelector_flags dev c v p :
  BootDeviceSelector {| bop_CompletionCode := c; bop_Version := v; bop_Param := p; bop_Data := boot_flags dev |} = Ret (z2b (Z.land (b2z dev) 0x3c)).
Proof.
  set (P dev := bool_decide (z2b (Z.shiftl (Z.land (Z.shiftr (b2z dev) 2) 15) 2) = z2b (Z.land (b2z dev) 0x3c))).
  assert (P dev = true) as H by (revert dev; apply byte_ind_256; vm_compute; reflexivity).
  unfold BootDeviceSelector. cbn [bop_Data boot_flags lookup list_lookup]. apply bool_decide_eq_true in H. by rewrite H.
Qed.
(** The devices that have a name are their own selectors. *)
Lemma named_device dev : is_Some (bootDeviceStrings !! dev) → z2b (Z.land (b2z dev) 0x3c) = dev.
Proof.
  set (P dev := implb (bool_decide (is_Some (bootDeviceStrings !! dev))) (bool_decide (z2b (Z.land (b2z dev) 0x3c) = dev))).
  assert (P dev = true) as H by (revert dev; apply byte_ind_256; vm_compute; reflexivity).
  intros Hd. unfold P in H. rewrite bool_decide_true in H by done. by apply bool_decide_eq_true in H.
Qed.

(** C7: from end to end.  A client of any user that opens a session with the
    simulator, sets a boot device, asks for it and closes succeeds, whatever was
    set before: it hears of the device it set (of any that has a name), no
    session is left, the simulator has the flags, for the next boot, and its
    change is complete; the user of the session is known to it. *)
Theorem boot_device_end_to_end (c : Connection) (d : memory) (buf : bytes) (rnd : byte * byte * byte * byte) (dev : BootDevice) :
  length buf = ipmiBufSize → length (bopts d) = 8 →
  ∃ buf' l d', configure dev (waiting buf (serving d) rnd, newLanTransport c) =
      Ret (Ok (z2b (Z.land (b2z dev) 0x3c)), (waiting buf' (serving d') rnd, l)) ∧
    active l = false ∧ conn l = false ∧
    bopts d' !! 5 = Some [x80; dev; x00; x00; x00] ∧ bopts d' !! 0 = Some [x00] ∧
    ids d' !! adler32 (user_of c) = Some (b2s (user_of c)) ∧
    (is_Some (bootDeviceStrings !! dev) → z2b (Z.land (b2z dev) 0x3c) = dev).
Proof.
  intros Hb Hd. destruct (open_answered rnd c d buf Hb) as (buf1 & l1 & Hb1 & H1 & E1).
  destruct (SetBootDevice_answered rnd (known c d) buf1 l1 _ _ _ dev H1 Hb1 Hd) as (buf2 & l2 & Hb2 & H2 & E2).
  destruct (boot_options_answered rnd (known c d) buf2 l2 _ _ _ dev H2 Hb2 Hd) as (buf3 & l3 & Hb3 & H3 & E3).
  destruct (close_answered rnd (boot_set dev (known c d)) buf3 l3 _ _ H3 Hb3) as (buf4 & l4 & Ha & Hc & E4).
  exists buf4, l4, (boot_set dev (known c d)). destruct (boot_set_bopts dev (known c d) Hd) as [H5 H0].
  split; [| do 2 (split; [done |]); split; [exact H5 |]; split; [exact H0 |]; split; [| apply named_device]].
  - unfold configure, ebind, ecatch, Open, Close, Send. cbn [t_open t_close t_send lan_transport].
    rewrite E1. cbn [out_bind]. rewrite E2. cbn [out_bind]. rewrite E3. cbn [out_bind]. rewrite BootDeviceSelector_flags. cbn [out_bind of_outcome].
    by rewrite E4.
  - change (ids (boot_set dev (known c d))) with (<[adler32 (user_of c) := b2s (user_of c)]> (ids d)). apply lookup_insert_eq.
Qed.

Lemma boot_device_end_to_end_witness :
  let c := Build_Connection "" "10.0.0.7" 623 "root" "calvin" "lan" in
  ∃ buf' l d', configure x08 (waiting (replicate ipmiBufSize x00) (serving (sim_memory NewSimulator)) (x00, x01, x02, x03), newLanTransport c)
      = Ret (Ok x08, (waiting buf' (serving d') (x00, x01, x02, x03), l)) ∧ bopts d' !! 5 = Some [x80; x08; x00; x00; x00].
Proof.
  destruct (boot_device_end_to_end (Build_Connection "" "10.0.0.7" 623 "root" "calvin" "lan") (sim_memory NewSimulator)
    (replicate ipmiBufSize x00) (x00, x01, x02, x03) x08) as (buf' & l & d' & E & _ & _ & H5 & _).
  - apply length_replicate.
  - done.
  - exists buf', l, d'. by split.
Defined.
