(* ===== verification/Image.v ===== *)
(** Package [slingshot/image]: boot images bound to leases, and the servers
    that hand out their files.

    A binding maps the path of a lease ("/mac/ip") to an image, a template cache
    and the data the templates are executed with.  The caches are objects that
    outlive the call that made them, so they are kept by number in the state.
    The template language ([text/template]) is a parameter: templates are part
    of the images. *)

From S2P Require Import Prelude GoPath GoNet GoJson GoURL DcpCommon SlingTypes Tftp.
From Stdlib Require Import ZArith Lia.

(* @slingshot/image/data/v1.go:3-13 V1 *)
Record V1 := {
  v1_Host : string;
  v1_Path : string;
  v1_MAC : string;
  v1_IP : string;
  v1_Netmask : string;
  v1_Routers : list string;
  v1_NameServers : list string;
  v1_NextFile : string;
  v1_Data : gmap string string
}.

(** The surroundings of the images. *)
Class Images (E : Type) := {
  Template : Type;
  Parse : string → bytes → option Template;               (* template.New(path).Parse *)
  Execute : Template → V1 → option bytes;
  (** http.DefaultClient.Do of a GET: status code, status, body *)
  HttpGet : URL → E → res (Z * string * stream) * E;
  (** os.Open and the archive's entries, then the error that ends it: EOF at
      the end of the archive *)
  OpenTar : string → E → res (list (string * stream) * error) * E
}.

Section image.
Context {E : Type} `{Images E}.

(** ** Sources of files *)

(** [Image] and [TarImage]; each owns the template cache of the given number. *)
(* @slingshot/image/image.go:14-17 Image *)
Inductive source := HttpSource (u : URL) | TarSource (path : string).

(* @slingshot/image/template.go:18-21 templateEntry *)
Definition templateEntry : Type := res Template.

(* @slingshot/image/handler.go:39-43 boundHandler *)
Record binding := { b_source : source; b_tmpl : nat; b_data : V1 }.

Record ImageW := {
  iw_ext : E;
  iw_tmpl : gmap nat (gmap string templateEntry);
  iw_next : nat;
  iw_bound : gmap string binding
}.
#[export] Instance eta_ImageW : Eta ImageW := λ w,
  {| iw_ext := iw_ext w; iw_tmpl := iw_tmpl w; iw_next := iw_next w; iw_bound := iw_bound w |}.

(* @slingshot/image/handler.go:45-51 newBoundHandler *)
Definition newBoundHandler (e : E) : ImageW := {| iw_ext := e; iw_tmpl := ∅; iw_next := 0; iw_bound := ∅ |}.

(* @slingshot/image/image.go:29-33 Image.URL *)
Definition Image_URL (u : URL) (p : string) : URL := u <| u_Path := Join2 (u_Path u) (Clean (s2b p)) |>.

(** The request is made from the printed URL. *)
(* @slingshot/image/image.go:58-77 Image.ReadFile *)
Definition Image_ReadFile (u : URL) (filename : string) (w : ImageW) : res stream * ImageW :=
  match url_Parse (URL_String (Image_URL u filename)) with
  | Err e => (Err e, w)
  | Ok req =>
      match HttpGet req (iw_ext w) with
      | (Err e, x) => (Err e, w <| iw_ext := x |>)
      | (Ok (code, status, body), x) =>
          (if decide (code = 200)%Z then Ok body
           else if decide (code = 404)%Z then Err ErrNotExist
           else Err (Errorf ("http: " +:+ fmt_d code +:+ " (" +:+ status +:+ ")")),
           w <| iw_ext := x |>)
      end
  end.

(** The entries' names are treated as absolute. *)
(* @slingshot/image/tar_image.go:67-87 findFileInTar *)
Fixpoint find_entry (filename : string) (entries : list (string * stream)) (last : error) : res stream :=
  match entries with
  | [] => Err last
  | (name, content) :: entries =>
      if decide (path_Clean ("/" +:+ name) = filename) then Ok content else find_entry filename entries last
  end.

(* @slingshot/image/tar_image.go:61-88 findFileInTar *)
Definition findFileInTar (path filename : string) (x : E) : res stream * E :=
  match OpenTar path x with
  | (Err e, x) => (Err e, x)
  | (Ok (entries, last), x) => (find_entry filename entries last, x)
  end.

(* @slingshot/image/tar_image.go:42-49 TarImage.ReadFile *)
Definition TarImage_ReadFile (path filename : string) (w : ImageW) : res stream * ImageW :=
  let '(r, x) := findFileInTar path filename (iw_ext w) in
  (match r with Err e => if decide (e = EOF) then Err ErrNotExist else Err e | Ok rc => Ok rc end, w <| iw_ext := x |>).

Definition source_ReadFile (s : source) (filename : string) (w : ImageW) : res stream * ImageW :=
  match s with HttpSource u => Image_ReadFile u filename w | TarSource p => TarImage_ReadFile p filename w end.

(* @slingshot/image/image.go:80-82 Image.WriteFile *)
Definition source_WriteFile (w : ImageW) : res () * ImageW := (Err ErrPermission, w).

Definition source_handler (s : source) : Handler ImageW :=
  {| ReadFile := λ _ f w, source_ReadFile s f w; WriteFile := λ _ _ w, source_WriteFile w |}.

(** ** Templates ([slingshot/image/template.go]) *)

(* @slingshot/image/template.go:33-42 newTemplateMap *)
Definition newTemplateMap (w : ImageW) : nat * ImageW :=
  (iw_next w, w <| iw_tmpl := <[iw_next w := ∅]> (iw_tmpl w) |> <| iw_next := S (iw_next w) |>).

Definition suffix : string := ".tmpl".

(* @slingshot/image/template.go:44-77 templateMap.loadWithHandler *)
Definition loadWithHandler (s : source) (path : string) (w : ImageW) : templateEntry * ImageW :=
  match source_ReadFile s (path +:+ suffix) w with
  | (Err e, w) => (Err e, w)
  | (Ok (Err e), w) => (Err e, w)
  | (Ok (Ok input), w) =>
      (match Parse path input with Some tmpl => Ok tmpl | None => Err ErrInvalid end, w)
  end.

Definition cached (t : nat) (path : string) (w : ImageW) : option templateEntry := iw_tmpl w !! t ≫= lookup path.

(** The errors that are kept. *)
Definition kept (e : templateEntry) : bool :=
  match e with Ok _ => true | Err err => bool_decide (err = ErrExist ∨ err = ErrInvalid) end.

Definition cache (t : nat) (path : string) (e : templateEntry) (w : ImageW) : ImageW :=
  w <| iw_tmpl := <[t := <[path := e]> (default ∅ (iw_tmpl w !! t))]> (iw_tmpl w) |>.

(* @slingshot/image/template.go:83-109 templateMap.Find *)
Definition Find (t : nat) (s : source) (path : string) (w : ImageW) : templateEntry * ImageW :=
  match cached t path w with
  | Some e => (e, w)
  | None =>
      let '(e, w) := loadWithHandler s path w in
      (e, if kept e then cache t path e w else w)
  end.

(* @slingshot/image/template.go:133-147 templateHandler.ReadFile *)
Definition template_ReadFile (t : nat) (s : source) (data : V1) (filename : string) (w : ImageW) : res stream * ImageW :=
  match Find t s (path_Clean filename) w with
  | (Err e, w) => (Err e, w)
  | (Ok tmpl, w) =>
      (match Execute tmpl data with Some b => Ok (Ok b) | None => Err ErrInvalid end, w)
  end.

(* @slingshot/image/template.go:149-151 templateHandler.WriteFile *)
Definition template_WriteFile (w : ImageW) : res () * ImageW := (Err ErrPermission, w).

(* @slingshot/image/template.go:111-118 templateMap.Handler *)
Definition template_handler (t : nat) (s : source) (data : V1) : Handler ImageW :=
  {| ReadFile := λ _ f w, template_ReadFile t s data f w; WriteFile := λ _ _ w, template_WriteFile w |}.

(* @slingshot/image/image.go:48-55 Image.Handler *)
Definition binding_handler (b : binding) : Handler ImageW :=
  OverlayHandler [template_handler (b_tmpl b) (b_source b) (b_data b); source_handler (b_source b)].

(* @slingshot/image/image.go:38-43 Image.NextFile *)
Definition NextFile : string := "ipxe".

(** ** The handler of bound images ([slingshot/image/handler.go]) *)

(** The regular expression: an optional slash, two elements, and the rest from
    its slash on, which holds no newline. *)
(* @slingshot/image/handler.go:35-35 boundRegexp *)
Definition match_bound (f : bytes) : option (bytes * bytes) :=
  let f := match f with c :: f' => if decide (c = slash) then f' else f | [] => f end in
  match index_split slash f with
  | Some (a, _ :: r) =>
      match index_split slash r with
      | Some (b, rest) =>
          if decide (a ≠ [] ∧ b ≠ [] ∧ newline ∉ rest) then Some (a ++ slash :: b, rest) else None
      | None => None
      end
  | _ => None
  end.

(* @slingshot/image/handler.go:53-77 boundHandler.ReadFile *)
Definition bound_ReadFile (c : Conn) (filename : string) (w : ImageW) : res stream * ImageW :=
  match match_bound (s2b filename) with
  | None => (Err ErrNotExist, w)
  | Some (m1, m2) =>
      match iw_bound w !! ("/" +:+ b2s m1) with
      | None => (Err ErrNotExist, w)
      | Some e => ReadFile (binding_handler e) c (b2s m2) w
      end
  end.

(* @slingshot/image/handler.go:79-81 boundHandler.WriteFile *)
Definition bound_WriteFile (c : Conn) (filename : string) (w : ImageW) : res () * ImageW := (Err ErrPermission, w).

(* @slingshot/image/handler.go:23-33 NewHandler *)
Definition NewHandler : Handler ImageW := {| ReadFile := bound_ReadFile; WriteFile := bound_WriteFile |}.

(* @slingshot/image/handler.go:83-85 imgPath *)
Definition imgPath (lease : Lease) : string :=
  "/" +:+ path_Join (MAC_String (lease_MAC lease)) (IP_String (ip_IP (lease_IP lease))).

(** The mask of a subnet without a network is a nil dereference. *)
(* @slingshot/image/handler.go:92-112 boundHandler.GetHandler *)
Definition GetHandler (ip : IP) (s : Subnet) (l : Lease) (c : Configuration) : outcome V1 :=
  match ipnet_IPNet (sub_Subnet s) with
  | None => Panic
  | Some net => Ret
      {| v1_Host := IP_String ip;
         v1_Path := imgPath l;
         v1_MAC := MAC_String (lease_MAC l);
         v1_IP := IP_String (ip_IP (lease_IP l));
         v1_Netmask := IP_String (IPNet_Mask net);
         v1_Routers := (λ a, IP_String (ip_IP a)) <$> conf_Routers c;
         v1_NameServers := (λ a, IP_String (ip_IP a)) <$> conf_NameServers c;
         v1_NextFile := NextFile;
         v1_Data := conf_Data c |}
  end.

Definition bind (src : source) (d : V1) (w : ImageW) : ImageW :=
  let '(t, w) := newTemplateMap w in
  w <| iw_bound := <[v1_Path d := {| b_source := src; b_tmpl := t; b_data := d |}]> (iw_bound w) |>.

(* @slingshot/image/handler.go:119-140 boundHandler.Add *)
Definition Add (ip : IP) (s : Subnet) (l : Lease) (c : Configuration) (w : ImageW) : outcome (res V1 * ImageW) :=
  if str_empty (conf_Image c) then Ret (Err ErrNoImage, w)
  else match url_Parse (conf_Image c) with
       | Err e => Ret (Err e, w)
       | Ok u => out_bind (GetHandler ip s l c) (λ d, Ret (Ok d, bind (HttpSource u) d w))
       end.

(* @slingshot/image/handler.go:142-154 boundHandler.AddTar *)
Definition AddTar (ip : IP) (s : Subnet) (l : Lease) (c : Configuration) (path : string) (w : ImageW) : outcome (res V1 * ImageW) :=
  out_bind (GetHandler ip s l c) (λ d, Ret (Ok d, bind (TarSource path) d w)).

(* @slingshot/image/handler.go:157-168 boundHandler.remove *)
Definition remove (path : string) (w : ImageW) : ImageW * option error :=
  match iw_bound w !! path with
  | None => (w, Some ErrNotExist)
  | Some _ => (w <| iw_bound := delete path (iw_bound w) |>, None)
  end.

(** The error is only logged. *)
(* @slingshot/image/handler.go:171-178 boundHandler.PurgeImage *)
Definition PurgeImage (l : Lease) (w : ImageW) : ImageW := (remove (imgPath l) w).1.

(** ** Properties *)

Lemma GetHandler_path ip s l c d : GetHandler ip s l c = Ret d → v1_Path d = imgPath l.
Proof. unfold GetHandler. destruct (ipnet_IPNet _); [| done]. by intros [= <-]. Qed.

Lemma find_entry_first filename entries last :
  find_entry filename entries last
  = match list_find (λ e, path_Clean ("/" +:+ e.1) = filename) entries with
    | Some (_, (_, content)) => Ok content
    | None => Err last
    end.
Proof.
  induction entries as [| [n ct] l IH]; [done |]. cbn [find_entry list_find fst].
  destruct (decide (path_Clean ("/" +:+ n) = filename)); [done |]. rewrite IH.
  destruct (list_find _ l) as [[j [n' ct']] |]; done.
Qed.

Lemma source_ReadFile_tmpl s f w : iw_tmpl (source_ReadFile s f w).2 = iw_tmpl w.
Proof.
  destruct s as [u | p]; simpl.
  - unfold Image_ReadFile. destruct (url_Parse _); [| done]. by destruct (HttpGet _ _) as [[[[code status] body] | e] x].
  - unfold TarImage_ReadFile. by destruct (findFileInTar _ _ _).
Qed.

Lemma loadWithHandler_tmpl s path w e w' : loadWithHandler s path w = (e, w') → iw_tmpl w' = iw_tmpl w.
Proof.
  unfold loadWithHandler. pose proof (source_ReadFile_tmpl s (path +:+ suffix) w) as Hs.
  destruct (source_ReadFile s (path +:+ suffix) w) as [[[input | e0] | e0] w1]; intros [= <- <-]; done.
Qed.

Lemma mac_bytes_real hw : hw ≠ [] → real (mac_bytes hw).
Proof.
  intros Hne. assert (slash ∉ mac_bytes hw) as Hs.
  { assert (∀ b, slash ∉ hex_byte b) as Hb by (intros b; apply has_false; destruct b; reflexivity).
    clear Hne. induction hw as [| b hw IH]; [by intros ?%not_elem_of_nil |]. destruct hw as [| b' hw]; [apply Hb |].
    change (mac_bytes (b :: b' :: hw)) with (hex_byte b ++ colon :: mac_bytes (b' :: hw)).
    rewrite not_elem_of_app, not_elem_of_cons. split_and!; [apply Hb | done | apply IH]. }
  destruct hw as [| b hw]; [done |]. assert (∃ r, mac_bytes (b :: hw) = hex_byte b ++ r) as [r Hr].
  { destruct hw; [exists []; by rewrite app_nil_r | eexists; reflexivity]. }
  split_and!; [by rewrite Hr | | | done]; rewrite Hr; destruct b; vm_compute; discriminate.
Qed.

Lemma dotted_real ip : length ip = 4 → real (dotted ip).
Proof.
  intros (a & b & c & d & ->)%length_4. pose proof (dotted_no_slash a b c d) as Hs.
  destruct (dec_byte_plain a) as (Hdot & _ & Hne).
  assert (head (dotted [a; b; c; d]) ≠ Some dot ∧ dotted [a; b; c; d] ≠ []) as [Hh Hn].
  { unfold dotted. destruct (dec_byte a) as [| x r]; [done |]. split; [| done]. simpl. intros [= ->]. set_solver. }
  split_and!; [done | | | done]; intros Eq; rewrite Eq in Hh; by apply Hh.
Qed.

Lemma imgPath_bytes l : mac_HardwareAddr (lease_MAC l) ≠ [] → To4 (ip_IP (lease_IP l)) ≠ [] →
  s2b (imgPath l) = slash :: mac_bytes (mac_HardwareAddr (lease_MAC l)) ++ slash :: dotted (To4 (ip_IP (lease_IP l))).
Proof.
  intros Hm Hi. unfold imgPath, path_Join, MAC_String, HardwareAddr_String, IP_String. rewrite s2b_app, !s2b_b2s.
  rewrite IP_bytes_dotted by done. pose proof (mac_bytes_real _ Hm) as Hmr.
  pose proof (dotted_real _ (To4_nonempty _ Hi)) as Hdr. pose proof Hmr as [Hne _].
  unfold Join2. destruct (mac_bytes _) as [| x m] eqn:Em; [done |]. by rewrite Clean_two.
Qed.

Lemma imgPath_tail l : "/" +:+ b2s (tail (s2b (imgPath l))) = imgPath l.
Proof. unfold imgPath. rewrite s2b_app. simpl. by rewrite b2s_s2b. Qed.

Lemma b2s_cons_slash n : b2s (slash :: s2b n) = "/" +:+ n.
Proof. apply (inj s2b). by rewrite s2b_b2s, s2b_app. Qed.

Lemma match_bound_imgPath l name : mac_HardwareAddr (lease_MAC l) ≠ [] → To4 (ip_IP (lease_IP l)) ≠ [] → newline ∉ s2b name →
  match_bound (s2b (imgPath l +:+ "/" +:+ name)) = Some (tail (s2b (imgPath l)), slash :: s2b name).
Proof.
  intros Hm Hi Hn. rewrite !s2b_app, imgPath_bytes by done.
  pose proof (mac_bytes_real _ Hm) as (Hm1 & _ & _ & Hm2). pose proof (dotted_real _ (To4_nonempty _ Hi)) as (Hd1 & _ & _ & Hd2).
  set (m := mac_bytes _) in *. set (d := dotted _) in *. unfold match_bound. simpl.
  change (s2b "/" ++ s2b name) with (slash :: s2b name). rewrite <- (assoc_L (++)). simpl.
  rewrite index_split_at by done. rewrite index_split_at by done. rewrite decide_True; [done |].
  split_and!; [done | done |]. rewrite not_elem_of_cons. done.
Qed.

(** A file of an archive is the first entry whose name, made absolute and
    cleaned, is the requested one; it does not exist exactly when the archive
    ends properly without such an entry, and a damaged archive is reported as
    such. *)
Theorem TarImage_ReadFile_spec (path filename : string) (w : ImageW) (entries : list (string * stream)) (last : error) (x : E) :
  OpenTar path (iw_ext w) = (Ok (entries, last), x) →
  (TarImage_ReadFile path filename w).1 =
    match list_find (λ e, path_Clean ("/" +:+ e.1) = filename) entries with
    | Some (_, (_, content)) => Ok content
    | None => Err (if decide (last = EOF) then ErrNotExist else last)
    end.
Proof.
  intros Ho. unfold TarImage_ReadFile, findFileInTar. rewrite Ho. cbn [fst].
  rewrite find_entry_first. destruct (list_find _ entries) as [[j [n ct]] |]; [done |]. by case_decide.
Qed.

(** A template that was found, or failed to parse, is remembered: later
    requests get the same answer without reading the image again.  Any other
    error, a missing template included, is not remembered. *)
Theorem Find_cached (t : nat) (s : source) (path : string) (w w1 : ImageW) (e : templateEntry) (x : E) :
  Find t s path w = (e, w1) →
  (kept e = true → Find t s path (w1 <| iw_ext := x |>) = (e, w1 <| iw_ext := x |>))
  ∧ (kept e = false → cached t path w = None → iw_tmpl w1 = iw_tmpl w).
Proof.
  unfold Find at 1. destruct (cached t path w) as [e0 |] eqn:Ec.
  - intros [= <- <-]. split; [| done]. intros _. unfold Find.
    assert (cached t path (w <| iw_ext := x |>) = Some e0) as -> by done. done.
  - destruct (loadWithHandler s path w) as [e1 w2] eqn:El. intros [= <- <-]. split.
    + intros ->. unfold Find. assert (cached t path ((cache t path e1 w2) <| iw_ext := x |>) = Some e1) as ->; [| done].
      unfold cached, cache. simpl. rewrite lookup_insert_eq. simpl. by rewrite lookup_insert_eq.
    + intros -> _. by apply loadWithHandler_tmpl in El.
Qed.

(** After an archive was bound for a lease, requests below the lease's path
    are served from that archive and its templates with the lease's data, other
    leases keep their images, and once the image is purged the path serves
    nothing. *)
Theorem AddTar_serves (ip : IP) (s : Subnet) (l : Lease) (c : Configuration) (path name other : string) (conn : Conn) (w w' : ImageW) (d : V1) :
  mac_HardwareAddr (lease_MAC l) ≠ [] → To4 (ip_IP (lease_IP l)) ≠ [] → newline ∉ s2b name →
  AddTar ip s l c path w = Ret (Ok d, w') →
  bound_ReadFile conn (v1_Path d +:+ "/" +:+ name) w'
    = ReadFile (binding_handler {| b_source := TarSource path; b_tmpl := iw_next w; b_data := d |}) conn ("/" +:+ name) w'
  ∧ (other ≠ v1_Path d → iw_bound w' !! other = iw_bound w !! other)
  ∧ bound_ReadFile conn (v1_Path d +:+ "/" +:+ name) (PurgeImage l w') = (Err ErrNotExist, PurgeImage l w').
Proof.
  intros Hm Hi Hn. unfold AddTar. destruct (GetHandler ip s l c) as [d0 |] eqn:Ed; [| done]. cbn [out_bind]. intros [= <- <-].
  assert (v1_Path d0 = imgPath l) as Hp by (by eapply GetHandler_path).
  rewrite Hp. unfold bound_ReadFile. rewrite match_bound_imgPath by done.
  assert ("/" +:+ b2s (tail (s2b (imgPath l))) = imgPath l) as -> by apply imgPath_tail.
  split_and!.
  - unfold bind. simpl. rewrite Hp, lookup_insert_eq. by rewrite b2s_cons_slash.
  - intros Ho. unfold bind. simpl. rewrite lookup_insert_ne; congruence.
  - assert (iw_bound (PurgeImage l (bind (TarSource path) d0 w)) !! imgPath l = None) as ->; [| done].
    unfold PurgeImage, remove. destruct (iw_bound (bind (TarSource path) d0 w) !! imgPath l) eqn:Eb; [| done].
    simpl. apply lookup_delete_eq.
Qed.
End image.

(** ** Examples

    An archive with a script and a template; a template language without
    directives; no network. *)
#[export] Instance sample_images : Images () :=
  {| Template := bytes; Parse := λ _ b, if has x7b b then None else Some b; Execute := λ t _, Some t;
     HttpGet := λ _ x, (Err (NetError "no route"), x);
     OpenTar := λ _ x, (Ok ([("./ipxe.tmpl"%string, Ok (s2b "boot")); ("bad.tmpl"%string, Ok (s2b "{")); ("kernel"%string, Ok (s2b "ELF"));
         ("ipxe/undionly.kpxe"%string, Ok (s2b "loader"))], EOF), x) |}.

Lemma TarImage_ReadFile_spec_witness :
  (TarImage_ReadFile "a.tar" "/kernel" (newBoundHandler ())).1 = Ok (Ok (s2b "ELF"))
  ∧ (TarImage_ReadFile "a.tar" "/none" (newBoundHandler ())).1 = Err ErrNotExist.
Proof.
  split; erewrite TarImage_ReadFile_spec by reflexivity; vm_compute; reflexivity.
Defined.

Lemma Find_cached_witness :
  let s := TarSource "a.tar" in
  let w := (newTemplateMap (newBoundHandler ())).2 in
  let w1 := (Find 0 s "/ipxe" w).2 in
  (kept (Ok (s2b "boot") : templateEntry) = true → Find 0 s "/ipxe" (w1 <| iw_ext := () |>) = (Ok (s2b "boot"), w1 <| iw_ext := () |>))
  ∧ (kept (Ok (s2b "boot") : templateEntry) = false → cached 0 "/ipxe" w = None → iw_tmpl w1 = iw_tmpl w).
Proof.
  intros s w w1. apply (Find_cached 0 s "/ipxe" w w1 (Ok (s2b "boot")) ()). reflexivity.
Defined.

Definition sample_image_lease : Lease :=
  (zero : Lease) <| lease_MAC := mkMAC [x00; x50; x56; x00; x00; x01] |> <| lease_IP := mkIP [x0a; x00; x00; x07] |>.
Definition sample_image_subnet : Subnet := (zero : Subnet) <| sub_Subnet := mkIPNet (Some (v4_net 24 [x0a; x00; x00; x00])) |>.

Lemma AddTar_serves_witness :
  ∃ d w', AddTar [x0a; x00; x00; x01] sample_image_subnet sample_image_lease zero "a.tar" (newBoundHandler ()) = Ret (Ok d, w')
  ∧ bound_ReadFile ZeroConn (v1_Path d +:+ "/" +:+ "ipxe") w'
    = ReadFile (binding_handler {| b_source := TarSource "a.tar"; b_tmpl := 0; b_data := d |}) ZeroConn "/ipxe" w'.
Proof.
  do 2 eexists. split; [reflexivity |].
  refine (proj1 (AddTar_serves [x0a; x00; x00; x01] sample_image_subnet sample_image_lease zero "a.tar" "ipxe" "" ZeroConn
    (newBoundHandler ()) _ _ _ _ _ _)); [done | done | | reflexivity].
  apply (bool_decide_unpack _). vm_compute. exact I.
Defined.
