(* ===== verification/Binding.v ===== *)
(** The handler of bound images over time: what a client is given depends on the
    archive that is bound for it and on its own data only, not on what the other
    clients do.

    An archive is a file of the server that may change, and a template that was
    read is kept, so two states of the archive may matter: [read_from a b] takes
    the template from [a] and the file that has no template from [b].
    [img_step] is everything that happens to the handler
    ([slingshot/image/handler.go]) while it serves: images are bound and purged,
    files are read, and the world outside of it changes; [history] is a run of such
    steps, with the states it went through. *)

From S2P Require Import Prelude GoPath GoNet GoJson GoURL DcpCommon SlingTypes Tftp Image.
From Stdlib Require Import ZArith Lia.

(** What opening an archive gives: its entries, and the error that ends them. *)
Abbreviation archive := (res (list (string * stream) * error)).

Section binding.
Context {E : Type} `{Images E}.

(** ** Files of an archive, read without a cache *)

(** The archive of a path, as it is in a state of the world. *)
Definition tar_at (p : string) (x : E) : archive := (OpenTar p x).1.

Definition not_found (e : error) : error := if decide (e = EOF) then ErrNotExist else e.
Definition tar_entry (a : archive) (f : string) : res stream :=
  match a with
  | Err e => Err (not_found e)
  | Ok (entries, last) => match find_entry f entries last with Ok rc => Ok rc | Err e => Err (not_found e) end
  end.
Definition tar_template (a : archive) (f : string) : templateEntry :=
  match tar_entry a (f +:+ suffix) with
  | Err e | Ok (Err e) => Err e
  | Ok (Ok input) => match Parse f input with Some tmpl => Ok tmpl | None => Err ErrInvalid end
  end.
(** The file's template, executed with the data of the client, or the file. *)
Definition read_from (a b : archive) (d : V1) (f : string) : res stream :=
  match tar_template a (path_Clean f) with
  | Ok tmpl => match Execute tmpl d with Some out => Ok (Ok out) | None => Err ErrInvalid end
  | Err e => if decide (e = ErrNotExist) then tar_entry b f else Err e
  end.
Definition content (a : archive) : V1 → string → res stream := read_from a a.

(** ** What happens to the handler *)

(** A step names the path whose image it replaces or removes, if any. *)
Inductive img_step : option string → ImageW → ImageW → Prop :=
  | step_AddTar ip s l c p w r w' : AddTar ip s l c p w = Ret (r, w') → img_step (Some (imgPath l)) w w'
  | step_Add ip s l c w r w' : Add ip s l c w = Ret (r, w') → img_step (Some (imgPath l)) w w'
  | step_PurgeImage l w : img_step (Some (imgPath l)) w (PurgeImage l w)
  | step_ReadFile conn f w r w' : bound_ReadFile conn f w = (r, w') → img_step None w w'
  | step_world x w : img_step None w (w <| iw_ext := x |>).

Definition other_step (k : string) (w w' : ImageW) : Prop := ∃ o, o ≠ Some k ∧ img_step o w w'.
Definition any_step (w w' : ImageW) : Prop := ∃ o, img_step o w w'.
Definition reachable (w : ImageW) : Prop := ∃ x, rtc any_step (newBoundHandler x) w.

(** A run of steps that leave the image of the path [k] alone: the states it
    went through, the last of them first. *)
Inductive history (k : string) (w1 : ImageW) : list ImageW → ImageW → Prop :=
  | history_start : history k w1 [w1] w1
  | history_step ws w w' : history k w1 ws w → other_step k w w' → history k w1 (w' :: ws) w'.

(** No two images share a template cache. *)
Record img_inv (w : ImageW) : Prop := {
  inv_fresh : ∀ k b, iw_bound w !! k = Some b → b_tmpl b < iw_next w;
  inv_own : ∀ k b k' b', iw_bound w !! k = Some b → iw_bound w !! k' = Some b' → b_tmpl b = b_tmpl b' → k = k'
}.

(** ** Reading *)
Lemma TarImage_ReadFile_eq p f w :
  TarImage_ReadFile p f w = (tar_entry (tar_at p (iw_ext w)) f, w <| iw_ext := (OpenTar p (iw_ext w)).2 |>).
Proof.
  unfold TarImage_ReadFile, findFileInTar, tar_entry, tar_at, not_found.
  destruct (OpenTar p (iw_ext w)) as [[[entries last] | e] x]; simpl.
  - destruct (find_entry f entries last); [done |]. by case_decide.
  - by case_decide.
Qed.
Lemma loadWithHandler_eq p f w :
  loadWithHandler (TarSource p) f w = (tar_template (tar_at p (iw_ext w)) f, w <| iw_ext := (OpenTar p (iw_ext w)).2 |>).
Proof.
  unfold loadWithHandler, tar_template, source_ReadFile. rewrite TarImage_ReadFile_eq.
  by destruct (tar_entry _ (f +:+ suffix)) as [[input | e] | e].
Qed.

(** What reading may do to the handler: templates are added to one cache. *)
Definition read_of (t : nat) (w w' : ImageW) : Prop :=
  iw_bound w' = iw_bound w ∧ iw_next w' = iw_next w ∧ ∀ t', t' ≠ t → iw_tmpl w' !! t' = iw_tmpl w !! t'.
Lemma read_of_trans t w1 w2 w3 : read_of t w1 w2 → read_of t w2 w3 → read_of t w1 w3.
Proof. intros (B1 & N1 & C1) (B2 & N2 & C2). split_and!; [congruence.. |]. intros t' Ht. by rewrite C2, C1. Qed.
Lemma read_of_refl t w : read_of t w w.
Proof. done. Qed.

Lemma source_ReadFile_frame t s f w r w' : source_ReadFile s f w = (r, w') → read_of t w w'.
Proof.
  destruct s as [u | p]; simpl.
  - unfold Image_ReadFile. destruct (url_Parse _); [| by intros [= <- <-]].
    destruct (HttpGet _ _) as [[[[code status] body] | e] x]; by intros [= <- <-].
  - rewrite TarImage_ReadFile_eq. by intros [= <- <-].
Qed.

Lemma Find_frame t s f w r w' : Find t s f w = (r, w') →
  read_of t w w' ∧ (cached t f w = None → (∀ f', cached t f' w' = if decide (f' = f ∧ kept r = true) then Some r else cached t f' w)).
Proof.
  unfold Find. destruct (cached t f w) as [e |] eqn:Ec; [by intros [= <- <-] |].
  destruct (loadWithHandler s f w) as [e w1] eqn:El. intros [= <- <-].
  assert (read_of t w w1 ∧ iw_tmpl w1 = iw_tmpl w) as [Hr Ht].
  { split; [| by apply loadWithHandler_tmpl in El]. unfold loadWithHandler in El.
    destruct (source_ReadFile s (f +:+ suffix) w) as [[[input | e0] | e0] w2] eqn:Es; simplify_eq; by eapply source_ReadFile_frame. }
  destruct (kept e) eqn:Ek.
  - split.
    + eapply read_of_trans; [exact Hr |]. split_and!; [done | done |]. intros t' Hne. simpl. by rewrite lookup_insert_ne.
    + intros _ f'. unfold cached, cache. simpl. rewrite lookup_insert_eq. simpl. rewrite Ht.
      destruct (decide (f' = f)) as [-> | Hne]; [rewrite lookup_insert_eq, decide_True by done; done |].
      rewrite lookup_insert_ne, decide_False by naive_solver. by destruct (iw_tmpl w !! t) eqn:E2.
  - split; [done |]. intros _ f'. rewrite decide_False by naive_solver. unfold cached. by rewrite Ht.
Qed.

(** Reading a file through the handler of an image. *)
Lemma binding_read_frame b conn f w r w' : ReadFile (binding_handler b) conn f w = (r, w') → read_of (b_tmpl b) w w'.
Proof.
  cbn [binding_handler OverlayHandler ReadFile Overlay_ReadFile template_handler source_handler]. unfold template_ReadFile.
  destruct (Find _ _ _ w) as [e w1] eqn:Ef. apply Find_frame in Ef as [Hr _].
  assert (∀ r2 w2, source_ReadFile (b_source b) f w1 = (r2, w2) → read_of (b_tmpl b) w w2) as Hs.
  { intros r2 w2 Hs. eapply read_of_trans; [exact Hr | by eapply source_ReadFile_frame]. }
  destruct e as [tmpl | e].
  - destruct (Execute tmpl (b_data b)); [by intros [= <- <-] |]. rewrite decide_False by done. by intros [= <- <-].
  - case_decide; [| by intros [= <- <-]].
    destruct (source_ReadFile (b_source b) f w1) as [[rc | e2] w2]; [intros [= <- <-]; by eapply Hs |].
    case_decide; intros [= <- <-]; by eapply Hs.
Qed.

(** A template that is looked up is the cached one, or is loaded now. *)
Lemma Find_tar t p f w e w1 : Find t (TarSource p) f w = (e, w1) →
  (cached t f w = Some e ∧ w1 = w)
  ∨ (cached t f w = None ∧ e = tar_template (tar_at p (iw_ext w)) f ∧ iw_ext w1 = (OpenTar p (iw_ext w)).2).
Proof.
  unfold Find. destruct (cached t f w) as [e0 |] eqn:Ec; [intros [= <- <-]; by left |].
  rewrite loadWithHandler_eq. cbv iota beta zeta. intros [= <- <-]. right. split_and!; [done | done |]. by destruct (kept _).
Qed.

(** Reading through the cache of an image: the template is [e], and the file
    without a template is read after the look-up. *)
Lemma binding_read_eq p t d conn f w e w1 : Find t (TarSource p) (path_Clean f) w = (e, w1) →
  (ReadFile (binding_handler {| b_source := TarSource p; b_tmpl := t; b_data := d |}) conn f w).1
  = match e with
    | Ok tmpl => match Execute tmpl d with Some out => Ok (Ok out) | None => Err ErrInvalid end
    | Err e => if decide (e = ErrNotExist) then tar_entry (tar_at p (iw_ext w1)) f else Err e
    end.
Proof.
  intros Ef. cbn [binding_handler OverlayHandler ReadFile Overlay_ReadFile template_handler source_handler b_source b_tmpl b_data].
  unfold template_ReadFile. rewrite Ef. destruct e as [tmpl | e].
  - destruct (Execute tmpl d); [done |]. by rewrite decide_False.
  - case_decide; [| done]. cbn [source_ReadFile]. rewrite TarImage_ReadFile_eq.
    destruct (tar_entry _ f) as [rc | e2]; [done |]. by case_decide; subst.
Qed.
(** It caches what the look-up does. *)
Lemma binding_read_cache b conn f w r w' : ReadFile (binding_handler b) conn f w = (r, w') →
  iw_tmpl w' = iw_tmpl (Find (b_tmpl b) (b_source b) (path_Clean f) w).2.
Proof.
  cbn [binding_handler OverlayHandler ReadFile Overlay_ReadFile template_handler source_handler]. unfold template_ReadFile.
  destruct (Find _ _ _ w) as [e w1]. cbn [snd].
  pose proof (source_ReadFile_tmpl (b_source b) f w1) as Hs. destruct e as [tmpl | e].
  - destruct (Execute tmpl (b_data b)); [by intros [= <- <-] |]. rewrite decide_False by done. by intros [= <- <-].
  - case_decide; [| by intros [= <- <-]].
    destruct (source_ReadFile (b_source b) f w1) as [[rc | e2] w2]; [by intros [= <- <-] |]. case_decide; by intros [= <- <-].
Qed.

(** ** Steps *)
Lemma bind_inv src d w : img_inv w → img_inv (bind src d w).
Proof.
  intros [Hf Ho]. unfold bind. simpl. split; simpl.
  - intros k b [[<- <-] | [_ Hb]]%lookup_insert_Some; [simpl; lia |]. apply Hf in Hb. lia.
  - intros k b k' b' [[<- <-] | [_ Hb]]%lookup_insert_Some [[<- <-] | [_ Hb']]%lookup_insert_Some; simpl; try done.
    + apply Hf in Hb'. lia.
    + apply Hf in Hb. lia.
    + by apply (Ho k b).
Qed.

(** A step binds an image, or removes one, or reads a file of one, or does
    none of this. *)
Lemma img_step_cases o w w' : img_step o w w' →
  (∃ src d, o = Some (v1_Path d) ∧ w' = bind src d w)
  ∨ (∃ l, o = Some (imgPath l) ∧ w' = PurgeImage l w)
  ∨ (∃ k b conn f r, o = None ∧ iw_bound w !! k = Some b ∧ ReadFile (binding_handler b) conn f w = (r, w'))
  ∨ (iw_bound w' = iw_bound w ∧ iw_next w' = iw_next w ∧ iw_tmpl w' = iw_tmpl w).
Proof.
  intros [ip s l c p w0 r w1 HA | ip s l c w0 r w1 HA | l w0 | conn f w0 r w1 HR | x w0].
  - left. unfold AddTar in HA. destruct (GetHandler ip s l c) as [d |] eqn:Ed; [| done]. cbn [out_bind] in HA.
    injection HA as _ <-. exists (TarSource p), d. by rewrite (GetHandler_path _ _ _ _ _ Ed).
  - unfold Add in HA. destruct (str_empty _); [simplify_eq; by do 3 right |]. destruct (url_Parse _) as [u | e]; [| simplify_eq; by do 3 right].
    destruct (GetHandler ip s l c) as [d |] eqn:Ed; [| done]. cbn [out_bind] in HA.
    injection HA as _ <-. left. exists (HttpSource u), d. by rewrite (GetHandler_path _ _ _ _ _ Ed).
  - right. left. by exists l.
  - unfold bound_ReadFile in HR. destruct (match_bound _) as [[m1 m2] |]; [| simplify_eq; by do 3 right].
    destruct (iw_bound w0 !! _) as [b |] eqn:Eb; [| simplify_eq; by do 3 right]. do 2 right. left. by do 5 eexists.
  - by do 3 right.
Qed.
Lemma img_step_inv o w w' : img_step o w w' → img_inv w → img_inv w'.
Proof.
  intros [(src & d & _ & ->) | [(l & _ & ->) | [(k & b & conn & f & r & _ & Hb & HR) | (HB & HN & _)]]]%img_step_cases Hi.
  - by apply bind_inv.
  - unfold PurgeImage, remove. destruct (iw_bound w !! imgPath l) eqn:Eb; [| done]. destruct Hi as [Hf Ho].
    split; simpl; intros *; rewrite ?lookup_delete_Some; naive_solver.
  - apply binding_read_frame in HR as (HB & HN & _). destruct Hi as [Hf Ho]. by split; rewrite HB, ?HN.
  - destruct Hi as [Hf Ho]. by split; rewrite HB, ?HN.
Qed.
Lemma reachable_img_inv w : reachable w → img_inv w.
Proof.
  intros [x Hx]. assert (img_inv (newBoundHandler x)) as Hi by (split; simpl; intros *; by rewrite lookup_empty).
  induction Hx as [| w0 w1 w2 [o Hs] _ IH]; [done |]. apply IH. by eapply img_step_inv.
Qed.

(** ** The image of a client, while nothing replaces it *)

(** Its binding stays, and its cache holds what loading gave at some moment
    since the image was bound. *)
Definition bound_since (k : string) (b : binding) (p : string) (ws : list ImageW) (w : ImageW) : Prop :=
  img_inv w ∧ iw_bound w !! k = Some b ∧
  ∀ f e, cached (b_tmpl b) f w = Some e → ∃ w0, w0 ∈ ws ∧ e = tar_template (tar_at p (iw_ext w0)) f.

Lemma other_step_bound k b p ws w w' : b_source b = TarSource p → bound_since k b p ws w → w ∈ ws →
  other_step k w w' → bound_since k b p (w' :: ws) w'.
Proof.
  intros Hsrc (Hi & Hb & Hc) Hin (o & Ho & Hs). split; [by eapply img_step_inv |].
  assert (∀ f e, cached (b_tmpl b) f w = Some e → ∃ w0, w0 ∈ w' :: ws ∧ e = tar_template (tar_at p (iw_ext w0)) f) as Hkeep.
  { intros f e (w0 & Hw0 & ->)%Hc. exists w0. split; [by right | done]. }
  apply img_step_cases in Hs as [(src & d & -> & ->) | [(l & -> & ->) | [(k' & b' & conn & f' & r & _ & Hb' & HR) | (HB & _ & HT)]]].
  - unfold bind. simpl. split; [rewrite lookup_insert_ne by congruence; done |]. intros f e. unfold cached. simpl.
    pose proof (inv_fresh w Hi k b Hb). rewrite lookup_insert_ne by lia. apply Hkeep.
  - assert (iw_tmpl (PurgeImage l w) = iw_tmpl w ∧ iw_bound (PurgeImage l w) !! k = iw_bound w !! k) as [HT ->].
    { unfold PurgeImage, remove. destruct (iw_bound w !! imgPath l); [| done]. simpl. by rewrite lookup_delete_ne by congruence. }
    split; [done |]. intros f e. unfold cached. rewrite HT. apply Hkeep.
  - pose proof (binding_read_frame _ _ _ _ _ _ HR) as (HB & _ & HT). split; [by rewrite HB |].
    destruct (decide (b_tmpl b = b_tmpl b')) as [Et | Et]; [| intros f e; unfold cached; rewrite HT by done; apply Hkeep].
    pose proof (inv_own w Hi _ _ _ _ Hb Hb' Et) as <-. simplify_eq. intros f e. unfold cached. rewrite (binding_read_cache _ _ _ _ _ _ HR).
    rewrite Hsrc. destruct (Find (b_tmpl b) (TarSource p) (path_Clean f') w) as [e1 w1] eqn:Ef. cbn [snd].
    pose proof (Find_tar _ _ _ _ _ _ Ef) as [[_ ->] | (Hnone & -> & _)]; [apply Hkeep |].
    apply Find_frame in Ef as [_ Hnew]. change (cached (b_tmpl b) f w1 = Some e → ∃ w0, w0 ∈ w' :: ws ∧ e = tar_template (tar_at p (iw_ext w0)) f).
    rewrite (Hnew Hnone). destruct (decide (f = _ ∧ _)) as [[-> _] |]; [| apply Hkeep]. intros [= <-].
    exists w. split; [by right | done].
  - split; [by rewrite HB |]. intros f e. unfold cached. rewrite HT. apply Hkeep.
Qed.
Lemma history_last k w1 ws w : history k w1 ws w → w ∈ ws.
Proof. intros []; apply list_elem_of_here. Qed.
Lemma history_bound k b p w1 ws w : b_source b = TarSource p → bound_since k b p [w1] w1 → history k w1 ws w → bound_since k b p ws w.
Proof.
  intros Hsrc H1. induction 1 as [| ws w w' Hh IH Hs]; [done |]. eapply other_step_bound; [done | exact IH | | exact Hs]. by eapply history_last.
Qed.

(** Right after it is bound, and as long as nothing replaces it. *)
Lemma AddTar_bound ip s l c p w d w1 ws w2 :
  img_inv w → AddTar ip s l c p w = Ret (Ok d, w1) → history (imgPath l) w1 ws w2 →
  v1_Path d = imgPath l ∧ bound_since (imgPath l) {| b_source := TarSource p; b_tmpl := iw_next w; b_data := d |} p ws w2.
Proof.
  intros Hi HA Hh. unfold AddTar in HA. destruct (GetHandler ip s l c) as [d0 |] eqn:Ed; [| done]. cbn [out_bind] in HA.
  simplify_eq. pose proof (GetHandler_path _ _ _ _ _ Ed) as Hp. split; [done |].
  eapply history_bound; [done | | exact Hh]. split; [by apply bind_inv |]. unfold bind. simpl. rewrite Hp, lookup_insert_eq.
  split; [done |]. intros f e. unfold cached. simpl. by rewrite lookup_insert_eq.
Qed.
Lemma bound_read l p t d name conn ws w :
  bound_since (imgPath l) {| b_source := TarSource p; b_tmpl := t; b_data := d |} p ws w → w ∈ ws →
  mac_HardwareAddr (lease_MAC l) ≠ [] → To4 (ip_IP (lease_IP l)) ≠ [] → newline ∉ s2b name →
  ∃ w0 x, w0 ∈ ws ∧ (x = iw_ext w ∨ x = (OpenTar p (iw_ext w)).2) ∧
    (bound_ReadFile conn (imgPath l +:+ "/" +:+ name) w).1 = read_from (tar_at p (iw_ext w0)) (tar_at p x) d ("/" +:+ name).
Proof.
  intros (_ & Hb & Hc) Hw Hm H4 Hn. unfold bound_ReadFile. rewrite match_bound_imgPath, imgPath_tail, Hb, b2s_cons_slash by done.
  destruct (Find t (TarSource p) (path_Clean ("/" +:+ name)) w) as [e w1] eqn:Ef. rewrite (binding_read_eq _ _ _ _ _ _ _ _ Ef).
  unfold read_from. apply Find_tar in Ef as [[Hce ->] | (_ & -> & Hx)].
  - apply Hc in Hce as (w0 & Hw0 & ->). exists w0, (iw_ext w). split_and!; [done | by left | done].
  - exists w, (iw_ext w1). split_and!; [done | right; done | done].
Qed.

(** While the archive is the same at every moment, the client gets what reading
    it without a cache gives. *)
Definition holds (p : string) (a : archive) (w : ImageW) : Prop :=
  tar_at p (iw_ext w) = a ∧ tar_at p (OpenTar p (iw_ext w)).2 = a.
Lemma bound_content l p t d name conn ws w a :
  bound_since (imgPath l) {| b_source := TarSource p; b_tmpl := t; b_data := d |} p ws w → w ∈ ws → Forall (holds p a) ws →
  mac_HardwareAddr (lease_MAC l) ≠ [] → To4 (ip_IP (lease_IP l)) ≠ [] → newline ∉ s2b name →
  (bound_ReadFile conn (imgPath l +:+ "/" +:+ name) w).1 = content a d ("/" +:+ name).
Proof.
  intros Hb Hw Ha Hm H4 Hn. destruct (bound_read l p t d name conn ws w Hb Hw Hm H4 Hn) as (w0 & x & Hw0 & Hx & ->).
  rewrite Forall_forall in Ha. destruct (Ha w0 Hw0) as [-> _]. destruct (Ha w Hw) as [H1 H2]. by destruct Hx as [-> | ->]; rewrite ?H1, ?H2.
Qed.

(** Different clients have different paths. *)
Lemma imgPath_inj l l' :
  mac_HardwareAddr (lease_MAC l) ≠ [] → To4 (ip_IP (lease_IP l)) ≠ [] →
  mac_HardwareAddr (lease_MAC l') ≠ [] → To4 (ip_IP (lease_IP l')) ≠ [] → imgPath l = imgPath l' →
  mac_bytes (mac_HardwareAddr (lease_MAC l)) = mac_bytes (mac_HardwareAddr (lease_MAC l'))
  ∧ To4 (ip_IP (lease_IP l)) = To4 (ip_IP (lease_IP l')).
Proof.
  intros Hm Hi Hm' Hi' Eq. apply (f_equal s2b) in Eq. rewrite !imgPath_bytes in Eq by done. injection Eq as Eq.
  pose proof (mac_bytes_real _ Hm) as (_ & _ & _ & S1). pose proof (mac_bytes_real _ Hm') as (_ & _ & _ & S2).
  pose proof (index_split_at slash _ (dotted (To4 (ip_IP (lease_IP l)))) S1) as I1. rewrite Eq, index_split_at in I1 by done.
  injection I1 as -> I1. split; [done |]. symmetry. apply dotted_inj; [by apply To4_nonempty.. | done].
Qed.

(** C8: once an archive is bound for a client, what the client is given depends on
    that archive and on the client's own data only: it is the template of the file,
    executed with the client's data, or the file when there is no template.  The
    template is as it was in the archive at some moment since the image was bound (it is
    kept once it was read, so it may be older than the archive is now), and the file
    is as it is now; what was bound before, and what other clients bind, purge
    and read in between, in any order, makes no difference.  As long as the archive does not
    change, that is what reading it without any cache gives.  (The client's addresses
    are not empty, and the name has no newline.) *)
Theorem images_isolated (ip : IP) (s : Subnet) (l : Lease) (c : Configuration) (p name : string) (conn : Conn) (w w1 w2 : ImageW) (ws : list ImageW) (d : V1) :
  reachable w → AddTar ip s l c p w = Ret (Ok d, w1) → history (imgPath l) w1 ws w2 →
  mac_HardwareAddr (lease_MAC l) ≠ [] → To4 (ip_IP (lease_IP l)) ≠ [] → newline ∉ s2b name →
  let given := (bound_ReadFile conn (v1_Path d +:+ "/" +:+ name) w2).1 in
  (∃ w0 x, w0 ∈ ws ∧ (x = iw_ext w2 ∨ x = (OpenTar p (iw_ext w2)).2)
    ∧ given = read_from (tar_at p (iw_ext w0)) (tar_at p x) d ("/" +:+ name))
  ∧ ∀ a, Forall (holds p a) ws → given = content a d ("/" +:+ name).
Proof.
  intros Hw HA Hh Hm Hi Hn given. unfold given. destruct (AddTar_bound ip s l c p w d w1 ws w2 (reachable_img_inv w Hw) HA Hh) as (-> & Hb).
  pose proof (history_last _ _ _ _ Hh) as Hin. split; [by apply (bound_read l p _ d name conn ws w2 Hb Hin) |].
  intros a Ha. by apply (bound_content l p _ d name conn ws w2 a Hb Hin Ha).
Qed.
End binding.

(** ** Examples

    An archive whose script changes from "old" to "new", and two clients of it.
    The first client read the script when it was "old", and is given it again
    when it is "new"; the second one reads it then for the first time. *)
Definition other_lease : Lease :=
  (zero : Lease) <| lease_MAC := mkMAC [x00; x50; x56; x00; x00; x02] |> <| lease_IP := mkIP [x0a; x00; x00; x08] |>.
Definition changing_images : Images bool :=
  {| Template := bytes; Parse := λ _ b, Some b; Execute := λ t _, Some t;
     HttpGet := λ _ x, (Err (NetError "no route"), x);
     OpenTar := λ _ (x : bool), (Ok ([("ipxe.tmpl"%string, Ok (s2b (if x then "new" else "old")))], EOF), x) |}.

Section example.
#[local] Existing Instance changing_images.
Definition add_client (l : Lease) (w : ImageW (E := bool)) : ImageW (E := bool) :=
  match AddTar [x0a; x00; x00; x01] sample_image_subnet l zero "a.tar" w with Ret (_, w) => w | Panic => w end.
Definition ipxe_of (l : Lease) : string := imgPath l +:+ "/" +:+ "ipxe".
Definition one_client : ImageW (E := bool) := add_client sample_image_lease (newBoundHandler false).
Definition one_read : ImageW (E := bool) := (bound_ReadFile ZeroConn (ipxe_of sample_image_lease) one_client).2.
Definition changed : ImageW (E := bool) := one_read <| iw_ext := true |>.
Definition two_clients : ImageW (E := bool) := add_client other_lease changed.
Definition sample_data : V1 :=
  match GetHandler [x0a; x00; x00; x01] sample_image_subnet sample_image_lease zero with Ret d => d | Panic =>
    {| v1_Host := ""; v1_Path := ""; v1_MAC := ""; v1_IP := ""; v1_Netmask := ""; v1_Routers := []; v1_NameServers := []; v1_NextFile := ""; v1_Data := ∅ |} end.
Definition sample_history : list (ImageW (E := bool)) := [two_clients; changed; one_read; one_client].

Lemma sample_history_ok : history (imgPath sample_image_lease) one_client sample_history two_clients.
Proof.
  apply (history_step _ _ _ changed).
  2: { exists (Some (imgPath other_lease)). split; [vm_compute; discriminate |].
       eapply (step_AddTar [x0a; x00; x00; x01] sample_image_subnet other_lease zero "a.tar" changed). reflexivity. }
  apply (history_step _ _ _ one_read); [| exists None; split; [done |]; apply step_world].
  apply (history_step _ _ _ one_client); [apply history_start |]. exists None. split; [done |].
  eapply (step_ReadFile ZeroConn (ipxe_of sample_image_lease)). apply surjective_pairing.
Qed.

Lemma images_isolated_witness :
  (bound_ReadFile ZeroConn (ipxe_of sample_image_lease) two_clients).1 = Ok (Ok (s2b "old"))
  ∧ (bound_ReadFile ZeroConn (ipxe_of other_lease) two_clients).1 = Ok (Ok (s2b "new"))
  ∧ ∃ w0 x, w0 ∈ sample_history ∧ (x = iw_ext two_clients ∨ x = (OpenTar "a.tar" (iw_ext two_clients)).2)
    ∧ (bound_ReadFile ZeroConn (ipxe_of sample_image_lease) two_clients).1
      = read_from (tar_at "a.tar" (iw_ext w0)) (tar_at "a.tar" x) sample_data "/ipxe".
Proof.
  split; [vm_compute; reflexivity |]. split; [vm_compute; reflexivity |].
  refine (proj1 (images_isolated [x0a; x00; x00; x01] sample_image_subnet sample_image_lease zero
    "a.tar" "ipxe" ZeroConn (newBoundHandler false) one_client two_clients sample_history sample_data _ _ _ _ _ _)).
  - exists false. apply rtc_refl.
  - reflexivity.
  - exact sample_history_ok.
  - done.
  - done.
  - apply (bool_decide_unpack _). vm_compute. exact I.
Defined.
End example.
