(* ===== verification/ImageServer.v ===== *)
(** The servers of images: [slingshot/image/http] (files over HTTP),
    [slingshot/image/tftp/server.go], and [slingshot/image/server.go], which
    runs one of each. *)

From S2P Require Import Prelude GoPath GoNet GoURL DcpCommon Tftp.
From Stdlib Require Import ZArith Lia.

(** ** Files over HTTP ([slingshot/image/http/handler.go]) *)
Section http_handler.
Context {W : Type} (h : Handler W).

(** [http.Error] *)
(* @slingshot/image/http/handler.go:75-77 Handler.status *)
Definition status (code : Z) : Response :=
  {| r_status := code; r_header := [("Content-Type", "text/plain; charset=utf-8")]; r_body := s2b (StatusText code) ++ [newline] |}.

(* @slingshot/image/http/handler.go:65-73 Handler.fail *)
Definition fail (err : error) : Response := if decide (err = ErrNotExist) then status 404 else status 500.

(** The reader is copied to the response: an error on the way is logged, and
    what was copied before it is not modelled.  No file of an image can seek, so
    the branch for files that can is not taken. *)
(* @slingshot/image/http/handler.go:29-52 Handler.get *)
Definition get (c : Conn) (path : string) (w : W) : res Response * W :=
  match ReadFile h c path w with
  | (Err e, w) => (Err e, w)
  | (Ok rc, w) =>
      (Ok {| r_status := 200; r_header := [("Content-Type", "application/octet-stream")];
             r_body := match rc with Ok b => b | Err _ => [] end |}, w)
  end.

(* @slingshot/image/http/handler.go:54-63 Handler.ServeHTTP *)
Definition ServeHTTP (c : Conn) (method path : string) (w : W) : Response * W :=
  if decide (method = "GET"%string ∨ method = "HEAD"%string) then
    match get c path w with
    | (Err e, w) => (fail e, w)
    | (Ok r, w) => (r, w)
    end
  else (status 405, w).

(** Over HTTP a file of a handler is a 200 response with its bytes, a file
    that does not exist a 404, any other failure a 500, and a method other than GET
    and HEAD a 405 that does not reach the handler. *)
Theorem ServeHTTP_status (c : Conn) (method path : string) (w : W) :
  let '(r, w') := ServeHTTP c method path w in
  if decide (method = "GET"%string ∨ method = "HEAD"%string) then
    w' = (ReadFile h c path w).2 ∧
    match (ReadFile h c path w).1 with
    | Ok (Ok b) => r_status r = 200%Z ∧ r_body r = b
    | Ok (Err _) => r_status r = 200%Z
    | Err e => r_status r = if decide (e = ErrNotExist) then 404%Z else 500%Z
    end
  else r_status r = 405%Z ∧ w' = w.
Proof.
  unfold ServeHTTP, get. destruct (decide (method = "GET"%string ∨ method = "HEAD"%string)); [| done].
  destruct (ReadFile h c path w) as [[[b | e] | e] w']; simpl; [done | done |].
  split; [done |]. unfold fail. by case_decide.
Qed.
End http_handler.

(** ** One connection per listener ([slingshot/image/http/fake_listener.go]) *)
(* @slingshot/image/http/fake_listener.go:11-13 fakeListener *)
Record fakeListener := { fl_conn : option Conn }.

(* @slingshot/image/http/fake_listener.go:17-25 fakeListener.Accept *)
Definition Accept (f : fakeListener) : res Conn * fakeListener :=
  match fl_conn f with
  | None => (Err (Errorf "fake listener is done"), f)
  | Some c => (Ok c, {| fl_conn := None |})
  end.

(* @slingshot/image/http/fake_listener.go:27-29 fakeListener.Close *)
Definition Close (f : fakeListener) : option error := None.

(* @slingshot/image/http/fake_listener.go:31-37 fakeListener.Addr *)
Definition Addr (f : fakeListener) : option string := LocalAddr <$> fl_conn f.

(** The accept loop of [http.Serve] on a listener: the connections it serves. *)
Fixpoint accept_loop (fuel : nat) (f : fakeListener) : list Conn :=
  match fuel with
  | O => []
  | S fuel => match Accept f with (Ok c, f) => c :: accept_loop fuel f | (Err _, _) => [] end
  end.

(** The handler of a connection carries the connection's own addresses. *)
(* @slingshot/image/http/server.go:67-86 Server.serve *)
Definition serve_conn {W} (h : Handler W) (conn : Conn) (method path : string) (w : W) : list Response * W :=
  foldl (λ '(rs, w) c, let '(r, w) := ServeHTTP h c method path w in (rs ++ [r], w)) ([], w)
    (accept_loop 2 {| fl_conn := Some conn |}).

Lemma serve_conn_once {W} (h : Handler W) conn method path w :
  serve_conn h conn method path w = let '(r, w) := ServeHTTP h conn method path w in ([r], w).
Proof. done. Qed.

(** ** Servers that listen *)

(** Both servers keep their address, made IPv4, and their listener once they
    run; [bound] is the address it got. *)
(* @slingshot/image/tftp/server.go:10-16 Server *)
Record ListenServer := { ls_IP : IP; ls_Port : Z; ls_conn : option string; ls_open : bool }.

(* @slingshot/image/tftp/server.go:18-28 NewServer *)
Definition tftp_NewServer (ip : IP) (port : Z) : ListenServer :=
  {| ls_IP := To4 ip; ls_Port := port; ls_conn := None; ls_open := false |}.

(** [listen] is the operating system's answer: the bound address or an error. *)
(* @slingshot/image/tftp/server.go:32-48 Server.Run *)
Definition tftp_Run (listen : IP → Z → res string) (s : ListenServer) : ListenServer * option error :=
  match listen (ls_IP s) (ls_Port s) with
  | Err e => (s, Some e)
  | Ok a => ({| ls_IP := ls_IP s; ls_Port := ls_Port s; ls_conn := Some a; ls_open := true |}, None)
  end.

(** Stopping a server that never ran dereferences nil. *)
(* @slingshot/image/tftp/server.go:52-55 Server.Stop *)
Definition tftp_Stop (s : ListenServer) : outcome ListenServer :=
  match ls_conn s with
  | None => Panic
  | Some _ => Ret {| ls_IP := ls_IP s; ls_Port := ls_Port s; ls_conn := ls_conn s; ls_open := false |}
  end.

(* @slingshot/image/tftp/server.go:58-63 Server.LocalAddr *)
Definition tftp_LocalAddr (s : ListenServer) : option string := ls_conn s.

(* @slingshot/image/http/server.go:27-37 NewServer *)
Definition http_NewServer (ip : IP) (port : Z) : ListenServer := tftp_NewServer ip port.
(* @slingshot/image/http/server.go:41-56 Server.Run *)
Definition http_Run : (IP → Z → res string) → ListenServer → ListenServer * option error := tftp_Run.
(* @slingshot/image/http/server.go:89-92 Server.Stop *)
Definition http_Stop : ListenServer → outcome ListenServer := tftp_Stop.
(* @slingshot/image/http/server.go:95-100 Server.LocalAddr *)
Definition http_LocalAddr : ListenServer → option string := tftp_LocalAddr.

(** ** The image server ([slingshot/image/server.go]) *)
(* @slingshot/image/server.go:11-20 Server *)
Record ImageServer := { is_tftp : ListenServer; is_http : ListenServer }.

(* @slingshot/image/server.go:22-35 NewServer *)
Definition NewServer (ip : IP) : ImageServer := {| is_tftp := tftp_NewServer ip 69; is_http := http_NewServer ip 80 |}.

(* @slingshot/image/server.go:37-52 Server.Run *)
Definition Run (listen_udp listen_tcp : IP → Z → res string) (s : ImageServer) : outcome (ImageServer * option error) :=
  match tftp_Run listen_udp (is_tftp s) with
  | (t, Some e) => Ret ({| is_tftp := t; is_http := is_http s |}, Some e)
  | (t, None) =>
      match http_Run listen_tcp (is_http s) with
      | (h, Some e) => out_bind (tftp_Stop t) (λ t, Ret ({| is_tftp := t; is_http := h |}, Some e))
      | (h, None) => Ret ({| is_tftp := t; is_http := h |}, None)
      end
  end.

(* @slingshot/image/server.go:54-57 Server.Stop *)
Definition Stop (s : ImageServer) : outcome ImageServer :=
  out_bind (tftp_Stop (is_tftp s)) (λ t, out_bind (http_Stop (is_http s)) (λ h, Ret {| is_tftp := t; is_http := h |})).

(** Starting an image server that is not running never panics; it either
    runs both the TFTP and the HTTP server, or reports an error and neither
    listens; and a server that runs can be stopped. *)
Theorem Run_both_or_none (listen_udp listen_tcp : IP → Z → res string) (s : ImageServer) :
  ls_open (is_tftp s) = false → ls_open (is_http s) = false →
  ∃ s' err, Run listen_udp listen_tcp s = Ret (s', err)
  ∧ match err with
    | None => ls_open (is_tftp s') = true ∧ ls_open (is_http s') = true
              ∧ ∃ s'', Stop s' = Ret s'' ∧ ls_open (is_tftp s'') = false ∧ ls_open (is_http s'') = false
    | Some _ => ls_open (is_tftp s') = false ∧ ls_open (is_http s') = false
    end.
Proof.
  intros Ht Hh. unfold Run, http_Run, tftp_Run.
  destruct (listen_udp _ _) as [a | e]; [| do 2 eexists; done].
  destruct (listen_tcp _ _) as [b | e]; simpl; do 2 eexists; (split; [reflexivity |]); simpl; [| done].
  split_and!; [done | done |]. eexists. done.
Qed.

Lemma Run_both_or_none_witness :
  ∃ s' err, Run (λ _ _, Ok "0.0.0.0:69"%string) (λ _ _, Err ErrPermission) (NewServer IPv4zero) = Ret (s', err)
  ∧ match err with
    | None => ls_open (is_tftp s') = true ∧ ls_open (is_http s') = true
              ∧ ∃ s'', Stop s' = Ret s'' ∧ ls_open (is_tftp s'') = false ∧ ls_open (is_http s'') = false
    | Some _ => ls_open (is_tftp s') = false ∧ ls_open (is_http s') = false
    end.
Proof. apply (Run_both_or_none (λ _ _, Ok "0.0.0.0:69"%string) (λ _ _, Err ErrPermission) (NewServer IPv4zero)); reflexivity. Defined.
