(* ===== verification/DhcpOption.v ===== *)
(** * DHCP options: [godhcpv4/option.go]

    The option map of a DHCP packet, its typed getters and setters, the TLV
    wire format ([Deserialize], [Serialize]) and the reflective coding of a
    struct into options ([Encode], [Decode]).

    An [Option] is a byte, an [OptionMap] a finite map from bytes to byte
    slices.  Go's map iteration order is unspecified, so [Serialize] takes the
    order as an argument and its theorems hold for every order. *)

From S2P Require Import Prelude GoNet.

(* @vendor/godhcpv4/option.go:52-55 OptionMap *)
Abbreviation Option := byte (only parsing).
Abbreviation OptionMap := (gmap byte bytes).

(* @vendor/godhcpv4/option.go:444-453 OptionPad *)
Definition OptionPad : Option := x00.
Definition OptionEnd : Option := xff.
Definition OptionSubnetMask : Option := x01.
Definition OptionRouter : Option := x03.
Definition OptionDomainServer : Option := x06.
(* @vendor/godhcpv4/option.go:520-533 OptionAddressRequest *)
Definition OptionAddressRequest : Option := x32.
Definition OptionAddressTime : Option := x33.
Definition OptionOverload : Option := x34.
Definition OptionServerName : Option := x42.
Definition OptionBootfileName : Option := x43.
Definition OptionDHCPMsgType : Option := x35.
Definition OptionDHCPServerID : Option := x36.
Definition OptionParameterList : Option := x37.
Definition OptionDHCPMessage : Option := x38.
Definition OptionDHCPMaxMsgSize : Option := x39.
Definition OptionClassID : Option := x3c.
Definition OptionClientID : Option := x3d.
Definition OptionUserClass : Option := x4d.
Definition OptionClientSystem : Option := x5d.
Definition OptionClientNDI : Option := x5e.
Definition OptionUUIDGUID : Option := x61.

(** [MessageType]: a byte; the eight named values. *)
(* @vendor/godhcpv4/option.go:14-25 MessageType *)
Definition MessageTypeDHCPDiscover : byte := x01.
Definition MessageTypeDHCPOffer : byte := x02.
Definition MessageTypeDHCPRequest : byte := x03.
Definition MessageTypeDHCPDecline : byte := x04.
Definition MessageTypeDHCPAck : byte := x05.
Definition MessageTypeDHCPNak : byte := x06.
Definition MessageTypeDHCPRelease : byte := x07.
Definition MessageTypeDHCPInform : byte := x08.

(* @vendor/godhcpv4/option.go:58-81 sortedOptions *)
Definition option_le (a b : byte) : Prop := (b2z a ≤ b2z b)%Z.
#[global] Instance option_le_dec : RelDecision option_le.
Proof. intros a b. apply Z.le_dec. Defined.
Definition sortedOptions (om : OptionMap) : list byte := merge_sort option_le (elements (dom om)).

(* @vendor/godhcpv4/option.go:84-87 OptionMap.GetOption *)
Definition GetOption (om : OptionMap) (o : Option) : option bytes := om !! o.

(* @vendor/godhcpv4/option.go:90-92 OptionMap.SetOption *)
Definition SetOption (om : OptionMap) (o : Option) (v : bytes) : OptionMap := <[o := v]> om.

(* @vendor/godhcpv4/option.go:95-102 OptionMap.GetMessageType *)
Definition GetMessageType (om : OptionMap) : byte :=
  match GetOption om OptionDHCPMsgType with
  | Some [v] => v
  | _ => x00
  end.

(* @vendor/godhcpv4/option.go:105-107 OptionMap.SetMessageType *)
Definition SetMessageType (om : OptionMap) (m : byte) : OptionMap :=
  SetOption om OptionDHCPMsgType [m].

(** [GetUint8/16/32] accept a value of exactly n bytes. *)
Definition GetUint (n : nat) (om : OptionMap) (o : Option) : option Z :=
  match GetOption om o with
  | Some v => if decide (length v = n) then Some (be_get v) else None
  | None => None
  end.
Definition SetUint (n : nat) (om : OptionMap) (o : Option) (z : Z) : OptionMap :=
  SetOption om o (be_put n z).

(* @vendor/godhcpv4/option.go:110-116 OptionMap.GetUint8 *)
Definition GetUint8 := GetUint 1.
(* @vendor/godhcpv4/option.go:119-123 OptionMap.SetUint8 *)
Definition SetUint8 := SetUint 1.
(* @vendor/godhcpv4/option.go:126-132 OptionMap.GetUint16 *)
Definition GetUint16 := GetUint 2.
(* @vendor/godhcpv4/option.go:135-139 OptionMap.SetUint16 *)
Definition SetUint16 := SetUint 2.
(* @vendor/godhcpv4/option.go:142-148 OptionMap.GetUint32 *)
Definition GetUint32 := GetUint 4.
(* @vendor/godhcpv4/option.go:151-155 OptionMap.SetUint32 *)
Definition SetUint32 := SetUint 4.

(* @vendor/godhcpv4/option.go:158-164 OptionMap.GetString *)
Definition GetString (om : OptionMap) (o : Option) : option string := b2s <$> GetOption om o.
(* @vendor/godhcpv4/option.go:167-169 OptionMap.SetString *)
Definition SetString (om : OptionMap) (o : Option) (v : string) : OptionMap := SetOption om o (s2b v).

(* @vendor/godhcpv4/option.go:172-178 OptionMap.GetIP *)
Definition GetIP (om : OptionMap) (o : Option) : option IP :=
  match GetOption om o with
  | Some [a; b; c; d] => Some (IPv4 a b c d)
  | _ => None
  end.
(* @vendor/godhcpv4/option.go:181-183 OptionMap.SetIP *)
Definition SetIP (om : OptionMap) (o : Option) (v : IP) : OptionMap := SetOption om o (To4 v).

(** Durations, in nanoseconds; [uint32(v.Seconds())] truncates a non-negative
    duration to whole seconds. *)
Definition Second : Z := 1000000000.
(* @vendor/godhcpv4/option.go:186-192 OptionMap.GetDuration *)
Definition GetDuration (om : OptionMap) (o : Option) : option Z :=
  (λ v, v * Second)%Z <$> GetUint32 om o.
(* @vendor/godhcpv4/option.go:195-197 OptionMap.SetDuration *)
Definition SetDuration (om : OptionMap) (o : Option) (v : Z) : OptionMap :=
  SetUint32 om o (v `quot` Second)%Z.

(** ** The wire format

    One run of the parser's loop.  [om] is updated in place by the code, also
    when it fails half-way, so the map is returned next to the error. *)
(* @vendor/godhcpv4/option.go:204-248 OptionMap.Deserialize *)
Fixpoint deser (fuel : nat) (om : OptionMap) (x : bytes) (ignoreMissingEndTag : bool)
  : option (OptionMap * option error) :=
  match fuel with
  | O => None
  | S fuel =>
      match x with
      | [] => Some (om, if ignoreMissingEndTag then None else Some ErrShortPacket)
      | tag :: x =>
          if decide (tag = OptionEnd) then Some (om, None)
          else if decide (tag = OptionPad) then deser fuel om x ignoreMissingEndTag
          else match x with
               | [] => Some (om, Some ErrShortPacket)
               | len :: x =>
                   let n := Z.to_nat (b2z len) in
                   if decide (length x < n) then Some (om, Some ErrShortPacket)
                   else deser fuel (<[tag := take n x]> om) (drop n x) ignoreMissingEndTag
               end
      end
  end.

(** Every round consumes a byte, so the length of the input bounds them. *)
(* @vendor/godhcpv4/option.go:199-248 OptionMap.Deserialize *)
Definition Deserialize (om : OptionMap) (x : bytes) (ignoreMissingEndTag : bool)
  : OptionMap * option error :=
  match deser (S (length x)) om x ignoreMissingEndTag with
  | Some r => r
  | None => (om, Some ErrShortPacket)
  end.

(** An option on the wire. *)
Definition tlv (k : Option) (v : bytes) : bytes := k :: z2b (Z.of_nat (length v)) :: v.

(* @vendor/godhcpv4/option.go:251-277 OptionMap.Serialize *)
Definition Serialize (om : OptionMap) (order : list byte) : bytes :=
  foldr (λ k acc, match om !! k with
                  | Some v => if decide (255 < length v) then acc else tlv k v ++ acc
                  | None => acc
                  end) [OptionEnd] order.

Example Deserialize_ex :
  let '(m, e) := Deserialize ∅ [x35; x01; x01; x00; x3d; x02; x0a; x0b; xff; x07] false in
  (m !! x35, m !! x3d, m !! x07, e) = (Some [x01], Some [x0a; x0b], None, None).
Proof. vm_compute. reflexivity. Qed.

(** ** Coding a struct ([Encode], [Decode])

    The reflective walk over the fields of a struct tagged [code:"n"], in field
    order.  A field value is an unsigned or signed integer of 1, 2 or 4 bytes,
    a string, a bool, or a pointer (nil, with the zero value of its element
    type, or to a value). *)
Inductive fval :=
  | VUint (n : nat) (z : Z)
  | VInt (n : nat) (z : Z)
  | VString (s : string)
  | VBool (b : bool)
  | VNilPtr (zero : fval)
  | VPtr (v : fval).

#[global] Instance fval_eq_dec : EqDecision fval.
Proof. solve_decision. Defined.

Abbreviation struct := (list (Z * fval)).

(** [binary.Write] of an integer: big endian, two's complement. *)
(* @vendor/godhcpv4/option.go:368-377 encodeInt *)
Definition encodeInt (n : nat) (z : Z) : bytes := be_put n z.

(* @vendor/godhcpv4/option.go:379-406 OptionMap.encodeValue *)
Fixpoint encodeValue (om : OptionMap) (code : Z) (v : fval) : OptionMap :=
  match v with
  | VNilPtr _ => om
  | VPtr v => encodeValue om code v
  | VUint n z | VInt n z =>
      if decide (z ≠ 0)%Z then SetOption om (z2b code) (encodeInt n z) else om
  | VString s => if decide (0 < String.length s) then SetOption om (z2b code) (s2b s) else om
  | VBool b => if b then SetOption om (z2b code) [x01] else om
  end.

(* @vendor/godhcpv4/option.go:408-441 OptionMap.Encode *)
Definition Encode (om : OptionMap) (st : struct) : OptionMap :=
  foldl (λ om f, encodeValue om f.1 f.2) om st.

(** The innermost element type of a field (as its zero value), the pointers
    around it, and the value rebuilt under that many pointers. *)
Fixpoint elem_type (v : fval) : fval * nat :=
  match v with
  | VNilPtr z => prod_map id S (elem_type z)
  | VPtr v => prod_map id S (elem_type v)
  | v => (v, 0)
  end.

Fixpoint wrap_ptr (n : nat) (v : fval) : fval :=
  match n with O => v | S n => VPtr (wrap_ptr n v) end.

(** [binary.Read] of an n-byte integer: too short an input leaves zero. *)
Definition read_uint (n : nat) (v : bytes) : Z :=
  if decide (length v < n) then 0%Z else be_get (take n v).
Definition to_signed (n : nat) (z : Z) : Z :=
  if decide (z < 256 ^ Z.of_nat n / 2)%Z then z else (z - 256 ^ Z.of_nat n)%Z.

(* @vendor/godhcpv4/option.go:279-329 OptionMap.decodeValue *)
Definition decodeValue (om : OptionMap) (code : Z) (dv : fval) : fval :=
  let '(dt, n) := elem_type dv in
  let o := z2b code in
  let rv :=
    match dt with
    | VUint w _ =>
        match GetOption om o with
        | Some v => if decide (0 < length v) then Some (VUint w (read_uint w v)) else None
        | None => None
        end
    | VInt w _ =>
        match GetOption om o with
        | Some v => if decide (0 < length v) then Some (VInt w (to_signed w (read_uint w v))) else None
        | None => None
        end
    | VString _ => VString <$> GetString om o
    | VBool _ => (λ v, VBool (bool_decide (0 < v)%Z)) <$> GetUint8 om o
    | _ => None
    end in
  match rv with
  | None => dv
  | Some rv => wrap_ptr n rv
  end.

(* @vendor/godhcpv4/option.go:331-366 OptionMap.Decode *)
Definition Decode (om : OptionMap) (st : struct) : struct :=
  (λ f, (f.1, decodeValue om f.1 f.2)) <$> st.

(** ** Lemmas on the parser *)
Section deserialize.
Implicit Types (om : OptionMap) (x : bytes) (i : bool).

Lemma deser_total fuel om x i : length x < fuel → is_Some (deser fuel om x i).
Proof.
  revert om x. induction fuel as [|fuel IH]; intros om x Hlen; [lia|].
  destruct x as [|tag x]; simpl; [by eauto|]. simpl in Hlen.
  case_decide; [by eauto|]. case_decide; [apply IH; lia|].
  destruct x as [|len x]; [by eauto|]. case_decide; [by eauto|].
  apply IH. rewrite length_drop. simpl in Hlen. lia.
Qed.

Lemma deser_mono fuel fuel' om x i r :
  deser fuel om x i = Some r → fuel ≤ fuel' → deser fuel' om x i = Some r.
Proof.
  revert fuel' om x. induction fuel as [|fuel IH]; intros fuel' om x H Hle; [done|].
  destruct fuel' as [|fuel']; [lia|]. simpl in *. repeat case_match; simplify_eq; try done;
    by (eapply IH; [done|lia]).
Qed.

Lemma deser_Deserialize fuel om x i :
  length x < fuel → deser fuel om x i = Some (Deserialize om x i).
Proof.
  intros Hlen. unfold Deserialize.
  destruct (deser_total (S (length x)) om x i ltac:(lia)) as [r Hr]. rewrite Hr.
  eapply deser_mono; [done|lia].
Qed.

Lemma Deserialize_nil om i :
  Deserialize om [] i = (om, if i then None else Some ErrShortPacket).
Proof. done. Qed.

Lemma Deserialize_end om x i : Deserialize om (OptionEnd :: x) i = (om, None).
Proof. done. Qed.

Lemma Deserialize_pad om x i : Deserialize om (OptionPad :: x) i = Deserialize om x i.
Proof.
  unfold Deserialize at 1. cbn [length]. change (deser (S (S (length x))) om (OptionPad :: x) i)
    with (deser (S (length x)) om x i). by rewrite deser_Deserialize by lia.
Qed.

Lemma Deserialize_tlv om k v x i :
  k ≠ OptionEnd → k ≠ OptionPad → length v ≤ 255 →
  Deserialize om (tlv k v ++ x) i = Deserialize (<[k := v]> om) x i.
Proof.
  intros Hend Hpad Hlen.
  assert (Z.to_nat (b2z (z2b (Z.of_nat (length v)))) = length v) as E
    by (rewrite b2z_z2b, Z.mod_small by lia; lia).
  unfold Deserialize at 1. remember (length (tlv k v ++ x)) as m eqn:Hm.
  unfold tlv. cbn [deser app]. rewrite !decide_False by done. rewrite E.
  rewrite decide_False by (rewrite length_app; lia).
  rewrite take_app_length, drop_app_length.
  rewrite deser_Deserialize; [done|]. subst m. unfold tlv. simpl. rewrite length_app. lia.
Qed.

(** A sequence of options, then an end tag: the rest is not looked at. *)
Lemma Deserialize_tlvs om (l : list (byte * bytes)) x i :
  Forall (λ kv, kv.1 ≠ OptionEnd ∧ kv.1 ≠ OptionPad ∧ length kv.2 ≤ 255) l →
  Deserialize om (concat ((λ kv, tlv kv.1 kv.2) <$> l) ++ OptionEnd :: x) i
  = (foldl (λ m kv, <[kv.1 := kv.2]> m) om l, None).
Proof.
  revert om. induction l as [|[k v] l IH]; intros om Hl; [done|].
  apply Forall_cons in Hl as [(? & ? & ?) Hl].
  cbn [fmap list_fmap concat foldl fst snd].
  rewrite <-app_assoc, Deserialize_tlv by done. by apply IH.
Qed.

End deserialize.

(** ** Serialize then Deserialize *)

(** The options [Serialize] can write: no longer than 255 bytes. *)
Definition serializable (om : OptionMap) : OptionMap :=
  filter (λ kv, length kv.2 ≤ 255) om.

Definition written (om : OptionMap) (order : list byte) : list (byte * bytes) :=
  omap (λ k, v ← om !! k; if decide (length v ≤ 255) then Some (k, v) else None) order.

Lemma Serialize_written om order :
  Serialize om order = concat ((λ kv, tlv kv.1 kv.2) <$> written om order) ++ [OptionEnd].
Proof.
  induction order as [|k order IH]; [done|].
  unfold Serialize, written in *. cbn [foldr omap list_omap]. rewrite IH.
  destruct (om !! k) as [v|]; [|done]. cbn [mbind option_bind].
  destruct (decide (255 < length v)); destruct (decide (length v ≤ 255)); try lia; [done|].
  cbn [fmap list_fmap concat fst snd]. by rewrite <-app_assoc.
Qed.

Lemma foldl_insert_lookup (l : list (byte * bytes)) (m : OptionMap) k :
  NoDup l.*1 →
  foldl (λ m kv, <[kv.1 := kv.2]> m) m l !! k
  = match list_to_map (M:=OptionMap) l !! k with Some v => Some v | None => m !! k end.
Proof.
  revert m. induction l as [|[a v] l IH]; intros m Hnd; [done|].
  apply NoDup_cons in Hnd as [Ha Hnd]. cbn [foldl fst snd]. rewrite IH by done.
  simpl. destruct (decide (k = a)) as [->|Hne].
  - rewrite lookup_insert_eq. rewrite not_elem_of_list_to_map_1 by done. by rewrite lookup_insert_eq.
  - by rewrite !lookup_insert_ne by done.
Qed.

Lemma written_keys om order : (written om order).*1 `sublist_of` order.
Proof.
  unfold written. induction order as [|k order IH]; [done|].
  cbn [omap list_omap]. destruct (om !! k) as [v|]; cbn [mbind option_bind]; [|by constructor].
  case_decide; [by constructor|by constructor].
Qed.

Lemma written_elem om order k v :
  (k, v) ∈ written om order ↔ k ∈ order ∧ om !! k = Some v ∧ length v ≤ 255.
Proof.
  unfold written. rewrite list_elem_of_omap. split.
  - intros (k' & Hk & H). destruct (om !! k') eqn:E; [|done]. simpl in H.
    case_decide; simplify_eq. done.
  - intros (Hk & E & Hl). exists k. split; [done|]. rewrite E. simpl. by rewrite decide_True.
Qed.

(** The map a packet parser builds from the options written in some order. *)
Lemma written_to_map om order (m : OptionMap) :
  NoDup order → (∀ k, k ∈ order ↔ k ∈ dom om) →
  foldl (λ m kv, <[kv.1 := kv.2]> m) m (written om order) = serializable om ∪ m.
Proof.
  intros Hnd Hdom. assert (NoDup (written om order).*1) as Hnd'
    by (by eapply sublist_NoDup; [done|apply written_keys]).
  apply map_eq. intros k. rewrite foldl_insert_lookup by done. rewrite lookup_union.
  assert (list_to_map (M:=OptionMap) (written om order) !! k = serializable om !! k) as ->.
  { destruct (serializable om !! k) as [v|] eqn:E.
    - apply map_lookup_filter_Some in E as [E Hl]. apply elem_of_list_to_map_1; [done|].
      apply written_elem. split; [|done]. apply Hdom, elem_of_dom. by exists v.
    - apply not_elem_of_list_to_map_1. intros Hin.
      apply list_elem_of_fmap in Hin as ([k' v] & -> & Hin).
      apply written_elem in Hin as (_ & E' & Hl).
      assert (serializable om !! k' = Some v) by (by apply map_lookup_filter_Some).
      simpl in *. congruence. }
  by destruct (serializable om !! k), (m !! k).
Qed.

(** No option uses one of the two tags that are not followed by a length. *)
Definition no_marker (om : OptionMap) : Prop := om !! OptionPad = None ∧ om !! OptionEnd = None.
#[global] Instance no_marker_dec om : Decision (no_marker om).
Proof. unfold no_marker. apply _. Defined.

Lemma written_wf om order :
  no_marker om →
  Forall (λ kv, kv.1 ≠ OptionEnd ∧ kv.1 ≠ OptionPad ∧ length kv.2 ≤ 255) (written om order).
Proof.
  intros [Hp He]. apply Forall_forall. intros [k v] Hin. apply written_elem in Hin as (_ & E & Hl).
  simpl. repeat split; [congruence|congruence|done].
Qed.

Lemma Deserialize_Serialize om m order rest i :
  no_marker om → NoDup order → (∀ k, k ∈ order ↔ k ∈ dom om) →
  Deserialize m (Serialize om order ++ rest) i = (serializable om ∪ m, None).
Proof.
  intros Hm Hnd Hdom. rewrite Serialize_written, <-app_assoc. cbn [app].
  rewrite Deserialize_tlvs by by apply written_wf.
  by rewrite written_to_map.
Qed.

(** Parsing what [Serialize] wrote into a map [m] (whatever the iteration
    order of Go's map, and whatever follows the end tag) adds exactly the
    options no longer than 255 bytes to [m] and reports no error. *)
Theorem Serialize_Deserialize om m order rest i :
  no_marker om → NoDup order → (∀ k, k ∈ order ↔ k ∈ dom om) →
  Deserialize m (Serialize om order ++ rest) i = (serializable om ∪ m, None).
Proof. apply Deserialize_Serialize. Qed.

Lemma Serialize_Deserialize_witness :
  no_marker {[ x35 := [x01]; x3d := [x0a; x0b] ]} ∧
  Deserialize ∅ (Serialize {[ x35 := [x01]; x3d := [x0a; x0b] ]} [x3d; x35] ++ []) false
  = (serializable {[ x35 := [x01]; x3d := [x0a; x0b] ]} ∪ ∅, None).
Proof.
  split; [by vm_compute|].
  apply (Serialize_Deserialize {[ x35 := [x01]; x3d := [x0a; x0b] ]} ∅ [x3d; x35] [] false).
  - by vm_compute.
  - by repeat constructor; set_solver.
  - intros k. rewrite dom_insert_L, dom_singleton_L. set_solver.
Defined.

(** ** Encode then Decode

    A struct field within its Go type's range, and the zero value it decodes
    over. *)
Fixpoint in_range (v : fval) : Prop :=
  match v with
  | VUint n z => 0 < n ∧ (0 ≤ z < 256 ^ Z.of_nat n)%Z
  | VInt n z => 0 < n ∧ (- (256 ^ Z.of_nat n / 2) ≤ z < 256 ^ Z.of_nat n / 2)%Z
  | VString _ | VBool _ => True
  | VNilPtr _ | VPtr _ => False
  end.

Definition zero_of (v : fval) : fval :=
  match v with
  | VUint n _ => VUint n 0
  | VInt n _ => VInt n 0
  | VString _ => VString ""
  | VBool _ => VBool false
  | v => v
  end.

Lemma encodeValue_other om c v k : k ≠ z2b c → encodeValue om c v !! k = om !! k.
Proof.
  intros Hk. induction v; simpl; unfold SetOption; try case_decide; try done;
    try (by rewrite lookup_insert_ne). destruct b; [by rewrite lookup_insert_ne|done].
Qed.

Lemma Encode_other om st k : k ∉ (λ f, z2b f.1) <$> st → Encode om st !! k = om !! k.
Proof.
  revert om. induction st as [|[c v] st IH]; intros om Hk; [done|].
  cbn [fmap list_fmap fst] in Hk. apply not_elem_of_cons in Hk as [Hk1 Hk2].
  unfold Encode in *. cbn [foldl fst snd]. rewrite IH by done. by apply encodeValue_other.
Qed.

(** [decodeValue] looks at its own option only. *)
Lemma decodeValue_ext om om' c v :
  om !! z2b c = om' !! z2b c → decodeValue om c v = decodeValue om' c v.
Proof.
  intros H. unfold decodeValue, GetString, GetUint8, GetUint, GetOption. by rewrite H.
Qed.

Lemma to_signed_mod n z :
  0 < n → (- (256 ^ Z.of_nat n / 2) ≤ z < 256 ^ Z.of_nat n / 2)%Z →
  to_signed n (z mod 256 ^ Z.of_nat n) = z.
Proof.
  intros Hn Hz. unfold to_signed. set (m := (256 ^ Z.of_nat n)%Z) in *.
  assert (m mod 2 = 0)%Z as Hm.
  { unfold m. replace n with (S (pred n)) by lia. rewrite Nat2Z.inj_succ, Z.pow_succ_r by lia.
    rewrite <-Z.mul_mod_idemp_l by lia. done. }
  assert (0 < m)%Z by (unfold m; lia). pose proof (Z.div_mod m 2 ltac:(lia)).
  destruct (decide (z < 0)%Z).
  - rewrite <-(Z.mod_add z 1), Z.mod_small by lia. rewrite decide_False by lia. lia.
  - rewrite Z.mod_small by lia. by rewrite decide_True by lia.
Qed.

Lemma read_uint_put n z : read_uint n (be_put n z) = (z mod 256 ^ Z.of_nat n)%Z.
Proof.
  unfold read_uint. rewrite length_be_put, decide_False by lia.
  rewrite take_ge by (rewrite length_be_put; lia). apply be_get_put.
Qed.

Lemma decode_encodeValue om c v :
  in_range v → om !! z2b c = None →
  decodeValue (encodeValue om c v) c (zero_of v) = v.
Proof.
  intros Hr Hom. destruct v as [n z|n z|s|b| |]; simpl in Hr; [..|done|done];
    unfold decodeValue, GetString, GetUint8, GetUint, GetOption, SetOption;
    cbn [zero_of elem_type encodeValue wrap_ptr].
  - case_decide as Hz.
    + unfold SetOption. rewrite lookup_insert_eq. unfold encodeInt. rewrite length_be_put, decide_True by lia.
      rewrite read_uint_put, Z.mod_small by lia. done.
    + rewrite Hom. f_equal. lia.
  - case_decide as Hz.
    + unfold SetOption. rewrite lookup_insert_eq. unfold encodeInt. rewrite length_be_put, decide_True by lia.
      rewrite read_uint_put, to_signed_mod by lia. done.
    + rewrite Hom. f_equal. lia.
  - case_decide as Hs.
    + unfold SetOption. rewrite lookup_insert_eq. simpl. by rewrite b2s_s2b.
    + rewrite Hom. destruct s; [done|simpl in Hs; lia].
  - destruct b; [unfold SetOption; by rewrite lookup_insert_eq|by rewrite Hom].
Qed.

Lemma Decode_Encode st :
  NoDup ((λ f, z2b f.1) <$> st) → Forall (λ f, in_range f.2) st →
  Decode (Encode ∅ st) (prod_map id zero_of <$> st) = st.
Proof.
  intros Hnd Hr. cut (∀ om, (∀ c, c ∈ st.*1 → om !! z2b c = None) →
    Decode (Encode om st) (prod_map id zero_of <$> st) = st); [intros H; by apply H|].
  induction st as [|[c v] st IH]; intros om Hom; [done|].
  cbn [fmap list_fmap fst] in Hnd, Hom.
  apply NoDup_cons in Hnd as [Hc Hnd]. apply Forall_cons in Hr as [Hv Hr].
  assert (Encode om ((c, v) :: st) !! z2b c = encodeValue om c v !! z2b c) as E
    by (by apply (Encode_other (encodeValue om c v))).
  unfold Decode. cbn [fmap list_fmap prod_map fst snd id]. f_equal.
  - f_equal. rewrite (decodeValue_ext _ _ _ _ E). apply decode_encodeValue; [done|].
    apply Hom. set_solver.
  - apply (IH Hnd Hr (encodeValue om c v)). intros c' Hc'. rewrite encodeValue_other.
    + apply Hom. set_solver.
    + intros Heq. apply Hc. rewrite <-Heq. apply list_elem_of_fmap in Hc' as (f & -> & Hf).
      by apply (list_elem_of_fmap_2 (λ f, z2b f.1)).
Qed.

(** For a struct whose fields are within their types' ranges and carry
    distinct codes, decoding the options that [Encode] produced over a zeroed
    struct gives the struct back (zero fields are omitted on the wire and come
    back as zero). *)
Theorem Encode_Decode st :
  NoDup ((λ f, z2b f.1) <$> st) → Forall (λ f, in_range f.2) st →
  Decode (Encode ∅ st) (prod_map id zero_of <$> st) = st.
Proof. apply Decode_Encode. Qed.

Lemma Encode_Decode_witness :
  let st := [(1, VInt 1 (-5)); (85, VString "x"); (176, VUint 1 1); (9, VBool false)]%Z in
  Decode (Encode ∅ st) (prod_map id zero_of <$> st) = st.
Proof.
  apply Encode_Decode.
  - apply NoDup_ListNoDup. repeat constructor; vm_compute; intuition discriminate.
  - rewrite !Forall_cons. simpl. repeat split; try lia; try done; idtac.
Defined.
