(* ===== verification/DhcpPacket.v ===== *)
(** * DHCP packets, replies and the packet loop: [godhcpv4/packet.go],
    [validation.go], [dhcp_offer.go], [dhcp_ack.go], [dhcp_nak.go],
    [handler.go]

    A packet is its raw bytes (fixed part and options) and the option map that
    was parsed from it or will be written after it.  [PacketToBytes] spreads
    the options over the options field and the [file] and [sname] fields. *)

From S2P Require Import Prelude GoNet DhcpOption.

(* @vendor/godhcpv4/packet.go:203-208 Packet *)
Record Packet := {
  RawPacket : bytes;
  OptMap : OptionMap;
  ifindex : Z
}.

(** Windows of the fixed part. *)
(* @vendor/godhcpv4/packet.go:43-54 RawPacket.Op *)
Definition window (off n : nat) (p : bytes) : bytes := take n (drop off p).
(* @vendor/godhcpv4/packet.go:60-81 RawPacket.SName *)
Definition p_Options (p : bytes) : bytes := drop 240 p.
Definition p_File (p : bytes) : bytes := window 108 128 p.
Definition p_SName (p : bytes) : bytes := window 44 64 p.

Definition byte_at (off : nat) (p : bytes) : byte := default x00 (p !! off).
(* @vendor/godhcpv4/packet.go:84-91 RawPacket.GetHType *)
Definition GetHType (p : Packet) : byte := byte_at 1 (RawPacket p).
Definition GetHLen (p : Packet) : byte := byte_at 2 (RawPacket p).
(* @vendor/godhcpv4/packet.go:94-105 RawPacket.GetXID *)
Definition GetXID (p : Packet) : bytes := window 4 4 (RawPacket p).
Definition GetFlags (p : Packet) : bytes := window 10 2 (RawPacket p).
(* @vendor/godhcpv4/packet.go:108-118 RawPacket.GetCHAddr *)
Definition GetCHAddr (p : Packet) : bytes :=
  let hlen := Nat.min (Z.to_nat (b2z (GetHLen p))) 16 in
  window 28 hlen (RawPacket p).
(* @vendor/godhcpv4/packet.go:121-173 RawPacket.GetCIAddr *)
Definition GetYIAddr (p : Packet) : IP := window 16 4 (RawPacket p).
Definition GetGIAddr (p : Packet) : IP := window 24 4 (RawPacket p).
(* @vendor/godhcpv4/packet.go:144-146 RawPacket.SetYIAddr *)
Definition SetYIAddr (p : Packet) (ip : IP) : Packet :=
  {| RawPacket := splice 16 4 ip (RawPacket p); OptMap := OptMap p; ifindex := ifindex p |}.
Definition SetOptMap (p : Packet) (om : OptionMap) : Packet :=
  {| RawPacket := RawPacket p; OptMap := om; ifindex := ifindex p |}.

(** Whether an overload flag asks for a field to be parsed too. *)
Definition overload_bit (om : OptionMap) (bit : Z) : bool :=
  match om !! OptionOverload with
  | Some (b :: _) => bool_decide (Z.land (b2z b) bit ≠ 0)%Z
  | _ => false
  end.

Definition parse_into (om : OptionMap) (x : bytes) : res OptionMap :=
  match Deserialize om x false with (om, None) => Ok om | (_, Some e) => Err e end.

(** The overload option is looked up again before the second field. *)
(* @vendor/godhcpv4/packet.go:175-201 RawPacket.ParseOptions *)
Definition ParseOptions (p : bytes) : res OptionMap :=
  opts :=? parse_into ∅ (p_Options p) ;;
  opts :=? (if overload_bit opts 1 then parse_into opts (p_File p) else Ok opts) ;;
  (if overload_bit opts 2 then parse_into opts (p_SName p) else Ok opts).

Definition cookie : bytes := [x63; x82; x53; x63].

Definition BootRequest : byte := x01.
Definition BootReply : byte := x02.

(* @vendor/godhcpv4/packet.go:211-221 NewPacket *)
Definition NewPacket (o : byte) : Packet :=
  {| RawPacket := splice 236 4 cookie (splice 0 1 [o] (replicate 240 x00));
     OptMap := ∅; ifindex := 0 |}.

(* @vendor/godhcpv4/packet.go:224-243 NewReply *)
Definition NewReply (req : Packet) : Packet :=
  let rep := RawPacket (NewPacket BootReply) in
  let rep := splice 1 1 [x01] rep in
  let rep := splice 2 1 [x06] rep in
  let rep := splice 4 4 (GetXID req) rep in
  let rep := splice 10 2 (GetFlags req) rep in
  let rep := splice 28 16 (GetCHAddr req) rep in
  let rep := splice 24 4 (GetGIAddr req) rep in
  {| RawPacket := rep; OptMap := ∅; ifindex := 0 |}.

(* @vendor/godhcpv4/packet.go:254-273 PacketFromBytes *)
Definition PacketFromBytes (b : bytes) : res Packet :=
  if decide (length b < 240) then Err ErrShortPacket
  else om :=? ParseOptions b ;;
       Ok {| RawPacket := b; OptMap := om; ifindex := 0 |}.

(* @vendor/godhcpv4/packet.go:275-279 packetToBytesOptions *)
Record packetToBytesOptions := { maxLen : Z; skipFile : bool; skipSName : bool }.

(** A buffer is its capacity and its contents.  [place] tries the buffers in
    order; the first one keeps three bytes for the overload option and every
    one keeps a byte for the end tag. *)
(* @vendor/godhcpv4/packet.go:325-349 PacketToBytes *)
Fixpoint place (i : nat) (bufs : list (nat * bytes)) (k : byte) (v : bytes) : list (nat * bytes) :=
  match bufs with
  | [] => []
  | (cap, b) :: bs =>
      let f := (Z.of_nat cap - Z.of_nat (length b) - (if i is O then 3 else 0) - 1)%Z in
      if decide (f < 2 + Z.of_nat (length v))%Z
      then (cap, b) :: place (S i) bs k v
      else (cap, b ++ tlv k v) :: bs
  end.

(* @vendor/godhcpv4/packet.go:315-350 PacketToBytes *)
Definition place_all (om : OptionMap) (bufs : list (nat * bytes)) (ks : list byte) : list (nat * bytes) :=
  foldl (λ bufs k, match om !! k with
                   | Some v => if decide (255 < length v) then bufs else place 0 bufs k v
                   | None => bufs
                   end) bufs ks.

(* @vendor/godhcpv4/packet.go:289-295 PacketToBytes *)
Definition max_len (opts : packetToBytesOptions) : Z :=
  if decide (576 < maxLen opts)%Z then maxLen opts else 1500%Z.

(* @vendor/godhcpv4/packet.go:297-311 PacketToBytes *)
Definition buffers (opts : packetToBytesOptions) : list (nat * bytes) :=
  [(Z.to_nat (max_len opts - 240), []);
   (if skipFile opts then 0 else 128, []);
   (if skipSName opts then 0 else 64, [])].

(* @vendor/godhcpv4/packet.go:353-359 PacketToBytes *)
Definition end_tag (i : nat) (b : bytes) : bytes :=
  if decide (i = 0 ∨ 0 < length b) then b ++ [OptionEnd] else b.

(* @vendor/godhcpv4/packet.go:281-399 PacketToBytes *)
Definition PacketToBytes (p : Packet) (opts : packetToBytesOptions) : res bytes :=
  if decide (length (RawPacket p) < 240) then Err ErrInvalidPacket
  else
    match place_all (OptMap p) (buffers opts) (sortedOptions (OptMap p)) with
    | [(_, b0); (_, b1); (_, b2)] =>
        let b0 := end_tag 0 b0 in
        let b1 := end_tag 1 b1 in
        let b2 := end_tag 2 b2 in
        let base := take 240 (RawPacket p) in
        let base := if decide (0 < length b1) then splice 108 128 b1 base else base in
        let base := if decide (0 < length b2) then splice 44 64 b2 base else base in
        let overload := ((if decide (0 < length b1)%nat then 1 else 0)
                         + (if decide (0 < length b2)%nat then 2 else 0))%Z in
        let ov := if decide (0 < length b1 ∨ 0 < length b2)
                  then tlv OptionOverload [z2b overload] else [] in
        Ok (base ++ ov ++ b0)
    | _ => Err ErrInvalidPacket
    end.

(** ** Validation *)
(* @vendor/godhcpv4/validation.go:5-7 Validation *)
Inductive Validation :=
  | validateMust (o : byte) (have : bool)
  | validateAllowedOptions (allowed : list byte).

(* @vendor/godhcpv4/validation.go:46-52 ValidateMustNot *)
Definition ValidateMustNot (o : byte) : Validation := validateMust o false.
Definition ValidateMust (o : byte) : Validation := validateMust o true.

(* @vendor/godhcpv4/validation.go:22-79 validateMust.Validate *)
Definition validation_ok (v : Validation) (p : Packet) : res () :=
  match v with
  | validateMust o true =>
      if OptMap p !! o then Ok () else Err (Errorf ("dhcpv4: packet MUST have field " +:+ fmt_d (b2z o)))
  | validateMust o false =>
      if OptMap p !! o then Err (Errorf ("dhcpv4: packet MUST NOT have field " +:+ fmt_d (b2z o))) else Ok ()
  | validateAllowedOptions allowed =>
      match filter (λ k, k ∉ allowed) (elements (dom (OptMap p))) with
      | [] => Ok ()
      | k :: _ => Err (Errorf ("dhcpv4: packet MUST NOT have field " +:+ fmt_d (b2z k)))
      end
  end.

(* @vendor/godhcpv4/validation.go:9-20 Validate *)
Fixpoint Validate (p : Packet) (vs : list Validation) : res () :=
  match vs with
  | [] => Ok ()
  | v :: vs => match validation_ok v p with Ok _ => Validate p vs | Err e => Err e end
  end.

(** ** Requests and replies

    A request is the packet and, for the kinds that may be answered, the
    writer of the reply.  [writeReplyWithServerID] is slingshot's wrapper
    around it (slingshot/dhcp/server.go). *)
Record UDPAddr := { UDP_IP : IP; UDP_Port : Z }.
#[global] Instance UDPAddr_eq_dec : EqDecision UDPAddr.
Proof. solve_decision. Defined.

(* @vendor/godhcpv4/handler.go:32-41 replyWriter *)
Record replyWriter := {
  rw_addr : UDPAddr;
  rw_addrBroadcastOverride : UDPAddr;
  rw_ifindex : Z
}.

Inductive ReplyWriter :=
  | plainWriter (rw : replyWriter)
  | writeReplyWithServerID (ip : IP) (rw : ReplyWriter).

(* @vendor/godhcpv4/common.go:4-10 Request *)
Record Request := { req_packet : Packet; req_writer : option ReplyWriter }.

Definition req_type (r : Request) : byte := GetMessageType (OptMap (req_packet r)).
Definition InterfaceIndex (r : Request) : Z := ifindex (req_packet r).

Inductive reply_kind := DHCPOffer | DHCPAck | DHCPNak.
#[global] Instance reply_kind_eq_dec : EqDecision reply_kind.
Proof. solve_decision. Defined.

(* @vendor/godhcpv4/common.go:13-20 Reply *)
Record Reply := { rep_kind : reply_kind; rep_packet : Packet; rep_req : Request }.

Definition rep_map (f : OptionMap → OptionMap) (r : Reply) : Reply :=
  {| rep_kind := rep_kind r;
     rep_packet := SetOptMap (rep_packet r) (f (OptMap (rep_packet r)));
     rep_req := rep_req r |}.

Definition create_reply (k : reply_kind) (m : byte) (req : Request) : Reply :=
  rep_map (λ om, SetMessageType om m)
    {| rep_kind := k; rep_packet := NewReply (req_packet req); rep_req := req |}.

(* @vendor/godhcpv4/dhcp_offer.go:13-21 CreateDHCPOffer *)
Definition CreateDHCPOffer : Request → Reply := create_reply DHCPOffer MessageTypeDHCPOffer.
(* @vendor/godhcpv4/dhcp_ack.go:13-21 CreateDHCPAck *)
Definition CreateDHCPAck : Request → Reply := create_reply DHCPAck MessageTypeDHCPAck.
(* @vendor/godhcpv4/dhcp_nak.go:14-22 CreateDHCPNak *)
Definition CreateDHCPNak : Request → Reply := create_reply DHCPNak MessageTypeDHCPNak.

(* @vendor/godhcpv4/dhcp_offer.go:38-45 dhcpOfferValidation *)
Definition dhcpOfferValidation : list Validation :=
  [ValidateMustNot OptionAddressRequest; ValidateMust OptionAddressTime;
   ValidateMustNot OptionParameterList; ValidateMustNot OptionClientID;
   ValidateMust OptionDHCPServerID; ValidateMustNot OptionDHCPMaxMsgSize].

(* @vendor/godhcpv4/dhcp_ack.go:39-53 dhcpAckValidation *)
Definition dhcpAckValidation : list Validation :=
  [ValidateMustNot OptionAddressRequest; ValidateMustNot OptionParameterList;
   ValidateMustNot OptionClientID; ValidateMust OptionDHCPServerID;
   ValidateMustNot OptionDHCPMaxMsgSize].

(* @vendor/godhcpv4/dhcp_nak.go:39-50 dhcpNakValidation *)
Definition dhcpNakValidation : list Validation :=
  [ValidateMust OptionDHCPServerID;
   validateAllowedOptions [OptionDHCPMsgType; OptionDHCPMessage; OptionClientID;
                           OptionClassID; OptionDHCPServerID]].

(* @vendor/godhcpv4/dhcp_ack.go:55-71 DHCPAck.Validate *)
Definition Reply_Validate (r : Reply) : res () :=
  match rep_kind r with
  | DHCPOffer => Validate (rep_packet r) dhcpOfferValidation
  | DHCPNak => Validate (rep_packet r) dhcpNakValidation
  | DHCPAck =>
      let t := req_type (rep_req r) in
      first :=? (if decide (t = MessageTypeDHCPRequest)
                 then Validate (rep_packet r) [ValidateMust OptionAddressTime]
                 else if decide (t = MessageTypeDHCPInform)
                 then Validate (rep_packet r) [ValidateMustNot OptionAddressTime]
                 else Ok ()) ;;
      Validate (rep_packet r) dhcpAckValidation
  end.

(** [binary.BigEndian.Uint16] panics on fewer than two bytes. *)
Definition Uint16 (v : bytes) : outcome Z :=
  match v with h :: l :: _ => Ret (b2z h * 256 + b2z l)%Z | _ => Panic end.

(* @vendor/godhcpv4/dhcp_offer.go:51-60 DHCPOffer.ToBytes *)
Definition Reply_ToBytes (r : Reply) : outcome (res bytes) :=
  let skip := bool_decide (rep_kind r = DHCPNak) in
  let opts m := {| maxLen := m; skipFile := skip; skipSName := skip |} in
  match GetOption (OptMap (req_packet (rep_req r))) OptionDHCPMaxMsgSize with
  | Some v => out_bind (Uint16 v) (λ m, Ret (PacketToBytes (rep_packet r) (opts m)))
  | None => Ret (PacketToBytes (rep_packet r) (opts 0%Z))
  end.

(** ** Sending a reply *)
Definition IP_zero (ip : IP) : bool := IP_Equal ip IPv4zero.

(** Where a reply goes: back to the client's address, or broadcast when the
    client has no address or asks for it. *)
(* @vendor/godhcpv4/handler.go:56-70 replyWriter.WriteReply *)
Definition reply_addr (rw : replyWriter) (req : Request) : UDPAddr :=
  let addr := rw_addr rw in
  let bcast := Z.land (b2z (byte_at 0 (GetFlags (req_packet req)))) 128 in
  if decide (IP_zero (UDP_IP addr) = true ∨ 0 < bcast)%Z then
    {| UDP_IP := if IP_zero (UDP_IP (rw_addrBroadcastOverride rw)) then IPv4bcast
                 else UDP_IP (rw_addrBroadcastOverride rw);
       UDP_Port := UDP_Port addr |}
  else addr.

(** A datagram handed to the packet connection. *)
Record datagram := { dg_bytes : bytes; dg_addr : UDPAddr; dg_ifindex : Z }.

Section write_reply.
(** The network's answer to a write. *)
Context (WriteTo : datagram → option error).

(* @vendor/godhcpv4/handler.go:43-78 replyWriter.WriteReply *)
Definition replyWriter_WriteReply (rw : replyWriter) (r : Reply) : outcome (list datagram * option error) :=
  match Reply_Validate r with
  | Err e => Ret ([], Some e)
  | Ok _ =>
      match Reply_ToBytes r with
      | Panic => Panic
      | Ret (Err e) => Ret ([], Some e)
      | Ret (Ok b) =>
          let d := {| dg_bytes := b; dg_addr := reply_addr rw (rep_req r); dg_ifindex := rw_ifindex rw |} in
          Ret ([d], WriteTo d)
      end
  end.

(** slingshot's writer first adds the server identifier. *)
(* @slingshot/dhcp/server.go:49-52 writeReplyWithServerID.WriteReply *)
Fixpoint WriteReply (w : ReplyWriter) (r : Reply) : outcome (list datagram * option error) :=
  match w with
  | plainWriter rw => replyWriter_WriteReply rw r
  | writeReplyWithServerID ip w =>
      WriteReply w (rep_map (λ om, SetOption om OptionDHCPServerID (To4 ip)) r)
  end.
End write_reply.

(** The kinds of packets the loop hands to the handler; only discover, request
    and inform packets may be answered. *)
(* @vendor/godhcpv4/handler.go:96-148 Serve *)
Definition accept (b : bytes) (addr : UDPAddr) (ifx : Z) (override : option UDPAddr) : option Request :=
  match PacketFromBytes b with
  | Err _ => None
  | Ok p =>
      let p := {| RawPacket := RawPacket p; OptMap := OptMap p; ifindex := ifx |} in
      if decide (byte_at 0 (RawPacket p) ≠ BootRequest) then None
      else
        let rw := {| rw_addr := addr;
                     rw_addrBroadcastOverride := default {| UDP_IP := []; UDP_Port := 0 |} override;
                     rw_ifindex := ifx |} in
        let t := GetMessageType (OptMap p) in
        if decide (t = MessageTypeDHCPDiscover ∨ t = MessageTypeDHCPRequest ∨ t = MessageTypeDHCPInform)
        then Some {| req_packet := p; req_writer := Some (plainWriter rw) |}
        else if decide (t = MessageTypeDHCPDecline ∨ t = MessageTypeDHCPRelease)
        then Some {| req_packet := p; req_writer := None |}
        else None
  end.

(** ** Lemmas: option placement *)
Definition tlvs (l : list (byte * bytes)) : bytes := concat ((λ kv, tlv kv.1 kv.2) <$> l).

Lemma tlvs_app l l' : tlvs (l ++ l') = tlvs l ++ tlvs l'.
Proof. unfold tlvs. by rewrite fmap_app, concat_app. Qed.

Lemma tlvs_snoc l k v : tlvs (l ++ [(k, v)]) = tlvs l ++ tlv k v.
Proof. rewrite tlvs_app. unfold tlvs at 2. cbn. by rewrite app_nil_r. Qed.

Lemma tlvs_cons l k v : tlvs ((k, v) :: l) = tlv k v ++ tlvs l.
Proof. done. Qed.

Lemma length_tlv k v : length (tlv k v) = 2 + length v.
Proof. done. Qed.

Definition reserve (i : nat) : nat := if i is O then 3 else 0.

(** What holds of a buffer while options are placed: it is a sequence of
    options of the map, and what is reserved still fits. *)
Definition buf_ok (om : OptionMap) (i : nat) (cb : nat * bytes) : Prop :=
  ∃ l, cb.2 = tlvs l ∧
       Forall (λ kv, om !! kv.1 = Some kv.2 ∧ length kv.2 ≤ 255) l ∧
       (cb.2 = [] ∨ length cb.2 + reserve i + 1 ≤ cb.1).

Definition bufs_ok (om : OptionMap) (i : nat) (bufs : list (nat * bytes)) : Prop :=
  ∀ j cb, bufs !! j = Some cb → buf_ok om (i + j) cb.

Lemma bufs_ok_cons om i cb bs : bufs_ok om i (cb :: bs) ↔ buf_ok om i cb ∧ bufs_ok om (S i) bs.
Proof.
  unfold bufs_ok. split.
  - intros H. split; [rewrite <-(Nat.add_0_r i); by apply (H 0)|].
    intros j cb' Hj. replace (S i + j) with (i + S j) by lia.
    by apply (H (S j)).
  - intros [H1 H2] [|j] cb' Hj; [simplify_eq/=; by rewrite Nat.add_0_r|].
    replace (i + S j) with (S i + j) by lia. by apply H2.
Qed.

Lemma place_ok om i bufs k v :
  om !! k = Some v → length v ≤ 255 → bufs_ok om i bufs → bufs_ok om i (place i bufs k v).
Proof.
  intros Hk Hv. revert i. induction bufs as [|[cap b] bufs IH]; intros i H; [done|].
  apply bufs_ok_cons in H as [Hb Hbs]. simpl. case_decide as Hf.
  - apply bufs_ok_cons. split; [done|]. by apply IH.
  - apply bufs_ok_cons. split; [|done]. destruct Hb as (l & Hb & Hl & _).
    cbn [snd] in Hb. subst b. exists (l ++ [(k, v)]). rewrite tlvs_snoc. split; [done|]. split; [apply Forall_app_2; [done|by apply Forall_singleton]|]. right.
    cbn [fst snd]. rewrite length_app, length_tlv. cbn [snd] in Hf. unfold reserve. destruct i; lia.
Qed.

Lemma place_all_ok om bufs ks : bufs_ok om 0 bufs → bufs_ok om 0 (place_all om bufs ks).
Proof.
  unfold place_all. revert bufs. induction ks as [|k ks IH]; intros bufs H; [done|].
  simpl. apply IH. destruct (om !! k) as [v|] eqn:E; [|done].
  case_decide; [done|]. apply place_ok; [done|lia|done].
Qed.

Lemma place_caps i bufs k v : (place i bufs k v).*1 = bufs.*1.
Proof.
  revert i. induction bufs as [|[cap b] bufs IH]; intros i; [done|].
  simpl. case_decide; simpl; [by rewrite IH|done].
Qed.

Lemma place_all_caps om bufs ks : (place_all om bufs ks).*1 = bufs.*1.
Proof.
  unfold place_all. revert bufs. induction ks as [|k ks IH]; intros bufs; [done|].
  simpl. rewrite IH. destruct (om !! k); [|done]. case_decide; [done|apply place_caps].
Qed.

(** The three buffers of a packet after placement. *)
Lemma place_all_buffers om opts ks :
  ∃ l0 l1 l2,
    place_all om (buffers opts) ks
    = [(Z.to_nat (max_len opts - 240), tlvs l0);
       (if skipFile opts then 0 else 128, tlvs l1);
       (if skipSName opts then 0 else 64, tlvs l2)] ∧
    Forall (λ kv, om !! kv.1 = Some kv.2 ∧ length kv.2 ≤ 255) (l0 ++ l1 ++ l2) ∧
    (length (tlvs l0) + 4 ≤ Z.to_nat (max_len opts - 240)) ∧
    (tlvs l1 = [] ∨ length (tlvs l1) + 1 ≤ 128) ∧
    (tlvs l2 = [] ∨ length (tlvs l2) + 1 ≤ 64).
Proof.
  assert (bufs_ok om 0 (place_all om (buffers opts) ks)) as Hok.
  { apply place_all_ok. unfold buffers. rewrite !bufs_ok_cons.
    split_and!; try done; exists []; (split; [done|]); (split; [constructor|by left]). }
  pose proof (place_all_caps om (buffers opts) ks) as Hcaps.
  assert (576 < max_len opts)%Z as Hmax by (unfold max_len; case_decide; lia).
  destruct (place_all om (buffers opts) ks) as [|[c0 b0] [|[c1 b1] [|[c2 b2] [|]]]]; try done.
  injection Hcaps as -> -> ->. rewrite !bufs_ok_cons in Hok.
  destruct Hok as ((l0 & ? & Hl0 & Hs0) & (l1 & ? & Hl1 & Hs1) & (l2 & ? & Hl2 & Hs2) & _).
  simpl in *. subst b0 b1 b2. exists l0, l1, l2. split; [done|].
  split; [by rewrite !Forall_app|]. split.
  { destruct Hs0 as [->|Hs0]; [simpl; lia|]. lia. }
  split; [destruct Hs1; [by left|right]; destruct (skipFile opts); lia|].
  destruct Hs2; [by left|right]; destruct (skipSName opts); lia.
Qed.

(** ** Lemmas: parsing a list of options *)
Definition insert_all (m : OptionMap) (l : list (byte * bytes)) : OptionMap :=
  foldl (λ m kv, <[kv.1 := kv.2]> m) m l.

Lemma insert_all_other m l k : k ∉ l.*1 → insert_all m l !! k = m !! k.
Proof.
  unfold insert_all. revert m. induction l as [|[a v] l IH]; intros m Hk; [done|].
  cbn [fmap list_fmap fst] in Hk. apply not_elem_of_cons in Hk as [Ha Hk].
  cbn [foldl fst snd]. rewrite IH by done. by rewrite lookup_insert_ne.
Qed.

Lemma insert_all_inv m l k v :
  insert_all m l !! k = Some v → (k, v) ∈ l ∨ m !! k = Some v.
Proof.
  unfold insert_all. revert m. induction l as [|[a w] l IH]; intros m H; [by right|].
  cbn [foldl fst snd] in H. destruct (IH _ H) as [Hin|Hm]; [left; set_solver|].
  destruct (decide (a = k)) as [->|Hne].
  - rewrite lookup_insert_eq in Hm. simplify_eq. left. set_solver.
  - rewrite lookup_insert_ne in Hm by done. by right.
Qed.

(** The options a list holds, all taken from one map without marker tags. *)
Abbreviation from om := (Forall (λ kv : byte * bytes, om !! kv.1 = Some kv.2 ∧ length kv.2 ≤ 255)).

Lemma from_wf (om : OptionMap) l : no_marker om → from om l →
  Forall (λ kv, kv.1 ≠ OptionEnd ∧ kv.1 ≠ OptionPad ∧ length kv.2 ≤ 255) l.
Proof.
  intros [Hp He] H. eapply Forall_impl; [done|]. intros [k v] [E Hl]. simpl in *.
  split_and!; [congruence|congruence|done].
Qed.

Lemma from_not_key (om : OptionMap) l k : om !! k = None → from om l → k ∉ l.*1.
Proof.
  intros Hk H Hin. apply list_elem_of_fmap in Hin as ([k' v] & -> & Hin).
  rewrite Forall_forall in H. destruct (H _ Hin). simpl in *. congruence.
Qed.

Abbreviation wf_tlvs := (Forall (λ kv : byte * bytes,
  kv.1 ≠ OptionEnd ∧ kv.1 ≠ OptionPad ∧ length kv.2 ≤ 255)).

Lemma parse_into_tlvs m l rest : wf_tlvs l →
  parse_into m (tlvs l ++ OptionEnd :: rest) = Ok (insert_all m l).
Proof. intros Hl. unfold parse_into, tlvs. by rewrite Deserialize_tlvs. Qed.

Lemma tlvs_nil l : tlvs l = [] ↔ l = [].
Proof. split; [|by intros ->]. destruct l as [|[k v] l]; [done|]. unfold tlvs. cbn. done. Qed.

Lemma end_tag_tlvs i l : i ≠ 0 →
  end_tag i (tlvs l) = if decide (l = []) then [] else tlvs l ++ [OptionEnd].
Proof.
  intros Hi. unfold end_tag. destruct (decide (l = [])) as [->|Hl].
  - rewrite decide_False; [done|]. intros [|H]; [done|]. simpl in H. lia.
  - rewrite decide_True; [done|]. right. destruct (tlvs l) eqn:E; [by apply tlvs_nil in E|simpl; lia].
Qed.

(** An overloaded field: the options and the end tag, then what was there. *)
Definition overlay (off n : nat) (l : list (byte * bytes)) (base : bytes) : bytes :=
  if decide (l = []) then base else splice off n (tlvs l ++ [OptionEnd]) base.

Definition overload_of (l1 l2 : list (byte * bytes)) : list (byte * bytes) :=
  if decide (l1 = [] ∧ l2 = []) then []
  else [(OptionOverload, [z2b ((if decide (l1 = []) then 0 else 1) + (if decide (l2 = []) then 0 else 2))])].

(** The bytes [PacketToBytes] produces, as the three lists of options. *)
Lemma PacketToBytes_layout p opts :
  240 ≤ length (RawPacket p) →
  ∃ l0 l1 l2,
    PacketToBytes p opts
    = Ok (overlay 44 64 l2 (overlay 108 128 l1 (take 240 (RawPacket p)))
          ++ tlvs (overload_of l1 l2) ++ tlvs l0 ++ [OptionEnd]) ∧
    place_all (OptMap p) (buffers opts) (sortedOptions (OptMap p))
    = [(Z.to_nat (max_len opts - 240), tlvs l0);
       (if skipFile opts then 0 else 128, tlvs l1);
       (if skipSName opts then 0 else 64, tlvs l2)] ∧
    from (OptMap p) (l0 ++ l1 ++ l2) ∧
    length (tlvs l0) + 4 ≤ Z.to_nat (max_len opts - 240) ∧
    length (tlvs l1 ++ [OptionEnd]) ≤ 128 ∧ length (tlvs l2 ++ [OptionEnd]) ≤ 64.
Proof.
  intros Hraw.
  destruct (place_all_buffers (OptMap p) opts (sortedOptions (OptMap p)))
    as (l0 & l1 & l2 & Hpl & Hfrom & Hs0 & Hs1 & Hs2).
  exists l0, l1, l2. split_and!; try done.
  - unfold PacketToBytes. rewrite decide_False by lia. rewrite Hpl.
    rewrite !end_tag_tlvs by done. unfold overlay, overload_of.
    change (end_tag 0 (tlvs l0)) with (tlvs l0 ++ [OptionEnd]).
    assert (∀ l, length (tlvs l ++ [OptionEnd]) = S (length (tlvs l))) as Hlen
      by (intros l; rewrite length_app; simpl; lia).
    destruct (decide (l1 = [])) as [->|H1], (decide (l2 = [])) as [->|H2]; cbn [length];
      rewrite ?Hlen; repeat first
        [rewrite (decide_True (P:=_ ∧ _)) by done | rewrite (decide_False (P:=_ ∧ _)) by (intros []; done)
        |rewrite (decide_True (P:=_ ∨ _)) by lia | rewrite (decide_False (P:=_ ∨ _)) by lia
        |rewrite (decide_True (P:=_ < _)) by lia | rewrite (decide_False (P:=_ < _)) by lia]; done.
  - rewrite length_app. simpl. destruct Hs1 as [->|]; simpl; lia.
  - rewrite length_app. simpl. destruct Hs2 as [->|]; simpl; lia.
Qed.

Lemma length_overlay off n l base : off + n ≤ length base → length (overlay off n l base) = length base.
Proof. intros H. unfold overlay. case_decide; [done|by apply length_splice]. Qed.

Lemma take_overlay off n l base m : m ≤ off → off + n ≤ length base →
  take m (overlay off n l base) = take m base.
Proof. intros H1 H2. unfold overlay. case_decide; [done|by apply splice_take]. Qed.

Lemma drop_overlay off n l base m : off + n ≤ m → m ≤ length base →
  drop m (overlay off n l base) = drop m base.
Proof. intros H1 H2. unfold overlay. case_decide; [done|by apply splice_drop]. Qed.

Lemma window_overlay off n l base :
  off + n ≤ length base → l ≠ [] → length (tlvs l ++ [OptionEnd]) ≤ n →
  ∃ r, window off n (overlay off n l base) = tlvs l ++ OptionEnd :: r.
Proof.
  intros Hb Hl Hn. unfold overlay, window. rewrite decide_False by done.
  rewrite splice_at by done.
  exists (take (n - length (tlvs l ++ [OptionEnd])) (drop (off + length (tlvs l ++ [OptionEnd])) base)).
  rewrite take_app. rewrite (take_ge (tlvs l ++ [OptionEnd])) by lia. by rewrite <-app_assoc.
Qed.

Lemma window_drop off n (x y : bytes) : drop off x = drop off y → window off n x = window off n y.
Proof. unfold window. by intros ->. Qed.

Lemma overload_bits_of (m : OptionMap) l1 l2 l :
  OptionOverload ∉ l.*1 →
  m !! OptionOverload = None →
  let m' := insert_all (insert_all m (overload_of l1 l2)) l in
  overload_bit m' 1 = bool_decide (l1 ≠ []) ∧ overload_bit m' 2 = bool_decide (l2 ≠ []).
Proof.
  intros Hl Hm m'. unfold overload_bit.
  assert (m' !! OptionOverload = insert_all m (overload_of l1 l2) !! OptionOverload) as ->
    by by apply insert_all_other.
  unfold overload_of, insert_all.
  destruct (decide (l1 = [])) as [->|H1], (decide (l2 = [])) as [->|H2];
    rewrite ?decide_True, ?decide_False by naive_solver; cbn [foldl fst snd];
    rewrite ?lookup_insert_eq, ?Hm; split; repeat case_bool_decide; try done;
    exfalso; vm_compute in *; naive_solver.
Qed.

Lemma overload_wf l1 l2 : wf_tlvs (overload_of l1 l2).
Proof.
  unfold overload_of. case_decide; [constructor|]. apply Forall_singleton. cbn [fst snd length].
  repeat split; [done|done|lia].
Qed.

Lemma insert_all_app m l l' : insert_all m (l ++ l') = insert_all (insert_all m l) l'.
Proof. unfold insert_all. by rewrite foldl_app. Qed.

(** Parsing a packet that was laid out over the three fields. *)
Lemma parse_layout (om : OptionMap) base l0 l1 l2 :
  length base = 240 → no_marker om → om !! OptionOverload = None → from om (l0 ++ l1 ++ l2) →
  length (tlvs l1 ++ [OptionEnd]) ≤ 128 → length (tlvs l2 ++ [OptionEnd]) ≤ 64 →
  ParseOptions (overlay 44 64 l2 (overlay 108 128 l1 base) ++ tlvs (overload_of l1 l2) ++ tlvs l0 ++ [OptionEnd])
  = Ok (insert_all ∅ (overload_of l1 l2 ++ l0 ++ l1 ++ l2)).
Proof.
  intros Hbase Hm Hov Hfrom H1 H2.
  apply Forall_app in Hfrom as [F0 [F1 F2]%Forall_app].
  set (base1 := overlay 108 128 l1 base). set (base2 := overlay 44 64 l2 base1).
  assert (length base1 = 240) as Hb1 by (unfold base1; by rewrite length_overlay by lia).
  assert (length base2 = 240) as Hb2 by (unfold base2; by rewrite length_overlay by lia).
  set (b := base2 ++ _).
  assert (p_Options b = tlvs (overload_of l1 l2 ++ l0) ++ OptionEnd :: []) as EO.
  { unfold p_Options, b. rewrite <-Hb2, drop_app_length, tlvs_app, <-app_assoc. done. }
  assert (p_File b = window 108 128 base1) as EF.
  { unfold p_File, window, b. rewrite drop_app_le by lia.
    rewrite take_app_le by (rewrite length_drop; lia). unfold base2. by rewrite drop_overlay by lia. }
  assert (p_SName b = window 44 64 base2) as ES.
  { unfold p_SName, window, b. rewrite drop_app_le by lia.
    by rewrite take_app_le by (rewrite length_drop; lia). }
  unfold ParseOptions. rewrite EO, parse_into_tlvs
    by (apply Forall_app_2; [apply overload_wf|by eapply from_wf]).
  cbn [res_bind]. rewrite insert_all_app.
  destruct (overload_bits_of ∅ l1 l2 l0) as [B1 _];
    [by eapply from_not_key|done|]. rewrite B1.
  assert ((if bool_decide (l1 ≠ []) then parse_into (insert_all (insert_all ∅ (overload_of l1 l2)) l0) (p_File b)
           else Ok (insert_all (insert_all ∅ (overload_of l1 l2)) l0))
          = Ok (insert_all (insert_all ∅ (overload_of l1 l2)) (l0 ++ l1))) as ->.
  { rewrite insert_all_app. case_bool_decide as Hl1.
    - rewrite EF. destruct (window_overlay 108 128 l1 base) as [r Hr]; [lia|done|done|].
      unfold base1. rewrite Hr. by rewrite parse_into_tlvs by by eapply from_wf.
    - destruct (decide (l1 = [])) as [->|]; done. }
  cbn [res_bind].
  destruct (overload_bits_of ∅ l1 l2 (l0 ++ l1)) as [_ B2];
    [eapply from_not_key; [done|]; by apply Forall_app_2|done|]. rewrite B2.
  rewrite !insert_all_app. case_bool_decide as Hl2.
  - rewrite ES. destruct (window_overlay 44 64 l2 base1) as [r Hr]; [lia|done|done|].
    unfold base2. rewrite Hr. by rewrite parse_into_tlvs by by eapply from_wf.
  - destruct (decide (l2 = [])) as [->|]; done.
Qed.

(** The options that end up in the first buffer when they all fit there. *)
Lemma place_all_fit om cap b bs ks :
  length b + length (tlvs (written om ks)) + 4 ≤ cap →
  place_all om ((cap, b) :: bs) ks = (cap, b ++ tlvs (written om ks)) :: bs.
Proof.
  revert b. unfold place_all, written. induction ks as [|k ks IH]; intros b Hlen.
  { simpl in *. unfold tlvs. simpl. by rewrite app_nil_r. }
  cbn [foldl omap list_omap] in *. destruct (om !! k) as [v|]; cbn [mbind option_bind] in *; [|by apply IH].
  destruct (decide (length v ≤ 255)); destruct (decide (255 < length v)); try lia; [|by apply IH].
  rewrite tlvs_cons in *. rewrite length_app, length_tlv in Hlen.
  cbn [place]. rewrite decide_False by lia. rewrite IH by (rewrite length_app, length_tlv; lia).
  by rewrite app_assoc.
Qed.

Lemma sortedOptions_NoDup om : NoDup (sortedOptions om).
Proof. unfold sortedOptions. rewrite merge_sort_Permutation. apply NoDup_elements. Qed.

Lemma elem_of_sortedOptions om k : k ∈ sortedOptions om ↔ k ∈ dom om.
Proof. unfold sortedOptions. rewrite merge_sort_Permutation. apply elem_of_elements. Qed.

(** ** Properties *)

(** Serialising a packet succeeds for every packet with a fixed part, and
    the result is never longer than the maximum message size in force, whatever
    the options and however they are spread over the three fields. *)
Theorem PacketToBytes_bound p opts :
  240 ≤ length (RawPacket p) →
  ∃ b, PacketToBytes p opts = Ok b ∧ 240 ≤ length b ∧ (Z.of_nat (length b) ≤ max_len opts)%Z.
Proof.
  intros Hraw. destruct (PacketToBytes_layout p opts Hraw) as (l0 & l1 & l2 & E & _ & _ & H0 & H1 & H2).
  assert (length (take 240 (RawPacket p)) = 240) as Hb by (rewrite length_take; lia).
  assert (length (tlvs (overload_of l1 l2)) ≤ 3) as Ho.
  { unfold overload_of. case_decide; simpl; lia. }
  eexists. split; [exact E|]. rewrite !length_app, !length_overlay by (rewrite ?length_overlay; lia).
  rewrite Hb. simpl length. lia.
Qed.

Definition sample_packet : Packet :=
  {| RawPacket := replicate 240 x00; OptMap := {[ x35 := [x02]; x33 := [x00; x00; x04; xb0] ]}; ifindex := 1 |}.
Definition sample_opts : packetToBytesOptions := {| maxLen := 0; skipFile := false; skipSName := false |}.

Lemma PacketToBytes_bound_witness :
  ∃ b, PacketToBytes sample_packet sample_opts = Ok b ∧ 240 ≤ length b ∧
       (Z.of_nat (length b) ≤ max_len sample_opts)%Z.
Proof. apply (PacketToBytes_bound sample_packet sample_opts). simpl. lia. Defined.

(** Parsing the bytes of a serialised packet succeeds, whether or not
    options overflowed into the [file] and [sname] fields; the header before
    [sname] is unchanged, and every option found, the overload option apart,
    is one of the packet's options with its value. *)
Theorem PacketToBytes_PacketFromBytes p opts b :
  PacketToBytes p opts = Ok b → no_marker (OptMap p) → OptMap p !! OptionOverload = None →
  ∃ p', PacketFromBytes b = Ok p' ∧ take 44 (RawPacket p') = take 44 (RawPacket p) ∧
        ∀ k v, k ≠ OptionOverload → OptMap p' !! k = Some v → OptMap p !! k = Some v.
Proof.
  intros E Hm Hov. destruct (decide (length (RawPacket p) < 240)) as [|Hraw].
  { unfold PacketToBytes in E. by rewrite decide_True in E. }
  destruct (PacketToBytes_layout p opts ltac:(lia)) as (l0 & l1 & l2 & E' & _ & Hf & H0 & H1 & H2).
  assert (length (take 240 (RawPacket p)) = 240) as Hb by (rewrite length_take; lia).
  pose proof (parse_layout _ _ _ _ _ Hb Hm Hov Hf H1 H2) as Hparse.
  rewrite E' in E. injection E as <-. unfold PacketFromBytes.
  rewrite Hparse. cbn [res_bind]. rewrite decide_False
    by (rewrite length_app, !length_overlay by (rewrite ?length_overlay; lia); lia).
  eexists. split; [done|]. cbn [RawPacket OptMap]. split.
  - rewrite take_app_le by (rewrite !length_overlay; [lia|lia|rewrite length_overlay; lia]).
    rewrite !take_overlay by (rewrite ?length_overlay; lia). rewrite take_take. done.
  - intros k v Hk Hv. apply insert_all_inv in Hv as [Hin|Hv]; [|done].
    apply elem_of_app in Hin as [Hin|Hin].
    + exfalso. unfold overload_of in Hin. case_decide; [by apply elem_of_nil in Hin|].
      apply list_elem_of_singleton in Hin. congruence.
    + rewrite Forall_forall in Hf. by destruct (Hf _ Hin).
Qed.

Lemma PacketToBytes_PacketFromBytes_witness :
  ∃ b p', PacketToBytes sample_packet sample_opts = Ok b ∧ PacketFromBytes b = Ok p' ∧
  take 44 (RawPacket p') = take 44 (RawPacket sample_packet) ∧
        ∀ k v, k ≠ OptionOverload → OptMap p' !! k = Some v → OptMap sample_packet !! k = Some v.
Proof.
  destruct (PacketToBytes sample_packet sample_opts) as [b|e] eqn:E; [|vm_compute in E; done].
  destruct (PacketToBytes_PacketFromBytes sample_packet sample_opts b E) as (p' & H).
  - split; by vm_compute.
  - by vm_compute.
  - exists b, p'. split; [done|exact H].
Defined.

Lemma PacketToBytes_fit p opts b :
  PacketToBytes p opts = Ok b → no_marker (OptMap p) → OptMap p !! OptionOverload = None →
  (Z.of_nat (length (tlvs (written (OptMap p) (sortedOptions (OptMap p))))) + 4 ≤ max_len opts - 240)%Z →
  ∃ p', PacketFromBytes b = Ok p' ∧ OptMap p' = serializable (OptMap p) ∧
        take 240 (RawPacket p') = take 240 (RawPacket p).
Proof.
  intros E Hm Hov Hfit. destruct (decide (length (RawPacket p) < 240)) as [|Hraw].
  { unfold PacketToBytes in E. by rewrite decide_True in E. }
  destruct (PacketToBytes_layout p opts ltac:(lia)) as (l0 & l1 & l2 & E' & Hpl & Hf & H0 & H1 & H2).
  assert (length (take 240 (RawPacket p)) = 240) as Hb by (rewrite length_take; lia).
  unfold buffers in Hpl. rewrite place_all_fit in Hpl by (simpl; lia).
  injection Hpl as Hl0 Hl1%eq_sym%tlvs_nil Hl2%eq_sym%tlvs_nil. subst l1 l2.
  rewrite E' in E. injection E as <-.
  change (tlvs (overload_of [] [])) with (@nil byte). cbn [overlay app].
  unfold overlay. rewrite !decide_True by done. rewrite <-Hl0.
  unfold PacketFromBytes. rewrite decide_False by (rewrite length_app; lia).
  unfold ParseOptions. unfold p_Options. rewrite drop_app_length' by done.
  rewrite parse_into_tlvs by by apply written_wf. cbn [res_bind].
  assert (insert_all ∅ (written (OptMap p) (sortedOptions (OptMap p))) = serializable (OptMap p)) as ->.
  { unfold insert_all. rewrite written_to_map.
    - apply map_union_empty.
    - apply sortedOptions_NoDup.
    - apply elem_of_sortedOptions. }
  assert (serializable (OptMap p) !! OptionOverload = None) as Hno
    by (unfold serializable; apply map_lookup_filter_None; by left).
  unfold overload_bit. rewrite Hno. cbn [res_bind]. rewrite Hno. cbn [res_bind].
  eexists. split; [done|].
  cbn [OptMap RawPacket]. split; [done|].
  rewrite take_app_le by lia. rewrite take_take. done.
Qed.

(** C39: for a packet none of whose options has the tag 0 (pad) or 255 (end),
    and that has no Overload option (52) of its own: when its serialised options
    fit in the options field, with the room kept for the overload option and the
    end tag, the packet read back has exactly the options of the packet, less
    those longer than 255 bytes, which the serialiser drops, and the same 240
    bytes before the options. *)
Theorem PacketToBytes_roundtrip p opts b :
  PacketToBytes p opts = Ok b → no_marker (OptMap p) → OptMap p !! OptionOverload = None →
  (Z.of_nat (length (tlvs (written (OptMap p) (sortedOptions (OptMap p))))) + 4 ≤ max_len opts - 240)%Z →
  ∃ p', PacketFromBytes b = Ok p' ∧ OptMap p' = serializable (OptMap p) ∧
        take 240 (RawPacket p') = take 240 (RawPacket p).
Proof. apply PacketToBytes_fit. Qed.

Lemma PacketToBytes_roundtrip_witness :
  ∃ b p', PacketToBytes sample_packet sample_opts = Ok b ∧ PacketFromBytes b = Ok p' ∧
  OptMap p' = serializable (OptMap sample_packet) ∧ take 240 (RawPacket p') = take 240 (RawPacket sample_packet).
Proof.
  destruct (PacketToBytes sample_packet sample_opts) as [b|e] eqn:E; [|vm_compute in E; done].
  destruct (PacketToBytes_roundtrip sample_packet sample_opts b E) as (p' & H).
  - split; by vm_compute.
  - by vm_compute.
  - by vm_compute.
  - exists b, p'. split; [done|exact H].
Defined.

(** A reply is well formed enough to be serialised. *)
Lemma length_splice_eq m off n src dst :
  length dst = m → off + n ≤ m → length (splice off n src dst) = m.
Proof. intros <-. apply length_splice. Qed.

Lemma NewReply_length req : length (RawPacket (NewReply req)) = 240.
Proof.
  unfold NewReply. cbn [RawPacket]. repeat (apply length_splice_eq; [|lia]). done.
Qed.

(** ** The checks of replies *)

(** A DHCPOFFER passes validation exactly when it has a lease time and a
    server identifier and none of the four options a server must not send. *)
Theorem Offer_Validate_iff p req :
  Reply_Validate {| rep_kind := DHCPOffer; rep_packet := p; rep_req := req |} = Ok () ↔
  is_Some (OptMap p !! OptionAddressTime) ∧ is_Some (OptMap p !! OptionDHCPServerID) ∧
  OptMap p !! OptionAddressRequest = None ∧ OptMap p !! OptionParameterList = None ∧
  OptMap p !! OptionClientID = None ∧ OptMap p !! OptionDHCPMaxMsgSize = None.
Proof.
  unfold Reply_Validate. cbn [rep_kind rep_packet dhcpOfferValidation Validate validation_ok ValidateMust ValidateMustNot].
  destruct (OptMap p !! OptionAddressRequest); [naive_solver|].
  destruct (OptMap p !! OptionAddressTime); [|naive_solver].
  destruct (OptMap p !! OptionParameterList); [naive_solver|].
  destruct (OptMap p !! OptionClientID); [naive_solver|].
  destruct (OptMap p !! OptionDHCPServerID); [|naive_solver].
  destruct (OptMap p !! OptionDHCPMaxMsgSize); naive_solver.
Qed.

(** A reply whose request carries a maximum-message-size option shorter
    than two bytes panics while it is serialised; any other request leaves the
    serialiser free of panics. *)
Theorem ToBytes_panic_iff r :
  Reply_ToBytes r = Panic ↔
  ∃ v, OptMap (req_packet (rep_req r)) !! OptionDHCPMaxMsgSize = Some v ∧ length v < 2.
Proof.
  unfold Reply_ToBytes, GetOption.
  destruct (OptMap (req_packet (rep_req r)) !! OptionDHCPMaxMsgSize) as [v|]; [|naive_solver].
  destruct v as [|h [|l v]]; simpl; split; intros H; try done; try (eexists; split; [done|simpl; lia]);
    destruct H as (v' & [= <-] & Hl); simpl in Hl; lia.
Qed.

(** Where a reply is sent.  A client that has an address and does not set
    the broadcast flag is answered at that address; every other client is
    answered at the broadcast override on its own port, and at
    255.255.255.255 exactly when the override is the address 0.0.0.0: an
    override that was never set (a nil address) makes the reply go to a nil
    address. *)
Theorem reply_addr_spec rw req :
  let unicast := IP_zero (UDP_IP (rw_addr rw)) = false ∧
                 Z.land (b2z (byte_at 0 (GetFlags (req_packet req)))) 128 = 0%Z in
  (unicast → reply_addr rw req = rw_addr rw) ∧
  (¬ unicast →
     UDP_Port (reply_addr rw req) = UDP_Port (rw_addr rw) ∧
     (IP_zero (UDP_IP (rw_addrBroadcastOverride rw)) = true → UDP_IP (reply_addr rw req) = IPv4bcast) ∧
     (UDP_IP (rw_addrBroadcastOverride rw) = [] → UDP_IP (reply_addr rw req) = [])).
Proof.
  intros unicast. unfold reply_addr.
  pose proof (Z.land_nonneg (b2z (byte_at 0 (GetFlags (req_packet req)))) 128) as [_ Hpos].
  specialize (Hpos ltac:(right; lia)).
  split; intros H.
  - destruct H as [-> ->]. rewrite decide_False; [done|]. intros [?|?]; [done|lia].
  - rewrite decide_True.
    + cbn [UDP_Port UDP_IP]. split; [done|]. split; [by intros ->|]. by intros ->.
    + destruct (IP_zero (UDP_IP (rw_addr rw))) eqn:E; [by left|right].
      destruct (decide (0 < Z.land (b2z (byte_at 0 (GetFlags (req_packet req)))) 128)%Z); [done|].
      exfalso. apply H. split; [done|lia].
Qed.
