(* ===== verification/DhcpServer.v ===== *)
(** * The DHCP transaction dispatcher: [slingshot/dhcp/server.go]

    The server maps every DHCP transaction (a client and an xid) to a goroutine
    with a channel of capacity two.  [ServeDHCP] creates transactions on
    DISCOVER packets only, posts packets to them without blocking, and forgets
    those whose goroutine has finished.

    A transaction goroutine is a worker: running ([ServeTxn] has not returned)
    or sending (it blocks on [d.txnDone <- id]).  The channel of a worker is
    the list of the requests buffered in it.  [step] interleaves the packet
    loop with the workers. *)

From S2P Require Import Prelude GoNet DhcpOption DhcpPacket.

Abbreviation txnID := string.

(* @slingshot/dhcp/server.go:57-62 ClientID *)
Definition ClientID (req : Request) : bytes :=
  match GetOption (OptMap (req_packet req)) OptionClientID with
  | Some (c :: cid) => fmt_x (c :: cid)
  | _ => fmt_x [GetHType (req_packet req)] ++ fmt_x (GetCHAddr (req_packet req))
  end.

(* @slingshot/dhcp/server.go:64-68 generateTxnID *)
Definition generateTxnID (req : Request) : txnID :=
  b2s (ClientID req ++ dash :: GetXID (req_packet req)).

Inductive phase := Running | Sending.
#[global] Instance phase_eq_dec : EqDecision phase.
Proof. solve_decision. Defined.

(** [txnMap] holds channels, named by the worker that reads them. *)
(* @slingshot/dhcp/server.go:20-37 Server *)
Record Server := {
  txnMap : gmap txnID nat;
  chans : gmap nat (list Request);
  workers : gmap nat (txnID * phase);
  idMap : gmap Z IP;
  next : nat;
  (* goroutines started for release and inform packets *)
  released : list Request;
  informed : list Request
}.

(* @slingshot/dhcp/server.go:202-232 NewServer *)
Definition NewServer : Server :=
  {| txnMap := ∅; chans := ∅; workers := ∅; idMap := ∅; next := 0; released := []; informed := [] |}.

Definition set_idMap (m : gmap Z IP) (s : Server) : Server :=
  {| txnMap := txnMap s; chans := chans s; workers := workers s; idMap := m; next := next s;
     released := released s; informed := informed s |}.

(** The first IPv4 address of an interface. *)
Definition first_v4 (addrs : list IP) : IP :=
  match filter (λ a, To4 a ≠ []) addrs with a :: _ => To4 a | [] => [] end.

Section server.
(** [net.InterfaceByIndex(i).Addrs()]: the operating system's interfaces. *)
Context (InterfaceAddrs : Z → res (list IP)).

(* @slingshot/dhcp/server.go:70-116 Server.serverID *)
Definition serverID (s : Server) (req : Request) : res IP * Server :=
  let i := InterfaceIndex req in
  if decide (i ≤ 0)%Z then (Err (Errorf "no such interface"), s)
  else match idMap s !! i with
       | Some ip => (Ok ip, s)
       | None =>
           match InterfaceAddrs i with
           | Err e => (Err e, s)
           | Ok addrs =>
               let ip := first_v4 addrs in
               if decide (ip = []) then (Err (Errorf "no IPv4 address on interface"), s)
               else (Ok ip, set_idMap (<[i := ip]> (idMap s)) s)
           end
       end.

(** Removal of the finished transactions: every worker blocked on [txnDone] is
    received from, its id deleted, and its goroutine ends. *)
Definition finished (s : Server) : list txnID :=
  omap (λ wp, if decide (wp.2.2 = Sending) then Some wp.2.1 else None) (map_to_list (workers s)).

Definition is_running (s : Server) (w : nat) : bool :=
  match workers s !! w with Some (_, Running) => true | _ => false end.

(* @slingshot/dhcp/server.go:161-172 Server.ServeDHCP *)
Definition drain (s : Server) : Server :=
  {| txnMap := foldr delete (txnMap s) (finished s);
     chans := filter (λ wc, is_running s wc.1 = true) (chans s);
     workers := filter (λ wp, wp.2.2 = Running) (workers s);
     idMap := idMap s; next := next s; released := released s; informed := informed s |}.

(* @slingshot/dhcp/server.go:184-193 Server.ServeDHCP *)
Definition create_txn (s : Server) (id : txnID) : Server :=
  {| txnMap := <[id := next s]> (txnMap s); chans := <[next s := []]> (chans s);
     workers := <[next s := (id, Running)]> (workers s);
     idMap := idMap s; next := S (next s); released := released s; informed := informed s |}.

Definition chan_cap : nat := 2.

(** A send that does not block: into the buffer, or dropped. *)
(* @slingshot/dhcp/server.go:195-199 Server.ServeDHCP *)
Definition post (s : Server) (id : txnID) (req : Request) : Server :=
  match txnMap s !! id with
  | None => s
  | Some w =>
      let buf := default [] (chans s !! w) in
      if decide (length buf < chan_cap) then
        {| txnMap := txnMap s; chans := <[w := buf ++ [req]]> (chans s); workers := workers s;
           idMap := idMap s; next := next s; released := released s; informed := informed s |}
      else s
  end.

Definition for_another_server (ip : IP) (req : Request) : bool :=
  match GetOption (OptMap (req_packet req)) OptionDHCPServerID with
  | Some sid => bool_decide (IP_String ip ≠ IP_String sid)
  | None => false
  end.

Definition with_server_id (ip : IP) (req : Request) : Request :=
  {| req_packet := req_packet req; req_writer := writeReplyWithServerID ip <$> req_writer req |}.

(* @slingshot/dhcp/server.go:156-200 Server.ServeDHCP *)
Definition dispatch (s : Server) (req : Request) : Server :=
  let id := generateTxnID req in
  let s := drain s in
  match txnMap s !! id with
  | Some _ => post s id req
  | None =>
      if decide (req_type req = MessageTypeDHCPDiscover) then post (create_txn s id) id req
      else s
  end.

(* @slingshot/dhcp/server.go:118-200 Server.ServeDHCP *)
Definition ServeDHCP (s : Server) (req : Request) : Server :=
  match serverID s req with
  | (Err _, s) => s
  | (Ok ip, s) =>
      if for_another_server ip req then s
      else
        let req := with_server_id ip req in
        if decide (req_type req = MessageTypeDHCPRelease) then
          {| txnMap := txnMap s; chans := chans s; workers := workers s; idMap := idMap s;
             next := next s; released := released s ++ [req]; informed := informed s |}
        else if decide (req_type req = MessageTypeDHCPInform) then
          {| txnMap := txnMap s; chans := chans s; workers := workers s; idMap := idMap s;
             next := next s; released := released s; informed := informed s ++ [req] |}
        else dispatch s req
  end.

(** ** Interleaving *)
Inductive step : Server → Server → Prop :=
  | step_packet s req : step s (ServeDHCP s req)
  | step_receive s w id req buf :
      workers s !! w = Some (id, Running) → chans s !! w = Some (req :: buf) →
      step s {| txnMap := txnMap s; chans := <[w := buf]> (chans s); workers := workers s;
                idMap := idMap s; next := next s; released := released s; informed := informed s |}
  | step_return s w id :
      workers s !! w = Some (id, Running) →
      step s {| txnMap := txnMap s; chans := chans s; workers := <[w := (id, Sending)]> (workers s);
                idMap := idMap s; next := next s; released := released s; informed := informed s |}.

Inductive reachable : Server → Prop :=
  | reach_init : reachable NewServer
  | reach_step s s' : reachable s → step s s' → reachable s'.

(** The map and the workers agree: an id has a channel exactly when a worker
    for it exists, that worker alone reads the channel, and no channel holds
    more than its capacity. *)
Record inv (s : Server) : Prop := {
  inv_map : ∀ id w, txnMap s !! id = Some w ↔ ∃ p, workers s !! w = Some (id, p);
  inv_chan : ∀ w, is_Some (chans s !! w) ↔ is_Some (workers s !! w);
  inv_cap : ∀ w buf, chans s !! w = Some buf → length buf ≤ chan_cap;
  inv_next : ∀ w, is_Some (workers s !! w) → w < next s;
  inv_ip : ∀ i ip, idMap s !! i = Some ip → length ip = 4
}.

(** ** Lemmas *)
Lemma first_v4_length addrs : first_v4 addrs ≠ [] → length (first_v4 addrs) = 4.
Proof.
  unfold first_v4. destruct (filter _ addrs) as [|a l]; [done|]. apply To4_nonempty.
Qed.

Lemma serverID_inv s req r s' : serverID s req = (r, s') → inv s →
  inv s' ∧ (∀ ip, r = Ok ip → length ip = 4) ∧
  txnMap s' = txnMap s ∧ chans s' = chans s ∧ workers s' = workers s ∧ next s' = next s.
Proof.
  unfold serverID. intros H Hinv. case_decide; [by simplify_eq|].
  destruct (idMap s !! InterfaceIndex req) eqn:E.
  { simplify_eq. split_and!; try done. intros ip [= <-]. by eapply inv_ip. }
  destruct (InterfaceAddrs _) as [addrs|]; [|by simplify_eq].
  case_decide as Hne; [by simplify_eq|]. simplify_eq.
  pose proof (first_v4_length addrs Hne). split_and!; try done.
  - destruct Hinv. constructor; try done. cbn [idMap set_idMap]. intros i ip.
    rewrite lookup_insert_Some. intros [[_ <-]|[_ ?]]; [done|naive_solver].
  - by intros ip [= <-].
Qed.

Lemma elem_of_finished s id :
  id ∈ finished s ↔ ∃ w, workers s !! w = Some (id, Sending).
Proof.
  unfold finished. rewrite list_elem_of_omap. split.
  - intros ([w [id' p]] & Hin & H). apply elem_of_map_to_list in Hin. simpl in H.
    case_decide; simplify_eq. by exists w.
  - intros [w Hw]. exists (w, (id, Sending)). split; [by apply elem_of_map_to_list|done].
Qed.

Lemma lookup_foldr_delete (l : list txnID) (m : gmap txnID nat) id w :
  foldr delete m l !! id = Some w ↔ id ∉ l ∧ m !! id = Some w.
Proof.
  induction l as [|x l IH]; simpl; [set_solver|].
  rewrite lookup_delete_Some, IH. set_solver.
Qed.

Lemma drain_workers s w id p :
  workers (drain s) !! w = Some (id, p) ↔ p = Running ∧ workers s !! w = Some (id, Running).
Proof.
  cbn [workers drain]. rewrite map_lookup_filter_Some. simpl. naive_solver.
Qed.

Lemma drain_inv s : inv s → inv (drain s).
Proof.
  intros Hinv. constructor.
  - intros id w. setoid_rewrite drain_workers. cbn [txnMap drain].
    rewrite lookup_foldr_delete, elem_of_finished, (inv_map s Hinv). split.
    + intros [Hn [[] Hw]]; [naive_solver|]. exfalso. naive_solver.
    + intros (p & -> & Hw). split; [|naive_solver]. intros [w' Hw'].
      assert (w' = w) as ->; [|congruence].
      assert (txnMap s !! id = Some w') by (apply (inv_map s Hinv); eauto).
      assert (txnMap s !! id = Some w) by (apply (inv_map s Hinv); eauto). congruence.
  - intros w. split.
    + intros [buf Hb]. apply map_lookup_filter_Some in Hb as [_ Hr]. simpl in Hr.
      unfold is_running in Hr. destruct (workers s !! w) as [[id []]|] eqn:E; try done.
      exists (id, Running). by apply drain_workers.
    + intros [[id p] [-> Hw]%drain_workers].
      assert (is_Some (chans s !! w)) as [buf Hb] by (apply (inv_chan s Hinv); eauto).
      exists buf. apply map_lookup_filter_Some. split; [done|]. simpl.
      unfold is_running. by rewrite Hw.
  - intros w buf [Hb _]%map_lookup_filter_Some. by eapply inv_cap.
  - intros w [[id p] [-> Hw]%drain_workers]. apply (inv_next s Hinv). eauto.
  - apply Hinv.
Qed.

Lemma create_inv s id : txnMap s !! id = None → inv s → inv (create_txn s id).
Proof.
  intros Hid Hinv.
  assert (workers s !! next s = None) as Hfresh.
  { apply eq_None_not_Some. intros H%(inv_next s Hinv). lia. }
  constructor; cbn [txnMap chans workers next idMap create_txn].
  - intros id' w. rewrite lookup_insert_Some. setoid_rewrite lookup_insert_Some.
    rewrite (inv_map s Hinv). split.
    + intros [[<- <-]|[Hne [p Hw]]]; [by eauto|].
      exists p. right. split; [congruence|done].
    + intros [p [[<- [= <- <-]]|[Hne Hw]]]; [by left|].
      right. split; [|by eauto]. intros ->.
      assert (txnMap s !! id' = Some w) by (apply (inv_map s Hinv); eauto). congruence.
  - intros w. rewrite !lookup_insert_is_Some. by rewrite (inv_chan s Hinv).
  - intros w buf. rewrite lookup_insert_Some. intros [[_ <-]|[_ ?]]; [simpl; unfold chan_cap; lia|by eapply inv_cap].
  - intros w [->|[_ H]]%lookup_insert_is_Some; [lia|]. apply (inv_next s Hinv) in H. lia.
  - apply Hinv.
Qed.

Lemma post_inv s id req : inv s → inv (post s id req).
Proof.
  intros Hinv. unfold post. destruct (txnMap s !! id) as [w|] eqn:E; [|done].
  case_decide as Hlen; [|done].
  assert (is_Some (workers s !! w)) as Hw by (apply (inv_map s Hinv) in E as [p ->]; eauto).
  constructor; cbn [txnMap chans workers next idMap]; try apply Hinv.
  - intros w'. rewrite lookup_insert_is_Some', (inv_chan s Hinv).
    split; [by intros [<-|?]|by right].
  - intros w' buf. rewrite lookup_insert_Some. intros [[_ <-]|[_ ?]]; [|by eapply inv_cap].
    rewrite length_app. simpl. unfold chan_cap in *. lia.
Qed.

Lemma dispatch_inv s req : inv s → inv (dispatch s req).
Proof.
  intros Hinv%drain_inv. unfold dispatch.
  destruct (txnMap (drain s) !! generateTxnID req) eqn:E; [by apply post_inv|].
  case_decide; [|done]. apply post_inv. by apply create_inv.
Qed.

Lemma ServeDHCP_inv s req : inv s → inv (ServeDHCP s req).
Proof.
  intros Hinv. unfold ServeDHCP. destruct (serverID s req) as [[ip|e] s1] eqn:E;
    (eapply serverID_inv in E as (H1 & _); [|done]); [|done].
  destruct (for_another_server ip req); [done|].
  case_decide; [by destruct H1|]. case_decide; [by destruct H1|]. by apply dispatch_inv.
Qed.

Lemma step_inv s s' : step s s' → inv s → inv s'.
Proof.
  intros [s0 req|s0 w id req buf Hw Hc|s0 w id Hw] Hinv; [by apply ServeDHCP_inv|..].
  - constructor; cbn [txnMap chans workers next idMap]; try apply Hinv.
    + intros w'. rewrite lookup_insert_is_Some', (inv_chan _ Hinv).
      split; [intros [<-|?]; [by eauto|done]|by right].
    + intros w' buf'. rewrite lookup_insert_Some. intros [[_ <-]|[_ ?]]; [|by eapply inv_cap].
      pose proof (inv_cap _ Hinv _ _ Hc). simpl in *. lia.
  - constructor; cbn [txnMap chans workers next idMap]; try apply Hinv.
    + intros id' w'. rewrite (inv_map _ Hinv). setoid_rewrite lookup_insert_Some. split.
      * intros [p Hp]. destruct (decide (w = w')) as [->|]; [|by eauto].
        exists Sending. left. split; [done|]. congruence.
      * intros [p [[<- [= <- <-]]|[_ H]]]; by eauto.
    + intros w'. rewrite lookup_insert_is_Some', (inv_chan _ Hinv).
      split; [by right|intros [<-|?]; [by eauto|done]].
    + intros w' [<-|H]%lookup_insert_is_Some'; apply (inv_next _ Hinv); by eauto.
Qed.

(** ** Properties *)

Lemma inv_init : inv NewServer.
Proof.
  constructor; cbn.
  - intros id w. rewrite lookup_empty. setoid_rewrite lookup_empty. naive_solver.
  - intros w. by rewrite !lookup_empty.
  - intros w buf. by rewrite lookup_empty.
  - intros w. rewrite lookup_empty. by intros [].
  - intros i ip. by rewrite lookup_empty.
Qed.

(** C1: in every reachable state of the server the transaction map and the
    goroutines agree (each id has a channel exactly when one goroutine for it
    exists, each channel has exactly one reader), every channel holds at most
    two requests, and every cached interface address is an IPv4 address. *)
Theorem reachable_inv s : reachable s → inv s.
Proof. induction 1 as [|s s' _ IH Hs]; [apply inv_init|by eapply step_inv]. Qed.

(** The packets that pass the server-identifier test. *)
Definition accepted (s : Server) (req : Request) : Prop :=
  ∃ ip s', serverID s req = (Ok ip, s') ∧ for_another_server ip req = false.

(** Posting to a live channel. *)
Lemma post_spec s id w req : txnMap s !! id = Some w → inv s →
  ∃ buf, chans s !! w = Some buf ∧
  post s id req = (if decide (length buf < chan_cap) then
    {| txnMap := txnMap s; chans := <[w := buf ++ [req]]> (chans s); workers := workers s;
       idMap := idMap s; next := next s; released := released s; informed := informed s |} else s).
Proof.
  intros Hid Hinv. assert (is_Some (chans s !! w)) as [buf Hb].
  { apply (inv_chan s Hinv). apply (inv_map s Hinv) in Hid as [p ->]. eauto. }
  exists buf. split; [done|]. unfold post. by rewrite Hid, Hb.
Qed.

Lemma post_workers s id req : workers (post s id req) = workers s ∧ txnMap (post s id req) = txnMap s.
Proof. unfold post. destruct (txnMap s !! id); [|done]. by case_decide. Qed.

(** What one dispatch of a packet other than DISCOVER leaves. *)
Lemma dispatch_other s req : req_type req ≠ MessageTypeDHCPDiscover →
  (∀ id w, txnMap (dispatch s req) !! id = Some w → txnMap s !! id = Some w) ∧
  (∀ w, is_Some (workers (dispatch s req) !! w) → is_Some (workers s !! w)).
Proof.
  intros Ht.
  assert (workers (dispatch s req) = workers (drain s) ∧ txnMap (dispatch s req) = txnMap (drain s)) as [-> ->].
  { unfold dispatch. destruct (txnMap (drain s) !! generateTxnID req); [apply post_workers|].
    by rewrite decide_False. }
  split.
  - intros id w H. cbn [txnMap drain] in H. by apply lookup_foldr_delete in H as [_ H].
  - intros w [[id p] [_ H]%drain_workers]. eauto.
Qed.

(** Only a DISCOVER packet creates a transaction.  Whatever else arrives,
    every transaction and every goroutine that exists afterwards existed
    before. *)
Theorem only_discover_creates s req :
  req_type req ≠ MessageTypeDHCPDiscover →
  (∀ id w, txnMap (ServeDHCP s req) !! id = Some w → txnMap s !! id = Some w) ∧
  (∀ w, is_Some (workers (ServeDHCP s req) !! w) → is_Some (workers s !! w)).
Proof.
  intros Ht. unfold ServeDHCP.
  assert (txnMap (serverID s req).2 = txnMap s ∧ workers (serverID s req).2 = workers s) as [E1 E2].
  { unfold serverID. case_decide; [done|]. destruct (idMap s !! _); [done|].
    destruct (InterfaceAddrs _); [|done]. by case_decide. }
  destruct (serverID s req) as [[ip|e] s1]; simpl in E1, E2; [|rewrite E1, E2; done].
  destruct (for_another_server ip req); [by rewrite E1, E2|].
  case_decide; [cbn; by rewrite E1, E2|]. case_decide; [cbn; by rewrite E1, E2|].
  rewrite <-E1, <-E2. by apply dispatch_other.
Qed.

(** A DISCOVER of an unknown transaction that reaches this server starts
    a fresh goroutine whose channel holds that packet, with the writer that
    adds this server's identifier, and nothing else. *)
Theorem discover_creates s req ip s1 :
  inv s → serverID s req = (Ok ip, s1) → for_another_server ip req = false →
  req_type req = MessageTypeDHCPDiscover → txnMap s !! generateTxnID req = None →
  let s' := ServeDHCP s req in
  txnMap s' !! generateTxnID req = Some (next s) ∧
  workers s' !! next s = Some (generateTxnID req, Running) ∧
  chans s' !! next s = Some [with_server_id ip req].
Proof.
  intros Hinv Hsid Hfor Ht Hid s'.
  destruct (serverID_inv _ _ _ _ Hsid Hinv) as (Hinv1 & _ & E1 & _ & E2 & E3).
  subst s'. unfold ServeDHCP. rewrite Hsid, Hfor.
  change (req_type (with_server_id ip req)) with (req_type req). rewrite Ht.
  rewrite !decide_False by done. unfold dispatch.
  change (generateTxnID (with_server_id ip req)) with (generateTxnID req).
  assert (txnMap (drain s1) !! generateTxnID req = None) as Hdr.
  { apply eq_None_not_Some. intros [w Hw]. cbn [txnMap drain] in Hw.
    apply lookup_foldr_delete in Hw as [_ Hw]. congruence. }
  rewrite Hdr. change (req_type (with_server_id ip req)) with (req_type req).
  rewrite decide_True by done.
  unfold post, create_txn. cbn [txnMap chans workers next drain]. rewrite lookup_insert_eq, E3.
  rewrite lookup_insert_eq. simpl. rewrite !lookup_insert_eq. done.
Qed.

(** The transaction id determines the client identifier and the xid: two
    packets share a transaction exactly when both agree. *)
Theorem generateTxnID_inj r1 r2 :
  8 ≤ length (RawPacket (req_packet r1)) → 8 ≤ length (RawPacket (req_packet r2)) →
  generateTxnID r1 = generateTxnID r2 ↔
  ClientID r1 = ClientID r2 ∧ GetXID (req_packet r1) = GetXID (req_packet r2).
Proof.
  intros H1 H2. unfold generateTxnID. split; [|by intros [-> ->]].
  intros H%(inj b2s). apply app_inj_2 in H as [-> [= ->]]; [done|].
  cbn [length]. unfold GetXID, window. rewrite !length_take, !length_drop. lia.
Qed.

(** A packet that names a server identifier other than this interface's
    address changes no transaction, no channel and no goroutine, and starts
    none; identifiers are compared as addresses, an IPv4-mapped one included. *)
Theorem other_server_ignored s req ip s1 sid :
  inv s → serverID s req = (Ok ip, s1) →
  OptMap (req_packet req) !! OptionDHCPServerID = Some sid → To4 sid ≠ ip →
  ServeDHCP s req = s1 ∧ txnMap s1 = txnMap s ∧ chans s1 = chans s ∧ workers s1 = workers s.
Proof.
  intros Hinv Hsid Hopt Hne.
  destruct (serverID_inv _ _ _ _ Hsid Hinv) as (_ & Hip & E1 & E2 & E3 & _).
  unfold ServeDHCP. rewrite Hsid. unfold for_another_server, GetOption. rewrite Hopt.
  rewrite bool_decide_eq_true_2; [done|].
  intros H. apply IP_String_v4_eq in H; [done|]. by apply Hip.
Qed.

(** A packet of a live transaction is appended to that transaction's
    channel when there is room and dropped otherwise; no other channel and no
    goroutine is affected, other than those of finished transactions being
    forgotten. *)
Theorem live_txn_delivery s req ip s1 w :
  inv s → serverID s req = (Ok ip, s1) → for_another_server ip req = false →
  req_type req ≠ MessageTypeDHCPRelease → req_type req ≠ MessageTypeDHCPInform →
  workers s !! w = Some (generateTxnID req, Running) →
  ∃ buf, chans s !! w = Some buf ∧
  workers (ServeDHCP s req) = workers (drain s) ∧
  chans (ServeDHCP s req) !! w
  = Some (if decide (length buf < chan_cap) then buf ++ [with_server_id ip req] else buf) ∧
  ∀ w', w' ≠ w → chans (ServeDHCP s req) !! w' = chans (drain s) !! w'.
Proof.
  intros Hinv Hsid Hfor Hr Hi Hw.
  destruct (serverID_inv _ _ _ _ Hsid Hinv) as (Hinv1 & _ & E1 & E2 & E3 & E4).
  assert (chans (drain s1) = chans (drain s)) as Ec by (cbn; unfold is_running; by rewrite E2, E3).
  assert (workers (drain s1) = workers (drain s)) as Ew by (cbn; by rewrite E3).
  assert (workers (drain s1) !! w = Some (generateTxnID req, Running)) as Hw1
    by (apply drain_workers; by rewrite E3).
  assert (txnMap (drain s1) !! generateTxnID req = Some w) as Hid
    by (apply (inv_map _ (drain_inv _ Hinv1)); eauto).
  destruct (post_spec (drain s1) _ w (with_server_id ip req) Hid (drain_inv _ Hinv1)) as (buf & Hb & Hp).
  assert (ServeDHCP s req = post (drain s1) (generateTxnID req) (with_server_id ip req)) as ->.
  { unfold ServeDHCP. rewrite Hsid, Hfor.
    change (req_type (with_server_id ip req)) with (req_type req). rewrite !decide_False by done.
    unfold dispatch. change (generateTxnID (with_server_id ip req)) with (generateTxnID req).
    by rewrite Hid. }
  exists buf. split.
  { cbn [chans drain] in Hb. rewrite E2 in Hb. by apply map_lookup_filter_Some in Hb as [? _]. }
  rewrite Hp. case_decide; cbn [workers chans]; rewrite Ew; split_and!; try done.
  - by rewrite lookup_insert_eq.
  - intros w' Hne. rewrite lookup_insert_ne by done. by rewrite Ec.
  - intros w' _. by rewrite Ec.
Qed.

End server.

(** ** Witnesses: one interface with address 10.0.0.1 *)
Definition sample_ifs (i : Z) : res (list IP) :=
  if decide (i = 2%Z) then Ok [replicate 16 x00; [x0a; x00; x00; x01]] else Err (Errorf "no such interface").

Definition sample_req (t : byte) (opts : OptionMap) : Request :=
  {| req_packet := {| RawPacket := replicate 240 x00; OptMap := <[x35 := [t]]> opts; ifindex := 2 |};
     req_writer := None |}.

Lemma reachable_inv_witness :
  reachable sample_ifs (ServeDHCP sample_ifs NewServer (sample_req x01 ∅)) ∧
  inv (ServeDHCP sample_ifs NewServer (sample_req x01 ∅)).
Proof.
  assert (reachable sample_ifs (ServeDHCP sample_ifs NewServer (sample_req x01 ∅))) as H.
  { eapply reach_step; [apply reach_init|apply step_packet]. }
  split; [exact H|]. exact (reachable_inv sample_ifs _ H).
Defined.

Lemma only_discover_creates_witness :
  (∀ id w, txnMap (ServeDHCP sample_ifs NewServer (sample_req x03 ∅)) !! id = Some w →
           txnMap NewServer !! id = Some w) ∧
  (∀ w, is_Some (workers (ServeDHCP sample_ifs NewServer (sample_req x03 ∅)) !! w) →
        is_Some (workers NewServer !! w)).
Proof. apply (only_discover_creates sample_ifs NewServer (sample_req x03 ∅)). by vm_compute. Defined.

Lemma discover_creates_witness :
  let s' := ServeDHCP sample_ifs NewServer (sample_req x01 ∅) in
  txnMap s' !! generateTxnID (sample_req x01 ∅) = Some 0 ∧
  workers s' !! 0 = Some (generateTxnID (sample_req x01 ∅), Running) ∧
  chans s' !! 0 = Some [with_server_id [x0a; x00; x00; x01] (sample_req x01 ∅)].
Proof.
  apply (discover_creates sample_ifs NewServer (sample_req x01 ∅) [x0a; x00; x00; x01]
           (set_idMap (<[2%Z := [x0a; x00; x00; x01]]> ∅) NewServer)).
  - apply inv_init.
  - reflexivity.
  - reflexivity.
  - reflexivity.
  - reflexivity.
Defined.

Lemma generateTxnID_inj_witness :
  generateTxnID (sample_req x01 ∅) = generateTxnID (sample_req x03 ∅) ↔
  ClientID (sample_req x01 ∅) = ClientID (sample_req x03 ∅) ∧
  GetXID (req_packet (sample_req x01 ∅)) = GetXID (req_packet (sample_req x03 ∅)).
Proof. apply (generateTxnID_inj (sample_req x01 ∅) (sample_req x03 ∅)); simpl; lia. Defined.

Lemma other_server_ignored_witness :
  ∃ s1, ServeDHCP sample_ifs NewServer (sample_req x03 {[x36 := [x0a; x00; x00; x02]]}) = s1 ∧
  txnMap s1 = txnMap NewServer ∧ chans s1 = chans NewServer ∧ workers s1 = workers NewServer.
Proof.
  eexists. apply (other_server_ignored sample_ifs NewServer
    (sample_req x03 {[x36 := [x0a; x00; x00; x02]]}) [x0a; x00; x00; x01] _ [x0a; x00; x00; x02]).
  - apply inv_init.
  - reflexivity.
  - reflexivity.
  - by vm_compute.
Defined.

Lemma live_txn_delivery_witness :
  let s := ServeDHCP sample_ifs NewServer (sample_req x01 ∅) in
  ∃ buf, chans s !! 0 = Some buf ∧
  workers (ServeDHCP sample_ifs s (sample_req x03 ∅)) = workers (drain s) ∧
  chans (ServeDHCP sample_ifs s (sample_req x03 ∅)) !! 0
  = Some (if decide (length buf < chan_cap)
          then buf ++ [with_server_id [x0a; x00; x00; x01] (sample_req x03 ∅)] else buf) ∧
  ∀ w', w' ≠ 0 → chans (ServeDHCP sample_ifs s (sample_req x03 ∅)) !! w' = chans (drain s) !! w'.
Proof.
  intros s. apply (live_txn_delivery sample_ifs s (sample_req x03 ∅) [x0a; x00; x00; x01] s 0).
  - apply (ServeDHCP_inv sample_ifs), inv_init.
  - reflexivity.
  - reflexivity.
  - by vm_compute.
  - by vm_compute.
  - reflexivity.
Defined.
