(* ===== verification/DhcpSpec.v ===== *)
(** What [slingshot/dhcp/server.go] promises: a mailbox for each transaction.

    A transaction that is being served has a mailbox.  A packet goes into the
    mailbox of its transaction, while there is room; a DISCOVER of no such
    transaction opens one.  The transaction takes the oldest packet of its
    mailbox, or ends.  [DhcpServer] implements this with channels, goroutines, a
    map from identifiers to channels and a channel of the goroutines that
    ended: [mailboxes] is the abstraction, and [server_refines] the simulation. *)

From S2P Require Import Prelude GoNet DhcpOption DhcpPacket DhcpServer.

Abbreviation Mail := (gmap txnID (list Request)).

Definition mail_dispatch (m : Mail) (req : Request) : Mail :=
  let id := generateTxnID req in
  match m !! id with
  | Some box => if decide (length box < chan_cap) then <[id := box ++ [req]]> m else m
  | None => if decide (req_type req = MessageTypeDHCPDiscover) then <[id := [req]]> m else m
  end.

Inductive mail_step : Mail → Mail → Prop :=
  | mail_stutter m : mail_step m m
  | mail_packet m req : mail_step m (mail_dispatch m req)
  | mail_take m id req box : m !! id = Some (req :: box) → mail_step m (<[id := box]> m)
  | mail_end m id : is_Some (m !! id) → mail_step m (delete id m).

Inductive mail_reachable : Mail → Prop :=
  | mail_init : mail_reachable ∅
  | mail_next m m' : mail_reachable m → mail_step m m' → mail_reachable m'.

(** The mailboxes of a server: the channels of the goroutines that run. *)
Definition mailboxes (s : Server) : Mail :=
  omap (λ w, match workers s !! w with Some (_, Running) => chans s !! w | _ => None end) (txnMap s).

Definition with_chan (w : nat) (buf : list Request) (s : Server) : Server :=
  {| txnMap := txnMap s; chans := <[w := buf]> (chans s); workers := workers s;
     idMap := idMap s; next := next s; released := released s; informed := informed s |}.

(** ** Lemmas *)
Lemma lookup_mailboxes s id buf : inv s →
  mailboxes s !! id = Some buf ↔ ∃ w, workers s !! w = Some (id, Running) ∧ chans s !! w = Some buf.
Proof.
  intros Hinv. unfold mailboxes. rewrite lookup_omap_Some. split.
  - intros (w & Hb & Hw). exists w. apply (inv_map s Hinv) in Hw as [p Hw]. rewrite Hw in *. by destruct p.
  - intros (w & Hw & Hb). exists w. rewrite Hw. split; [done |]. apply (inv_map s Hinv). by exists Running.
Qed.
Lemma mailboxes_ext s m : inv s →
  (∀ id buf, (∃ w, workers s !! w = Some (id, Running) ∧ chans s !! w = Some buf) ↔ m !! id = Some buf) → mailboxes s = m.
Proof. intros Hinv Hm. apply map_eq. intros id. apply option_eq. intros buf. rewrite lookup_mailboxes by done. apply Hm. Qed.

(** A transaction has one goroutine. *)
Lemma worker_unique s id w w' p p' : inv s → workers s !! w = Some (id, p) → workers s !! w' = Some (id, p') → w = w'.
Proof.
  intros Hinv H1 H2. assert (txnMap s !! id = Some w) by (apply (inv_map s Hinv); eauto).
  assert (txnMap s !! id = Some w') by (apply (inv_map s Hinv); eauto). congruence.
Qed.

Lemma mailboxes_drain s : inv s → mailboxes (drain s) = mailboxes s.
Proof.
  intros Hinv. apply mailboxes_ext; [by apply drain_inv |]. intros id buf. rewrite lookup_mailboxes by done.
  f_equiv. intros w. rewrite drain_workers. cbn [chans drain]. rewrite map_lookup_filter_Some. unfold is_running. cbn [fst].
  split; [by intros [[_ ?] [? _]] |]. intros [Hw ?]. by rewrite Hw.
Qed.

Lemma mailboxes_with_chan s id w buf : inv s → inv (with_chan w buf s) → workers s !! w = Some (id, Running) →
  mailboxes (with_chan w buf s) = <[id := buf]> (mailboxes s).
Proof.
  intros Hinv Hinv' Hw. apply mailboxes_ext; [done |]. intros id' buf'. cbn [workers chans with_chan].
  rewrite lookup_insert_Some, lookup_mailboxes by done. split.
  - intros (w' & Hw' & [[<- <-] | [Hne Hb]]%lookup_insert_Some); [left; by simplify_eq |]. right. split; [| by exists w'].
    intros <-. by eapply Hne, worker_unique.
  - intros [[<- <-] | (Hne & w' & Hw' & Hb)]; [exists w; by rewrite lookup_insert_eq |]. exists w'. split; [done |].
    rewrite lookup_insert_ne; [done |]. intros <-. congruence.
Qed.

Lemma mailboxes_create s id : inv s → txnMap s !! id = None → mailboxes (create_txn s id) = <[id := []]> (mailboxes s).
Proof.
  intros Hinv Hid. apply mailboxes_ext; [by apply create_inv |]. intros id' buf. cbn [workers chans create_txn].
  rewrite lookup_insert_Some, lookup_mailboxes by done.
  assert (∀ p, workers s !! next s ≠ Some p) as Hfresh by (intros p Hp; pose proof (inv_next s Hinv (next s) ltac:(eauto)); lia).
  assert (∀ w p, workers s !! w ≠ Some (id, p)) as Hno
    by (intros w p Hw; assert (txnMap s !! id = Some w) by (apply (inv_map s Hinv); eauto); congruence).
  split.
  - intros (w & [[<- [= <-]] | [Hne Hw]]%lookup_insert_Some & Hb); [left; by rewrite lookup_insert_eq in Hb; simplify_eq |].
    rewrite lookup_insert_ne in Hb by done. right. split; [intros <-; by destruct (Hno w Running) | by exists w].
  - intros [[<- <-] | (Hne & w & Hw & Hb)]; [exists (next s); by rewrite !lookup_insert_eq |].
    exists w. assert (next s ≠ w) by (intros <-; by destruct (Hfresh (id', Running))). by rewrite !lookup_insert_ne.
Qed.

Lemma mailboxes_post s id w req : inv s → workers s !! w = Some (id, Running) →
  ∃ box, mailboxes s !! id = Some box ∧
    mailboxes (post s id req) = if decide (length box < chan_cap) then <[id := box ++ [req]]> (mailboxes s) else mailboxes s.
Proof.
  intros Hinv Hw. assert (txnMap s !! id = Some w) as Hid by (apply (inv_map s Hinv); eauto).
  destruct (post_spec s id w req Hid Hinv) as (box & Hb & Hp). exists box. split; [apply lookup_mailboxes; eauto |].
  rewrite Hp. pose proof (post_inv s id req Hinv) as Hinv'. rewrite Hp in Hinv'. case_decide; [| done].
  by apply (mailboxes_with_chan s id w).
Qed.

Lemma mailboxes_dispatch s req : inv s → mailboxes (dispatch s req) = mail_dispatch (mailboxes s) req.
Proof.
  intros Hinv. rewrite <- (mailboxes_drain s Hinv). apply drain_inv in Hinv as Hd. unfold dispatch, mail_dispatch.
  destruct (txnMap (drain s) !! generateTxnID req) as [w |] eqn:Hid.
  - pose proof (proj1 (inv_map _ Hd _ _) Hid) as [p Hw]. pose proof (proj1 (drain_workers s w _ p) Hw) as [-> _].
    destruct (mailboxes_post (drain s) _ w req Hd Hw) as (box & -> & ->). done.
  - replace (mailboxes (drain s) !! generateTxnID req) with (@None (list Request)).
    2: { symmetry. unfold mailboxes. by rewrite lookup_omap, Hid. }
    case_decide; [| done]. pose proof (create_inv _ _ Hid Hd) as Hc.
    destruct (mailboxes_post (create_txn (drain s) (generateTxnID req)) (generateTxnID req) (next (drain s)) req Hc) as (box & Hb & ->);
      [cbn [workers create_txn]; by rewrite lookup_insert_eq |].
    rewrite mailboxes_create in * by done. rewrite lookup_insert_eq in Hb. injection Hb as <-. simpl. by rewrite insert_insert_eq.
Qed.

Lemma mailboxes_same s s' : txnMap s' = txnMap s → chans s' = chans s → workers s' = workers s → mailboxes s' = mailboxes s.
Proof. unfold mailboxes. by intros -> -> ->. Qed.

Section refinement.
Context (InterfaceAddrs : Z → res (list IP)).

Lemma step_simulates s s' : inv s → step InterfaceAddrs s s' → mail_step (mailboxes s) (mailboxes s').
Proof.
  intros Hinv Hs. pose proof (step_inv _ _ _ Hs Hinv) as Hinv'. destruct Hs as [s req | s w id req buf Hw Hb | s w id Hw].
  - unfold ServeDHCP. destruct (serverID InterfaceAddrs s req) as [[ip | e] s1] eqn:E.
    + destruct (serverID_inv _ _ _ _ _ E Hinv) as (Hinv1 & _ & E1 & E2 & E3 & _).
      rewrite <- (mailboxes_same s s1 E1 E2 E3). destruct (for_another_server ip req); [constructor |].
      case_decide; [constructor |]. case_decide; [constructor |]. rewrite mailboxes_dispatch by done. constructor.
    + destruct (serverID_inv _ _ _ _ _ E Hinv) as (_ & _ & E1 & E2 & E3 & _). rewrite (mailboxes_same s s1 E1 E2 E3). constructor.
  - change (mail_step (mailboxes s) (mailboxes (with_chan w buf s))). rewrite (mailboxes_with_chan s id w) by done.
    apply mail_take with req. apply lookup_mailboxes; eauto.
  - set (s' := {| txnMap := _ |}) in *. replace (mailboxes s') with (delete id (mailboxes s)).
    + constructor. assert (is_Some (chans s !! w)) as [buf Hb] by (apply (inv_chan s Hinv); eauto).
      exists buf. apply lookup_mailboxes; eauto.
    + symmetry. apply mailboxes_ext; [done |]. intros id' buf. cbn [workers chans s']. rewrite lookup_delete_Some, lookup_mailboxes by done. split.
      * intros (w' & [[_ [=]] | [Hne Hw']]%lookup_insert_Some & Hb). split; [| by exists w'].
        intros <-. apply Hne. by apply (worker_unique s id _ _ Running Running).
      * intros (Hne & w' & Hw' & Hb). exists w'. rewrite lookup_insert_ne; [done |]. intros <-. congruence.
Qed.

(** C2: the server refines a mailbox for each transaction: its mailboxes are at
    first none, each of its steps (a packet that arrives, a goroutine that
    receives or returns) is a step of the mailboxes or leaves them alone, and a
    packet that is dispatched changes them exactly as they say.  So whatever
    the server can reach, the mailboxes can. *)
Theorem server_refines s : reachable InterfaceAddrs s →
  mailboxes NewServer = ∅ ∧ mail_reachable (mailboxes s)
  ∧ (∀ req, mailboxes (dispatch s req) = mail_dispatch (mailboxes s) req)
  ∧ ∀ s', step InterfaceAddrs s s' → mail_step (mailboxes s) (mailboxes s').
Proof.
  intros Hr. assert (inv s ∧ mail_reachable (mailboxes s)) as [Hinv Hm].
  { induction Hr as [| s s' _ [Hinv Hm] Hs]; [split; [apply inv_init | constructor] |].
    split; [by eapply step_inv |]. eapply mail_next; [done | by eapply step_simulates]. }
  split_and!; [done | done | by intros req; apply mailboxes_dispatch | by intros s' Hs; apply step_simulates].
Qed.
End refinement.

(** ** Witness: a DISCOVER opens a mailbox *)
Lemma server_refines_witness : let req := sample_req x01 ∅ in let s := ServeDHCP sample_ifs NewServer req in
  reachable sample_ifs s ∧ mail_reachable (mailboxes s) ∧ (length <$> mailboxes s !! generateTxnID req) = Some 1
  ∧ mail_step (mailboxes s) (mailboxes (ServeDHCP sample_ifs s req)).
Proof.
  intros req s.
  assert (reachable sample_ifs s) as Hr by (eapply reach_step; [apply reach_init | apply step_packet]).
  destruct (server_refines sample_ifs s Hr) as (_ & Hm & _ & Hs).
  split; [exact Hr |]. split; [exact Hm |]. split; [vm_compute; reflexivity |]. apply Hs. apply step_packet.
Defined.
