(* ===== verification/PxeOptions.v ===== *)
(** Packages [slingshot/pxe] and [slingshot/ipxe]: the boot options of a
    client, read from its DHCP packet. *)

From S2P Require Import Prelude GoPath DhcpOption.
From Stdlib Require Import ZArith Lia.

(** ** PXE *)
(* @slingshot/pxe/options.go:16-16 SystemArchitectureIntelX86PC *)
Definition SystemArchitectureIntelX86PC : Z := 0.

(* @slingshot/pxe/options.go:15-39 systemArchitectureStrings *)
Definition systemArchitectureStrings : list (Z * string) :=
  [ (0, "Intel x86PC"); (1, "NEC/PC98"); (2, "EFI Itanium"); (3, "DEC Alpha"); (4, "Arc x86");
    (5, "Intel Lean Client"); (6, "EFI IA32"); (7, "EFI BC"); (8, "EFI Xscale"); (9, "EFI x86-64") ]%Z.

(* @slingshot/pxe/options.go:42-46 Options *)
Record pxe_Options := {
  SystemArchitectureType : Z;
  NetworkInterfaceIdentifier : bytes;   (* 2 bytes *)
  MachineIdentifier : bytes             (* 16 bytes *)
}.

(* @slingshot/pxe/options.go:48-87 LoadOptions *)
Definition pxe_LoadOptions (o : OptionMap) : res pxe_Options :=
  match GetString o OptionClassID with
  | None => Err ErrNoPXEClient
  | Some classID =>
      if negb (HasPrefix (s2b classID) (s2b "PXEClient")) then Err ErrNoPXEClient
      else match GetUint16 o OptionClientSystem with
      | None => Err ErrNoPXEClient
      | Some arch =>
          match GetOption o OptionClientNDI with
          | None => Err ErrNoPXEClient
          | Some ndi =>
              if decide (length ndi ≠ 3) then Err ErrNoPXEClient
              else match GetOption o OptionUUIDGUID with
              | None => Err ErrNoPXEClient
              | Some uuid =>
                  if decide (length uuid ≠ 17) then Err ErrNoPXEClient
                  else Ok {| SystemArchitectureType := arch;
                             NetworkInterfaceIdentifier := take 2 (drop 1 ndi);
                             MachineIdentifier := take 16 (drop 1 uuid) |}
              end
          end
      end
  end.

(** ** iPXE *)
(* @slingshot/ipxe/options.go:14-16 OptionIPXEEncapsulation *)
Definition OptionIPXEEncapsulation : Option := xaf.

(** The fields in their order, with their codes; the zero value of the type. *)
(* @slingshot/ipxe/options.go:18-58 Options *)
Definition ipxe_Options : struct :=
  [ (1, VInt 1 0);         (* Priority *)
    (8, VUint 1 0);        (* KeepSAN *)
    (9, VUint 1 0);        (* SkipSANBoot *)
    (85, VString "");      (* Syslogs *)
    (91, VString "");      (* Cert *)
    (92, VString "");      (* PrivKey *)
    (93, VString "");      (* CrossCert *)
    (176, VUint 1 0);      (* NoPXEDHCP *)
    (177, VString "");     (* BusID *)
    (189, VUint 1 0);      (* BiosDrive *)
    (190, VString "");     (* Username *)
    (191, VString "");     (* Password *)
    (192, VString "");     (* ReverseUsername *)
    (193, VString "");     (* ReversePassword *)
    (235, VString "");     (* Version *)
    (16, VUint 1 0); (17, VUint 1 0); (18, VUint 1 0);    (* PXEExt, ISCSI, AoE *)
    (19, VUint 1 0); (20, VUint 1 0); (21, VUint 1 0);    (* HTTP, HTTPS, TFTP *)
    (22, VUint 1 0); (23, VUint 1 0); (24, VUint 1 0);    (* FTP, DNS, BzImage *)
    (25, VUint 1 0); (26, VUint 1 0); (27, VUint 1 0);    (* Multiboot, SLAM, SRP *)
    (32, VUint 1 0); (33, VUint 1 0); (34, VUint 1 0);    (* NBI, PXE, ELF *)
    (35, VUint 1 0); (36, VUint 1 0); (37, VUint 1 0);    (* COMBOOT, EFI, FCoE *)
    (38, VUint 1 0); (39, VUint 1 0); (40, VUint 1 0);    (* VLAN, Menu, SDI *)
    (41, VUint 1 0) ]%Z.   (* NFS *)

(* @slingshot/ipxe/options.go:60-87 LoadOptions *)
Definition ipxe_LoadOptions (o : OptionMap) : res struct :=
  match GetString o OptionUserClass with
  | None => Err ErrNoIPXEClient
  | Some userClass =>
      if decide (userClass ≠ "iPXE"%string) then Err ErrNoIPXEClient
      else match GetOption o OptionIPXEEncapsulation with
      | None => Err ErrNoOption175
      | Some b =>
          match Deserialize ∅ b true with
          | (_, Some e) => Err e
          | (m, None) => Ok (Decode m ipxe_Options)
          end
      end
  end.

(** The structs of this type: the same fields, each within its range, with
    strings an option can hold. *)
Definition fits (v : fval) : Prop :=
  in_range v ∧ match v with VString s => String.length s ≤ 255 | VUint n _ | VInt n _ => n ≤ 4 | _ => True end.
Definition is_ipxe_Options (st : struct) : Prop :=
  prod_map id zero_of <$> st = ipxe_Options ∧ Forall (λ f, fits f.2) st.

(** ** Lemmas *)
Lemma ipxe_codes : NoDup ((λ f, z2b f.1) <$> ipxe_Options).
Proof. apply (bool_decide_unpack _). vm_compute. exact I. Qed.

Lemma is_ipxe_codes st : is_ipxe_Options st → (λ f, z2b f.1) <$> st = (λ f, z2b f.1) <$> ipxe_Options.
Proof. intros [<- _]. rewrite <- list_fmap_compose. done. Qed.

Lemma ipxe_codes_plain st c v : is_ipxe_Options st → (c, v) ∈ st → z2b c ≠ OptionPad ∧ z2b c ≠ OptionEnd.
Proof.
  intros H Hin.
  assert (z2b c ∈ (λ f, z2b f.1) <$> ipxe_Options) as Hc.
  { rewrite <- (is_ipxe_codes st H). by apply (list_elem_of_fmap_2 (λ f, z2b f.1) st (c, v)). }
  assert (Forall (λ k, k ≠ OptionPad ∧ k ≠ OptionEnd) ((λ f, z2b f.1) <$> ipxe_Options)) as Hall
    by (apply (bool_decide_unpack _); vm_compute; exact I).
  rewrite Forall_forall in Hall. by apply Hall.
Qed.

Lemma encodeValue_short om c v k x :
  fits v → encodeValue om c v !! k = Some x → om !! k = Some x ∨ k = z2b c ∧ length x ≤ 255.
Proof.
  intros [Hr Hs]. destruct (decide (k = z2b c)) as [-> | Hk].
  2: { rewrite encodeValue_other by done. auto. }
  destruct v as [n z | n z | s | b | |]; simpl; unfold SetOption, encodeInt; try done.
  - case_decide; [| auto]. rewrite lookup_insert_eq. intros [= <-]. rewrite length_be_put. right. split; [done | lia].
  - case_decide; [| auto]. rewrite lookup_insert_eq. intros [= <-]. rewrite length_be_put. right. split; [done | lia].
  - case_decide; [| auto]. rewrite lookup_insert_eq. intros [= <-]. rewrite s2b_length. auto.
  - destruct b; [| auto]. rewrite lookup_insert_eq. intros [= <-]. right. split; [done | simpl; lia].
Qed.

Lemma Encode_short om st k x :
  Forall (λ f, fits f.2) st → Encode om st !! k = Some x →
  om !! k = Some x ∨ k ∈ ((λ f, z2b f.1) <$> st) ∧ length x ≤ 255.
Proof.
  revert om. induction st as [| [c v] st IH]; intros om Hf; [auto |].
  apply Forall_cons in Hf as [Hv Hf]. unfold Encode in *. cbn [foldl fst snd].
  intros [H | [Hk Hl]]%IH; [| set_solver | done].
  apply (encodeValue_short _ _ _ _ _ Hv) in H as [H | [-> Hl]]; [auto | set_solver].
Qed.

Lemma Encode_serializable st : Forall (λ f, fits f.2) st → serializable (Encode ∅ st) = Encode ∅ st.
Proof.
  intros Hf. apply map_filter_id. intros k x H. apply Encode_short in H as [H | [_ Hl]]; done.
Qed.

Lemma Encode_no_marker st : is_ipxe_Options st → no_marker (Encode ∅ st).
Proof.
  intros H. pose proof H as [_ Hf].
  assert (∀ k, k = OptionPad ∨ k = OptionEnd → Encode ∅ st !! k = None) as HN; [| split; apply HN; auto].
  intros k Hk. destruct (Encode ∅ st !! k) as [x |] eqn:E; [| done].
  apply Encode_short in E as [E | [Hin _]]; [done | | done].
  apply list_elem_of_fmap in Hin as ([c v] & -> & Hin).
  apply (ipxe_codes_plain st c v H) in Hin as []. simpl in Hk. naive_solver.
Qed.

Lemma fits_in_range st : Forall (λ f : Z * fval, fits f.2) st → Forall (λ f, in_range f.2) st.
Proof. intros H. eapply Forall_impl; [exact H |]. by intros f [? _]. Qed.

(** An iPXE client's options survive the trip through option 175, whatever
    order the sender wrote them in. *)
Theorem ipxe_LoadOptions_roundtrip (st : struct) (o : OptionMap) (order : list byte) :
  is_ipxe_Options st →
  GetString o OptionUserClass = Some "iPXE"%string →
  NoDup order → (∀ k, k ∈ order ↔ k ∈ dom (Encode ∅ st)) →
  GetOption o OptionIPXEEncapsulation = Some (Serialize (Encode ∅ st) order) →
  ipxe_LoadOptions o = Ok st.
Proof.
  intros Hst Hu Hnd Hdom Ho. unfold ipxe_LoadOptions. rewrite Hu, decide_False by naive_solver.
  rewrite Ho. rewrite <- (app_nil_r (Serialize _ _)).
  rewrite Deserialize_Serialize by (done || by apply Encode_no_marker).
  pose proof Hst as [Hz Hf]. rewrite Encode_serializable by done. rewrite (right_id_L ∅ _).
  f_equal. rewrite <- Hz at 1. apply Decode_Encode; [| by apply fits_in_range].
  rewrite (is_ipxe_codes st Hst). apply ipxe_codes.
Qed.

Definition set_code (c : Z) (v : fval) (st : struct) : struct :=
  (λ f, if decide (f.1 = c) then (c, v) else f) <$> st.

Lemma ipxe_LoadOptions_roundtrip_witness :
  let st := set_code 1 (VInt 1 (-2)) (set_code 177 (VString "pci") ipxe_Options) in
  let om := Encode ∅ st in
  ipxe_LoadOptions {[ OptionUserClass := s2b "iPXE"; OptionIPXEEncapsulation := Serialize om (sortedOptions om) ]} = Ok st.
Proof.
  apply (ipxe_LoadOptions_roundtrip _ _ (sortedOptions (Encode ∅ (set_code 1 (VInt 1 (-2)) (set_code 177 (VString "pci") ipxe_Options))))).
  - split; [reflexivity |]. unfold set_code, ipxe_Options. simpl. repeat (apply Forall_cons; split); try apply Forall_nil.
    all: unfold fits; simpl; repeat split; try lia; done.
  - vm_compute. reflexivity.
  - apply (bool_decide_unpack _). vm_compute. exact I.
  - intros k. unfold sortedOptions. rewrite merge_sort_Permutation. apply elem_of_elements.
  - vm_compute. reflexivity.
Defined.

(** The PXE options are found exactly in a packet whose class identifier
    starts with "PXEClient" and whose architecture, interface and machine
    identifiers have their fixed lengths; the type byte of the two identifiers
    is dropped. *)
Theorem pxe_LoadOptions_iff (o : OptionMap) (p : pxe_Options) :
  pxe_LoadOptions o = Ok p ↔
  ∃ class a0 a1 t n u0 uuid,
    o !! OptionClassID = Some class ∧ s2b "PXEClient" `prefix_of` class ∧
    o !! OptionClientSystem = Some [a0; a1] ∧ o !! OptionClientNDI = Some (t :: n) ∧ length n = 2 ∧
    o !! OptionUUIDGUID = Some (u0 :: uuid) ∧ length uuid = 16 ∧
    p = {| SystemArchitectureType := be_get [a0; a1]; NetworkInterfaceIdentifier := n; MachineIdentifier := uuid |}.
Proof.
  unfold pxe_LoadOptions, GetString, GetUint16, GetUint, GetOption.
  split.
  - destruct (o !! OptionClassID) as [class |] eqn:E1; [| done]. cbn [fmap option_fmap option_map].
    rewrite s2b_b2s. destruct (HasPrefix class _) eqn:Hp; [| done]. cbn [negb].
    destruct (o !! OptionClientSystem) as [a |] eqn:E2; [| done].
    case_decide as Ha; [| done]. destruct a as [| a0 [| a1 [|]]]; try done.
    destruct (o !! OptionClientNDI) as [n |] eqn:E3; [| done]. case_decide as Hn; [done |].
    destruct (o !! OptionUUIDGUID) as [u |] eqn:E4; [| done]. case_decide as Hu; [done |].
    intros [= <-]. destruct n as [| t n]; [done |]. destruct u as [| u0 u]; [done |].
    cbn [length] in *. exists class, a0, a1, t, n, u0, u. split_and!; try done; try lia.
    + by apply HasPrefix_spec.
    + cbn [drop]. rewrite (take_ge n), (take_ge u) by lia. done.
  - intros (class & a0 & a1 & t & n & u0 & u & E1 & Hp & E2 & E3 & Hn & E4 & Hu & ->).
    rewrite E1, E2, E3, E4. cbn [fmap option_fmap option_map]. rewrite s2b_b2s.
    apply HasPrefix_spec in Hp as ->. cbn [negb]. rewrite decide_True by done.
    rewrite decide_False by (simpl; lia). rewrite decide_False by (simpl; lia).
    cbn [drop]. rewrite (take_ge n), (take_ge u) by lia. done.
Qed.
