(* ===== verification/Txn.v ===== *)
(** Package [slingshot]: the DHCP server of a management plane, which answers
    the packets of a transaction with a lease, and with the files to boot from.

    [txnState] is what one transaction remembers between its packets; [World] is
    everything outside of it: the store of leases, the lease managers, the bound
    images, and the files of the machine.  [ServeTxn] is given the requests that
    arrive before ten seconds pass without any. *)

From S2P Require Import Prelude GoPath GoNet GoJson GoURL DcpCommon DcpUri Operation Client ProvTypes Provisioning.
From S2P Require Import Filecache BootImage SlingTypes Lease Image ImageServer DhcpOption DhcpPacket DhcpServer PxeOptions.
From Stdlib Require Import ZArith Lia.

Section txn.
Context `{GoTypes} {W : Type} `{Network W} (now : Z) (dcp : AddressFlag) `{!Embeds DiskCustomizationRequest}.
Context {S : Type} `{Store S W} (list_subnets : W → outcome (res (list Subnet) * W)) (new_store : S).
Context (InterfaceAddrs : Z → res (list IP)).
Context {EI : Type} `{Images EI} {EM : Type} `{Machine EM} (downloadPath : string).
(** The two identifiers [uuid.New] makes. *)
Context (uuid : EM → string * string).
Context (WriteTo : datagram → option error).

Record World := {
  wo_store : W;
  wo_managers : ManagerFactory (S := S);
  wo_images : ImageW (E := EI);
  wo_files : CacheW EM
}.
#[export] Instance eta_World : Eta World := λ w,
  {| wo_store := wo_store w; wo_managers := wo_managers w; wo_images := wo_images w; wo_files := wo_files w |}.

(* @slingshot/txnstate.go:24-38 txnState *)
Record txnState := {
  t_ip : IP;
  t_subnet : Subnet;
  t_lease : Lease;
  t_configuration : Configuration;
  t_pxeReq : option pxe_Options;
  t_ipxeReq : option struct;
  t_ipxeRep : option struct;
  t_bootFileName : string
}.
#[export] Instance eta_txnState : Eta txnState := λ t,
  {| t_ip := t_ip t; t_subnet := t_subnet t; t_lease := t_lease t; t_configuration := t_configuration t;
     t_pxeReq := t_pxeReq t; t_ipxeReq := t_ipxeReq t; t_ipxeRep := t_ipxeRep t; t_bootFileName := t_bootFileName t |}.

(* @slingshot/txnstate.go:40-72 newTxn *)
Definition newTxn (req : Request) (w : World) : outcome (res txnState * World) :=
  let i := InterfaceIndex req in
  if decide (i ≤ 0)%Z then Ret (Err (Errorf "no such interface"), w)
  else
    out_bind (LeaseManager list_subnets InterfaceAddrs new_store (wo_managers w) i (wo_store w)) (λ '(m, f, x),
      let w := w <| wo_managers := f |> <| wo_store := x |> in
      match m with
      | Err e => Ret (Err e, w)
      | Ok m =>
          match NewMACFromBytes (GetCHAddr (req_packet req)) with
          | Err e => Ret (Err e, w)
          | Ok mac =>
              out_bind (Get m mac (wo_store w)) (λ '(r, x),
                let w := w <| wo_store := x |> in
                match r with
                | Err e => Ret (Err e, w)
                | Ok (n, l, c) =>
                    Ret (Ok {| t_ip := MyIP m; t_subnet := n; t_lease := l; t_configuration := c;
                               t_pxeReq := None; t_ipxeReq := None; t_ipxeRep := None; t_bootFileName := "" |}, w)
                end)
          end
      end).

(* @slingshot/txnstate.go:74-87 txnState.loadPXE *)
Definition loadPXE (req : Request) (t : txnState) : txnState :=
  match pxe_LoadOptions (OptMap (req_packet req)) with
  | Err _ => t
  | Ok o => if decide (SystemArchitectureType o ≠ SystemArchitectureIntelX86PC) then t else t <| t_pxeReq := Some o |>
  end.

(** [&ipxe.Options{}] with [NoPXEDHCP] set. *)
Definition ipxe_reply : struct := set_code 176 (VUint 1 1) ipxe_Options.

(* @slingshot/txnstate.go:89-105 txnState.loadIPXE *)
Definition loadIPXE (req : Request) (t : txnState) : txnState :=
  match t_pxeReq t with
  | None => t
  | Some _ =>
      match ipxe_LoadOptions (OptMap (req_packet req)) with
      | Err _ => t
      | Ok o => t <| t_ipxeReq := Some o |> <| t_ipxeRep := Some ipxe_reply |>
      end
  end.

Definition set_option (o : Option) (v : bytes) : Reply → Reply := rep_map (λ om, SetOption om o v).
Definition set_yiaddr (ip : IP) (r : Reply) : Reply :=
  {| rep_kind := rep_kind r; rep_packet := SetYIAddr (rep_packet r) ip; rep_req := rep_req r |}.

(* @slingshot/txnstate.go:107-115 txnState.assignLease *)
Definition assignLease (t : txnState) (rep : Reply) : outcome Reply :=
  match ipnet_IPNet (sub_Subnet (t_subnet t)) with
  | None => Panic
  | Some net =>
      let rep := set_option OptionSubnetMask (IPNet_Mask net) rep in
      let rep := rep_map (λ om, SetDuration om OptionAddressTime (1200 * Second)) rep in
      Ret (set_yiaddr (To4 (ip_IP (lease_IP (t_lease t)))) rep)
  end.

(** What a host boots from is written in the code, whatever it is configured to. *)
(* @slingshot/bmp/bmp.go:155-168 Client.LoadStatesFromConfiguration *)
Definition LoadStatesFromConfiguration (x : EM) (c : Configuration) : res (ComputeState * DiskState) :=
  let compute := (zero : ComputeState) <| cs_ID := (uuid x).1 |> in
  let disk := (zero : DiskState) <| disk_ID := (uuid x).2 |> <| disk_DiskType := BootDeviceNetwork |>
    <| disk_SourceImageReference := "http://artifactory.ec.eng.vmware.com/artifactory/esxcloud-archives/userContent/tmp/serverimage.tar" |> in
  Ok (compute, disk).

(** The image, bound to the lease: where its files are. *)
(* @slingshot/txnstate.go:125-143 txnState.assignBootfile *)
Definition bindImage (t : txnState) (w : World) : outcome (res V1 * World) :=
  out_bind NewClient (λ _,
    match LoadStatesFromConfiguration (cw_ext (wo_files w)) (t_configuration t) with
    | Err e => Ret (Err e, w)
    | Ok (cs, ds) =>
        out_bind (image_Download now dcp downloadPath Background cs ds (wo_store w) (wo_files w)) (λ '(img, x, f),
          let w := w <| wo_store := x |> <| wo_files := f |> in
          match img with
          | Err e => Ret (Err e, w)
          | Ok img =>
              out_bind (AddTar (t_ip t) (t_subnet t) (t_lease t) (t_configuration t) img (wo_images w)) (λ '(d, iw),
                Ret (d, w <| wo_images := iw |>))
          end)
    end).

(* @slingshot/txnstate.go:145-156 txnState.assignBootfile *)
Definition bootFile (t : txnState) (d : V1) : string :=
  let u := empty_URL <| u_Scheme := s2b "tftp" |> <| u_Host := s2b (v1_Host d) |> in
  match t_ipxeReq t with
  | Some _ => URL_String (u <| u_Path := s2b (path_Join (v1_Path d) (v1_NextFile d)) |>)
  | None => b2s (drop 1 (s2b (path_Join (v1_Path d) "ipxe/undionly.kpxe")))
  end.

(* @slingshot/txnstate.go:159-160 txnState.assignBootfile *)
Definition announce (t : txnState) (rep : Reply) : Reply :=
  set_option OptionBootfileName (s2b (t_bootFileName t)) (set_option OptionServerName (s2b (IP_String (t_ip t))) rep).

(* @slingshot/txnstate.go:117-161 txnState.assignBootfile *)
Definition assignBootfile (t : txnState) (rep : Reply) (w : World) : outcome (txnState * Reply * World) :=
  match t_pxeReq t with
  | None => Ret (t, rep, w)
  | Some _ =>
      if str_empty (t_bootFileName t) then
        out_bind (bindImage t w) (λ '(d, w),
          match d with
          | Err _ => Ret (t, rep, w)
          | Ok d => let t := t <| t_bootFileName := bootFile t d |> in Ret (t, announce t rep, w)
          end)
      else Ret (t, announce t rep, w)
  end.

(* @slingshot/txnstate.go:163-177 IPListToOption *)
Definition IPListToOption (l : list IPj) : bytes :=
  foldl (λ o r, let s := To4 (ip_IP r) in if decide (s = [] ∨ IP_IsUnspecified s = true) then o else o ++ s) [] l.

Definition set_ips (o : Option) (l : list IPj) (rep : Reply) : Reply :=
  let b := IPListToOption l in if decide (0 < length b) then set_option o b rep else rep.

(* @slingshot/txnstate.go:179-184 txnState.assignRouter *)
Definition assignRouter (t : txnState) : Reply → Reply := set_ips OptionRouter (conf_Routers (t_configuration t)).
(* @slingshot/txnstate.go:186-191 txnState.assignNameServer *)
Definition assignNameServer (t : txnState) : Reply → Reply := set_ips OptionDomainServer (conf_NameServers (t_configuration t)).

(* @slingshot/txnstate.go:193-196 txnState.clientID *)
Definition clientID (t : txnState) (req : Request) : string :=
  b2s (ClientID req) +:+ "-" +:+ IP_String (ip_IP (lease_IP (t_lease t))).

(** [order] is the order in which the options of iPXE are written. *)
Context (order : OptionMap → list byte).

Definition encapsulate (t : txnState) (rep : Reply) : Reply :=
  match t_ipxeRep t with
  | None => rep
  | Some o => let m := Encode ∅ o in set_option OptionIPXEEncapsulation (Serialize m (order m)) rep
  end.

(** The reply of a transaction to a request. *)
(* @slingshot/txnstate.go:198-212 txnState.WriteReply *)
Definition fillReply (t : txnState) (req : Request) (rep : Reply) (w : World) : outcome (txnState * Reply * World) :=
  let t := loadIPXE req (loadPXE req t) in
  let rep := assignRouter t rep in
  out_bind (assignLease t rep) (λ rep,
  out_bind (assignBootfile t rep w) (λ '(t, rep, w),
    Ret (t, encapsulate t (assignNameServer t rep), w))).

(* @slingshot/txnstate.go:198-220 txnState.WriteReply *)
Definition txn_WriteReply (t : txnState) (req : Request) (rep : Reply) (w : World) :
  outcome (txnState * list datagram * option error * World) :=
  out_bind (fillReply t req rep w) (λ '(t, rep, w),
    match req_writer req with
    | Some rw => out_bind (WriteReply WriteTo rw rep) (λ '(ds, e), Ret (t, ds, e, w))
    | None => Ret (t, [], None, w)
    end).

(** The reply a request asks for. *)
(* @slingshot/server.go:76-87 Server.ServeTxn *)
Definition reply_to (req : Request) : option Reply :=
  if decide (req_type req = MessageTypeDHCPDiscover) then Some (CreateDHCPOffer req)
  else if decide (req_type req = MessageTypeDHCPRequest) then Some (CreateDHCPAck req)
  else None.

(** The packets of a transaction that is set up; what was sent so far. *)
(* @slingshot/server.go:76-93 Server.ServeTxn *)
Fixpoint serve_packets (t : txnState) (reqs : list Request) (w : World) (sent : list datagram) : outcome (list datagram * World) :=
  match reqs with
  | [] => Ret (sent, w)
  | req :: reqs =>
      match reply_to req with
      | None => serve_packets t reqs w sent
      | Some rep =>
          out_bind (txn_WriteReply t req rep w) (λ '(t, ds, e, w),
            match e with
            | Some _ => Ret (sent ++ ds, w)
            | None => serve_packets t reqs w (sent ++ ds)
            end)
      end
  end.

(* @slingshot/server.go:50-95 Server.ServeTxn *)
Definition ServeTxn (reqs : list Request) (w : World) : outcome (list datagram * World) :=
  match reqs with
  | [] => Ret ([], w)
  | req :: _ =>
      out_bind (newTxn req w) (λ '(t, w),
        match t with
        | Err _ => Ret ([], w)
        | Ok t => serve_packets t reqs w []
        end)
  end.

(** ** Lemmas: what a reply holds *)
Definition opt (o : Option) (r : Reply) : option bytes := OptMap (rep_packet r) !! o.

(** The options a server must not send are absent. *)
Definition forbidden : list Option := [OptionAddressRequest; OptionParameterList; OptionClientID; OptionDHCPMaxMsgSize].

(** A reply starts out with its message type only. *)
Lemma reply_to_spec req rep : reply_to req = Some rep → rep_req rep = req ∧
  length (RawPacket (rep_packet rep)) = 240 ∧ (∀ o, o ≠ OptionDHCPMsgType → opt o rep = None) ∧
  (rep_kind rep = DHCPOffer ∨ rep_kind rep = DHCPAck ∧ req_type req = MessageTypeDHCPRequest).
Proof.
  unfold reply_to. repeat case_decide; intros [= <-]; (split_and!; [done | apply NewReply_length | | auto]).
  all: intros o Ho; unfold opt; simpl; unfold SetMessageType, SetOption; by rewrite lookup_insert_ne.
Qed.

Lemma assignLease_spec t r r' : assignLease t r = Ret r' →
  ∃ net, ipnet_IPNet (sub_Subnet (t_subnet t)) = Some net ∧
  r' = set_yiaddr (To4 (ip_IP (lease_IP (t_lease t))))
    (set_option OptionAddressTime (be_put 4 1200) (set_option OptionSubnetMask (IPNet_Mask net) r)).
Proof.
  unfold assignLease. destruct (ipnet_IPNet _) as [net |]; [| done]. intros [= <-]. exists net. split; [done |].
  unfold set_option, rep_map, set_yiaddr, SetDuration. simpl. done.
Qed.

Lemma assignBootfile_reply t r w t' r' w' : assignBootfile t r w = Ret (t', r', w') →
  t_configuration t' = t_configuration t ∧ t_ipxeRep t' = t_ipxeRep t ∧ t_lease t' = t_lease t ∧ t_subnet t' = t_subnet t ∧
  t_ip t' = t_ip t ∧ t_pxeReq t' = t_pxeReq t ∧ t_ipxeReq t' = t_ipxeReq t ∧ (r' = r ∨ r' = announce t' r).
Proof.
  unfold assignBootfile. destruct (t_pxeReq t) eqn:E; [| intros [= <- <- <-]; auto 10].
  destruct (str_empty _); [| intros [= <- <- <-]; auto 10].
  destruct (bindImage t w) as [[[d | e] w1] |]; cbn [out_bind]; [| | done]; intros [= <- <- <-]; auto 10.
Qed.

Lemma opt_set_option o o' v r : opt o' (set_option o v r) = if decide (o = o') then Some v else opt o' r.
Proof.
  unfold opt. simpl. unfold SetOption. case_decide as E; [subst; apply lookup_insert_eq | by apply lookup_insert_ne].
Qed.
Lemma opt_yiaddr o ip r : opt o (set_yiaddr ip r) = opt o r.
Proof. done. Qed.
Definition ips_option (l : list IPj) (old : option bytes) : option bytes :=
  if decide (0 < length (IPListToOption l)) then Some (IPListToOption l) else old.
Lemma opt_set_ips o o' l r : opt o' (set_ips o l r) = if decide (o = o') then ips_option l (opt o' r) else opt o' r.
Proof.
  unfold set_ips, ips_option. destruct (decide (0 < length (IPListToOption l))); [apply opt_set_option |]. by case_decide.
Qed.
Definition encap_option (t : txnState) (old : option bytes) : option bytes :=
  match t_ipxeRep t with None => old | Some o => Some (Serialize (Encode ∅ o) (order (Encode ∅ o))) end.
Lemma opt_encapsulate o t r :
  opt o (encapsulate t r) = if decide (OptionIPXEEncapsulation = o) then encap_option t (opt o r) else opt o r.
Proof. unfold encapsulate, encap_option. destruct (t_ipxeRep t); [apply opt_set_option |]. by case_decide. Qed.

(** All of a reply: which boot file is announced, if any, is left open. *)
Lemma fillReply_shape t req rep w t' rep' w' :
  fillReply t req rep w = Ret (t', rep', w') →
  ∃ net, ipnet_IPNet (sub_Subnet (t_subnet t)) = Some net ∧
  t_configuration t' = t_configuration t ∧ t_lease t' = t_lease t ∧ t_subnet t' = t_subnet t ∧ t_ip t' = t_ip t ∧
  let leased := set_yiaddr (To4 (ip_IP (lease_IP (t_lease t)))) (set_option OptionAddressTime (be_put 4 1200)
    (set_option OptionSubnetMask (IPNet_Mask net) (set_ips OptionRouter (conf_Routers (t_configuration t)) rep))) in
  let named r := encapsulate t' (set_ips OptionDomainServer (conf_NameServers (t_configuration t)) r) in
  rep' = named leased ∨ rep' = named (announce t' leased).
Proof.
  unfold fillReply. set (t1 := loadIPXE req (loadPXE req t)).
  assert (t_configuration t1 = t_configuration t ∧ t_lease t1 = t_lease t ∧ t_subnet t1 = t_subnet t ∧ t_ip t1 = t_ip t) as (C & L & N & I).
  { unfold t1, loadIPXE, loadPXE. by repeat case_match. }
  destruct (assignLease t1 _) as [r1 |] eqn:E1; cbn [out_bind]; [| done].
  apply assignLease_spec in E1 as (net & Hn & ->). rewrite N in Hn. rewrite L.
  destruct (assignBootfile t1 _ w) as [[[t2 r2] w2] |] eqn:E2; cbn [out_bind]; [| done].
  apply assignBootfile_reply in E2 as (C2 & _ & L2 & N2 & I2 & _ & _ & Hr). intros [= <- <- <-].
  exists net. rewrite C2, L2, N2, I2. split_and!; [done | done | done | done | done |].
  unfold assignRouter, assignNameServer in *. rewrite C2, C in *. destruct Hr as [-> | ->]; auto.
Qed.

(** What the last steps leave alone. *)
Definition same_frame (r r' : Reply) : Prop :=
  rep_kind r' = rep_kind r ∧ rep_req r' = rep_req r ∧ RawPacket (rep_packet r') = RawPacket (rep_packet r).
Lemma frame_named t l r : same_frame r (encapsulate t (set_ips OptionDomainServer l r)).
Proof. unfold encapsulate, set_ips. destruct (t_ipxeRep t); by case_decide. Qed.
Lemma frame_announce t r : same_frame r (announce t r).
Proof. done. Qed.
Lemma frame_router l r : same_frame r (set_ips OptionRouter l r).
Proof. unfold set_ips. by case_decide. Qed.

(** Options through the steps that made a reply. *)
Ltac reply_opt :=
  unfold announce; repeat first
    [ rewrite opt_encapsulate | rewrite opt_set_ips | rewrite opt_yiaddr | rewrite opt_set_option
    | rewrite decide_False by done | rewrite decide_True by done ].

Lemma fillReply_facts t req rep w t' rep' w' :
  reply_to req = Some rep → fillReply t req rep w = Ret (t', rep', w') →
  ∃ net, ipnet_IPNet (sub_Subnet (t_subnet t)) = Some net ∧
  rep_kind rep' = rep_kind rep ∧ rep_req rep' = req ∧ length (RawPacket (rep_packet rep')) = 240 ∧
  Forall (λ o, opt o rep' = None) forbidden ∧
  opt OptionAddressTime rep' = Some (be_put 4 1200) ∧ opt OptionSubnetMask rep' = Some (IPNet_Mask net) ∧
  opt OptionRouter rep' = ips_option (conf_Routers (t_configuration t)) None ∧
  opt OptionDomainServer rep' = ips_option (conf_NameServers (t_configuration t)) None ∧
  (To4 (ip_IP (lease_IP (t_lease t))) ≠ [] → GetYIAddr (rep_packet rep') = To4 (ip_IP (lease_IP (t_lease t)))).
Proof.
  intros Hr0 Hf. apply fillReply_shape in Hf as (net & Hn & _ & _ & _ & _ & Hrep).
  apply reply_to_spec in Hr0 as (Hq & Hlen & Hnone & Hk). exists net. split; [done |].
  cbn zeta in Hrep. set (leased := set_yiaddr _ _) in Hrep.
  assert (rep_kind leased = rep_kind rep ∧ rep_req leased = req ∧ length (RawPacket (rep_packet leased)) = 240 ∧
    (To4 (ip_IP (lease_IP (t_lease t))) ≠ [] → GetYIAddr (rep_packet leased) = To4 (ip_IP (lease_IP (t_lease t))))) as (K & Q & L & Y).
  { destruct (frame_router (conf_Routers (t_configuration t)) rep) as (F1 & F2 & F3).
    unfold leased. simpl. rewrite F1, F2, F3, Hq. split_and!; [done | done | rewrite length_splice; lia |].
    intros Hne%To4_nonempty. unfold GetYIAddr, window. simpl. rewrite F3.
    rewrite <- Hne at 1. apply splice_window; lia. }
  assert (same_frame leased rep') as (F1 & F2 & F3).
  { destruct Hrep as [-> | ->]; [apply frame_named |]. apply (frame_named _ _ (announce t' leased)). }
  unfold GetYIAddr. rewrite F1, F2, F3. split_and!; [done | done | done | | | | | | exact Y].
  all: destruct Hrep as [-> | ->]; unfold leased; repeat constructor; reply_opt; rewrite ?Hnone by done; done.
Qed.

(** What the checks of the library ask for. *)
Lemma reply_valid t req rep ip w t' rep' w' :
  reply_to req = Some rep → fillReply t req rep w = Ret (t', rep', w') →
  Reply_Validate (set_option OptionDHCPServerID (To4 ip) rep') = Ok ().
Proof.
  intros Hr0 Hf. pose proof Hr0 as Hk. apply reply_to_spec in Hk as (_ & _ & _ & Hk).
  destruct (fillReply_facts _ _ _ _ _ _ _ Hr0 Hf) as (net & _ & K & Q & L & C & T & _). set (r := set_option _ _ rep').
  apply Forall_cons in C as [C1 C]. apply Forall_cons in C as [C2 C]. apply Forall_cons in C as [C3 C].
  apply Forall_cons in C as [C4 _].
  assert (∀ o, OptMap (rep_packet r) !! o = if decide (OptionDHCPServerID = o) then Some (To4 ip) else opt o rep') as O
    by (intros o; apply opt_set_option).
  assert (OptMap (rep_packet r) !! OptionAddressRequest = None) as O1 by (rewrite O, decide_False by done; exact C1).
  assert (OptMap (rep_packet r) !! OptionParameterList = None) as O2 by (rewrite O, decide_False by done; exact C2).
  assert (OptMap (rep_packet r) !! OptionClientID = None) as O3 by (rewrite O, decide_False by done; exact C3).
  assert (OptMap (rep_packet r) !! OptionDHCPMaxMsgSize = None) as O4 by (rewrite O, decide_False by done; exact C4).
  assert (OptMap (rep_packet r) !! OptionAddressTime = Some (be_put 4 1200)) as O5 by (rewrite O, decide_False by done; exact T).
  assert (OptMap (rep_packet r) !! OptionDHCPServerID = Some (To4 ip)) as O6 by (rewrite O, decide_True by done; done).
  unfold Reply_Validate. assert (rep_kind r = rep_kind rep) as -> by done. assert (rep_req r = req) as -> by done.
  destruct Hk as [-> | [-> ->]]; [| rewrite decide_True by done];
    cbn [res_bind dhcpOfferValidation dhcpAckValidation Validate validation_ok ValidateMust ValidateMustNot];
    by rewrite ?O1, ?O2, ?O3, ?O4, ?O5, ?O6.
Qed.

(** ** Properties *)

(** C4: every reply of a transaction passes the checks of the library that sends
    it, once the dispatcher has added the server's identifier, so that it leaves
    as one datagram, to the client's address or broadcast; the only ways out are
    a request whose maximum message size is too short to read, which panics. *)
Theorem reply_is_sent (t : txnState) (req : Request) (rep : Reply) (ip : IP) (rw : replyWriter) (w : World) (t' : txnState) (rep' : Reply) (w' : World) :
  reply_to req = Some rep → req_writer req = Some (writeReplyWithServerID ip (plainWriter rw)) →
  fillReply t req rep w = Ret (t', rep', w') →
  match GetOption (OptMap (req_packet req)) OptionDHCPMaxMsgSize with
  | Some [] | Some [_] => txn_WriteReply t req rep w = Panic
  | _ => ∃ b, let d := {| dg_bytes := b; dg_addr := reply_addr rw req; dg_ifindex := rw_ifindex rw |} in
         txn_WriteReply t req rep w = Ret (t', [d], WriteTo d, w')
  end.
Proof.
  intros Hr0 Hw Hf. unfold txn_WriteReply. rewrite Hf. cbn [out_bind]. rewrite Hw. cbn [WriteReply].
  destruct (fillReply_facts _ _ _ _ _ _ _ Hr0 Hf) as (net & _ & _ & Q & L & _).
  pose proof (reply_valid _ _ _ ip _ _ _ _ Hr0 Hf) as HV.
  fold (set_option OptionDHCPServerID (To4 ip) rep'). set (r := set_option _ _ rep') in *.
  unfold replyWriter_WriteReply. rewrite HV. unfold Reply_ToBytes.
  assert (rep_req r = req) as -> by done.
  assert (240 ≤ length (RawPacket (rep_packet r))) as HL by (change (RawPacket (rep_packet r)) with (RawPacket (rep_packet rep')); lia).
  destruct (GetOption _ OptionDHCPMaxMsgSize) as [[| a [| b v]] |]; [done | done | |]; cbn [Uint16 out_bind];
    match goal with |- context [PacketToBytes ?p ?o] => destruct (PacketToBytes_layout p o HL) as (l0 & l1 & l2 & -> & _) end;
    eexists; reflexivity.
Qed.

(** What a reply tells the client: the leased address, the subnet's mask, a
    lease time of 20 minutes whatever the configuration says, and the routers
    and name servers of the configuration that are IPv4 addresses. *)
Theorem reply_content (t : txnState) (req : Request) (rep : Reply) (w : World) (t' : txnState) (rep' : Reply) (w' : World) :
  reply_to req = Some rep → fillReply t req rep w = Ret (t', rep', w') →
  ∃ net, ipnet_IPNet (sub_Subnet (t_subnet t)) = Some net ∧
  opt OptionSubnetMask rep' = Some (IPNet_Mask net) ∧
  GetDuration (OptMap (rep_packet rep')) OptionAddressTime = Some (1200 * Second)%Z ∧
  opt OptionRouter rep' = ips_option (conf_Routers (t_configuration t)) None ∧
  opt OptionDomainServer rep' = ips_option (conf_NameServers (t_configuration t)) None ∧
  (To4 (ip_IP (lease_IP (t_lease t))) ≠ [] → GetYIAddr (rep_packet rep') = To4 (ip_IP (lease_IP (t_lease t)))).
Proof.
  intros Hr0 Hf. destruct (fillReply_facts _ _ _ _ _ _ _ Hr0 Hf) as (net & N & _ & _ & _ & _ & T & M & R & D & Y).
  exists net. split_and!; try done. unfold GetDuration, GetUint32, GetUint, GetOption. unfold opt in T. rewrite T. done.
Qed.

(** Four bytes at a time. *)
Fixpoint chunks4 (b : bytes) : list bytes :=
  match b with b0 :: b1 :: b2 :: b3 :: b => [b0; b1; b2; b3] :: chunks4 b | _ => [] end.
Definition v4_addresses (l : list IPj) : list bytes :=
  filter (λ s, s ≠ [] ∧ IP_IsUnspecified s = false) ((λ r, To4 (ip_IP r)) <$> l).

Lemma chunks4_concat l : Forall (λ s, length s = 4) l → chunks4 (mjoin l) = l.
Proof.
  induction 1 as [| s l Hs _ IH]; [done |]. destruct s as [| b0 [| b1 [| b2 [| b3 [|]]]]]; try done.
  change (chunks4 (mjoin ([b0; b1; b2; b3] :: l))) with ([b0; b1; b2; b3] :: chunks4 (mjoin l)). by rewrite IH.
Qed.

Lemma IPListToOption_eq l : IPListToOption l = mjoin (v4_addresses l).
Proof.
  unfold IPListToOption. assert (∀ l o, foldl (λ o r, let s := To4 (ip_IP r) in
    if decide (s = [] ∨ IP_IsUnspecified s = true) then o else o ++ s) o l = o ++ mjoin (v4_addresses l)) as Hgen.
  { clear l. induction l as [| r l IH]; intros o; [symmetry; apply app_nil_r |]. cbn [foldl]. rewrite IH.
    unfold v4_addresses. rewrite fmap_cons, filter_cons. destruct (To4 (ip_IP r)) as [| b s] eqn:E.
    - rewrite decide_True by auto. rewrite decide_False by naive_solver. done.
    - destruct (IP_IsUnspecified (b :: s)) eqn:U.
      + rewrite decide_True by auto. rewrite decide_False by naive_solver. done.
      + rewrite decide_False by naive_solver. rewrite decide_True by done. cbn. by rewrite <- (assoc_L (++)). }
  apply Hgen.
Qed.

(** The option of a list of addresses is read back, four bytes at a time, as
    those of the list that are IPv4 addresses other than 0.0.0.0, in order. *)
Theorem IPListToOption_spec (l : list IPj) :
  chunks4 (IPListToOption l) = v4_addresses l ∧ length (IPListToOption l) = 4 * length (v4_addresses l).
Proof.
  assert (Forall (λ s, length s = 4) (v4_addresses l)) as HF.
  { apply Forall_forall. intros s [[Hne _] Hin]%list_elem_of_filter.
    apply list_elem_of_fmap in Hin as (r & -> & _). by apply To4_nonempty. }
  rewrite IPListToOption_eq. split; [by apply chunks4_concat |].
  induction HF as [| s l' Hs _ IH]; [done |]. change (mjoin (s :: l')) with (s ++ mjoin l').
  rewrite length_app, IH, Hs. simpl. lia.
Qed.

(** ** The rounds of a transaction *)
Lemma bootFile_nonempty t d : head (s2b (v1_Path d)) = Some slash → str_empty (bootFile t d) = false.
Proof.
  intros Hp. apply String.eqb_neq. unfold bootFile. destruct (t_ipxeReq t).
  - intros Hb. apply (f_equal s2b) in Hb. unfold URL_String in Hb. rewrite s2b_b2s in Hb. done.
  - intros Hb. apply (f_equal s2b) in Hb. rewrite s2b_b2s in Hb. unfold path_Join in Hb. rewrite s2b_b2s in Hb.
    destruct (s2b (v1_Path d)) as [| c p] eqn:E; [done |].
    change (Join2 (c :: p) ?b) with (Clean ((c :: p) ++ slash :: b)) in Hb.
    rewrite Clean_below in Hb; [| done | apply (bool_decide_unpack _); vm_compute; exact I].
    injection Hp as ->. change (rooted (slash :: p)) with true in Hb. unfold unclean in Hb.
    rewrite reverse_app, reverse_involutive in Hb. cbn [drop] in Hb.
    change (keep (comps (s2b "ipxe/undionly.kpxe"))) with [s2b "ipxe"; s2b "undionly.kpxe"] in Hb.
    destruct (reverse (clean_stack (slash :: p))) as [| x l]; [done |].
    rewrite join_app in Hb by done. by destruct (unpath (x :: l)).
Qed.

Lemma bindImage_world t w d w' : bindImage t w = Ret (d, w') →
  wo_store w' = wo_store w ∧ wo_managers w' = wo_managers w ∧
  match d with
  | Ok d => iw_next (wo_images w') = Datatypes.S (iw_next (wo_images w)) ∧ head (s2b (v1_Path d)) = Some slash
  | Err _ => iw_next (wo_images w') = iw_next (wo_images w)
  end.
Proof.
  unfold bindImage. destruct NewClient; cbn [out_bind]; [| done]. unfold LoadStatesFromConfiguration.
  unfold image_Download. cbn [disk_CustomizationServiceReference str_empty].
  match goal with |- context [Download ?dp ?u ?f] => destruct (Download dp u f) as [[img | e] f'] end; cbn.
  2: { intros [= <- <-]. done. }
  unfold AddTar. destruct (GetHandler _ _ _ _) as [v |] eqn:Eg; cbn [out_bind]; [| done]. intros [= <- <-]. simpl.
  split_and!; try done. unfold GetHandler in Eg. destruct (ipnet_IPNet _); [| done]. by injection Eg as <-.
Qed.

Lemma WriteReply_one rw r ds e : WriteReply WriteTo rw r = Ret (ds, e) → length ds ≤ 1.
Proof.
  revert r. induction rw as [rw | ip rw IH]; intros r; [| apply IH]. simpl. unfold replyWriter_WriteReply.
  destruct (Reply_Validate r); [| intros [= <- <-]; simpl; lia].
  destruct (Reply_ToBytes r) as [[|] |]; [| | done]; intros [= <- <-]; simpl; lia.
Qed.

Lemma load_bootFile req t : t_bootFileName (loadIPXE req (loadPXE req t)) = t_bootFileName t.
Proof. unfold loadIPXE, loadPXE. by repeat case_match. Qed.

(** What images a transaction may still bind. *)
Definition unbound (t : txnState) : nat := if str_empty (t_bootFileName t) then 1 else 0.

Lemma assignBootfile_world t r w t' r' w' : assignBootfile t r w = Ret (t', r', w') →
  wo_store w' = wo_store w ∧ wo_managers w' = wo_managers w ∧
  iw_next (wo_images w') + unbound t' = iw_next (wo_images w) + unbound t.
Proof.
  unfold assignBootfile, unbound. destruct (t_pxeReq t); [| by intros [= <- <- <-]].
  destruct (str_empty (t_bootFileName t)) eqn:Eb; [| intros [= <- <- <-]; by rewrite Eb].
  destruct (bindImage t w) as [[[d | e] w1] |] eqn:E; cbn [out_bind]; [| | done]; apply bindImage_world in E as (H1' & H2' & H3').
  - destruct H3' as [H3' Hd]. intros [= <- <- <-]. rewrite H1', H2', H3'. split_and!; [done | done |].
    cbn [t_bootFileName]. rewrite bootFile_nonempty by done. lia.
  - intros [= <- <- <-]. by rewrite H1', H2', H3', Eb.
Qed.

Lemma txn_WriteReply_world t req rep w t' ds e w' : txn_WriteReply t req rep w = Ret (t', ds, e, w') →
  length ds ≤ 1 ∧ wo_store w' = wo_store w ∧ wo_managers w' = wo_managers w ∧
  iw_next (wo_images w') + unbound t' = iw_next (wo_images w) + unbound t.
Proof.
  unfold txn_WriteReply, fillReply. set (t1 := loadIPXE req (loadPXE req t)).
  assert (unbound t1 = unbound t) as Ht1 by (unfold unbound, t1; by rewrite load_bootFile).
  destruct (assignLease t1 _) as [r1 |]; cbn [out_bind]; [| done].
  destruct (assignBootfile t1 r1 w) as [[[t2 r2] w2] |] eqn:E; cbn [out_bind]; [| done].
  apply assignBootfile_world in E as (W1 & W2 & W3). rewrite Ht1 in W3.
  destruct (req_writer req) as [rw |].
  - destruct (WriteReply _ rw _) as [[ds1 e1] |] eqn:Ew; cbn [out_bind]; [| done]. intros [= <- <- <- <-].
    split; [by eapply WriteReply_one |]. done.
  - intros [= <- <- <- <-]. simpl. split; [lia |]. done.
Qed.

Lemma serve_packets_world reqs : ∀ t w sent sent' w',
  serve_packets t reqs w sent = Ret (sent', w') →
  ∃ out, sent' = sent ++ out ∧ length out ≤ length (filter (λ r, is_Some (reply_to r)) reqs) ∧
  wo_store w' = wo_store w ∧ wo_managers w' = wo_managers w ∧
  iw_next (wo_images w') ≤ iw_next (wo_images w) + unbound t.
Proof.
  induction reqs as [| req reqs IH]; intros t w sent sent' w'; cbn [serve_packets].
  { intros [= <- <-]. exists []. rewrite app_nil_r. split_and!; simpl; [done | lia | done | done | lia]. }
  rewrite filter_cons. destruct (reply_to req) as [rep |].
  2: { rewrite decide_False by (intros []; done). apply IH. }
  rewrite decide_True by eauto. destruct (txn_WriteReply t req rep w) as [[[[t1 ds] e] w1] |] eqn:E; cbn [out_bind]; [| done].
  apply txn_WriteReply_world in E as (L & W1 & W2 & W3). destruct e as [e |].
  - intros [= <- <-]. exists ds. split_and!; [done | simpl; lia | done | done | lia].
  - intros (out & -> & L' & W1' & W2' & W3')%IH. exists (ds ++ out). rewrite W1', W2', (assoc_L (++)), length_app.
    split_and!; [done | simpl; lia | done | done | lia].
Qed.

(** C6: a transaction asks the store for a lease with its first packet only:
    when that fails nothing is sent.  Otherwise it sends at most one datagram for
    each DISCOVER or REQUEST, none for the others, and binds at most one image,
    and neither the store nor the lease managers change again. *)
Theorem ServeTxn_spec (req : Request) (reqs : list Request) (w w1 : World) (r : res txnState) (sent : list datagram) (w' : World) :
  newTxn req w = Ret (r, w1) → ServeTxn (req :: reqs) w = Ret (sent, w') →
  match r with
  | Err _ => sent = [] ∧ w' = w1
  | Ok t =>
      length sent ≤ length (filter (λ r, is_Some (reply_to r)) (req :: reqs)) ∧
      wo_store w' = wo_store w1 ∧ wo_managers w' = wo_managers w1 ∧
      iw_next (wo_images w') ≤ iw_next (wo_images w1) + 1
  end.
Proof.
  unfold ServeTxn. intros ->. cbn [out_bind]. destruct r as [t | e]; [| by intros [= <- <-]].
  intros (out & -> & L & W1 & W2 & W3)%serve_packets_world. split_and!; [done | done | done |].
  unfold unbound in W3. destruct (str_empty _); lia.
Qed.
End txn.

(** ** The server ([slingshot/server.go], and starting [slingshot/dhcp/server.go])

    [listen] is the operating system's answer to listening on an address.  A
    connection that could not be made leaves a nil pointer in the interface. *)
Inductive dhcpConn := NoConn | NilConn | OpenConn (local : string) | ClosedConn (local : string).

(* @slingshot/dhcp/server.go:29-36 Server *)
Record DhcpListener := { dl_addr : UDPAddr; dl_addrToListenTo : UDPAddr; dl_addressToBroadcast : UDPAddr; dl_conn : dhcpConn }.
Definition no_addr : UDPAddr := {| UDP_IP := []; UDP_Port := 0 |}.
Definition v4 (a : UDPAddr) : UDPAddr := {| UDP_IP := To4 (UDP_IP a); UDP_Port := UDP_Port a |}.
Definition with_conn (c : dhcpConn) (d : DhcpListener) : DhcpListener :=
  {| dl_addr := dl_addr d; dl_addrToListenTo := dl_addrToListenTo d; dl_addressToBroadcast := dl_addressToBroadcast d; dl_conn := c |}.

(* @slingshot/dhcp/server.go:202-215 NewServer *)
Definition dhcp_NewServer (addr : UDPAddr) : DhcpListener :=
  {| dl_addr := v4 addr; dl_addrToListenTo := no_addr; dl_addressToBroadcast := no_addr; dl_conn := NoConn |}.
(* @slingshot/dhcp/server.go:217-232 MyNewServer *)
Definition dhcp_MyNewServer (addrToBroadcast addrToListenTo : UDPAddr) : DhcpListener :=
  {| dl_addr := addrToListenTo; dl_addrToListenTo := v4 addrToListenTo; dl_addressToBroadcast := v4 addrToBroadcast; dl_conn := NoConn |}.

(* @slingshot/dhcp/server.go:236-256 Server.Run *)
Definition dhcp_Run (listen : UDPAddr → res string) (d : DhcpListener) : DhcpListener * option error :=
  match listen (dl_addrToListenTo d) with
  | Err e => (with_conn NilConn d, Some e)
  | Ok a => (with_conn (OpenConn a) d, None)
  end.

(* @slingshot/dhcp/server.go:259-262 Server.Stop *)
Definition dhcp_Stop (d : DhcpListener) : outcome DhcpListener :=
  match dl_conn d with
  | NoConn => Panic
  | NilConn => Ret d
  | OpenConn a | ClosedConn a => Ret (with_conn (ClosedConn a) d)
  end.

(* @slingshot/dhcp/server.go:265-270 Server.LocalAddr *)
Definition dhcp_LocalAddr (d : DhcpListener) : outcome (option string) :=
  match dl_conn d with
  | NoConn => Ret None
  | NilConn => Panic
  | OpenConn a | ClosedConn a => Ret (Some a)
  end.

Section sling.
Context {S EI : Type} `{Images EI}.

(* @slingshot/server.go:14-19 Server *)
Record Sling := {
  sl_imageHandler : ImageW (E := EI);
  sl_image : ImageServer;
  sl_dhcp : DhcpListener;
  sl_managerFactory : ManagerFactory (S := S)
}.

(** [e] is what the images are read from. *)
(* @slingshot/server.go:21-29 NewServer *)
Definition NewSling (e : EI) (id : string) : Sling :=
  {| sl_imageHandler := newBoundHandler e; sl_image := ImageServer.NewServer IPv4zero;
     sl_dhcp := dhcp_NewServer {| UDP_IP := IPv4zero; UDP_Port := 67 |}; sl_managerFactory := NewManagerFactory id |}.
(* @slingshot/server.go:31-39 MyNewServer *)
Definition MyNewSling (e : EI) (id : string) (addrToBroadcast addrToListenTo : UDPAddr) : Sling :=
  {| sl_imageHandler := newBoundHandler e; sl_image := ImageServer.NewServer IPv4zero;
     sl_dhcp := dhcp_MyNewServer addrToBroadcast addrToListenTo; sl_managerFactory := NewManagerFactory id |}.
Definition with_servers (i : ImageServer) (d : DhcpListener) (s : Sling) : Sling :=
  {| sl_imageHandler := sl_imageHandler s; sl_image := i; sl_dhcp := d; sl_managerFactory := sl_managerFactory s |}.

(* @slingshot/server.go:42-48 Server.ServeRelease *)
Definition ServeRelease {A} (req : Request) (w : A) : A := w.
Definition ServeInform {A} (req : Request) (w : A) : A := w.

Context (listen_udp listen_tcp : IP → Z → res string) (listen : UDPAddr → res string).

(* @slingshot/server.go:97-111 Server.Run *)
Definition Sling_Run (s : Sling) : outcome (Sling * option error) :=
  out_bind (ImageServer.Run listen_udp listen_tcp (sl_image s)) (λ '(i, err),
    match err with
    | Some e => Ret (with_servers i (sl_dhcp s) s, Some e)
    | None =>
        match dhcp_Run listen (sl_dhcp s) with
        | (d, Some e) => out_bind (ImageServer.Stop i) (λ i, Ret (with_servers i d s, Some e))
        | (d, None) => Ret (with_servers i d s, None)
        end
    end).

(* @slingshot/server.go:113-116 Server.Stop *)
Definition Sling_Stop (s : Sling) : outcome Sling :=
  out_bind (ImageServer.Stop (sl_image s)) (λ i, out_bind (dhcp_Stop (sl_dhcp s)) (λ d, Ret (with_servers i d s))).

Definition listening (s : Sling) : list bool :=
  [ls_open (is_tftp (sl_image s)); ls_open (is_http (sl_image s)); match dl_conn (sl_dhcp s) with OpenConn _ => true | _ => false end].

(** A server that was just made. *)
Lemma Sling_Run_from (fresh : Sling) addr :
  sl_image fresh = ImageServer.NewServer IPv4zero → dl_addrToListenTo (sl_dhcp fresh) = addr → dl_conn (sl_dhcp fresh) = NoConn →
  ∃ s err, Sling_Run fresh = Ret (s, err) ∧
  match err with
  | None => listening s = [true; true; true] ∧ sl_managerFactory s = sl_managerFactory fresh
            ∧ (∃ a, listen addr = Ok a ∧ dhcp_LocalAddr (sl_dhcp s) = Ret (Some a))
            ∧ ∃ s', Sling_Stop s = Ret s' ∧ listening s' = [false; false; false]
  | Some _ => listening s = [false; false; false]
  end.
Proof.
  intros Hi Ha Hc. unfold Sling_Run, dhcp_Run. rewrite Hi, Ha. unfold ImageServer.Run, http_Run, tftp_Run.
  destruct (listen_udp _ _) as [u | er]; [| do 2 eexists; split; [done |]; unfold listening; simpl; by rewrite Hc].
  destruct (listen_tcp _ _) as [h | er]; cbn; [| do 2 eexists; split; [done |]; unfold listening; simpl; by rewrite Hc].
  destruct (listen addr) as [a | er] eqn:E; cbn; do 2 eexists; (split; [done |]); cbn; [| done].
  split_and!; [done | done | by exists a | by eexists].
Qed.
Lemma Sling_Run_fresh (e : EI) (id : string) :
  ∃ s err, Sling_Run (NewSling e id) = Ret (s, err) ∧
  match err with
  | None => listening s = [true; true; true] ∧ sl_managerFactory s = NewManagerFactory id
            ∧ (∃ a, listen no_addr = Ok a ∧ dhcp_LocalAddr (sl_dhcp s) = Ret (Some a))
            ∧ ∃ s', Sling_Stop s = Ret s' ∧ listening s' = [false; false; false]
  | Some _ => listening s = [false; false; false]
  end.
Proof. by apply Sling_Run_from. Qed.

(** A new server that is run has all three of its servers listening, or
    reports an error with none of them listening, and one that runs can be
    stopped.  The addresses it listens on for DHCP are those [MyNewServer] was
    given; with [NewServer] it is no address and port 0, not port 67. *)
Theorem Sling_Run_spec (e : EI) (id : string) (bcast addr : UDPAddr) (mine : bool) :
  let fresh := if mine then MyNewSling e id bcast addr else NewSling e id in
  ∃ s err, Sling_Run fresh = Ret (s, err) ∧
  match err with
  | None => listening s = [true; true; true]
            ∧ (∃ a, listen (if mine then v4 addr else no_addr) = Ok a ∧ dhcp_LocalAddr (sl_dhcp s) = Ret (Some a))
            ∧ ∃ s', Sling_Stop s = Ret s' ∧ listening s' = [false; false; false]
  | Some _ => listening s = [false; false; false]
  end.
Proof.
  intros fresh. destruct (Sling_Run_from fresh (if mine then v4 addr else no_addr)) as (s & err & E & Hs); [by destruct mine.. |].
  exists s, err. split; [done |]. destruct err; [done |]. by destruct Hs as (? & _ & ? & ?).
Qed.
End sling.

(** ** Examples: the in-memory store behind one interface *)
#[local] Instance txn_types : GoTypes := one_type DiskCustomizationRequest.
#[local] Instance txn_embeds : Embeds DiskCustomizationRequest := one_embeds DiskCustomizationRequest.
#[local] Instance txn_network : Network TestStore := {| Do := λ req w, (TimedOut, req, w); json_text := λ _, [] |}.
#[local] Instance no_fault_machine : Machine () :=
  {| os_fault := λ _ _ _, (None, ()); os_write := λ _ _, (None, ()); os_now := λ _, 0%Z;
     http_Get := λ _ _ _, (Ok (200%Z, ([], None)), ()) |}.
Definition sample_World : World (W := TestStore) (S := ()) (EI := ()) (EM := ()) :=
  {| wo_store := sample_store; wo_managers := NewManagerFactory "host"; wo_images := newBoundHandler ();
     wo_files := {| cw_ext := (); cw_files := ∅ |} |}.
Definition sample_txn : txnState :=
  {| t_ip := [x0a; x00; x00; x05]; t_subnet := sample_subnet; t_lease := (zero : Lease) <| lease_IP := mkIP [x0a; x00; x00; x07] |>;
     t_configuration := (zero : Configuration) <| conf_Routers := [mkIP (IPv4 x0a x00 x00 x01)] |>;
     t_pxeReq := None; t_ipxeReq := None; t_ipxeRep := None; t_bootFileName := "" |}.
Definition sample_rw : replyWriter :=
  {| rw_addr := {| UDP_IP := [x0a; x00; x00; x07]; UDP_Port := 68 |}; rw_addrBroadcastOverride := no_addr; rw_ifindex := 1 |}.
Definition sample_packet : Packet :=
  {| RawPacket := splice 28 6 [x00; x50; x56; x00; x00; x01] (splice 2 1 [x06] (replicate 240 x00));
     OptMap := {[ OptionDHCPMsgType := [MessageTypeDHCPDiscover] ]}; ifindex := 2 |}.
Definition sample_discover : Request :=
  {| req_packet := sample_packet; req_writer := Some (writeReplyWithServerID [x0a; x00; x00; x05] (plainWriter sample_rw)) |}.
Definition flag : AddressFlag := {| af_host := ""; af_port := "" |}.
Definition two_ids (_ : ()) : string * string := ("a", "b")%string.
Abbreviation sample_fill := (fillReply 0 flag "/tmp" two_ids sortedOptions).

Lemma reply_is_sent_witness :
  ∃ t' b w', txn_WriteReply 0 flag "/tmp" two_ids (λ _, None) sortedOptions sample_txn sample_discover (CreateDHCPOffer sample_discover) sample_World
  = Ret (t', [{| dg_bytes := b; dg_addr := reply_addr sample_rw sample_discover; dg_ifindex := 1 |}], None, w').
Proof.
  destruct (sample_fill sample_txn sample_discover (CreateDHCPOffer sample_discover) sample_World) as [[[t' rep'] w'] |] eqn:E;
    [| vm_compute in E; discriminate E].
  destruct (reply_is_sent 0 flag "/tmp" two_ids (λ _, None) sortedOptions sample_txn sample_discover _ [x0a; x00; x00; x05] sample_rw
    sample_World t' rep' w' eq_refl eq_refl E) as [b Hb].
  by exists t', b, w'.
Defined.

Lemma reply_content_witness :
  ∃ t' rep' w', sample_fill sample_txn sample_discover (CreateDHCPOffer sample_discover) sample_World = Ret (t', rep', w')
  ∧ GetYIAddr (rep_packet rep') = [x0a; x00; x00; x07] ∧ opt OptionRouter rep' = Some [x0a; x00; x00; x01].
Proof.
  destruct (sample_fill sample_txn sample_discover (CreateDHCPOffer sample_discover) sample_World) as [[[t' rep'] w'] |] eqn:E;
    [| vm_compute in E; discriminate E].
  destruct (reply_content 0 flag "/tmp" two_ids sortedOptions sample_txn sample_discover _ sample_World t' rep' w' eq_refl E)
    as (net & _ & _ & _ & R & _ & Y).
  exists t', rep', w'. split; [done |]. split; [by apply Y |]. rewrite R. vm_compute. reflexivity.
Defined.

Lemma ServeTxn_spec_witness :
  ∃ t w1 sent w',
    newTxn sample_list () sample_addrs sample_discover sample_World = Ret (Ok t, w1)
    ∧ ServeTxn 0 flag sample_list () sample_addrs "/tmp" two_ids (λ _, None) sortedOptions [sample_discover; sample_discover] sample_World
      = Ret (sent, w')
    ∧ length sent ≤ 2 ∧ wo_store w' = wo_store w1.
Proof.
  destruct (newTxn sample_list () sample_addrs sample_discover sample_World) as [[[t | e] w1] |] eqn:E1;
    [| vm_compute in E1; discriminate E1 | vm_compute in E1; discriminate E1].
  destruct (ServeTxn 0 flag sample_list () sample_addrs "/tmp" two_ids (λ _, None) sortedOptions [sample_discover; sample_discover] sample_World)
    as [[sent w'] |] eqn:E2; [| vm_compute in E2; discriminate E2].
  destruct (ServeTxn_spec 0 flag sample_list () sample_addrs "/tmp" two_ids (λ _, None) sortedOptions sample_discover [sample_discover]
    sample_World w1 (Ok t) sent w' E1 E2) as (L & Wst & _).
  exists t, w1, sent, w'. split_and!; [done | done | exact L | exact Wst].
Defined.
