(* ===== verification/DhcpWire.v ===== *)
(** A reply on the wire: what a client reads from the datagram that a transaction
    sends ([slingshot/txnstate.go], [godhcpv4/packet.go]).

    The options of every reply fit in the datagram whatever the configuration of the
    client is, so that the client reads all of them but those that are too
    long to be written at all. *)

From S2P Require Import Prelude GoPath GoNet GoJson GoURL DcpCommon DcpUri Operation Client ProvTypes Provisioning.
From S2P Require Import Filecache BootImage SlingTypes Lease Image ImageServer DhcpOption DhcpPacket DhcpServer PxeOptions Txn.
From Stdlib Require Import ZArith Lia.

(** ** How long options are *)
Lemma tlvs_length l : length (tlvs l) = sum_list_with (λ kv, 2 + length kv.2) l.
Proof. induction l as [| [k v] l IH]; [done |]. rewrite tlvs_cons, length_app, length_tlv, IH. simpl. lia. Qed.

(** A bound for each option bounds them all: an option is written once. *)
Lemma written_length (om : OptionMap) order (ks : list byte) (bound : byte → nat) :
  NoDup order → (∀ k v, om !! k = Some v → length v ≤ 255 → k ∈ ks ∧ length v ≤ bound k) →
  length (tlvs (written om order)) ≤ sum_list_with (λ k, 2 + bound k) ks.
Proof.
  intros Hnd Hb. rewrite tlvs_length.
  assert (NoDup (written om order).*1) as Hkeys by (eapply sublist_NoDup; [exact Hnd | apply written_keys]).
  assert (∀ kv, kv ∈ written om order → kv.1 ∈ ks ∧ length kv.2 ≤ bound kv.1) as Hl.
  { intros [k v] (_ & Hk & Hv)%written_elem. by apply Hb. }
  revert Hkeys Hl. generalize (written om order) as l. intros l Hkeys Hl.
  assert (sum_list_with (λ kv, 2 + length kv.2) l ≤ sum_list_with (λ k, 2 + bound k) l.*1) as Hle.
  { assert (Forall (λ kv, length kv.2 ≤ bound kv.1) l) as HF by (apply Forall_forall; intros kv Hkv; by apply Hl). clear Hkeys Hl.
    induction HF as [| kv l' Hkv _ IH]; [done |]. rewrite fmap_cons. cbn [sum_list_with]. lia. }
  assert (l.*1 ⊆+ ks) as Hsub.
  { apply NoDup_submseteq.
    - done.
    - intros k (kv & -> & Hin)%list_elem_of_fmap. by apply Hl. }
  apply submseteq_Permutation in Hsub as [rest Hp]. rewrite Hp, sum_list_with_app. lia.
Qed.

(** ** The fixed part *)
Lemma window_take off n (x y : bytes) m : off + n ≤ m → take m x = take m y → window off n x = window off n y.
Proof.
  intros Hm Heq. unfold window. assert (take (off + n) x = take (off + n) y) as Ht.
  { apply (f_equal (take (off + n))) in Heq. rewrite !take_take in Heq. by replace ((off + n) `min` m) with (off + n) in Heq by lia. }
  apply (f_equal (drop off)) in Ht. by rewrite <- !take_drop_commute in Ht.
Qed.
Lemma window_splice_other off n o m src (dst : bytes) : o + m ≤ length dst → off + n ≤ o ∨ o + m ≤ off ∧ off ≤ length dst →
  window off n (splice o m src dst) = window off n dst.
Proof.
  intros Hl [H1 | [H1 H2]].
  - apply (window_take off n _ _ o H1). by apply splice_take.
  - apply window_drop. by apply splice_drop.
Qed.
Lemma byte_at_window off (p : bytes) b : window off 1 p = [b] → byte_at off p = b.
Proof.
  unfold window, byte_at. intros E. rewrite <- (Nat.add_0_r off), <- lookup_drop. by destruct (drop off p); simplify_eq/=.
Qed.

Ltac other p := unfold p; rewrite window_splice_other by lia.

(** The fixed part of the reply to a request, after the address was set. *)
Lemma NewReply_windows (req : Packet) (ip : IP) : 240 ≤ length (RawPacket req) → GetHLen req = x06 → 
  let p := RawPacket (SetYIAddr (NewReply req) ip) in
  window 0 1 p = [BootReply] ∧ window 2 1 p = [x06] ∧ window 4 4 p = GetXID req ∧ window 28 6 p = GetCHAddr req.
Proof.
  intros Hlen Hh p.
  assert (length (GetXID req) = 4) as Hx by (unfold GetXID, window; rewrite length_take, length_drop; lia).
  assert (length (GetCHAddr req) = 6) as Hc by (unfold GetCHAddr, window; rewrite Hh, length_take, length_drop; cbn; lia).
  assert (∀ off n, off + n ≤ 16 ∨ 20 ≤ off ∧ off ≤ 240 → window off n p = window off n (RawPacket (NewReply req))) as Hp.
  { intros off n Ho. unfold p. cbn [SetYIAddr RawPacket]. apply window_splice_other; rewrite NewReply_length; lia. }
  rewrite !Hp by lia. unfold NewReply. cbn [RawPacket].
  set (p0 := splice 1 1 [x01] _). assert (length p0 = 240) as L0 by done.
  assert (length (splice 2 1 [x06] p0) = 240) as L1 by (rewrite length_splice; lia).
  set (p1 := splice 2 1 [x06] p0) in *.
  assert (length (splice 4 4 (GetXID req) p1) = 240) as L2 by (rewrite length_splice; lia).
  set (p2 := splice 4 4 (GetXID req) p1) in *.
  assert (length (splice 10 2 (GetFlags req) p2) = 240) as L3 by (rewrite length_splice; lia).
  set (p3 := splice 10 2 (GetFlags req) p2) in *.
  assert (length (splice 28 16 (GetCHAddr req) p3) = 240) as L4 by (rewrite length_splice; lia).
  set (p4 := splice 28 16 (GetCHAddr req) p3) in *.
  split_and!.
  - rewrite window_splice_other by lia. other p4. other p3. other p2. other p1. done.
  - rewrite window_splice_other by lia. other p4. other p3. other p2. apply (splice_window 2 1 [x06]); simpl; lia.
  - rewrite window_splice_other by lia. other p4. other p3. unfold window, p2. rewrite <- Hx at 1. apply splice_window; lia.
  - rewrite window_splice_other by lia. unfold window, p4. rewrite <- Hc at 1. apply splice_window; lia.
Qed.

Section wire.
Context `{GoTypes} {W : Type} `{Network W} (now : Z) (dcp : AddressFlag) `{!Embeds DiskCustomizationRequest}.
Context {S : Type} {EI : Type} `{Images EI} {EM : Type} `{Machine EM} (downloadPath : string) (uuid : EM → string * string).
Context (WriteTo : datagram → option error) (order : OptionMap → list byte).
Implicit Types (w : World (W := W) (S := S) (EI := EI) (EM := EM)) (t : txnState).

Abbreviation fill := (fillReply now dcp downloadPath uuid order).
Abbreviation write := (txn_WriteReply now dcp downloadPath uuid WriteTo order).

(** ** The options of a reply *)
Definition reply_keys : list byte :=
  [OptionDHCPMsgType; OptionSubnetMask; OptionRouter; OptionDomainServer; OptionAddressTime; OptionDHCPServerID;
   OptionServerName; OptionBootfileName; OptionIPXEEncapsulation].
Definition reply_bound (k : byte) : nat :=
  if decide (k = OptionDHCPMsgType) then 1
  else if decide (k = OptionSubnetMask) then 16
  else if decide (k ∈ [OptionAddressTime; OptionDHCPServerID]) then 4
  else if decide (k = OptionServerName) then 15
  else 255.

Lemma reply_to_options req rep : reply_to req = Some rep →
  ∃ m, ∀ o, opt o rep = if decide (OptionDHCPMsgType = o) then Some [m] else None.
Proof.
  unfold reply_to. repeat case_decide; intros [= <-]; eexists; intros o; unfold opt; cbn; unfold SetMessageType, SetOption;
    (case_decide as Ho; [subst; by rewrite lookup_insert_eq | by rewrite lookup_insert_ne]).
Qed.

Lemma dec_byte_length b : length (dec_byte b) ≤ 3.
Proof. destruct b; vm_compute; lia. Qed.
Lemma IP_String_length ip : To4 ip ≠ [] → length (s2b (IP_String ip)) ≤ 15.
Proof.
  intros Hip. unfold IP_String. rewrite s2b_b2s, IP_bytes_dotted by done.
  destruct (length_4 _ (To4_nonempty _ Hip)) as (a & b & c & d & ->). unfold dotted.
  pose proof (dec_byte_length a). pose proof (dec_byte_length b). pose proof (dec_byte_length c). pose proof (dec_byte_length d).
  rewrite !length_app. simpl. rewrite !length_app. simpl. rewrite !length_app. simpl. lia.
Qed.

Lemma reply_option_bound t req rep w t' rep' w' net k v :
  reply_to req = Some rep → fill t req rep w = Ret (t', rep', w') →
  ipnet_IPNet (sub_Subnet (t_subnet t)) = Some net → length (IPNet_Mask net) ≤ 16 → To4 (t_ip t) ≠ [] →
  opt k rep' = Some v → k ∈ reply_keys ∧ (length v ≤ 255 → length v ≤ reply_bound k).
Proof.
  intros Hr Hf Hnet Hmask Hip Hk. destruct (reply_to_options _ _ Hr) as [m Hm].
  apply fillReply_shape in Hf as (net' & Hnet' & _ & _ & _ & Hip' & Hrep). rewrite Hnet in Hnet'. injection Hnet' as <-.
  pose proof (IP_String_length _ Hip) as Hname. rewrite <- Hip' in Hname.
  destruct Hrep as [-> | ->]; unfold announce, ips_option, encap_option in *;
    repeat first [rewrite opt_encapsulate in Hk | rewrite opt_set_ips in Hk | rewrite opt_yiaddr in Hk | rewrite opt_set_option in Hk | rewrite Hm in Hk];
    repeat (match type of Hk with context [decide (?a = k)] => destruct (decide (a = k)) as [<- |]; [|] end; cbn [decide] in Hk);
    try done; (split; [apply (bool_decide_unpack _); vm_compute; exact I |]);
    intros Hv; (match goal with |- _ ≤ reply_bound ?k => let n := eval vm_compute in (reply_bound k) in change (reply_bound k) with n end);
    first [exact Hv | injection Hk as <-; simpl; lia].
Qed.

(** With the server's identifier, they take 1078 bytes at most. *)
Lemma reply_fits t req rep ip w t' rep' w' net :
  reply_to req = Some rep → fill t req rep w = Ret (t', rep', w') →
  ipnet_IPNet (sub_Subnet (t_subnet t)) = Some net → length (IPNet_Mask net) ≤ 16 → To4 (t_ip t) ≠ [] →
  let om := SetOption (OptMap (rep_packet rep')) OptionDHCPServerID (To4 ip) in
  no_marker om ∧ om !! OptionOverload = None ∧ length (tlvs (written om (sortedOptions om))) ≤ 1078.
Proof.
  intros Hr Hf Hnet Hmask Hip om.
  assert (∀ k v, om !! k = Some v → k ∈ reply_keys ∧ (length v ≤ 255 → length v ≤ reply_bound k)) as Hbound.
  { intros k v. assert (om !! k = if decide (OptionDHCPServerID = k) then Some (To4 ip) else opt k rep') as -> by apply opt_set_option.
    case_decide as Hk.
    - intros [= <-]. subst k. split; [apply (bool_decide_unpack _); vm_compute; exact I | intros _].
      change (reply_bound OptionDHCPServerID) with 4. destruct (To4_length ip) as [-> | ->]; simpl; lia.
    - by apply (reply_option_bound t req rep w t' rep' w' net). }
  assert (∀ k, k ∉ reply_keys → om !! k = None) as Hnone.
  { intros k Hk. destruct (om !! k) as [v |] eqn:Ek; [| done]. by destruct (Hbound k v Ek). }
  split_and!.
  - split; apply Hnone, (bool_decide_unpack _); vm_compute; exact I.
  - apply Hnone, (bool_decide_unpack _); vm_compute; exact I.
  - etransitivity; [apply (written_length om (sortedOptions om) reply_keys reply_bound (sortedOptions_NoDup om)); naive_solver |].
    vm_compute. lia.
Qed.

Lemma fillReply_raw t req rep w t' rep' w' : reply_to req = Some rep → fill t req rep w = Ret (t', rep', w') →
  RawPacket (rep_packet rep') = RawPacket (SetYIAddr (NewReply (req_packet req)) (To4 (ip_IP (lease_IP (t_lease t))))).
Proof.
  intros Hr Hf. assert (RawPacket (rep_packet rep) = RawPacket (NewReply (req_packet req))) as H0'.
  { unfold reply_to in Hr. repeat case_decide; by simplify_eq. }
  apply fillReply_shape in Hf as (net & _ & _ & _ & _ & _ & Hrep). cbn zeta in Hrep. set (leased := set_yiaddr _ _) in Hrep.
  assert (RawPacket (rep_packet rep') = RawPacket (rep_packet leased)) as ->.
  { destruct Hrep as [-> | ->]; [apply (frame_named order t' _ leased) |]. apply (frame_named order t' _ (announce t' leased)). }
  unfold leased. cbn. destruct (frame_router (conf_Routers (t_configuration t)) rep) as (_ & _ & F3). rewrite F3, H0'. done.
Qed.

(** The datagram of a reply, as its parser reads it. *)
Lemma reply_written t req rep ip rw w t' rep' w' net :
  reply_to req = Some rep → req_writer req = Some (writeReplyWithServerID ip (plainWriter rw)) →
  GetOption (OptMap (req_packet req)) OptionDHCPMaxMsgSize = None →
  fill t req rep w = Ret (t', rep', w') → ipnet_IPNet (sub_Subnet (t_subnet t)) = Some net → length (IPNet_Mask net) ≤ 16 →
  To4 (t_ip t) ≠ [] →
  let r := set_option OptionDHCPServerID (To4 ip) rep' in
  ∃ b p', write t req rep w = Ret (t', [{| dg_bytes := b; dg_addr := reply_addr rw req; dg_ifindex := rw_ifindex rw |}],
                                  WriteTo {| dg_bytes := b; dg_addr := reply_addr rw req; dg_ifindex := rw_ifindex rw |}, w')
    ∧ PacketFromBytes b = Ok p' ∧ OptMap p' = serializable (OptMap (rep_packet r))
    ∧ ∀ off n, off + n ≤ 240 → window off n (RawPacket p')
        = window off n (RawPacket (SetYIAddr (NewReply (req_packet req)) (To4 (ip_IP (lease_IP (t_lease t)))))).
Proof.
  intros Hr Hw Hmax Hf Hnet Hmask Hip r.
  destruct (fillReply_facts _ _ _ _ _ _ _ _ _ _ _ _ Hr Hf) as (_ & _ & _ & Q & L & _).
  pose proof (reply_valid _ _ _ _ _ _ _ _ ip _ _ _ _ Hr Hf) as HV. fold r in HV.
  destruct (reply_fits t req rep ip w t' rep' w' net Hr Hf Hnet Hmask Hip) as (Hmark & Hover & Hfit).
  set (opts := {| maxLen := 0; skipFile := bool_decide (rep_kind r = DHCPNak); skipSName := bool_decide (rep_kind r = DHCPNak) |}).
  assert (∃ b, PacketToBytes (rep_packet r) opts = Ok b) as [b Hb].
  { destruct (PacketToBytes_layout (rep_packet r) opts) as (l0 & l1 & l2 & -> & _); [simpl; lia | by eexists]. }
  destruct (PacketToBytes_fit (rep_packet r) opts b Hb) as (p' & Hp' & Hom & Hraw).
  { exact Hmark. }
  { exact Hover. }
  { change (max_len opts) with 1500%Z. change (OptMap (rep_packet r)) with (SetOption (OptMap (rep_packet rep')) OptionDHCPServerID (To4 ip)). lia. }
  exists b, p'. split.
  { unfold txn_WriteReply. rewrite Hf. cbn [out_bind]. rewrite Hw. cbn [WriteReply]. fold (set_option OptionDHCPServerID (To4 ip) rep'). fold r.
    unfold replyWriter_WriteReply. rewrite HV. unfold Reply_ToBytes. change (rep_req r) with (rep_req rep'). rewrite Q, Hmax.
    fold opts. by rewrite Hb. }
  split; [done |]. split; [done |].
  intros off n Ho. rewrite (window_take off n _ _ 240 Ho Hraw). change (RawPacket (rep_packet r)) with (RawPacket (rep_packet rep')).
  by rewrite (fillReply_raw t req rep w t' rep' w' Hr Hf).
Qed.

(** C5: the client reads from the datagram that is sent everything the reply
    holds, whatever is configured: the datagram answers the client's
    transaction and its hardware address, gives it the leased address, and has
    all of the options but those of more than 255 bytes (more than 63 routers or name
    servers), which are left out.  (The client is one that does not limit the size of
    messages, and its hardware address has six bytes; the server and the lease have
    IPv4 addresses, and the mask at most 16 bytes.) *)
Theorem reply_on_the_wire t req rep ip rw w t' rep' w' net :
  reply_to req = Some rep → req_writer req = Some (writeReplyWithServerID ip (plainWriter rw)) →
  GetOption (OptMap (req_packet req)) OptionDHCPMaxMsgSize = None →
  240 ≤ length (RawPacket (req_packet req)) → GetHLen (req_packet req) = x06 →
  fill t req rep w = Ret (t', rep', w') → ipnet_IPNet (sub_Subnet (t_subnet t)) = Some net → length (IPNet_Mask net) ≤ 16 →
  To4 (t_ip t) ≠ [] → To4 (ip_IP (lease_IP (t_lease t))) ≠ [] →
  let fits (v : option bytes) := v ← v; if decide (length v ≤ 255) then Some v else None in
  ∃ b p', let d := {| dg_bytes := b; dg_addr := reply_addr rw req; dg_ifindex := rw_ifindex rw |} in
    write t req rep w = Ret (t', [d], WriteTo d, w') ∧ PacketFromBytes b = Ok p' ∧
    byte_at 0 (RawPacket p') = BootReply ∧ GetXID p' = GetXID (req_packet req) ∧ GetCHAddr p' = GetCHAddr (req_packet req) ∧
    GetYIAddr p' = To4 (ip_IP (lease_IP (t_lease t))) ∧
    OptMap p' !! OptionDHCPServerID = Some (To4 ip) ∧ OptMap p' !! OptionSubnetMask = Some (IPNet_Mask net) ∧
    GetDuration (OptMap p') OptionAddressTime = Some (1200 * Second)%Z ∧
    OptMap p' !! OptionRouter = fits (ips_option (conf_Routers (t_configuration t)) None) ∧
    ∀ o, o ≠ OptionDHCPServerID → OptMap p' !! o = fits (opt o rep').
Proof.
  intros Hr Hw Hmax Hreq Hhlen Hf Hnet Hmask Hip Hlease fits.
  destruct (fillReply_facts _ _ _ _ _ _ _ _ _ _ _ _ Hr Hf) as (net' & Hnet' & _ & _ & _ & _ & T & M & R & _ & Y).
  rewrite Hnet in Hnet'. injection Hnet' as <-. specialize (Y Hlease).
  destruct (reply_written t req rep ip rw w t' rep' w' net Hr Hw Hmax Hf Hnet Hmask Hip) as (b & p' & Hsent & Hp' & Hom & Hwin).
  set (r := set_option OptionDHCPServerID (To4 ip) rep') in *.
  assert (∀ o, OptMap (rep_packet r) !! o = if decide (OptionDHCPServerID = o) then Some (To4 ip) else opt o rep') as Hopt
    by (intros o; apply opt_set_option).
  set (om := OptMap (rep_packet r)) in *. exists b, p'. split; [exact Hsent |].
  destruct (NewReply_windows (req_packet req) (To4 (ip_IP (lease_IP (t_lease t)))) Hreq Hhlen) as (W0 & W2 & W4 & W28).
  assert (byte_at 2 (RawPacket p') = x06) as H6 by (apply byte_at_window; by rewrite Hwin by lia).
  assert (∀ o, OptMap p' !! o = fits (if decide (OptionDHCPServerID = o) then Some (To4 ip) else opt o rep')) as Hall.
  { intros o. rewrite Hom, <- Hopt. unfold serializable, fits. fold om. destruct (om !! o) as [v |] eqn:Eo; cbn.
    - case_decide as Hv; [by apply map_lookup_filter_Some | apply map_lookup_filter_None; right].
      intros v' Ev. change (om !! o = Some v') in Ev. rewrite Eo in Ev. by injection Ev as <-.
    - apply map_lookup_filter_None. by left. }
  split; [done |]. split; [apply byte_at_window; by rewrite Hwin by lia |]. split; [unfold GetXID; by rewrite Hwin by lia |].
  split; [unfold GetCHAddr at 1, GetHLen; rewrite H6; by rewrite Hwin by (vm_compute; lia) |].
  split; [rewrite <- Y; unfold GetYIAddr; rewrite Hwin by lia; by rewrite (fillReply_raw t req rep w t' rep' w' Hr Hf) |].
  rewrite !Hall. unfold opt in M, R, T |- *. split_and!.
  - rewrite decide_True by done. unfold fits. cbn. rewrite decide_True; [done |]. destruct (To4_length ip) as [-> | ->]; simpl; lia.
  - rewrite decide_False by done. rewrite M. unfold fits. cbn. rewrite decide_True by lia. done.
  - unfold GetDuration, GetUint32, GetUint, GetOption. rewrite Hall, decide_False by done. unfold opt. rewrite T. done.
  - rewrite decide_False by done. by rewrite R.
  - intros o Ho. rewrite Hall, decide_False; [done | congruence].
Qed.
End wire.

(** ** Examples: an offer with more routers than an option holds *)
#[local] Existing Instances txn_types txn_embeds txn_network no_fault_machine.
Definition crowded_txn : txnState :=
  sample_txn <| t_configuration := (zero : Configuration) <| conf_Routers := replicate 64 (mkIP (IPv4 x0a x00 x00 x01)) |>
    <| conf_NameServers := [mkIP (IPv4 x0a x00 x00 x02)] |> |>.

Lemma reply_on_the_wire_witness :
  ∃ b p' t' w', txn_WriteReply 0 flag "/tmp" two_ids (λ _, None) sortedOptions crowded_txn sample_discover (CreateDHCPOffer sample_discover) sample_World
    = Ret (t', [{| dg_bytes := b; dg_addr := reply_addr sample_rw sample_discover; dg_ifindex := 1 |}], None, w')
  ∧ PacketFromBytes b = Ok p' ∧ GetYIAddr p' = [x0a; x00; x00; x07] ∧ OptMap p' !! OptionRouter = None
  ∧ OptMap p' !! OptionDomainServer = Some [x0a; x00; x00; x02].
Proof.
  destruct (fillReply 0 flag "/tmp" two_ids sortedOptions crowded_txn sample_discover (CreateDHCPOffer sample_discover) sample_World)
    as [[[t' rep'] w'] |] eqn:E; [| vm_compute in E; discriminate E].
  assert (opt OptionDomainServer rep' = Some [x0a; x00; x00; x02]) as Hdns.
  { assert (match fillReply 0 flag "/tmp" two_ids sortedOptions crowded_txn sample_discover (CreateDHCPOffer sample_discover) sample_World with
      | Ret (_, r, _) => bool_decide (opt OptionDomainServer r = Some [x0a; x00; x00; x02]) | Panic => false end = true) as Hc by (vm_compute; reflexivity).
    rewrite E in Hc. by apply bool_decide_eq_true in Hc. }
  destruct (reply_on_the_wire 0 flag "/tmp" two_ids (λ _, None) sortedOptions crowded_txn sample_discover (CreateDHCPOffer sample_discover)
    [x0a; x00; x00; x05] sample_rw sample_World t' rep' w' sample_net) as (b & p' & Hw & Hp & _ & _ & _ & Hy & _ & _ & _ & Hr & Ho);
    [reflexivity | reflexivity | vm_compute; reflexivity | apply (bool_decide_unpack _); vm_compute; exact I | vm_compute; reflexivity
    | exact E | vm_compute; reflexivity | apply (bool_decide_unpack _); vm_compute; exact I | vm_compute; discriminate | vm_compute; discriminate |].
  exists b, p', t', w'. split; [exact Hw |]. split; [exact Hp |]. split; [exact Hy |]. split; [rewrite Hr; vm_compute; reflexivity |].
  rewrite (Ho OptionDomainServer) by discriminate. rewrite Hdns. reflexivity.
Defined.
