(* ===== verification/BootFlow.v ===== *)
(** Booting over the network, end to end: what a DHCP reply names as boot file
    ([slingshot/txnstate.go]) is a file of the image that was downloaded for the
    client and bound to its lease ([slingshot/image]), and a client that asks the
    TFTP server for it is given that file, whatever other clients do meanwhile,
    as long as the downloaded archive stays as it is.

    The theorems compose the lemmas of [Txn], [Binding] and [TftpTransfer]. *)

From S2P Require Import Prelude GoPath GoNet GoJson GoURL DcpCommon DcpUri Operation Client ProvTypes Provisioning.
From S2P Require Import Filecache BootImage SlingTypes Lease Tftp TftpPacket TftpServer TftpTransfer Image Binding ImageServer.
From S2P Require Import DhcpOption DhcpPacket DhcpServer PxeOptions Txn.
From Stdlib Require Import ZArith Lia.

(** ** The name of the boot file *)
Lemma imgPath_Join l l1 name : mac_HardwareAddr (lease_MAC l) ≠ [] → To4 (ip_IP (lease_IP l)) ≠ [] →
  l1 ≠ [] → Forall real l1 → s2b name = unpath l1 → path_Join (imgPath l) name = imgPath l +:+ "/" +:+ name.
Proof.
  intros Hm Hi Hne Hl Hn. pose proof (mac_bytes_real _ Hm) as Hmr. pose proof (dotted_real _ (To4_nonempty _ Hi)) as Hdr.
  apply (inj s2b). unfold path_Join. rewrite s2b_b2s, !s2b_app, imgPath_bytes, Hn by done.
  set (m := mac_bytes _) in *. set (d := dotted _) in *.
  assert (slash :: unpath (m :: d :: l1) = (slash :: m ++ slash :: d) ++ slash :: unpath l1) as Eq.
  { rewrite !join_cons by done. by rewrite <- app_comm_cons, <- (assoc_L (++)), <- app_comm_cons. }
  unfold Join2. change (s2b "/" ++ unpath l1) with (slash :: unpath l1). rewrite <- app_comm_cons. rewrite app_comm_cons, <- Eq.
  apply Clean_abs; [done |]. apply Forall_cons; split; [done |]. by apply Forall_cons.
Qed.

(** A slash in front of the name makes no difference to the handler. *)
Lemma match_bound_slash f : head f ≠ Some slash → match_bound (slash :: f) = match_bound f.
Proof.
  intros Hf. unfold match_bound. rewrite decide_True by done. destruct f as [| c f]; [done |].
  rewrite decide_False; [done |]. intros ->. by apply Hf.
Qed.
Lemma match_bound_relative l rest : mac_HardwareAddr (lease_MAC l) ≠ [] → To4 (ip_IP (lease_IP l)) ≠ [] →
  match_bound (drop 1 (s2b (imgPath l +:+ rest))) = match_bound (s2b (imgPath l +:+ rest)).
Proof.
  intros Hm Hi. rewrite s2b_app, imgPath_bytes by done. cbn [app drop]. symmetry. apply match_bound_slash.
  pose proof (mac_bytes_real _ Hm) as (Hne & _ & _ & Hs). destruct (mac_bytes _) as [| c m]; [done |].
  simpl. intros [= ->]. set_solver.
Qed.

(** The characters of addresses are not escaped in an URL. *)
Lemma hex_byte_plain b : Forall (λ c, shouldEscape encodePath c = false) (hex_byte b).
Proof. destruct b; by repeat constructor. Qed.
Lemma mac_bytes_plain hw : Forall (λ c, shouldEscape encodePath c = false) (mac_bytes hw).
Proof.
  induction hw as [| b hw IH]; [constructor |]. destruct hw as [| b' hw]; [apply hex_byte_plain |].
  change (mac_bytes (b :: b' :: hw)) with (hex_byte b ++ colon :: mac_bytes (b' :: hw)).
  apply Forall_app. split; [apply hex_byte_plain | by constructor].
Qed.
Lemma dec_byte_unescaped b : Forall (λ c, shouldEscape encodePath c = false ∧ shouldEscape encodeHost c = false) (dec_byte b).
Proof. destruct b; by repeat constructor. Qed.
Lemma dotted_unescaped ip : length ip = 4 →
  Forall (λ c, shouldEscape encodePath c = false ∧ shouldEscape encodeHost c = false) (dotted ip).
Proof.
  intros (a & b & c & d & ->)%length_4. unfold dotted.
  do 3 (apply Forall_app; split; [apply dec_byte_unescaped |]; apply Forall_cons; split; [done |]). apply dec_byte_unescaped.
Qed.

(** An URL whose host and path need no escapes. *)
Lemma tftp_URL_bytes host p : escape encodeHost host = host → escape encodePath (slash :: p) = slash :: p →
  URL_bytes (empty_URL <| u_Scheme := s2b "tftp" |> <| u_Host := host |> <| u_Path := slash :: p |>) = s2b "tftp://" ++ host ++ slash :: p.
Proof.
  intros Hh Hp. set (u := _ <| u_Path := _ |>).
  assert (EscapedPath u = slash :: p) as HE.
  { unfold EscapedPath. change (u_RawPath u) with ([] : bytes). change (u_Path u) with (slash :: p).
    cbn [negb bool_decide andb]. rewrite bool_decide_true by done. cbn [negb andb]. by rewrite decide_False. }
  unfold URL_bytes. rewrite HE. change (u_Scheme u) with (s2b "tftp"). change (u_Host u) with host.
  change (u_Opaque u) with ([] : bytes). change (u_User u) with (@None (bytes * option bytes)).
  change (u_RawQuery u) with ([] : bytes). change (u_Fragment u) with ([] : bytes).
  rewrite Hh. rewrite (decide_False (P := s2b "tftp" = [])) by done. rewrite (decide_False (P := ([] : bytes) ≠ [])) by by intros [].
  rewrite (decide_True (P := s2b "tftp" ≠ [] ∨ host ≠ [] ∨ is_Some None)) by by left.
  rewrite decide_False by naive_solver. rewrite !decide_True by done. rewrite !app_nil_r. done.
Qed.

Section boot.
Context `{GoTypes} {W : Type} `{Network W} (now : Z) (dcp : AddressFlag) `{!Embeds DiskCustomizationRequest}.
Context {S : Type} {EI : Type} `{Images EI} {EM : Type} `{Machine EM} (downloadPath : string) (uuid : EM → string * string).
Context (order : OptionMap → list byte).
(** The archive that is in a file ([archive/tar]). *)
Context (untar : bytes → archive).
Implicit Types (w : World (W := W) (S := S) (EI := EI) (EM := EM)) (t : txnState).

Abbreviation fill := (fillReply now dcp downloadPath uuid order).

(** The image a client boots from: where its archive was downloaded to. *)
Definition downloaded t w (img : string) (x : W) (f : CacheW EM) : Prop :=
  ∃ cs ds, LoadStatesFromConfiguration uuid (cw_ext (wo_files w)) (t_configuration t) = Ok (cs, ds)
  ∧ image_Download now dcp downloadPath Background cs ds (wo_store w) (wo_files w) = Ret (Ok img, x, f).

Lemma bindImage_AddTar t w d w' : bindImage now dcp downloadPath uuid t w = Ret (Ok d, w') →
  ∃ img x f, downloaded t w img x f
  ∧ AddTar (t_ip t) (t_subnet t) (t_lease t) (t_configuration t) img (wo_images w) = Ret (Ok d, wo_images w').
Proof.
  unfold bindImage, downloaded. destruct NewClient; cbn [out_bind]; [| done].
  destruct (LoadStatesFromConfiguration _ _ _) as [[cs ds] | e]; [| done].
  destruct (image_Download _ _ _ _ _ _ _ _) as [[[[img | e] x] f] |] eqn:Ed; cbn [out_bind]; [| done | done].
  destruct (AddTar _ _ _ _ _ _) as [[d0 iw] |] eqn:Ea; cbn [out_bind]; [| done]. intros [= -> <-]. simpl in *.
  exists img, x, f. split; [by exists cs, ds | done].
Qed.

(** What a transaction knows about its client, with the options of a request. *)
Definition load (req : Request) t : txnState := loadIPXE req (loadPXE req t).
Lemma load_frame req t : t_configuration (load req t) = t_configuration t ∧ t_lease (load req t) = t_lease t ∧
  t_subnet (load req t) = t_subnet t ∧ t_ip (load req t) = t_ip t ∧ t_bootFileName (load req t) = t_bootFileName t ∧
  (is_Some (t_pxeReq t) → is_Some (t_pxeReq (load req t))).
Proof. unfold load, loadIPXE, loadPXE. repeat case_match; split_and!; done || by intros []. Qed.

(** ** The options that name the boot file *)
Lemma opt_named o t l r : o ≠ OptionIPXEEncapsulation → o ≠ OptionDomainServer →
  opt o (encapsulate order t (set_ips OptionDomainServer l r)) = opt o r.
Proof. intros Ha Hb. rewrite opt_encapsulate, decide_False by done. by rewrite opt_set_ips, decide_False. Qed.
Lemma opt_announce o t r :
  opt o (announce t r) = if decide (OptionBootfileName = o) then Some (s2b (t_bootFileName t))
    else if decide (OptionServerName = o) then Some (s2b (IP_String (t_ip t))) else opt o r.
Proof. unfold announce. by rewrite !opt_set_option. Qed.
Lemma opt_leased o t req rep r : reply_to req = Some rep → o ≠ OptionDHCPMsgType → o ≠ OptionRouter → o ≠ OptionSubnetMask → o ≠ OptionAddressTime →
  assignLease t (assignRouter t rep) = Ret r → opt o r = None.
Proof.
  intros Hr Ha Hb Hc Hd (net & _ & ->)%assignLease_spec. apply reply_to_spec in Hr as (_ & _ & Hnone & _).
  rewrite opt_yiaddr, !opt_set_option, !decide_False by done. unfold assignRouter. rewrite opt_set_ips, decide_False by done. by apply Hnone.
Qed.

(** A reply names a boot file only to a PXE client, and then also the server;
    the file is that of the image it binds, or the one it named before. *)
Lemma fillReply_boot t req rep w t' rep' w' name :
  reply_to req = Some rep → fill t req rep w = Ret (t', rep', w') → opt OptionBootfileName rep' = Some name →
  is_Some (t_pxeReq (load req t)) ∧ name = s2b (t_bootFileName t') ∧
  opt OptionServerName rep' = Some (s2b (IP_String (t_ip t))) ∧
  if str_empty (t_bootFileName t) then
    ∃ d, bindImage now dcp downloadPath uuid (load req t) w = Ret (Ok d, w') ∧ t' = (load req t) <| t_bootFileName := bootFile (load req t) d |>
  else w' = w ∧ t' = load req t.
Proof.
  intros Hr. pose proof (load_frame req t) as (_ & _ & _ & Hip & Hboot & _). unfold fillReply. fold (load req t). set (t1 := load req t) in *.
  destruct (assignLease t1 _) as [r1 |] eqn:E1; cbn [out_bind]; [| done].
  pose proof (opt_leased OptionBootfileName _ _ _ _ Hr ltac:(done) ltac:(done) ltac:(done) ltac:(done) E1) as Hnone.
  assert (∀ t2 r2, opt OptionBootfileName (encapsulate order t2 (assignNameServer t2 r2)) = opt OptionBootfileName r2
    ∧ opt OptionServerName (encapsulate order t2 (assignNameServer t2 r2)) = opt OptionServerName r2) as Hnamed.
  { intros t2 r2. by split; apply opt_named. }
  unfold assignBootfile. destruct (t_pxeReq t1) as [o |]; [| cbn [out_bind]; intros [= <- <- <-]; rewrite (proj1 (Hnamed _ _)); congruence].
  rewrite Hboot. destruct (str_empty (t_bootFileName t)).
  - destruct (bindImage now dcp downloadPath uuid t1 w) as [[[d | e] w1] |]; cbn [out_bind]; [| | done]; intros [= <- <- <-];
      destruct (Hnamed t1 r1) as [N1 _]; [| congruence].
    clear N1. match goal with |- context [encapsulate order ?t2 _] => destruct (Hnamed t2 (announce t2 r1)) as [N1 N2] end. rewrite N1, N2, !opt_announce.
    intros [= <-]. split; [done |]. split; [done |]. split; [simpl; by rewrite <- Hip | by exists d].
  - cbn [out_bind]. intros [= <- <- <-]. destruct (Hnamed t1 (announce t1 r1)) as [N1 N2]. rewrite N1, N2, !opt_announce.
    intros [= <-]. split; [done |]. split; [done |]. split; [by rewrite <- Hip | done].
Qed.

(** Once it named one, it names it in every reply. *)
Lemma fillReply_boot_again t req rep w t' rep' w' :
  reply_to req = Some rep → fill t req rep w = Ret (t', rep', w') → is_Some (t_pxeReq t) → str_empty (t_bootFileName t) = false →
  opt OptionBootfileName rep' = Some (s2b (t_bootFileName t)) ∧ wo_images w' = wo_images w.
Proof.
  intros Hr. pose proof (load_frame req t) as (_ & _ & _ & Hip & Hboot & Hpxe). unfold fillReply. fold (load req t). set (t1 := load req t) in *.
  destruct (assignLease t1 _) as [r1 |]; cbn [out_bind]; [| done]. unfold assignBootfile. intros Hf Hp Hne.
  destruct (Hpxe Hp) as [o Ho]. rewrite Ho, Hboot, Hne in Hf. cbn [out_bind] in Hf. simplify_eq. split; [| done].
  unfold assignNameServer. rewrite opt_named, opt_announce by done. simpl. by rewrite Hboot.
Qed.

(** ** The file that is asked for *)

(** What a client boots: iPXE the script of the image, and a PXE ROM the loader
    that is iPXE. *)
Definition boot_file t : string := match t_ipxeReq t with Some _ => "ipxe" | None => "ipxe/undionly.kpxe" end.

(** What a client asks the server for when it is told a boot file: a PXE ROM
    asks for the name, and iPXE for the path of the URL, with or without its slash. *)
Definition asked t (server : string) (name f : bytes) : Prop :=
  match t_ipxeReq t with
  | Some _ => name = s2b "tftp://" ++ s2b server ++ f ∨ name = s2b "tftp://" ++ s2b server ++ slash :: f
  | None => f = name
  end.

Lemma boot_file_comps t : ∃ l, l ≠ [] ∧ Forall real l ∧ s2b (boot_file t) = unpath l.
Proof.
  unfold boot_file. destruct (t_ipxeReq t).
  - exists [s2b "ipxe"]. split; [done |]. split; [| done]. apply Forall_singleton. apply (bool_decide_unpack _). vm_compute. exact I.
  - exists [s2b "ipxe"; s2b "undionly.kpxe"]. split; [done |]. split; [| done].
    apply (bool_decide_unpack _). vm_compute. exact I.
Qed.

Lemma newline_boot_file t : newline ∉ s2b (boot_file t).
Proof. apply has_false. unfold boot_file. by destruct (t_ipxeReq t). Qed.

Lemma bootFile_eq t s c d :
  GetHandler (t_ip t) s (t_lease t) c = Ret d → To4 (t_ip t) ≠ [] →
  mac_HardwareAddr (lease_MAC (t_lease t)) ≠ [] → To4 (ip_IP (lease_IP (t_lease t))) ≠ [] →
  let f := imgPath (t_lease t) +:+ "/" +:+ boot_file t in
  s2b (bootFile t d) = match t_ipxeReq t with
    | Some _ => s2b "tftp://" ++ s2b (IP_String (t_ip t)) ++ s2b f
    | None => drop 1 (s2b f)
    end.
Proof.
  intros Hd Hip Hm Hi f. destruct (boot_file_comps t) as (l & Hl & Hreal & Hn).
  pose proof (imgPath_Join (t_lease t) l (boot_file t) Hm Hi Hl Hreal Hn) as Hjoin. fold f in Hjoin.
  unfold GetHandler in Hd. destruct (ipnet_IPNet (sub_Subnet s)); [| done]. injection Hd as <-.
  unfold bootFile. cbn [v1_Host v1_Path v1_NextFile]. unfold boot_file in *. destruct (t_ipxeReq t).
  2: { by rewrite Hjoin, s2b_b2s. }
  unfold Image.NextFile. rewrite Hjoin. unfold URL_String. rewrite s2b_b2s.
  assert (IP_bytes (t_ip t) = dotted (To4 (t_ip t))) as Hdot by by apply IP_bytes_dotted.
  pose proof (dotted_real _ (To4_nonempty _ Hip)) as (Hne & _).
  assert (escape encodePath (s2b f) = s2b f) as Hpath.
  { apply escape_id. unfold f. rewrite s2b_app, imgPath_bytes by done.
    apply Forall_app. split; [| by repeat constructor]. constructor; [done |].
    apply Forall_app. split; [apply mac_bytes_plain |]. constructor; [done |].
    eapply Forall_impl; [by apply dotted_unescaped, To4_nonempty |]. by intros ? []. }
  assert (escape encodeHost (s2b (IP_String (t_ip t))) = s2b (IP_String (t_ip t))) as Hhost.
  { apply escape_id. unfold IP_String. rewrite s2b_b2s, Hdot.
    eapply Forall_impl; [by apply dotted_unescaped, To4_nonempty |]. by intros ? []. }
  assert (∃ p, s2b f = slash :: p) as [p Hp] by (eexists; unfold f; by rewrite s2b_app, imgPath_bytes).
  rewrite Hp in *. by apply tftp_URL_bytes.
Qed.

(** Whichever way it asks, the handler looks for the same file of the same image. *)
Lemma asked_bound t s c d f conn iw :
  GetHandler (t_ip t) s (t_lease t) c = Ret d → To4 (t_ip t) ≠ [] →
  mac_HardwareAddr (lease_MAC (t_lease t)) ≠ [] → To4 (ip_IP (lease_IP (t_lease t))) ≠ [] →
  asked t (IP_String (t_ip t)) (s2b (bootFile t d)) f →
  bound_ReadFile conn (b2s f) iw = bound_ReadFile conn (imgPath (t_lease t) +:+ "/" +:+ boot_file t) iw.
Proof.
  intros Hd Hip Hm Hi Ha. pose proof (bootFile_eq t s c d Hd Hip Hm Hi) as Hb. cbv zeta in Hb.
  set (g := imgPath (t_lease t) +:+ "/" +:+ boot_file t) in *.
  assert (f = s2b g ∨ f = drop 1 (s2b g)) as Hf.
  { unfold asked in Ha. destruct (t_ipxeReq t); [| right; congruence]. destruct Ha as [Ha | Ha]; rewrite Hb in Ha.
    - left. apply (inj (app _)) in Ha. by apply (inj (app _)) in Ha.
    - right. apply (inj (app _)) in Ha. apply (inj (app _)) in Ha. by rewrite Ha. }
  unfold bound_ReadFile. rewrite s2b_b2s. destruct Hf as [-> | ->]; [done |].
  unfold g. by rewrite match_bound_relative.
Qed.


(** ** The theorem *)
Context (unicode_lower : bytes → bytes) (range : options → list (bytes * bytes)).

(** A transfer of the file [b] by the server in front of the images in the state
    [iw], to a client that cooperates: when its request is read in time, it
    gets the file, and when the timer of the first read comes before the request, the
    error "timeout". *)
Definition boots_with iw (conn : Conn) (p : packetXRQ) (b : bytes) : Prop :=
  ∀ partial (s : io ImageW) buf evs rest, world s = iw → fresh s → cooperates unicode_lower p initial b buf evs rest →
  (todo s = In buf :: evs →
    ∃ s', serve unicode_lower range (of_handler partial NewHandler) conn s = (Some (Ok tt), s') ∧ todo s' = rest
    ∧ let k := client_run unicode_lower (blksize p initial) new_client (sent s') in TftpTransfer.finished k = true ∧ got k = b)
  ∧ (todo s = Elapsed :: In buf :: evs →
    ∃ s', serve unicode_lower range (of_handler partial NewHandler) conn s = (Some (Err ErrTimeout), s') ∧ todo s' = In buf :: evs
    ∧ sent s' = [packetToWire range (ERROR 0 (s2b "timeout"))]).

Lemma boots_with_read iw conn p b : (Tftp.ReadFile NewHandler conn (b2s (xrq_filename p)) iw).1 = Ok (Ok b) → boots_with iw conn p b.
Proof.
  intros Hread partial s buf evs rest Hs Hfr Hco. destruct (Tftp.ReadFile NewHandler conn (b2s (xrq_filename p)) iw) as [r w2] eqn:E.
  cbn [fst] in Hread. subst. split; intros Ht.
  - destruct (session_file_served unicode_lower range partial NewHandler conn p initial s b buf evs rest w2)
      as (s' & Es & Hr & _ & Hk); [done.. | by exists s'].
  - unfold serve. rewrite (session_timed_out unicode_lower range partial NewHandler conn _ s _ Hfr Ht). by eexists.
Qed.

(** C3: when the first reply of a transaction names a boot file, an archive was
    downloaded and is bound to the lease of the client, and the reply names the
    server too.  A client that then asks this server for what it was told, whatever the other
    clients did in between, gets the loader (from a PXE ROM) or the script (from iPXE)
    of this archive, executed as a template with its own data when the archive has one,
    and every later reply of the transaction names the same file.  This is so as long as
    the file that was downloaded stays as the download left it, that is, what the image
    server opens is the archive in that file; and as TFTP goes, when the request is read
    before the timer of its first read (the client is told "timeout" otherwise), the client
    acknowledges what it is sent, no datagram fails to be sent and the file has at most
    65536 blocks.  (The addresses of the server, and of the lease, are not empty.) *)
Theorem network_boot t req rep w t' rep' w' name :
  reply_to req = Some rep → fill t req rep w = Ret (t', rep', w') → str_empty (t_bootFileName t) = true →
  opt OptionBootfileName rep' = Some name → Binding.reachable (wo_images w) → To4 (t_ip t) ≠ [] →
  mac_HardwareAddr (lease_MAC (t_lease t)) ≠ [] → To4 (ip_IP (lease_IP (t_lease t))) ≠ [] →
  ∃ img x f d, downloaded t w img x f ∧ GetHandler (t_ip t) (t_subnet t) (t_lease t) (t_configuration t) = Ret d
  ∧ opt OptionServerName rep' = Some (s2b (IP_String (t_ip t)))
  ∧ (∀ fi ws iw conn p b, cw_files f !! img = Some fi →
       history (imgPath (t_lease t)) (wo_images w') ws iw → Forall (holds img (untar (f_data fi))) ws →
       asked t' (IP_String (t_ip t)) name (xrq_filename p) → content (untar (f_data fi)) d ("/" +:+ boot_file t') = Ok (Ok b) →
       boots_with iw conn p b)
  ∧ (∀ req2 rep2 w2 t2 rep2' w2', reply_to req2 = Some rep2 → fill t' req2 rep2 w2 = Ret (t2, rep2', w2') →
       opt OptionBootfileName rep2' = Some name ∧ wo_images w2' = wo_images w2).
Proof.
  intros Hr Hf Hnew Hname Hw Hip Hm Hi. destruct (fillReply_boot _ _ _ _ _ _ _ _ Hr Hf Hname) as (Hpxe & -> & Hserver & Hd).
  rewrite Hnew in Hd. destruct Hd as (d & Hbind & Ht'). pose proof (load_frame req t) as (Lc & Ll & Ls & Li & _ & _).
  apply bindImage_AddTar in Hbind as (img & x & f & Hdown & Hadd). rewrite Lc, Ll, Ls, Li in Hadd.
  unfold downloaded in Hdown. rewrite Lc in Hdown. exists img, x, f, d. split; [done |].
  assert (GetHandler (t_ip t) (t_subnet t) (t_lease t) (t_configuration t) = Ret d) as Hg.
  { unfold AddTar in Hadd. destruct (GetHandler _ _ _ _); [| done]. by injection Hadd as ->. }
  split; [done |]. split; [done |].
  assert (t_ip t' = t_ip t ∧ t_lease t' = t_lease t ∧ bootFile t' d = bootFile (load req t) d
    ∧ boot_file t' = boot_file (load req t) ∧ t_bootFileName t' = bootFile (load req t) d ∧ is_Some (t_pxeReq t')) as (Ti & Tl & Tb & Tf & Tn & Tp)
    by (rewrite Ht'; by split_and!).
  split.
  - intros fi ws iw conn p b _ Hh Harch Hasked Hcontent. apply boots_with_read. rewrite <- Hcontent.
    destruct (AddTar_bound _ _ _ _ _ _ _ _ _ _ (reachable_img_inv _ Hw) Hadd Hh) as (_ & Hbound).
    rewrite <- (bound_content _ _ _ d (boot_file t') conn ws iw _ Hbound (history_last _ _ _ _ Hh) Harch Hm Hi (newline_boot_file t')).
    cbn [NewHandler Tftp.ReadFile]. rewrite <- Tl. f_equal. eapply asked_bound; rewrite ?Ti, ?Tl; try done. by rewrite Tb, <- Tn.
  - intros req2 rep2 w2 t2 rep2' w2' Hr2 Hf2. apply (fillReply_boot_again t' req2 rep2 w2 t2 rep2' w2' Hr2 Hf2 Tp).
    rewrite Tn. apply bootFile_nonempty. rewrite (GetHandler_path _ _ _ _ _ Hg). by rewrite imgPath_bytes.
Qed.
End boot.

(** ** Examples: a PXE ROM boots the loader of the archive *)
#[local] Existing Instances txn_types txn_embeds txn_network no_fault_machine.
Definition rom_options : OptionMap :=
  {[ OptionDHCPMsgType := [MessageTypeDHCPDiscover]; OptionClassID := s2b "PXEClient:Arch:00000"; OptionClientSystem := [x00; x00];
     OptionClientNDI := [x01; x02; x01]; OptionUUIDGUID := replicate 17 x00 ]}.
Definition rom_discover : Request :=
  {| req_packet := {| RawPacket := RawPacket sample_packet; OptMap := rom_options; ifindex := 2 |}; req_writer := None |}.
Definition rom_txn : txnState := sample_txn <| t_lease := sample_image_lease |> <| t_subnet := sample_image_subnet |>.
Definition rom_name : bytes := s2b "00:50:56:00:00:01/10.0.0.7/ipxe/undionly.kpxe".
Definition rom_fill := fillReply 0 flag "/tmp" two_ids sortedOptions rom_txn rom_discover (CreateDHCPOffer rom_discover) sample_World.
Definition rom_request : packetXRQ := {| xrq_filename := rom_name; xrq_mode := modeOCTET; xrq_options := ∅ |}.
Definition rom_bytes : bytes := packetToWire map_to_list (RRQ rom_request).
Definition rom_io (w : ImageW (E := ())) : io ImageW := {| todo := [In rom_bytes; ack 1]; sent := []; faults := []; world := w |}.
(** The archive of the examples, whatever the bytes of the file are. *)
Definition rom_untar (b : bytes) : archive := tar_at "a.tar" ().

Lemma rom_cooperates : cooperates id rom_request initial (s2b "loader") rom_bytes [ack 1] [].
Proof.
  split; [vm_compute; reflexivity | vm_compute; reflexivity | vm_compute; discriminate |].
  apply (answers_ack id 1 1 []); [lia | intros b Hb; by apply elem_of_nil in Hb | simpl; lia | vm_compute; reflexivity |].
  apply answers_done. lia.
Qed.
Lemma rom_downloaded img x f : downloaded 0 flag "/tmp" two_ids rom_txn sample_World img x f → ∃ fi, cw_files f !! img = Some fi.
Proof.
  intros (cs & ds & E1 & E2).
  assert (match LoadStatesFromConfiguration two_ids (cw_ext (wo_files sample_World)) (t_configuration rom_txn) with
    | Ok (cs, ds) => match image_Download 0 flag "/tmp" Background cs ds (wo_store sample_World) (wo_files sample_World) with
      | Ret (Ok i, _, f) => bool_decide (is_Some (cw_files f !! i)) | _ => false end
    | Err _ => false end = true) as Hc by (vm_compute; reflexivity).
  rewrite E1 in Hc. rewrite E2 in Hc. by apply bool_decide_eq_true in Hc.
Qed.

Lemma network_boot_witness :
  ∃ t' rep' w' s', rom_fill = Ret (t', rep', w')
  ∧ serve id map_to_list (of_handler [] NewHandler) ZeroConn (rom_io (wo_images w')) = (Some (Ok tt), s')
  ∧ got (client_run id (blksize rom_request initial) new_client (sent s')) = s2b "loader".
Proof.
  assert (match rom_fill with
    | Ret (t', r, _) => bool_decide (opt OptionBootfileName r = Some rom_name) && bool_decide (t_ipxeReq t' = None)
    | Panic => false end = true) as Hc by (vm_compute; reflexivity).
  destruct rom_fill as [[[t' rep'] w'] |] eqn:E; [| discriminate Hc].
  apply andb_prop in Hc as [Hn%bool_decide_eq_true Hx%bool_decide_eq_true].
  destruct (network_boot 0 flag "/tmp" two_ids sortedOptions rom_untar id map_to_list
    rom_txn rom_discover (CreateDHCPOffer rom_discover) sample_World t' rep' w' rom_name)
    as (img & x & f & d & Hd & _ & _ & Hboot & _);
    [reflexivity | exact E | reflexivity | exact Hn | exists (); apply rtc_refl | done | done | done |].
  destruct (rom_downloaded img x f Hd) as [fi Hfi].
  destruct (Hboot fi [wo_images w'] (wo_images w') ZeroConn rom_request (s2b "loader")) with (partial := ([] : bytes))
    (s := rom_io (wo_images w')) (buf := rom_bytes) (evs := [ack 1]) (rest := ([] : list event)) as [Hserved _].
  - exact Hfi.
  - apply history_start.
  - apply Forall_singleton. split; reflexivity.
  - unfold asked. by rewrite Hx.
  - unfold boot_file. rewrite Hx. vm_compute. reflexivity.
  - done.
  - by split.
  - exact rom_cooperates.
  - destruct (Hserved eq_refl) as (s' & Es & _ & _ & Hg). exists t', rep', w', s'. split; [done |]. split; [exact Es | exact Hg].
Defined.
