(* ===== verification/DhcpService.v ===== *)
(** Package [bmp/provisioning/dhcp]: the service that runs the DHCP and image
    server while it is started.

    It is a [MinimalService] with a [HandleStart] and a [HandleDelete].  The
    latter returns an error, so the service is no [DeleteHandler], and what
    arrives at it is refused by [HandleRequest] of [MinimalService] ([Host]):
    nothing of the host stops the server. *)

From S2P Require Import Prelude GoPath GoNet GoJson GoURL DcpCommon DcpUri Operation Provisioning Lease Image ImageServer DhcpOption DhcpPacket Txn.
From Stdlib Require Import ZArith Lia.

(* @bmp/provisioning/dhcp/dhcp_service.go:17-22 ServiceState *)
Record ServiceState := { sst_ServiceDocument : ServiceDocument; sst_ID : string }.
#[export] Instance eta_ServiceState : Eta ServiceState := λ s, {| sst_ServiceDocument := sst_ServiceDocument s; sst_ID := sst_ID s |}.
#[export] Instance zero_ServiceState : Zero ServiceState := {| sst_ServiceDocument := zero; sst_ID := "" |}.
Definition ServiceState_fields : list (field ServiceState) :=
  (embed sst_ServiceDocument (λ x s, s <| sst_ServiceDocument := x |>) <$> ServiceDocument_fields)
  ++ [ plain "ID" sst_ID (λ x s, s <| sst_ID := x |>) JStr dec_string ].
#[export] Instance json_ServiceState : Json ServiceState :=
  {| enc := enc_struct ServiceState_fields; dec := dec_struct "dhcp.ServiceState" ServiceState_fields |}.

Section service.
Context `{GoTypes, !Embeds ServiceState} {S EI : Type} `{Images EI}.
Context (listen_udp listen_tcp : IP → Z → res string) (listen : UDPAddr → res string).

(** The server is a pointer. *)
(* @bmp/provisioning/dhcp/dhcp_service.go:12-15 Service *)
Record Service := { srv_Server : option (Sling (S := S) (EI := EI)) }.
(* @bmp/provisioning/dhcp/dhcp_service.go:24-26 NewService *)
Definition NewService : Service := {| srv_Server := None |}.

(** A body that cannot be decoded is ignored. *)
(* @bmp/provisioning/dhcp/dhcp_service.go:28-43 Service.HandleStart *)
Definition HandleStart (e : EI) (op : Operation) (s : Service) : outcome (Operation * Service) :=
  let '(op, state, _) := DecodeBodyAs op (zero : ServiceState) in
  out_bind (Sling_Run listen_udp listen_tcp listen (NewSling e (sst_ID state))) (λ '(server, err),
    let s := {| srv_Server := Some server |} in
    match err with
    | Some er => Ret (Fail_ er op, s)
    | None => Ret (Complete op, s)
    end).

(* @bmp/provisioning/dhcp/dhcp_service.go:46-50 Service.HandleDelete *)
Definition HandleDelete (op : Operation) (s : Service) : outcome (Operation * Service * option error) :=
  match srv_Server s with
  | None => Panic
  | Some server => out_bind (Sling_Stop server) (λ server, Ret (Complete op, {| srv_Server := Some server |}, None))
  end.

Lemma DecodeBodyAs_result {A} `{Json A, !Embeds A} op (a : A) : op_result (DecodeBodyAs op a).1.1 = op_result op.
Proof.
  unfold DecodeBodyAs, DecodeBody. destruct (st_err _); [done |]. destruct (GetBody op) as [| x | x | x | t v]; cbn; [done | | | done |].
  1, 2: by destruct (Operation.Decode x _).
  by destruct (decide _).
Qed.

(** A DHCP service that is started has its three servers listening and its
    start completed, or its start failed and no server listens, whatever it was
    sent.  The leases it manages are those of the host it was told of; it answers
    DHCP on no address and port 0, not on port 67.  Its handler for deletes stops
    all three. *)
Theorem HandleStart_spec (e : EI) (op : Operation) (s0 : Service) : op_result op = None →
  ∃ op' server, HandleStart e op s0 = Ret (op', {| srv_Server := Some server |}) ∧
  match op_result op' with
  | None => False
  | Some (Some er) => listening server = [false; false; false]
  | Some None => listening server = [true; true; true]
      ∧ sl_managerFactory server = NewManagerFactory (sst_ID (DecodeBodyAs op (zero : ServiceState)).1.2)
      ∧ (∃ a, listen no_addr = Ok a ∧ dhcp_LocalAddr (sl_dhcp server) = Ret (Some a))
      ∧ ∀ d, ∃ server', HandleDelete d {| srv_Server := Some server |} = Ret (Complete d, {| srv_Server := Some server' |}, None)
           ∧ listening server' = [false; false; false]
  end.
Proof.
  intros Hop. unfold HandleStart. pose proof (DecodeBodyAs_result op (zero : ServiceState)) as Hd. rewrite Hop in Hd.
  destruct (DecodeBodyAs op zero) as [[op1 state] er]. simpl in Hd.
  destruct (Sling_Run_fresh (S := S) listen_udp listen_tcp listen e (sst_ID state)) as (server & err & -> & Hs). cbn [out_bind].
  destruct err as [er' |]; eexists _, server; (split; [done |]).
  - unfold Fail_. rewrite Hd. exact Hs.
  - unfold Complete. rewrite Hd. cbn [op_result]. destruct Hs as (H5 & Hm & Ha & server' & Hst & H6).
    split_and!; [done | done | done |]. intros d. exists server'. unfold HandleDelete. cbn [srv_Server]. by rewrite Hst.
Qed.
End service.

(** ** Witness *)
Lemma HandleStart_spec_witness :
  let types := one_type ServiceState in let emb : Embeds ServiceState := one_embeds _ in let op := NewOperation 0 Background in
  ∃ op' server, HandleStart (S := ()) (EI := ()) (λ _ _, Ok "u"%string) (λ _ _, Ok "t"%string) (λ _, Ok "d"%string) () op NewService
    = Ret (op', {| srv_Server := Some server |}) ∧ op_result op' = Some None ∧ listening server = [true; true; true].
Proof.
  intros types emb op.
  destruct (HandleStart_spec (S := ()) (EI := ()) (λ _ _, Ok "u"%string) (λ _ _, Ok "t"%string) (λ _, Ok "d"%string) () op NewService eq_refl)
    as (op' & server & E & Hs). exists op', server. split; [exact E |].
  cbn in E. injection E as <- _. cbn in Hs |- *. split; [reflexivity |]. exact (proj1 Hs).
Defined.
